(* ===== verification/_CoqProject ===== *)
-Q . S2P
Prelude.v
Esr.v
Machine.v
Vcpu.v
Asm.v
Reset.v
World.v
Stage2.v
Vgic.v
Uart.v
Vdev.v
Handlers.v
Vvirtio.v
Vblk.v
BlkQueue.v
Timer.v
Hv.v
Sched.v
Smp.v
Tenants.v
VirtioRun.v
Boot.v
Vectors.v
GuestProg.v
Nano.v
Counters.v
Init.v
A64.v
GuestRun.v
TenantRun.v
DiskRun.v
ConsoleRun.v
SchedRun.v
VirtIrq.v
IrqGuest.v
VirqRun.v
VgicRun.v
