(* ===== verification/Prelude.v ===== *)
(** * A verification development for FermiHV

    FermiHV (src/src/) is an AArch64 hypervisor that runs at EL2 on one physical core
    of QEMU's virt machine.  It boots with no guest, tests its own exception vectors
    and timer, runs a series of demonstrations (round-robin scheduling, virtual
    interrupts, SMP guests, two tenants, virtio devices) and finally boots whichever
    guest kernel the loader has placed in memory.  A guest runs until an exception is
    taken to EL2: a hypercall, a physical interrupt, a trapped system register, or a
    stage-2 fault on a device it believes to have.  The run loop of the demonstration
    decodes the syndrome, lets one of the emulated devices handle it, chooses the next
    vCPU and enters the guest again.

    This development models all of that C code as executable functions and proves it
    correct against every possible behaviour of the guests; it follows the assembly of
    reset, exception vectors and world switch instruction by instruction; and it runs
    the repository's own guest programs (src/guest/, the guests of guest.S that take no
    interrupts and two of those that do) under the modelled hypervisor, those of guest.S
    from their machine code.

    ** The parts and where they are modelled

    - Prelude.v: results and faults, the state monad, C integers of fixed width
      ([wrap], [fits], the operators [.&] and [.|]), arrays with bounds ([aget],
      [aset]), the hint databases [hv] and [cbits], and the generic lemmas.
    - Esr.v: the ESR macros and exception names of exception.h and exception.c, and
      the syndrome fields the handlers of vcpu.c, vgic.c, vdev.c and vvirtio.c decode.
    - Machine.v: byte-addressed physical memory, the processor (general-purpose, FP
      and named system registers), device registers (mmio.h), and the class
      [Platform], the interface to all that is not the hypervisor's code.
    - Vcpu.v: vcpu_t, its layout against vcpu_offsets.h, vcpu_init, the sysreg banks
      and the world switch: the C half of vcpu_run_once with __guest_enter and
      __guest_exit of world.S as functions on the record [vcpu].
    - Asm.v: the AArch64 instructions of the assembly files ([step], [exec]) and
      structures in memory as lists of cells.
    - Reset.v: boot.S.
    - World.v: world.S and the guest-exit stubs of vectors.S on a vcpu_t in memory.
    - Stage2.v: stage2.c, with the architectural table walk [s2_walk].
    - Vgic.v: vgic.c, the emulated GICv3 distributor, redistributors and SGIs.
    - Uart.v: uart.c, the console driver and uart_printf.
    - Vdev.v: vdev.c, the emulated PL011 and mmio_emulate.
    - Handlers.v: the handlers of vcpu.c every run loop shares (vgic_inject,
      psci_handle, cntp_emulate, mmio_zero).
    - Vvirtio.v, Vblk.v: vvirtio.c, the virtio-mmio console and block device with
      their virtqueues in guest memory.
    - BlkQueue.v: the block device against a whole queue of requests: descriptor
      chains as [request]s and their effect on an abstract disk.
    - Timer.v: gic.c and timer.c, the physical GIC and the EL2 timer.
    - Hv.v: the record [hv] of all statics with processor, memory and machine; every
      component's operations lifted to it; the generic [loop] and [reach].
    - Sched.v, Smp.v, Tenants.v, VirtioRun.v: the demonstrations of vcpu.c
      (set-up, loop body, report): scheduling and interrupts; SMP guests; two
      tenants; virtio.
    - Boot.v: the kernel boots of vcpu.c, el2_exception_dispatch of exception.c and
      hv_main of main.c.
    - Vectors.v: the vector table and el2_common of vectors.S around that handler.
    - GuestProg.v: guest programs as sequences of stores, register accesses and
      hypercalls ([prog]), with the stage-1 and stage-2 translation their accesses go
      through, as an instance of [Platform].
    - Nano.v: guest/nano.c.  Counters.v: two counting guests under run_vcpus, on any
      machine that executes guest_counter_entry ([runs_counter]).
    - Init.v: guest/init.c, over the class [Kernel] of Linux kernels.
    - A64.v: the A64 instructions of guest.S: [encode], [decode], the assembler
      ([assemble]), execution ([a64_step], [a64_run]).
    - GuestRun.v: the instance [asm_platform] of [Platform] that fetches and executes
      a guest's instructions from physical memory through stage 2, and the simulation
      that lets a run be computed on the image alone ([trace_run]).
    - TenantRun.v, DiskRun.v, ConsoleRun.v, SchedRun.v: guest_tenant_entry,
      guest_vblk_simple_entry, guest_virtio_entry, and guest_counter_entry with
      guest_vuart_entry, each under its demonstration.
    - VirtIrq.v: the processor's virtual CPU interface (list registers, ICV_IAR1 and
      ICV_EOIR1, running priority), interrupts taken to EL1, eret and the system
      instructions of the interrupt-driven guests; the instance [virq_platform].
    - IrqGuest.v: what such guests share (interface set-up, vector table, handler),
      executed in place, and the hypervisor loops that serve them, through the class
      [TickLoop] of their laws.  VirqRun.v, VgicRun.v: its instances virq_demo with
      guest_virq_entry and vgic_demo with guest_vgic_entry.

    ** How the model corresponds to the code

    Every C function is one definition of the same name, every struct one record.
    Unsigned integers are values of [Z] that fit their width; each operation that can
    wrap is written with [u8] ... [u64].  Pointers into guest memory are addresses of
    the byte map [mem]; the hypervisor's own statics are fields of [hv] and are not
    part of [mem] (a device that reads or writes foreign physical addresses does so in
    [mem]).  What the linker decides - addresses of statics and entry points,
    embedded images - is the record [link].  An access outside a C array is the fault
    [OutOfBounds], or [DiskOverrun] for the backing disk of the block device.

    Code outside the hypervisor is the class [Platform]: one call of [pl_guest] runs a
    guest from eret to its next exception and may change processor, memory and
    machine arbitrarily; the other fields are the physical interrupt controller, the
    counter and device registers.  The class [PlatformOk] states the documented
    behaviour the hypervisor relies on: a guest leaves by a lower-EL vector, registers
    keep their widths, EL1 code cannot write EL2's private registers, the PL011
    becomes ready to transmit, and the redistributor wakes up when told to.  The
    instance [script_ok] shows that it can hold; the scripted machine of Machine.v is
    the one the witnesses run on.

    ** What the theorems show

    - Isolation of tenants: the tables stage2_build_vm writes refine the abstract
      one-block address space ([stage2_build_vm_refines]), two of them never meet
      ([tenants_isolated]), and in every two-tenant configuration this stays true at
      every loop head ([tenants_stay_isolated]); identity tables stay identity tables
      ([stage2_identity_invariant], [fermios_boot_identity]); the emulated devices
      touch only their own VM's state ([vgic_tenants_isolated], [vblk_mmio_isolated],
      [mtenant_vblk_storage]).
    - World switch: transparent to the interrupted guest and without leaks from the
      switched registers ([world_switch_transparent],
      [world_switch_noninterference]); [unswitched_register_leaks] lists the rest.
      The instructions of world.S implement these functions at the struct's offsets and
      return like a C call ([world_asm_refines]).
    - Traps of the hypervisor itself: the frame of vectors.S is built, handled and
      reloaded without a trace ([el2_trap_transparent]); reset reaches hv_main with
      exactly the BSS cleared ([start_reaches_main]).
    - Whole guests: nano boots, turns its MMU on and prints its messages
      ([nano_boots]); init announces itself and beats ([init_heartbeat]).
    - Whole demonstrations, from the guests' machine code to the console:
      [sched_demo_shows] (two counters and a guest whose stores to the UART are
      emulated), [mtenant_demo_shows] (two VMs keep different values at one address),
      [mtenant_virtio_demo_shows] (each VM's message through its own console),
      [mtenant_vblk_demo_shows] (each VM's request on its own disk),
      [virq_demo_shows] (every timer tick becomes one virtual interrupt that the guest
      takes, acknowledges, ends and reports), [vgic_demo_shows] (the same after the guest
      has programmed the emulated distributor).  Each returns from
      every well-formed state with exactly the console text the C code and the guest
      together determine.  The encoding of every instruction used is read back by the
      decoder ([decode_encode]).
    - Device contracts: list-register queue, enable sets, pending SGI sets, PSCI,
      trapped timer registers, UART FIFO, console delivery of the whole transmit
      queue, service of a whole queue of block requests ([vblk_serves_batch]) and their
      write/read round trip, formatted
      printing, drift-free deadlines.
    - Absence of faults and termination: every guarded run ends
      ([guarded_runs_total]), every loop that waits for a guest is safe for as long as
      it waits ([waiting_loops_safe], [linux_vgic_loop_safe]), the EL2 exception
      handler is correct on all inputs ([el2_dispatch_spec]), and hv_main as a whole
      never faults apart from the block device's bound check and gives a result that
      does not depend on the fuel once there is enough ([hv_main_safe]).
    - Scheduling: time slices are shared as the comments say ([smp_sched_demo_fair],
      [weighted_schedule]).
    - Limits of the code, as theorems of the same kind: the wrapping bound check of
      vblk ([vblk_bound_wraps]), redistributor frames that belong to another tenant
      ([vgic_frame_crosses_tenants]), unchecked descriptor addresses
      ([virtio_tx_reads_foreign]), fault-in beyond 39 bits ([stage2_map_beyond_range]).

    ** Fuel and bounds

    Loops over arrays recurse on the array's constant bound.  The virtqueue loops
    have fuel [TX_FUEL] = 65536: the ring indices are uint16_t, so a larger number of
    outstanding entries cannot be expressed.  The digit loop of uart_putdec has fuel
    64 for at most 20 digits.  Busy waiting on a device register uses the patience of
    the platform, which [PlatformOk] says is enough.  A run loop with a guard in the C
    code ([guard++ < N], N between 20000 and 4000000) runs with enough fuel for N
    iterations and is proved to return.  Loops without a guard take the fuel as an
    argument; the theorems about them hold for every loop head ([reach]), so they do
    not depend on it.  For the guests the fuel is counted: nano needs one iteration per
    byte it prints and per interrupt, the counters one round per unit of budget; the
    BSS loop of boot.S one step per eight bytes; slen one step per character.  On the
    machine of GuestRun.v a guest may execute [quantum] instructions before a physical
    interrupt takes the processor; the theorems hold for every quantum of at least 5
    (SchedRun), 11 (TenantRun), 13 (VirqRun, VgicRun), 150 (DiskRun) and 350
    (ConsoleRun), the longest stretch between two exits of the guest (its string-length
    loop in the last two).  The loops of virq_demo and vgic_demo take one turn per
    acknowledged interrupt, per report and per trapped store.

    ** What is not modelled

    Barriers, cache and TLB maintenance, which have no effect on a model with one
    coherent memory; the linker script, whose choices are the records [link] and
    [image]; the other guests of guest.S that take interrupts (guest_ipi_entry,
    guest_smp_entry, guest_tvgic_entry, guest_psci_smp_entry, guest_virtio_irq_entry,
    guest_vblk_entry, guest_vblk_rd_entry, guest_smpgicr_entry), which remain instances
    of the arbitrary guest the theorems quantify over; and the build.  Of the virtual CPU
    interface only what these guests use is modelled: Group 1, one priority group per
    priority, no maintenance interrupts.  An int
    passed to uart_printf is taken to be zero-extended in its argument slot.

    ** Possible extensions

    The remaining interrupt-driven guests of guest.S on the machine of VirtIrq.v, whose
    handlers are variants of the one in IrqGuest.v; virtio_demo with guest_virtio_entry executed in place; longer concrete runs
    of hv_main on scripted machines. *)

From stdpp Require Export base option list numbers strings gmap.
From Stdlib Require Export ZArith Lia Bool.

#[export] Set Default Goal Selector "!".
#[global] Open Scope Z_scope.

(** * Results of a C computation

    A C function either returns a value or runs into a fault.  [OutOfBounds] is
    an array access outside the declared bounds (undefined behaviour in C);
    [DiskOverrun] is such an access to the virtio-blk disk array, kept apart because
    it is the one a guest can provoke; [OutOfFuel] is the artefact of a bounded model
    of a [while] loop: theorems about loops with a bound of their own show that it is
    never reached, and loops that wait for a guest take the fuel as an argument. *)
Inductive fault := OutOfBounds | OutOfFuel | DiskOverrun.

Inductive res (A : Type) := Ok (a : A) | Err (f : fault).
Arguments Ok {A} a.
Arguments Err {A} f.

#[export] Instance res_ret : MRet res := fun _ a => Ok a.
#[export] Instance res_bind : MBind res := fun _ _ k m =>
  match m with Ok a => k a | Err f => Err f end.
#[export] Instance res_fmap : FMap res := fun _ _ g m =>
  match m with Ok a => Ok (g a) | Err f => Err f end.
#[export] Instance fault_eq_dec : EqDecision fault.
Proof. solve_decision. Defined.
#[export] Instance res_eq_dec `{EqDecision A} : EqDecision (res A).
Proof. solve_decision. Defined.

Definition is_ok {A} (r : res A) : Prop := exists a, r = Ok a.

Lemma bind_Ok {A B} (a : A) (k : A -> res B) : (Ok a ≫= k) = k a.
Proof. reflexivity. Qed.
Lemma bind_Err {A B} f (k : A -> res B) : ((Err f : res A) ≫= k) = Err f.
Proof. reflexivity. Qed.

Lemma bind_Ok_inv {A B} (m : res A) (k : A -> res B) b :
  (m ≫= k) = Ok b -> exists a, m = Ok a /\ k a = Ok b.
Proof. destruct m as [a|f]; simpl; intros H; [by exists a | discriminate]. Qed.

Lemma bind_is_ok {A B} (m : res A) (k : A -> res B) :
  is_ok m -> (forall a, m = Ok a -> is_ok (k a)) -> is_ok (m ≫= k).
Proof. intros [a ->] H. simpl. by apply H. Qed.

(** * Stateful computations

    Code that changes a state [S] is a function from the state to a result and
    the new state. *)
Definition st (S A : Type) : Type := S -> res (A * S).

#[export] Instance st_ret {S} : MRet (st S) := fun _ a s => Ok (a, s).
#[export] Instance st_bind {S} : MBind (st S) := fun _ _ k m s =>
  match m s with Ok (a, s) => k a s | Err f => Err f end.

Definition gets {S A} (f : S -> A) : st S A := fun s => Ok (f s, s).
Definition modify {S} (f : S -> S) : st S unit := fun s => Ok (tt, f s).
Definition try_ {S A} (f : S -> res A) : st S A := fun s => a ← f s; Ok (a, s).
Definition update {S} (f : S -> res S) : st S unit := fun s => s ← f s; Ok (tt, s).

(** Run a computation on a part of the state. *)
Definition zoom {S T A} (get : T -> S) (set : T -> S -> T) (m : st S A) : st T A := fun t =>
  match m (get t) with Ok (a, s) => Ok (a, set t s) | Err f => Err f end.

Lemma st_bind_Ok {S A B} (m : st S A) (k : A -> st S B) s a s' :
  m s = Ok (a, s') -> (m ≫= k) s = k a s'.
Proof. intros H. unfold mbind, st_bind. by rewrite H. Qed.
Lemma st_bind_inv {S A B} (m : st S A) (k : A -> st S B) s b s' :
  (m ≫= k) s = Ok (b, s') -> exists a s1, m s = Ok (a, s1) /\ k a s1 = Ok (b, s').
Proof. unfold mbind, st_bind. destruct (m s) as [[a s1]|]; [eauto|done]. Qed.

(** [m] returns from every state satisfying [P], in a state satisfying [Q]. *)
Definition runs {S A} (P : S -> Prop) (m : st S A) (Q : A -> S -> Prop) : Prop :=
  forall s, P s -> exists a s', m s = Ok (a, s') /\ Q a s'.

Lemma runs_bind {S A B} (P : S -> Prop) (Q : A -> S -> Prop) (R : B -> S -> Prop) m k :
  runs P m Q -> (forall a, runs (Q a) (k a) R) -> runs P (m ≫= k) R.
Proof.
  intros Hm Hk s Hs. destruct (Hm s Hs) as (a & s1 & E & HQ).
  rewrite (st_bind_Ok _ _ _ _ _ E). by apply Hk.
Qed.
Lemma runs_ret {S A} (P : S -> Prop) (Q : A -> S -> Prop) a :
  (forall s, P s -> Q a s) -> runs P (mret a : st S A) Q.
Proof. intros H s Hs. exists a, s. eauto. Qed.
Lemma runs_conseq {S A} (P P' : S -> Prop) (Q Q' : A -> S -> Prop) m :
  runs P m Q -> (forall s, P' s -> P s) -> (forall a s, Q a s -> Q' a s) -> runs P' m Q'.
Proof. intros H HP HQ s Hs. destruct (H s (HP s Hs)) as (a & s' & E & Ha). eauto. Qed.

(** * Machine-width integers

    A [w]-bit unsigned C integer is a [Z] in [0, 2^w); every C operation that
    can leave that range is followed by an explicit [wrap]. *)
Definition wrap (w z : Z) : Z := z mod 2 ^ w.
Abbreviation u8 := (wrap 8).
Abbreviation u16 := (wrap 16).
Abbreviation u32 := (wrap 32).
Abbreviation u64 := (wrap 64).

(** Conversion to the signed 32-bit [int] (two's complement, as the compiler does). *)
Definition s32 (z : Z) : Z := wrap 32 (z + 2 ^ 31) - 2 ^ 31.

Definition fits (w z : Z) : Prop := 0 <= z < 2 ^ w.
#[export] Instance fits_dec w z : Decision (fits w z).
Proof. unfold fits. solve_decision. Defined.

Declare Scope c_scope.
Delimit Scope c_scope with C.
Infix ".&" := Z.land (at level 48, left associativity) : c_scope.
Infix ".|" := Z.lor (at level 49, left associativity) : c_scope.
#[global] Open Scope c_scope.

(** The C expression [1UL << n] and the C complement at width [w]. *)
Definition bit (n : Z) : Z := 1 ≪ n.
Definition cnot (w z : Z) : Z := wrap w (Z.lnot z).

#[global] Arguments Z.pow : simpl never.
#[global] Arguments Z.shiftl : simpl never.
#[global] Arguments Z.shiftr : simpl never.
#[global] Arguments Z.land : simpl never.
#[global] Arguments Z.lor : simpl never.
#[global] Arguments Z.lnot : simpl never.
#[global] Arguments Z.modulo : simpl never.
#[global] Arguments Z.div : simpl never.
#[global] Arguments Z.mul : simpl never.
#[global] Arguments Z.add : simpl never.
#[global] Arguments Z.sub : simpl never.
#[global] Arguments Z.testbit : simpl never.
#[global] Arguments Z.of_nat : simpl never.
#[global] Arguments Z.to_nat : simpl never.
#[global] Arguments Z.eqb : simpl nomatch.
#[global] Arguments Z.ltb : simpl nomatch.
#[global] Arguments Z.leb : simpl nomatch.
#[global] Arguments wrap : simpl never.
#[global] Arguments s32 : simpl never.
#[global] Arguments fits_dec : simpl never.
#[global] Arguments decide : simpl never.
#[global] Arguments bit : simpl never.
#[global] Arguments cnot : simpl never.

(** ** Tactics *)
(** Linear arithmetic with [/] and [mod] by constants. *)
Ltac zlia := unfold fits, wrap in *; Z.to_euclidean_division_equations; lia.

(** Closed decidable goals, by evaluating their decision procedure. *)
Ltac closed_dec := apply (bool_decide_eq_true_1 _); vm_compute; reflexivity.

(** A closed [fits]. *)
Ltac fits_const := split; vm_compute; congruence.

Create HintDb hv.
Create Rewrite HintDb cbits.
Create Rewrite HintDb hv.

Lemma fits_wrap w z : 0 <= w -> fits w (wrap w z).
Proof. intros. unfold fits, wrap. apply Z.mod_pos_bound. lia. Qed.
Lemma wrap_fits w z : fits w z -> wrap w z = z.
Proof. intros. by apply Z.mod_small. Qed.
Lemma s32_id z : - 2 ^ 31 <= z < 2 ^ 31 -> s32 z = z.
Proof. intros. unfold s32, wrap. rewrite Z.mod_small; lia. Qed.
Lemma wrap_wrap w z : wrap w (wrap w z) = wrap w z.
Proof. unfold wrap. by rewrite Zmod_mod. Qed.
Lemma wrap_add_l w a b : wrap w (wrap w a + b) = wrap w (a + b).
Proof. unfold wrap. by rewrite Zplus_mod_idemp_l. Qed.
Lemma wrap_add_r w a b : wrap w (a + wrap w b) = wrap w (a + b).
Proof. unfold wrap. by rewrite Zplus_mod_idemp_r. Qed.
Lemma fits_0 w : 0 <= w -> fits w 0.
Proof. unfold fits. lia. Qed.
Lemma fits_mono w w' z : w <= w' -> fits w z -> fits w' z.
Proof. unfold fits. intros ? []. split; [done|]. eapply Z.lt_le_trans; [done|]. apply Z.pow_le_mono_r; lia. Qed.
#[export] Hint Resolve fits_wrap fits_0 : hv.
#[export] Hint Rewrite wrap_wrap wrap_add_l wrap_add_r @bind_Ok @bind_Err : hv.

(** ** Bitwise reasoning *)
Lemma testbit_wrap w z i : 0 <= w -> Z.testbit (wrap w z) i = (i <? w) && Z.testbit z i.
Proof. apply Z.testbit_mod_pow2. Qed.
Lemma testbit_bit n i : 0 <= n -> Z.testbit (bit n) i = (i =? n).
Proof.
  intros. unfold bit. rewrite Z.shiftl_1_l. destruct (Z.eqb_spec i n) as [->|].
  - by apply Z.pow2_bits_true.
  - by apply Z.pow2_bits_false.
Qed.
Lemma testbit_ones n i : 0 <= n -> Z.testbit (Z.ones n) i = (0 <=? i) && (i <? n).
Proof. intros. by rewrite Z.testbit_ones. Qed.
Lemma testbit_fits w z i : fits w z -> w <= i -> Z.testbit z i = false.
Proof.
  intros Hf Hi. rewrite <- (wrap_fits w z Hf).
  destruct (decide (0 <= w)).
  - rewrite testbit_wrap by done. by destruct (Z.ltb_spec i w); [lia|].
  - destruct Hf as [? Hlt]. rewrite Z.pow_neg_r in Hlt; lia.
Qed.
Lemma testbit_cnot w z i :
  0 <= w -> 0 <= i -> Z.testbit (cnot w z) i = (i <? w) && negb (Z.testbit z i).
Proof. intros. unfold cnot. rewrite testbit_wrap by done. by rewrite Z.lnot_spec by done. Qed.

#[export] Hint Rewrite Z.land_spec Z.lor_spec Z.lxor_spec Z.bits_0 : cbits.
#[export] Hint Rewrite testbit_wrap testbit_bit testbit_ones testbit_cnot Z.lnot_spec Z.shiftl_spec
  Z.shiftr_spec using lia : cbits.

(** Decide an equation between [Z]s bit by bit. *)
Ltac bits_split :=
  repeat match goal with
  | |- context [?a =? ?b] => destruct (Z.eqb_spec a b)
  | |- context [?a <? ?b] => destruct (Z.ltb_spec a b)
  | |- context [?a <=? ?b] => destruct (Z.leb_spec a b)
  end.
Ltac bitwise :=
  apply Z.bits_inj'; intros ?i ?Hi; autorewrite with cbits; bits_split;
  simpl; rewrite ?andb_true_r, ?andb_false_r, ?orb_false_r, ?orb_true_r; try lia; try done.

Lemma land_ones_wrap z n : 0 <= n -> (z .& Z.ones n) = wrap n z.
Proof. intros. by apply Z.land_ones. Qed.
Lemma fits_land w a b : 0 <= w -> fits w a -> 0 <= b -> fits w (a .& b).
Proof.
  intros Hw Ha Hb. split; [apply Z.land_nonneg; left; apply Ha|].
  assert (a .& b = wrap w (a .& b)) as ->; [|apply fits_wrap; done].
  apply Z.bits_inj'; intros i Hi. rewrite testbit_wrap, Z.land_spec by done.
  destruct (Z.ltb_spec i w); simpl; [done|]. by rewrite (testbit_fits w a) by done.
Qed.
Lemma fits_lor w a b : 0 <= w -> fits w a -> fits w b -> fits w (a .| b).
Proof.
  intros Hw Ha Hb.
  assert (a .| b = wrap w (a .| b)) as ->; [|apply fits_wrap; done].
  apply Z.bits_inj'; intros i Hi. rewrite testbit_wrap, Z.lor_spec by done.
  destruct (Z.ltb_spec i w); simpl; [done|].
  by rewrite (testbit_fits w a), (testbit_fits w b) by done.
Qed.
Lemma fits_cnot w z : 0 <= w -> fits w (cnot w z).
Proof. intros. by apply fits_wrap. Qed.
Lemma fits_bit w n : 0 <= n < w -> fits w (bit n).
Proof.
  intros. unfold bit. rewrite Z.shiftl_1_l. split; [lia|]. apply Z.pow_lt_mono_r; lia.
Qed.
Lemma fits_shiftr w z n : 0 <= n -> fits w z -> fits w (z ≫ n).
Proof.
  intros Hn [H0 H1]. rewrite Z.shiftr_div_pow2 by done.
  split; [apply Z.div_pos; lia|]. apply Z.div_lt_upper_bound; [lia|]. nia.
Qed.
#[export] Hint Resolve fits_land fits_lor fits_cnot fits_bit fits_shiftr : hv.

(** The test [x & (1 << n)] of a C condition is the bit [n]. *)
Lemma land_bit_test z n : 0 <= n -> negb ((z .& bit n) =? 0) = Z.testbit z n.
Proof.
  intros Hn. destruct (Z.testbit z n) eqn:E.
  - destruct (Z.eqb_spec (z .& bit n) 0) as [H|]; [|done].
    apply (f_equal (fun a => Z.testbit a n)) in H.
    rewrite Z.land_spec, testbit_bit, Z.bits_0, E in H by done.
    by rewrite Z.eqb_refl in H.
  - assert (z .& bit n = 0) as ->; [|done].
    apply Z.bits_inj'; intros i Hi. rewrite Z.land_spec, testbit_bit, Z.bits_0 by done.
    destruct (Z.eqb_spec i n) as [->|]; [by rewrite E | by rewrite andb_false_r].
Qed.

(** * Fixed-size C arrays

    [l] stands for a C array; an index outside it is undefined behaviour and
    yields the fault [OutOfBounds]. *)
Definition len {A} (l : list A) : Z := Z.of_nat (length l).

Definition aget {A} (l : list A) (i : Z) : res A :=
  if decide (0 <= i) then
    match l !! Z.to_nat i with Some a => Ok a | None => Err OutOfBounds end
  else Err OutOfBounds.

Definition aset {A} (l : list A) (i : Z) (a : A) : res (list A) :=
  if decide (0 <= i < len l) then Ok (<[Z.to_nat i := a]> l) else Err OutOfBounds.

Section Arrays.
Context {A : Type}.
Implicit Types (l : list A) (i j : Z) (a b : A).

Lemma aget_ok l i : 0 <= i < len l -> exists a, aget l i = Ok a.
Proof.
  unfold aget, len. intros. rewrite decide_True by lia.
  destruct (lookup_lt_is_Some_2 l (Z.to_nat i)) as [a ->]; [lia|]. by exists a.
Qed.
Lemma aget_inv l i a : aget l i = Ok a -> 0 <= i < len l /\ l !! Z.to_nat i = Some a.
Proof.
  unfold aget, len. intros H. case_decide; [|done].
  destruct (l !! _) eqn:E; [|done]. simplify_eq.
  apply lookup_lt_Some in E as Hl. split; [lia|done].
Qed.
Lemma aget_lookup l i a : 0 <= i -> l !! Z.to_nat i = Some a -> aget l i = Ok a.
Proof. unfold aget. intros ? ->. by rewrite decide_True. Qed.
Lemma aget_oob l i : len l <= i -> aget l i = Err OutOfBounds.
Proof.
  unfold aget, len. intros. case_decide; [|done]. by rewrite lookup_ge_None_2 by lia.
Qed.
Lemma aset_ok l i a : 0 <= i < len l -> aset l i a = Ok (<[Z.to_nat i := a]> l).
Proof. unfold aset. intros. by rewrite decide_True. Qed.
Lemma aset_inv l i a l' :
  aset l i a = Ok l' -> 0 <= i < len l /\ l' = <[Z.to_nat i := a]> l.
Proof. unfold aset. intros. case_decide; by simplify_eq. Qed.
Lemma aset_len l i a l' : aset l i a = Ok l' -> len l' = len l.
Proof. intros [_ ->]%aset_inv. unfold len. by rewrite length_insert. Qed.
Lemma aget_aset_eq l i a l' : aset l i a = Ok l' -> aget l' i = Ok a.
Proof.
  intros [H ->]%aset_inv. unfold len in H. apply aget_lookup; [lia|].
  apply list_lookup_insert_eq. lia.
Qed.
Lemma aget_aset_ne l i j a l' : aset l i a = Ok l' -> i <> j -> aget l' j = aget l j.
Proof.
  intros [H ->]%aset_inv Hne. unfold aget. case_decide; [|done].
  rewrite list_lookup_insert_ne by lia. done.
Qed.
Lemma aget_insert_eq l i a : 0 <= i < len l -> aget (<[Z.to_nat i := a]> l) i = Ok a.
Proof. intros. apply (aget_aset_eq l i). by apply aset_ok. Qed.
Lemma aget_insert_ne l i j a :
  0 <= i -> i <> j -> aget (<[Z.to_nat i := a]> l) j = aget l j.
Proof. intros. unfold aget. case_decide; [|done]. by rewrite list_lookup_insert_ne by lia. Qed.
Lemma len_insert l (n : nat) a : len (<[n := a]> l) = len l.
Proof. unfold len. by rewrite length_insert. Qed.
Lemma aset_app l i a b l' : 
  len l = i -> aset (l ++ b :: l') i a = Ok (l ++ a :: l').
Proof.
  unfold len. intros <-. rewrite aset_ok by (unfold len; rewrite length_app; cbn; lia).
  by rewrite Nat2Z.id, insert_app_r_alt, Nat.sub_diag by lia.
Qed.
Lemma aget_app l i a l' : len l = i -> aget (l ++ a :: l') i = Ok a.
Proof.
  unfold len. intros <-. apply aget_lookup; [lia|]. by rewrite Nat2Z.id, list_lookup_middle.
Qed.
Lemma Forall_aget (P : A -> Prop) l i a : Forall P l -> aget l i = Ok a -> P a.
Proof. intros HF [_ H]%aget_inv. by eapply Forall_lookup_1. Qed.
Lemma Forall_aset (P : A -> Prop) l i a l' :
  Forall P l -> P a -> aset l i a = Ok l' -> Forall P l'.
Proof. intros HF Ha [_ ->]%aset_inv. by apply Forall_insert. Qed.
End Arrays.
#[export] Hint Rewrite @len_insert : hv.

(** Invert every successful bind, array read and array write in the context. *)
Ltac res_inv :=
  repeat match goal with
  | H : (_ ≫= _) = Ok _ |- _ =>
      let a := fresh "a" in let E := fresh "E" in
      apply bind_Ok_inv in H as (a & E & H)
  | H : mret _ = Ok _ |- _ => cbv [mret res_ret] in H
  | H : Ok _ = Ok _ |- _ => injection H as H; subst
  | H : Err _ = Ok _ |- _ => discriminate H
  end.

(** Positions of a ring are distinct. *)
Lemma mod_add_inj n x k k' : 0 <= k < n -> 0 <= k' < n -> (x + k) mod n = (x + k') mod n -> k = k'.
Proof.
  intros Hk Hk' E. assert ((k - k') mod n = 0) as Hz.
  { replace (k - k') with ((x + k) - (x + k')) by lia. rewrite Zminus_mod, E, Z.sub_diag. apply Z.mod_0_l. lia. }
  apply Z.mod_divide in Hz as [q Hq]; [|lia]. destruct (Z.lt_trichotomy q 0) as [|[->|]]; nia.
Qed.
