(* ===== verification/Esr.v ===== *)
(** Exception syndromes (src/src/exception.h and the decoding shared by the
    trap handlers of vcpu.c, vgic.c, vdev.c and vvirtio.c): the [ESR_EC] and
    [ESR_ISS] macros, the exception classes and their names, the fields of a
    data-abort and of a system-register syndrome, and the faulting IPA rebuilt
    from HPFAR_EL2 and FAR_EL2. *)

From S2P Require Import Prelude.

(** * The macros of exception.h *)
Definition ESR_EC (esr : Z) : Z := (esr ≫ 26) .& 0x3F.
Definition ESR_ISS (esr : Z) : Z := esr .& 0x1FFFFFF.

Definition EC_UNKNOWN := 0x00.
Definition EC_WFx := 0x01.
Definition EC_SIMD_FP := 0x07.
Definition EC_HVC64 := 0x16.
Definition EC_SMC64 := 0x17.
Definition EC_SYSREG := 0x18.
Definition EC_IABT_LOW := 0x20.
Definition EC_IABT_CUR := 0x21.
Definition EC_PC_ALIGN := 0x22.
Definition EC_DABT_LOW := 0x24.
Definition EC_DABT_CUR := 0x25.
Definition EC_SP_ALIGN := 0x26.
Definition EC_SERROR := 0x2F.
Definition EC_BRK := 0x3C.

Definition ec_name (ec : Z) : string :=
  if ec =? EC_UNKNOWN then "UNKNOWN"
  else if ec =? EC_WFx then "WFx"
  else if ec =? EC_SIMD_FP then "FP/SIMD-trap"
  else if ec =? EC_HVC64 then "HVC64"
  else if ec =? EC_SMC64 then "SMC64"
  else if ec =? EC_SYSREG then "MSR/MRS-trap"
  else if ec =? EC_IABT_LOW then "IABT-lower"
  else if ec =? EC_IABT_CUR then "IABT-curEL"
  else if ec =? EC_PC_ALIGN then "PC-align"
  else if ec =? EC_DABT_LOW then "DABT-lower"
  else if ec =? EC_DABT_CUR then "DABT-curEL"
  else if ec =? EC_SP_ALIGN then "SP-align"
  else if ec =? EC_SERROR then "SError"
  else if ec =? EC_BRK then "BRK"
  else "?".

Definition vector_name (idx : Z) : string :=
  if (idx =? 0) || (idx =? 1) || (idx =? 2) || (idx =? 3) then "CurEL/SP0"
  else if (idx =? 4) || (idx =? 5) || (idx =? 6) || (idx =? 7) then "CurEL/SPx"
  else if (idx =? 8) || (idx =? 9) || (idx =? 10) || (idx =? 11) then "LowerEL/A64"
  else "LowerEL/A32".

(** * Fields of a syndrome, as the handlers extract them *)
Definition iss_isv (iss : Z) : Z := (iss ≫ 24) .& 1.
Definition iss_sas (iss : Z) : Z := (iss ≫ 22) .& 3.
Definition iss_srt (iss : Z) : Z := (iss ≫ 16) .& 0x1F.
Definition iss_wnr (iss : Z) : Z := (iss ≫ 6) .& 1.

(** System-register trap syndrome (cntp_emulate and the ICC_SGI1R paths). *)
Definition iss_dir (iss : Z) : Z := iss .& 1.
Definition iss_rt (iss : Z) : Z := (iss ≫ 5) .& 0x1F.
Definition iss_op2 (iss : Z) : Z := (iss ≫ 17) .& 7.
Definition iss_crn (iss : Z) : Z := (iss ≫ 10) .& 0xF.
Definition iss_crm (iss : Z) : Z := (iss ≫ 1) .& 0xF.

(** The IPA of a stage-2 abort: [((hpfar >> 4) << 12) | (far & 0xFFF)]. *)
Definition fault_ipa (hpfar far : Z) : Z := u64 ((hpfar ≫ 4) ≪ 12) .| (far .& 0xFFF).

(** * The architectural encodings the macros decode

    Syndromes as the processor builds them (Arm ARM, ESR_EL2): exception class
    in [31:26], IL in 25, and for a data abort ISV/SAS/SSE/SRT/SF/AR and the
    WnR and DFSC fields of the ISS. *)
Definition mk_esr (ec il iss : Z) : Z := (ec ≪ 26) .| ((il ≪ 25) .| iss).
Definition mk_dabt_iss (isv sas sse srt sf ar rest wnr dfsc : Z) : Z :=
  (isv ≪ 24) .| ((sas ≪ 22) .| ((sse ≪ 21) .| ((srt ≪ 16) .| ((sf ≪ 15) .| ((ar ≪ 14) .|
  ((rest ≪ 7) .| ((wnr ≪ 6) .| dfsc))))))).

(** A bit field of a value assembled from disjoint fields. *)
Lemma field_of_lor (w n hi lo : Z) :
  0 <= n -> 0 <= w -> fits w hi -> fits n lo ->
  wrap w (((hi ≪ n) .| lo) ≫ n) = hi.
Proof.
  intros Hn Hw Hhi Hlo. rewrite <- (wrap_fits w hi Hhi) at 2.
  apply Z.bits_inj'; intros i Hi.
  rewrite !testbit_wrap, Z.shiftr_spec, Z.lor_spec, Z.shiftl_spec by lia.
  rewrite (testbit_fits n lo) by (done || lia). rewrite orb_false_r. do 2 f_equal. lia.
Qed.
Lemma fits_field w n hi lo :
  0 <= n -> 0 <= w -> fits w hi -> fits n lo -> fits (w + n) ((hi ≪ n) .| lo).
Proof.
  intros Hn Hw Hhi Hlo. apply fits_lor; [lia| |eapply fits_mono; [|done]; lia].
  unfold fits in *. rewrite Z.shiftl_mul_pow2, Z.pow_add_r by lia. nia.
Qed.
Lemma field_skip w n m hi lo :
  0 <= m -> 0 <= w -> n + w <= m -> 0 <= n ->
  wrap w (((hi ≪ m) .| lo) ≫ n) = wrap w (lo ≫ n).
Proof.
  intros. apply Z.bits_inj'; intros i Hi.
  rewrite !testbit_wrap by lia. destruct (Z.ltb_spec i w); [simpl|done].
  rewrite !Z.shiftr_spec, Z.lor_spec, Z.shiftl_spec by lia.
  rewrite (Z.testbit_neg_r _ (i + n - m)) by lia. done.
Qed.

(** The masks of the macros are low-bit masks. *)
Lemma ESR_EC_wrap esr : ESR_EC esr = wrap 6 (esr ≫ 26).
Proof. unfold ESR_EC. change 0x3F with (Z.ones 6). by rewrite land_ones_wrap. Qed.
Lemma ESR_ISS_wrap esr : ESR_ISS esr = wrap 25 esr.
Proof. unfold ESR_ISS. change 0x1FFFFFF with (Z.ones 25). by rewrite land_ones_wrap. Qed.
Lemma land1_wrap z : (z .& 1) = wrap 1 z.
Proof. change 1 with (Z.ones 1) at 1. by rewrite land_ones_wrap. Qed.
Lemma iss_sas_wrap iss : iss_sas iss = wrap 2 (iss ≫ 22).
Proof. unfold iss_sas. change 3 with (Z.ones 2). by rewrite land_ones_wrap. Qed.
Lemma iss_srt_wrap iss : iss_srt iss = wrap 5 (iss ≫ 16).
Proof. unfold iss_srt. change 0x1F with (Z.ones 5). by rewrite land_ones_wrap. Qed.
Lemma iss_rt_wrap iss : iss_rt iss = wrap 5 (iss ≫ 5).
Proof. unfold iss_rt. change 0x1F with (Z.ones 5). by rewrite land_ones_wrap. Qed.

Lemma iss_srt_range iss : 0 <= iss_srt iss < 32.
Proof. rewrite iss_srt_wrap. apply (fits_wrap 5). lia. Qed.
Lemma iss_rt_range iss : 0 <= iss_rt iss < 32.
Proof. rewrite iss_rt_wrap. apply (fits_wrap 5). lia. Qed.
Lemma ESR_EC_range esr : 0 <= ESR_EC esr < 64.
Proof. rewrite ESR_EC_wrap. apply (fits_wrap 6). lia. Qed.

(** Decoding the syndrome the processor builds for a data abort gives back
    the exception class and the four fields the emulation code consults (ISV,
    SAS, SRT, WnR), whatever the other fields of the syndrome hold. *)
Lemma dabt_syndrome_roundtrip (ec il isv sas sse srt sf ar rest wnr dfsc : Z) :
  fits 6 ec -> fits 1 il -> fits 1 isv -> fits 2 sas -> fits 1 sse -> fits 5 srt ->
  fits 1 sf -> fits 1 ar -> fits 7 rest -> fits 1 wnr -> fits 6 dfsc ->
  let esr := mk_esr ec il (mk_dabt_iss isv sas sse srt sf ar rest wnr dfsc) in
  ESR_EC esr = ec /\ iss_isv (ESR_ISS esr) = isv /\ iss_sas (ESR_ISS esr) = sas /\
  iss_srt (ESR_ISS esr) = srt /\ iss_wnr (ESR_ISS esr) = wnr.
Proof.
  intros Hec Hil Hisv Hsas Hsse Hsrt Hsf Har Hrest Hwnr Hdfsc esr.
  pose proof (fits_field 1 6 wnr dfsc ltac:(lia) ltac:(lia) Hwnr Hdfsc) as F1.
  pose proof (fits_field 7 7 rest _ ltac:(lia) ltac:(lia) Hrest F1) as F2.
  pose proof (fits_field 1 14 ar _ ltac:(lia) ltac:(lia) Har F2) as F3.
  pose proof (fits_field 1 15 sf _ ltac:(lia) ltac:(lia) Hsf F3) as F4.
  pose proof (fits_field 5 16 srt _ ltac:(lia) ltac:(lia) Hsrt F4) as F5.
  pose proof (fits_field 1 21 sse _ ltac:(lia) ltac:(lia) Hsse F5) as F6.
  pose proof (fits_field 2 22 sas _ ltac:(lia) ltac:(lia) Hsas F6) as F7.
  pose proof (fits_field 1 24 isv _ ltac:(lia) ltac:(lia) Hisv F7) as F8.
  pose proof (fits_field 1 25 il _ ltac:(lia) ltac:(lia) Hil F8) as F9.
  assert (ESR_ISS esr = mk_dabt_iss isv sas sse srt sf ar rest wnr dfsc) as ->.
  { rewrite ESR_ISS_wrap. unfold esr, mk_esr.
    rewrite <- (Z.shiftr_0_r (_ .| _)), field_skip, field_skip by lia.
    rewrite Z.shiftr_0_r. by apply wrap_fits. }
  unfold iss_isv, iss_wnr. rewrite ESR_EC_wrap, iss_sas_wrap, iss_srt_wrap, !land1_wrap.
  unfold esr, mk_esr, mk_dabt_iss. split_and!.
  - by apply field_of_lor.
  - by apply field_of_lor.
  - rewrite field_skip by lia. by apply field_of_lor.
  - do 3 rewrite field_skip by lia. by apply field_of_lor.
  - do 7 rewrite field_skip by lia. by apply field_of_lor.
Qed.

(** A translation fault (DFSC 0x04) on a 4-byte store of x5. *)
Lemma dabt_syndrome_roundtrip_witness :
  let esr := mk_esr EC_DABT_LOW 1 (mk_dabt_iss 1 2 0 5 0 0 0 1 4) in
  ESR_EC esr = EC_DABT_LOW /\ iss_isv (ESR_ISS esr) = 1 /\ iss_sas (ESR_ISS esr) = 2 /\
  iss_srt (ESR_ISS esr) = 5 /\ iss_wnr (ESR_ISS esr) = 1.
Proof. apply dabt_syndrome_roundtrip; vm_compute; split; congruence. Defined.

(** The address the handlers rebuild from HPFAR_EL2 (which holds
    IPA[47:12] in bits [39:4]) and from the page offset of FAR_EL2 is the faulting
    intermediate physical address. *)
Lemma fault_ipa_correct (ipa far : Z) :
  fits 48 ipa -> wrap 12 far = wrap 12 ipa ->
  fault_ipa ((ipa ≫ 12) ≪ 4) far = ipa.
Proof.
  intros Hipa Hoff. unfold fault_ipa.
  change 0xFFF with (Z.ones 12). rewrite land_ones_wrap, Hoff by lia.
  apply Z.bits_inj'; intros i Hi.
  rewrite Z.lor_spec, !testbit_wrap, Z.shiftl_spec by lia.
  destruct (Z.ltb_spec i 12).
  - rewrite (Z.testbit_neg_r _ (i - 12)) by lia. by rewrite andb_false_r.
  - rewrite Z.shiftr_spec, Z.shiftl_spec, Z.shiftr_spec by lia. rewrite orb_false_r.
    replace (i - 12 + 4 - 4 + 12) with i by lia.
    destruct (Z.ltb_spec i 64); [done|]. by rewrite (testbit_fits 48 ipa) by (done || lia).
Qed.

(** The address of the emulated UART's data register, faulting at a guest
    virtual address with the same page offset. *)
Lemma fault_ipa_correct_witness :
  fault_ipa ((0x09000018 ≫ 12) ≪ 4) 0xFFFF000012345018 = 0x09000018.
Proof. apply fault_ipa_correct; [vm_compute; split; congruence | reflexivity]. Defined.
