(* ===== verification/Machine.v ===== *)
(** The machine under the hypervisor: byte-addressed physical memory (accessed
    through the [volatile] pointer casts of the C code), the processor state that
    the [mrs]/[msr] wrappers of vcpu.c reach by register name, and the interface
    [Platform] to everything that is not the hypervisor's own code: guest
    execution, the physical GIC and timer, and device MMIO. *)

From S2P Require Import Prelude.

(** * Physical memory *)
Abbreviation mem := (gmap Z Z).

Definition rd8 (m : mem) (a : Z) : Z := u8 (default 0 (m !! u64 a)).
Definition wr8 (m : mem) (a v : Z) : mem := <[u64 a := u8 v]> m.

(** Little-endian accesses of [n] bytes. *)
Fixpoint load (n : nat) (m : mem) (a : Z) : Z :=
  match n with
  | O => 0
  | S n => rd8 m a + 2 ^ 8 * load n m (a + 1)
  end.
Fixpoint store (n : nat) (m : mem) (a v : Z) : mem :=
  match n with
  | O => m
  | S n => store n (wr8 m a v) (a + 1) (v / 2 ^ 8)
  end.
Abbreviation ld16 := (load 2).
Abbreviation ld32 := (load 4).
Abbreviation ld64 := (load 8).
Abbreviation st16 := (store 2).
Abbreviation st32 := (store 4).
Abbreviation st64 := (store 8).

Lemma fits_rd8 m a : fits 8 (rd8 m a).
Proof. apply fits_wrap. lia. Qed.
Lemma rd8_wr8_eq m a v : rd8 (wr8 m a v) a = u8 v.
Proof. unfold rd8, wr8. rewrite lookup_insert_eq. simpl. apply wrap_wrap. Qed.
Lemma rd8_wr8_ne m a b v : u64 a <> u64 b -> rd8 (wr8 m a v) b = rd8 m b.
Proof. intros. unfold rd8, wr8. by rewrite lookup_insert_ne. Qed.

Lemma fits_load n m : forall a, fits (8 * Z.of_nat n) (load n m a).
Proof.
  induction n as [|n IH]; intros a; [vm_compute; split; congruence|].
  cbn [load]. pose proof (fits_rd8 m a) as H1. pose proof (IH (a + 1)) as H2. unfold fits in *.
  replace (8 * Z.of_nat (S n)) with (8 + 8 * Z.of_nat n) by lia. rewrite Z.pow_add_r by lia. nia.
Qed.
#[export] Hint Resolve fits_rd8 fits_load : hv.

(** Byte [b] (an address modulo 2^64) is one of the [n] bytes at [a]. *)
Definition in_range (n : Z) (a b : Z) : Prop := u64 (b - a) < n.

Lemma in_range_step n a b :
  0 <= n -> n < 2 ^ 64 -> (in_range n (a + 1) b \/ u64 a = u64 b) -> in_range (n + 1) a b.
Proof. unfold in_range. intros. zlia. Qed.

Lemma rd8_store_out n : forall m a v b,
  Z.of_nat n < 2 ^ 64 -> ~ in_range (Z.of_nat n) a b -> rd8 (store n m a v) b = rd8 m b.
Proof.
  induction n as [|n IH]; intros m a v b Hn Hout; [done|]. cbn [store].
  rewrite Nat2Z.inj_succ in *. rewrite IH; [|lia|].
  - apply rd8_wr8_ne. intros Heq. apply Hout. apply in_range_step; [lia|lia|by right].
  - intros Hin. apply Hout. apply in_range_step; [lia|lia|by left].
Qed.

Lemma load_ext n m m' : forall a,
  Z.of_nat n < 2 ^ 64 -> (forall b, in_range (Z.of_nat n) a b -> rd8 m b = rd8 m' b) ->
  load n m a = load n m' a.
Proof.
  induction n as [|n IH]; intros a Hn Heq; [done|]. cbn [load].
  rewrite Nat2Z.inj_succ in *. rewrite (Heq a).
  - rewrite IH; [done|lia|]. intros b Hb. apply Heq. apply in_range_step; [lia|lia|by left].
  - unfold in_range. rewrite Z.sub_diag. zlia.
Qed.

(** The [n] bytes at [a] and the [k] bytes at [b] do not overlap. *)
Definition disjoint (n a k b : Z) : Prop := forall i, in_range n a i -> ~ in_range k b i.

Lemma load_store_disjoint n k m a b v :
  Z.of_nat n < 2 ^ 64 -> Z.of_nat k < 2 ^ 64 -> disjoint (Z.of_nat n) a (Z.of_nat k) b ->
  load n (store k m b v) a = load n m a.
Proof. intros Hn Hk Hd. apply load_ext; [done|]. intros i Hi. apply rd8_store_out; [done|by apply Hd]. Qed.

Lemma load_store_eq n : forall m a v,
  Z.of_nat n < 2 ^ 64 -> load n (store n m a v) a = wrap (8 * Z.of_nat n) v.
Proof.
  induction n as [|n IH]; intros m a v Hn.
  { cbn [load]. unfold wrap. rewrite Z.mul_0_r, Z.mod_1_r. done. }
  cbn [load store]. rewrite IH by lia. rewrite rd8_store_out; [|lia|].
  - rewrite rd8_wr8_eq. unfold wrap. rewrite Nat2Z.inj_succ.
    replace (8 * Z.succ (Z.of_nat n)) with (8 + 8 * Z.of_nat n) by lia.
    rewrite Z.pow_add_r, Z.rem_mul_r by lia. lia.
  - unfold in_range. replace (a - (a + 1)) with (-1) by lia.
    change (u64 (-1)) with (2 ^ 64 - 1). lia.
Qed.

(** Disjointness from plain arithmetic, for ranges that do not wrap. *)
Lemma disjoint_arith n a k b :
  0 <= a -> a + n <= 2 ^ 64 -> 0 <= b -> b + k <= 2 ^ 64 -> (a + n <= b \/ b + k <= a) ->
  disjoint n a k b.
Proof. unfold disjoint, in_range. intros. zlia. Qed.

(** * The processor

    General-purpose and SIMD registers, and the system registers by the name the
    [rd_sysreg]/[wr_sysreg] macros and the inline [mrs]/[msr] use. *)
Record cpu := mk_cpu { gp : list Z; qreg : list Z; sys : gmap string Z }.

Definition rd_sysreg (r : string) (c : cpu) : Z := default 0 (sys c !! r).
Definition wr_sysreg (r : string) (v : Z) (c : cpu) : cpu := mk_cpu (gp c) (qreg c) (<[r := v]> (sys c)).
Definition set_gp (c : cpu) (l : list Z) : cpu := mk_cpu l (qreg c) (sys c).
Definition set_qreg (c : cpu) (l : list Z) : cpu := mk_cpu (gp c) l (sys c).

Lemma rd_wr_eq r v c : rd_sysreg r (wr_sysreg r v c) = v.
Proof. unfold rd_sysreg, wr_sysreg. cbn [sys]. by rewrite lookup_insert_eq. Qed.
Lemma rd_wr_ne r r' v c : r <> r' -> rd_sysreg r (wr_sysreg r' v c) = rd_sysreg r c.
Proof. intros. unfold rd_sysreg, wr_sysreg. cbn [sys]. by rewrite lookup_insert_ne. Qed.

(** Read a register by name through a chain of writes with literal names. *)
Ltac sysreg :=
  repeat (rewrite rd_wr_eq || (rewrite rd_wr_ne by (intros ?; discriminate))).

(** * The rest of the machine

    [W] is the state of everything the hypervisor does not contain: guest code
    and its progress, the physical interrupt controller, the counter and the
    devices behind MMIO.  The hypervisor uses it only through these operations. *)
Class Platform (W : Type) := {
  (** run the guest from [eret] to the next exception taken to EL2: the vector
      index of that exception, and the state of machine, processor and memory *)
  pl_guest : cpu -> mem -> W -> Z * cpu * mem * W;
  (** ICC_IAR1_EL1 / ICC_EOIR1_EL1 *)
  pl_iar1 : W -> Z * W;
  pl_eoir1 : Z -> W -> W;
  (** 32-bit device accesses (mmio_read32 / mmio_write32) *)
  pl_read32 : Z -> W -> Z * W;
  pl_write32 : Z -> Z -> W -> W;
  (** CNTPCT_EL0 and CNTFRQ_EL0 *)
  pl_cntpct : W -> Z * W;
  pl_cntfrq : W -> Z;
  (** how many times a busy-wait loop on a device register may poll it before
      the model gives up with [OutOfFuel] *)
  pl_patience : nat
}.

(** ** Device registers (mmio.h) and busy waiting *)
Section Mmio.
Context {W : Type} `{Platform W}.

Definition mmio_read32 (a : Z) : st W Z := fun w => Ok (pl_read32 a w).
Definition mmio_write32 (a v : Z) : st W unit := fun w => Ok (tt, pl_write32 a v w).

(** [while (mmio_read32(a) & mask) {}] *)
Fixpoint poll (n : nat) (a mask : Z) : st W unit :=
  match n with
  | O => fun _ => Err OutOfFuel
  | S n => v ← mmio_read32 a; if (v .& mask) =? 0 then mret tt else poll n a mask
  end.

(** The register clears the polled bits within [n] reads. *)
Fixpoint ready_within (n : nat) (a mask : Z) (w : W) : Prop :=
  match n with
  | O => False
  | S n => let '(v, w) := pl_read32 a w in (v .& mask) = 0 \/ ready_within n a mask w
  end.

Lemma poll_ready n a mask : forall w, ready_within n a mask w -> exists w', poll n a mask w = Ok (tt, w').
Proof.
  induction n as [|n IH]; intros w Hr; [done|]. cbn [ready_within poll] in *.
  unfold mbind, st_bind, mmio_read32. destruct (pl_read32 a w) as [v w1].
  destruct (Z.eqb_spec (v .& mask) 0); [by eexists|]. destruct Hr; [done|]. by apply IH.
Qed.
End Mmio.

(** Register files of the architectural size and width. *)
Definition wf_cpu (c : cpu) : Prop :=
  length (gp c) = 31%nat /\ Forall (fits 64) (gp c) /\ length (qreg c) = 32%nat /\ map_Forall (fun _ v => fits 64 v) (sys c).

Lemma wf_rd_sysreg r c : wf_cpu c -> fits 64 (rd_sysreg r c).
Proof.
  intros (_ & _ & _ & Hs). unfold rd_sysreg. destruct (sys c !! r) as [v|] eqn:E; [|by apply fits_0].
  by apply (Hs r).
Qed.
Lemma wf_wr_sysreg r v c : fits 64 v -> wf_cpu c -> wf_cpu (wr_sysreg r v c).
Proof. intros Hv (H1 & H2 & H3 & H4). split_and!; try done. by apply map_Forall_insert_2. Qed.
#[export] Hint Resolve wf_rd_sysreg wf_wr_sysreg : hv.

(** Physical addresses of the device registers that are polled. *)
Definition UART_BASE := 0x09000000.
Definition UART_DR := UART_BASE + 0x00.
Definition UART_FR := UART_BASE + 0x18.
Definition GICR_WAKER := 0x080A0000 + 0x14.

(** What the theorems assume of the machine (Arm ARM, PL011 and GICv3 manuals): a guest exit comes through
    one of the four lower-EL AArch64 vectors, register files keep their size and
    width, and a guest running at EL1 cannot write the EL2 registers that hold
    its stage-2 base, its affinity, the trap configuration and the hypervisor's
    vCPU pointer; the UART's transmit FIFO drains and the redistributor wakes up
    within the poll bound once ProcessorSleep is cleared. *)
Definition el2_private : list string :=
  ["vttbr_el2"; "vmpidr_el2"; "hcr_el2"; "vtcr_el2"; "tpidr_el2"; "ich_hcr_el2"]%string.

Class PlatformOk (W : Type) {P : Platform W} := {
  guest_vector c m w : 8 <= (pl_guest c m w).1.1.1 < 12;
  guest_wf c m w : wf_cpu c -> wf_cpu (pl_guest c m w).1.1.2;
  guest_el2 c m w r :
    r ∈ el2_private -> rd_sysreg r (pl_guest c m w).1.1.2 = rd_sysreg r c;
  iar_fits w : fits 64 (pl_iar1 w).1;
  cntfrq_fits w : fits 64 (pl_cntfrq w);
  read32_fits a w : fits 32 (pl_read32 a w).1;
  uart_ready w : ready_within pl_patience UART_FR (bit 5) w;
  waker_ready v w :
    (v .& bit 1) = 0 -> ready_within pl_patience GICR_WAKER (bit 2) (pl_write32 GICR_WAKER v w)
}.

(** * Scripted machines

    A concrete machine for examples: the guest's successive exits, the interrupts
    the physical GIC acknowledges and the console input are read
    from a script; device writes and end-of-interrupts are recorded. *)
Record guest_event := mk_event {
  ev_vector : Z;                     (* low two bits: 0 synchronous, 1 IRQ *)
  ev_regs : list (string * Z);       (* system registers changed (ESR, FAR, ...) *)
  ev_x : list (nat * Z);             (* general-purpose registers changed *)
  ev_mem : list (Z * Z)              (* bytes of memory changed *)
}.
Record script := mk_script {
  sc_events : list guest_event;
  sc_iar : list Z;
  sc_read : list Z;                  (* console input *)
  sc_log : list (Z * Z);
  sc_time : Z
}.

Definition apply_event (e : guest_event) (c : cpu) (m : mem) : Z * cpu * mem :=
  let c1 := foldr (fun '(r, v) c => if decide (r ∈ el2_private) then c else wr_sysreg r (u64 v) c)
                  c (ev_regs e) in
  let c2 := set_gp c1 (foldr (fun '(i, v) l => <[i := u64 v]> l) (gp c1) (ev_x e)) in
  (8 + wrap 2 (ev_vector e), c2, foldr (fun '(a, v) m => wr8 m a v) m (ev_mem e)).

#[export] Instance script_platform : Platform script := {
  pl_guest c m w :=
    match sc_events w with
    | [] => (8, c, m, w)
    | e :: l => (apply_event e c m, mk_script l (sc_iar w) (sc_read w) (sc_log w) (sc_time w))
    end;
  pl_iar1 w :=
    match sc_iar w with
    | [] => (1023, w)
    | i :: l => (u64 i, mk_script (sc_events w) l (sc_read w) (sc_log w) (sc_time w))
    end;
  pl_eoir1 i w := mk_script (sc_events w) (sc_iar w) (sc_read w) ((0, i) :: sc_log w) (sc_time w);
  pl_read32 a w :=
    if a =? UART_FR then (if decide (sc_read w = []) then bit 4 else 0, w)
    else if a =? UART_DR then
      match sc_read w with
      | [] => (0, w)
      | i :: l => (u32 i, mk_script (sc_events w) (sc_iar w) l (sc_log w) (sc_time w))
      end
    else (0, w);
  pl_write32 a v w := mk_script (sc_events w) (sc_iar w) (sc_read w) ((a, v) :: sc_log w) (sc_time w);
  pl_cntpct w := (u64 (sc_time w), mk_script (sc_events w) (sc_iar w) (sc_read w) (sc_log w) (sc_time w + 1));
  pl_cntfrq w := 62500000;
  pl_patience := 2%nat
}.

Lemma apply_event_wf e c m : wf_cpu c -> wf_cpu (apply_event e c m).1.2.
Proof.
  intros Hwf. unfold apply_event. cbn [fst snd].
  assert (forall l, wf_cpu (foldr (fun '(r, v) c =>
    if decide (r ∈ el2_private) then c else wr_sysreg r (u64 v) c) c l)) as Hr.
  { induction l as [|[r v] l IH]; [done|]. cbn. case_decide; [done|]. auto with hv lia. }
  destruct (Hr (ev_regs e)) as (G1 & G2 & G3 & G4). clear Hr.
  assert (forall l g, length g = 31%nat -> Forall (fits 64) g ->
    let g' := foldr (fun '(i, v) l => <[i := u64 v]> l) g l in
    length g' = 31%nat /\ Forall (fits 64) g') as Hx.
  { induction l as [|[i v] l IH]; intros g Hl Hg; [done|]. cbn.
    destruct (IH g Hl Hg) as [IH1 IH2]. rewrite length_insert. split; [done|].
    apply Forall_insert; [done|]. auto with hv lia. }
  destruct (Hx (ev_x e) _ G1 G2) as [H1 H2]. by split_and!.
Qed.
Lemma apply_event_el2 e c m r :
  r ∈ el2_private -> rd_sysreg r (apply_event e c m).1.2 = rd_sysreg r c.
Proof.
  intros Hr. unfold apply_event. cbn [fst snd].
  induction (ev_regs e) as [|[r' v] l IH]; [done|]. cbn.
  case_decide as Hd; [exact IH|]. unfold rd_sysreg. cbn. rewrite lookup_insert_ne; [exact IH|].
  intros ->. by apply Hd.
Qed.

#[export] Instance script_ok : PlatformOk script.
Proof.
  split.
  - intros c m w. cbn. destruct (sc_events w) as [|e l]; cbn; [lia|].
    pose proof (fits_wrap 2 (ev_vector e)). unfold fits in *. lia.
  - intros c m w Hc. cbn. destruct (sc_events w) as [|e l]; [done|]. by apply apply_event_wf.
  - intros c m w r Hr. cbn. destruct (sc_events w) as [|e l]; [done|]. by apply apply_event_el2.
  - intros w. cbn. destruct (sc_iar w); cbn; [vm_compute; split; congruence|]. auto with hv lia.
  - intros w. fits_const.
  - intros a w. cbn. repeat case_match; cbn; auto with hv lia; fits_const.
  - intros w. cbn. left. by case_decide.
  - intros v w _. left. reflexivity.
Qed.
