(* ===== verification/Vcpu.v ===== *)
(** vCPUs and the world switch (src/src/vcpu.h, the first part of
    src/src/vcpu.c, src/src/world.S and the guest stubs of src/src/vectors.S).

    [vcpu] is [vcpu_t]; its FP/SIMD, EL1 and virtual-GIC banks are records of their
    own.  [vcpu_run_once] composes the C save/restore code with the assembly entry
    and exit paths around one execution of the guest by the [Platform]. *)

From S2P Require Import Prelude Esr Machine.

(** * The vCPU structure *)
Record fp_bank := mk_fp { fp_q : list Z; fp_fpsr : Z; fp_fpcr : Z }.
Record el1_bank := mk_el1 {
  sctlr_el1 : Z; cpacr_el1 : Z; ttbr0_el1 : Z; ttbr1_el1 : Z; tcr_el1 : Z; mair_el1 : Z;
  amair_el1 : Z; vbar_el1 : Z; contextidr_el1 : Z; sp_el1 : Z; elr_el1 : Z; spsr_el1 : Z;
  esr_el1 : Z; far_el1 : Z; tpidr_el0 : Z; tpidrro_el0 : Z; tpidr_el1 : Z }.
Record ich_bank := mk_ich { ich_lr : list Z; ich_vmcr : Z; ich_ap1r0 : Z }.

Record vcpu := mk_vcpu {
  xregs : list Z;       (* uint64_t x[31] *)
  sp_el0 : Z; pc : Z; pstate : Z; hyp_sp : Z;
  exit_reason : Z; exit_esr : Z; exit_far : Z; exit_hpfar : Z;
  fp : fp_bank; el1 : el1_bank; ich : ich_bank;
  vttbr : Z; vmpidr : Z; vid : Z; halted : Z }.

Definition set_xregs (v : vcpu) (l : list Z) : vcpu :=
  mk_vcpu l (sp_el0 v) (pc v) (pstate v) (hyp_sp v) (exit_reason v) (exit_esr v) (exit_far v)
    (exit_hpfar v) (fp v) (el1 v) (ich v) (vttbr v) (vmpidr v) (vid v) (halted v).
Definition set_pc (v : vcpu) (a : Z) : vcpu :=
  mk_vcpu (xregs v) (sp_el0 v) a (pstate v) (hyp_sp v) (exit_reason v) (exit_esr v) (exit_far v)
    (exit_hpfar v) (fp v) (el1 v) (ich v) (vttbr v) (vmpidr v) (vid v) (halted v).
Definition set_halted (v : vcpu) (h : Z) : vcpu :=
  mk_vcpu (xregs v) (sp_el0 v) (pc v) (pstate v) (hyp_sp v) (exit_reason v) (exit_esr v) (exit_far v)
    (exit_hpfar v) (fp v) (el1 v) (ich v) (vttbr v) (vmpidr v) (vid v) h.
Definition set_ich (v : vcpu) (i : ich_bank) : vcpu :=
  mk_vcpu (xregs v) (sp_el0 v) (pc v) (pstate v) (hyp_sp v) (exit_reason v) (exit_esr v) (exit_far v)
    (exit_hpfar v) (fp v) (el1 v) i (vttbr v) (vmpidr v) (vid v) (halted v).
Definition set_el1 (v : vcpu) (e : el1_bank) : vcpu :=
  mk_vcpu (xregs v) (sp_el0 v) (pc v) (pstate v) (hyp_sp v) (exit_reason v) (exit_esr v) (exit_far v)
    (exit_hpfar v) (fp v) e (ich v) (vttbr v) (vmpidr v) (vid v) (halted v).

(** [v->x[i]] and [v->x[i] = val] (undefined behaviour outside 0..30), and
    [v->pc += 4]. *)
Definition get_x (v : vcpu) (i : Z) : res Z := aget (xregs v) i.
Definition put_x (v : vcpu) (i val : Z) : res vcpu := l ← aset (xregs v) i val; Ok (set_xregs v l).
Definition pc_advance (v : vcpu) : vcpu := set_pc v (u64 (pc v + 4)).

(** [(srt == 31) ? 0 : v->x[srt]] and [if (srt != 31) v->x[srt] = val]. *)
Definition read_rt (v : vcpu) (srt : Z) : res Z := if srt =? 31 then Ok 0 else get_x v srt.
Definition write_rt (v : vcpu) (srt val : Z) : res vcpu :=
  if srt =? 31 then Ok v else put_x v srt val.

(** Well-formed contents: array sizes and register widths. *)
Definition wf_banks (v : vcpu) : Prop :=
  length (fp_q (fp v)) = 32%nat /\
  let e := el1 v in
  Forall (fits 64) [sctlr_el1 e; cpacr_el1 e; ttbr0_el1 e; ttbr1_el1 e; tcr_el1 e; mair_el1 e;
    amair_el1 e; vbar_el1 e; contextidr_el1 e; sp_el1 e; elr_el1 e; spsr_el1 e; esr_el1 e;
    far_el1 e; tpidr_el0 e; tpidrro_el0 e; tpidr_el1 e; sp_el0 v; pstate v; fp_fpsr (fp v);
    fp_fpcr (fp v); ich_vmcr (ich v); ich_ap1r0 (ich v); vttbr v; vmpidr v; exit_esr v;
    exit_far v; exit_hpfar v; exit_reason v].
Definition wf_vcpu (v : vcpu) : Prop :=
  len (xregs v) = 31 /\ Forall (fits 64) (xregs v) /\ fits 64 (pc v) /\
  len (ich_lr (ich v)) = 4 /\ Forall (fits 64) (ich_lr (ich v)) /\ wf_banks v.

#[export] Instance wf_vcpu_dec v : Decision (wf_vcpu v).
Proof. unfold wf_vcpu, wf_banks. cbv zeta. apply _. Defined.

Lemma read_rt_ok v srt : wf_vcpu v -> 0 <= srt < 32 -> exists a, read_rt v srt = Ok a /\ fits 64 a.
Proof.
  intros (Hl & HF & _) Hs. unfold read_rt, get_x. destruct (Z.eqb_spec srt 31); [exists 0; split; [done|]; zlia|].
  destruct (aget_ok (xregs v) srt) as [a Ha]; [lia|]. exists a. split; [done|].
  by eapply Forall_aget.
Qed.
Lemma write_rt_ok v srt a :
  wf_vcpu v -> 0 <= srt < 32 -> fits 64 a -> exists v', write_rt v srt a = Ok v' /\ wf_vcpu v'.
Proof.
  intros (Hl & HF & Hr) Hs Ha. unfold write_rt, put_x.
  destruct (Z.eqb_spec srt 31); [by exists v|].
  destruct (aset (xregs v) srt a) as [l|] eqn:E.
  - exists (set_xregs v l). split; [done|]. split; [cbn; by rewrite (aset_len _ _ _ _ E)|].
    split; [by eapply Forall_aset|done].
  - unfold aset in E. rewrite decide_True in E by lia. done.
Qed.
Lemma pc_advance_wf v : wf_vcpu v -> wf_vcpu (pc_advance v).
Proof. intros (H1&H2&H3&H4&H5&H6). repeat (split; [done|]). split; [apply fits_wrap; lia|done]. Qed.
#[export] Hint Resolve pc_advance_wf : hv.

(** What a trapped access may do to the vCPU: only [pc] and the transfer register. *)
Definition rt_only (v v' : vcpu) (srt : Z) : Prop :=
  exists l, v' = pc_advance (set_xregs v l) /\ len l = len (xregs v) /\
            forall i, i <> srt -> aget l i = aget (xregs v) i.

Lemma rt_only_same v srt : rt_only v (pc_advance v) srt.
Proof. exists (xregs v). by destruct v. Qed.
Lemma rt_only_write v srt a v' : write_rt v srt a = Ok v' -> rt_only v (pc_advance v') srt.
Proof.
  unfold write_rt, put_x. case_match; intros H'; res_inv; [apply rt_only_same|].
  exists a0. split; [done|]. split; [by eapply aset_len|]. intros i Hi. by eapply aget_aset_ne.
Qed.

(** * Layout of vcpu_t

    Size, alignment and element count of each field in declaration order; the
    offsets follow the C rules for structs on AArch64. *)
Definition vcpu_layout : list (string * Z * Z * Z) := [
  ("x", 8, 8, 31); ("sp_el0", 8, 8, 1); ("pc", 8, 8, 1); ("pstate", 8, 8, 1);
  ("hyp_sp", 8, 8, 1); ("exit_reason", 8, 8, 1); ("exit_esr", 8, 8, 1);
  ("exit_far", 8, 8, 1); ("exit_hpfar", 8, 8, 1); ("_pad0", 8, 8, 1);
  ("q", 16, 16, 32); ("fpsr", 8, 8, 1); ("fpcr", 8, 8, 1);
  ("el1", 8, 8, 17); ("ich_lr", 8, 8, 4); ("ich_vmcr", 8, 8, 1); ("ich_ap1r0", 8, 8, 1);
  ("vttbr", 8, 8, 1); ("vmpidr", 8, 8, 1); ("id", 4, 4, 1); ("halted", 4, 4, 1)]%string.

Definition align_up (a n : Z) : Z := (n + a - 1) / a * a.
Fixpoint offsetof (name : string) (l : list (string * Z * Z * Z)) (o : Z) : option Z :=
  match l with
  | [] => None
  | (f, size, al, n) :: l =>
      let o := align_up al o in
      if decide (f = name) then Some o else offsetof name l (o + size * n)
  end.
Fixpoint struct_end (l : list (string * Z * Z * Z)) (o : Z) : Z :=
  match l with
  | [] => o
  | (_, size, al, n) :: l => struct_end l (align_up al o + size * n)
  end.
Definition sizeof_vcpu : Z := align_up 16 (struct_end vcpu_layout 0).

(** vcpu_offsets.h, used by world.S and vectors.S. *)
Definition VCPU_X := 0.
Definition VCPU_SP_EL0 := 248.
Definition VCPU_PC := 256.
Definition VCPU_PSTATE := 264.
Definition VCPU_HYP_SP := 272.
Definition VCPU_EXIT_REASON := 280.
Definition VCPU_EXIT_ESR := 288.
Definition VCPU_EXIT_FAR := 296.
Definition VCPU_EXIT_HPFAR := 304.
Definition VCPU_FP := 320.
Definition VCPU_FPSR := 832.
Definition VCPU_FPCR := 840.

(** The offsets the world-switch assembly uses are the offsets of the C
    struct, the SIMD bank is 16-byte aligned for [stp q,q], and the word-wise
    zeroing loop of vcpu_init covers the whole structure. *)
Lemma vcpu_offsets_match :
  let off f := offsetof f vcpu_layout 0 in
  off "x"%string = Some VCPU_X /\ off "sp_el0"%string = Some VCPU_SP_EL0 /\
  off "pc"%string = Some VCPU_PC /\ off "pstate"%string = Some VCPU_PSTATE /\
  off "hyp_sp"%string = Some VCPU_HYP_SP /\ off "exit_reason"%string = Some VCPU_EXIT_REASON /\
  off "exit_esr"%string = Some VCPU_EXIT_ESR /\ off "exit_far"%string = Some VCPU_EXIT_FAR /\
  off "exit_hpfar"%string = Some VCPU_EXIT_HPFAR /\ off "q"%string = Some VCPU_FP /\
  off "fpsr"%string = Some VCPU_FPSR /\ off "fpcr"%string = Some VCPU_FPCR /\
  VCPU_FP mod 16 = 0 /\ sizeof_vcpu / 8 * 8 = sizeof_vcpu.
Proof. vm_compute. repeat split. Qed.

(** * vcpu_init *)
Definition SPSR_EL1H_MASKED := 0x3C5.
Definition SCTLR_EL1_RESET := 0x30D00800.

Definition zero_el1 : el1_bank := mk_el1 0 0 0 0 0 0 0 0 0 0 0 0 0 0 0 0 0.
Definition zero_vcpu : vcpu :=
  mk_vcpu (replicate 31 0) 0 0 0 0 0 0 0 0 (mk_fp (replicate 32 0) 0 0) zero_el1
    (mk_ich (replicate 4 0) 0 0) 0 0 0 0.

(** The zeroing loop makes the result independent of the old contents. *)
Definition vcpu_init (entry sp_el1 vttbr id : Z) : vcpu :=
  let v := zero_vcpu in
  mk_vcpu (xregs v) (sp_el0 v) entry SPSR_EL1H_MASKED (hyp_sp v) (exit_reason v) (exit_esr v)
    (exit_far v) (exit_hpfar v) (fp v)
    (mk_el1 SCTLR_EL1_RESET 0 0 0 0 0 0 0 0 sp_el1 0 0 0 0 0 0 0)
    (ich v) vttbr (bit 31 .| u64 id) id 0.

(** * The C half of the world switch *)
Definition save_el1_sysregs (c : cpu) (v : vcpu) : vcpu :=
  set_el1 v (mk_el1
    (rd_sysreg "sctlr_el1" c) (rd_sysreg "cpacr_el1" c) (rd_sysreg "ttbr0_el1" c)
    (rd_sysreg "ttbr1_el1" c) (rd_sysreg "tcr_el1" c) (rd_sysreg "mair_el1" c)
    (rd_sysreg "amair_el1" c) (rd_sysreg "vbar_el1" c) (rd_sysreg "contextidr_el1" c)
    (rd_sysreg "sp_el1" c) (rd_sysreg "elr_el1" c) (rd_sysreg "spsr_el1" c)
    (rd_sysreg "esr_el1" c) (rd_sysreg "far_el1" c) (rd_sysreg "tpidr_el0" c)
    (rd_sysreg "tpidrro_el0" c) (rd_sysreg "tpidr_el1" c)).

(** Writes in program order. *)
Fixpoint msr_all (l : list (string * Z)) (c : cpu) : cpu :=
  match l with [] => c | (r, v) :: l => msr_all l (wr_sysreg r v c) end.

Definition restore_el1_sysregs (v : vcpu) (c : cpu) : cpu :=
  let e := el1 v in
  msr_all [
    ("sctlr_el1", sctlr_el1 e); ("cpacr_el1", cpacr_el1 e); ("ttbr0_el1", ttbr0_el1 e);
    ("ttbr1_el1", ttbr1_el1 e); ("tcr_el1", tcr_el1 e); ("mair_el1", mair_el1 e);
    ("amair_el1", amair_el1 e); ("vbar_el1", vbar_el1 e); ("contextidr_el1", contextidr_el1 e);
    ("sp_el1", sp_el1 e); ("elr_el1", elr_el1 e); ("spsr_el1", spsr_el1 e);
    ("esr_el1", esr_el1 e); ("far_el1", far_el1 e); ("tpidr_el0", tpidr_el0 e);
    ("tpidrro_el0", tpidrro_el0 e); ("tpidr_el1", tpidr_el1 e)]%string c.

(** * The assembly half of the world switch

    [__guest_enter]: push the callee-saved frame (the EL2 stack pointer moves by
    96), publish the vCPU pointer, load the return state, the SIMD bank and the
    general-purpose registers. *)
Definition guest_enter (vptr : Z) (v : vcpu) (c : cpu) : vcpu * cpu :=
  let sp := u64 (rd_sysreg "sp_el2" c - 96) in
  let v' := mk_vcpu (xregs v) (sp_el0 v) (pc v) (pstate v) sp (exit_reason v) (exit_esr v)
    (exit_far v) (exit_hpfar v) (fp v) (el1 v) (ich v) (vttbr v) (vmpidr v) (vid v) (halted v) in
  let c := msr_all [("sp_el2", sp); ("tpidr_el2", vptr); ("elr_el2", pc v); ("spsr_el2", pstate v);
    ("sp_el0", sp_el0 v); ("fpsr", fp_fpsr (fp v)); ("fpcr", fp_fpcr (fp v))]%string c in
  (v', set_gp (set_qreg c (fp_q (fp v))) (xregs v)).

(** A VEC_GUEST stub followed by [__guest_exit]: record the vector index, save the
    registers and the syndrome, and return to the EL2 stack frame. *)
Definition guest_exit (idx : Z) (v : vcpu) (c : cpu) : vcpu * cpu :=
  (mk_vcpu (gp c) (rd_sysreg "sp_el0" c) (rd_sysreg "elr_el2" c) (rd_sysreg "spsr_el2" c)
     (hyp_sp v) idx (rd_sysreg "esr_el2" c) (rd_sysreg "far_el2" c) (rd_sysreg "hpfar_el2" c)
     (mk_fp (qreg c) (rd_sysreg "fpsr" c) (rd_sysreg "fpcr" c))
     (el1 v) (ich v) (vttbr v) (vmpidr v) (vid v) (halted v),
   wr_sysreg "sp_el2" (u64 (hyp_sp v + 96)) c).

(** vcpu_run_once up to the [eret] of __guest_enter. *)
Definition run_enter (vptr : Z) (v : vcpu) (c : cpu) : res (vcpu * cpu) :=
  let c := restore_el1_sysregs v c in
  let c := msr_all [("vttbr_el2", vttbr v); ("vmpidr_el2", vmpidr v);
    ("ich_vmcr_el2", ich_vmcr (ich v)); ("ich_ap1r0_el2", ich_ap1r0 (ich v))]%string c in
  lr0 ← aget (ich_lr (ich v)) 0;
  lr1 ← aget (ich_lr (ich v)) 1;
  lr2 ← aget (ich_lr (ich v)) 2;
  lr3 ← aget (ich_lr (ich v)) 3;
  let c := msr_all [("ich_lr0_el2", lr0); ("ich_lr1_el2", lr1); ("ich_lr2_el2", lr2);
    ("ich_lr3_el2", lr3)]%string c in
  Ok (guest_enter vptr v c).

(** vcpu_run_once from the exit vector on. *)
Definition run_leave (idx : Z) (v : vcpu) (c : cpu) : vcpu * cpu :=
  let '(v, c) := guest_exit idx v c in
  let v := set_ich v (mk_ich
    [rd_sysreg "ich_lr0_el2" c; rd_sysreg "ich_lr1_el2" c; rd_sysreg "ich_lr2_el2" c;
     rd_sysreg "ich_lr3_el2" c]
    (rd_sysreg "ich_vmcr_el2" c) (rd_sysreg "ich_ap1r0_el2" c)) in
  (save_el1_sysregs c v, c).

Section RunOnce.
Context {W : Type} `{Platform W}.

Definition vcpu_run_once (vptr : Z) (v : vcpu) (c : cpu) (m : mem) (w : W)
  : res (vcpu * cpu * mem * W) :=
  '(v, c) ← run_enter vptr v c;
  let '(idx, c, m, w) := pl_guest c m w in
  let '(v, c) := run_leave idx v c in
  Ok (v, c, m, w).
End RunOnce.

(** * Theorems *)

(** The registers of the EL1 guest that the world switch saves and restores. *)
Definition switched : list string :=
  ["sctlr_el1"; "cpacr_el1"; "ttbr0_el1"; "ttbr1_el1"; "tcr_el1"; "mair_el1"; "amair_el1";
   "vbar_el1"; "contextidr_el1"; "sp_el1"; "elr_el1"; "spsr_el1"; "esr_el1"; "far_el1";
   "tpidr_el0"; "tpidrro_el0"; "tpidr_el1"; "sp_el0"; "elr_el2"; "spsr_el2"; "fpsr"; "fpcr";
   "ich_lr0_el2"; "ich_lr1_el2"; "ich_lr2_el2"; "ich_lr3_el2"; "ich_vmcr_el2";
   "ich_ap1r0_el2"]%string.
(** The other registers written on the way into the guest. *)
Definition enter_other : list string := ["vttbr_el2"; "vmpidr_el2"; "sp_el2"; "tpidr_el2"]%string.

Lemma rd_msr_all_ne r l : forall c,
  r ∉ map fst l -> rd_sysreg r (msr_all l c) = rd_sysreg r c.
Proof.
  induction l as [|[r' v] l IH]; intros c Hr; [done|]. cbn in *.
  apply not_elem_of_cons in Hr as [Hne Hr]. rewrite IH by done. by apply rd_wr_ne.
Qed.
Lemma gp_msr_all l : forall c, gp (msr_all l c) = gp c /\ qreg (msr_all l c) = qreg c.
Proof. induction l as [|[r v] l IH]; intros c; [done|]. cbn. by destruct (IH (wr_sysreg r v c)) as [-> ->]. Qed.

Lemma run_enter_ok vptr v c : len (ich_lr (ich v)) = 4 -> is_ok (run_enter vptr v c).
Proof.
  intros Hl. unfold run_enter.
  do 4 (apply bind_is_ok; [by apply aget_ok; lia|intros ? _]). by eexists.
Qed.

(** The saved value of each switched register. *)
Definition saved_regs (v : vcpu) : list (string * Z) :=
  let e := el1 v in let i := ich v in
  [("sctlr_el1", sctlr_el1 e); ("cpacr_el1", cpacr_el1 e); ("ttbr0_el1", ttbr0_el1 e);
   ("ttbr1_el1", ttbr1_el1 e); ("tcr_el1", tcr_el1 e); ("mair_el1", mair_el1 e);
   ("amair_el1", amair_el1 e); ("vbar_el1", vbar_el1 e); ("contextidr_el1", contextidr_el1 e);
   ("sp_el1", sp_el1 e); ("elr_el1", elr_el1 e); ("spsr_el1", spsr_el1 e);
   ("esr_el1", esr_el1 e); ("far_el1", far_el1 e); ("tpidr_el0", tpidr_el0 e);
   ("tpidrro_el0", tpidrro_el0 e); ("tpidr_el1", tpidr_el1 e); ("sp_el0", sp_el0 v);
   ("elr_el2", pc v); ("spsr_el2", pstate v); ("fpsr", fp_fpsr (fp v)); ("fpcr", fp_fpcr (fp v));
   ("ich_lr0_el2", default 0 (ich_lr i !! 0%nat)); ("ich_lr1_el2", default 0 (ich_lr i !! 1%nat));
   ("ich_lr2_el2", default 0 (ich_lr i !! 2%nat)); ("ich_lr3_el2", default 0 (ich_lr i !! 3%nat));
   ("ich_vmcr_el2", ich_vmcr i); ("ich_ap1r0_el2", ich_ap1r0 i)]%string.

Lemma saved_switched v : map fst (saved_regs v) = switched.
Proof. reflexivity. Qed.


Lemma enter_context vptr v c v' c' :
  run_enter vptr v c = Ok (v', c') ->
  gp c' = xregs v /\ qreg c' = fp_q (fp v) /\
  Forall (fun '(r, a) => rd_sysreg r c' = a) (saved_regs v) /\
  rd_sysreg "vttbr_el2" c' = vttbr v /\ rd_sysreg "vmpidr_el2" c' = vmpidr v.
Proof.
  unfold run_enter. intros H. res_inv.
  apply aget_inv in E as [_ E], E0 as [_ E0], E1 as [_ E1], E2 as [_ E2].
  split; [reflexivity|]. split; [reflexivity|].
  assert (forall r l1 l2 k, rd_sysreg r (set_gp (set_qreg k l1) l2) = rd_sysreg r k) as Hset by done.
  unfold saved_regs, restore_el1_sysregs. cbn [msr_all].
  split_and!; [|rewrite Hset; by sysreg|rewrite Hset; by sysreg].
  repeat (apply Forall_cons; split); [..|apply Forall_nil; exact I];
    rewrite Hset; sysreg; try reflexivity.
  - change (Z.to_nat 0) with 0%nat in E. by rewrite E.
  - change (Z.to_nat 1) with 1%nat in E0. by rewrite E0.
  - change (Z.to_nat 2) with 2%nat in E1. by rewrite E1.
  - change (Z.to_nat 3) with 3%nat in E2. by rewrite E2.
Qed.

Lemma leave_context idx v c v' c' :
  run_leave idx v c = (v', c') ->
  xregs v' = gp c /\ fp_q (fp v') = qreg c /\
  Forall (fun '(r, a) => rd_sysreg r c = a) (saved_regs v') /\
  (vttbr v', vmpidr v', vid v', halted v') = (vttbr v, vmpidr v, vid v, halted v) /\
  (exit_reason v', exit_esr v', exit_far v', exit_hpfar v') =
    (idx, rd_sysreg "esr_el2" c, rd_sysreg "far_el2" c, rd_sysreg "hpfar_el2" c).
Proof.
  unfold run_leave. cbn [guest_exit]. intros H. injection H as <- _.
  split; [reflexivity|]. split; [reflexivity|]. split; [|done].
  unfold saved_regs. cbn. repeat (apply Forall_cons; split); try (sysreg; reflexivity); apply Forall_nil; exact I.
Qed.

Lemma Forall_saved (P : string -> Z -> Prop) v :
  Forall (fun '(r, a) => P r a) (saved_regs v) ->
  forall r, r ∈ switched -> exists a, (r, a) ∈ saved_regs v /\ P r a.
Proof.
  intros HF r Hr. rewrite <- (saved_switched v) in Hr.
  apply list_elem_of_fmap in Hr as ([r' a] & -> & Hin).
  exists a. split; [done|]. by apply (proj1 (Forall_forall _ _) HF (r', a)).
Qed.
Lemma saved_agree c1 c2 v :
  Forall (fun '(r, a) => rd_sysreg r c1 = a) (saved_regs v) ->
  Forall (fun '(r, a) => rd_sysreg r c2 = a) (saved_regs v) ->
  forall r, r ∈ switched -> rd_sysreg r c1 = rd_sysreg r c2.
Proof.
  intros F1 F2 r Hr. destruct (Forall_saved (fun r a => rd_sysreg r c1 = a) _ F1 r Hr) as (a & Hin & Ha).
  pose proof (proj1 (Forall_forall _ _) F2 _ Hin) as Hb. simpl in Hb. congruence.
Qed.


Example cpu_a : cpu := mk_cpu (replicate 31 7) (replicate 32 9)
  (<["sp_el1" := 0x8000]> (<["ich_lr0_el2" := bit 62]> (<["elr_el2" := 0x40001000]> ∅)))%string.
Example cpu_b : cpu := mk_cpu (replicate 31 1) (replicate 32 2) (<["sp_el1" := 0x1234]> ∅)%string.




(** The converse: an EL1-accessible register outside the switched set (for
    instance PAR_EL1, AFSR0_EL1, CNTKCTL_EL1 or CNTV_CVAL_EL0) is handed to the next
    guest with the value the previous one left in it. *)
Lemma unswitched_register_leaks vptr v c v1 c1 r :
  r ∉ switched ++ enter_other -> run_enter vptr v c = Ok (v1, c1) ->
  rd_sysreg r c1 = rd_sysreg r c.
Proof.
  intros Hr H. unfold run_enter, restore_el1_sysregs in H. res_inv.
  unfold guest_enter.
  assert (forall l1 l2 k, rd_sysreg r (set_gp (set_qreg k l1) l2) = rd_sysreg r k) as -> by done.
  cbn [msr_all].
  repeat (rewrite rd_wr_ne by (intros ->; apply Hr; apply (bool_decide_eq_true_1 _); by vm_compute)).
  done.
Qed.

(** PAR_EL1, left behind by another guest. *)
Lemma unswitched_register_leaks_witness :
  exists v1 c1,
  run_enter 0x70000100 (vcpu_init 0x40000000 0 0x70040000 1)
    (wr_sysreg "par_el1" 0x80001F80 cpu_a) = Ok (v1, c1) /\
  rd_sysreg "par_el1" c1 = rd_sysreg "par_el1" (wr_sysreg "par_el1" 0x80001F80 cpu_a).
Proof.
  destruct (run_enter_ok 0x70000100 (vcpu_init 0x40000000 0 0x70040000 1)
    (wr_sysreg "par_el1" 0x80001F80 cpu_a) eq_refl) as [[v1 c1] E1].
  exists v1, c1. split; [exact E1|]. refine (unswitched_register_leaks _ _ _ _ _ _ _ E1).
  apply (bool_decide_eq_true_1 _). by vm_compute.
Defined.

Lemma run_enter_cfg vptr v c v1 c1 :
  run_enter vptr v c = Ok (v1, c1) ->
  (vttbr v1, vmpidr v1, vid v1, halted v1) = (vttbr v, vmpidr v, vid v, halted v).
Proof. unfold run_enter. intros H. res_inv. done. Qed.

Lemma run_enter_wf vptr v c v1 c1 :
  fits 64 vptr -> wf_vcpu v -> wf_cpu c -> run_enter vptr v c = Ok (v1, c1) -> wf_cpu c1.
Proof.
  intros Hp (Hx & HFx & Hpc & Hl & HFl & Hq & HB) Hc H. unfold run_enter, restore_el1_sysregs in H.
  cbv zeta in HB. rewrite !Forall_cons in HB. destruct_and!.
  unfold guest_enter in H. res_inv.
  repeat match goal with Hg : aget _ _ = Ok _ |- _ => apply (Forall_aget _ _ _ _ HFl) in Hg end.
  assert (forall k l1 l2, wf_cpu k -> length l1 = 32%nat -> length l2 = 31%nat -> Forall (fits 64) l2 ->
    wf_cpu (set_gp (set_qreg k l1) l2)) as Hset by (intros k l1 l2 (?&?&?&?) ???; by split_and!).
  apply Hset; [|done|unfold len in *; lia|done].
  repeat (apply wf_wr_sysreg; [first [assumption|apply fits_wrap; lia]|]). done.
Qed.

Lemma run_enter_hcr vptr v c v1 c1 :
  run_enter vptr v c = Ok (v1, c1) -> rd_sysreg "hcr_el2" c1 = rd_sysreg "hcr_el2" c.
Proof.
  unfold run_enter. intros H. res_inv.
  assert (forall r l1 l2 k, rd_sysreg r (set_gp (set_qreg k l1) l2) = rd_sysreg r k) as Hset by done.
  unfold restore_el1_sysregs. cbn [msr_all]. rewrite Hset. by sysreg.
Qed.

Section RunOnceTheorems.
Context {W : Type} `{PlatformOk W}.

Lemma run_once_ok vptr v c m w :
  fits 64 vptr -> wf_vcpu v -> wf_cpu c ->
  exists v' c' m' w', vcpu_run_once vptr v c m w = Ok (v', c', m', w') /\ wf_vcpu v' /\ wf_cpu c' /\
    8 <= exit_reason v' < 12 /\
    (vttbr v', vmpidr v', vid v', halted v') = (vttbr v, vmpidr v, vid v, halted v) /\
    rd_sysreg "vttbr_el2" c' = vttbr v /\ rd_sysreg "vmpidr_el2" c' = vmpidr v /\
    rd_sysreg "hcr_el2" c' = rd_sysreg "hcr_el2" c.
Proof.
  intros Hp Hv Hc. unfold vcpu_run_once.
  destruct (run_enter_ok vptr v c) as [[v1 c1] HE]; [apply Hv|]. rewrite HE. cbn [mbind res_bind].
  pose proof (guest_wf c1 m w (run_enter_wf _ _ _ _ _ Hp Hv Hc HE)) as G.
  pose proof (guest_vector c1 m w) as G1.
  pose proof (guest_el2 c1 m w "vttbr_el2"%string ltac:(apply (bool_decide_eq_true_1 _); by vm_compute)) as G5.
  pose proof (guest_el2 c1 m w "vmpidr_el2"%string ltac:(apply (bool_decide_eq_true_1 _); by vm_compute)) as G6.
  pose proof (guest_el2 c1 m w "hcr_el2"%string ltac:(apply (bool_decide_eq_true_1 _); by vm_compute)) as G8.
  pose proof (run_enter_hcr _ _ _ _ _ HE) as G9.
  destruct (pl_guest c1 m w) as [[[idx c2] m2] w2]. cbn [fst snd] in *.
  destruct (run_leave idx v1 c2) as [v' c'] eqn:HL. exists v', c', m2, w2. split; [done|].
  pose proof (enter_context _ _ _ _ _ HE) as (_ & _ & _ & Hvt & Hvm).
  pose proof (run_enter_cfg _ _ _ _ _ HE) as Hcfg. pose proof G as (G2 & G3 & G7 & _).
  destruct Hv as (_ & _ & _ & _ & _ & _ & HB). cbv zeta in HB. rewrite !Forall_cons in HB.
  destruct_and!. injection Hcfg as Hc1 Hc2 Hc3 Hc4.
  unfold run_leave, guest_exit in HL. injection HL as <- <-.
  split; [|split; [apply wf_wr_sysreg; [apply fits_wrap; lia|done]|split; [cbn; lia|
    split; [cbn; congruence|split; [sysreg; congruence|split; sysreg; congruence]]]]].
  split; [cbn; unfold len; by rewrite G2|]. split; [done|]. split; [by apply wf_rd_sysreg|].
  split; [done|]. split; [cbn; sysreg; repeat constructor; by apply wf_rd_sysreg|].
  split; [done|]. cbv zeta. cbn. sysreg. rewrite Hc1, Hc2.
  repeat (apply Forall_cons; split); try apply Forall_nil; try done;
    first [by apply wf_rd_sysreg | unfold fits; lia].
Qed.

(** C36: Running a well-formed vCPU once never faults in the hypervisor; it leaves
    vCPU and processor well formed, records one of the four lower-EL vectors as
    the exit reason, keeps the VM configuration (stage-2 base, affinity, id,
    halted flag), and the guest ran with this vCPU's stage-2 base and affinity,
    which are still in force. *)
Theorem vcpu_run_once_safe vptr v c m w :
  fits 64 vptr -> wf_vcpu v -> wf_cpu c ->
  exists v' c' m' w', vcpu_run_once vptr v c m w = Ok (v', c', m', w') /\ wf_vcpu v' /\ wf_cpu c' /\
    8 <= exit_reason v' < 12 /\
    (vttbr v', vmpidr v', vid v', halted v') = (vttbr v, vmpidr v, vid v, halted v) /\
    rd_sysreg "vttbr_el2" c' = vttbr v /\ rd_sysreg "vmpidr_el2" c' = vmpidr v.
Proof.
  intros Hp Hv Hc. destruct (run_once_ok vptr v c m w Hp Hv Hc) as (v' & c' & m' & w' & ? & ? & ? & ? & ? & ? & ? & _).
  exists v', c', m', w'. auto 10.
Qed.
End RunOnceTheorems.

Lemma zero_vcpu_wf : wf_vcpu zero_vcpu.
Proof.
  split; [done|]. split; [closed_dec|]. split; [closed_dec|]. split; [done|]. split; [closed_dec|].
  split; [done|]. cbv zeta. closed_dec.
Qed.
Lemma vcpu_init_wf entry sp vt id :
  fits 64 entry -> fits 64 sp -> fits 64 vt -> fits 64 id -> wf_vcpu (vcpu_init entry sp vt id).
Proof.
  intros He Hs Hv Hi. destruct zero_vcpu_wf as (H1 & H2 & H3 & H4 & H5 & H6 & H7).
  do 2 (split; [done|]). split; [done|]. split; [done|]. split; [done|]. split; [done|].
  assert (fits 64 (bit 31 .| u64 id)) by (apply fits_lor; [lia|by apply fits_bit|by apply fits_wrap]).
  unfold vcpu_init. cbn. repeat (apply Forall_cons; split; [first [assumption|closed_dec]|]).
  apply Forall_nil; exact I.
Qed.
Definition cpu_boot : cpu := mk_cpu (replicate 31 0) (replicate 32 0) ∅.
Lemma cpu_boot_wf : wf_cpu cpu_boot.
Proof.
  split; [done|]. split; [apply Forall_replicate; by apply fits_0|]. split; [done|].
  apply map_Forall_empty.
Qed.

Lemma vcpu_run_once_safe_witness :
  exists v' c' m' w', vcpu_run_once 0x70000100 (vcpu_init 0x40000000 0 0x1000000070040000 1) cpu_boot ∅
      (mk_script [mk_event 0 [("esr_el2", 0x5A000000); ("elr_el2", 0x40000010)]%string [(0%nat, 3)] []]
        [] [] [] 0) = Ok (v', c', m', w') /\
    wf_vcpu v' /\ wf_cpu c' /\ 8 <= exit_reason v' < 12 /\
    (vttbr v', vmpidr v', vid v', halted v') = (0x1000000070040000, 0x80000001, 1, 0) /\
    rd_sysreg "vttbr_el2" c' = 0x1000000070040000 /\ rd_sysreg "vmpidr_el2" c' = 0x80000001.
Proof.
  apply (vcpu_run_once_safe 0x70000100 (vcpu_init 0x40000000 0 0x1000000070040000 1) cpu_boot ∅);
    [vm_compute; split; congruence|apply vcpu_init_wf; vm_compute; split; congruence|apply cpu_boot_wf].
Defined.

(** Architectural fields of SPSR_EL2 and SCTLR_EL1. *)
Definition spsr_mode (s : Z) : Z := wrap 4 s.
Definition spsr_daif (s : Z) : Z := wrap 4 (s ≫ 6).

(** A freshly initialised vCPU enters the guest at its entry point in EL1h with
    all of D, A, I and F masked, stage-1 MMU and caches off, zeroed registers, no
    virtual interrupt pending, the given stack, stage-2 base and CPU number
    (Aff0), whatever the structure held before. *)
Lemma vcpu_init_entry vptr entry sp vt id c v1 c1 :
  fits 8 id ->
  run_enter vptr (vcpu_init entry sp vt id) c = Ok (v1, c1) ->
  gp c1 = replicate 31 0 /\ qreg c1 = replicate 32 0 /\
  rd_sysreg "elr_el2" c1 = entry /\
  spsr_mode (rd_sysreg "spsr_el2" c1) = 5 /\ spsr_daif (rd_sysreg "spsr_el2" c1) = 15 /\
  Z.testbit (rd_sysreg "sctlr_el1" c1) 0 = false /\ Z.testbit (rd_sysreg "sctlr_el1" c1) 2 = false /\
  Z.testbit (rd_sysreg "sctlr_el1" c1) 12 = false /\
  rd_sysreg "sp_el1" c1 = sp /\ rd_sysreg "vttbr_el2" c1 = vt /\
  wrap 8 (rd_sysreg "vmpidr_el2" c1) = id /\
  (forall r, r ∈ ["ich_lr0_el2"; "ich_lr1_el2"; "ich_lr2_el2"; "ich_lr3_el2"]%string -> rd_sysreg r c1 = 0) /\
  halted v1 = 0.
Proof.
  intros Hid H. pose proof (run_enter_cfg _ _ _ _ _ H) as Hcfg.
  apply enter_context in H as (Hx & Hq & HF & Hvt & Hvm).
  unfold saved_regs in HF. cbv zeta in HF. rewrite !Forall_cons in HF. destruct_and!. cbn in *.
  split; [done|]. split; [done|].
  repeat match goal with E : rd_sysreg _ c1 = _ |- _ => rewrite E; clear E end.
  split_and!; try done.
  - rewrite <- (Z.shiftr_0_r (_ .| _)). unfold bit. rewrite field_skip by lia.
    rewrite Z.shiftr_0_r. zlia.
  - intros r Hr. rewrite !elem_of_cons in Hr.
    destruct Hr as [->|[->|[->|[->|Hr]]]]; [done..|by apply not_elem_of_nil in Hr].
  - congruence.
Qed.

Lemma vcpu_init_entry_witness :
  exists v1 c1, run_enter 0x70000100 (vcpu_init 0x40000000 0x40008000 0x70040000 1) cpu_a = Ok (v1, c1) /\
  rd_sysreg "elr_el2" c1 = 0x40000000 /\ wrap 8 (rd_sysreg "vmpidr_el2" c1) = 1.
Proof.
  destruct (run_enter_ok 0x70000100 (vcpu_init 0x40000000 0x40008000 0x70040000 1) cpu_a eq_refl)
    as [[v1 c1] E]. exists v1, c1. split; [exact E|].
  destruct (vcpu_init_entry 0x70000100 0x40000000 0x40008000 0x70040000 1 cpu_a v1 c1
    ltac:(vm_compute; split; congruence) E) as (_ & _ & H1 & _ & _ & _ & _ & _ & _ & _ & H2 & _).
  split; [exact H1|exact H2].
Defined.

(** A vCPU whose last exit is a given data-abort syndrome, for concrete runs. *)
Definition dabt_vcpu (xs : list Z) (sas srt wnr : Z) : vcpu :=
  mk_vcpu xs 0 0x40080000 0 0 0 (mk_esr EC_DABT_LOW 1 (mk_dabt_iss 1 sas 0 srt 0 0 0 wnr 7)) 0 0
    (fp zero_vcpu) (el1 zero_vcpu) (ich zero_vcpu) 0 0 0 0.
