(* ===== verification/Asm.v ===== *)
(** The AArch64 instructions that src/src/boot.S, src/src/world.S and src/src/vectors.S
    are written in, as an executable semantics on registers and byte-addressed memory, and
    the reasoning the files Reset.v, World.v and Vectors.v share: structures in memory as lists
    of cells, and blocks of stores at fixed offsets from a base. *)

From S2P Require Import Prelude Machine.

(** * Instructions

    [asm] is the state the code runs on: x0..x30, q0..q31, the stack pointer in use
    (SP_EL2), the system registers and memory. *)
Record asm := mk_asm { a_x : list Z; a_q : list Z; a_sp : Z; a_sys : gmap string Z; a_mem : mem }.

Inductive base := SP | X (n : nat).

Inductive instr :=
| SubSp (imm : Z)                              (* sub sp, sp, #imm *)
| AddSp (imm : Z)                              (* add sp, sp, #imm *)
| Mov (d : nat) (imm : Z)                      (* mov xd, #imm *)
| MovFromSp (d : nat)                          (* mov xd, sp *)
| MovToSp (n : nat)                            (* mov sp, xn *)
| Add (d n : nat) (imm : Z)                    (* add xd, xn, #imm *)
| Str (t : nat) (b : base) (off : Z)           (* str xt, [b, #off] *)
| Ldr (t : nat) (b : base) (off : Z)           (* ldr xt, [b, #off] *)
| Stp (t1 t2 : nat) (b : base) (off : Z)       (* stp xt1, xt2, [b, #off] *)
| Ldp (t1 t2 : nat) (b : base) (off : Z)       (* ldp xt1, xt2, [b, #off] *)
| StpQ (t1 t2 : nat) (b : base) (off : Z)      (* stp qt1, qt2, [b, #off] *)
| LdpQ (t1 t2 : nat) (b : base) (off : Z)      (* ldp qt1, qt2, [b, #off] *)
| Mrs (t : nat) (r : string)                   (* mrs xt, r *)
| Msr (r : string) (t : nat)                   (* msr r, xt *)
| And (d n : nat) (imm : Z)                    (* and xd, xn, #imm *)
| Bic (d n : nat) (imm : Z)                    (* bic xd, xn, #imm *)
| Orr (d n : nat) (imm : Z)                    (* orr xd, xn, #imm *)
| StrZ (n : nat) (imm : Z)                     (* str xzr, [xn], #imm *)
| Isb.                                         (* isb *)

Definition xr (s : asm) (n : nat) : Z := nth n (a_x s) 0.
Definition qr (s : asm) (n : nat) : Z := nth n (a_q s) 0.
Definition addr (b : base) (s : asm) : Z := match b with SP => a_sp s | X n => xr s n end.
Definition set_x (n : nat) (v : Z) (s : asm) : asm := mk_asm (<[n := v]> (a_x s)) (a_q s) (a_sp s) (a_sys s) (a_mem s).
Definition set_q (n : nat) (v : Z) (s : asm) : asm := mk_asm (a_x s) (<[n := v]> (a_q s)) (a_sp s) (a_sys s) (a_mem s).
Definition set_sp (v : Z) (s : asm) : asm := mk_asm (a_x s) (a_q s) v (a_sys s) (a_mem s).
Definition set_mem (m : mem) (s : asm) : asm := mk_asm (a_x s) (a_q s) (a_sp s) (a_sys s) m.

Definition step (i : instr) (s : asm) : asm :=
  match i with
  | SubSp n => set_sp (u64 (a_sp s - n)) s
  | AddSp n => set_sp (u64 (a_sp s + n)) s
  | Mov d n => set_x d n s
  | MovFromSp d => set_x d (a_sp s) s
  | MovToSp n => set_sp (xr s n) s
  | Add d n imm => set_x d (u64 (xr s n + imm)) s
  | Str t b o => set_mem (st64 (a_mem s) (addr b s + o) (xr s t)) s
  | Ldr t b o => set_x t (ld64 (a_mem s) (addr b s + o)) s
  | Stp t1 t2 b o => set_mem (st64 (st64 (a_mem s) (addr b s + o) (xr s t1)) (addr b s + (o + 8)) (xr s t2)) s
  | Ldp t1 t2 b o => set_x t2 (ld64 (a_mem s) (addr b s + (o + 8))) (set_x t1 (ld64 (a_mem s) (addr b s + o)) s)
  | StpQ t1 t2 b o => set_mem (store 16 (store 16 (a_mem s) (addr b s + o) (qr s t1)) (addr b s + (o + 16)) (qr s t2)) s
  | LdpQ t1 t2 b o => set_q t2 (load 16 (a_mem s) (addr b s + (o + 16))) (set_q t1 (load 16 (a_mem s) (addr b s + o)) s)
  | Mrs t r => set_x t (default 0 (a_sys s !! r)) s
  | Msr r t => mk_asm (a_x s) (a_q s) (a_sp s) (<[r := xr s t]> (a_sys s)) (a_mem s)
  | And d n imm => set_x d (xr s n .& imm) s
  | Bic d n imm => set_x d (xr s n .& cnot 64 imm) s
  | Orr d n imm => set_x d (xr s n .| imm) s
  | StrZ n imm => set_x n (u64 (xr s n + imm)) (set_mem (st64 (a_mem s) (xr s n) 0) s)
  | Isb => s
  end.

Fixpoint exec (l : list instr) (s : asm) : asm :=
  match l with [] => s | i :: l => exec l (step i s) end.

Lemma exec_app l1 : forall l2 s, exec (l1 ++ l2) s = exec l2 (exec l1 s).
Proof. induction l1 as [|i l1 IH]; intros l2 s; [done|]. apply IH. Qed.

(** The processor of Machine.v, whose stack pointer is the register [sp_el2]. *)
Definition of_cpu (c : cpu) (m : mem) : asm :=
  mk_asm (gp c) (qreg c) (rd_sysreg "sp_el2" c) (delete "sp_el2" (sys c))%string m.

(** * Structures in memory

    A cell is an offset from the structure's base, a size in bytes and a value. *)
Abbreviation cell := (Z * nat * Z)%type.

Definition holds (m : mem) (p : Z) (c : cell) : Prop := let '(o, n, v) := c in load n m (p + o) = v.

(** An array of [n]-byte elements at offset [o]. *)
Fixpoint array (o : Z) (n : nat) (l : list Z) : list cell :=
  match l with [] => [] | v :: l => (o, n, v) :: array (o + Z.of_nat n) n l end.

Fixpoint stores (m : mem) (p : Z) (w : list cell) : mem :=
  match w with [] => m | (o, n, v) :: w => stores (store n m (p + o) v) p w end.

(** The bytes of two cells do not meet; a cell lies in the first [k] bytes. *)
Definition apart (o : Z) (n : nat) (c : cell) : bool :=
  let '(o', n', _) := c in (o + Z.of_nat n <=? o') || (o' + Z.of_nat n' <=? o).
Definition within (k : Z) (c : cell) : bool := let '(o, n, _) := c in (0 <=? o) && (o + Z.of_nat n <=? k).
Definition fit_cell (c : cell) : Prop := let '(_, n, v) := c in fits (8 * Z.of_nat n) v.

(** The value the last store to exactly this cell leaves there, if no later store
    meets it. *)
Fixpoint written (o : Z) (n : nat) (w : list cell) (d : option Z) : option Z :=
  match w with
  | [] => d
  | (o', n', v) :: w =>
      written o n w (if (o' =? o) && (n' =? n)%nat then Some v else if apart o n (o', n', v) then d else None)
  end.

(** Regions [a, a+na) and [b, b+nb) of the address space. *)
Definition separate (a na b nb : Z) : Prop :=
  forall i j, 0 <= i < na -> 0 <= j < nb -> u64 (a + i) <> u64 (b + j).

Lemma in_range_offset n a b : Z.of_nat n < 2 ^ 64 -> in_range (Z.of_nat n) a b ->
  exists i, 0 <= i < Z.of_nat n /\ u64 (a + i) = u64 b.
Proof.
  unfold in_range. intros Hn Hb. exists (u64 (b - a)). split; [split; [apply Z.mod_pos_bound; lia|done]|].
  unfold wrap. rewrite Z.add_mod_idemp_r by lia. f_equal. lia.
Qed.
Lemma separate_sym a na b nb : separate a na b nb -> separate b nb a na.
Proof. intros H i j Hi Hj E. by apply (H j i Hj Hi). Qed.
Lemma separate_sub a na b nb o n o' n' :
  separate a na b nb -> 0 <= o -> o + n <= na -> 0 <= o' -> o' + n' <= nb -> separate (a + o) n (b + o') n'.
Proof.
  intros H H1 H2 H3 H4 i j Hi Hj. rewrite <- !Z.add_assoc. apply H; lia.
Qed.
Lemma separate_disjoint (n k : nat) a b :
  Z.of_nat n < 2 ^ 64 -> Z.of_nat k < 2 ^ 64 -> separate a (Z.of_nat n) b (Z.of_nat k) ->
  disjoint (Z.of_nat n) a (Z.of_nat k) b.
Proof.
  intros Hn Hk Hs x H1 H2. apply in_range_offset in H1 as (i & Hi & E1); [|done].
  apply in_range_offset in H2 as (j & Hj & E2); [|done]. apply (Hs i j Hi Hj). congruence.
Qed.
(** Two ranges at different offsets from one base. *)
Lemma separate_base p o n o' n' :
  0 <= o -> 0 <= o' -> o + n <= 2 ^ 64 -> o' + n' <= 2 ^ 64 -> o + n <= o' \/ o' + n' <= o -> separate (p + o) n (p + o') n'.
Proof. intros. intros i j Hi Hj E. unfold wrap in E. revert E. Z.to_euclidean_division_equations. lia. Qed.

Lemma load_store_apart m p o n o' n' v k :
  k <= 2 ^ 63 -> within k (o, n, 0) = true -> within k (o', n', v) = true -> apart o n (o', n', v) = true ->
  load n (store n' m (p + o') v) (p + o) = load n m (p + o).
Proof.
  unfold within, apart. intros Hk H1 H2 H3.
  apply load_store_disjoint; [lia|lia|]. apply separate_disjoint; [lia|lia|]. apply separate_base; lia.
Qed.

(** Reading back through a block of stores: [k] bounds the structure's size. *)
Section Stores.
Context (p k : Z) (Hk : k <= 2 ^ 63).

Lemma load_stores_out o n w : forall m,
  within k (o, n, 0) = true -> forallb (within k) w = true -> forallb (apart o n) w = true ->
  load n (stores m p w) (p + o) = load n m (p + o).
Proof.
  induction w as [|[[o' n'] v] w IH]; intros m Ho Hw Ha; [done|]. cbn [forallb stores] in *.
  apply andb_prop in Hw as [Hw1 Hw], Ha as [Ha1 Ha]. rewrite IH by done. by apply (load_store_apart _ _ _ _ _ _ _ k).
Qed.

Lemma load_written o n w : forall m d v,
  within k (o, n, 0) = true -> forallb (within k) w = true -> Forall fit_cell w ->
  (forall x, d = Some x -> load n m (p + o) = x) ->
  written o n w d = Some v -> load n (stores m p w) (p + o) = v.
Proof.
  induction w as [|[[o' n'] x] w IH]; intros m d v Ho Hw Hf Hd E; [by apply Hd|]. cbn [forallb stores written] in *.
  apply andb_prop in Hw as [Hw1 Hw]. apply Forall_cons in Hf as [Hf1 Hf].
  eapply IH; [done|done|done| |exact E]. intros y Hy.
  destruct (Z.eqb_spec o' o) as [->|Hne]; cbn [andb] in Hy.
  - destruct (Nat.eqb_spec n' n) as [->|Hne]; cbn [andb] in Hy.
    + injection Hy as <-. rewrite load_store_eq by (unfold within in *; lia). by apply wrap_fits.
    + destruct (apart _ _ _) eqn:Ea; [|done]. rewrite (load_store_apart _ _ _ _ _ _ _ k) by done. by apply Hd.
  - destruct (apart _ _ _) eqn:Ea; [|done]. rewrite (load_store_apart _ _ _ _ _ _ _ k) by done. by apply Hd.
Qed.

(** The cells of a structure after a block of stores to it: [l] if each was stored
    to, and the others if nothing met them. *)
Definition all_written (w l : list cell) : Prop :=
  Forall (fun '(o, n, v) => within k (o, n, 0) = true /\ written o n w None = Some v) l.
Lemma holds_written m w l :
  forallb (within k) w = true -> Forall fit_cell w -> all_written w l -> Forall (holds (stores m p w) p) l.
Proof.
  intros Hw Hf Hl. eapply Forall_impl; [exact Hl|]. intros [[o n] v] [Ho E]. by apply (load_written o n w m None v).
Qed.
Lemma holds_untouched m w l :
  forallb (within k) w = true -> forallb (within k) l = true ->
  forallb (fun '(o, n, _) => forallb (apart o n) w) l = true ->
  Forall (holds m p) l -> Forall (holds (stores m p w) p) l.
Proof.
  intros Hw Hk' Ha Hl. rewrite Forall_forall in *. rewrite !forallb_forall in *. intros [[o n] v] Hin.
  pose proof (Hl _ Hin) as E. cbn in E |- *. apply list_elem_of_In in Hin. rewrite load_stores_out; [done|by apply (Hk' (o, n, v))| |by apply (Ha (o, n, v))].
  by apply forallb_forall.
Qed.
End Stores.

(** Stores to one region do not change the cells of another. *)
Lemma load_stores_sep p k q j w : forall m o n,
  k < 2 ^ 64 -> j < 2 ^ 64 -> separate p k q j -> within k (o, n, 0) = true -> forallb (within j) w = true ->
  load n (stores m q w) (p + o) = load n m (p + o).
Proof.
  induction w as [|[[o' n'] v] w IH]; intros m o n Hk Hj Hs Ho Hw; [done|]. cbn [forallb stores] in *.
  apply andb_prop in Hw as [Hw1 Hw]. rewrite IH by done. unfold within in *.
  apply load_store_disjoint; [lia|lia|]. apply separate_disjoint; [lia|lia|]. eapply separate_sub; [done|lia..].
Qed.
Lemma holds_sep p k q j w m l :
  k < 2 ^ 64 -> j < 2 ^ 64 -> separate p k q j -> forallb (within k) l = true -> forallb (within j) w = true ->
  Forall (holds m p) l -> Forall (holds (stores m q w) p) l.
Proof.
  intros Hk Hj Hs Hl Hw HF. rewrite Forall_forall in *. rewrite forallb_forall in Hl. intros [[o n] v] Hin.
  pose proof (HF _ Hin) as E. cbn in E |- *. rewrite (load_stores_sep p k q j); try done. apply (Hl (o, n, v)). by apply list_elem_of_In.
Qed.
(** Memory outside the regions that were stored to is unchanged. *)
Lemma rd8_stores_out q j w : forall m b,
  j < 2 ^ 64 -> ~ in_range j q b -> forallb (within j) w = true -> rd8 (stores m q w) b = rd8 m b.
Proof.
  induction w as [|[[o' n'] v] w IH]; intros m b Hj Hb Hw; [done|]. cbn [forallb stores] in *.
  apply andb_prop in Hw as [Hw1 Hw]. rewrite IH by done. unfold within in *. apply rd8_store_out; [lia|].
  intros Hin. apply Hb. unfold in_range in *. unfold wrap in *. revert Hin. Z.to_euclidean_division_equations. lia.
Qed.

(** Cells that hold in two memories that agree on a region. *)
Definition agree (p k : Z) (m m' : mem) : Prop := forall b, in_range k p b -> rd8 m' b = rd8 m b.
Lemma holds_agree p k m m' l :
  k <= 2 ^ 63 -> agree p k m m' -> forallb (within k) l = true -> Forall (holds m p) l -> Forall (holds m' p) l.
Proof.
  intros Hk Ha Hl HF. rewrite Forall_forall in *. rewrite forallb_forall in Hl. intros [[o n] v] Hin.
  pose proof (HF _ Hin) as E. cbn in E |- *. rewrite <- E. apply list_elem_of_In, Hl in Hin. unfold within in Hin.
  apply load_ext; [lia|]. intros b Hb. apply Ha. unfold in_range, wrap in *. revert Hb. Z.to_euclidean_division_equations. lia.
Qed.

(** The values of an array read back as a list. *)
Lemma array_read m p o n l :
  Forall (holds m p) (array o n l) -> l = map (fun i => load n m (p + (o + Z.of_nat n * Z.of_nat i))) (seq 0 (length l)).
Proof.
  revert o. induction l as [|v l IH]; intros o H; [done|]. cbn [array length seq map] in *.
  apply Forall_cons in H as [H1 H2]. cbn in H1. f_equal.
  - rewrite <- H1. do 2 f_equal. lia.
  - rewrite (IH _ H2) at 1. rewrite <- seq_shift, map_map. apply map_ext. intros i. do 2 f_equal. lia.
Qed.

(** A list of known length as an explicit list. *)
Ltac regs H :=
  lazymatch type of H with
  | length ?l = O => apply nil_length_inv in H; subst l
  | length (_ :: _) = _ => cbn [length] in H; repeat apply eq_add_S in H; regs H
  | length ?l = S _ =>
      let a := fresh "x" in
      destruct l as [|a l]; [discriminate H|]; cbn [length] in H; apply eq_add_S in H; regs H
  end.
