(* ===== verification/Reset.v ===== *)
(** The reset code (src/src/boot.S): secondary processors park, the primary one gets a
    stack, FP/SIMD and GIC access at EL2 and a cleared BSS, and calls hv_main. *)

From S2P Require Import Prelude Machine Asm.

(** The symbols of the linker script. *)
Record image := mk_image { im_stack_top : Z; im_bss_start : Z; im_bss_end : Z }.

(** * The code, by basic block *)
Definition start_head : list instr := [Mrs 0 "mpidr_el1"; And 0 0 0xff]%string.
Definition start_setup (im : image) : list instr := [
  Mov 0 (im_stack_top im); MovToSp 0;
  Mrs 0 "cptr_el2"; Bic 0 0 (bit 10); Msr "cptr_el2" 0; Isb;
  Mrs 0 "icc_sre_el2"; Orr 0 0 (bit 0); Orr 0 0 (bit 3); Msr "icc_sre_el2" 0; Isb;
  Mov 0 (im_bss_start im); Mov 1 (im_bss_end im)]%string.

(** [1: cmp x0, x1; b.hs 2f; str xzr, [x0], #8; b 1b] *)
Fixpoint zero_bss (fuel : nat) (s : asm) : option asm :=
  match fuel with
  | O => None
  | S n => if xr s 1 <=? xr s 0 then Some s else zero_bss n (exec [StrZ 0 8] s)
  end.

(** [_start]: the state in which hv_main is called, or [Parked] in the wfe loop; [None]
    when the fuel of the loop is spent. *)
Inductive outcome := HvMain (s : asm) | Parked.
Definition start (im : image) (fuel : nat) (s : asm) : option outcome :=
  let s := exec start_head s in
  if xr s 0 =? 0 then option_map HvMain (zero_bss fuel (exec (start_setup im) s)) else Some Parked.

(** * The loop *)
#[export] Instance in_range_dec n a b : Decision (in_range n a b).
Proof. unfold in_range. apply _. Defined.
Definition zeroed (a n : Z) (m m' : mem) : Prop :=
  forall b, rd8 m' b = if decide (in_range n a b) then 0 else rd8 m b.

Lemma rd8_store0 n : forall m a b, Z.of_nat n < 2 ^ 64 ->
  rd8 (store n m a 0) b = if decide (in_range (Z.of_nat n) a b) then 0 else rd8 m b.
Proof.
  induction n as [|n IH]; intros m a b Hn.
  { rewrite decide_False; [done|]. unfold in_range. zlia. }
  cbn [store]. rewrite Zdiv_0_l, IH by lia. rewrite Nat2Z.inj_succ in *.
  destruct (decide (u64 a = u64 b)) as [E|E].
  - rewrite (decide_True (P := in_range (Z.succ _) _ _)) by (apply in_range_step; [lia|lia|by right]).
    case_decide; [done|]. unfold rd8, wr8. by rewrite E, lookup_insert_eq.
  - rewrite rd8_wr8_ne by done. apply decide_ext. split; intros H.
    + apply in_range_step; [lia|lia|by left].
    + revert E H. unfold in_range. zlia.
Qed.

(** [k] more steps clear [8 * k] bytes from x0. *)
Lemma zero_bss_steps k : forall fuel a e x q sp s m,
  0 <= a -> a + 8 * Z.of_nat k < 2 ^ 64 -> (Z.of_nat k = 0 \/ a + 8 * (Z.of_nat k - 1) < e) -> e <= a + 8 * Z.of_nat k ->
  (k < fuel)%nat ->
  exists m', zero_bss fuel (mk_asm (a :: e :: x) q sp s m) = Some (mk_asm (a + 8 * Z.of_nat k :: e :: x) q sp s m') /\
    zeroed a (8 * Z.of_nat k) m m'.
Proof.
  induction k as [|k IH]; intros fuel a e x q sp s m Ha Hb H1 H2 Hf; (destruct fuel as [|fuel]; [lia|]); cbn [zero_bss].
  - cbn [xr a_x nth]. destruct (Z.leb_spec e a); [|lia]. exists m. split; [by rewrite Z.add_0_r|].
    intros b. rewrite decide_False; [done|]. unfold in_range. zlia.
  - cbn [xr a_x nth]. destruct (Z.leb_spec e a); [lia|].
    change (exec [StrZ 0 8] _) with (mk_asm (u64 (a + 8) :: e :: x) q sp s (st64 m a 0)).
    rewrite (wrap_fits 64 (a + 8)) by (unfold fits; lia).
    destruct (IH fuel (a + 8) e x q sp s (st64 m a 0)) as (m' & -> & Hz); [lia..|]. exists m'.
    split; [do 3 f_equal; lia|]. intros b. rewrite Hz, rd8_store0 by lia. change (Z.of_nat 8) with 8.
    destruct (decide (in_range (8 * Z.of_nat (S k)) a b)) as [Hin|Hin];
      destruct (decide (in_range (8 * Z.of_nat k) (a + 8) b)) as [H3|H3];
      try destruct (decide (in_range 8 a b)) as [H4|H4]; try done; exfalso; revert Hin H3; try revert H4; unfold in_range; zlia.
Qed.

(** * Reset *)
Definition rd_sys (s : asm) (r : string) : Z := default 0 (a_sys s !! r).

Lemma head_exec s : length (a_x s) = 31%nat -> xr (exec start_head s) 0 = wrap 8 (rd_sys s "mpidr_el1").
Proof.
  destruct s as [x q sp sy m]. cbn [a_x]. intros Hx. rewrite <- land_ones_wrap by lia. regs Hx. reflexivity.
Qed.
Lemma setup_exec im s :
  length (a_x s) = 31%nat ->
  exec (start_setup im) (exec start_head s) =
  mk_asm (im_bss_start im :: im_bss_end im :: drop 2 (a_x s)) (a_q s) (im_stack_top im)
    (<["icc_sre_el2" := default 0 (<["cptr_el2" := rd_sys s "cptr_el2" .& cnot 64 (bit 10)]> (a_sys s) !! "icc_sre_el2") .| bit 0 .| bit 3]>
      (<["cptr_el2" := rd_sys s "cptr_el2" .& cnot 64 (bit 10)]> (a_sys s)))%string (a_mem s).
Proof. destruct s as [x q sp sy m]. cbn [a_x]. intros Hx. regs Hx. reflexivity. Qed.

(** C23: The reset code is correct for every layout of the image.  A secondary processor
    parks.  The primary one reaches hv_main: the loop over the BSS terminates (after
    [(__bss_end - __bss_start + 7) / 8] stores, whatever larger fuel is given), the stack pointer
    is the linker's stack top, CPTR_EL2 differs only in a cleared TFP bit, ICC_SRE_EL2 only in
    the SRE and Enable bits, which are set, and memory only in the bytes from __bss_start to
    __bss_end rounded up to a multiple of eight bytes, which are zero. *)
Theorem start_reaches_main im s fuel :
  length (a_x s) = 31%nat -> 0 <= im_bss_start im <= im_bss_end im -> im_bss_end im + 8 <= 2 ^ 64 ->
  (Z.to_nat ((im_bss_end im - im_bss_start im + 7) / 8) < fuel)%nat ->
  fits 64 (rd_sys s "cptr_el2") ->
  if decide (wrap 8 (rd_sys s "mpidr_el1") = 0) then
    exists s', start im fuel s = Some (HvMain s') /\ a_sp s' = im_stack_top im /\
      (forall i, 0 <= i -> Z.testbit (rd_sys s' "cptr_el2") i = negb (i =? 10) && Z.testbit (rd_sys s "cptr_el2") i) /\
      (forall i, 0 <= i -> Z.testbit (rd_sys s' "icc_sre_el2") i = (i =? 0) || (i =? 3) || Z.testbit (rd_sys s "icc_sre_el2") i) /\
      (forall r, r <> "cptr_el2"%string -> r <> "icc_sre_el2"%string -> rd_sys s' r = rd_sys s r) /\
      zeroed (im_bss_start im) (8 * ((im_bss_end im - im_bss_start im + 7) / 8)) (a_mem s) (a_mem s')
  else start im fuel s = Some Parked.
Proof.
  intros Hx Hb He Hf Hc. unfold start. rewrite head_exec by done. case_decide as Hm.
  2: { by rewrite (proj2 (Z.eqb_neq _ _)). }
  rewrite Hm. cbn [Z.eqb]. rewrite setup_exec by done.
  set (k := (im_bss_end im - im_bss_start im + 7) / 8) in *.
  assert (0 <= k /\ im_bss_end im - im_bss_start im <= 8 * k <= im_bss_end im - im_bss_start im + 7) as [Hk0 Hk]
    by (unfold k; Z.to_euclidean_division_equations; lia).
  edestruct (zero_bss_steps (Z.to_nat k) fuel (im_bss_start im) (im_bss_end im)) as (m' & -> & Hz); [lia..|].
  rewrite Z2Nat.id in Hz by done. eexists. split; [reflexivity|]. split; [reflexivity|].
  unfold rd_sys. cbn [a_sys a_mem]. split; [|split; [|split; [|exact Hz]]].
  - intros i Hi. rewrite lookup_insert_ne, lookup_insert_eq by done. cbn [from_option id].
    rewrite Z.land_spec, testbit_cnot, testbit_bit by lia. destruct (Z.ltb_spec i 64); cbn [andb]; [by rewrite andb_comm|].
    rewrite andb_false_r. symmetry. apply andb_false_intro2. by apply (testbit_fits 64).
  - intros i Hi. rewrite lookup_insert_eq, lookup_insert_ne by done. cbn [from_option id].
    rewrite !Z.lor_spec, !testbit_bit by lia. by rewrite <- orb_assoc, orb_comm.
  - intros r H1 H2. by rewrite !lookup_insert_ne.
Qed.

(** A BSS of 20 bytes: three stores clear 24. *)
Lemma start_reaches_main_witness :
  exists s', start (mk_image 0x70090000 0x70080000 0x70080014) 4
      (mk_asm (replicate 31 1) [] 0 (<["mpidr_el1" := 0x80000000]> (<["cptr_el2" := 0x33FF]> ∅))%string (store 4 ∅ 0x70080014 0xFFFFFFFF))
    = Some (HvMain s') /\ a_sp s' = 0x70090000 /\
    (forall i, 0 <= i -> Z.testbit (rd_sys s' "cptr_el2") i = negb (i =? 10) && Z.testbit 0x33FF i).
Proof.
  pose proof (start_reaches_main (mk_image 0x70090000 0x70080000 0x70080014)
    (mk_asm (replicate 31 1) [] 0 (<["mpidr_el1" := 0x80000000]> (<["cptr_el2" := 0x33FF]> ∅))%string (store 4 ∅ 0x70080014 0xFFFFFFFF))
    4 eq_refl ltac:(cbn; lia) ltac:(cbn; lia) ltac:(vm_compute; lia) ltac:(fits_const)) as H.
  rewrite decide_True in H by reflexivity. destruct H as (s' & E & Hsp & Hc & _).
  exists s'. split; [exact E|]. split; [exact Hsp|exact Hc].
Defined.
