(* ===== verification/World.v ===== *)
(** The world switch, instruction by instruction (src/src/world.S and the guest-exit
    stubs of src/src/vectors.S).

    [guest_enter_code] and [guest_exit_code] are the two routines of world.S and
    [VEC_GUEST] the stub of the lower-EL vectors.  They run on byte-addressed memory
    that holds a [vcpu_t] at the offsets of the C struct ([vcpu_at]) and are shown to
    compute [guest_enter] and [guest_exit] of Vcpu.v, which the other files use, and
    to return to the C caller with its stack and callee-saved registers. *)

From S2P Require Import Prelude Machine Vcpu Asm.

(** * The code *)
Definition guest_enter_code : list instr := [
  SubSp 96;
  Stp 19 20 SP 0; Stp 21 22 SP 16; Stp 23 24 SP 32; Stp 25 26 SP 48; Stp 27 28 SP 64; Stp 29 30 SP 80;
  Msr "tpidr_el2" 0; MovFromSp 1; Str 1 (X 0) VCPU_HYP_SP;
  Ldr 1 (X 0) VCPU_PC; Msr "elr_el2" 1;
  Ldr 1 (X 0) VCPU_PSTATE; Msr "spsr_el2" 1;
  Ldr 1 (X 0) VCPU_SP_EL0; Msr "sp_el0" 1;
  Isb;
  Add 1 0 VCPU_FP;
  LdpQ 0 1 (X 1) 0; LdpQ 2 3 (X 1) 32; LdpQ 4 5 (X 1) 64; LdpQ 6 7 (X 1) 96;
  LdpQ 8 9 (X 1) 128; LdpQ 10 11 (X 1) 160; LdpQ 12 13 (X 1) 192; LdpQ 14 15 (X 1) 224;
  LdpQ 16 17 (X 1) 256; LdpQ 18 19 (X 1) 288; LdpQ 20 21 (X 1) 320; LdpQ 22 23 (X 1) 352;
  LdpQ 24 25 (X 1) 384; LdpQ 26 27 (X 1) 416; LdpQ 28 29 (X 1) 448; LdpQ 30 31 (X 1) 480;
  Ldr 1 (X 0) VCPU_FPSR; Msr "fpsr" 1;
  Ldr 1 (X 0) VCPU_FPCR; Msr "fpcr" 1;
  Ldr 1 (X 0) 8;
  Ldp 2 3 (X 0) 16; Ldp 4 5 (X 0) 32; Ldp 6 7 (X 0) 48; Ldp 8 9 (X 0) 64; Ldp 10 11 (X 0) 80;
  Ldp 12 13 (X 0) 96; Ldp 14 15 (X 0) 112; Ldp 16 17 (X 0) 128; Ldp 18 19 (X 0) 144;
  Ldp 20 21 (X 0) 160; Ldp 22 23 (X 0) 176; Ldp 24 25 (X 0) 192; Ldp 26 27 (X 0) 208;
  Ldp 28 29 (X 0) 224; Ldr 30 (X 0) 240; Ldr 0 (X 0) 0]%string.

(** The stub of a lower-EL AArch64 vector, up to its branch to [__guest_exit]. *)
Definition VEC_GUEST (idx : Z) : list instr := [
  SubSp 16; Stp 0 1 SP 0; Mrs 0 "tpidr_el2"; Mov 1 idx; Str 1 (X 0) VCPU_EXIT_REASON]%string.

Definition guest_exit_code : list instr := [
  Stp 2 3 (X 0) 16; Stp 4 5 (X 0) 32; Stp 6 7 (X 0) 48; Stp 8 9 (X 0) 64; Stp 10 11 (X 0) 80;
  Stp 12 13 (X 0) 96; Stp 14 15 (X 0) 112; Stp 16 17 (X 0) 128; Stp 18 19 (X 0) 144;
  Stp 20 21 (X 0) 160; Stp 22 23 (X 0) 176; Stp 24 25 (X 0) 192; Stp 26 27 (X 0) 208;
  Stp 28 29 (X 0) 224; Str 30 (X 0) 240;
  Ldp 2 3 SP 0; Str 2 (X 0) 0; Str 3 (X 0) 8;
  Mrs 1 "sp_el0"; Str 1 (X 0) VCPU_SP_EL0;
  Mrs 1 "elr_el2"; Str 1 (X 0) VCPU_PC;
  Mrs 1 "spsr_el2"; Str 1 (X 0) VCPU_PSTATE;
  Mrs 1 "esr_el2"; Str 1 (X 0) VCPU_EXIT_ESR;
  Mrs 1 "far_el2"; Str 1 (X 0) VCPU_EXIT_FAR;
  Mrs 1 "hpfar_el2"; Str 1 (X 0) VCPU_EXIT_HPFAR;
  Add 1 0 VCPU_FP;
  StpQ 0 1 (X 1) 0; StpQ 2 3 (X 1) 32; StpQ 4 5 (X 1) 64; StpQ 6 7 (X 1) 96;
  StpQ 8 9 (X 1) 128; StpQ 10 11 (X 1) 160; StpQ 12 13 (X 1) 192; StpQ 14 15 (X 1) 224;
  StpQ 16 17 (X 1) 256; StpQ 18 19 (X 1) 288; StpQ 20 21 (X 1) 320; StpQ 22 23 (X 1) 352;
  StpQ 24 25 (X 1) 384; StpQ 26 27 (X 1) 416; StpQ 28 29 (X 1) 448; StpQ 30 31 (X 1) 480;
  Mrs 1 "fpsr"; Str 1 (X 0) VCPU_FPSR;
  Mrs 1 "fpcr"; Str 1 (X 0) VCPU_FPCR;
  Ldr 1 (X 0) VCPU_HYP_SP; MovToSp 1;
  Ldp 19 20 SP 0; Ldp 21 22 SP 16; Ldp 23 24 SP 32; Ldp 25 26 SP 48; Ldp 27 28 SP 64; Ldp 29 30 SP 80;
  AddSp 96]%string.

(** * The structures in memory

    A [vcpu_t] at [p]: each field, in its C size, at its offset in the struct. *)
Definition vcpu_values (v : vcpu) : list (string * nat * list Z) :=
  let e := el1 v in [
  ("x", 8%nat, xregs v); ("sp_el0", 8%nat, [sp_el0 v]); ("pc", 8%nat, [pc v]); ("pstate", 8%nat, [pstate v]);
  ("hyp_sp", 8%nat, [hyp_sp v]); ("exit_reason", 8%nat, [exit_reason v]); ("exit_esr", 8%nat, [exit_esr v]);
  ("exit_far", 8%nat, [exit_far v]); ("exit_hpfar", 8%nat, [exit_hpfar v]);
  ("q", 16%nat, fp_q (fp v)); ("fpsr", 8%nat, [fp_fpsr (fp v)]); ("fpcr", 8%nat, [fp_fpcr (fp v)]);
  ("el1", 8%nat, [sctlr_el1 e; cpacr_el1 e; ttbr0_el1 e; ttbr1_el1 e; tcr_el1 e; mair_el1 e; amair_el1 e;
     vbar_el1 e; contextidr_el1 e; sp_el1 e; elr_el1 e; spsr_el1 e; esr_el1 e; far_el1 e; tpidr_el0 e;
     tpidrro_el0 e; tpidr_el1 e]);
  ("ich_lr", 8%nat, ich_lr (ich v)); ("ich_vmcr", 8%nat, [ich_vmcr (ich v)]); ("ich_ap1r0", 8%nat, [ich_ap1r0 (ich v)]);
  ("vttbr", 8%nat, [vttbr v]); ("vmpidr", 8%nat, [vmpidr v]); ("id", 4%nat, [vid v]); ("halted", 4%nat, [halted v])]%string.
Definition fields_at (l : list (string * nat * list Z)) : list cell :=
  concat (map (fun '(f, n, l) => array (default 0 (offsetof f vcpu_layout 0)) n l) l).
Definition vcpu_cells (v : vcpu) : list cell := fields_at (vcpu_values v).
Definition vcpu_at (m : mem) (p : Z) (v : vcpu) : Prop := Forall (holds m p) (vcpu_cells v).

Lemma fields_at_app l1 l2 : fields_at (l1 ++ l2) = fields_at l1 ++ fields_at l2.
Proof. unfold fields_at. by rewrite map_app, concat_app. Qed.

(** The fields the assembly reads or writes one by one, and the rest of the struct
    (EL1 bank, virtual GIC, identification), which only C code touches. *)
Definition c_fields (v : vcpu) : list cell := fields_at (drop 12 (vcpu_values v)).
Lemma vcpu_parts (P : cell -> Prop) v :
  Forall P (vcpu_cells v) <->
  Forall P (array VCPU_X 8 (xregs v)) /\ P (VCPU_SP_EL0, 8%nat, sp_el0 v) /\ P (VCPU_PC, 8%nat, pc v) /\
  P (VCPU_PSTATE, 8%nat, pstate v) /\ P (VCPU_HYP_SP, 8%nat, hyp_sp v) /\ P (VCPU_EXIT_REASON, 8%nat, exit_reason v) /\
  P (VCPU_EXIT_ESR, 8%nat, exit_esr v) /\ P (VCPU_EXIT_FAR, 8%nat, exit_far v) /\ P (VCPU_EXIT_HPFAR, 8%nat, exit_hpfar v) /\
  Forall P (array VCPU_FP 16 (fp_q (fp v))) /\ P (VCPU_FPSR, 8%nat, fp_fpsr (fp v)) /\ P (VCPU_FPCR, 8%nat, fp_fpcr (fp v)) /\
  Forall P (c_fields v).
Proof.
  unfold vcpu_cells. rewrite <- (take_drop 12 (vcpu_values v)), fields_at_app at 1. fold (c_fields v).
  generalize (c_fields v) as rest. intros rest.
  change (fields_at (take 12 (vcpu_values v))) with
    (array VCPU_X 8 (xregs v) ++ [(VCPU_SP_EL0, 8%nat, sp_el0 v); (VCPU_PC, 8%nat, pc v); (VCPU_PSTATE, 8%nat, pstate v);
       (VCPU_HYP_SP, 8%nat, hyp_sp v); (VCPU_EXIT_REASON, 8%nat, exit_reason v); (VCPU_EXIT_ESR, 8%nat, exit_esr v);
       (VCPU_EXIT_FAR, 8%nat, exit_far v); (VCPU_EXIT_HPFAR, 8%nat, exit_hpfar v)] ++ array VCPU_FP 16 (fp_q (fp v)) ++
     [(VCPU_FPSR, 8%nat, fp_fpsr (fp v)); (VCPU_FPCR, 8%nat, fp_fpcr (fp v))]).
  rewrite !Forall_app, !Forall_cons. pose proof (Forall_nil P). tauto.
Qed.

(** The 96-byte frame in which [__guest_enter] keeps the callee-saved registers
    x19..x28, the frame pointer and the return address. *)
Definition callee_at (m : mem) (p : Z) (x : list Z) : Prop := Forall (holds m p) (array 0 8 (drop 19 x)).

(** Array sizes of the struct (vcpu.h). *)
Definition sized (v : vcpu) : Prop :=
  length (xregs v) = 31%nat /\ length (fp_q (fp v)) = 32%nat /\ length (ich_lr (ich v)) = 4%nat.
Lemma wf_sized v : wf_vcpu v -> sized v.
Proof. intros (H1 & _ & _ & H2 & _ & H3 & _). unfold len in *. split_and!; [lia|done|lia]. Qed.

(** * Blocks of the code *)
Definition q_stores : list instr := take 16 (drop 31 guest_exit_code).
Lemma q_stores_exec x q sp s m :
  length q = 32%nat -> exec q_stores (mk_asm x q sp s m) = mk_asm x q sp s (stores m (nth 1 x 0) (array 0 16 q)).
Proof. intros Hq. regs Hq. reflexivity. Qed.

(** The stub and the saving of x2..x30. *)
Lemma exit_saves_exec idx x q sp s m :
  length x = 31%nat ->
  exec (VEC_GUEST idx ++ take 15 guest_exit_code) (mk_asm x q sp s m) =
  mk_asm (default 0 (s !! "tpidr_el2"%string) :: idx :: drop 2 x) q (u64 (sp - 16)) s
    (stores (stores m (u64 (sp - 16)) (array 0 8 (take 2 x)))
       (default 0 (s !! "tpidr_el2"%string)) ((VCPU_EXIT_REASON, 8%nat, idx) :: array 16 8 (drop 2 x))).
Proof. intros Hx. regs Hx. reflexivity. Qed.

(** Guest x0 and x1 from the stub's slot, the return state and the syndrome. *)
Definition reg_values (names : list string) (s : gmap string Z) : list Z := map (fun r => default 0 (s !! r)) names.
Definition put_cells (offs vals : list Z) : list cell := zip_with (fun o v => (o, 8%nat, v)) offs vals.
Definition syndrome_offs : list Z := [VCPU_SP_EL0; VCPU_PC; VCPU_PSTATE; VCPU_EXIT_ESR; VCPU_EXIT_FAR; VCPU_EXIT_HPFAR].
Definition syndrome_regs : list string := ["sp_el0"; "elr_el2"; "spsr_el2"; "esr_el2"; "far_el2"; "hpfar_el2"]%string.
Definition fp_offs : list Z := [VCPU_FPSR; VCPU_FPCR].
Definition fp_regs : list string := ["fpsr"; "fpcr"]%string.

Lemma exit_syndrome_exec p y x q sp s m :
  length x = 29%nat ->
  exec (take 16 (drop 15 guest_exit_code)) (mk_asm (p :: y :: x) q sp s m) =
  mk_asm (p :: u64 (p + VCPU_FP) :: ld64 m (sp + 0) :: ld64 m (sp + 8) :: drop 2 x) q sp s
    (stores m p ((0, 8%nat, ld64 m (sp + 0)) :: (8, 8%nat, ld64 m (sp + 8)) :: put_cells syndrome_offs (reg_values syndrome_regs s))).
Proof. intros Hx. regs Hx. reflexivity. Qed.

(** FPSR and FPCR, then back to the hypervisor's frame. *)
Lemma exit_return_exec p y x q sp s m :
  length x = 29%nat ->
  let m' := stores m p (put_cells fp_offs (reg_values fp_regs s)) in
  let hsp := ld64 m' (p + VCPU_HYP_SP) in
  exec (drop 47 guest_exit_code) (mk_asm (p :: y :: x) q sp s m) =
  mk_asm (p :: hsp :: take 17 x ++ map (fun i => ld64 m' (hsp + (0 + 8 * Z.of_nat i))) (seq 0 12)) q (u64 (hsp + 96)) s m'.
Proof. intros Hx. regs Hx. reflexivity. Qed.

(** The whole exit path, with its stores to the structure in order. *)
Definition shift (d : Z) (w : list cell) : list cell := map (fun '(o, n, v) => (d + o, n, v)) w.
Definition exit_cells (idx : Z) (x q syn fps : list Z) : list cell :=
  ((VCPU_EXIT_REASON, 8%nat, idx) :: array 16 8 (drop 2 x)) ++ (array 0 8 (take 2 x) ++ put_cells syndrome_offs syn) ++
  shift VCPU_FP (array 0 16 q) ++ put_cells fp_offs fps.

Lemma stores_app w1 : forall m p w2, stores m p (w1 ++ w2) = stores (stores m p w1) p w2.
Proof. induction w1 as [|[[o n] v] w1 IH]; intros m p w2; [done|]. apply IH. Qed.
Lemma store_mod n : forall m a b v, u64 a = u64 b -> store n m a v = store n m b v.
Proof.
  induction n as [|n IH]; intros m a b v E; [done|]. cbn [store]. unfold wr8 at 1 2. rewrite E. apply IH.
  rewrite <- (wrap_add_l 64 a), <- (wrap_add_l 64 b). by rewrite E.
Qed.
Lemma stores_shift d w : forall m p, stores m (u64 (p + d)) w = stores m p (shift d w).
Proof.
  induction w as [|[[o n] v] w IH]; intros m p; [done|]. cbn [stores shift map].
  rewrite (store_mod n m (u64 (p + d) + o) (p + (d + o))); [apply IH|]. rewrite wrap_add_l. f_equal. lia.
Qed.

(** The stub's slot still holds guest x0 and x1 when they are fetched. *)
Lemma stub_slot m p sp w x0 x1 :
  separate p sizeof_vcpu sp 16 -> fits 64 x0 -> fits 64 x1 -> forallb (within sizeof_vcpu) w = true ->
  let m' := stores (stores m sp (array 0 8 [x0; x1])) p w in ld64 m' (sp + 0) = x0 /\ ld64 m' (sp + 8) = x1.
Proof.
  intros Hs H0 H1 Hw m'.
  assert (Forall (holds m' sp) (array 0 8 [x0; x1])) as H.
  { apply (holds_sep _ 16 _ sizeof_vcpu); [done|done|by apply separate_sym|done|done|].
    apply (holds_written _ 16); [done|done| |]; repeat constructor; apply H0 || apply H1. }
  cbn [array] in H. apply Forall_cons in H as [H2 H]. apply Forall_cons in H as [H3 _]. by split.
Qed.

Lemma exit_exec idx x q sp s m :
  length x = 31%nat -> length q = 32%nat -> Forall (fits 64) x ->
  let p := default 0 (s !! "tpidr_el2"%string) in
  separate p sizeof_vcpu (u64 (sp - 16)) 16 ->
  let m' := stores (stores m (u64 (sp - 16)) (array 0 8 (take 2 x))) p
              (exit_cells idx x q (reg_values syndrome_regs s) (reg_values fp_regs s)) in
  let hsp := ld64 m' (p + VCPU_HYP_SP) in
  exists y, exec (VEC_GUEST idx ++ guest_exit_code) (mk_asm x q sp s m) =
    mk_asm (y ++ map (fun i => ld64 m' (hsp + (0 + 8 * Z.of_nat i))) (seq 0 12)) q (u64 (hsp + 96)) s m' /\
    length y = 19%nat.
Proof.
  intros Hx Hq HF p Hs. cbv zeta.
  change (VEC_GUEST idx ++ guest_exit_code) with
    ((VEC_GUEST idx ++ take 15 guest_exit_code) ++ take 16 (drop 15 guest_exit_code) ++ q_stores ++ drop 47 guest_exit_code).
  rewrite exec_app, exit_saves_exec by done. fold p. rewrite exec_app, exit_syndrome_exec by (rewrite length_drop; lia).
  destruct x as [|x0 [|x1 [|x2 [|x3 x]]]]; try discriminate Hx.
  apply Forall_cons in HF as [H0 HF]. apply Forall_cons in HF as [H1 HF]. cbn [take drop].
  assert (forallb (within sizeof_vcpu) ((VCPU_EXIT_REASON, 8%nat, idx) :: array 16 8 (x2 :: x3 :: x)) = true) as Hw
    by (clear -Hx; by regs Hx).
  destruct (stub_slot m p _ _ x0 x1 Hs H0 H1 Hw) as [-> ->]. clear Hw.
  rewrite exec_app, q_stores_exec by done. cbn [nth]. rewrite stores_shift.
  cbn [length] in Hx.
  cbn [drop]. rewrite drop_0, exit_return_exec by (cbn [length]; lia). cbv zeta. rewrite <- !stores_app.
  eexists (_ :: _ :: _). split; [reflexivity|]. cbn [length take]. rewrite length_take. lia.
Qed.

(** ** The structure after the exit path *)
Lemma array_fit n l : forall o, Forall (fits (8 * Z.of_nat n)) l -> Forall fit_cell (array o n l).
Proof.
  induction l as [|v l IH]; intros o H; [by apply Forall_nil|]. apply Forall_cons in H as [Hv H].
  apply Forall_cons. split; [done|by apply IH].
Qed.
Lemma put_cells_fit offs : forall vals, Forall (fits 64) vals -> Forall fit_cell (put_cells offs vals).
Proof.
  induction offs as [|o offs IH]; intros [|v vals] H; [by apply Forall_nil..|]. apply Forall_cons in H as [Hv H].
  apply Forall_cons. split; [done|by apply IH].
Qed.
Lemma exit_cells_within idx x q syn fps :
  length x = 31%nat -> length q = 32%nat -> length syn = 6%nat -> length fps = 2%nat ->
  forallb (within sizeof_vcpu) (exit_cells idx x q syn fps) = true.
Proof. intros H1 H2 H3 H4. regs H1. regs H2. regs H3. regs H4. reflexivity. Qed.

Lemma exit_cells_fit idx x q syn fps :
  fits 64 idx -> Forall (fits 64) x -> Forall (fits 128) q -> Forall (fits 64) syn -> Forall (fits 64) fps ->
  Forall fit_cell (exit_cells idx x q syn fps).
Proof.
  intros. unfold exit_cells. apply Forall_app; split; [|apply Forall_app; split; apply Forall_app; split].
  - apply Forall_cons; split; [done|]. by apply array_fit, Forall_drop.
  - by apply array_fit, Forall_take.
  - by apply put_cells_fit.
  - unfold shift. apply Forall_map. eapply Forall_impl; [by apply array_fit|]. by intros [[o n] v].
  - by apply put_cells_fit.
Qed.

(** The fields the exit path stores to, and the others. *)
Definition exit_saved (idx : Z) (x q syn fps : list Z) : list cell :=
  array VCPU_X 8 x ++ put_cells syndrome_offs syn ++ [(VCPU_EXIT_REASON, 8%nat, idx)] ++ array VCPU_FP 16 q ++ put_cells fp_offs fps.
Lemma exit_all_written idx x q syn fps :
  length x = 31%nat -> length q = 32%nat -> length syn = 6%nat -> length fps = 2%nat ->
  all_written sizeof_vcpu (exit_cells idx x q syn fps) (exit_saved idx x q syn fps).
Proof.
  intros H1 H2 H3 H4. regs H1. regs H2. regs H3. regs H4.
  unfold all_written. cbv [exit_saved array app put_cells zip_with syndrome_offs fp_offs].
  repeat (apply Forall_cons; split; [split; [reflexivity|vm_compute; reflexivity]|]). by apply Forall_nil.
Qed.
Definition exit_kept (v : vcpu) : list cell := (VCPU_HYP_SP, 8%nat, hyp_sp v) :: c_fields v.
Lemma exit_kept_apart idx x q syn fps v :
  length x = 31%nat -> length q = 32%nat -> length syn = 6%nat -> length fps = 2%nat -> sized v ->
  forallb (fun '(o, n, _) => forallb (apart o n) (exit_cells idx x q syn fps)) (exit_kept v) = true /\
  forallb (within sizeof_vcpu) (exit_kept v) = true.
Proof.
  intros H1 H2 H3 H4 (_ & _ & H5). destruct v as [? ? ? ? ? ? ? ? ? ? [] [lr ? ?] ? ? ? ?]. cbn in H5.
  regs H1. regs H2. regs H3. regs H4. regs H5. by split; vm_compute.
Qed.
(** The cells of a vCPU are those two groups. *)
Lemma exit_parts (P : cell -> Prop) idx v c :
  let v' := (guest_exit idx v c).1 in
  Forall P (vcpu_cells v') <->
  Forall P (exit_saved idx (gp c) (qreg c) (map (fun r => rd_sysreg r c) syndrome_regs) (map (fun r => rd_sysreg r c) fp_regs)) /\
  Forall P (exit_kept v).
Proof.
  cbv zeta. rewrite vcpu_parts. unfold exit_saved, exit_kept. change (c_fields (guest_exit idx v c).1) with (c_fields v).
  cbn [guest_exit fst xregs sp_el0 pc pstate hyp_sp exit_reason exit_esr exit_far exit_hpfar fp fp_q fp_fpsr fp_fpcr].
  cbn [syndrome_regs fp_regs put_cells zip_with syndrome_offs fp_offs map].
  rewrite !Forall_app, !Forall_cons. pose proof (Forall_nil P). tauto.
Qed.

(** ** The exit path computes [guest_exit] *)
Lemma reg_values_cpu names c :
  "sp_el2"%string ∉ names -> reg_values names (delete "sp_el2"%string (sys c)) = map (fun r => rd_sysreg r c) names.
Proof.
  induction names as [|r names IH]; intros Hn; [done|]. apply not_elem_of_cons in Hn as [Hr Hn].
  unfold reg_values in *. cbn [map]. rewrite IH by done. unfold rd_sysreg. by rewrite lookup_delete_ne.
Qed.

Lemma of_cpu_sp a l c m :
  of_cpu (set_gp (wr_sysreg "sp_el2" a c) l) m = mk_asm l (qreg c) a (delete "sp_el2"%string (sys c)) m.
Proof. unfold of_cpu, rd_sysreg, wr_sysreg, set_gp. cbn [gp qreg sys]. by rewrite lookup_insert_eq, delete_insert_eq. Qed.

Lemma kept_cells (P : cell -> Prop) v : Forall P (vcpu_cells v) -> Forall P (exit_kept v).
Proof. rewrite vcpu_parts. unfold exit_kept. rewrite Forall_cons. tauto. Qed.
Lemma stub_within x : length x = 31%nat -> forallb (within 16) (array 0 8 (take 2 x)) = true.
Proof. intros H. by regs H. Qed.
Lemma callee_within x : length x = 31%nat -> forallb (within 96) (array 0 8 (drop 19 x)) = true.
Proof. intros H. by regs H. Qed.

Lemma guest_exit_refines idx v c m p x :
  wf_cpu c -> Forall (fits 128) (qreg c) -> fits 64 idx -> sized v -> length x = 31%nat ->
  rd_sysreg "tpidr_el2" c = p -> rd_sysreg "sp_el2" c = hyp_sp v ->
  vcpu_at m p v -> callee_at m (hyp_sp v) x ->
  separate p sizeof_vcpu (u64 (hyp_sp v - 16)) 16 -> separate p sizeof_vcpu (hyp_sp v) 96 ->
  separate (hyp_sp v) 96 (u64 (hyp_sp v - 16)) 16 ->
  exists y m', exec (VEC_GUEST idx ++ guest_exit_code) (of_cpu c m) = of_cpu (set_gp (guest_exit idx v c).2 (y ++ drop 19 x)) m' /\
    length y = 19%nat /\ vcpu_at m' p (guest_exit idx v c).1 /\
    (forall b, ~ in_range sizeof_vcpu p b -> ~ in_range 16 (u64 (hyp_sp v - 16)) b -> rd8 m' b = rd8 m b).
Proof.
  intros Hwf HQ Hi Hv Hx Hp Hsp Hm Hc S1 S2 S3.
  pose proof Hwf as (Hg & HF & Hq & _). unfold of_cpu. rewrite Hsp.
  assert (default 0 (delete "sp_el2" (sys c) !! "tpidr_el2") = p)%string as Hp' by (rewrite lookup_delete_ne by done; exact Hp).
  pose proof (exit_exec idx (gp c) (qreg c) (hyp_sp v) (delete "sp_el2"%string (sys c)) m Hg Hq HF) as E. cbv zeta in E.
  rewrite Hp' in E. destruct (E S1) as (y & E' & Hy). clear E. rewrite E'.
  rewrite !reg_values_cpu by (apply (bool_decide_eq_true_1 _); by vm_compute).
  set (syn := map _ syndrome_regs). set (fps := map _ fp_regs).
  set (w := exit_cells idx (gp c) (qreg c) syn fps). set (m0 := stores m (u64 (hyp_sp v - 16)) _).
  assert (forallb (within sizeof_vcpu) w = true) as Hw by (apply exit_cells_within; by auto).
  assert (forall r, fits 64 (rd_sysreg r c)) as Hr by (intros r; apply wf_rd_sysreg; exact Hwf).
  assert (Forall fit_cell w) as Hf.
  { apply exit_cells_fit; [exact Hi|exact HF|exact HQ|apply Forall_map, Forall_true; exact Hr..]. }
  destruct (exit_kept_apart idx (gp c) (qreg c) syn fps v) as [A B]; [exact Hg|exact Hq|reflexivity|reflexivity|exact Hv|].
  pose proof (exit_all_written idx (gp c) (qreg c) syn fps Hg Hq eq_refl eq_refl) as Ha. fold w in A, Ha.
  pose proof (stub_within (gp c) Hg) as Hstub. clearbody w.
  assert (Forall (holds (stores m0 p w) p) (exit_kept v)) as Hk.
  { apply (holds_untouched p sizeof_vcpu); [done|exact Hw|exact B|exact A|].
    apply (holds_sep _ sizeof_vcpu _ 16); [done|done|exact S1|exact B|exact Hstub|by apply kept_cells]. }
  pose proof Hk as Hh. apply Forall_cons in Hh as [Hh _]. unfold holds in Hh. rewrite Hh.
  assert (callee_at (stores m0 p w) (hyp_sp v) x) as Hc'.
  { pose proof (callee_within x Hx) as Hin. apply (holds_sep _ 96 _ sizeof_vcpu); [done|done|by apply separate_sym|exact Hin|exact Hw|].
    by apply (holds_sep _ 96 _ 16). }
  apply array_read in Hc'. rewrite length_drop, Hx in Hc'. change (31 - 19)%nat with 12%nat in Hc'. change (Z.of_nat 8) with 8 in Hc'.
  exists y, (stores m0 p w). split; [|split; [done|split]].
  - cbn [guest_exit snd]. rewrite <- Hc'. symmetry. apply of_cpu_sp.
  - unfold vcpu_at. apply exit_parts. split; [|done]. by apply (holds_written p sizeof_vcpu).
  - intros b B1 B2. rewrite (rd8_stores_out p sizeof_vcpu) by done. by apply (rd8_stores_out _ 16).
Qed.

(** ** The entry path computes [guest_enter] *)
Lemma load_mod n : forall m a b, u64 a = u64 b -> load n m a = load n m b.
Proof.
  induction n as [|n IH]; intros m a b E; [done|]. cbn [load]. unfold rd8. rewrite E. do 2 f_equal. apply IH.
  rewrite <- (wrap_add_l 64 a), <- (wrap_add_l 64 b). by rewrite E.
Qed.

Lemma enter_saves_exec p x q sp s m :
  length x = 30%nat ->
  let sp' := u64 (sp - 96) in
  exec (take 10 guest_enter_code) (mk_asm (p :: x) q sp s m) =
  mk_asm (p :: sp' :: drop 1 x) q sp' (<["tpidr_el2"%string := p]> s)
    (stores (stores m sp' (array 0 8 (drop 18 x))) p [(VCPU_HYP_SP, 8%nat, sp')]).
Proof. intros Hx. regs Hx. reflexivity. Qed.

Lemma enter_loads_exec p y x q sp s m :
  length x = 29%nat -> length q = 32%nat ->
  exec (drop 10 guest_enter_code) (mk_asm (p :: y :: x) q sp s m) =
  mk_asm (map (fun i => ld64 m (p + (0 + 8 * Z.of_nat i))) (seq 0 31))
    (map (fun i => load 16 m (u64 (p + VCPU_FP) + 16 * Z.of_nat i)) (seq 0 32)) sp
    (<["fpcr" := ld64 m (p + VCPU_FPCR)]> (<["fpsr" := ld64 m (p + VCPU_FPSR)]> (<["sp_el0" := ld64 m (p + VCPU_SP_EL0)]>
     (<["spsr_el2" := ld64 m (p + VCPU_PSTATE)]> (<["elr_el2" := ld64 m (p + VCPU_PC)]> s)))))%string m.
Proof. intros Hx Hq. regs Hx. regs Hq. reflexivity. Qed.

(** The fields other than [hyp_sp]. *)
Definition enter_kept (v : vcpu) : list cell :=
  array VCPU_X 8 (xregs v) ++
  put_cells [VCPU_SP_EL0; VCPU_PC; VCPU_PSTATE; VCPU_EXIT_REASON; VCPU_EXIT_ESR; VCPU_EXIT_FAR; VCPU_EXIT_HPFAR; VCPU_FPSR; VCPU_FPCR]
    [sp_el0 v; pc v; pstate v; exit_reason v; exit_esr v; exit_far v; exit_hpfar v; fp_fpsr (fp v); fp_fpcr (fp v)] ++
  array VCPU_FP 16 (fp_q (fp v)) ++ c_fields v.
Lemma enter_parts (P : cell -> Prop) v :
  Forall P (vcpu_cells v) <-> P (VCPU_HYP_SP, 8%nat, hyp_sp v) /\ Forall P (enter_kept v).
Proof.
  rewrite vcpu_parts. unfold enter_kept. cbn [put_cells zip_with]. rewrite !Forall_app, !Forall_cons. pose proof (Forall_nil P). tauto.
Qed.
Lemma enter_kept_apart v a :
  sized v ->
  forallb (fun '(o, n, _) => forallb (apart o n) [(VCPU_HYP_SP, 8%nat, a)]) (enter_kept v) = true /\
  forallb (within sizeof_vcpu) (enter_kept v) = true.
Proof.
  intros (H1 & H2 & H3). destruct v as [? ? ? ? ? ? ? ? ? [] [] [] ? ? ? ?]. cbn in H1, H2, H3.
  regs H1. regs H2. regs H3. by split; vm_compute.
Qed.

Lemma callee_stored m p x :
  length x = 31%nat -> Forall (fits 64) x -> callee_at (stores m p (array 0 8 (drop 19 x))) p x.
Proof.
  intros Hx HF. apply (holds_written p 96); [done|by apply callee_within|by apply array_fit, Forall_drop|].
  clear HF. regs Hx. repeat (apply Forall_cons; split; [by split; vm_compute|]). by apply Forall_nil.
Qed.

Lemma guest_enter_refines v c m p x :
  gp c = p :: x -> wf_cpu c -> sized v -> vcpu_at m p v ->
  let sp' := u64 (rd_sysreg "sp_el2" c - 96) in
  separate p sizeof_vcpu sp' 96 ->
  exists m', exec guest_enter_code (of_cpu c m) = of_cpu (guest_enter p v c).2 m' /\
    vcpu_at m' p (guest_enter p v c).1 /\ callee_at m' sp' (gp c) /\
    (forall b, ~ in_range sizeof_vcpu p b -> ~ in_range 96 sp' b -> rd8 m' b = rd8 m b).
Proof.
  intros Hg Hwf Hv Hm sp' S. pose proof Hwf as (Hl & HF & Hq & _). rewrite Hg in Hl, HF.
  assert (length x = 30%nat) as Hx by (cbn in Hl; lia). clear Hl.
  set (m0 := stores m sp' (array 0 8 (drop 18 x))). set (m' := stores m0 p [(VCPU_HYP_SP, 8%nat, sp')]).
  destruct (enter_kept_apart v sp' Hv) as [A B]. pose proof (callee_within (p :: x)) as Hin.
  rewrite <- Hg in Hin. specialize (Hin ltac:(apply Hwf)). rewrite Hg in Hin. cbn [drop] in Hin.
  assert (fits 64 sp') as Hf by (apply fits_wrap; lia).
  assert (Forall (holds m' p) (enter_kept v)) as Hk.
  { apply (holds_untouched p sizeof_vcpu); [done|done|exact B|exact A|].
    apply (holds_sep _ sizeof_vcpu _ 96); [done|done|exact S|exact B|exact Hin|]. by apply enter_parts. }
  assert (vcpu_at m' p (guest_enter p v c).1) as Hat.
  { unfold vcpu_at. apply enter_parts. split; [|exact Hk].
    apply (load_written p sizeof_vcpu ltac:(done) VCPU_HYP_SP 8 _ m0 None); [done|done| |done|done].
    by apply Forall_cons. }
  exists m'. split; [|split; [exact Hat|split]].
  - unfold of_cpu at 1. rewrite Hg. rewrite <- (take_drop 10 guest_enter_code), exec_app, enter_saves_exec by done.
    fold sp'. fold m0. fold m'. rewrite enter_loads_exec by (rewrite ?length_drop; lia || done).
    apply vcpu_parts in Hat as (Ax & A1 & A2 & A3 & _ & _ & _ & _ & _ & Aq & A4 & A5 & _).
    unfold holds in A1, A2, A3, A4, A5. rewrite A1, A2, A3, A4, A5.
    apply array_read in Ax, Aq. destruct Hv as (V1 & V2 & _).
    cbn [guest_enter fst xregs fp fp_q sp_el0 pc pstate fp_fpsr fp_fpcr] in *. rewrite V1 in Ax. rewrite V2 in Aq.
    cbn [guest_enter snd msr_all]. unfold of_cpu, set_gp, set_qreg. cbn [gp qreg].
    f_equal; [symmetry; exact Ax| | |].
    + rewrite Aq. apply map_ext. intros i. apply load_mod. rewrite wrap_add_l. f_equal.
      change (Z.of_nat 16) with 16. lia.
    + assert (forall r l1 l2 k, rd_sysreg r (mk_cpu l1 l2 (sys k)) = rd_sysreg r k) as Hset by done. rewrite !Hset. by sysreg.
    + cbn [wr_sysreg sys]. repeat (rewrite delete_insert_ne by done). by rewrite delete_insert_eq.
  - unfold callee_at. rewrite Hg. cbn [drop].
    apply (holds_sep _ 96 _ sizeof_vcpu); [done|done|by apply separate_sym|exact Hin|done|].
    apply (callee_stored m sp' (p :: x)); [cbn; lia|exact HF].
  - intros b B1 B2. unfold m'. rewrite (rd8_stores_out p sizeof_vcpu) by done. by apply (rd8_stores_out _ 96).
Qed.

(** * The world switch as a function call *)
Lemma separate_mod p k a b n : u64 a = u64 b -> separate p k a n -> separate p k b n.
Proof.
  intros E S i j Hi Hj. rewrite <- (wrap_add_l 64 b), <- E, wrap_add_l. by apply S.
Qed.
(** The frame and the stub's slot below it, from the stack pointer of the caller. *)
Lemma stack_separate p k sp :
  separate p k (sp - 112) 112 ->
  let sp' := u64 (sp - 96) in
  separate p k sp' 96 /\ separate p k (u64 (sp' - 16)) 16 /\ separate sp' 96 (u64 (sp' - 16)) 16.
Proof.
  intros S sp'. assert (forall o n, 0 <= o -> o + n <= 112 -> separate p k (sp - 112 + o) n) as Sub.
  { intros o n Ho Hn i j Hi Hj. rewrite <- Z.add_assoc. apply S; lia. }
  assert (u64 (sp - 112 + 0) = u64 (u64 (sp' - 16))) as E.
  { unfold sp'. rewrite wrap_wrap. replace (wrap 64 (sp - 96) - 16) with (wrap 64 (sp - 96) + -16) by lia.
    rewrite wrap_add_l. f_equal. lia. }
  split_and!.
  - apply (separate_mod p k (sp - 112 + 16)); [|apply Sub; lia]. unfold sp'. rewrite wrap_wrap. f_equal. lia.
  - apply (separate_mod p k (sp - 112 + 0)); [done|apply Sub; lia].
  - apply (separate_mod sp' 96 (sp - 112 + 0)); [done|]. apply separate_sym.
    apply (separate_mod (sp - 112 + 0) 16 (sp - 112 + 16)); [unfold sp'; rewrite wrap_wrap; f_equal; lia|].
    apply separate_base; lia.
Qed.

(** What a guest that runs from the [eret] to its next exception cannot do: change
    the two EL2 registers the exit path starts from, or the memory of its vcpu_t and of
    the hypervisor's stack frame. *)
Record guest_ran (p sp : Z) (c1 : cpu) (m1 : mem) (c2 : cpu) (m2 : mem) : Prop := {
  gr_wf : wf_cpu c2;
  gr_q : Forall (fits 128) (qreg c2);
  gr_tpidr : rd_sysreg "tpidr_el2" c2 = rd_sysreg "tpidr_el2" c1;
  gr_sp : rd_sysreg "sp_el2" c2 = rd_sysreg "sp_el2" c1;
  gr_vcpu : agree p sizeof_vcpu m1 m2;
  gr_frame : agree sp 96 m1 m2
}.

Lemma vcpu_within v : sized v -> forallb (within sizeof_vcpu) (vcpu_cells v) = true.
Proof.
  intros (H1 & H2 & H3). destruct v as [? ? ? ? ? ? ? ? ? [] [] [] ? ? ? ?]. cbn in H1, H2, H3.
  regs H1. regs H2. regs H3. by vm_compute.
Qed.

(** C4: The assembly of the world switch implements its specification and behaves as a
    C function call.  For every vCPU laid out in memory as the struct, the instructions of
    __guest_enter load exactly the guest state of [guest_enter]; when the guest later traps
    through vector [idx], whatever it did to its registers and its memory, the
    stub and __guest_exit store exactly [guest_exit]'s vCPU at the struct's offsets and
    return to the caller with its stack pointer, x19..x29 and return address x30 intact;
    apart from the structure and the 16 bytes of the stub below the frame, memory is
    what the guest left. *)
Theorem world_asm_refines p v c m x idx :
  gp c = p :: x -> wf_cpu c -> sized v -> vcpu_at m p v -> 8 <= idx < 12 ->
  separate p sizeof_vcpu (rd_sysreg "sp_el2" c - 112) 112 ->
  let sp' := u64 (rd_sysreg "sp_el2" c - 96) in
  let '(v1, c1) := guest_enter p v c in
  exists m1, exec guest_enter_code (of_cpu c m) = of_cpu c1 m1 /\ vcpu_at m1 p v1 /\
    forall c2 m2, guest_ran p sp' c1 m1 c2 m2 ->
    let '(v2, c3) := guest_exit idx v1 c2 in
    exists y m3, exec (VEC_GUEST idx ++ guest_exit_code) (of_cpu c2 m2) = of_cpu (set_gp c3 (y ++ drop 19 (gp c))) m3 /\
      length y = 19%nat /\ rd_sysreg "sp_el2" c3 = rd_sysreg "sp_el2" c /\ vcpu_at m3 p v2 /\
      (forall b, ~ in_range sizeof_vcpu p b -> ~ in_range 16 (u64 (sp' - 16)) b -> rd8 m3 b = rd8 m2 b).
Proof.
  intros Hg Hwf Hv Hm Hi S sp'. destruct (stack_separate _ _ _ S) as (S1 & S2 & S3).
  destruct (guest_enter_refines v c m p x Hg Hwf Hv Hm S1) as (m1 & E1 & A1 & C1 & _).
  destruct (guest_enter p v c) as [v1 c1] eqn:Eg. cbn [fst snd] in *. exists m1. split; [done|]. split; [done|].
  intros c2 m2 [G1 G2 G3 G4 G5 G6].
  assert (sized v1 /\ hyp_sp v1 = sp' /\ rd_sysreg "tpidr_el2" c1 = p /\ rd_sysreg "sp_el2" c1 = sp') as (V1 & V2 & V3 & V4).
  { injection Eg as <- <-. split; [done|]. split; [done|].
    assert (forall r l1 l2 k, rd_sysreg r (set_gp (set_qreg k l1) l2) = rd_sysreg r k) as Hset by done.
    rewrite !Hset. cbn [msr_all]. split; by sysreg. }
  rewrite V3 in G3. rewrite V4 in G4. fold sp' in S1, S2, S3, C1. rewrite <- V2 in S1, S2, S3, C1, G4, G6.
  destruct (guest_exit_refines idx v1 c2 m2 p (gp c)) as (y & m3 & E3 & Hy & A3 & F3);
    [exact G1|exact G2|unfold fits; lia|exact V1|apply Hwf|exact G3|exact G4| | |exact S2|exact S1|exact S3|].
  { apply (holds_agree p sizeof_vcpu m1); [done|exact G5|by apply vcpu_within|exact A1]. }
  { apply (holds_agree _ 96 m1); [done|exact G6|apply callee_within, Hwf|exact C1]. }
  rewrite V2 in F3. destruct (guest_exit idx v1 c2) as [v2 c3] eqn:Ex. cbn [fst snd] in *.
  exists y, m3. split; [exact E3|]. split; [exact Hy|]. split; [|by split].
  injection Ex as _ <-. rewrite rd_wr_eq, V2. unfold sp'. rewrite wrap_add_l.
  replace (rd_sysreg "sp_el2" c - 96 + 96) with (rd_sysreg "sp_el2" c) by lia. by apply wrap_fits, wf_rd_sysreg.
Qed.

(** A vCPU at 0x70100000, entered with a stack at 0x70090000; the guest changes its
    registers, stores a byte to its RAM and makes a hypercall. *)
Definition demo_ptr : Z := 0x70100000.
Definition demo_vcpu : vcpu := vcpu_init 0x40000000 0x40008000 0x70040000 1.
Definition demo_mem : mem := stores ∅ demo_ptr (vcpu_cells demo_vcpu).
Definition demo_caller : cpu := mk_cpu (demo_ptr :: replicate 30 7) (replicate 32 9) (<["sp_el2" := 0x70090000]> ∅)%string.
Definition demo_trapped : cpu :=
  msr_all [("esr_el2", 0x5A000000); ("elr_el2", 0x40000010)]%string
    (set_gp (guest_enter demo_ptr demo_vcpu demo_caller).2 (replicate 31 3)).

Lemma agree_wr8 a v p k m : k <= 2 ^ 64 -> (k <=? u64 (a - p)) = true -> agree p k m (wr8 m a v).
Proof.
  intros Hk Ha b Hb. apply rd8_wr8_ne. intros E. unfold in_range in Hb.
  replace (u64 (b - p)) with (u64 (a - p)) in Hb; [lia|].
  replace (a - p) with (a + - p) by lia. replace (b - p) with (b + - p) by lia.
  rewrite <- (wrap_add_l 64 a), <- (wrap_add_l 64 b). by rewrite E.
Qed.
Lemma demo_ran m1 : guest_ran demo_ptr (0x70090000 - 96) (guest_enter demo_ptr demo_vcpu demo_caller).2 m1 demo_trapped (wr8 m1 0x40000000 5).
Proof.
  split.
  - apply wf_wr_sysreg; [fits_const|]. apply wf_wr_sysreg; [fits_const|]. split_and!; [done|closed_dec|done|].
    cbn. repeat (apply map_Forall_insert_2; [fits_const|]). apply map_Forall_empty.
  - closed_dec.
  - by vm_compute.
  - by vm_compute.
  - apply (agree_wr8 0x40000000); [done|by vm_compute].
  - apply (agree_wr8 0x40000000); [done|by vm_compute].
Qed.

Lemma world_asm_refines_witness :
  exists m1 y m3,
    exec guest_enter_code (of_cpu demo_caller demo_mem) = of_cpu (guest_enter demo_ptr demo_vcpu demo_caller).2 m1 /\
    exec (VEC_GUEST 8 ++ guest_exit_code) (of_cpu demo_trapped (wr8 m1 0x40000000 5))
      = of_cpu (set_gp (guest_exit 8 (guest_enter demo_ptr demo_vcpu demo_caller).1 demo_trapped).2 (y ++ replicate 12 7)) m3 /\
    vcpu_at m3 demo_ptr (guest_exit 8 (guest_enter demo_ptr demo_vcpu demo_caller).1 demo_trapped).1.
Proof.
  destruct (world_asm_refines demo_ptr demo_vcpu demo_caller demo_mem (replicate 30 7) 8) as (m1 & E1 & _ & R).
  - reflexivity.
  - split_and!; [done|closed_dec|done|]. apply map_Forall_insert_2; [fits_const|apply map_Forall_empty].
  - by vm_compute.
  - unfold vcpu_at. closed_dec.
  - lia.
  - intros i j Hi Hj. change sizeof_vcpu with 1056 in Hi. change (rd_sysreg "sp_el2" demo_caller) with 0x70090000. unfold demo_ptr. zlia.
  - destruct (R demo_trapped (wr8 m1 0x40000000 5) (demo_ran m1)) as (y & m3 & E3 & _ & _ & A & _).
    exists m1, y, m3. split; [exact E1|]. split; [exact E3|exact A].
Defined.
