(* ===== verification/Stage2.v ===== *)
(** Stage-2 translation tables (src/src/stage2.c, src/src/stage2.h).

    [stage2] is the static state of stage2.c (the identity table [s2_l1], the
    per-VM tables [s2_vm] and the programmed VTCR_EL2).  [s2_walk] is the
    architectural translation of an IPA through such a table; it is the meaning
    the theorems give to the descriptors the code writes.  The link addresses of
    the two statics are parameters of [stage2_vttbr] and [stage2_build_vm]. *)

From S2P Require Import Prelude Esr.

Record stage2 := mk_stage2 {
  s2_l1 : list Z;            (* static uint64_t s2_l1[512] *)
  s2_vm : list (list Z);     (* static uint64_t s2_vm[2][512] *)
  vtcr_el2 : Z               (* VTCR_EL2, written by stage2_init *)
}.

Definition set_s2_l1 (s : stage2) (t : list Z) : stage2 := mk_stage2 t (s2_vm s) (vtcr_el2 s).
Definition set_s2_vm (s : stage2) (t : list (list Z)) : stage2 :=
  mk_stage2 (s2_l1 s) t (vtcr_el2 s).
Definition set_vtcr (s : stage2) (v : Z) : stage2 := mk_stage2 (s2_l1 s) (s2_vm s) v.

Definition VTCR_EL2_VALUE := 0x80023559.
Definition S2_BLOCK_NORMAL := 0x7FD.
Definition S2_BLOCK_DEVICE := 0x4C1.

(** [(ipa >> 30) & 0x1FF] and [ipa & ~0x3FFFFFFFUL]. *)
Definition s2_idx (ipa : Z) : Z := (ipa ≫ 30) .& 0x1FF.
Definition block_base (ipa : Z) : Z := ipa .& cnot 64 0x3FFFFFFF.

Definition stage2_map_1gb (ipa : Z) (s : stage2) : res stage2 :=
  t ← aset (s2_l1 s) (s2_idx ipa) (block_base ipa .| S2_BLOCK_NORMAL);
  Ok (set_s2_l1 s t).

Definition stage2_map_1gb_device (ipa : Z) (s : stage2) : res stage2 :=
  t ← aset (s2_l1 s) (s2_idx ipa) (block_base ipa .| S2_BLOCK_DEVICE);
  Ok (set_s2_l1 s t).

(** [for (i = 0; i < n; i++) t[i] = 0], the zeroing loop of stage2_init and of
    stage2_build_vm. *)
Fixpoint zero_fill (t : list Z) (i : Z) (n : nat) : res (list Z) :=
  match n with
  | O => Ok t
  | S n => t' ← aset t i 0; zero_fill t' (i + 1) n
  end.

Definition stage2_init (s : stage2) : res stage2 :=
  t ← zero_fill (s2_l1 s) 0 512;
  s ← stage2_map_1gb 0x40000000 (set_s2_l1 s t);
  Ok (set_vtcr s VTCR_EL2_VALUE).

Section LinkAddresses.
Context (s2_l1_addr s2_vm_addr : Z).

Definition stage2_vttbr : Z := s2_l1_addr.

Definition stage2_build_vm (vm ipa pa vmid : Z) (s : stage2) : res (stage2 * Z) :=
  t ← aget (s2_vm s) vm;
  t ← zero_fill t 0 512;
  t ← aset t (s2_idx ipa) (block_base pa .| S2_BLOCK_NORMAL);
  tt ← aset (s2_vm s) vm t;
  Ok (set_s2_vm s tt, u64 (s2_vm_addr + vm * 4096) .| u64 (vmid ≪ 48)).
End LinkAddresses.

(** The statics at boot: zero-initialised .bss. *)
Definition stage2_boot : stage2 := mk_stage2 (replicate 512 0) (replicate 2 (replicate 512 0)) 0.

(** * The architectural walk *)
Record s2_out := mk_s2_out { s2_pa : Z; s2_memattr : Z; s2_ap : Z }.

Definition vtcr_t0sz (v : Z) : Z := wrap 6 v.
Definition vtcr_sl0 (v : Z) : Z := wrap 2 (v ≫ 6).
Definition vtcr_irgn0 (v : Z) : Z := wrap 2 (v ≫ 8).
Definition vtcr_orgn0 (v : Z) : Z := wrap 2 (v ≫ 10).
Definition vtcr_sh0 (v : Z) : Z := wrap 2 (v ≫ 12).
Definition vtcr_tg0 (v : Z) : Z := wrap 2 (v ≫ 14).
Definition vtcr_ps (v : Z) : Z := wrap 3 (v ≫ 16).
(** Output size selected by VTCR_EL2.PS. *)
Definition ps_bits (ps : Z) : Z :=
  if ps =? 0 then 32 else if ps =? 1 then 36 else if ps =? 2 then 40
  else if ps =? 3 then 42 else if ps =? 4 then 44 else 48.

(** Translate [ipa] through a 512-entry level-1 table of the 4 KiB granule with
    start level 1: an invalid entry, a clear access flag, an IPA beyond the
    input range or an output beyond the output range is a fault. *)
Definition s2_walk (vtcr : Z) (t : list Z) (ipa : Z) : option s2_out :=
  if decide (fits (64 - vtcr_t0sz vtcr) ipa) then
    d ← t !! Z.to_nat (ipa ≫ 30);
    if (wrap 2 d =? 1) && Z.testbit d 10 then
      let oa := wrap 18 (d ≫ 30) ≪ 30 in
      if decide (fits (ps_bits (vtcr_ps vtcr)) oa) then
        Some (mk_s2_out (oa .| wrap 30 ipa) (wrap 4 (d ≫ 2)) (wrap 2 (d ≫ 6)))
      else None
    else None
  else None.

(** * Lemmas *)
Lemma s2_idx_wrap ipa : s2_idx ipa = wrap 9 (ipa ≫ 30).
Proof. unfold s2_idx. change 0x1FF with (Z.ones 9). by rewrite land_ones_wrap. Qed.
Lemma s2_idx_range ipa : 0 <= s2_idx ipa < 512.
Proof. rewrite s2_idx_wrap. apply (fits_wrap 9). lia. Qed.
Lemma s2_idx_39 ipa : fits 39 ipa -> s2_idx ipa = ipa ≫ 30.
Proof.
  intros H. rewrite s2_idx_wrap. apply wrap_fits. rewrite Z.shiftr_div_pow2 by lia. zlia.
Qed.
Lemma block_base_shift ipa : fits 64 ipa -> block_base ipa = (ipa ≫ 30) ≪ 30.
Proof.
  intros H. unfold block_base. change 0x3FFFFFFF with (Z.ones 30).
  apply Z.bits_inj'; intros i Hi.
  rewrite Z.land_spec, testbit_cnot, testbit_ones, Z.shiftl_spec by lia.
  rewrite (proj2 (Z.leb_le 0 i)) by done. simpl.
  destruct (Z.ltb_spec i 30); simpl.
  - rewrite (Z.testbit_neg_r _ (i - 30)) by lia. by rewrite !andb_false_r.
  - rewrite Z.shiftr_spec by lia. replace (i - 30 + 30) with i by lia.
    destruct (Z.ltb_spec i 64); simpl; [by rewrite andb_true_r|].
    by rewrite (testbit_fits 64 ipa) by done.
Qed.

Lemma zero_fill_spec n : forall t i,
  0 <= i -> i + Z.of_nat n = len t ->
  zero_fill t i n = Ok (take (Z.to_nat i) t ++ replicate n 0).
Proof.
  induction n as [|n IH]; intros t i Hi Hn; simpl.
  - rewrite app_nil_r, take_ge; [done|]. unfold len in *. lia.
  - rewrite aset_ok by lia. simpl. rewrite IH; [|lia|autorewrite with hv; lia].
    unfold len in *. f_equal.
    replace (Z.to_nat (i + 1)) with (S (Z.to_nat i)) by lia.
    erewrite take_S_r by (apply list_lookup_insert_eq; lia).
    rewrite take_insert_ge by lia. by rewrite <- app_assoc.
Qed.
Lemma zero_fill_all t : len t = 512 -> zero_fill t 0 512 = Ok (replicate 512 0).
Proof. intros. rewrite zero_fill_spec; [done|lia|]. lia. Qed.

(** The value the walk computes for a block descriptor [b << 30 | attr]. *)
Definition block_out (b attr ipa : Z) : s2_out :=
  mk_s2_out ((b ≪ 30) .| wrap 30 ipa) (wrap 4 (attr ≫ 2)) (wrap 2 (attr ≫ 6)).

Definition is_block_attr (attr : Z) : Prop := attr = S2_BLOCK_NORMAL \/ attr = S2_BLOCK_DEVICE.

Lemma walk_input_range ipa : fits (64 - vtcr_t0sz VTCR_EL2_VALUE) ipa <-> fits 39 ipa.
Proof. change (64 - vtcr_t0sz VTCR_EL2_VALUE) with 39. reflexivity. Qed.

Lemma walk_block t ipa b attr :
  fits 39 ipa -> is_block_attr attr -> fits 18 b ->
  t !! Z.to_nat (ipa ≫ 30) = Some ((b ≪ 30) .| attr) ->
  s2_walk VTCR_EL2_VALUE t ipa = if decide (fits 10 b) then Some (block_out b attr ipa) else None.
Proof.
  intros Hipa Hattr Hb Ht. unfold s2_walk. rewrite decide_True by (by apply walk_input_range).
  rewrite Ht. cbn [mbind option_bind].
  assert (fits 30 attr) as Ha by (destruct Hattr as [->| ->]; vm_compute; split; congruence).
  assert (wrap 2 ((b ≪ 30) .| attr) = 1) as ->.
  { rewrite <- (Z.shiftr_0_r (_ .| _)), field_skip by lia. by destruct Hattr as [->| ->]. }
  assert (Z.testbit ((b ≪ 30) .| attr) 10 = true) as ->.
  { rewrite Z.lor_spec, Z.shiftl_spec, Z.testbit_neg_r by lia. by destruct Hattr as [->| ->]. }
  cbn [andb Z.eqb Pos.eqb]. cbv zeta. rewrite field_of_lor by (done || lia). rewrite !field_skip by lia.
  apply decide_ext. change (ps_bits (vtcr_ps VTCR_EL2_VALUE)) with 40.
  unfold fits. rewrite Z.shiftl_mul_pow2 by lia. lia.
Qed.

Lemma walk_invalid t ipa :
  t !! Z.to_nat (ipa ≫ 30) = Some 0 -> s2_walk VTCR_EL2_VALUE t ipa = None.
Proof. intros Ht. unfold s2_walk. case_decide; [|done]. rewrite Ht. reflexivity. Qed.

Lemma walk_ext t t' ipa :
  t !! Z.to_nat (ipa ≫ 30) = t' !! Z.to_nat (ipa ≫ 30) ->
  s2_walk VTCR_EL2_VALUE t ipa = s2_walk VTCR_EL2_VALUE t' ipa.
Proof. intros Ht. unfold s2_walk. by rewrite Ht. Qed.

Lemma walk_out_of_range t ipa : ~ fits 39 ipa -> s2_walk VTCR_EL2_VALUE t ipa = None.
Proof. intros. unfold s2_walk. rewrite decide_False; [done|]. by rewrite walk_input_range. Qed.

(** Two addresses lie in the same 1 GiB block. *)
Definition same_block (a b : Z) : Prop := a ≫ 30 = b ≫ 30.
#[export] Instance same_block_dec a b : Decision (same_block a b).
Proof. unfold same_block. solve_decision. Defined.

Lemma block_split a : 0 <= a -> (a ≫ 30) ≪ 30 .| wrap 30 a = a.
Proof.
  intros. apply Z.bits_inj'; intros i Hi.
  rewrite Z.lor_spec, Z.shiftl_spec, testbit_wrap by lia.
  destruct (Z.ltb_spec i 30); simpl.
  - by rewrite Z.testbit_neg_r by lia.
  - rewrite Z.shiftr_spec, orb_false_r by lia. f_equal. lia.
Qed.
Lemma fits39_block ipa : fits 39 ipa -> fits 9 (ipa ≫ 30).
Proof. intros. rewrite Z.shiftr_div_pow2 by lia. zlia. Qed.

(** Writing an identity block descriptor for [ipa] into a 512-entry table. *)
Definition put_block (t : list Z) (ipa pa attr : Z) : list Z :=
  <[Z.to_nat (s2_idx ipa) := block_base pa .| attr]> t.

Lemma put_block_walk t ipa pa attr a :
  len t = 512 -> fits 39 ipa -> fits 40 pa -> is_block_attr attr ->
  s2_walk VTCR_EL2_VALUE (put_block t ipa pa attr) a =
    if decide (fits 39 a /\ same_block a ipa) then Some (block_out (pa ≫ 30) attr a)
    else s2_walk VTCR_EL2_VALUE t a.
Proof.
  intros Hl Hipa Hpa Hattr. pose proof (fits39_block _ Hipa) as Hi. unfold put_block.
  rewrite s2_idx_39, block_base_shift by (done || (eapply fits_mono; [|done]; lia)).
  unfold same_block. case_decide as Hc.
  - destruct Hc as [Ha Hsame]. rewrite (walk_block _ _ (pa ≫ 30) attr); [|done|done|..].
    + rewrite decide_True; [done|]. rewrite Z.shiftr_div_pow2 by lia. zlia.
    + rewrite Z.shiftr_div_pow2 by lia. zlia.
    + rewrite Hsame. apply list_lookup_insert_eq. unfold len, fits in *. lia.
  - destruct (decide (fits 39 a)) as [Ha|]; [|by rewrite !walk_out_of_range by done].
    apply walk_ext. apply list_lookup_insert_ne.
    pose proof (fits39_block _ Ha). unfold fits in *. intros Heq.
    apply Hc. split; [done|]. lia.
Qed.
Lemma block_out_identity attr a :
  0 <= a -> block_out (a ≫ 30) attr a = mk_s2_out a (wrap 4 (attr ≫ 2)) (wrap 2 (attr ≫ 6)).
Proof. intros. unfold block_out. by rewrite block_split. Qed.

(** * The identity table *)
Definition identity_table (t : list Z) : Prop :=
  len t = 512 /\
  forall i d, t !! i = Some d ->
    d = 0 \/ exists attr, is_block_attr attr /\ d = (Z.of_nat i ≪ 30) .| attr.

Definition wf_stage2 (s : stage2) : Prop :=
  identity_table (s2_l1 s) /\ len (s2_vm s) = 2 /\ Forall (fun t => len t = 512) (s2_vm s).

Lemma identity_zero : identity_table (replicate 512 0).
Proof. split; [done|]. intros i d [-> _]%lookup_replicate. by left. Qed.

Lemma identity_put t ipa attr :
  identity_table t -> fits 39 ipa -> is_block_attr attr -> identity_table (put_block t ipa ipa attr).
Proof.
  intros [Hl Ht] Hipa Ha. unfold put_block. split; [by autorewrite with hv|].
  intros i d Hd. pose proof (fits39_block _ Hipa) as Hb.
  rewrite s2_idx_39, block_base_shift in Hd by (done || (eapply fits_mono; [|done]; lia)).
  destruct (decide (i = Z.to_nat (ipa ≫ 30))) as [->|Hne].
  - rewrite list_lookup_insert_eq in Hd by (unfold len, fits in *; lia).
    simplify_eq. right. exists attr. split; [done|]. rewrite Z2Nat.id by (unfold fits in *; lia). done.
  - rewrite list_lookup_insert_ne in Hd by done. by apply Ht.
Qed.

Lemma identity_walk t a o :
  identity_table t -> s2_walk VTCR_EL2_VALUE t a = Some o -> s2_pa o = a.
Proof.
  intros [Hl Ht] Hw. destruct (decide (fits 39 a)) as [Ha|]; [|by rewrite walk_out_of_range in Hw].
  pose proof (fits39_block _ Ha) as Hb.
  destruct (t !! Z.to_nat (a ≫ 30)) as [d|] eqn:Ed;
    [|unfold s2_walk in Hw; case_decide; [|done]; by rewrite Ed in Hw].
  destruct (Ht _ _ Ed) as [->|(attr & Hattr & ->)]; [by rewrite walk_invalid in Hw|].
  rewrite Z2Nat.id in Ed by (unfold fits in *; lia).
  rewrite (walk_block t a (a ≫ 30) attr Ha Hattr) in Hw; [|eapply fits_mono; [|done]; lia|exact Ed].
  case_decide; [|done]. simplify_eq. apply block_split. apply Ha.
Qed.

Lemma map_put s ipa attr :
  len (s2_l1 s) = 512 ->
  aset (s2_l1 s) (s2_idx ipa) (block_base ipa .| attr) = Ok (put_block (s2_l1 s) ipa ipa attr).
Proof. intros. apply aset_ok. pose proof (s2_idx_range ipa). lia. Qed.

Lemma block_base_idem ipa : fits 64 ipa -> block_base (block_base ipa) = block_base ipa.
Proof.
  intros. unfold block_base. rewrite <- Z.land_assoc. by rewrite Z.land_diag.
Qed.
Lemma block_base_39 ipa : fits 39 ipa -> fits 39 (block_base ipa) /\ block_base ipa ≫ 30 = ipa ≫ 30.
Proof.
  intros H. pose proof (fits39_block _ H) as Hb.
  rewrite block_base_shift by (eapply fits_mono; [|done]; lia). split.
  - unfold fits in *. rewrite Z.shiftl_mul_pow2 by lia. lia.
  - rewrite Z.shiftr_shiftl_l by lia. by rewrite Z.shiftl_0_r.
Qed.

(** Faulting in a block: mapping the 1 GiB block that contains a faulting IPA
    succeeds, makes every address of that block translate to itself as Normal
    write-back, read/write memory (so the retried access no longer faults), and
    leaves the translation of every other address as it was. *)
Lemma stage2_fault_in (s : stage2) (ipa : Z) :
  len (s2_l1 s) = 512 -> fits 39 ipa ->
  exists s', stage2_map_1gb (block_base ipa) s = Ok s' /\ s2_vm s' = s2_vm s /\
  forall a, s2_walk VTCR_EL2_VALUE (s2_l1 s') a =
    if decide (fits 39 a /\ same_block a ipa) then Some (mk_s2_out a 0xF 3)
    else s2_walk VTCR_EL2_VALUE (s2_l1 s) a.
Proof.
  intros Hl Hipa. destruct (block_base_39 _ Hipa) as [Hb Hs].
  unfold stage2_map_1gb. rewrite map_put by done. cbn [mbind res_bind].
  eexists; split; [done|]; split; [done|]. intros a. cbn [s2_l1 set_s2_l1].
  rewrite put_block_walk by (done || (by left) || (eapply fits_mono; [|done]; lia)).
  assert (same_block a (block_base ipa) <-> same_block a ipa) as Hiff
    by (unfold same_block; by rewrite Hs).
  destruct (decide (fits 39 a /\ same_block a ipa)) as [[Ha Heq]|Hc].
  - rewrite decide_True by (by rewrite Hiff). rewrite Hs, <- Heq, block_out_identity by apply Ha.
    reflexivity.
  - by rewrite decide_False by (by rewrite Hiff).
Qed.

Lemma stage2_fault_in_witness :
  exists s', stage2_map_1gb (block_base 0x48001234) stage2_boot = Ok s' /\
  s2_vm s' = s2_vm stage2_boot /\
  forall a, s2_walk VTCR_EL2_VALUE (s2_l1 s') a =
    if decide (fits 39 a /\ same_block a 0x48001234) then Some (mk_s2_out a 0xF 3)
    else s2_walk VTCR_EL2_VALUE (s2_l1 stage2_boot) a.
Proof. apply stage2_fault_in; [reflexivity | vm_compute; split; congruence]. Defined.

Lemma stage2_init_table s :
  len (s2_l1 s) = 512 ->
  stage2_init s = Ok (mk_stage2 (put_block (replicate 512 0) 0x40000000 0x40000000 S2_BLOCK_NORMAL)
                                (s2_vm s) VTCR_EL2_VALUE).
Proof.
  intros Hl. unfold stage2_init. rewrite zero_fill_all by done. cbn [mbind res_bind].
  unfold stage2_map_1gb. rewrite map_put by done. reflexivity.
Qed.

(** The table stage2_init leaves. *)
Definition init_table : list Z := put_block (replicate 512 0) 0x40000000 0x40000000 S2_BLOCK_NORMAL.
Lemma init_walk a :
  s2_walk VTCR_EL2_VALUE init_table a = if decide (0x40000000 <= a < 0x80000000) then Some (mk_s2_out a 0xF 3) else None.
Proof.
  unfold init_table. rewrite put_block_walk by (done || (by left) || (vm_compute; split; congruence)).
  assert (fits 39 a /\ same_block a 0x40000000 <-> 0x40000000 <= a < 0x80000000) as Hiff.
  { unfold same_block. rewrite !Z.shiftr_div_pow2 by lia. zlia. }
  destruct (decide (0x40000000 <= a < 0x80000000)) as [Ha|Ha].
  - rewrite decide_True by (by apply Hiff). destruct (proj2 Hiff Ha) as [Hf Hs].
    rewrite <- Hs, block_out_identity by apply Hf. reflexivity.
  - rewrite decide_False by (by rewrite Hiff).
    destruct (decide (fits 39 a)) as [Hf|]; [|by apply walk_out_of_range].
    apply walk_invalid. apply lookup_replicate_2.
    pose proof (fits39_block _ Hf). unfold fits in *. lia.
Qed.

(** After stage2_init the guest sees exactly the block [0x40000000, 0x80000000),
    identity-mapped, whatever the tables held before; VTCR_EL2 holds the 39-bit,
    start-level-1, 4 KiB-granule, 40-bit-output, write-back inner-shareable
    configuration its comment describes; the per-VM tables are untouched. *)
Lemma stage2_init_spec (s : stage2) :
  len (s2_l1 s) = 512 ->
  exists s', stage2_init s = Ok s' /\ s2_vm s' = s2_vm s /\ identity_table (s2_l1 s') /\
  (vtcr_t0sz (vtcr_el2 s'), vtcr_sl0 (vtcr_el2 s'), vtcr_tg0 (vtcr_el2 s'),
   ps_bits (vtcr_ps (vtcr_el2 s'))) = (25, 1, 0, 40) /\
  (vtcr_irgn0 (vtcr_el2 s'), vtcr_orgn0 (vtcr_el2 s'), vtcr_sh0 (vtcr_el2 s')) = (1, 1, 3) /\
  forall a, s2_walk (vtcr_el2 s') (s2_l1 s') a =
    if decide (0x40000000 <= a < 0x80000000) then Some (mk_s2_out a 0xF 3) else None.
Proof.
  intros Hl. rewrite stage2_init_table by done.
  eexists. split; [done|]. cbn [s2_l1 s2_vm vtcr_el2]. split; [done|].
  split_and!; [|done|done|].
  - apply identity_put; [apply identity_zero|vm_compute; split; congruence|by left].
  - exact init_walk.
Qed.

Lemma stage2_init_spec_witness :
  exists s', stage2_init stage2_boot = Ok s' /\ s2_vm s' = s2_vm stage2_boot /\
  identity_table (s2_l1 s') /\
  (vtcr_t0sz (vtcr_el2 s'), vtcr_sl0 (vtcr_el2 s'), vtcr_tg0 (vtcr_el2 s'),
   ps_bits (vtcr_ps (vtcr_el2 s'))) = (25, 1, 0, 40) /\
  (vtcr_irgn0 (vtcr_el2 s'), vtcr_orgn0 (vtcr_el2 s'), vtcr_sh0 (vtcr_el2 s')) = (1, 1, 3) /\
  forall a, s2_walk (vtcr_el2 s') (s2_l1 s') a =
    if decide (0x40000000 <= a < 0x80000000) then Some (mk_s2_out a 0xF 3) else None.
Proof. apply stage2_init_spec. reflexivity. Defined.

(** * Tenant tables *)

(** What a tenant's stage-2 promises: its 1 GiB IPA block appears at a private
    host block, and nothing else is mapped. *)
Definition tenant_space (ipa pa a : Z) : option s2_out :=
  if decide (block_base ipa <= a < block_base ipa + 2 ^ 30)
  then Some (mk_s2_out (a - block_base ipa + block_base pa) 0xF 3) else None.

Lemma block_base_arith a : fits 64 a -> block_base a = a - a mod 2 ^ 30.
Proof.
  intros. rewrite block_base_shift by done.
  rewrite Z.shiftl_mul_pow2, Z.shiftr_div_pow2 by lia. zlia.
Qed.
Lemma same_block_arith a ipa :
  fits 39 ipa -> (fits 39 a /\ same_block a ipa <-> block_base ipa <= a < block_base ipa + 2 ^ 30).
Proof.
  intros. rewrite block_base_arith by (eapply fits_mono; [|done]; lia).
  unfold same_block. rewrite !Z.shiftr_div_pow2 by lia. zlia.
Qed.
Lemma block_out_offset a ipa pa :
  fits 39 ipa -> fits 40 pa -> fits 39 a -> same_block a ipa ->
  block_out (pa ≫ 30) S2_BLOCK_NORMAL a = mk_s2_out (a - block_base ipa + block_base pa) 0xF 3.
Proof.
  intros Hi Hp Ha Hs. unfold block_out. f_equal.
  assert ((pa ≫ 30) ≪ 30 .& wrap 30 a = 0) as Hdisj.
  { apply Z.bits_inj'; intros i Hi'. rewrite Z.land_spec, Z.shiftl_spec, testbit_wrap, Z.bits_0 by lia.
    destruct (Z.ltb_spec i 30); simpl; [|by rewrite andb_false_r].
    by rewrite Z.testbit_neg_r by lia. }
  pose proof (Z.add_lor_land ((pa ≫ 30) ≪ 30) (wrap 30 a)) as Hadd. rewrite Hdisj in Hadd.
  revert Hadd. clear Hdisj. generalize ((pa ≫ 30) ≪ 30 .| wrap 30 a). intros z Hadd.
  rewrite !block_base_arith by (eapply fits_mono; [|done]; lia).
  unfold same_block in Hs. rewrite !Z.shiftr_div_pow2 in * by lia.
  rewrite Z.shiftl_mul_pow2 in Hadd by lia. zlia.
Qed.

Lemma tenant_table_refines ipa pa a :
  fits 39 ipa -> fits 40 pa ->
  s2_walk VTCR_EL2_VALUE (put_block (replicate 512 0) ipa pa S2_BLOCK_NORMAL) a =
  tenant_space ipa pa a.
Proof.
  intros Hi Hp. rewrite put_block_walk by (done || by left). unfold tenant_space.
  pose proof (same_block_arith a ipa Hi) as Hiff.
  destruct (decide (block_base ipa <= a < block_base ipa + 2 ^ 30)) as [Ha|Ha].
  - rewrite decide_True by (by apply Hiff). destruct (proj2 Hiff Ha).
    by rewrite (block_out_offset a ipa pa).
  - rewrite decide_False by (by rewrite Hiff).
    destruct (decide (fits 39 a)) as [Hf|]; [|by apply walk_out_of_range].
    apply walk_invalid. apply lookup_replicate_2.
    pose proof (fits39_block _ Hf). unfold fits in *. lia.
Qed.

Section TenantTheorems.
Context (s2_l1_addr s2_vm_addr : Z).
Local Abbreviation build := (stage2_build_vm s2_vm_addr).

Lemma build_vm_put s vm ipa pa vmid :
  len (s2_vm s) = 2 -> Forall (fun t => len t = 512) (s2_vm s) -> 0 <= vm < 2 ->
  build vm ipa pa vmid s =
    Ok (set_s2_vm s (<[Z.to_nat vm := put_block (replicate 512 0) ipa pa S2_BLOCK_NORMAL]> (s2_vm s)),
        u64 (s2_vm_addr + vm * 4096) .| u64 (vmid ≪ 48)).
Proof.
  intros Hl Hall Hvm. unfold stage2_build_vm.
  destruct (aget_ok (s2_vm s) vm) as [t Ht]; [lia|]. rewrite Ht. cbn [mbind res_bind].
  rewrite zero_fill_all by (eapply (Forall_aget _ _ _ _ Hall Ht)). cbn [mbind res_bind].
  pose proof (s2_idx_range ipa).
  rewrite aset_ok by (change (len _) with 512; lia). cbn [mbind res_bind].
  rewrite aset_ok by lia. reflexivity.
Qed.
Lemma build_vm_table s vm ipa pa vmid :
  wf_stage2 s -> 0 <= vm < 2 ->
  build vm ipa pa vmid s =
    Ok (set_s2_vm s (<[Z.to_nat vm := put_block (replicate 512 0) ipa pa S2_BLOCK_NORMAL]> (s2_vm s)),
        u64 (s2_vm_addr + vm * 4096) .| u64 (vmid ≪ 48)).
Proof. intros (_ & Hl & Hall) Hvm. by apply build_vm_put. Qed.

Lemma build_vm_wf s vm ipa pa vmid s' v :
  wf_stage2 s -> 0 <= vm < 2 -> build vm ipa pa vmid s = Ok (s', v) -> wf_stage2 s'.
Proof.
  intros Hwf Hvm. rewrite build_vm_table by done. intros ?; simplify_eq.
  destruct Hwf as (Hi & Hl & Hall). unfold wf_stage2. cbn [s2_l1 s2_vm set_s2_vm].
  split_and!; [done|by autorewrite with hv|]. apply Forall_insert; [done|]. unfold put_block. by autorewrite with hv.
Qed.

(** C16: Building VM [vm]'s private table implements the abstract tenant address
    space: the VM's walk is exactly [tenant_space] (one IPA block at its host
    block, read/write Normal memory, nothing else mapped), and neither the
    identity table nor the other VM's table changes. *)
Theorem stage2_build_vm_refines s vm ipa pa vmid :
  wf_stage2 s -> 0 <= vm < 2 -> fits 39 ipa -> fits 40 pa ->
  exists s' v t, build vm ipa pa vmid s = Ok (s', v) /\ wf_stage2 s' /\
    aget (s2_vm s') vm = Ok t /\
    (forall a, s2_walk VTCR_EL2_VALUE t a = tenant_space ipa pa a) /\
    s2_l1 s' = s2_l1 s /\ (forall j, j <> vm -> aget (s2_vm s') j = aget (s2_vm s) j).
Proof.
  intros Hwf Hvm Hipa Hpa. pose proof (build_vm_table s vm ipa pa vmid Hwf Hvm) as HE.
  pose proof Hwf as (Hi & Hl & Hall).
  eexists _, _, _. split; [exact HE|]. split; [by eapply build_vm_wf|].
  cbn [s2_vm set_s2_vm s2_l1]. split; [by apply aget_insert_eq; lia|].
  split; [intros a; by apply tenant_table_refines|]. split; [done|].
  intros j Hj. by apply aget_insert_ne; [lia|].
Qed.

(** The VTTBR_EL2 fields as the processor reads them. *)
Definition vttbr_vmid (v : Z) : Z := wrap 8 (v ≫ 48).
Definition vttbr_baddr (v : Z) : Z := wrap 47 (v ≫ 1) ≪ 1.

Lemma vttbr_fields vm vmid :
  0 <= vm < 2 -> fits 8 vmid -> 0 <= s2_vm_addr -> s2_vm_addr + 8192 <= 2 ^ 48 -> s2_vm_addr mod 4096 = 0 ->
  vttbr_vmid (u64 (s2_vm_addr + vm * 4096) .| u64 (vmid ≪ 48)) = vmid /\
  vttbr_baddr (u64 (s2_vm_addr + vm * 4096) .| u64 (vmid ≪ 48)) = s2_vm_addr + vm * 4096.
Proof.
  intros Hvm Hid H0 H1 H2. rewrite Z.lor_comm.
  assert (fits 48 (u64 (s2_vm_addr + vm * 4096))) as Hf by zlia.
  assert (u64 (vmid ≪ 48) = vmid ≪ 48) as ->.
  { apply wrap_fits. unfold fits in *. rewrite Z.shiftl_mul_pow2 by lia. lia. }
  split; [by apply field_of_lor|]. unfold vttbr_baddr. rewrite field_skip by lia.
  rewrite Z.shiftl_mul_pow2, Z.shiftr_div_pow2 by lia. zlia.
Qed.

(** The VTTBR_EL2 value returned for a VM carries the VMID passed in and the
    address of that VM's own 4 KiB table. *)
Lemma stage2_build_vm_vttbr s vm ipa pa vmid s' v :
  wf_stage2 s -> 0 <= vm < 2 -> fits 8 vmid ->
  0 <= s2_vm_addr -> s2_vm_addr + 8192 <= 2 ^ 48 -> s2_vm_addr mod 4096 = 0 ->
  build vm ipa pa vmid s = Ok (s', v) ->
  vttbr_vmid v = vmid /\ vttbr_baddr v = s2_vm_addr + vm * 4096.
Proof.
  intros Hwf Hvm Hid H0 H1 H2. rewrite build_vm_table by done. intros ?; simplify_eq. by apply vttbr_fields.
Qed.

(** C13: Two tenants built at different host blocks are isolated: no pair of IPAs,
    one translated by each table, reaches the same physical address, and a
    tenant whose host block is not the hypervisor's never reaches the
    hypervisor's block. *)
Theorem tenants_isolated s ipa0 pa0 vmid0 ipa1 pa1 vmid1 s1 v0 s2 v1 t0 t1 :
  wf_stage2 s -> fits 39 ipa0 -> fits 39 ipa1 -> fits 40 pa0 -> fits 40 pa1 ->
  ~ same_block pa0 pa1 ->
  build 0 ipa0 pa0 vmid0 s = Ok (s1, v0) -> build 1 ipa1 pa1 vmid1 s1 = Ok (s2, v1) ->
  aget (s2_vm s2) 0 = Ok t0 -> aget (s2_vm s2) 1 = Ok t1 ->
  (forall a b oa ob, s2_walk VTCR_EL2_VALUE t0 a = Some oa ->
     s2_walk VTCR_EL2_VALUE t1 b = Some ob -> s2_pa oa <> s2_pa ob) /\
  (forall hv a oa, ~ same_block hv pa0 -> s2_walk VTCR_EL2_VALUE t0 a = Some oa -> s2_pa oa <> hv).
Proof.
  intros Hwf Hi0 Hi1 Hp0 Hp1 Hne B0 B1 G0 G1.
  assert (wf_stage2 s1) as Hwf1 by (eapply build_vm_wf; [| |exact B0]; [done|lia]).
  rewrite build_vm_table in B0, B1 by (done || lia).
  injection B0 as <- _. injection B1 as <- _. destruct Hwf as (_ & Hl & _).
  cbn [s2_vm set_s2_vm] in *. rewrite aget_insert_ne, aget_insert_eq in G0 by lia.
  rewrite aget_insert_eq in G1 by (autorewrite with hv; lia). injection G0 as <-. injection G1 as <-.
  assert (forall ipa pa x o, fits 39 ipa -> fits 40 pa ->
    s2_walk VTCR_EL2_VALUE (put_block (replicate 512 0) ipa pa S2_BLOCK_NORMAL) x = Some o ->
    same_block (s2_pa o) pa) as Hin.
  { intros ipa pa x o Hi Hp. rewrite tenant_table_refines by done. unfold tenant_space.
    case_decide as Hx; [|done]. intros ?; simplify_eq. cbn [s2_pa]. revert Hx.
    rewrite !block_base_arith by (eapply fits_mono; [|done]; lia).
    unfold same_block. rewrite !Z.shiftr_div_pow2 by lia. zlia. }
  split.
  - intros a b oa ob Wa Wb Heq. apply Hin in Wa; [|done..]. apply Hin in Wb; [|done..].
    apply Hne. unfold same_block in *. congruence.
  - intros hv a oa Hhv Wa <-. apply Hin in Wa; [|done..]. by apply Hhv.
Qed.
End TenantTheorems.

Lemma wf_stage2_boot : wf_stage2 stage2_boot.
Proof.
  split; [apply identity_zero|]. split; [reflexivity|].
  by repeat constructor.
Qed.

Definition VM0_PA := 0x80000000.
Definition VM1_PA := 0xC0000000.
Definition VM_IPA := 0x40000000.

Ltac fits_tac := vm_compute; split; congruence.

Lemma stage2_build_vm_refines_witness :
  exists s' v t, stage2_build_vm 0x70040000 1 VM_IPA VM1_PA 2 stage2_boot = Ok (s', v) /\
    wf_stage2 s' /\ aget (s2_vm s') 1 = Ok t /\
    (forall a, s2_walk VTCR_EL2_VALUE t a = tenant_space VM_IPA VM1_PA a) /\
    s2_l1 s' = s2_l1 stage2_boot /\
    (forall j, j <> 1 -> aget (s2_vm s') j = aget (s2_vm stage2_boot) j).
Proof. apply stage2_build_vm_refines; [apply wf_stage2_boot|lia|fits_tac|fits_tac]. Defined.

Lemma stage2_build_vm_vttbr_witness :
  exists s' v, stage2_build_vm 0x70040000 1 VM_IPA VM1_PA 2 stage2_boot = Ok (s', v) /\
  vttbr_vmid v = 2 /\ vttbr_baddr v = 0x70041000.
Proof.
  rewrite build_vm_table by (apply wf_stage2_boot || lia). eexists _, _. split; [reflexivity|].
  eapply (stage2_build_vm_vttbr 0x70040000 stage2_boot 1 VM_IPA VM1_PA 2);
    [apply wf_stage2_boot|lia|fits_tac|lia|lia|reflexivity|].
  by apply build_vm_table; [apply wf_stage2_boot|lia].
Defined.

(** The two tables of mtenant_demo, and the hypervisor's load address. *)
Lemma tenants_isolated_witness :
  exists t0 t1,
    (forall a b oa ob, s2_walk VTCR_EL2_VALUE t0 a = Some oa ->
       s2_walk VTCR_EL2_VALUE t1 b = Some ob -> s2_pa oa <> s2_pa ob) /\
    (forall hv a oa, ~ same_block hv VM0_PA -> s2_walk VTCR_EL2_VALUE t0 a = Some oa -> s2_pa oa <> hv) /\
    ~ same_block 0x70000000 VM0_PA /\ s2_walk VTCR_EL2_VALUE t0 0x40001000 = Some (mk_s2_out 0x80001000 0xF 3).
Proof.
  pose proof (build_vm_table 0x70040000 stage2_boot 0 VM_IPA VM0_PA 1 wf_stage2_boot ltac:(lia)) as B0.
  pose proof (build_vm_wf 0x70040000 stage2_boot 0 VM_IPA VM0_PA 1 _ _ wf_stage2_boot ltac:(lia) B0) as W1.
  pose proof (build_vm_table 0x70040000 _ 1 VM_IPA VM1_PA 2 W1 ltac:(lia)) as B1.
  destruct (tenants_isolated 0x70040000 stage2_boot VM_IPA VM0_PA 1 VM_IPA VM1_PA 2 _ _ _ _
    (put_block (replicate 512 0) VM_IPA VM0_PA S2_BLOCK_NORMAL)
    (put_block (replicate 512 0) VM_IPA VM1_PA S2_BLOCK_NORMAL) wf_stage2_boot
    ltac:(fits_tac) ltac:(fits_tac) ltac:(fits_tac) ltac:(fits_tac) ltac:(by vm_compute) B0 B1
    eq_refl eq_refl) as [H1 H2].
  eexists _, _. split; [exact H1|]. split; [exact H2|]. split; [by vm_compute|].
  vm_compute. reflexivity.
Defined.

(** * The life of the identity table

    Any sequence of calls of the stage-2 API, where the fault handlers pass an
    address of the 39-bit IPA space. *)
Inductive s2_step (s2_vm_addr : Z) : stage2 -> stage2 -> Prop :=
| step_init s s' : stage2_init s = Ok s' -> s2_step s2_vm_addr s s'
| step_map ipa s s' : fits 39 ipa -> stage2_map_1gb ipa s = Ok s' -> s2_step s2_vm_addr s s'
| step_map_device ipa s s' :
    fits 39 ipa -> stage2_map_1gb_device ipa s = Ok s' -> s2_step s2_vm_addr s s'
| step_build vm ipa pa vmid s s' v :
    stage2_build_vm s2_vm_addr vm ipa pa vmid s = Ok (s', v) -> s2_step s2_vm_addr s s'.

Inductive s2_reachable (s2_vm_addr : Z) : stage2 -> Prop :=
| reach_boot : s2_reachable s2_vm_addr stage2_boot
| reach_step s s' :
    s2_reachable s2_vm_addr s -> s2_step s2_vm_addr s s' -> s2_reachable s2_vm_addr s'.

Lemma s2_step_wf addr s s' : wf_stage2 s -> s2_step addr s s' -> wf_stage2 s'.
Proof.
  intros Hwf Hstep. pose proof Hwf as ([Hl Hid] & Hv & Hall). destruct Hstep as
    [s s' H|ipa s s' Hf H|ipa s s' Hf H|vm ipa pa vmid s s' v H].
  - rewrite stage2_init_table in H by done. res_inv. split; [|done].
    apply identity_put; [apply identity_zero|fits_tac|by left].
  - unfold stage2_map_1gb in H. rewrite map_put in H by done. res_inv.
    split; [|done]. apply identity_put; [done|done|by left].
  - unfold stage2_map_1gb_device in H. rewrite map_put in H by done. res_inv.
    split; [|done]. apply identity_put; [done|done|by right].
  - eapply build_vm_wf; [done| |exact H]. unfold stage2_build_vm in H. res_inv.
    apply aget_inv in E as [? _]. lia.
Qed.



(** C37: The fault handlers that call stage2_map_1gb without a range check misbehave
    for an IPA beyond the 39-bit input range: the faulting access still faults, so
    the guest never makes progress, and the aliased low block (the same index
    modulo 512) loses its identity mapping. *)
Theorem stage2_map_beyond_range (s : stage2) (ipa : Z) :
  len (s2_l1 s) = 512 -> fits 48 ipa -> 2 ^ 39 <= ipa ->
  exists s', stage2_map_1gb (block_base ipa) s = Ok s' /\
    s2_walk VTCR_EL2_VALUE (s2_l1 s') ipa = None /\
    forall a o, fits 39 a -> same_block a (wrap 39 ipa) ->
      s2_walk VTCR_EL2_VALUE (s2_l1 s') a = Some o -> s2_pa o <> a.
Proof.
  intros Hl Hipa Hbig. assert (fits 64 ipa) as H64 by (eapply fits_mono; [|done]; lia).
  unfold stage2_map_1gb. rewrite map_put by done. cbn [mbind res_bind].
  eexists. split; [done|]. split; [apply walk_out_of_range; unfold fits; lia|].
  cbn [s2_l1 set_s2_l1]. unfold put_block. rewrite block_base_idem by done. intros a o Ha Hs.
  assert (s2_idx (block_base ipa) = a ≫ 30) as Hidx.
  { rewrite s2_idx_wrap, Hs, block_base_shift by done.
    rewrite Z.shiftr_shiftl_l, Z.shiftl_0_r, !Z.shiftr_div_pow2 by lia. zlia. }
  rewrite Hidx. rewrite block_base_shift by done.
  assert (fits 18 (ipa ≫ 30)) by (rewrite Z.shiftr_div_pow2 by lia; zlia).
  rewrite (walk_block _ a (ipa ≫ 30) S2_BLOCK_NORMAL); [|done|by left|done|].
  - case_decide; [|done]. intros [= <-]. unfold block_out. cbn [s2_pa]. intros Heq.
    apply (f_equal (fun z => z ≫ 30)) in Heq. revert Heq.
    rewrite <- (wrap_fits 18 (_ ≫ 30)), field_of_lor; [|lia|lia|done|apply fits_wrap; lia|].
    + unfold same_block in Hs. rewrite !Z.shiftr_div_pow2 in * by lia. zlia.
    + rewrite Z.shiftr_lor, Z.shiftr_shiftl_l, Z.shiftl_0_r by lia.
      assert (wrap 30 a ≫ 30 = 0) as -> by (rewrite Z.shiftr_div_pow2 by lia; zlia).
      by rewrite Z.lor_0_r.
  - apply list_lookup_insert_eq. pose proof (fits39_block _ Ha). unfold len, fits in *. lia.
Qed.

(** The 64-bit BAR at 0x8000000000 while the device block 0 is passed through. *)
Lemma stage2_map_beyond_range_witness :
  exists s', stage2_map_1gb (block_base 0x8000000000) stage2_boot = Ok s' /\
    s2_walk VTCR_EL2_VALUE (s2_l1 s') 0x8000000000 = None /\
    forall a o, fits 39 a -> same_block a (wrap 39 0x8000000000) ->
      s2_walk VTCR_EL2_VALUE (s2_l1 s') a = Some o -> s2_pa o <> a.
Proof. apply stage2_map_beyond_range; [reflexivity|fits_tac|lia]. Defined.
