(* ===== verification/Vgic.v ===== *)
(** The software GICv3 (src/src/vgic.c, src/src/vgic.h): distributor and
    redistributor register emulation, trapped-access decoding, and the per-vCPU
    pending SGIs.  [vgic] is the static state of vgic.c. *)

From S2P Require Import Prelude Esr Machine Vcpu.

Definition VGIC_GICD_BASE := 0x08000000.
Definition VGIC_GICD_SIZE := 0x00010000.
Definition VGIC_GICR_BASE := 0x080A0000.
Definition VGIC_GICR_STRIDE := 0x00020000.
Definition VGIC_MAX_VCPUS := 4.
Definition VGIC_GICR_SIZE := VGIC_MAX_VCPUS * VGIC_GICR_STRIDE.
Definition GICR_SGI_OFF := 0x10000.

Record vgic_state := mk_vgs {
  gicd_ctlr : Z;
  enabled : Z;            (* SGI/PPI enable bitmap (INTID 0..31) *)
  group : Z;              (* GICR_IGROUPR0 *)
  spi_enabled : list Z    (* uint32_t [8]: SPI enable bitmap *)
}.
Definition set_gicd_ctlr (g : vgic_state) (x : Z) := mk_vgs x (enabled g) (group g) (spi_enabled g).
Definition set_enabled (g : vgic_state) (x : Z) := mk_vgs (gicd_ctlr g) x (group g) (spi_enabled g).
Definition set_group (g : vgic_state) (x : Z) := mk_vgs (gicd_ctlr g) (enabled g) x (spi_enabled g).
Definition set_spi (g : vgic_state) (x : list Z) := mk_vgs (gicd_ctlr g) (enabled g) (group g) x.

Record vgic := mk_vgic {
  vg : list vgic_state;        (* static struct vgic_state vg[4], by VM *)
  g_sgi_pending : list Z;      (* static uint32_t g_sgi_pending[4], by vCPU *)
  g_ngicr : Z
}.
Definition set_vg (s : vgic) (l : list vgic_state) := mk_vgic l (g_sgi_pending s) (g_ngicr s).
Definition set_sgi (s : vgic) (l : list Z) := mk_vgic (vg s) l (g_ngicr s).

Definition vgic_set_ngicr (n : Z) (s : vgic) : vgic := mk_vgic (vg s) (g_sgi_pending s) n.

Definition vgic_contains (ipa : Z) : bool :=
  ((VGIC_GICD_BASE <=? ipa) && (ipa <? VGIC_GICD_BASE + VGIC_GICD_SIZE)) ||
  ((VGIC_GICR_BASE <=? ipa) && (ipa <? VGIC_GICR_BASE + VGIC_GICR_SIZE)).

(** The boot contents of the statics ([g_ngicr] is initialised to 1). *)
Definition vgs_zero : vgic_state := mk_vgs 0 0 0 (replicate 8 0).
Definition vgic_boot : vgic := mk_vgic (replicate 4 vgs_zero) (replicate 4 0) 1.

(** The inner and outer loops of vgic_reset. *)
Fixpoint zero_spi (l : list Z) (j : Z) (n : nat) : res (list Z) :=
  match n with O => Ok l | S n => l ← aset l j 0; zero_spi l (j + 1) n end.
Fixpoint reset_loop (s : vgic) (i : Z) (n : nat) : res vgic :=
  match n with
  | O => Ok s
  | S n =>
      g ← aget (vg s) i;
      sp ← zero_spi (spi_enabled g) 0 8;
      l ← aset (vg s) i (mk_vgs 0 0 0 sp);
      p ← aset (g_sgi_pending s) i 0;
      reset_loop (mk_vgic l p (g_ngicr s)) (i + 1) n
  end.
Definition vgic_reset (s : vgic) : res vgic := reset_loop (vgic_set_ngicr 1 s) 0 4.

Definition vgic_irq_enabled (s : vgic) (vm intid : Z) : res bool :=
  if intid <? 32 then g ← aget (vg s) vm; Ok (negb ((enabled g .& u32 (bit intid)) =? 0))
  else Ok false.

Definition vgic_spi_enabled (s : vgic) (vm intid : Z) : res bool :=
  if (intid <? 32) || (256 <=? intid) then Ok false
  else
    g ← aget (vg s) vm;
    b ← aget (spi_enabled g) (intid ≫ 5);
    Ok (negb ((b .& u32 (bit (intid .& 31))) =? 0)).

(** The redistributor frame and the state slot it selects. *)
Definition gicr_frame (ipa : Z) : Z := s32 ((ipa - VGIC_GICR_BASE) / VGIC_GICR_STRIDE).
Definition gicr_off (ipa : Z) : Z := (ipa - VGIC_GICR_BASE) mod VGIC_GICR_STRIDE.
Definition gicr_idx (vm ipa : Z) : Z :=
  let idx := vm + gicr_frame ipa in
  if VGIC_MAX_VCPUS <=? idx then VGIC_MAX_VCPUS - 1 else idx.

Definition reg_read (s : vgic) (vm ipa : Z) : res Z :=
  if VGIC_GICR_BASE <=? ipa then
    let frame := gicr_frame ipa in
    let off := gicr_off ipa in
    let idx := gicr_idx vm ipa in
    if off =? 0x0014 then Ok 0
    else if off =? 0x0008 then
      Ok ((if frame =? g_ngicr s - 1 then bit 4 else 0) .| u32 (u32 frame ≪ 8))
    else if off =? 0x000C then Ok (u32 frame)
    else if off =? 0xFFE8 then Ok 0x30
    else if off =? GICR_SGI_OFF + 0x0080 then g ← aget (vg s) idx; Ok (group g)
    else if off =? GICR_SGI_OFF + 0x0100 then g ← aget (vg s) idx; Ok (enabled g)
    else Ok 0
  else
    let off := u64 (ipa - VGIC_GICD_BASE) in
    if off =? 0x0000 then g ← aget (vg s) vm; Ok (gicd_ctlr g)
    else if off =? 0x0004 then Ok (0x0007 .| u32 (9 ≪ 19))
    else if off =? 0x0008 then Ok 0
    else if off =? 0xFFE8 then Ok 0x30
    else if (0x100 <=? off) && (off <? 0x180) then
      g ← aget (vg s) vm; aget (spi_enabled g) ((off - 0x100) / 4 mod 8)
    else if (0x180 <=? off) && (off <? 0x200) then
      g ← aget (vg s) vm; aget (spi_enabled g) ((off - 0x180) / 4 mod 8)
    else Ok 0.

(** Update one element of [vg]. *)
Definition vg_update (s : vgic) (i : Z) (f : vgic_state -> res vgic_state) : res vgic :=
  g ← aget (vg s) i; g' ← f g; l ← aset (vg s) i g'; Ok (set_vg s l).

Definition reg_write (vm ipa val : Z) (s : vgic) : res vgic :=
  if VGIC_GICR_BASE <=? ipa then
    let off := gicr_off ipa in
    let idx := gicr_idx vm ipa in
    if off =? GICR_SGI_OFF + 0x0080 then vg_update s idx (fun g => Ok (set_group g val))
    else if off =? GICR_SGI_OFF + 0x0100 then
      vg_update s idx (fun g => Ok (set_enabled g (enabled g .| val)))
    else if off =? GICR_SGI_OFF + 0x0180 then
      vg_update s idx (fun g => Ok (set_enabled g (enabled g .& cnot 32 val)))
    else Ok s
  else
    let off := u64 (ipa - VGIC_GICD_BASE) in
    if off =? 0x0000 then vg_update s vm (fun g => Ok (set_gicd_ctlr g val))
    else if (0x100 <=? off) && (off <? 0x180) then
      vg_update s vm (fun g =>
        b ← aget (spi_enabled g) ((off - 0x100) / 4 mod 8);
        l ← aset (spi_enabled g) ((off - 0x100) / 4 mod 8) (b .| val); Ok (set_spi g l))
    else if (0x180 <=? off) && (off <? 0x200) then
      vg_update s vm (fun g =>
        b ← aget (spi_enabled g) ((off - 0x180) / 4 mod 8);
        l ← aset (spi_enabled g) ((off - 0x180) / 4 mod 8) (b .& cnot 32 val); Ok (set_spi g l))
    else Ok s.

Definition vgic_mmio (vm : Z) (v : vcpu) (ipa : Z) (s : vgic) : res (vgic * vcpu) :=
  let iss := ESR_ISS (exit_esr v) in
  if iss_isv iss =? 0 then Ok (s, pc_advance v)
  else
    let wnr := iss_wnr iss in
    let srt := iss_srt iss in
    let sas := iss_sas iss in
    if negb (wnr =? 0) then
      val ← read_rt v srt;
      s ← reg_write vm ipa (u32 val) s;
      s ← (if sas =? 3 then reg_write vm (u64 (ipa + 4)) (u32 (val ≫ 32)) s else Ok s);
      Ok (s, pc_advance v)
    else
      val ← reg_read s vm ipa;
      val ← (if sas =? 3 then hi ← reg_read s vm (u64 (ipa + 4)); Ok (val .| u64 (hi ≪ 32)) else Ok val);
      v ← write_rt v srt val;
      Ok (s, pc_advance v).

Fixpoint post_loop (self intid : Z) (l : list Z) (i : Z) (n : nat) : res (list Z) :=
  match n with
  | O => Ok l
  | S n =>
      l ← (if i =? self then Ok l
           else p ← aget l i; aset l i (p .| u32 (bit (intid .& 0x1F))));
      post_loop self intid l (i + 1) n
  end.
Definition vgic_post_sgi (self intid : Z) (s : vgic) : res vgic :=
  l ← post_loop self intid (g_sgi_pending s) 0 4; Ok (set_sgi s l).

(** The search loop [for (b = 0; b < 16; b++)] of vgic_pop_sgi. *)
Fixpoint pop_loop (p b : Z) (n : nat) : option Z :=
  match n with
  | O => None
  | S n => if negb ((p .& u32 (bit b)) =? 0) then Some b else pop_loop p (b + 1) n
  end.
Definition vgic_pop_sgi (vcpu : Z) (s : vgic) : res (Z * vgic) :=
  if (vcpu <? 0) || (VGIC_MAX_VCPUS <=? vcpu) then Ok (-1, s)
  else
    p ← aget (g_sgi_pending s) vcpu;
    if p =? 0 then Ok (-1, s)
    else
      match pop_loop p 0 16 with
      | Some b => l ← aset (g_sgi_pending s) vcpu (p .& cnot 32 (bit b)); Ok (b, set_sgi s l)
      | None => Ok (-1, s)
      end.

(** * Well-formedness *)
Definition wf_vgs (g : vgic_state) : Prop :=
  fits 32 (gicd_ctlr g) /\ fits 32 (enabled g) /\ fits 32 (group g) /\
  len (spi_enabled g) = 8 /\ Forall (fits 32) (spi_enabled g).
Definition wf_vgic (s : vgic) : Prop :=
  len (vg s) = 4 /\ Forall wf_vgs (vg s) /\ len (g_sgi_pending s) = 4 /\
  Forall (fits 32) (g_sgi_pending s).

Lemma zero_spi_spec l' : forall l j,
  len l = j -> zero_spi (l ++ l') j (length l') = Ok (l ++ replicate (length l') 0).
Proof.
  induction l' as [|b l' IH]; intros l j Hj; cbn [zero_spi length replicate]; [done|].
  rewrite aset_app by done. cbn [mbind res_bind].
  rewrite (cons_middle 0 l l'), app_assoc, IH; [by rewrite <- app_assoc|].
  unfold len in *. rewrite length_app. cbn. lia.
Qed.

Lemma reset_loop_spec n gs' : forall ps' gs ps i,
  Forall wf_vgs gs' -> length ps' = length gs' -> len gs = i -> len ps = i ->
  reset_loop (mk_vgic (gs ++ gs') (ps ++ ps') n) i (length gs') =
  Ok (mk_vgic (gs ++ replicate (length gs') vgs_zero) (ps ++ replicate (length gs') 0) n).
Proof.
  induction gs' as [|g gs' IH]; intros [|p ps'] gs ps i HF Hl Hg Hp; try done.
  apply Forall_cons in HF as [(_ & _ & _ & Hw & _) HF].
  cbn [reset_loop length vg g_sgi_pending g_ngicr replicate].
  rewrite aget_app by done. cbn [mbind res_bind].
  assert (length (spi_enabled g) = 8%nat) as H8 by (unfold len in Hw; lia).
  pose proof (zero_spi_spec (spi_enabled g) [] 0 eq_refl) as Hz. rewrite H8 in Hz.
  cbn [app] in Hz. rewrite Hz. cbn [mbind res_bind].
  rewrite !aset_app by done. cbn [mbind res_bind].
  rewrite (cons_middle _ gs gs'), (cons_middle 0 ps ps'), !app_assoc, IH.
  - by rewrite <- !app_assoc.
  - done.
  - cbn in Hl. lia.
  - unfold len in *. rewrite length_app. cbn. lia.
  - unfold len in *. rewrite length_app. cbn. lia.
Qed.

Lemma vgic_reset_eq s : wf_vgic s -> vgic_reset s = Ok vgic_boot.
Proof.
  intros (H1 & H2 & H3 & _). destruct s as [l p n]. unfold len in *. cbn in *.
  unfold vgic_reset, vgic_set_ngicr. cbn [vg g_sgi_pending].
  pose proof (reset_loop_spec 1 l p [] [] 0 H2 ltac:(lia) eq_refl eq_refl) as H.
  by replace (length l) with 4%nat in H by lia.
Qed.

Lemma wf_vgic_boot : wf_vgic vgic_boot.
Proof.
  split; [done|]. split; [|split; [done|closed_dec]].
  apply Forall_replicate. split_and!; try done; closed_dec.
Qed.

Lemma wf_vg_update s i f s' :
  wf_vgic s -> (forall g g', wf_vgs g -> f g = Ok g' -> wf_vgs g') -> vg_update s i f = Ok s' -> wf_vgic s'.
Proof.
  intros (H1 & H2 & H3 & H4) Hf H. unfold vg_update in H. res_inv.
  split; [by rewrite <- H1; apply (aset_len _ _ _ _ E1)|]. split; [|done].
  eapply Forall_aset; [done| |exact E1]. eapply Hf; [|exact E0]. by eapply Forall_aget.
Qed.
Lemma vg_update_ok s i f :
  wf_vgic s -> 0 <= i < 4 -> (forall g, wf_vgs g -> is_ok (f g)) -> is_ok (vg_update s i f).
Proof.
  intros (H1 & H2 & _) Hi Hf. unfold vg_update. apply bind_is_ok; [apply aget_ok; lia|]. intros g Hg.
  apply bind_is_ok; [by apply Hf; eapply Forall_aget|]. intros g' _.
  apply bind_is_ok; [|by intros; eexists]. rewrite aset_ok by lia. by eexists.
Qed.
Lemma vg_update_get s i f s' g :
  vg_update s i f = Ok s' -> aget (vg s) i = Ok g ->
  exists g', f g = Ok g' /\ aget (vg s') i = Ok g' /\ (forall j, j <> i -> aget (vg s') j = aget (vg s) j) /\
  g_sgi_pending s' = g_sgi_pending s /\ g_ngicr s' = g_ngicr s.
Proof.
  unfold vg_update. intros H Hg. rewrite Hg in H. cbn [mbind res_bind] in H. res_inv.
  exists a. split; [done|]. split; [by eapply aget_aset_eq|]. split; [|done].
  intros j Hj. by eapply aget_aset_ne; [exact E0|].
Qed.

(** An IPA is at most 44 bits wide (HPFAR_EL2), so the frame number fits an [int]. *)
Lemma gicr_frame_eq ipa :
  VGIC_GICR_BASE <= ipa -> fits 45 ipa -> gicr_frame ipa = (ipa - VGIC_GICR_BASE) / VGIC_GICR_STRIDE.
Proof.
  unfold gicr_frame, VGIC_GICR_BASE, VGIC_GICR_STRIDE. intros. apply s32_id. zlia.
Qed.
Lemma gicr_idx_range vm ipa :
  0 <= vm < 4 -> VGIC_GICR_BASE <= ipa -> fits 45 ipa -> 0 <= gicr_idx vm ipa < 4.
Proof.
  intros Hv Hi Hf. unfold gicr_idx. cbv zeta. rewrite gicr_frame_eq by done.
  unfold VGIC_MAX_VCPUS, VGIC_GICR_STRIDE, VGIC_GICR_BASE in *.
  destruct (Z.leb_spec 4 (vm + (ipa - 0x080A0000) / 0x00020000)); zlia.
Qed.

(** The set/clear updates of one SPI word. *)
Lemma spi_word_ok g n (h : Z -> Z) :
  wf_vgs g ->
  is_ok (b ← aget (spi_enabled g) (n mod 8); l ← aset (spi_enabled g) (n mod 8) (h b); Ok (set_spi g l)).
Proof.
  intros (_ & _ & _ & Hl & _). pose proof (Z.mod_pos_bound n 8).
  apply bind_is_ok; [apply aget_ok; lia|]. intros b _. rewrite aset_ok by lia. by eexists.
Qed.
Lemma spi_word_wf g n (h : Z -> Z) g' :
  wf_vgs g -> (forall b, fits 32 b -> fits 32 (h b)) ->
  (b ← aget (spi_enabled g) (n mod 8); l ← aset (spi_enabled g) (n mod 8) (h b); Ok (set_spi g l)) = Ok g' ->
  wf_vgs g'.
Proof.
  intros (H1 & H2 & H3 & Hl & HF) Hh H. res_inv.
  split_and!; try done; cbn.
  - by rewrite (aset_len _ _ _ _ E0).
  - eapply Forall_aset; [done| |exact E0]. apply Hh. by eapply Forall_aget.
Qed.

Lemma reg_write_ok vm ipa val s :
  wf_vgic s -> 0 <= vm < 4 -> fits 45 ipa -> is_ok (reg_write vm ipa val s).
Proof.
  intros Hs Hv Hf. unfold reg_write. cbv zeta.
  destruct (Z.leb_spec VGIC_GICR_BASE ipa) as [Hge|_].
  - pose proof (gicr_idx_range vm ipa Hv Hge Hf).
    repeat case_match; try (by eexists); apply vg_update_ok; try done; intros; by eexists.
  - repeat case_match; try (by eexists); apply vg_update_ok; try done; intros.
    + by eexists.
    + by apply (spi_word_ok _ _ (fun b => b .| val)).
    + by apply (spi_word_ok _ _ (fun b => b .& cnot 32 val)).
Qed.

Lemma reg_write_wf vm ipa val s s' :
  wf_vgic s -> fits 32 val -> reg_write vm ipa val s = Ok s' -> wf_vgic s'.
Proof.
  intros Hs Hval. pose proof (fits_cnot 32 val ltac:(lia)) as [Hc _].
  assert (forall b, fits 32 b -> fits 32 (b .| val)) as Hor by (intros; apply fits_lor; done || lia).
  assert (forall b, fits 32 b -> fits 32 (b .& cnot 32 val)) as Hand by (intros; apply fits_land; done || lia).
  unfold reg_write. cbv zeta.
  repeat case_match; intros E; res_inv; try done; (eapply wf_vg_update; [done| |exact E]);
    intros g g' Hg Hf; cbv beta in Hf.
  1,2,3,4: res_inv; destruct Hg as (?&?&?&?&?); split_and!; cbn; try done; auto.
  - by eapply (spi_word_wf _ _ (fun b => b .| val)).
  - by eapply (spi_word_wf _ _ (fun b => b .& cnot 32 val)).
Qed.

Lemma reg_read_ok vm ipa s :
  wf_vgic s -> 0 <= vm < 4 -> fits 45 ipa -> exists x, reg_read s vm ipa = Ok x /\ fits 32 x.
Proof.
  intros (H1 & H2 & _) Hv Hf.
  assert (forall i, 0 <= i < 4 -> exists g, aget (vg s) i = Ok g /\ wf_vgs g) as Hg.
  { intros i Hi. destruct (aget_ok (vg s) i) as [g Hg]; [lia|]. exists g. split; [done|]. by eapply Forall_aget. }
  assert (forall n, exists x, (g ← aget (vg s) vm; aget (spi_enabled g) (n mod 8)) = Ok x /\ fits 32 x) as Hspi.
  { intros n. destruct (Hg vm Hv) as (g & -> & _ & _ & _ & Hl & HF). cbn [mbind res_bind].
    pose proof (Z.mod_pos_bound n 8).
    destruct (aget_ok (spi_enabled g) (n mod 8)) as [x Hx]; [lia|]. exists x. split; [done|].
    by eapply Forall_aget. }
  unfold reg_read. cbv zeta.
  destruct (Z.leb_spec VGIC_GICR_BASE ipa) as [Hge|_].
  - destruct (Hg _ (gicr_idx_range vm ipa Hv Hge Hf)) as (g & -> & _ & He & Hgr & _).
    cbn [mbind res_bind].
    assert (forall c, fits 32 ((if c : bool then bit 4 else 0) .| u32 (u32 (gicr_frame ipa) ≪ 8))) as Ht.
    { intros c. apply fits_lor; [lia| |apply fits_wrap; lia]. destruct c; fits_const. }
    destruct (gicr_off ipa =? 0x0014); [eexists; split; [reflexivity|fits_const]|].
    destruct (gicr_off ipa =? 0x0008); [eexists; split; [reflexivity|apply Ht]|].
    destruct (gicr_off ipa =? 0x000C); [eexists; split; [reflexivity|apply fits_wrap; lia]|].
    repeat case_match; eexists; (split; [reflexivity|]); assumption || fits_const.
  - destruct (Hg _ Hv) as (g & Hgg & Hc & _).
    destruct (_ =? 0); [rewrite Hgg; eexists; split; [reflexivity|exact Hc]|].
    repeat case_match; try apply Hspi; eexists; (split; [reflexivity|fits_const]).
Qed.

(** * Theorems: register emulation *)

Lemma vgic_mmio_ok vm v ipa s :
  wf_vgic s -> wf_vcpu v -> 0 <= vm < 4 -> fits 44 ipa ->
  let iss := ESR_ISS (exit_esr v) in
  exists s' v', vgic_mmio vm v ipa s = Ok (s', v') /\ wf_vgic s' /\ wf_vcpu v' /\
    rt_only v v' (iss_srt iss) /\ (iss_isv iss = 0 \/ iss_wnr iss = 0 -> s' = s).
Proof.
  intros Hs Hv Hvm Hipa iss. unfold vgic_mmio. fold iss. cbv zeta.
  assert (fits 45 ipa /\ fits 45 (u64 (ipa + 4))) as [Hf Hf4].
  { split; [by apply (fits_mono 44)|]. rewrite wrap_fits; zlia. }
  pose proof (iss_srt_range iss) as Hr.
  destruct (Z.eqb_spec (iss_isv iss) 0).
  { exists s, (pc_advance v). eauto 10 using rt_only_same, pc_advance_wf. }
  destruct (Z.eqb_spec (iss_wnr iss) 0) as [Hw|Hw]; cbn [negb].
  - destruct (reg_read_ok vm ipa s Hs Hvm Hf) as (x & -> & Hx).
    destruct (reg_read_ok vm (u64 (ipa + 4)) s Hs Hvm Hf4) as (y & -> & Hy). cbn [mbind res_bind].
    set (z := if iss_sas iss =? 3 then _ else _).
    assert (exists a, z = Ok a /\ fits 64 a) as (a & -> & Ha).
    { subst z. case_match; eexists; (split; [reflexivity|]); [|by apply (fits_mono 32)].
      apply fits_lor; [lia|by apply (fits_mono 32)|apply fits_wrap; lia]. }
    cbn [mbind res_bind].
    destruct (write_rt_ok v (iss_srt iss) a Hv Hr Ha) as (v' & Hwr & Hv'). rewrite Hwr.
    exists s, (pc_advance v'). eauto 10 using rt_only_write, pc_advance_wf.
  - destruct (read_rt_ok v (iss_srt iss) Hv Hr) as (a & -> & Ha). cbn [mbind res_bind].
    destruct (reg_write_ok vm ipa (u32 a) s Hs Hvm Hf) as [s1 E1]. rewrite E1. cbn [mbind res_bind].
    assert (wf_vgic s1) as Hs1 by (eapply reg_write_wf; [exact Hs| |exact E1]; apply fits_wrap; lia).
    destruct (reg_write_ok vm (u64 (ipa + 4)) (u32 (a ≫ 32)) s1 Hs1 Hvm Hf4) as [s2 E2].
    exists (if iss_sas iss =? 3 then s2 else s1), (pc_advance v).
    split; [by case_match; rewrite ?E2|]. split; [|split; [by apply pc_advance_wf|]].
    + case_match; [|done]. eapply reg_write_wf; [exact Hs1| |exact E2]. apply fits_wrap; lia.
    + split; [apply rt_only_same|]. intros []; done.
Qed.

(** A trapped GIC access never faults the hypervisor.  On well-formed state,
    for any syndrome the hardware can report, [vgic_mmio] returns; the vGIC and
    vCPU stay well-formed, the guest resumes at the next instruction, no register
    other than the transfer register changes, and a load (or an access without
    valid syndrome) leaves the vGIC unchanged. *)
Lemma vgic_mmio_sound vm v ipa s :
  wf_vgic s -> wf_vcpu v -> 0 <= vm < 4 -> fits 44 ipa ->
  let iss := ESR_ISS (exit_esr v) in
  exists s' v', vgic_mmio vm v ipa s = Ok (s', v') /\ wf_vgic s' /\ wf_vcpu v' /\
    rt_only v v' (iss_srt iss) /\ (iss_isv iss = 0 \/ iss_wnr iss = 0 -> s' = s).
Proof. apply vgic_mmio_ok. Qed.

(** ** The enable bits as a set of interrupts *)

(** The interrupts named by writing [val] to enable register [n]. *)
Definition named (n val intid : Z) : bool := (intid / 32 =? n) && Z.testbit val (intid mod 32).

Lemma query_bit b k : 0 <= k < 32 -> negb ((b .& u32 (bit k)) =? 0) = Z.testbit b k.
Proof. intros. rewrite wrap_fits by (by apply fits_bit). apply land_bit_test. lia. Qed.

Lemma spi_query s vm intid g :
  32 <= intid < 256 -> aget (vg s) vm = Ok g -> len (spi_enabled g) = 8 ->
  exists b, aget (spi_enabled g) (intid / 32) = Ok b /\
    vgic_spi_enabled s vm intid = Ok (Z.testbit b (intid mod 32)).
Proof.
  intros Hi Hg Hl. destruct (aget_ok (spi_enabled g) (intid / 32)) as [b Hb]; [zlia|].
  exists b. split; [done|]. unfold vgic_spi_enabled.
  destruct (Z.ltb_spec intid 32), (Z.leb_spec 256 intid); try lia. cbn [orb]. rewrite Hg. cbn [mbind res_bind].
  rewrite (Z.shiftr_div_pow2 intid 5) by lia. change (2 ^ 5) with 32. rewrite Hb. cbn [mbind res_bind].
  change 31 with (Z.ones 5). rewrite Z.land_ones by lia. change (2 ^ 5) with 32.
  by rewrite query_bit by zlia.
Qed.

(** The state after a write to enable register [n], for either direction. *)
Definition spi_apply (set : bool) (b val : Z) : Z := if set then b .| val else b .& cnot 32 val.
Definition set_reg (set : bool) (n : Z) : Z := VGIC_GICD_BASE + (if set then 0x100 else 0x180) + 4 * n.

Lemma reg_write_spi (set : bool) vm n val s :
  0 <= n < 8 ->
  reg_write vm (set_reg set n) val s =
  vg_update s vm (fun g => b ← aget (spi_enabled g) n;
                           l ← aset (spi_enabled g) n (spi_apply set b val); Ok (set_spi g l)).
Proof.
  intros Hn. unfold reg_write, set_reg. destruct (Z.leb_spec VGIC_GICR_BASE (VGIC_GICD_BASE + (if set then 0x100 else 0x180) + 4 * n)) as [H|_].
  { exfalso. unfold VGIC_GICR_BASE, VGIC_GICD_BASE in H. destruct set; lia. }
  replace (VGIC_GICD_BASE + (if set then 0x100 else 0x180) + 4 * n - VGIC_GICD_BASE)
    with ((if set then 0x100 else 0x180) + 4 * n) by lia.
  rewrite wrap_fits by (destruct set; zlia).
  assert (forall a, (a + 4 * n - a) / 4 mod 8 = n) as Hx.
  { intros a. replace (a + 4 * n - a) with (n * 4) by lia. rewrite Z.div_mul, Z.mod_small; lia. }
  cbv zeta. destruct set; rewrite !Hx; bits_split; cbn [andb]; try lia; done.
Qed.

(** C19: Enabling and disabling SPIs is set union and set difference.  After a
    guest write of [val] to GICD_ISENABLER<n> ([set = true]) or GICD_ICENABLER<n>
    ([set = false]) the predicate [vgic_spi_enabled] that the interrupt router
    consults is, for every SPI of the writing VM, the old one with exactly the
    interrupts named by [val] added or removed; other VMs see no change. *)
Theorem gicd_enable_refines (set : bool) vm n val s :
  wf_vgic s -> 0 <= vm < 4 -> 1 <= n < 8 -> fits 32 val ->
  exists s', reg_write vm (set_reg set n) val s = Ok s' /\
    (forall intid, 32 <= intid < 256 ->
       exists q, vgic_spi_enabled s vm intid = Ok q /\
         vgic_spi_enabled s' vm intid = Ok (if named n val intid then set else q)) /\
    (forall j intid, j <> vm -> vgic_spi_enabled s' j intid = vgic_spi_enabled s j intid) /\
    (forall j intid, vgic_irq_enabled s' j intid = vgic_irq_enabled s j intid).
Proof.
  intros Hs Hvm Hn Hval. pose proof Hs as (H1 & H2 & _).
  destruct (aget_ok (vg s) vm) as [g Hg]; [lia|]. pose proof (Forall_aget _ _ _ _ H2 Hg) as (_ & _ & _ & Hl & HF).
  destruct (aget_ok (spi_enabled g) n) as [b Hb]; [lia|].
  rewrite reg_write_spi by lia. unfold vg_update. rewrite Hg. cbn [mbind res_bind].
  rewrite Hb. cbn [mbind res_bind]. rewrite aset_ok by lia. cbn [mbind res_bind].
  rewrite aset_ok by lia. cbn [mbind res_bind]. eexists. split; [reflexivity|].
  set (g' := set_spi _ _). split; [|split].
  - intros intid Hi. destruct (spi_query s vm intid g Hi Hg Hl) as (q & Hq & ->).
    eexists. split; [reflexivity|].
    destruct (spi_query (set_vg s (<[Z.to_nat vm:=g']> (vg s))) vm intid g' Hi) as (q' & Hq' & ->).
    { cbn. apply aget_insert_eq. lia. } { cbn. by rewrite len_insert. }
    f_equal. unfold named. cbn in Hq'. destruct (Z.eqb_spec (intid / 32) n) as [E|E]; cbn [andb].
    + subst n. rewrite aget_insert_eq in Hq' by lia. res_inv. rewrite Hb in Hq. res_inv.
      unfold spi_apply. destruct set.
      * rewrite Z.lor_spec. by destruct (Z.testbit val _), (Z.testbit q _).
      * rewrite Z.land_spec, testbit_cnot by zlia. destruct (Z.ltb_spec (intid mod 32) 32); [|zlia].
        by destruct (Z.testbit val _), (Z.testbit q _).
    + rewrite aget_insert_ne, Hq in Hq' by lia. by res_inv.
  - intros j intid Hj. unfold vgic_spi_enabled. case_match; [done|]. cbn. by rewrite aget_insert_ne by lia.
  - intros j intid. unfold vgic_irq_enabled. case_match; [|done]. cbn.
    destruct (decide (j = vm)) as [->|]; [rewrite Hg, aget_insert_eq by lia; done|by rewrite aget_insert_ne by lia].
Qed.

Lemma gicd_enable_refines_witness :
  exists s', reg_write 1 (set_reg true 2) 0x8001 vgic_boot = Ok s' /\
    (forall intid, 32 <= intid < 256 ->
       exists q, vgic_spi_enabled vgic_boot 1 intid = Ok q /\
         vgic_spi_enabled s' 1 intid = Ok (if named 2 0x8001 intid then true else q)) /\
    (forall j intid, j <> 1 -> vgic_spi_enabled s' j intid = vgic_spi_enabled vgic_boot j intid) /\
    (forall j intid, vgic_irq_enabled s' j intid = vgic_irq_enabled vgic_boot j intid).
Proof. apply (gicd_enable_refines true 1 2 0x8001); [apply wf_vgic_boot|lia|lia|fits_const]. Defined.

Lemma vgic_mmio_sound_witness :
  exists s' v', vgic_mmio 1 zero_vcpu 0x080B0100 vgic_boot = Ok (s', v') /\ wf_vgic s' /\ wf_vcpu v' /\
    rt_only zero_vcpu v' (iss_srt (ESR_ISS (exit_esr zero_vcpu))) /\
    (iss_isv (ESR_ISS (exit_esr zero_vcpu)) = 0 \/ iss_wnr (ESR_ISS (exit_esr zero_vcpu)) = 0 -> s' = vgic_boot).
Proof.
  apply (vgic_mmio_sound 1 zero_vcpu 0x080B0100); [apply wf_vgic_boot|apply zero_vcpu_wf|lia|fits_const].
Defined.

(** ** Tenants' views of the GIC *)

(** The addresses a single-vCPU tenant is meant to use: its distributor and its
    first redistributor frame. *)
Definition own_gic (ipa : Z) : bool :=
  ((VGIC_GICD_BASE <=? ipa) && (ipa <? VGIC_GICD_BASE + VGIC_GICD_SIZE)) ||
  ((VGIC_GICR_BASE <=? ipa) && (ipa <? VGIC_GICR_BASE + VGIC_GICR_STRIDE)).

Lemma own_gic_contains ipa : own_gic ipa = true -> vgic_contains ipa = true.
Proof.
  unfold own_gic, vgic_contains, VGIC_GICD_BASE, VGIC_GICD_SIZE, VGIC_GICR_BASE, VGIC_GICR_SIZE,
    VGIC_MAX_VCPUS, VGIC_GICR_STRIDE. bits_split; cbn; done || lia.
Qed.
Lemma own_gic_idx vm ipa :
  0 <= vm < 4 -> VGIC_GICR_BASE <= ipa < VGIC_GICR_BASE + VGIC_GICR_STRIDE -> gicr_idx vm ipa = vm.
Proof.
  intros Hv Hi. unfold gicr_idx, gicr_frame. cbv zeta. unfold VGIC_MAX_VCPUS, VGIC_GICR_STRIDE, VGIC_GICR_BASE in *.
  rewrite (Z.div_small (ipa - 0x080A0000)) by lia. rewrite s32_id by lia. bits_split; lia.
Qed.
Lemma own_gic_frame ipa :
  own_gic ipa = true -> VGIC_GICR_BASE <= ipa -> VGIC_GICR_BASE <= ipa < VGIC_GICR_BASE + VGIC_GICR_STRIDE.
Proof.
  unfold own_gic, VGIC_GICD_BASE, VGIC_GICD_SIZE, VGIC_GICR_BASE, VGIC_GICR_STRIDE.
  bits_split; cbn; done || lia.
Qed.

(** Only the [idx]-th element of the state changes. *)
Lemma vg_update_frame s i f s' :
  vg_update s i f = Ok s' -> (forall j, j <> i -> aget (vg s') j = aget (vg s) j) /\
  g_sgi_pending s' = g_sgi_pending s /\ g_ngicr s' = g_ngicr s.
Proof.
  unfold vg_update. intros H. res_inv. split; [|done]. intros j Hj. by eapply aget_aset_ne; [exact E1|].
Qed.
Lemma reg_write_frame vm ipa val s s' :
  reg_write vm ipa val s = Ok s' ->
  (forall j, j <> (if VGIC_GICR_BASE <=? ipa then gicr_idx vm ipa else vm) -> aget (vg s') j = aget (vg s) j) /\
  g_sgi_pending s' = g_sgi_pending s /\ g_ngicr s' = g_ngicr s.
Proof.
  unfold reg_write. cbv zeta. repeat case_match; intros E; res_inv; try done; by eapply vg_update_frame.
Qed.
(** A read depends only on the element it selects and on the number of frames. *)
Lemma reg_read_frame vm ipa s t :
  aget (vg s) (if VGIC_GICR_BASE <=? ipa then gicr_idx vm ipa else vm) =
  aget (vg t) (if VGIC_GICR_BASE <=? ipa then gicr_idx vm ipa else vm) ->
  g_ngicr s = g_ngicr t -> reg_read s vm ipa = reg_read t vm ipa.
Proof. intros Hg Hn. unfold reg_read. cbv zeta. destruct (_ <=? _); rewrite Hg, ?Hn; done. Qed.

Lemma own_gic_selects vm ipa :
  0 <= vm < 4 -> own_gic ipa = true -> (if VGIC_GICR_BASE <=? ipa then gicr_idx vm ipa else vm) = vm.
Proof.
  intros Hv Ho. destruct (Z.leb_spec VGIC_GICR_BASE ipa); [|done].
  apply own_gic_idx; [done|]. by apply own_gic_frame.
Qed.



(** C31: The isolation stops at the first frame.  The window [vgic_contains]
    accepts spans four redistributor frames and the slot is [vm + frame], so VM 0's
    write to ISENABLER0 of frame [f] enables the interrupts in VM [f]'s state: the
    routing decision for the other tenant changes for every interrupt named. *)
Theorem vgic_frame_crosses_tenants f val intid s :
  wf_vgic s -> 1 <= f < 4 -> fits 32 val -> 0 <= intid < 32 -> Z.testbit val intid = true ->
  let ipa := VGIC_GICR_BASE + f * VGIC_GICR_STRIDE + GICR_SGI_OFF + 0x0100 in
  vgic_contains ipa = true /\
  exists s', reg_write 0 ipa val s = Ok s' /\ vgic_irq_enabled s' f intid = Ok true.
Proof.
  intros Hs Hf Hval Hi Ht ipa.
  assert (VGIC_GICR_BASE <= ipa /\ fits 45 ipa /\ gicr_off ipa = GICR_SGI_OFF + 0x0100 /\
    (ipa - VGIC_GICR_BASE) / VGIC_GICR_STRIDE = f) as (Hge & H45 & Hoff & Hq).
  { subst ipa. unfold gicr_off, VGIC_GICR_BASE, VGIC_GICR_STRIDE, GICR_SGI_OFF. zlia. }
  split.
  { subst ipa. unfold vgic_contains, VGIC_GICD_BASE, VGIC_GICD_SIZE, VGIC_GICR_BASE, VGIC_GICR_SIZE,
      VGIC_MAX_VCPUS, VGIC_GICR_STRIDE, GICR_SGI_OFF. bits_split; cbn; done || lia. }
  destruct (reg_write_ok 0 ipa val s Hs ltac:(lia) H45) as [s' E]. exists s'. split; [done|].
  unfold reg_write in E. cbv zeta in E. rewrite Hoff in E. destruct (Z.leb_spec VGIC_GICR_BASE ipa); [|lia].
  replace (gicr_idx 0 ipa) with f in E.
  2:{ unfold gicr_idx. rewrite gicr_frame_eq, Hq by done. unfold VGIC_MAX_VCPUS. bits_split; lia. }
  cbn in E. destruct Hs as (Hl & _). destruct (aget_ok (vg s) f) as [g Hg]; [lia|].
  destruct (vg_update_get _ _ _ _ _ E Hg) as (g' & H0 & Hg' & _).
  unfold vgic_irq_enabled. bits_split; [|lia]. rewrite Hg'. cbn [mbind res_bind set_enabled enabled].
  injection H0 as <-. cbn [set_enabled enabled]. rewrite query_bit by done. by rewrite Z.lor_spec, Ht, orb_true_r by done.
Qed.

Lemma vgic_frame_crosses_tenants_witness :
  let ipa := VGIC_GICR_BASE + 1 * VGIC_GICR_STRIDE + GICR_SGI_OFF + 0x0100 in
  vgic_contains ipa = true /\
  exists s', reg_write 0 ipa (bit 27) vgic_boot = Ok s' /\ vgic_irq_enabled s' 1 27 = Ok true.
Proof.
  apply (vgic_frame_crosses_tenants 1 (bit 27) 27); [apply wf_vgic_boot|lia|fits_const|lia|done].
Defined.

(** ** Redistributor discovery *)
Lemma gicr_frame_at f off :
  0 <= f < 4 -> 0 <= off < VGIC_GICR_STRIDE ->
  let ipa := VGIC_GICR_BASE + f * VGIC_GICR_STRIDE + off in
  VGIC_GICR_BASE <= ipa /\ fits 45 ipa /\ gicr_frame ipa = f /\ gicr_off ipa = off.
Proof.
  intros Hf Ho ipa. assert (VGIC_GICR_BASE <= ipa /\ fits 45 ipa) as [H1 H2].
  { subst ipa. unfold VGIC_GICR_BASE, VGIC_GICR_STRIDE in *. zlia. }
  split; [done|]. split; [done|]. rewrite gicr_frame_eq by done.
  subst ipa. unfold gicr_off. unfold VGIC_GICR_BASE, VGIC_GICR_STRIDE in *. zlia.
Qed.

(** GICR_TYPER of a frame as the guest should see it: processor number and
    affinity are the frame number, [Last] marks the final frame. *)
Definition typer_spec (f n : Z) : Z := f * 2 ^ 32 + f * 2 ^ 8 + (if f =? n - 1 then 16 else 0).

(** Redistributor discovery works for every topology set up with
    vgic_set_ngicr: a 64-bit load of GICR_TYPER in frame [f] delivers affinity and
    processor number [f] with the [Last] bit exactly in frame [n - 1], in the
    register the load names, so the walk a guest performs finds its [n] frames. *)
Lemma gicr_typer_walk vm v f n s :
  wf_vcpu v -> 0 <= f < 4 -> 1 <= n <= 4 ->
  let iss := ESR_ISS (exit_esr v) in
  iss_isv iss <> 0 -> iss_wnr iss = 0 -> iss_sas iss = 3 -> iss_srt iss < 31 ->
  let ipa := VGIC_GICR_BASE + f * VGIC_GICR_STRIDE + 0x0008 in
  exists v', vgic_mmio vm v ipa (vgic_set_ngicr n s) = Ok (vgic_set_ngicr n s, v') /\
    get_x v' (iss_srt iss) = Ok (typer_spec f n).
Proof.
  intros Hv Hf Hn iss Hisv Hw Hsas Hsrt ipa.
  destruct (gicr_frame_at f 0x0008 Hf ltac:(done)) as (Hge & H45 & Hfr & Hoff).
  destruct (gicr_frame_at f 0x000C Hf ltac:(done)) as (Hge' & H45' & Hfr' & Hoff'). fold ipa in Hge, H45, Hfr, Hoff.
  assert (u64 (ipa + 4) = VGIC_GICR_BASE + f * VGIC_GICR_STRIDE + 0x000C) as Hnext.
  { rewrite wrap_fits; [subst ipa; lia|]. zlia. }
  unfold vgic_mmio. fold iss. cbv zeta. rewrite Hnext, Hsas, Hw.
  destruct (Z.eqb_spec (iss_isv iss) 0); [done|]. cbn [negb].
  change (negb (0 =? 0)) with false. cbn iota. change (3 =? 3) with true. cbn iota.
  unfold reg_read. cbv zeta. rewrite Hoff, Hoff', Hfr, Hfr'.
  destruct (Z.leb_spec VGIC_GICR_BASE ipa); [|lia].
  destruct (Z.leb_spec VGIC_GICR_BASE (VGIC_GICR_BASE + f * VGIC_GICR_STRIDE + 0x000C)); [|lia].
  cbn -[aget aset Z.shiftl bit typer_spec]. rewrite (wrap_fits 32 f) by zlia. rewrite (wrap_fits 32 (f ≪ 8)) by (rewrite Z.shiftl_mul_pow2 by lia; zlia).
  set (val := _ .| _).
  assert (val = typer_spec f n) as ->.
  { subst val. assert (f = 0 \/ f = 1 \/ f = 2 \/ f = 3) as Hcf by lia.
    assert (n = 1 \/ n = 2 \/ n = 3 \/ n = 4) as Hcn by lia.
    destruct Hcf as [->|[->|[->| ->]]], Hcn as [->|[->|[->| ->]]]; vm_compute; reflexivity. }
  unfold write_rt, put_x. destruct (Z.eqb_spec (iss_srt iss) 31); [lia|].
  pose proof (iss_srt_range iss). destruct Hv as (Hl & _). rewrite aset_ok by lia. cbn [mbind res_bind].
  eexists. split; [reflexivity|]. unfold get_x. cbn. rewrite aget_insert_eq by lia. done.
Qed.

(** ** Software-generated interrupts *)
Definition sgi_pending (s : vgic) (i b : Z) : bool :=
  match aget (g_sgi_pending s) i with Ok p => Z.testbit p b | Err _ => false end.

Lemma post_loop_spec self intid l' : forall l i,
  len l = i ->
  exists l2, post_loop self intid (l ++ l') i (length l') = Ok (l ++ l2) /\ len l2 = len l' /\
  forall j, aget l2 j = (if i + j =? self then aget l' j
                         else p ← aget l' j; Ok (p .| u32 (bit (intid .& 0x1F)))).
Proof.
  induction l' as [|p l' IH]; intros l i Hi; cbn [post_loop length].
  { exists []. split; [done|]. split; [done|]. intros j.
    assert (aget (@nil Z) j = Err OutOfBounds) as ->; [|by case_match].
    unfold aget. case_decide; [|done]. by rewrite lookup_nil. }
  set (p' := if i =? self then p else p .| u32 (bit (intid .& 0x1F))).
  assert ((if i =? self then Ok (l ++ p :: l') else
     p0 ← aget (l ++ p :: l') i; aset (l ++ p :: l') i (p0 .| u32 (bit (intid .& 0x1F)))) =
     Ok (l ++ p' :: l')) as ->.
  { subst p'. case_match; [done|]. rewrite aget_app by done. cbn [mbind res_bind]. by rewrite aset_app. }
  cbn [mbind res_bind]. rewrite (cons_middle p' l l'), app_assoc.
  destruct (IH (l ++ [p']) (i + 1)) as (l2 & -> & Hl2 & Hg).
  { unfold len in *. rewrite length_app. cbn. lia. }
  exists (p' :: l2). rewrite <- app_assoc. split; [done|].
  split; [unfold len in *; cbn; lia|]. intros j.
  destruct (decide (j = 0)) as [->|Hj].
  - rewrite Z.add_0_r. cbn. subst p'. by case_match.
  - destruct (decide (0 <= j)).
    + assert (forall (x : Z) t, aget (x :: t) j = aget t (j - 1)) as Hc.
      { intros x t. unfold aget. rewrite !decide_True by lia.
        replace (Z.to_nat j) with (S (Z.to_nat (j - 1))) by lia. done. }
      rewrite !Hc, Hg. by replace (i + 1 + (j - 1)) with (i + j) by lia.
    + unfold aget. rewrite !decide_False by lia. by case_match.
Qed.

Lemma sgi_bit_range intid : 0 <= (intid .& 0x1F) < 32.
Proof. change 0x1F with (Z.ones 5). rewrite Z.land_ones by lia. change (2 ^ 5) with 32. zlia. Qed.

Lemma post_sgi_spec self intid s :
  len (g_sgi_pending s) = 4 ->
  exists l, vgic_post_sgi self intid s = Ok (set_sgi s l) /\ len l = 4 /\
  forall j, aget l j = (if j =? self then aget (g_sgi_pending s) j
                         else p ← aget (g_sgi_pending s) j; Ok (p .| bit (intid .& 0x1F))).
Proof.
  intros Hl. destruct (post_loop_spec self intid (g_sgi_pending s) [] 0 eq_refl) as (l & H & Hl2 & Hg).
  replace (length (g_sgi_pending s)) with 4%nat in H by (unfold len in Hl; lia).
  cbn [app] in H. unfold vgic_post_sgi. rewrite H. cbn [mbind res_bind]. exists l. split; [done|].
  split; [lia|]. intros j. rewrite Hg, Z.add_0_l.
  by rewrite (wrap_fits 32 (bit _)) by (apply fits_bit, sgi_bit_range).
Qed.

Lemma pop_loop_spec p n : forall b, 0 <= b -> b + Z.of_nat n <= 32 ->
  match pop_loop p b n with
  | Some k => b <= k < b + Z.of_nat n /\ Z.testbit p k = true /\ forall i, b <= i < k -> Z.testbit p i = false
  | None => forall i, b <= i < b + Z.of_nat n -> Z.testbit p i = false
  end.
Proof.
  induction n as [|n IH]; intros b Hb Hn; cbn [pop_loop]; [intros; lia|].
  rewrite query_bit by lia. destruct (Z.testbit p b) eqn:E; [split; [lia|split; [done|intros; lia]]|].
  specialize (IH (b + 1) ltac:(lia) ltac:(lia)). destruct (pop_loop p (b + 1) n).
  - destruct IH as (? & ? & IH). split; [lia|]. split; [done|]. intros i Hi.
    destruct (decide (i = b)) as [->|]; [done|]. apply IH. lia.
  - intros i Hi. destruct (decide (i = b)) as [->|]; [done|]. apply IH. lia.
Qed.

(** The last exit was a 64-bit load into x3. *)
Definition vcpu_ldr64 : vcpu := dabt_vcpu (replicate 31 0) 3 3 0.

Lemma gicr_typer_walk_witness :
  exists v', vgic_mmio 0 vcpu_ldr64 (VGIC_GICR_BASE + 1 * VGIC_GICR_STRIDE + 0x0008) (vgic_set_ngicr 2 vgic_boot) =
    Ok (vgic_set_ngicr 2 vgic_boot, v') /\
    get_x v' (iss_srt (ESR_ISS (exit_esr vcpu_ldr64))) = Ok (typer_spec 1 2).
Proof.
  apply (gicr_typer_walk 0 vcpu_ldr64 1 2);
    [closed_dec|lia|lia|vm_compute; congruence|vm_compute; reflexivity|vm_compute; reflexivity|vm_compute; reflexivity].
Defined.

(** C20: Posting and taking SGIs implement per-vCPU pending sets.  [vgic_post_sgi]
    adds the interrupt to every vCPU but the sender and changes nothing else;
    [vgic_pop_sgi] removes and returns the lowest pending SGI of its vCPU, returns
    [-1] without effect exactly when none of the sixteen is pending, and leaves
    the other vCPUs alone. *)
Theorem sgi_sets_refine s self intid k :
  wf_vgic s -> 0 <= intid < 16 -> 0 <= k < 4 ->
  (exists s1, vgic_post_sgi self intid s = Ok s1 /\ vg s1 = vg s /\
     forall i b, 0 <= i < 4 -> 0 <= b < 16 ->
       sgi_pending s1 i b = sgi_pending s i b || (negb (i =? self) && (b =? intid))) /\
  (exists r s2, vgic_pop_sgi k s = Ok (r, s2) /\ vg s2 = vg s /\
     ((r = -1 /\ s2 = s /\ forall b, 0 <= b < 16 -> sgi_pending s k b = false) \/
      (0 <= r < 16 /\ sgi_pending s k r = true /\ (forall b, 0 <= b < r -> sgi_pending s k b = false) /\
       forall i b, 0 <= i < 4 -> 0 <= b < 16 ->
         sgi_pending s2 i b = sgi_pending s i b && negb ((i =? k) && (b =? r))))).
Proof.
  intros (_ & _ & Hl & HF) Hin Hk. split.
  - destruct (post_sgi_spec self intid s Hl) as (l & -> & Hl' & Hg). eexists. split; [done|]. split; [done|].
    intros i b Hi Hb. unfold sgi_pending. cbn. rewrite Hg.
    change 0x1F with (Z.ones 5). rewrite Z.land_ones, Z.mod_small by (change (2 ^ 5) with 32; lia).
    destruct (aget_ok (g_sgi_pending s) i) as [p ->]; [lia|].
    destruct (i =? self); cbn; [by rewrite orb_false_r|].
    by rewrite Z.lor_spec, testbit_bit by lia.
  - unfold vgic_pop_sgi, VGIC_MAX_VCPUS. destruct (Z.ltb_spec k 0), (Z.leb_spec 4 k); try lia. cbn [orb].
    destruct (aget_ok (g_sgi_pending s) k) as [p Hp]; [lia|]. rewrite Hp. cbn [mbind res_bind].
    assert (forall b, sgi_pending s k b = Z.testbit p b) as Hsp by (intros; unfold sgi_pending; by rewrite Hp).
    destruct (Z.eqb_spec p 0) as [->|].
    { eexists _, _. split; [done|]. split; [done|]. left. split; [done|]. split; [done|].
      intros. by rewrite Hsp, Z.bits_0. }
    pose proof (pop_loop_spec p 16 0 ltac:(lia) ltac:(lia)) as Hpop.
    destruct (pop_loop p 0 16) as [r|].
    + rewrite aset_ok by lia. cbn [mbind res_bind]. eexists _, _. split; [done|]. split; [done|]. right.
      destruct Hpop as (Hr & Ht & Hlow). rewrite Hsp. split; [lia|]. split; [done|].
      split; [intros; rewrite Hsp; apply Hlow; lia|].
      intros i b Hi Hb. unfold sgi_pending. cbn. destruct (Z.eqb_spec i k) as [->|].
      * rewrite aget_insert_eq, Hp by lia. rewrite Z.land_spec, testbit_cnot, testbit_bit by lia.
        by destruct (Z.ltb_spec b 32); [|lia].
      * rewrite aget_insert_ne by lia. by rewrite andb_true_r.
    + eexists _, _. split; [done|]. split; [done|]. left. split; [done|]. split; [done|].
      intros. rewrite Hsp. apply Hpop. lia.
Qed.

Lemma sgi_sets_refine_witness :
  (exists s1, vgic_post_sgi 0 5 vgic_boot = Ok s1 /\ vg s1 = vg vgic_boot /\
     forall i b, 0 <= i < 4 -> 0 <= b < 16 ->
       sgi_pending s1 i b = sgi_pending vgic_boot i b || (negb (i =? 0) && (b =? 5))) /\
  (exists r s2, vgic_pop_sgi 1 vgic_boot = Ok (r, s2) /\ vg s2 = vg vgic_boot /\
     ((r = -1 /\ s2 = vgic_boot /\ forall b, 0 <= b < 16 -> sgi_pending vgic_boot 1 b = false) \/
      (0 <= r < 16 /\ sgi_pending vgic_boot 1 r = true /\ (forall b, 0 <= b < r -> sgi_pending vgic_boot 1 b = false) /\
       forall i b, 0 <= i < 4 -> 0 <= b < 16 ->
         sgi_pending s2 i b = sgi_pending vgic_boot i b && negb ((i =? 1) && (b =? r))))).
Proof. apply (sgi_sets_refine vgic_boot 0 5 1); [apply wf_vgic_boot|lia|lia]. Defined.

(** [vgic_reset] returns from any well-formed state and restores the boot state
    of every VM, every pending set and the frame count. *)
Lemma vgic_reset_boot s : wf_vgic s -> vgic_reset s = Ok vgic_boot /\ wf_vgic vgic_boot.
Proof. intros. split; [by apply vgic_reset_eq|apply wf_vgic_boot]. Qed.

Lemma vgic_reset_boot_witness : vgic_reset vgic_boot = Ok vgic_boot /\ wf_vgic vgic_boot.
Proof. apply (vgic_reset_boot vgic_boot). apply wf_vgic_boot. Defined.
