(* ===== verification/Uart.v ===== *)
(** The PL011 console driver (src/src/uart.c, src/src/mmio.h): polled output,
    non-blocking input and the formatted printing everything else reports with.
    A C string is the list of its bytes; a NUL byte ends it. *)

From S2P Require Import Prelude Machine.
From Stdlib Require Import Ascii.

Definition UART_IBRD := UART_BASE + 0x24.
Definition UART_FBRD := UART_BASE + 0x28.
Definition UART_LCRH := UART_BASE + 0x2C.
Definition UART_CR := UART_BASE + 0x30.
Definition UART_ICR := UART_BASE + 0x44.

(** The bytes of a literal, and the characters the code names. *)
Fixpoint bytes (s : string) : list Z :=
  match s with
  | EmptyString => []
  | String c s => Z.of_N (N_of_ascii c) :: bytes s
  end.
Definition LF := 10.
Definition CR := 13.
Definition chr (c : ascii) : Z := Z.of_N (N_of_ascii c).

(** One variadic argument: a string pointer (possibly null) or the contents of
    its 64-bit argument slot. *)
Inductive arg := AStr (s : option (list Z)) | AInt (v : Z).

Section Uart.
Context {W : Type} `{Platform W}.

Definition uart_init : st W unit :=
  mmio_write32 UART_CR 0x0;;
  mmio_write32 UART_ICR 0x7FF;;
  mmio_write32 UART_IBRD 13;;
  mmio_write32 UART_FBRD 2;;
  mmio_write32 UART_LCRH (bit 4 .| bit 5 .| bit 6);;
  mmio_write32 UART_CR (bit 0 .| bit 8 .| bit 9).

Definition uart_putc (c : Z) : st W unit :=
  poll pl_patience UART_FR (bit 5);;
  mmio_write32 UART_DR (u8 c).

Definition uart_getc_nonblock : st W Z :=
  fr ← mmio_read32 UART_FR;
  if negb ((fr .& bit 4) =? 0) then mret (-1)
  else d ← mmio_read32 UART_DR; mret (d .& 0xFF).

Fixpoint uart_puts (s : list Z) : st W unit :=
  match s with
  | [] => mret tt
  | c :: s =>
      if c =? 0 then mret tt
      else (if c =? LF then uart_putc CR else mret tt);; uart_putc c;; uart_puts s
  end.

Definition uart_println (s : list Z) : st W unit := uart_puts s;; uart_putc CR;; uart_putc LF.

Definition hex_char (nib : Z) : Z := if nib <? 10 then chr "0" + nib else chr "a" + nib - 10.

(** [for (int i = 60; i >= 0; i -= 4)]: [n] iterations are left, at shift [4*(n-1)]. *)
Fixpoint hex_loop (v : Z) (started : bool) (n : nat) : st W unit :=
  match n with
  | O => mret tt
  | S k =>
      let i := 4 * Z.of_nat k in
      let nib := (v ≫ i) .& 0xF in
      if negb (nib =? 0) || started || (i =? 0)
      then uart_putc (hex_char nib);; hex_loop v true k
      else hex_loop v started k
  end.
Definition uart_puthex (v : Z) : st W unit := uart_puts (bytes "0x");; hex_loop v false 16.

(** [while (v) { buf[i++] = '0' + v % 10; v /= 10; }] on the 20-byte buffer. *)
Fixpoint dec_fill (fuel : nat) (v : Z) (buf : list Z) (i : Z) : res (list Z * Z) :=
  if v =? 0 then Ok (buf, i)
  else match fuel with
       | O => Err OutOfFuel
       | S f => buf ← aset buf i (chr "0" + v mod 10); dec_fill f (v / 10) buf (i + 1)
       end.
(** [while (i--) uart_putc(buf[i]);] *)
Fixpoint dec_emit (buf : list Z) (i : nat) : st W unit :=
  match i with
  | O => mret tt
  | S i => c ← try_ (fun _ => aget buf (Z.of_nat i)); uart_putc c;; dec_emit buf i
  end.
Definition uart_putdec (v : Z) : st W unit :=
  if v =? 0 then uart_putc (chr "0")
  else '(buf, i) ← try_ (fun _ => dec_fill 64 v (replicate 20 0) 0); dec_emit buf (Z.to_nat i).

(** The 64-bit slot read by [va_arg(args, uint64_t)]; too few arguments is
    undefined behaviour. *)
Definition next_int (l : list arg) : st W (Z * list arg) :=
  match l with AInt v :: l => mret (v, l) | _ => fun _ => Err OutOfBounds end.
Definition next_str (l : list arg) : st W (option (list Z) * list arg) :=
  match l with AStr s :: l => mret (s, l) | _ => fun _ => Err OutOfBounds end.

(** [-val] for a negative int64_t given by its bits, as the unsigned bits. *)
Definition neg64 (v : Z) : Z := u64 (- v).

Fixpoint uart_printf (fmt : list Z) (args : list arg) : st W unit :=
  match fmt with
  | [] => mret tt
  | c :: fmt =>
      if c =? 0 then mret tt
      else if negb (c =? chr "%") then
        (if c =? LF then uart_putc CR else mret tt);; uart_putc c;; uart_printf fmt args
      else
        match fmt with
        | [] => mret tt
        | d :: fmt =>
            if d =? chr "s" then
              '(s, args) ← next_str args; uart_puts (default (bytes "(null)") s);; uart_printf fmt args
            else if d =? chr "d" then
              '(v, args) ← next_int args;
              (if negb ((v .& bit 63) =? 0) then uart_putc (chr "-");; uart_putdec (neg64 v)
               else uart_putdec v);;
              uart_printf fmt args
            else if d =? chr "u" then '(v, args) ← next_int args; uart_putdec v;; uart_printf fmt args
            else if d =? chr "x" then '(v, args) ← next_int args; uart_puthex v;; uart_printf fmt args
            else if d =? chr "p" then '(v, args) ← next_int args; uart_puthex v;; uart_printf fmt args
            else if d =? chr "c" then '(v, args) ← next_int args; uart_putc (u8 v);; uart_printf fmt args
            else if d =? chr "%" then uart_putc (chr "%");; uart_printf fmt args
            else if d =? 0 then mret tt
            else uart_putc (chr "%");; uart_putc d;; uart_printf fmt args
        end
  end.

(** * Specification: the bytes that reach the console *)

(** Send the bytes of a list, one after the other. *)
Fixpoint put_all (l : list Z) : st W unit :=
  match l with [] => mret tt | c :: l => uart_putc c;; put_all l end.

Lemma st_bind_assoc {S A B C} (m : st S A) (k : A -> st S B) (h : B -> st S C) s :
  ((m ≫= k) ≫= h) s = (m ≫= (fun a => k a ≫= h)) s.
Proof. unfold mbind, st_bind. by destruct (m s) as [[]|]. Qed.
Lemma st_bind_ext {S A B} (m m' : st S A) (k k' : A -> st S B) s :
  m s = m' s -> (forall a s, k a s = k' a s) -> (m ≫= k) s = (m' ≫= k') s.
Proof. intros E Hk. unfold mbind, st_bind. rewrite E. by destruct (m' s) as [[]|]. Qed.

Lemma put_all_app l1 l2 w : put_all (l1 ++ l2) w = (put_all l1;; put_all l2) w.
Proof.
  revert w. induction l1 as [|c l1 IH]; intros w; [done|]. cbn [app put_all].
  rewrite st_bind_assoc. apply st_bind_ext; [done|]. intros. apply IH.
Qed.
Lemma put_all_one c w : put_all [c] w = uart_putc c w.
Proof. cbn. unfold mbind, st_bind. destruct (uart_putc c w) as [[[] ?]|]; done. Qed.

(** Splitting off a computation that sends a known list. *)
Lemma put_then (m : st W unit) l1 (k : st W unit) l2 w :
  (forall w, m w = put_all l1 w) -> (forall w, k w = put_all l2 w) -> (m;; k) w = put_all (l1 ++ l2) w.
Proof. intros Hm Hk. rewrite put_all_app. apply st_bind_ext; [done|]. by intros _ ?. Qed.

Fixpoint until_nul (l : list Z) : list Z :=
  match l with [] => [] | c :: l => if c =? 0 then [] else c :: until_nul l end.
(** A newline is sent as CR LF. *)
Definition crlf (l : list Z) : list Z := c ← l; if c =? LF then [CR; c] else [c].
Definition line (l : list Z) : list Z := crlf (until_nul l).

Lemma putc_crlf c w : ((if c =? LF then uart_putc CR else mret tt);; uart_putc c) w = put_all (if c =? LF then [CR; c] else [c]) w.
Proof.
  destruct (c =? LF).
  - apply (put_then _ [CR] _ [c]); intros; by rewrite put_all_one.
  - by rewrite put_all_one.
Qed.
Lemma puts_line s w : uart_puts s w = put_all (line s) w.
Proof.
  revert w. induction s as [|c s IH]; intros w; [done|]. unfold line in *. cbn [uart_puts until_nul].
  destruct (c =? 0); [done|]. change (crlf (c :: until_nul s)) with ((if c =? LF then [CR; c] else [c]) ++ crlf (until_nul s)).
  rewrite <- (put_then ((if c =? LF then uart_putc CR else mret tt);; uart_putc c) _ (uart_puts s)).
  - by rewrite st_bind_assoc.
  - apply putc_crlf.
  - exact IH.
Qed.

(** ** Numbers *)
Fixpoint hexd (v : Z) (started : bool) (n : nat) : list Z :=
  match n with
  | O => []
  | S k =>
      let nib := (v ≫ (4 * Z.of_nat k)) .& 0xF in
      if negb (nib =? 0) || started || (4 * Z.of_nat k =? 0) then nib :: hexd v true k else hexd v started k
  end.
Definition hex_text (v : Z) : list Z := bytes "0x" ++ map hex_char (hexd v false 16).

Lemma hex_loop_eq v n : forall b w, hex_loop v b n w = put_all (map hex_char (hexd v b n)) w.
Proof.
  induction n as [|k IH]; intros b w; [done|]. cbn [hex_loop hexd]. cbv zeta.
  case_match; cbn [map put_all]; [apply st_bind_ext; [done|by intros]|apply IH].
Qed.
Lemma puthex_text v w : uart_puthex v w = put_all (hex_text v) w.
Proof. apply put_then; [intros; apply (puts_line (bytes "0x"))|intros; apply hex_loop_eq]. Qed.

(** Decimal digits, least significant first. *)
Fixpoint digs (fuel : nat) (v : Z) : list Z :=
  if v =? 0 then [] else match fuel with O => [] | S f => v mod 10 :: digs f (v / 10) end.
Definition dec_text (v : Z) : list Z :=
  if v =? 0 then [chr "0"] else map (Z.add (chr "0")) (rev (digs 64 v)).

Lemma digs_len k : forall fuel v, (k <= fuel)%nat -> 0 <= v < 10 ^ Z.of_nat k -> (length (digs fuel v) <= k)%nat.
Proof.
  induction k as [|k IH]; intros [|f] v Hf Hv; try (change (10 ^ Z.of_nat 0) with 1 in Hv); cbn [digs].
  - destruct (Z.eqb_spec v 0); [done|lia].
  - destruct (Z.eqb_spec v 0); [done|lia].
  - lia.
  - destruct (Z.eqb_spec v 0); [cbn; lia|]. cbn [length]. apply le_n_S, IH; [lia|].
    rewrite Nat2Z.inj_succ, Z.pow_succ_r in Hv by lia. split; [apply Z.div_pos; lia|].
    apply Z.div_lt_upper_bound; lia.
Qed.

Lemma dec_fill_spec k : forall fuel v pre post i,
  (k <= fuel)%nat -> 0 <= v < 10 ^ Z.of_nat k -> len pre = i -> (k <= length post)%nat ->
  exists post', dec_fill fuel v (pre ++ post) i =
    Ok ((pre ++ map (Z.add (chr "0")) (digs fuel v)) ++ post', i + len (digs fuel v)).
Proof.
  induction k as [|k IH]; intros fuel v pre post i Hf Hv Hi Hp.
  { change (10 ^ Z.of_nat 0) with 1 in Hv. assert (v = 0) as -> by lia. exists post.
    destruct fuel; cbn; by rewrite app_nil_r, Z.add_0_r. }
  destruct fuel as [|f]; [lia|]. cbn [dec_fill digs]. destruct (Z.eqb_spec v 0).
  { exists post. cbn. by rewrite app_nil_r, Z.add_0_r. }
  destruct post as [|p post]; [cbn in Hp; lia|]. rewrite aset_app by done. cbn [mbind res_bind].
  rewrite (cons_middle _ pre post), app_assoc.
  destruct (IH f (v / 10) (pre ++ [chr "0" + v mod 10]) post (i + 1)) as [post' ->].
  - lia.
  - rewrite Nat2Z.inj_succ, Z.pow_succ_r in Hv by lia. split; [apply Z.div_pos; lia|].
    apply Z.div_lt_upper_bound; lia.
  - unfold len in *. rewrite length_app. cbn. lia.
  - cbn in Hp. lia.
  - exists post'. f_equal. f_equal; [by rewrite <- (app_assoc pre)|].
    unfold len. cbn [length]. lia.
Qed.

Lemma dec_emit_spec l rest w : dec_emit (l ++ rest) (length l) w = put_all (rev l) w.
Proof.
  revert rest w. induction l as [|c l IH] using rev_ind; intros rest w; [done|].
  rewrite length_app, Nat.add_comm, rev_unit. cbn [length Nat.add dec_emit put_all].
  unfold try_, mbind at 1, st_bind at 1. rewrite <- app_assoc. cbn [app].
  rewrite aget_app by done. cbn [mbind res_bind].
  apply st_bind_ext; [done|]. intros. apply IH.
Qed.

Lemma putdec_text v w : fits 64 v -> uart_putdec v w = put_all (dec_text v) w.
Proof.
  intros Hv. unfold uart_putdec, dec_text. destruct (Z.eqb_spec v 0); [by rewrite put_all_one|].
  assert (0 <= v < 10 ^ Z.of_nat 20) as H20 by (unfold fits in Hv; lia).
  destruct (dec_fill_spec 20 64 v [] (replicate 20 0) 0) as [post' E]; [lia|done|done|done|].
  unfold try_, mbind at 1, st_bind at 1. cbn [app] in E. rewrite E. cbn [mbind res_bind].
  rewrite Z.add_0_l. unfold len. rewrite Nat2Z.id, map_rev.
  rewrite <- (dec_emit_spec _ post'), length_map. done.
Qed.

(** ** Formatted output *)
(** What a format string and its arguments render to; [None] when the format
    asks for an argument that is not there. *)
Fixpoint render (fmt : list Z) (args : list arg) : option (list Z) :=
  match fmt with
  | [] => Some []
  | c :: fmt =>
      if c =? 0 then Some []
      else if negb (c =? chr "%") then app (if c =? LF then [CR; c] else [c]) <$> render fmt args
      else
        match fmt with
        | [] => Some []
        | d :: fmt =>
            let int (f : Z -> list Z) :=
              match args with AInt v :: args => app (f v) <$> render fmt args | _ => None end in
            if d =? chr "s" then
              match args with
              | AStr s :: args => app (line (default (bytes "(null)") s)) <$> render fmt args
              | _ => None
              end
            else if d =? chr "d" then
              int (fun v => if Z.testbit v 63 then chr "-" :: dec_text (2 ^ 64 - v) else dec_text v)
            else if d =? chr "u" then int dec_text
            else if (d =? chr "x") || (d =? chr "p") then int hex_text
            else if d =? chr "c" then int (fun v => [u8 v])
            else if d =? chr "%" then cons (chr "%") <$> render fmt args
            else if d =? 0 then Some []
            else app [chr "%"; d] <$> render fmt args
        end
  end.

Definition arg_ok (a : arg) : Prop := match a with AInt v => fits 64 v | AStr _ => True end.

Lemma neg64_text v : fits 64 v -> Z.testbit v 63 = true -> neg64 v = 2 ^ 64 - v.
Proof.
  intros Hv Hb. assert (v <> 0) by (intros ->; by rewrite Z.bits_0 in Hb). unfold neg64. zlia.
Qed.

(** One conversion: send the text of the argument, then the rest. *)
Lemma printf_int (f : Z -> st W unit) (t : Z -> list Z) fmt args out w (k : list arg -> st W unit) :
  Forall arg_ok args -> (forall v w, fits 64 v -> f v w = put_all (t v) w) ->
  (forall args out w, Forall arg_ok args -> render fmt args = Some out -> k args w = put_all out w) ->
  match args with AInt v :: args => app (t v) <$> render fmt args | _ => None end = Some out ->
  ('(v, args) ← next_int args; f v;; k args) w = put_all out w.
Proof.
  intros HF Hf Hk Ho. destruct args as [|[s|v] args]; try done. apply Forall_cons in HF as [Hv HF].
  destruct (render fmt args) as [o|] eqn:E; [|done]. cbn in Ho. injection Ho as <-.
  cbn [next_int]. unfold mret, st_ret, mbind at 1, st_bind at 1. cbn iota beta.
  apply put_then; [intros; by apply Hf|]. intros. by apply Hk.
Qed.

Lemma printf_lit (m k : st W unit) l o out w :
  (forall w, m w = put_all l w) -> (forall out w, o = Some out -> k w = put_all out w) ->
  app l <$> o = Some out -> (m;; k) w = put_all out w.
Proof. intros Hm Hk Ho. destruct o; [|done]. injection Ho as <-. apply put_then; [done|]. auto. Qed.

Lemma printf_text n : forall fmt args out w, (length fmt < n)%nat ->
  Forall arg_ok args -> render fmt args = Some out -> uart_printf fmt args w = put_all out w.
Proof.
  induction n as [|n IH]; [lia|]. intros [|c [|d fmt]] args out w Hl Ha; cbn [uart_printf render].
  { by intros [= <-]. }
  { destruct (c =? 0); [by intros [= <-]|]. destruct (c =? chr "%"); cbn [negb]; [by intros [= <-]|].
    intros Ho. rewrite <- st_bind_assoc. eapply printf_lit; [apply putc_crlf| |exact Ho]. by intros ?? [= <-]. }
  destruct (c =? 0); [by intros [= <-]|]. cbn [length] in Hl.
  assert (forall args out w, Forall arg_ok args -> render fmt args = Some out -> uart_printf fmt args w = put_all out w)
    as Hk by (intros; apply IH; [lia|done|done]).
  destruct (c =? chr "%"); cbn [negb].
  2:{ intros Ho. rewrite <- st_bind_assoc. eapply printf_lit; [apply putc_crlf| |exact Ho].
      intros. apply (IH (d :: fmt)); [cbn; lia|done|done]. }
  cbv zeta. destruct (d =? chr "s").
  { intros Ho. destruct args as [|[s|v] args]; try done. apply Forall_cons in Ha as [_ Ha].
    cbn [next_str]. unfold mret, st_ret, mbind at 1, st_bind at 1. cbn iota beta.
    eapply printf_lit; [apply puts_line| |exact Ho]. intros; by apply Hk. }
  destruct (d =? chr "d").
  { intros Ho. eapply (printf_int (fun v => if negb ((v .& bit 63) =? 0) then _ else _)); [done| |exact Hk|exact Ho].
    intros v w' Hv. cbv beta. rewrite land_bit_test by lia. destruct (Z.testbit v 63) eqn:Eb; [|by apply putdec_text].
    rewrite neg64_text by done. apply (put_then _ [chr "-"]); intros; [by rewrite put_all_one|].
    apply putdec_text. rewrite <- neg64_text by done. apply fits_wrap. lia. }
  destruct (d =? chr "u"); [intros; eapply printf_int; eauto using putdec_text|].
  destruct (d =? chr "x"); cbn [orb]; [intros; eapply printf_int; eauto using puthex_text|].
  destruct (d =? chr "p"); [intros; eapply printf_int; eauto using puthex_text|].
  destruct (d =? chr "c").
  { intros. eapply (printf_int (fun v => uart_putc (u8 v)) (fun v => [u8 v])); eauto.
    intros. by rewrite put_all_one. }
  destruct (d =? chr "%").
  { intros Ho. eapply (printf_lit _ _ [chr "%"]); [intros; by rewrite put_all_one|intros; by apply Hk|exact Ho]. }
  destruct (d =? 0); [by intros [= <-]|].
  intros Ho. rewrite <- st_bind_assoc. eapply printf_lit; [|intros; by apply Hk|exact Ho].
  intros. apply (put_then _ [chr "%"] _ [d]); intros; by rewrite put_all_one.
Qed.
End Uart.

(** * Theorems *)
Section UartTheorems.
Context {W : Type} `{PlatformOk W}.

Lemma putc_runs c w : exists w', uart_putc c w = Ok (tt, w').
Proof.
  unfold uart_putc, mbind, st_bind. destruct (poll_ready _ _ _ _ (uart_ready w)) as [w' ->]. by eexists.
Qed.
Lemma put_all_runs l : forall w, exists w', put_all l w = Ok (tt, w').
Proof.
  induction l as [|c l IH]; intros w; [by eexists|]. destruct (putc_runs c w) as [w1 E].
  destruct (IH w1) as [w2 E2]. exists w2. cbn. by rewrite (st_bind_Ok _ _ _ _ _ E).
Qed.
Lemma printf_runs fmt args w :
  Forall arg_ok args -> is_Some (render fmt args) -> exists w', uart_printf fmt args w = Ok (tt, w').
Proof.
  intros Ha [out Ho]. destruct (put_all_runs out w) as [w' E]. exists w'. rewrite <- E.
  apply (printf_text (S (length fmt))); [lia|done|done].
Qed.
Lemma puts_runs l w : exists w', uart_puts l w = Ok (tt, w').
Proof. rewrite puts_line. apply put_all_runs. Qed.
Lemma println_runs l w : exists w', uart_println l w = Ok (tt, w').
Proof.
  destruct (puts_runs l w) as [w1 E1], (putc_runs CR w1) as [w2 E2], (putc_runs LF w2) as [w3 E3].
  exists w3. unfold uart_println. rewrite (st_bind_Ok _ _ _ _ _ E1). by rewrite (st_bind_Ok _ _ _ _ _ E2).
Qed.

(** C38: [uart_printf] implements its format language.  For every format and
    arguments that supply what the format asks for, printing returns (the polling
    loops end) and the bytes handed to the UART are exactly the rendering of the
    format: text with newlines sent as CR LF, strings, decimal and hexadecimal
    numbers, characters. *)
Theorem uart_printf_renders fmt args out (w : W) :
  Forall arg_ok args -> render fmt args = Some out ->
  uart_printf fmt args w = put_all out w /\ exists w', put_all out w = Ok (tt, w').
Proof. intros Ha Ho. split; [apply (printf_text (S (length fmt))); [lia|done|done]|apply put_all_runs]. Qed.

(** The number a list of digits denotes, most significant first. *)
Definition value (base : Z) (l : list Z) : Z := fold_left (fun a d => a * base + d) l 0.

Lemma value_rev b l : value b (rev l) = foldr (fun d a => a * b + d) 0 l.
Proof. unfold value. rewrite <- (rev_involutive l) at 2. by rewrite fold_left_rev_right. Qed.

Lemma digs_value k : forall fuel v, (k <= fuel)%nat -> 0 <= v < 10 ^ Z.of_nat k ->
  foldr (fun d a => a * 10 + d) 0 (digs fuel v) = v /\ Forall (fun d => 0 <= d < 10) (digs fuel v) /\
  (v <> 0 -> exists l d, digs fuel v = l ++ [d] /\ d <> 0).
Proof.
  induction k as [|k IH]; intros fuel v Hf Hv.
  { change (10 ^ Z.of_nat 0) with 1 in Hv. assert (v = 0) as -> by lia. by destruct fuel; (split; [done|split; [constructor|]]). }
  destruct fuel as [|f]; [lia|]. cbn [digs]. destruct (Z.eqb_spec v 0) as [->|Hne]; [by (split; [done|split; [constructor|]])|].
  rewrite Nat2Z.inj_succ, Z.pow_succ_r in Hv by lia.
  destruct (IH f (v / 10)) as (E & HF & Hh); [lia| |].
  { split; [apply Z.div_pos; lia|]. apply Z.div_lt_upper_bound; lia. }
  cbn [foldr]. rewrite E. split; [zlia|]. split; [constructor; [zlia|done]|]. intros _.
  destruct (decide (v / 10 = 0)) as [H0|H0].
  - exists [], (v mod 10). rewrite H0. split; [by destruct f|zlia].
  - destruct (Hh H0) as (l & d & -> & Hd). by exists (v mod 10 :: l), d.
Qed.

(** [uart_putdec] prints the decimal numeral of any 64-bit value.  The bytes
    sent are ASCII digits whose positional value is [v], without a leading zero,
    and there are at most 20 of them, so the 20-byte buffer never overflows. *)
Lemma uart_putdec_decimal v (w : W) :
  fits 64 v ->
  exists ds, uart_putdec v w = put_all (map (Z.add (chr "0")) ds) w /\
    value 10 ds = v /\ Forall (fun d => 0 <= d < 10) ds /\ (1 <= length ds <= 20)%nat /\
    (v <> 0 -> head ds <> Some 0).
Proof.
  intros Hv. rewrite putdec_text by done. unfold dec_text. destruct (Z.eqb_spec v 0) as [->|Hne].
  { exists [0]. split; [done|]. split; [done|]. split; [repeat constructor; lia|]. cbn. split; [lia|done]. }
  assert (0 <= v < 10 ^ Z.of_nat 20) as H20 by (unfold fits in Hv; lia).
  exists (rev (digs 64 v)). split; [done|]. rewrite value_rev, length_rev.
  destruct (digs_value 20 64 v) as (E & HF & Hh); [lia|done|]. destruct (Hh Hne) as (l & d & El & Hd).
  split; [done|]. split; [by apply Forall_rev|].
  split; [|rewrite El, rev_unit; cbn; congruence].
  pose proof (digs_len 20 64 v ltac:(lia) H20). rewrite El in *. rewrite length_app in *. cbn in *. lia.
Qed.

Lemma nibble v k : 0 <= v -> 0 <= k -> ((v ≫ (4 * k)) .& 0xF) = v / 16 ^ k mod 16.
Proof.
  intros. change 0xF with (Z.ones 4). rewrite Z.land_ones, Z.shiftr_div_pow2 by lia.
  by rewrite Z.pow_mul_r by lia.
Qed.
Lemma hexd_value v n : forall b acc, 0 <= v -> (b = false -> acc = 0) ->
  fold_left (fun a d => a * 16 + d) (hexd v b n) acc = acc * 16 ^ Z.of_nat n + v mod 16 ^ Z.of_nat n.
Proof.
  induction n as [|k IH]; intros b acc Hv Hb.
  { cbn. change (16 ^ Z.of_nat 0) with 1. rewrite Z.mod_1_r. lia. }
  cbn [hexd]. cbv zeta. rewrite nibble by lia.
  rewrite Nat2Z.inj_succ, Z.pow_succ_r by lia. set (p := 16 ^ Z.of_nat k).
  assert (0 < p) by (apply Z.pow_pos_nonneg; lia).
  assert (v mod (16 * p) = (v / p mod 16) * p + v mod p) as Hsplit.
  { rewrite Z.mul_comm, Z.rem_mul_r by lia. lia. }
  destruct (negb _ || _ || _) eqn:E; cbn [fold_left].
  - rewrite IH by done. fold p. rewrite Hsplit. ring.
  - rewrite IH by done. fold p. rewrite Hsplit.
    apply orb_false_elim in E as [E _]. apply orb_false_elim in E as [E Eb].
    apply negb_false_iff, Z.eqb_eq in E. rewrite E, (Hb Eb). lia.
Qed.
Lemma hexd_shape v n : forall b, 0 <= v ->
  Forall (fun d => 0 <= d < 16) (hexd v b n) /\ (length (hexd v b n) <= n)%nat /\
  (b = false -> head (hexd v b n) = Some 0 -> length (hexd v b n) = 1%nat).
Proof.
  induction n as [|k IH]; intros b Hv; [by repeat split; try constructor|].
  cbn [hexd]. cbv zeta. rewrite nibble by lia.
  set (d := v / 16 ^ Z.of_nat k mod 16). assert (0 <= d < 16) by (apply Z.mod_pos_bound; lia).
  destruct (negb _ || _ || _) eqn:E; cbn [length].
  - destruct (IH true Hv) as (F & L & _). split; [by constructor|]. split; [lia|].
    intros -> Hd. cbn in Hd. injection Hd as Hd. rewrite Hd in E. cbn in E.
    apply Z.eqb_eq in E. by replace k with 0%nat by lia.
  - destruct (IH b Hv) as (F & L & Hh). split; [done|]. split; [lia|done].
Qed.

(** [uart_puthex] prints the hexadecimal numeral of any 64-bit value after
    "0x": at most 16 digits whose positional value is [v], with a leading zero only
    when it is the single digit of zero. *)
Lemma uart_puthex_hex v (w : W) :
  fits 64 v ->
  exists ds, uart_puthex v w = put_all (bytes "0x" ++ map hex_char ds) w /\
    value 16 ds = v /\ Forall (fun d => 0 <= d < 16) ds /\ (length ds <= 16)%nat /\
    (head ds = Some 0 -> length ds = 1%nat).
Proof.
  intros [Hv0 Hv1]. exists (hexd v false 16). rewrite puthex_text. split; [done|].
  destruct (hexd_shape v 16 false Hv0) as (F & L & Hh).
  split; [|by eauto]. unfold value. rewrite hexd_value by done.
  change (16 ^ Z.of_nat 16) with (2 ^ 64). rewrite Z.mod_small; lia.
Qed.
End UartTheorems.

(** ** Examples on the scripted machine *)
Definition quiet : script := mk_script [] [] [] [] 0.

Lemma uart_printf_renders_witness :
  uart_printf (bytes "[M4] vCPU %d HVC, x0=%u (%s) %x") [AInt 1; AInt 18446744073709551615; AStr (Some (bytes "HVC64")); AInt 255] quiet =
    put_all (bytes "[M4] vCPU 1 HVC, x0=18446744073709551615 (HVC64) 0xff") quiet /\
  exists w', put_all (bytes "[M4] vCPU 1 HVC, x0=18446744073709551615 (HVC64) 0xff") quiet = Ok (tt, w').
Proof.
  apply (uart_printf_renders (bytes "[M4] vCPU %d HVC, x0=%u (%s) %x")); [|vm_compute; reflexivity].
  repeat constructor; done.
Defined.
Lemma uart_putdec_decimal_witness :
  exists ds, uart_putdec 1907 quiet = put_all (map (Z.add (chr "0")) ds) quiet /\
    value 10 ds = 1907 /\ Forall (fun d => 0 <= d < 10) ds /\ (1 <= length ds <= 20)%nat /\
    (1907 <> 0 -> head ds <> Some 0).
Proof. apply uart_putdec_decimal. fits_const. Defined.
Lemma uart_puthex_hex_witness :
  exists ds, uart_puthex 0xBEEF quiet = put_all (bytes "0x" ++ map hex_char ds) quiet /\
    value 16 ds = 0xBEEF /\ Forall (fun d => 0 <= d < 16) ds /\ (length ds <= 16)%nat /\
    (head ds = Some 0 -> length ds = 1%nat).
Proof. apply uart_puthex_hex. fits_const. Defined.
