(* ===== verification/Vdev.v ===== *)
(** The emulated PL011 that guests print through (src/src/vdev.c): register
    emulation, the one-byte receive buffer and the decoding of trapped accesses.
    [vuart] is the static state of vdev.c; the device's output goes to the real
    console, so the operations run on the pair of that state and the machine. *)

From S2P Require Import Prelude Esr Machine Vcpu Uart.

Definition VUART_BASE := 0x09000000.
Definition VUART_SIZE := 0x1000.
Definition VUART_DR := 0x00.
Definition VUART_FR := 0x18.
Definition VUART_IMSC := 0x38.
Definition VUART_RIS := 0x3C.
Definition VUART_MIS := 0x40.
Definition VUART_ICR := 0x44.
Definition PL011_RXIM := bit 4.

Record vuart := mk_vuart { v_imsc : Z; v_rx : Z }.
Definition vuart_boot : vuart := mk_vuart 0 (-1).

Definition vuart_contains (ipa : Z) : bool := (VUART_BASE <=? ipa) && (ipa <? VUART_BASE + VUART_SIZE).
Definition vuart_push_rx (c : Z) (d : vuart) : vuart := mk_vuart (v_imsc d) (c .& 0xFF).
Definition vuart_rx_irq_pending (d : vuart) : bool :=
  (0 <=? v_rx d) && negb ((v_imsc d .& PL011_RXIM) =? 0).

Definition vuart_read (off : Z) (d : vuart) : Z * vuart :=
  if off =? VUART_DR then
    let c := v_rx d in
    (if c <? 0 then 0 else u32 c, mk_vuart (v_imsc d) (-1))
  else if off =? VUART_FR then (bit 7 .| (if v_rx d <? 0 then bit 4 else 0), d)
  else if off =? VUART_IMSC then (v_imsc d, d)
  else if off =? VUART_RIS then (if 0 <=? v_rx d then PL011_RXIM else 0, d)
  else if off =? VUART_MIS then ((if 0 <=? v_rx d then PL011_RXIM else 0) .& v_imsc d, d)
  else if off =? 0xFE0 then (0x11, d)
  else if off =? 0xFE4 then (0x10, d)
  else if off =? 0xFE8 then (0x14, d)
  else if off =? 0xFEC then (0x00, d)
  else if off =? 0xFF0 then (0x0d, d)
  else if off =? 0xFF4 then (0xf0, d)
  else if off =? 0xFF8 then (0x05, d)
  else if off =? 0xFFC then (0xb1, d)
  else (0, d).

Section Vuart.
Context {W : Type} `{Platform W}.

(** The device state and the machine. *)
Abbreviation dev := (vuart * W)%type.
Definition on_w {A} (m : st W A) : st dev A := zoom snd (fun t w => (fst t, w)) m.
Definition on_vuart {A} (f : vuart -> A * vuart) : st dev A := fun '(d, w) =>
  let '(a, d) := f d in Ok (a, (d, w)).

Definition vuart_write (off val : Z) : st dev unit :=
  if off =? VUART_DR then on_w (uart_putc (val .& 0xFF))
  else if off =? VUART_IMSC then on_vuart (fun d => (tt, mk_vuart (u32 val) (v_rx d)))
  else if off =? VUART_ICR then mret tt
  else mret tt.

Definition mmio_emulate (v : vcpu) (ipa : Z) : st dev vcpu :=
  let iss := ESR_ISS (exit_esr v) in
  let isv := iss_isv iss in
  if isv =? 0 then
    on_w (uart_printf (bytes "[M5] DABT without ISV (iss=%x) at ipa=%x, skipping" ++ [LF]) [AInt iss; AInt ipa]);;
    mret (pc_advance v)
  else
    let wnr := iss_wnr iss in
    let srt := iss_srt iss in
    let off := u64 (ipa - VUART_BASE) in
    v ← (if negb (wnr =? 0) then
           val ← try_ (fun _ => read_rt v srt);
           vuart_write off val;; mret v
         else
           val ← on_vuart (vuart_read off);
           try_ (fun _ => write_rt v srt val));
    mret (pc_advance v).
End Vuart.

(** * Theorems *)
Definition wf_vuart (d : vuart) : Prop := fits 32 (v_imsc d) /\ -1 <= v_rx d < 256.
#[export] Instance wf_vuart_dec d : Decision (wf_vuart d).
Proof. unfold wf_vuart. apply _. Defined.

(** The receive side as the PL011 manual describes a one-byte FIFO. *)
Definition rx_fifo (d : vuart) : option Z := if v_rx d <? 0 then None else Some (v_rx d).

Lemma wf_push_rx c d : wf_vuart d -> wf_vuart (vuart_push_rx c d).
Proof.
  intros [H _]. split; [done|]. cbn. change 0xFF with (Z.ones 8). rewrite land_ones_wrap by lia.
  pose proof (fits_wrap 8 c). unfold fits in *. lia.
Qed.

(** The receive path is a one-byte FIFO with the PL011's flags.  A pushed
    keystroke is what the next DR read returns, once; the flag register's RXFE bit,
    the raw and masked interrupt status and the interrupt request all say whether
    the FIFO holds a byte; reading any other register changes nothing. *)
Lemma vuart_fifo c d :
  wf_vuart d ->
  rx_fifo (vuart_push_rx c d) = Some (u8 c) /\
  vuart_read VUART_DR d = (default 0 (rx_fifo d), mk_vuart (v_imsc d) (-1)) /\
  rx_fifo (vuart_read VUART_DR d).2 = None /\
  Z.testbit (vuart_read VUART_FR d).1 4 = bool_decide (rx_fifo d = None) /\
  Z.testbit (vuart_read VUART_RIS d).1 4 = bool_decide (rx_fifo d <> None) /\
  Z.testbit (vuart_read VUART_MIS d).1 4 = vuart_rx_irq_pending d /\
  vuart_rx_irq_pending d = bool_decide (rx_fifo d <> None) && Z.testbit (v_imsc d) 4 /\
  (forall off, off <> VUART_DR -> (vuart_read off d).2 = d).
Proof.
  intros [Hm Hr]. unfold rx_fifo, vuart_rx_irq_pending, PL011_RXIM. rewrite land_bit_test by lia.
  split.
  { cbn. change 0xFF with (Z.ones 8). rewrite land_ones_wrap by lia.
    pose proof (fits_wrap 8 c) as Hf. unfold fits in Hf. destruct (Z.ltb_spec (u8 c) 0); [lia|done]. }
  split; [|split; [done|]].
  { unfold vuart_read. change (VUART_DR =? VUART_DR) with true. cbn iota zeta.
    destruct (Z.ltb_spec (v_rx d) 0); [done|]. rewrite wrap_fits by zlia. done. }
  change (vuart_read VUART_FR d) with (bit 7 .| (if v_rx d <? 0 then bit 4 else 0), d).
  change (vuart_read VUART_RIS d) with (if 0 <=? v_rx d then bit 4 else 0, d).
  change (vuart_read VUART_MIS d) with ((if 0 <=? v_rx d then bit 4 else 0) .& v_imsc d, d). cbn [fst].
  assert (forall off, off <> VUART_DR -> (vuart_read off d).2 = d) as Hoff.
  { intros off Ho. unfold vuart_read. destruct (Z.eqb_spec off VUART_DR); [done|]. by repeat case_match. }
  destruct (Z.ltb_spec (v_rx d) 0), (Z.leb_spec 0 (v_rx d)); try lia; cbn [andb];
    rewrite Z.land_spec; by split_and!.
Qed.

Lemma vuart_fifo_witness :
  rx_fifo (vuart_push_rx 0x161 vuart_boot) = Some (u8 0x161) /\
  vuart_read VUART_DR vuart_boot = (default 0 (rx_fifo vuart_boot), mk_vuart (v_imsc vuart_boot) (-1)) /\
  rx_fifo (vuart_read VUART_DR vuart_boot).2 = None /\
  Z.testbit (vuart_read VUART_FR vuart_boot).1 4 = bool_decide (rx_fifo vuart_boot = None) /\
  Z.testbit (vuart_read VUART_RIS vuart_boot).1 4 = bool_decide (rx_fifo vuart_boot <> None) /\
  Z.testbit (vuart_read VUART_MIS vuart_boot).1 4 = vuart_rx_irq_pending vuart_boot /\
  vuart_rx_irq_pending vuart_boot = bool_decide (rx_fifo vuart_boot <> None) && Z.testbit (v_imsc vuart_boot) 4 /\
  (forall off, off <> VUART_DR -> (vuart_read off vuart_boot).2 = vuart_boot).
Proof. apply (vuart_fifo 0x161 vuart_boot). closed_dec. Defined.

Lemma vuart_read_ok off d :
  wf_vuart d -> fits 64 (vuart_read off d).1 /\ wf_vuart (vuart_read off d).2.
Proof.
  intros [Hm Hr]. assert (fits 64 (v_imsc d)) as Hm' by by apply (fits_mono 32).
  unfold vuart_read. destruct (off =? VUART_DR); cbn [fst snd].
  { split; [|split; cbn; [done|lia]]. case_match; [fits_const|]. apply (fits_mono 32); [lia|apply fits_wrap; lia]. }
  destruct (off =? VUART_FR); cbn [fst snd]; [split; [by case_match; fits_const|done]|].
  destruct (off =? VUART_IMSC); cbn [fst snd]; [done|].
  destruct (off =? VUART_RIS); cbn [fst snd]; [split; [by case_match; fits_const|done]|].
  destruct (off =? VUART_MIS); cbn [fst snd].
  { split; [|done]. rewrite Z.land_comm. apply fits_land; [lia|done|]. by case_match. }
  repeat case_match; cbn [fst snd]; (split; [fits_const|done]).
Qed.

Section VdevTheorems.
Context {W : Type} `{PlatformOk W}.

Lemma vuart_write_ok off val d (w : W) :
  wf_vuart d ->
  exists d' w', vuart_write off val (d, w) = Ok (tt, (d', w')) /\ wf_vuart d' /\
    (if off =? VUART_DR then d' = d /\ uart_putc (u8 val) w = Ok (tt, w') else w' = w).
Proof.
  intros Hd. pose proof Hd as [Hm Hr]. unfold vuart_write. destruct (off =? VUART_DR).
  { change 0xFF with (Z.ones 8). rewrite land_ones_wrap by lia.
    destruct (putc_runs (u8 val) w) as [w' E]. exists d, w'. split; [|done].
    unfold on_w, zoom. cbn. by rewrite E. }
  repeat case_match; eexists _, _; (split; [reflexivity|]); (split; [|done]); try done.
  split; [apply fits_wrap; lia|done].
Qed.

Lemma mmio_emulate_ok v ipa d (w : W) :
  wf_vuart d -> wf_vcpu v -> fits 44 ipa ->
  let iss := ESR_ISS (exit_esr v) in
  let off := u64 (ipa - VUART_BASE) in
  exists v' d' w', mmio_emulate v ipa (d, w) = Ok (v', (d', w')) /\ wf_vuart d' /\ wf_vcpu v' /\
    rt_only v v' (iss_srt iss) /\
    (iss_isv iss <> 0 -> iss_wnr iss <> 0 -> off = VUART_DR ->
       exists val, read_rt v (iss_srt iss) = Ok val /\ uart_putc (u8 val) w = Ok (tt, w') /\ d' = d) /\
    (iss_isv iss <> 0 -> iss_wnr iss = 0 \/ off <> VUART_DR -> w' = w) /\
    (iss_isv iss <> 0 -> iss_wnr iss = 0 ->
       d' = (vuart_read off d).2 /\
       (iss_srt iss < 31 -> get_x v' (iss_srt iss) = Ok (vuart_read off d).1)).
Proof.
  intros Hd Hv Hipa iss off. unfold mmio_emulate. fold iss off. cbv zeta.
  pose proof (iss_srt_range iss) as Hr.
  destruct (Z.eqb_spec (iss_isv iss) 0) as [Hz|Hz].
  { destruct (printf_runs (bytes "[M5] DABT without ISV (iss=%x) at ipa=%x, skipping" ++ [LF])
      [AInt iss; AInt ipa] w) as [w' E]; [|by eexists|].
    - constructor; [|constructor; [|constructor]]; [|by apply (fits_mono 44)].
      apply (fits_mono 25); [lia|]. unfold iss. rewrite ESR_ISS_wrap. apply fits_wrap; lia.
    - exists (pc_advance v), d, w'. split; [unfold on_w, zoom, mbind, st_bind; cbn [fst snd]; by rewrite E|].
      split; [done|]. split; [by apply pc_advance_wf|]. split; [apply rt_only_same|done]. }
  destruct (Z.eqb_spec (iss_wnr iss) 0) as [Hw|Hw]; cbn [negb].
  - destruct (vuart_read_ok off d Hd) as [Hf Hd']. destruct (vuart_read off d) as [x d'] eqn:Er. cbn [fst snd] in *.
    destruct (write_rt_ok v (iss_srt iss) x Hv Hr Hf) as (v' & Hwr & Hv').
    exists (pc_advance v'), d', w. split.
    { unfold on_vuart, try_, mbind, st_bind. rewrite Er. cbn [res_bind]. by rewrite Hwr. }
    split; [done|]. split; [by apply pc_advance_wf|]. split; [by eapply rt_only_write|].
    split; [done|]. split; [done|]. intros _ _. split; [done|]. intros Hlt.
    unfold write_rt, put_x in Hwr. destruct (Z.eqb_spec (iss_srt iss) 31); [lia|]. res_inv.
    unfold get_x. cbn. by eapply aget_aset_eq.
  - destruct (read_rt_ok v (iss_srt iss) Hv Hr) as (a & Ea & Ha).
    destruct (vuart_write_ok off a d w Hd) as (d' & w' & E & Hd' & Hc).
    exists (pc_advance v), d', w'. split.
    { unfold try_, mbind, st_bind. rewrite Ea. cbn [res_bind]. by rewrite E. }
    split; [done|]. split; [by apply pc_advance_wf|]. split; [apply rt_only_same|].
    destruct (Z.eqb_spec off VUART_DR) as [Ho|Ho]; [destruct Hc as [-> Hc]|].
    + split; [by eauto|]. split; [by intros _ [|]|done].
    + split; [done|]. split; [done|]. done.
Qed.

(** A trapped access to the emulated UART always completes.  Device and vCPU
    stay well-formed and the guest resumes at the next instruction with at most its
    transfer register changed.  A store to DR sends exactly its low byte to the
    console, no other access with a valid syndrome reaches the console, and a load
    delivers the register's value and its side effect. *)
Lemma mmio_emulate_sound v ipa d (w : W) :
  wf_vuart d -> wf_vcpu v -> fits 44 ipa ->
  let iss := ESR_ISS (exit_esr v) in
  let off := u64 (ipa - VUART_BASE) in
  exists v' d' w', mmio_emulate v ipa (d, w) = Ok (v', (d', w')) /\ wf_vuart d' /\ wf_vcpu v' /\
    rt_only v v' (iss_srt iss) /\
    (iss_isv iss <> 0 -> iss_wnr iss <> 0 -> off = VUART_DR ->
       exists val, read_rt v (iss_srt iss) = Ok val /\ uart_putc (u8 val) w = Ok (tt, w') /\ d' = d) /\
    (iss_isv iss <> 0 -> iss_wnr iss = 0 \/ off <> VUART_DR -> w' = w) /\
    (iss_isv iss <> 0 -> iss_wnr iss = 0 ->
       d' = (vuart_read off d).2 /\
       (iss_srt iss < 31 -> get_x v' (iss_srt iss) = Ok (vuart_read off d).1)).
Proof. apply mmio_emulate_ok. Qed.
End VdevTheorems.

Lemma mmio_emulate_sound_witness :
  let v := dabt_vcpu (replicate 31 0x41) 2 3 1 in
  let iss := ESR_ISS (exit_esr v) in
  let off := u64 (VUART_BASE - VUART_BASE) in
  exists v' d' w', mmio_emulate v VUART_BASE (vuart_boot, quiet) = Ok (v', (d', w')) /\ wf_vuart d' /\ wf_vcpu v' /\
    rt_only v v' (iss_srt iss) /\
    (iss_isv iss <> 0 -> iss_wnr iss <> 0 -> off = VUART_DR ->
       exists val, read_rt v (iss_srt iss) = Ok val /\ uart_putc (u8 val) quiet = Ok (tt, w') /\ d' = vuart_boot) /\
    (iss_isv iss <> 0 -> iss_wnr iss = 0 \/ off <> VUART_DR -> w' = quiet) /\
    (iss_isv iss <> 0 -> iss_wnr iss = 0 ->
       d' = (vuart_read off vuart_boot).2 /\
       (iss_srt iss < 31 -> get_x v' (iss_srt iss) = Ok (vuart_read off vuart_boot).1)).
Proof. apply (mmio_emulate_sound (dabt_vcpu (replicate 31 0x41) 2 3 1) VUART_BASE vuart_boot quiet); [closed_dec|closed_dec|fits_const]. Defined.
