(* ===== verification/Handlers.v ===== *)
(** The trap handlers that every run loop of src/src/vcpu.c shares: virtual
    interrupt injection into the list registers, the PSCI calls, the emulated EL1
    physical timer registers and the empty-device MMIO handler. *)

From S2P Require Import Prelude Esr Machine Vcpu Uart.

(** * vgic_inject *)
Definition lr_state (lr : Z) : Z := (lr ≫ 62) .& 3.
Definition lr_id (lr : Z) : Z := lr .& 0xFFFFFFFF.

(** The scan over the list registers: [None] when the interrupt is already queued,
    otherwise the first free slot, or [-1]. *)
Fixpoint inject_scan (lrs : list Z) (vintid i free_slot : Z) (n : nat) : res (option Z) :=
  match n with
  | O => Ok (Some free_slot)
  | S n =>
      lr ← aget lrs i;
      let state := lr_state lr in
      if negb (state =? 0) && (lr_id lr =? vintid) then Ok None
      else inject_scan lrs vintid (i + 1) (if (state =? 0) && (free_slot <? 0) then i else free_slot) n
  end.

Definition set_lrs (v : vcpu) (l : list Z) : vcpu :=
  set_ich v (mk_ich l (ich_vmcr (ich v)) (ich_ap1r0 (ich v))).
Definition new_lr (vintid : Z) : Z := bit 62 .| bit 60 .| vintid.

Definition vgic_inject (v : vcpu) (vintid : Z) : res vcpu :=
  let lr := new_lr vintid in
  r ← inject_scan (ich_lr (ich v)) vintid 0 (-1) 4;
  match r with
  | None => Ok v
  | Some free_slot =>
      if 0 <=? free_slot then l ← aset (ich_lr (ich v)) free_slot lr; Ok (set_lrs v l) else Ok v
  end.

(** * PSCI *)
Record psci := mk_psci { psci_on_pending : Z; psci_on_entry : Z; psci_on_ctx : Z }.
Definition psci_boot : psci := mk_psci 0 0 0.
Definition set_on_pending (p : psci) (b : Z) : psci := mk_psci b (psci_on_entry p) (psci_on_ctx p).

Section Psci.
Context {W : Type} `{Platform W}.

Definition psci_handle (v : vcpu) : st (psci * W) vcpu := fun '(p, w) =>
  x0 ← get_x v 0;
  let fn := u32 x0 in
  if fn =? 0x84000000 then v ← put_x v 0 0x00010000; Ok (v, (p, w))
  else if fn =? 0x84000008 then
    '(_, w) ← uart_println (bytes "[PSCI] SYSTEM_OFF -> halting guest") w; Ok (set_halted v 1, (p, w))
  else if fn =? 0x84000009 then
    '(_, w) ← uart_println (bytes "[PSCI] SYSTEM_RESET -> halting guest") w; Ok (set_halted v 1, (p, w))
  else if (fn =? 0xC4000003) || (fn =? 0x84000003) then
    x2 ← get_x v 2;
    x3 ← get_x v 3;
    v ← put_x v 0 0;
    Ok (v, (mk_psci 1 x2 x3, w))
  else v ← put_x v 0 (u64 (-1)); Ok (v, (p, w)).
End Psci.

(** * The emulated EL1 physical timer: g_cntp_ctl, g_cntp_cval, g_cntp_tval *)
Record cntp := mk_cntp { cntp_ctl : list Z; cntp_cval : list Z; cntp_tval : list Z }.
Definition cntp_boot : cntp := mk_cntp (replicate 2 0) (replicate 2 0) (replicate 2 0).

Definition cntp_get (t : cntp) (vm op2 : Z) : res Z :=
  if op2 =? 1 then aget (cntp_ctl t) vm else if op2 =? 2 then aget (cntp_cval t) vm else aget (cntp_tval t) vm.
Definition cntp_set (t : cntp) (vm op2 val : Z) : res cntp :=
  if op2 =? 1 then l ← aset (cntp_ctl t) vm val; Ok (mk_cntp l (cntp_cval t) (cntp_tval t))
  else if op2 =? 2 then l ← aset (cntp_cval t) vm val; Ok (mk_cntp (cntp_ctl t) l (cntp_tval t))
  else l ← aset (cntp_tval t) vm val; Ok (mk_cntp (cntp_ctl t) (cntp_cval t) l).

Definition cntp_emulate (vm : Z) (v : vcpu) (t : cntp) : res (vcpu * cntp) :=
  let iss := ESR_ISS (exit_esr v) in
  let dir := iss_dir iss in
  let rt := iss_rt iss in
  let op2 := iss_op2 iss in
  let crn := iss_crn iss in
  let crm := iss_crm iss in
  '(v, t) ←
    (if (crn =? 14) && (crm =? 2) then
       if dir =? 0 then val ← read_rt v rt; t ← cntp_set t vm op2 val; Ok (v, t)
       else val ← cntp_get t vm op2; v ← write_rt v rt val; Ok (v, t)
     else Ok (v, t));
  Ok (pc_advance v, t).

(** * mmio_zero *)
Definition mmio_zero (v : vcpu) : res vcpu :=
  let iss := ESR_ISS (exit_esr v) in
  v ← (if negb (iss_isv iss =? 0) then
         let wnr := iss_wnr iss in
         let srt := iss_srt iss in
         if (wnr =? 0) && negb (srt =? 31) then put_x v srt 0 else Ok v
       else Ok v);
  Ok (pc_advance v).

(** * Injection as a queue of interrupts *)
Definition busy (lr : Z) : bool := negb (lr_state lr =? 0).
(** The interrupts a list of list registers presents to the guest. *)
Definition queued (lrs : list Z) : list Z := lr_id <$> filter (fun lr => busy lr = true) lrs.

Lemma lr_id_wrap lr : lr_id lr = wrap 32 lr.
Proof. unfold lr_id. change 0xFFFFFFFF with (Z.ones 32). by apply land_ones_wrap. Qed.
Lemma new_lr_spec vintid : fits 32 vintid -> lr_state (new_lr vintid) = 1 /\ lr_id (new_lr vintid) = vintid /\ fits 64 (new_lr vintid).
Proof.
  intros Hv. split; [|split].
  - unfold lr_state, new_lr. rewrite !Z.shiftr_lor. rewrite (Z.shiftr_div_pow2 vintid), Z.div_small by zlia.
    reflexivity.
  - rewrite lr_id_wrap. apply Z.bits_inj'. intros i Hi. rewrite testbit_wrap by lia. unfold new_lr.
    rewrite !Z.lor_spec, !testbit_bit by lia.
    destruct (Z.ltb_spec i 32).
    + destruct (Z.eqb_spec i 62), (Z.eqb_spec i 60); try lia. done.
    + symmetry. by apply (testbit_fits 32).
  - unfold new_lr. apply fits_lor; [lia|fits_const|by apply (fits_mono 32)].
Qed.

(** The scan, on the part of the array not yet seen. *)
Lemma inject_scan_spec vintid l2 : forall l1 i f,
  len l1 = i -> (f < 0 \/ f < i) ->
  match inject_scan (l1 ++ l2) vintid i f (length l2) with
  | Ok None => vintid ∈ queued l2
  | Ok (Some s) => (vintid ∉ queued l2) /\
      (if 0 <=? f then s = f
       else (s = f /\ Forall (fun lr => busy lr = true) l2) \/
            exists la lb lr, l2 = la ++ lr :: lb /\ s = i + len la /\ busy lr = false /\ Forall (fun x => busy x = true) la)
  | Err _ => False
  end.
Proof.
  induction l2 as [|lr l2 IH]; intros l1 i f Hi Hf; cbn [inject_scan length].
  { split; [by apply not_elem_of_nil|]. case_match; [done|]. by left. }
  rewrite aget_app by done. cbn [mbind res_bind]. cbv zeta. fold (busy lr).
  destruct (busy lr) eqn:Eb.
  - assert (queued (lr :: l2) = lr_id lr :: queued l2) as Hq.
    { unfold queued. rewrite filter_cons_True by done. done. }
    rewrite Hq. destruct (Z.eqb_spec (lr_id lr) vintid) as [E|E]; cbn [andb].
    { rewrite <- E. apply elem_of_cons. by left. }
    unfold busy in Eb. apply negb_true_iff in Eb as Es. rewrite Es. cbn [andb].
    specialize (IH (l1 ++ [lr]) (i + 1) f). rewrite <- app_assoc in IH. cbn [app] in IH.
    assert (len (l1 ++ [lr]) = i + 1) as Hl by (unfold len in *; rewrite length_app; cbn; lia).
    specialize (IH Hl ltac:(lia)).
    destruct (inject_scan _ _ _ _ _) as [[s|]|]; [| |done].
    + destruct IH as [Hn IH]. split; [rewrite not_elem_of_cons; by split|].
      case_match; [done|]. destruct IH as [[-> HF]|(la & lb & x & -> & -> & Hx & HF)].
      * left. split; [done|]. by constructor.
      * right. exists (lr :: la), lb, x. split; [done|]. split; [unfold len; cbn; lia|]. split; [done|]. by constructor.
    + apply elem_of_cons. by right.
  - cbn [andb]. assert (queued (lr :: l2) = queued l2) as Hq.
    { unfold queued. rewrite filter_cons_False by (by rewrite Eb). done. }
    rewrite Hq. unfold busy in Eb. apply negb_false_iff in Eb as Es. rewrite Es. cbn [andb].
    assert (len (l1 ++ [lr]) = i + 1) as Hl by (unfold len in *; rewrite length_app; cbn; lia).
    pose proof (IH (l1 ++ [lr]) (i + 1) (if f <? 0 then i else f) Hl) as IH'. rewrite <- app_assoc in IH'. cbn [app] in IH'.
    assert (0 <= i) by (unfold len in Hi; lia).
    destruct (Z.ltb_spec f 0).
    + specialize (IH' ltac:(lia)). destruct (inject_scan _ _ _ _ _) as [[s|]|]; [|done|done].
      destruct IH' as [Hn IH']. split; [done|]. destruct (Z.leb_spec 0 i); [|lia]. destruct (Z.leb_spec 0 f); [lia|].
      subst s. right. exists [], l2, lr. split; [done|]. split; [unfold len; cbn; lia|]. split; [done|constructor].
    + specialize (IH' ltac:(lia)). destruct (inject_scan _ _ _ _ _) as [[s|]|]; [|done|done].
      destruct IH' as [Hn IH']. split; [done|]. by destruct (Z.leb_spec 0 f); [|lia].
Qed.

(** The outcomes of an injection. *)
Lemma inject_cases v vintid :
  wf_vcpu v ->
  (vgic_inject v vintid = Ok v /\
     (vintid ∈ queued (ich_lr (ich v)) \/ Forall (fun lr => busy lr = true) (ich_lr (ich v)))) \/
  ((vintid ∉ queued (ich_lr (ich v))) /\
   exists la lb lr, ich_lr (ich v) = la ++ lr :: lb /\ busy lr = false /\ Forall (fun x => busy x = true) la /\
     vgic_inject v vintid = Ok (set_lrs v (la ++ new_lr vintid :: lb))).
Proof.
  intros (_ & _ & _ & H4 & _). unfold vgic_inject.
  pose proof (inject_scan_spec vintid (ich_lr (ich v)) [] 0 (-1) eq_refl ltac:(lia)) as Hs.
  replace (length (ich_lr (ich v))) with 4%nat in Hs by (unfold len in H4; lia). cbn [app] in Hs.
  destruct (inject_scan _ _ _ _ _) as [[s|]|]; [| |done]; cbn [mbind res_bind].
  - change (0 <=? -1) with false in Hs. destruct Hs as [Hn [[-> HF]|(la & lb & x & El & -> & Hx & HF)]].
    + left. split; [done|]. by right.
    + right. split; [done|]. exists la, lb, x. split; [done|]. split; [done|]. split; [done|].
      rewrite Z.add_0_l. destruct (Z.leb_spec 0 (len la)) as [|Hl]; [|unfold len in Hl; lia].
      rewrite El, aset_app by done. done.
  - left. split; [done|]. by left.
Qed.

Lemma queued_app l1 l2 : queued (l1 ++ l2) = queued l1 ++ queued l2.
Proof. unfold queued. by rewrite filter_app, fmap_app. Qed.
Lemma queued_cons_free lr l : busy lr = false -> queued (lr :: l) = queued l.
Proof. intros E. unfold queued. by rewrite filter_cons_False by (by rewrite E). Qed.
Lemma queued_new vintid l : fits 32 vintid -> queued (new_lr vintid :: l) = vintid :: queued l.
Proof.
  intros Hv. destruct (new_lr_spec vintid Hv) as (E1 & E2 & _). unfold queued.
  rewrite filter_cons_True by (unfold busy; by rewrite E1). cbn. by rewrite E2.
Qed.

Lemma set_lrs_wf v l : wf_vcpu v -> len l = 4 -> Forall (fits 64) l -> wf_vcpu (set_lrs v l).
Proof. intros (H1 & H2 & H3 & H4 & H5 & H6) Hl HF. by repeat (split; [done|]). Qed.

Lemma vgic_inject_ok v vintid :
  wf_vcpu v -> fits 32 vintid -> exists l, vgic_inject v vintid = Ok (set_lrs v l) /\ wf_vcpu (set_lrs v l).
Proof.
  intros Hv Hf. destruct (inject_cases v vintid Hv) as [[-> _]|(_ & la & lb & x & El & _ & _ & ->)].
  - exists (ich_lr (ich v)). assert (set_lrs v (ich_lr (ich v)) = v) as -> by by destruct v as [???????????[]].
    done.
  - eexists. split; [done|]. destruct Hv as (H1 & H2 & H3 & H4 & H5 & H6).
    apply set_lrs_wf; [done|..]; rewrite El in H4, H5.
    + unfold len in *. rewrite length_app in *. cbn in *. lia.
    + apply Forall_app in H5 as [F1 F2]. apply Forall_app. split; [done|]. apply Forall_cons in F2 as [_ F2].
      constructor; [by apply new_lr_spec|done].
Qed.

(** C12: Injection maintains a duplicate-free queue of virtual interrupts.  It
    always completes, only the list registers can change, no interrupt already
    queued is lost, no other is added, and the injected one is queued afterwards
    (once) unless all four list registers were busy with others, in which case it is
    dropped.  Absence of duplicates is preserved. *)
Theorem vgic_inject_queue v vintid :
  wf_vcpu v -> fits 32 vintid ->
  exists l, vgic_inject v vintid = Ok (set_lrs v l) /\ wf_vcpu (set_lrs v l) /\
    (forall id, id <> vintid -> id ∈ queued l <-> id ∈ queued (ich_lr (ich v))) /\
    (vintid ∈ queued l <-> vintid ∈ queued (ich_lr (ich v)) \/ exists lr, lr ∈ ich_lr (ich v) /\ busy lr = false) /\
    (NoDup (queued (ich_lr (ich v))) -> NoDup (queued l)).
Proof.
  intros Hv Hf. destruct (vgic_inject_ok v vintid Hv Hf) as (l & E & Hw). exists l. split; [done|]. split; [done|].
  assert (forall k k', set_lrs v k = set_lrs v k' -> k = k') as Hinj by (by intros k k' [= ->]).
  destruct (inject_cases v vintid Hv) as [[E' Hc]|(Hn & la & lb & x & El & Hx & _ & E')].
  - assert (set_lrs v (ich_lr (ich v)) = v) as Hself by by destruct v as [???????????[]].
    rewrite E' in E. injection E as E. rewrite <- Hself in E at 1. apply Hinj in E as <-.
    split; [done|]. split; [|done]. split; [by left|]. intros [|(lr & Hin & Hb)]; [done|].
    destruct Hc as [|HF]; [done|]. apply (proj1 (Forall_forall _ _) HF) in Hin. congruence.
  - rewrite E in E'. injection E' as ->. rewrite El, !queued_app, queued_new, (queued_cons_free x lb) by done.
    rewrite El, queued_app, (queued_cons_free x lb) in Hn by done.
    split; [|split].
    + intros id Hid. rewrite !elem_of_app, elem_of_cons. tauto.
    + split; [|intros _; apply elem_of_app; right; apply elem_of_cons; by left]. intros _. right.
      exists x. split; [apply elem_of_app; right; apply elem_of_cons; by left|done].
    + intros Hnd. rewrite <- Permutation_middle. by apply NoDup_cons_2.
Qed.

Lemma vgic_inject_queue_witness :
  let v := zero_vcpu in
  exists l, vgic_inject v 27 = Ok (set_lrs v l) /\ wf_vcpu (set_lrs v l) /\
    (forall id, id <> 27 -> id ∈ queued l <-> id ∈ queued (ich_lr (ich v))) /\
    (27 ∈ queued l <-> 27 ∈ queued (ich_lr (ich v)) \/ exists lr, lr ∈ ich_lr (ich v) /\ busy lr = false) /\
    (NoDup (queued (ich_lr (ich v))) -> NoDup (queued l)).
Proof. apply (vgic_inject_queue zero_vcpu 27); [closed_dec|fits_const]. Defined.

(** * The emulated timer registers *)
Definition wf_cntp (t : cntp) : Prop :=
  len (cntp_ctl t) = 2 /\ Forall (fits 64) (cntp_ctl t) /\ len (cntp_cval t) = 2 /\
  Forall (fits 64) (cntp_cval t) /\ len (cntp_tval t) = 2 /\ Forall (fits 64) (cntp_tval t).
#[export] Instance wf_cntp_dec t : Decision (wf_cntp t).
Proof. unfold wf_cntp. apply _. Defined.

(** The register an [op2] field selects: CTL, CVAL, or TVAL for everything else. *)
Definition cntp_sel (op2 : Z) : Z := if op2 =? 1 then 1 else if op2 =? 2 then 2 else 0.

Lemma cntp_get_ok t vm op2 : wf_cntp t -> 0 <= vm < 2 -> exists x, cntp_get t vm op2 = Ok x /\ fits 64 x.
Proof.
  intros (L1 & F1 & L2 & F2 & L3 & F3) Hvm. unfold cntp_get.
  assert (forall l, len l = 2 -> Forall (fits 64) l -> exists x, aget l vm = Ok x /\ fits 64 x) as Hg.
  { intros l Hl HF. destruct (aget_ok l vm) as [x Hx]; [lia|]. exists x. split; [done|]. by eapply Forall_aget. }
  repeat case_match; by apply Hg.
Qed.
Lemma cntp_set_ok t vm op2 val :
  wf_cntp t -> 0 <= vm < 2 -> fits 64 val ->
  exists t', cntp_set t vm op2 val = Ok t' /\ wf_cntp t' /\
    forall vm' op', cntp_get t' vm' op' =
      if (vm' =? vm) && (cntp_sel op' =? cntp_sel op2) then Ok val else cntp_get t vm' op'.
Proof.
  intros (L1 & F1 & L2 & F2 & L3 & F3) Hvm Hval. unfold cntp_set, cntp_get, cntp_sel.
  assert (forall l : list Z, len l = 2 -> Forall (fits 64) l -> exists l', aset l vm val = Ok l' /\ len l' = 2 /\
    Forall (fits 64) l' /\ forall vm', aget l' vm' = if vm' =? vm then Ok val else aget l vm') as Hs.
  { intros l Hl HF. exists (<[Z.to_nat vm := val]> l). split; [apply aset_ok; lia|].
    split; [by rewrite len_insert|]. split; [by apply Forall_insert|]. intros vm'.
    destruct (Z.eqb_spec vm' vm) as [->|]; [apply aget_insert_eq; lia|apply aget_insert_ne; lia]. }
  destruct (op2 =? 1) eqn:E1; [|destruct (op2 =? 2) eqn:E2];
    [destruct (Hs _ L1 F1) as (l' & -> & Hl & HF & Hg)|destruct (Hs _ L2 F2) as (l' & -> & Hl & HF & Hg)
    |destruct (Hs _ L3 F3) as (l' & -> & Hl & HF & Hg)]; cbn [mbind res_bind];
    eexists; (split; [reflexivity|]); (split; [by split_and!|]); intros vm' op'; cbn [cntp_ctl cntp_cval cntp_tval];
    destruct (op' =? 1), (op' =? 2); cbn; rewrite ?andb_true_r, ?andb_false_r, ?Hg; done.
Qed.

Lemma cntp_emulate_ok vm v t :
  wf_vcpu v -> wf_cntp t -> 0 <= vm < 2 ->
  let iss := ESR_ISS (exit_esr v) in
  exists v' t', cntp_emulate vm v t = Ok (v', t') /\ wf_vcpu v' /\ wf_cntp t' /\ rt_only v v' (iss_rt iss) /\
    if (iss_crn iss =? 14) && (iss_crm iss =? 2) then
      if iss_dir iss =? 0 then
        xregs v' = xregs v /\
        exists val, read_rt v (iss_rt iss) = Ok val /\
          forall vm' op', cntp_get t' vm' op' =
            if (vm' =? vm) && (cntp_sel op' =? cntp_sel (iss_op2 iss)) then Ok val else cntp_get t vm' op'
      else t' = t /\ (iss_rt iss < 31 -> get_x v' (iss_rt iss) = cntp_get t vm (iss_op2 iss))
    else t' = t /\ v' = pc_advance v.
Proof.
  intros Hv Ht Hvm iss. unfold cntp_emulate. fold iss. cbv zeta. pose proof (iss_rt_range iss) as Hr.
  destruct ((iss_crn iss =? 14) && (iss_crm iss =? 2)); cbn [mbind res_bind].
  2:{ exists (pc_advance v), t. eauto 10 using rt_only_same, pc_advance_wf. }
  destruct (iss_dir iss =? 0).
  - destruct (read_rt_ok v _ Hv Hr) as (val & -> & Hval). cbn [mbind res_bind].
    destruct (cntp_set_ok t vm (iss_op2 iss) val Ht Hvm Hval) as (t' & -> & Ht' & Hg). cbn [mbind res_bind].
    exists (pc_advance v), t'. eauto 10 using rt_only_same, pc_advance_wf.
  - destruct (cntp_get_ok t vm (iss_op2 iss) Ht Hvm) as (x & -> & Hx). cbn [mbind res_bind].
    destruct (write_rt_ok v (iss_rt iss) x Hv Hr Hx) as (v' & Hw & Hv'). rewrite Hw. cbn [mbind res_bind].
    exists (pc_advance v'), t. split; [done|]. split; [by apply pc_advance_wf|]. split; [done|].
    split; [by eapply rt_only_write|]. split; [done|]. intros Hlt.
    unfold write_rt, put_x in Hw. destruct (Z.eqb_spec (iss_rt iss) 31); [lia|]. res_inv.
    unfold get_x. cbn. by eapply aget_aset_eq.
Qed.

(** The trapped EL1 physical timer behaves as per-VM registers.  Every trapped
    access completes and resumes the guest at the next instruction.  An MSR to
    CNTP_TVAL, CNTP_CTL or CNTP_CVAL makes exactly that register of exactly that VM
    read back the value written; an MRS returns the register and changes no timer
    state; any other trapped system register is ignored. *)
Lemma cntp_emulate_registers vm v t :
  wf_vcpu v -> wf_cntp t -> 0 <= vm < 2 ->
  let iss := ESR_ISS (exit_esr v) in
  exists v' t', cntp_emulate vm v t = Ok (v', t') /\ wf_vcpu v' /\ wf_cntp t' /\ rt_only v v' (iss_rt iss) /\
    if (iss_crn iss =? 14) && (iss_crm iss =? 2) then
      if iss_dir iss =? 0 then
        xregs v' = xregs v /\
        exists val, read_rt v (iss_rt iss) = Ok val /\
          forall vm' op', cntp_get t' vm' op' =
            if (vm' =? vm) && (cntp_sel op' =? cntp_sel (iss_op2 iss)) then Ok val else cntp_get t vm' op'
      else t' = t /\ (iss_rt iss < 31 -> get_x v' (iss_rt iss) = cntp_get t vm (iss_op2 iss))
    else t' = t /\ v' = pc_advance v.
Proof. apply cntp_emulate_ok. Qed.

(** MSR CNTP_CVAL_EL0, x4 trapped from a guest. *)
Definition cntp_vcpu : vcpu :=
  mk_vcpu (replicate 31 0x1234) 0 0x40080000 0 0 0
    (mk_esr EC_SYSREG 1 ((2 ≪ 17) .| (3 ≪ 14) .| (14 ≪ 10) .| (4 ≪ 5) .| (2 ≪ 1))) 0 0
    (fp zero_vcpu) (el1 zero_vcpu) (ich zero_vcpu) 0 0 0 0.

Lemma cntp_emulate_registers_witness :
  let v := cntp_vcpu in let t := cntp_boot in
  let iss := ESR_ISS (exit_esr v) in
  exists v' t', cntp_emulate 1 v t = Ok (v', t') /\ wf_vcpu v' /\ wf_cntp t' /\ rt_only v v' (iss_rt iss) /\
    if (iss_crn iss =? 14) && (iss_crm iss =? 2) then
      if iss_dir iss =? 0 then
        xregs v' = xregs v /\
        exists val, read_rt v (iss_rt iss) = Ok val /\
          forall vm' op', cntp_get t' vm' op' =
            if (vm' =? 1) && (cntp_sel op' =? cntp_sel (iss_op2 iss)) then Ok val else cntp_get t vm' op'
      else t' = t /\ (iss_rt iss < 31 -> get_x v' (iss_rt iss) = cntp_get t 1 (iss_op2 iss))
    else t' = t /\ v' = pc_advance v.
Proof. apply (cntp_emulate_registers 1 cntp_vcpu cntp_boot); [closed_dec|closed_dec|lia]. Defined.

(** * PSCI and absent devices *)
Lemma put_x_ok v i a :
  wf_vcpu v -> 0 <= i < 31 -> fits 64 a -> exists v', put_x v i a = Ok v' /\ wf_vcpu v' /\ get_x v' i = Ok a /\
    (forall j, j <> i -> get_x v' j = get_x v j) /\ pc v' = pc v /\ halted v' = halted v /\
    v' = set_xregs v (xregs v').
Proof.
  intros (H1 & H2 & Hr) Hi Ha. unfold put_x. rewrite aset_ok by lia. cbn [mbind res_bind]. eexists. split; [done|].
  split.
  { split; [cbn; by rewrite len_insert|]. split; [by apply Forall_insert|done]. }
  split; [apply aget_insert_eq; lia|]. split; [|done]. intros j Hj. apply aget_insert_ne; lia.
Qed.

Lemma mmio_zero_ok v : wf_vcpu v -> exists v', mmio_zero v = Ok v' /\ wf_vcpu v' /\ rt_only v v' (iss_srt (ESR_ISS (exit_esr v))).
Proof.
  intros Hv. unfold mmio_zero. cbv zeta. set (iss := ESR_ISS _).
  pose proof (iss_srt_range iss) as Hr.
  assert (exists v', (if negb (iss_isv iss =? 0) then
    if (iss_wnr iss =? 0) && negb (iss_srt iss =? 31) then put_x v (iss_srt iss) 0 else Ok v else Ok v) = Ok v' /\
    wf_vcpu v' /\ rt_only v (pc_advance v') (iss_srt iss)) as (v' & -> & Hw & Hrt).
  { destruct (negb (iss_isv iss =? 0)); [|exists v; eauto using rt_only_same].
    destruct ((iss_wnr iss =? 0) && _) eqn:E; [|exists v; eauto using rt_only_same].
    apply andb_prop in E as [_ E]. apply negb_true_iff, Z.eqb_neq in E.
    destruct (write_rt_ok v (iss_srt iss) 0 Hv Hr) as (v' & Hwr & Hv'); [fits_const|].
    exists v'. pose proof (rt_only_write _ _ _ _ Hwr). unfold write_rt in Hwr.
    destruct (Z.eqb_spec (iss_srt iss) 31); [done|]. by split_and!. }
  exists (pc_advance v'). split; [done|]. split; [by apply pc_advance_wf|done].
Qed.

Section PsciTheorems.
Context {W : Type} `{PlatformOk W}.

(** The PSCI interface answers every call.  PSCI_VERSION reports 1.0;
    SYSTEM_OFF and SYSTEM_RESET halt the vCPU and change no register; CPU_ON (either
    calling convention) records entry point and context for the scheduler and reports
    success; every other function reports NOT_SUPPORTED.  Only x0 ever changes, and
    only CPU_ON touches the bring-up request. *)
Lemma psci_handle_calls v p (w : W) x0 :
  wf_vcpu v -> get_x v 0 = Ok x0 ->
  exists v' p' w', psci_handle v (p, w) = Ok (v', (p', w')) /\ wf_vcpu v' /\
    (forall j, j <> 0 -> get_x v' j = get_x v j) /\ pc v' = pc v /\
    let fn := u32 x0 in
    let off := bool_decide (fn ∈ [0x84000008; 0x84000009]) in
    let on := bool_decide (fn ∈ [0xC4000003; 0x84000003]) in
    halted v' = (if off then 1 else halted v) /\
    get_x v' 0 = Ok (if fn =? 0x84000000 then 0x00010000 else if off then x0 else if on then 0 else u64 (-1)) /\
    (if on then exists x2 x3, get_x v 2 = Ok x2 /\ get_x v 3 = Ok x3 /\ p' = mk_psci 1 x2 x3 else p' = p).
Proof.
  intros Hv Hx0. unfold psci_handle. rewrite Hx0. cbn [mbind res_bind]. set (fn := u32 x0). cbv zeta.
  assert (forall a, fits 64 a -> exists v', put_x v 0 a = Ok v' /\ wf_vcpu v' /\ get_x v' 0 = Ok a /\
    (forall j, j <> 0 -> get_x v' j = get_x v j) /\ pc v' = pc v /\ halted v' = halted v) as Hp.
  { intros a Ha. destruct (put_x_ok v 0 a Hv ltac:(lia) Ha) as (v' & ? & ? & ? & ? & ? & ? & _). by exists v'. }
  assert (forall l (w : W), exists w', uart_println l w = Ok (tt, w')) as Hpr by (intros; apply println_runs).
  destruct (Z.eqb_spec fn 0x84000000) as [E|E1].
  { rewrite E. destruct (Hp 0x00010000) as (v' & -> & ? & ? & ? & ? & ?); [fits_const|].
    exists v', p, w. cbn [mbind res_bind]. by split_and!. }
  destruct (Z.eqb_spec fn 0x84000008) as [E|E2].
  { rewrite E. destruct (Hpr (bytes "[PSCI] SYSTEM_OFF -> halting guest") w) as [w' ->].
    exists (set_halted v 1), p, w'. cbn [mbind res_bind]. by split_and!. }
  destruct (Z.eqb_spec fn 0x84000009) as [E|E3].
  { rewrite E. destruct (Hpr (bytes "[PSCI] SYSTEM_RESET -> halting guest") w) as [w' ->].
    exists (set_halted v 1), p, w'. cbn [mbind res_bind]. by split_and!. }
  rewrite (bool_decide_eq_false_2 (fn ∈ [0x84000008; _]))
    by (rewrite !elem_of_cons; intros [|[|?%elem_of_nil]]; done).
  destruct ((fn =? 0xC4000003) || (fn =? 0x84000003)) eqn:E.
  - rewrite bool_decide_eq_true_2.
    2:{ apply orb_prop in E as [E|E]; apply Z.eqb_eq in E; rewrite E; rewrite !elem_of_cons; auto. }
    destruct Hv as (Hl & Hv). destruct (aget_ok (xregs v) 2) as [x2 E4]; [lia|]. destruct (aget_ok (xregs v) 3) as [x3 E5]; [lia|].
    unfold get_x at 1 2. rewrite E4, E5. cbn [mbind res_bind].
    destruct (Hp 0) as (v' & -> & ? & ? & ? & ? & ?); [fits_const|]. exists v', (mk_psci 1 x2 x3), w.
    cbn [mbind res_bind]. split_and!; try done. by exists x2, x3.
  - rewrite bool_decide_eq_false_2.
    2:{ apply orb_false_elim in E as [Ea%Z.eqb_neq Eb%Z.eqb_neq]. rewrite !elem_of_cons. intros [|[|?%elem_of_nil]]; done. }
    destruct (Hp (u64 (-1))) as (v' & -> & ? & ? & ? & ? & ?); [fits_const|]. exists v', p, w.
    cbn [mbind res_bind]. by split_and!.
Qed.

(** The parts of a PSCI call the run loops rely on. *)
Lemma psci_handle_ok v p (w : W) x0 :
  wf_vcpu v -> get_x v 0 = Ok x0 ->
  exists v' p' w', psci_handle v (p, w) = Ok (v', (p', w')) /\ wf_vcpu v' /\
    (vttbr v', vmpidr v', vid v') = (vttbr v, vmpidr v, vid v) /\
    (p' = p \/ exists x2 x3, get_x v 2 = Ok x2 /\ get_x v 3 = Ok x3 /\ p' = mk_psci 1 x2 x3).
Proof.
  intros Hv Hx0. unfold psci_handle. rewrite Hx0. cbn [mbind res_bind]. cbv zeta.
  assert (forall a, fits 64 a -> exists v', put_x v 0 a = Ok v' /\ wf_vcpu v' /\
    (vttbr v', vmpidr v', vid v') = (vttbr v, vmpidr v, vid v)) as Hp.
  { intros a Ha. destruct (put_x_ok v 0 a Hv ltac:(lia) Ha) as (v' & ? & ? & _ & _ & _ & _ & Eq).
    exists v'. split; [done|]. split; [done|]. by rewrite Eq. }
  assert (forall l (w : W), exists w', uart_println l w = Ok (tt, w')) as Hpr by (intros; apply println_runs).
  case_match.
  { destruct (Hp 0x00010000) as (v' & -> & ? & ?); [fits_const|]. exists v', p, w. eauto. }
  case_match.
  { destruct (Hpr (bytes "[PSCI] SYSTEM_OFF -> halting guest") w) as [w' ->]. eexists _, p, w'. eauto. }
  case_match.
  { destruct (Hpr (bytes "[PSCI] SYSTEM_RESET -> halting guest") w) as [w' ->]. eexists _, p, w'. eauto. }
  case_match.
  - pose proof Hv as (Hl & _). destruct (aget_ok (xregs v) 2) as [x2 E4]; [lia|]. destruct (aget_ok (xregs v) 3) as [x3 E5]; [lia|].
    unfold get_x. rewrite E4, E5. cbn [mbind res_bind]. destruct (Hp 0) as (v' & -> & ? & ?); [fits_const|].
    exists v', (mk_psci 1 x2 x3), w. eauto 10.
  - destruct (Hp (u64 (-1))) as (v' & -> & ? & ?); [fits_const|]. exists v', p, w. eauto.
Qed.
End PsciTheorems.

(** A vCPU calling CPU_ON with entry 0x41000100. *)
Definition cpu_on_vcpu : vcpu := set_xregs zero_vcpu (0xC4000003 :: 1 :: 0x41000100 :: 7 :: replicate 27 0).

Lemma psci_handle_calls_witness :
  let v := cpu_on_vcpu in let p := psci_boot in let x0 := 0xC4000003 in
  exists v' p' w', psci_handle v (p, quiet) = Ok (v', (p', w')) /\ wf_vcpu v' /\
    (forall j, j <> 0 -> get_x v' j = get_x v j) /\ pc v' = pc v /\
    let fn := u32 x0 in
    let off := bool_decide (fn ∈ [0x84000008; 0x84000009]) in
    let on := bool_decide (fn ∈ [0xC4000003; 0x84000003]) in
    halted v' = (if off then 1 else halted v) /\
    get_x v' 0 = Ok (if fn =? 0x84000000 then 0x00010000 else if off then x0 else if on then 0 else u64 (-1)) /\
    (if on then exists x2 x3, get_x v 2 = Ok x2 /\ get_x v 3 = Ok x3 /\ p' = mk_psci 1 x2 x3 else p' = p).
Proof. apply (psci_handle_calls cpu_on_vcpu psci_boot quiet); [closed_dec|reflexivity]. Defined.
