(* ===== verification/Vvirtio.v ===== *)
(** The emulated virtio-mmio console (first half of src/src/vvirtio.c): register
    emulation and the device side of the transmit virtqueue, which lives in guest
    memory.  [vcon] is struct vcon; the array [vc], the physical memory and the
    machine form the state the device works on. *)

From S2P Require Import Prelude Esr Machine Vcpu Stage2 Uart.

Definition VIRTIO_BASE := 0x0A000000.
Definition VIRTIO_SIZE := 0x0200.
Definition VIRTIO_NVMS := 2.

Record vcon := mk_vcon {
  status : Z; page_size : Z; queue_num : Z; queue_pfn : Z; int_status : Z;
  last_avail : Z; irq : Z; host_off : Z }.
Definition vcon_zero : vcon := mk_vcon 0 0 0 0 0 0 0 0.

Definition set_last_avail (c : vcon) (x : Z) :=
  mk_vcon (status c) (page_size c) (queue_num c) (queue_pfn c) (int_status c) x (irq c) (host_off c).
Definition set_irq (c : vcon) (i q : Z) :=
  mk_vcon (status c) (page_size c) (queue_num c) (queue_pfn c) i (last_avail c) q (host_off c).
Definition set_host_off (c : vcon) (o : Z) :=
  mk_vcon (status c) (page_size c) (queue_num c) (queue_pfn c) (int_status c) (last_avail c) (irq c) o.
Definition set_page_size (c : vcon) (x : Z) :=
  mk_vcon (status c) x (queue_num c) (queue_pfn c) (int_status c) (last_avail c) (irq c) (host_off c).
Definition set_queue_num (c : vcon) (x : Z) :=
  mk_vcon (status c) (page_size c) x (queue_pfn c) (int_status c) (last_avail c) (irq c) (host_off c).
Definition set_queue_pfn (c : vcon) (x : Z) :=
  mk_vcon (status c) (page_size c) (queue_num c) x (int_status c) (last_avail c) (irq c) (host_off c).
Definition set_status (c : vcon) (x : Z) :=
  mk_vcon x (page_size c) (queue_num c) (queue_pfn c) (int_status c) (last_avail c) (irq c) (host_off c).

Definition virtio_contains (ipa : Z) : bool := (VIRTIO_BASE <=? ipa) && (ipa <? VIRTIO_BASE + VIRTIO_SIZE).

(** [for (i = 0; i < VIRTIO_NVMS; i++)] *)
Fixpoint vcon_reset_loop (vc : list vcon) (i : Z) (n : nat) : res (list vcon) :=
  match n with
  | O => Ok vc
  | S n => vc ← aset vc i (mk_vcon 0 4096 0 0 0 0 0 0); vcon_reset_loop vc (i + 1) n
  end.
Definition virtio_reset (vc : list vcon) : res (list vcon) := vcon_reset_loop vc 0 2.

Definition virtio_set_offset (vm off : Z) (vc : list vcon) : res (list vcon) :=
  c ← aget vc vm; aset vc vm (set_host_off c off).

Definition virtio_take_irq (vm : Z) (vc : list vcon) : res (bool * list vcon) :=
  c ← aget vc vm;
  if negb (irq c =? 0) then vc ← aset vc vm (set_irq c (int_status c) 0); Ok (true, vc) else Ok (false, vc).

(** Layout of the split virtqueue in host memory. *)
Definition q_base (c : vcon) : Z := u64 (queue_pfn c * page_size c + host_off c).
Definition q_avail (base num : Z) : Z := u64 (base + num * 16).
Definition q_used (base num : Z) : Z := u64 (base + num * 16 + 6 + 2 * num + 4095) .& cnot 64 4095.

Section Virtio.
Context {W : Type} `{Platform W}.

(** Send the [len] bytes at [addr], one at a time. *)
Fixpoint emit (m : mem) (addr : Z) (n : nat) : st W unit :=
  match n with O => mret tt | S n => uart_putc (rd8 m addr);; emit m (addr + 1) n end.

(** The [while (c->last_avail != avail_idx)] loop. *)
Fixpoint tx_loop (fuel : nat) (base avail used avail_idx o : Z) (c : vcon) (m : mem) (consumed : bool) (w : W)
  : res (vcon * mem * bool * W) :=
  if last_avail c =? avail_idx then Ok (c, m, consumed, w)
  else match fuel with
       | O => Err OutOfFuel
       | S fuel =>
           let slot := u16 (last_avail c mod queue_num c) in
           let didx := ld16 m (avail + 4 + 2 * slot) in
           let desc := u64 (base + didx * 16) in
           let addr := u64 (ld64 m (desc + 0) + o) in
           let len := ld32 m (desc + 8) in
           '(_, w) ← emit m addr (Z.to_nat len) w;
           let uidx := ld16 m (used + 2) in
           let ue := u64 (used + 4 + 8 * (uidx mod queue_num c)) in
           let m := st32 m (ue + 0) didx in
           let m := st32 m (ue + 4) 0 in
           let m := st16 m (used + 2) (uidx + 1) in
           tx_loop fuel base avail used avail_idx o (set_last_avail c (u16 (last_avail c + 1))) m true w
       end.

(** [last_avail] is a uint16_t, so the loop runs fewer than 2^16 times. *)
Definition TX_FUEL : nat := Z.to_nat 65536.

Definition virtio_process_tx (vm : Z) (vc : list vcon) (m : mem) (w : W) : res (list vcon * mem * W) :=
  c ← aget vc vm;
  let o := host_off c in
  if (queue_pfn c =? 0) || (queue_num c =? 0) then Ok (vc, m, w)
  else
    let base := q_base c in
    let avail := q_avail base (queue_num c) in
    let avail_idx := ld16 m (avail + 2) in
    let used := q_used base (queue_num c) in
    '(c, m, consumed, w) ← tx_loop TX_FUEL base avail used avail_idx o c m false w;
    let c := if consumed : bool then set_irq c (int_status c .| 1) 1 else c in
    vc ← aset vc vm c;
    Ok (vc, m, w).

(** The register a load returns. *)
Definition vcon_read (c : vcon) (off : Z) : Z :=
  if off =? 0x000 then 0x74726976
  else if off =? 0x004 then 1
  else if off =? 0x008 then 3
  else if off =? 0x00c then 0x554d4551
  else if off =? 0x010 then 0
  else if off =? 0x034 then 8
  else if off =? 0x040 then queue_pfn c
  else if off =? 0x060 then int_status c
  else if off =? 0x070 then status c
  else 0.

Definition virtio_mmio (vm : Z) (v : vcpu) (ipa : Z) (vc : list vcon) (m : mem) (w : W)
  : res (vcpu * list vcon * mem * W) :=
  c ← aget vc vm;
  let iss := ESR_ISS (exit_esr v) in
  if iss_isv iss =? 0 then Ok (pc_advance v, vc, m, w)
  else
    let wnr := iss_wnr iss in
    let srt := iss_srt iss in
    let off := u64 (ipa - VIRTIO_BASE) in
    if negb (wnr =? 0) then
      val ← read_rt v srt;
      let val := u32 val in
      '(vc, m, w) ←
        (if off =? 0x028 then vc ← aset vc vm (set_page_size c val); Ok (vc, m, w)
         else if off =? 0x038 then vc ← aset vc vm (set_queue_num c val); Ok (vc, m, w)
         else if off =? 0x040 then vc ← aset vc vm (set_queue_pfn c val); Ok (vc, m, w)
         else if off =? 0x070 then vc ← aset vc vm (set_status c val); Ok (vc, m, w)
         else if off =? 0x064 then vc ← aset vc vm (set_irq c (int_status c .& cnot 32 val) (irq c)); Ok (vc, m, w)
         else if off =? 0x050 then virtio_process_tx vm vc m w
         else Ok (vc, m, w));
      Ok (pc_advance v, vc, m, w)
    else
      v ← write_rt v srt (vcon_read c off);
      Ok (pc_advance v, vc, m, w).
End Virtio.

(** * The queue in memory *)

Fixpoint mem_bytes (m : mem) (a : Z) (n : nat) : list Z :=
  match n with O => [] | S n => rd8 m a :: mem_bytes m (a + 1) n end.

(** The descriptor the driver put in slot [la] of the available ring, and the
    buffer a descriptor names, in host memory. *)
Definition d_idx (m : mem) (avail num la : Z) : Z := ld16 m (avail + 4 + 2 * u16 (la mod num)).
Definition d_addr (m : mem) (base o d : Z) : Z := u64 (ld64 m (u64 (base + d * 16) + 0) + o).
Definition d_len (m : mem) (base d : Z) : Z := ld32 m (u64 (base + d * 16) + 8).
(** Append descriptor [d] with length [l] to the used ring. *)
Definition push_used (m : mem) (used num d l : Z) : mem :=
  let uidx := ld16 m (used + 2) in
  let ue := u64 (used + 4 + 8 * (uidx mod num)) in
  st16 (st32 (st32 m (ue + 0) d) (ue + 4) l) (used + 2) (uidx + 1).

Definition wf_vcon (c : vcon) : Prop :=
  fits 32 (status c) /\ fits 32 (page_size c) /\ fits 32 (queue_num c) /\ fits 32 (queue_pfn c) /\
  fits 32 (int_status c) /\ fits 16 (last_avail c) /\ (irq c = 0 \/ irq c = 1) /\ fits 64 (host_off c).
Definition wf_vc (vc : list vcon) : Prop := len vc = 2 /\ Forall wf_vcon vc.
#[export] Instance wf_vc_dec vc : Decision (wf_vc vc).
Proof. unfold wf_vc, wf_vcon. apply _. Defined.

(** The size of the used ring the device writes. *)
Definition used_size (num : Z) : Z := 4 + 8 * num.

Lemma push_used_frame m used num d l b :
  1 <= num -> fits 32 num -> ~ in_range (used_size num) used b -> rd8 (push_used m used num d l) b = rd8 m b.
Proof.
  intros Hn Hf Hb. unfold push_used, used_size in *. cbv zeta.
  pose proof (Z.mod_pos_bound (ld16 m (used + 2)) num ltac:(lia)) as Hr.
  set (r := ld16 m (used + 2) mod num) in *. unfold fits in Hf.
  rewrite !rd8_store_out; [done|..]; try (change (Z.of_nat 4) with 4); try (change (Z.of_nat 2) with 2);
    try lia; intros Hin; apply Hb; clear Hb; unfold in_range in *; clearbody r; zlia.
Qed.

(** Entry [r] of the used ring: its descriptor and its length. *)
Definition used_entry (used : Z) (m : mem) (r : Z) : Z * Z := (ld32 m (used + 4 + 8 * r), ld32 m (used + 4 + 8 * r + 4)).

Lemma push_used_spec m used num d l :
  1 <= num -> 0 <= used -> used + used_size num < 2 ^ 64 -> fits 32 d -> fits 32 l ->
  let u := ld16 m (used + 2) in
  ld16 (push_used m used num d l) (used + 2) = u16 (u + 1) /\
  used_entry used (push_used m used num d l) (u mod num) = (d, l) /\
  (forall r, 0 <= r < num -> r <> u mod num -> used_entry used (push_used m used num d l) r = used_entry used m r).
Proof.
  intros Hn Hu Hend Hd Hl u.
  pose proof (Z.mod_pos_bound u num ltac:(lia)) as Hr. unfold push_used. cbv zeta. fold u.
  set (r0 := u mod num) in *. unfold used_size in *.
  rewrite (wrap_fits 64 (used + 4 + 8 * r0)) by (unfold fits; lia).
  replace (used + 4 + 8 * r0 + 0) with (used + (4 + 8 * r0)) by lia.
  replace (used + 4 + 8 * r0 + 4) with (used + (8 + 8 * r0)) by lia.
  assert (forall x (k j : nat) a b v, (k <= 4)%nat -> (j <= 4)%nat -> 0 <= a -> 0 <= b ->
    a + Z.of_nat k <= 4 + 8 * num -> b + Z.of_nat j <= 4 + 8 * num ->
    a + Z.of_nat k <= b \/ b + Z.of_nat j <= a -> load k (store j x (used + b) v) (used + a) = load k x (used + a)) as Hld.
  { intros. apply load_store_disjoint; [lia|lia|]. apply disjoint_arith; lia. }
  split; [|split].
  - by rewrite load_store_eq by lia.
  - unfold used_entry. replace (used + 4 + 8 * r0 + 4) with (used + (8 + 8 * r0)) by lia.
    replace (used + 4 + 8 * r0) with (used + (4 + 8 * r0)) by lia.
    rewrite (Hld _ 4%nat 2%nat (4 + 8 * r0) 2) by lia. rewrite (Hld _ 4%nat 2%nat (8 + 8 * r0) 2) by lia.
    rewrite (Hld _ 4%nat 4%nat (4 + 8 * r0) (8 + 8 * r0)) by lia. rewrite !load_store_eq by lia.
    by f_equal; apply wrap_fits.
  - intros r Hr' Hne. unfold used_entry. replace (used + 4 + 8 * r + 4) with (used + (8 + 8 * r)) by lia.
    replace (used + 4 + 8 * r) with (used + (4 + 8 * r)) by lia.
    rewrite (Hld _ 4%nat 2%nat (4 + 8 * r) 2), (Hld _ 4%nat 4%nat (4 + 8 * r) (8 + 8 * r0)),
      (Hld _ 4%nat 4%nat (4 + 8 * r) (4 + 8 * r0)) by lia.
    rewrite (Hld _ 4%nat 2%nat (8 + 8 * r) 2), (Hld _ 4%nat 4%nat (8 + 8 * r) (8 + 8 * r0)),
      (Hld _ 4%nat 4%nat (8 + 8 * r) (4 + 8 * r0)) by lia. done.
Qed.

Section TxLoop.
Context {W : Type} `{PlatformOk W}.

Lemma emit_eq m n : forall a (w : W), emit m a n w = put_all (mem_bytes m a n) w.
Proof. induction n as [|n IH]; intros a w; [done|]. apply st_bind_ext; [done|]. intros. apply IH. Qed.

(** What the loop does to the console and to memory, whatever the guest put there. *)
Lemma tx_loop_total base avail used avail_idx o n : forall fuel c m b (w : W),
  (n <= fuel)%nat -> fits 16 (last_avail c) -> fits 16 avail_idx -> 1 <= queue_num c -> fits 32 (queue_num c) ->
  Z.of_nat n = u16 (avail_idx - last_avail c) ->
  exists m' w', tx_loop fuel base avail used avail_idx o c m b w =
    Ok (set_last_avail c avail_idx, m', b || (0 <? Z.of_nat n), w') /\
    forall a, ~ in_range (used_size (queue_num c)) used a -> rd8 m' a = rd8 m a.
Proof.
  induction n as [|n IH]; intros fuel c m b w Hf Hla Hai Hq1 Hq2 Hn.
  { assert (last_avail c = avail_idx) as E by zlia.
    exists m, w. split; [|done]. destruct fuel; cbn [tx_loop]; rewrite E, Z.eqb_refl;
      change (0 <? Z.of_nat 0) with false; rewrite orb_false_r; rewrite <- E; by destruct c. }
  destruct fuel as [|fuel]; [lia|]. cbn [tx_loop].
  destruct (Z.eqb_spec (last_avail c) avail_idx) as [E|E].
  { rewrite E, Z.sub_diag in Hn. change (u16 0) with 0 in Hn. lia. }
  rewrite emit_eq. destruct (put_all_runs (mem_bytes m (d_addr m base o (d_idx m avail (queue_num c) (last_avail c)))
    (Z.to_nat (d_len m base (d_idx m avail (queue_num c) (last_avail c))))) w) as [w1 E1].
  unfold d_addr, d_len, d_idx in E1. cbv zeta. rewrite E1. cbn [mbind res_bind].
  set (m1 := st16 _ _ _).
  destruct (IH fuel (set_last_avail c (u16 (last_avail c + 1))) m1 true w1) as (m' & w' & E2 & Hfr);
    [lia|apply fits_wrap; lia|done|done|done|cbn [last_avail set_last_avail]; zlia|].
  exists m', w'. split.
  - etrans; [exact E2|]. assert ((0 <? Z.of_nat (S n)) = true) as -> by (apply Z.ltb_lt; lia). by rewrite orb_true_r.
  - intros a Ha. cbn in Hfr. rewrite Hfr by done.
    apply (push_used_frame m used (queue_num c) (d_idx m avail (queue_num c) (last_avail c)) 0); done.
Qed.
End TxLoop.

Section VirtioTheorems.
Context {W : Type} `{PlatformOk W}.

(** The bytes the console device of [c] may write: its used ring. *)
Definition may_write (c : vcon) (a : Z) : Prop :=
  queue_num c <> 0 /\ in_range (used_size (queue_num c)) (q_used (q_base c) (queue_num c)) a.

Lemma process_tx_ok vm vc m (w : W) c :
  wf_vc vc -> 0 <= vm < 2 -> aget vc vm = Ok c ->
  exists c' m' w', virtio_process_tx vm vc m w = Ok (<[Z.to_nat vm := c']> vc, m', w') /\ wf_vcon c' /\
    host_off c' = host_off c /\ (forall a, ~ may_write c a -> rd8 m' a = rd8 m a).
Proof.
  intros [Hl HF] Hvm Hc. pose proof (Forall_aget _ _ _ _ HF Hc) as (H1 & H2 & H3 & H4 & H5 & H6 & H7 & H8).
  unfold virtio_process_tx. rewrite Hc. cbn [mbind res_bind]. cbv zeta.
  destruct ((queue_pfn c =? 0) || (queue_num c =? 0)) eqn:E.
  { exists c, m, w. rewrite list_insert_id by (by apply aget_inv). by split_and!. }
  apply orb_false_elim in E as [_ E%Z.eqb_neq]. assert (1 <= queue_num c) by (unfold fits in H3; lia).
  set (ai := ld16 m _). assert (fits 16 ai) as Hai by apply (fits_load 2).
  pose proof (fits_wrap 16 (ai - last_avail c) ltac:(lia)) as Hd.
  destruct (tx_loop_total (q_base c) (q_avail (q_base c) (queue_num c)) (q_used (q_base c) (queue_num c)) ai
    (host_off c) (Z.to_nat (u16 (ai - last_avail c))) TX_FUEL c m false w) as (m' & w' & E1 & Hfr); try done.
  { unfold TX_FUEL, fits in *. lia. }
  { unfold fits in Hd. lia. }
  rewrite E1. cbn [mbind res_bind]. rewrite aset_ok by lia. cbn [mbind res_bind].
  eexists _, m', w'. split; [reflexivity|]. split; [|split].
  - case_match; split_and!; cbn; try done; [apply fits_lor; [lia|done|fits_const]|by right].
  - by case_match.
  - intros a Ha. apply Hfr. intros Hin. apply Ha. by split.
Qed.

Lemma vcon_read_fits c off : wf_vcon c -> fits 64 (vcon_read c off).
Proof.
  intros (H1 & H2 & H3 & H4 & H5 & _). unfold vcon_read. apply (fits_mono 32); [lia|].
  repeat case_match; assumption || fits_const.
Qed.

Lemma virtio_mmio_ok vm v ipa vc m (w : W) c :
  wf_vc vc -> wf_vcpu v -> 0 <= vm < 2 -> aget vc vm = Ok c ->
  exists v' vc' m' w', virtio_mmio vm v ipa vc m w = Ok (v', vc', m', w') /\ wf_vc vc' /\ wf_vcpu v' /\
    rt_only v v' (iss_srt (ESR_ISS (exit_esr v))) /\
    (forall j, j <> vm -> aget vc' j = aget vc j) /\
    (exists c', aget vc' vm = Ok c' /\ host_off c' = host_off c) /\
    (forall a, ~ may_write c a -> rd8 m' a = rd8 m a).
Proof.
  intros Hvc Hv Hvm Hc. pose proof Hvc as [Hl HF]. pose proof (Forall_aget _ _ _ _ HF Hc) as Hwc.
  pose proof Hwc as (H1 & H2 & H3 & H4 & H5 & H6 & H7 & H8).
  unfold virtio_mmio. rewrite Hc. cbn [mbind res_bind]. set (iss := ESR_ISS _). cbv zeta.
  pose proof (iss_srt_range iss) as Hr. set (off := u64 _).
  destruct (iss_isv iss =? 0).
  { eexists _, _, _, _. split; [done|]. eauto 10 using rt_only_same, pc_advance_wf. }
  destruct (iss_wnr iss =? 0); cbn [negb].
  { destruct (write_rt_ok v (iss_srt iss) (vcon_read c off) Hv Hr (vcon_read_fits c off Hwc)) as (v' & E & Hv').
    rewrite E. cbn [mbind res_bind]. eexists _, _, _, _. split; [done|]. eauto 10 using rt_only_write, pc_advance_wf. }
  destruct (read_rt_ok v (iss_srt iss) Hv Hr) as (val & -> & Hval). cbn [mbind res_bind]. cbv zeta.
  pose proof (fits_wrap 32 val ltac:(lia)) as Hu. set (u := u32 val) in *.
  assert (fits 32 (int_status c .& cnot 32 u)) as Hi by (apply fits_land; [lia|done|apply fits_cnot; lia]).
  match goal with |- context [(if off =? 0x028 then ?a else ?b) ≫= _] => set (r := if off =? 0x028 then a else b) end.
  assert (exists c' m' w', r = Ok (<[Z.to_nat vm := c']> vc, m', w') /\ wf_vcon c' /\ host_off c' = host_off c /\
    (forall a, ~ may_write c a -> rd8 m' a = rd8 m a)) as (c' & m' & w' & -> & Hc' & Ho & Hfr).
  { subst r. rewrite !(aset_ok vc) by lia. cbn [mbind res_bind].
    destruct (process_tx_ok vm vc m w c Hvc Hvm Hc) as (c' & m' & w' & E & ? & ? & ?).
    repeat case_match; try (eexists _, m, w; split; [reflexivity|]; by split_and!).
    - rewrite E. by eexists _, _, _.
    - exists c, m, w. rewrite list_insert_id by (by apply aget_inv). by split_and!. }
  cbn [mbind res_bind]. eexists _, _, _, _. split; [done|].
  split; [split; [by rewrite len_insert|by apply Forall_insert]|]. split; [by apply pc_advance_wf|].
  split; [apply rt_only_same|]. split; [intros j Hj; apply aget_insert_ne; lia|].
  split; [exists c'; split; [apply aget_insert_eq; lia|done]|done].
Qed.

(** Whatever a guest stores in the queue, a trapped access to its console
    device completes: the transmit loop ends, device and vCPU stay well-formed, the
    guest resumes at the next instruction, the other VM's device state does not
    change, and the only memory the device can write is the used ring of the queue
    the guest configured. *)
Lemma virtio_mmio_sound vm v ipa vc m (w : W) c :
  wf_vc vc -> wf_vcpu v -> 0 <= vm < 2 -> aget vc vm = Ok c ->
  exists v' vc' m' w', virtio_mmio vm v ipa vc m w = Ok (v', vc', m', w') /\ wf_vc vc' /\ wf_vcpu v' /\
    rt_only v v' (iss_srt (ESR_ISS (exit_esr v))) /\
    (forall j, j <> vm -> aget vc' j = aget vc j) /\
    (exists c', aget vc' vm = Ok c' /\ host_off c' = host_off c) /\
    (forall a, ~ may_write c a -> rd8 m' a = rd8 m a).
Proof. apply virtio_mmio_ok. Qed.
End VirtioTheorems.

(** Both devices after virtio_reset. *)
Definition vc_reset : list vcon := replicate 2 (mk_vcon 0 4096 0 0 0 0 0 0).

Lemma virtio_mmio_sound_witness :
  let v := dabt_vcpu (replicate 31 8) 2 1 1 in let c := mk_vcon 0 4096 0 0 0 0 0 0 in
  exists v' vc' m' w', virtio_mmio 1 v 0x0A000050 vc_reset ∅ quiet = Ok (v', vc', m', w') /\ wf_vc vc' /\ wf_vcpu v' /\
    rt_only v v' (iss_srt (ESR_ISS (exit_esr v))) /\
    (forall j, j <> 1 -> aget vc' j = aget vc_reset j) /\
    (exists c', aget vc' 1 = Ok c' /\ host_off c' = host_off c) /\
    (forall a, ~ may_write c a -> rd8 m' a = rd8 ∅ a).
Proof. apply (virtio_mmio_sound 1 (dabt_vcpu (replicate 31 8) 2 1 1)); [closed_dec|closed_dec|lia|reflexivity]. Defined.

(** * What a well-behaved driver gets *)

Lemma align_page z : fits 64 z -> (z .& cnot 64 4095) = z / 4096 * 4096.
Proof.
  intros Hz. change 4096 with (2 ^ 12). rewrite <- Z.shiftl_mul_pow2, <- Z.shiftr_div_pow2 by lia.
  apply Z.bits_inj'. intros i Hi. rewrite Z.land_spec, testbit_cnot by lia.
  change 4095 with (Z.ones 12). rewrite testbit_ones by lia.
  destruct (Z.ltb_spec i 64) as [Hlt|Hge].
  - destruct (Z.ltb_spec i 12).
    + rewrite Z.shiftl_spec_low by lia. destruct (Z.leb_spec 0 i); [|lia]. cbn. apply andb_false_r.
    + rewrite Z.shiftl_spec, Z.shiftr_spec by lia. replace (i - 12 + 12) with i by lia.
      rewrite andb_false_r. cbn. apply andb_true_r.
  - rewrite (testbit_fits 64 z) by done. rewrite Z.shiftl_spec, Z.shiftr_spec by lia.
    replace (i - 12 + 12) with i by lia. by rewrite (testbit_fits 64 z) by done.
Qed.

Lemma mem_bytes_ext m m' n : forall a,
  Z.of_nat n < 2 ^ 64 -> (forall b, in_range (Z.of_nat n) a b -> rd8 m b = rd8 m' b) -> mem_bytes m a n = mem_bytes m' a n.
Proof.
  induction n as [|n IH]; intros a Hn Heq; [done|]. cbn [mem_bytes]. rewrite Nat2Z.inj_succ in *. f_equal.
  - apply Heq. unfold in_range. rewrite Z.sub_diag. zlia.
  - apply IH; [lia|]. intros b Hb. apply Heq. apply in_range_step; [lia|lia|by left].
Qed.

(** The driver's side of the virtio contract for the configured queue: a power-of-two
    size, at most [num] buffers outstanding, ring entries that name descriptors of
    the table, a queue that does not wrap around the address space, and buffers that
    do not overlap the used ring. *)
Record driver_ok (c : vcon) (m : mem) : Prop := {
  dr_pfn : queue_pfn c <> 0;
  dr_num : 1 <= queue_num c;
  dr_pow : (queue_num c | 65536);
  dr_room : q_base c + 26 * queue_num c + 8192 < 2 ^ 64;
  dr_pending : u16 (ld16 m (q_avail (q_base c) (queue_num c) + 2) - last_avail c) <= queue_num c;
  dr_desc k : 0 <= k < queue_num c -> ld16 m (q_avail (q_base c) (queue_num c) + 4 + 2 * k) < queue_num c;
  dr_buf d : 0 <= d < queue_num c ->
    disjoint (d_len m (q_base c) d) (d_addr m (q_base c) (host_off c) d)
             (used_size (queue_num c)) (q_used (q_base c) (queue_num c))
}.

Section Driver.
Context (c : vcon) (m0 : mem).
Context (Hwf : wf_vcon c) (Hdr : driver_ok c m0).

Abbreviation num := (queue_num c).
Abbreviation base := (q_base c).
Abbreviation avail := (q_avail (q_base c) (queue_num c)).
Abbreviation used := (q_used (q_base c) (queue_num c)).

Lemma num_bound : 1 <= num <= 65536.
Proof. split; [apply Hdr|]. apply Z.divide_pos_le; [lia|apply Hdr]. Qed.

Lemma layout : 0 <= base /\ avail = base + num * 16 /\
  base + num * 18 + 6 <= used <= base + num * 18 + 6 + 4095 /\ used + used_size num < 2 ^ 64.
Proof.
  pose proof num_bound as Hn. pose proof (dr_room _ _ Hdr) as Hroom.
  assert (0 <= base) as Hb by (unfold q_base; apply fits_wrap; lia).
  unfold q_avail, q_used, used_size. split; [done|].
  assert (fits 64 (base + num * 16)) as F1 by (unfold fits; lia).
  assert (fits 64 (base + num * 16 + 6 + 2 * num + 4095)) as F2 by (unfold fits; lia).
  rewrite (wrap_fits 64 _ F1), (wrap_fits 64 _ F2), align_page by done.
  generalize dependent base. intros b. intros. zlia.
Qed.

(** [m] differs from the driver's memory only inside the used ring. *)
Definition agree (m : mem) : Prop := forall a, ~ in_range (used_size num) used a -> rd8 m a = rd8 m0 a.

Lemma used_disjoint a n :
  0 <= a -> 0 <= n -> a + n <= used -> disjoint n a (used_size num) used.
Proof.
  intros. destruct layout as (? & ? & ? & ?). pose proof num_bound. unfold used_size in *.
  apply disjoint_arith; try lia.
Qed.
Lemma agree_load k m a :
  agree m -> (k <= 8)%nat -> disjoint (Z.of_nat k) a (used_size num) used -> load k m a = load k m0 a.
Proof. intros Ha Hk Hd. apply load_ext; [lia|]. intros b Hb. apply Ha. by apply Hd. Qed.

Lemma agree_idx m la : agree m -> 0 <= la -> d_idx m avail num la = d_idx m0 avail num la /\ 0 <= d_idx m0 avail num la < num.
Proof.
  intros Ha Hla. pose proof num_bound as Hn. destruct layout as (Hb & Hav & Hu & _).
  pose proof (Z.mod_pos_bound la num ltac:(lia)) as Hm. unfold d_idx.
  rewrite (wrap_fits 16 (la mod num)) by (unfold fits; lia). split.
  - apply agree_load; [done|lia|]. rewrite Hav. apply used_disjoint; lia.
  - split; [apply (fits_load 2)|]. by apply Hdr.
Qed.
Lemma agree_desc m d : agree m -> 0 <= d < num ->
  d_addr m base (host_off c) d = d_addr m0 base (host_off c) d /\ d_len m base d = d_len m0 base d.
Proof.
  intros Ha Hd. pose proof num_bound. destruct layout as (Hb & Hav & Hu & Hend). unfold used_size in Hend.
  unfold d_addr, d_len. rewrite (wrap_fits 64 (base + d * 16)) by (unfold fits; lia).
  rewrite !(agree_load _ m) by (done || lia || apply used_disjoint; lia). done.
Qed.

(** The text of descriptor [d] in the driver's memory. *)
Definition text (d : Z) : list Z := mem_bytes m0 (d_addr m0 base (host_off c) d) (Z.to_nat (d_len m0 base d)).

Lemma agree_text m d : agree m -> 0 <= d < num ->
  mem_bytes m (d_addr m base (host_off c) d) (Z.to_nat (d_len m base d)) = text d.
Proof.
  intros Ha Hd. destruct (agree_desc m d Ha Hd) as [-> ->]. pose proof (fits_load 4 m0 (u64 (base + d * 16) + 8)) as Hf.
  apply mem_bytes_ext; unfold d_len in *.
  - unfold fits in Hf. lia.
  - intros b Hb. apply Ha. rewrite Z2Nat.id in Hb by apply Hf. by apply (dr_buf _ _ Hdr d Hd).
Qed.

(** The buffers made available from ring position [la] on, and the used ring after
    completing them. *)
Fixpoint texts (la : Z) (n : nat) : list Z :=
  match n with O => [] | S n => text (d_idx m0 avail num la) ++ texts (u16 (la + 1)) n end.
Fixpoint complete (m : mem) (la : Z) (n : nat) : mem :=
  match n with O => m | S n => complete (push_used m used num (d_idx m0 avail num la) 0) (u16 (la + 1)) n end.

Lemma push_used_agree m d : agree m -> agree (push_used m used num d 0).
Proof.
  intros Ha a Hout. rewrite push_used_frame; [by apply Ha|apply Hdr| |done]. apply Hwf.
Qed.
Lemma complete_agree n : forall m la, agree m -> agree (complete m la n).
Proof. induction n as [|n IH]; intros; [done|]. apply IH. by apply push_used_agree. Qed.

Lemma mod_num x : u16 x mod num = x mod num.
Proof. unfold wrap. apply Z.mod_mod_divide. apply Hdr. Qed.
Lemma complete_used n : forall m la,
  fits 16 la -> Z.of_nat n <= num ->
  let u := ld16 m (used + 2) in
  ld16 (complete m la n) (used + 2) = u16 (u + Z.of_nat n) /\
  (forall k, 0 <= k < Z.of_nat n ->
     used_entry used (complete m la n) ((u + k) mod num) = (d_idx m0 avail num (u16 (la + k)), 0)) /\
  (forall r, 0 <= r < num -> (forall k, 0 <= k < Z.of_nat n -> r <> (u + k) mod num) ->
     used_entry used (complete m la n) r = used_entry used m r).
Proof.
  induction n as [|n IH]; intros m la Hla Hn u.
  { cbn [complete]. change (Z.of_nat 0) with 0. rewrite (Z.add_0_r u). split; [|split; [intros; lia|done]].
    symmetry. apply wrap_fits. apply (fits_load 2). }
  pose proof num_bound as Hnb. set (d := d_idx m0 avail num la).
  assert (fits 16 d) as Hd by apply (fits_load 2).
  destruct layout as (Hb0 & _ & Hu0 & Hend).
  destruct (push_used_spec m used num d 0) as (P1 & P2 & P3);
    [lia|lia|done|by apply (fits_mono 16)|fits_const|]. fold u in P1, P2, P3.
  destruct (IH (push_used m used num d 0) (u16 (la + 1))) as (I1 & I2 & I3); [apply fits_wrap; lia|lia|].
  rewrite P1 in I1, I2, I3. cbn [complete]. fold d.
  assert (forall k, (u16 (u + 1) + k) mod num = (u + (k + 1)) mod num) as Hk.
  { intros k. rewrite Zplus_mod, mod_num, <- Zplus_mod. f_equal. lia. }
  split; [|split].
  - rewrite I1, wrap_add_l. f_equal. lia.
  - intros k Hkr. destruct (decide (k = 0)) as [->|].
    + rewrite !Z.add_0_r, (wrap_fits 16 la) by done. rewrite I3; [exact P2|apply Z.mod_pos_bound; lia|].
      intros j Hj E. rewrite Hk in E. rewrite <- (Z.add_0_r u) in E at 1. apply mod_add_inj in E; lia.
    + specialize (I2 (k - 1) ltac:(lia)). rewrite Hk in I2. replace (k - 1 + 1) with k in I2 by lia.
      rewrite I2, wrap_add_l. do 3 f_equal. lia.
  - intros r Hr Hne. rewrite I3; [apply P3; [done|]|done|].
    + specialize (Hne 0 ltac:(lia)). by rewrite Z.add_0_r in Hne.
    + intros k Hkr. rewrite Hk. apply Hne. lia.
Qed.

Section Loop.
Context {W : Type} `{PlatformOk W}.

Lemma tx_loop_spec avail_idx n : forall fuel la m b (w : W),
  (n <= fuel)%nat -> fits 16 la -> fits 16 avail_idx -> agree m -> Z.of_nat n = u16 (avail_idx - la) ->
  tx_loop fuel base avail used avail_idx (host_off c) (set_last_avail c la) m b w =
  ('(_, w) ← put_all (texts la n) w; Ok (set_last_avail c avail_idx, complete m la n, b || (0 <? Z.of_nat n), w)).
Proof.
  induction n as [|n IH]; intros fuel la m b w Hf Hla Hai Ha Hn.
  { assert (la = avail_idx) as -> by zlia. change (0 <? Z.of_nat 0) with false.
    destruct fuel; cbn; rewrite Z.eqb_refl, orb_false_r; done. }
  destruct fuel as [|fuel]; [lia|]. cbn [tx_loop last_avail set_last_avail].
  destruct (Z.eqb_spec la avail_idx) as [E|E].
  { rewrite E, Z.sub_diag in Hn. change (u16 0) with 0 in Hn. lia. }
  cbv zeta. change (queue_num (set_last_avail c la)) with num.
  fold (d_idx m avail num la). destruct (agree_idx m la Ha ltac:(unfold fits in Hla; lia)) as [-> Hd].
  set (d := d_idx m0 avail num la) in *. fold (d_addr m base (host_off c) d) (d_len m base d).
  rewrite emit_eq, agree_text by done. fold (push_used m used num d 0).
  cbn [texts complete]. rewrite put_all_app. fold d.
  unfold mbind at 3, st_bind at 1. destruct (put_all_runs (text d) w) as [w1 ->]. cbn [mbind res_bind].
  unfold set_last_avail at 1. cbn [status page_size queue_num queue_pfn int_status irq host_off set_last_avail].
  fold (set_last_avail c (u16 (la + 1))). rewrite IH.
  - assert ((0 <? Z.of_nat (S n)) = true) as -> by (apply Z.ltb_lt; lia). by rewrite orb_true_r.
  - lia.
  - apply fits_wrap; lia.
  - done.
  - by apply push_used_agree.
  - zlia.
Qed.
End Loop.
End Driver.

Section TxTheorem.
Context {W : Type} `{PlatformOk W}.

Lemma process_tx_spec vm vc m (w : W) c :
  wf_vc vc -> 0 <= vm < 2 -> aget vc vm = Ok c -> driver_ok c m ->
  let used := q_used (q_base c) (queue_num c) in
  let avail := q_avail (q_base c) (queue_num c) in
  let n := u16 (ld16 m (avail + 2) - last_avail c) in
  exists c' m' w', virtio_process_tx vm vc m w = Ok (<[Z.to_nat vm := c']> vc, m', w') /\
    put_all (texts c m (last_avail c) (Z.to_nat n)) w = Ok (tt, w') /\
    last_avail c' = ld16 m (avail + 2) /\
    (if n =? 0 then c' = c else irq c' = 1 /\ Z.testbit (int_status c') 0 = true) /\
    ld16 m' (used + 2) = u16 (ld16 m (used + 2) + n) /\
    (forall k, 0 <= k < n ->
       used_entry used m' ((ld16 m (used + 2) + k) mod queue_num c) =
       (d_idx m avail (queue_num c) (u16 (last_avail c + k)), 0)) /\
    (forall a, ~ in_range (used_size (queue_num c)) used a -> rd8 m' a = rd8 m a).
Proof.
  intros [Hl HF] Hvm Hc Hdr used avail n. pose proof (Forall_aget _ _ _ _ HF Hc) as Hwf.
  pose proof Hwf as (_ & _ & Hq & _ & _ & Hla & _ & _).
  pose proof (fits_wrap 16 (ld16 m (avail + 2) - last_avail c) ltac:(lia)) as Hn. fold n in Hn. unfold fits in Hn.
  assert (fits 16 (ld16 m (avail + 2))) as Hai by apply (fits_load 2).
  unfold virtio_process_tx. rewrite Hc. cbn [mbind res_bind]. cbv zeta. fold avail used.
  destruct (Z.eqb_spec (queue_pfn c) 0); [by destruct (dr_pfn _ _ Hdr)|].
  destruct (Z.eqb_spec (queue_num c) 0); [pose proof (dr_num _ _ Hdr); lia|]. cbn [orb].
  pose proof (tx_loop_spec c m Hwf Hdr (ld16 m (avail + 2)) (Z.to_nat n) TX_FUEL (last_avail c) m false w) as E.
  assert (set_last_avail c (last_avail c) = c) as Hself by by destruct c. rewrite Hself in E. fold avail used in E.
  rewrite E; [|unfold TX_FUEL; lia|done|done|by intros ?|lia]. clear E.
  destruct (put_all_runs (texts c m (last_avail c) (Z.to_nat n)) w) as [w' Ew]. rewrite Ew. cbn [mbind res_bind orb].
  rewrite aset_ok by lia. cbn [mbind res_bind]. rewrite Z2Nat.id by lia.
  eexists _, _, w'. split; [reflexivity|]. split; [done|].
  split; [by case_match|].
  split.
  { destruct (Z.eqb_spec n 0) as [E|E], (Z.ltb_spec 0 n); try lia.
    - assert (ld16 m (avail + 2) = last_avail c) as -> by (unfold n in E; zlia). done.
    - cbn. split; [done|]. by rewrite Z.lor_spec, orb_true_r. }
  destruct (complete_used c m Hdr (Z.to_nat n) m (last_avail c)) as (C1 & C2 & _);
    [done|rewrite Z2Nat.id by lia; apply (dr_pending _ _ Hdr)|]. rewrite Z2Nat.id in C1, C2 by lia.
  split; [exact C1|]. split; [exact C2|]. by apply complete_agree.
Qed.
(** C17: The transmit queue delivers.  For a driver that keeps its side of the virtio
    contract, a notification sends to the console exactly the buffers made available
    since the last one, in ring order, and then: the used ring holds their descriptor
    indices in that order with the used index advanced by their number, everything
    outside the used ring is untouched, the device is in step with the available
    ring, and it has raised its interrupt exactly when there was something to send. *)
Theorem virtio_tx_delivers vm vc m (w : W) c :
  wf_vc vc -> 0 <= vm < 2 -> aget vc vm = Ok c -> driver_ok c m ->
  let used := q_used (q_base c) (queue_num c) in
  let avail := q_avail (q_base c) (queue_num c) in
  let n := u16 (ld16 m (avail + 2) - last_avail c) in
  exists c' m' w', virtio_process_tx vm vc m w = Ok (<[Z.to_nat vm := c']> vc, m', w') /\
    put_all (texts c m (last_avail c) (Z.to_nat n)) w = Ok (tt, w') /\
    last_avail c' = ld16 m (avail + 2) /\
    (if n =? 0 then c' = c else irq c' = 1 /\ Z.testbit (int_status c') 0 = true) /\
    ld16 m' (used + 2) = u16 (ld16 m (used + 2) + n) /\
    (forall k, 0 <= k < n ->
       used_entry used m' ((ld16 m (used + 2) + k) mod queue_num c) =
       (d_idx m avail (queue_num c) (u16 (last_avail c + k)), 0)) /\
    (forall a, ~ in_range (used_size (queue_num c)) used a -> rd8 m' a = rd8 m a).
Proof. apply process_tx_spec. Qed.

(** C35: The device does not check descriptor addresses against the VM's RAM.  When
    VM 0's driver names the guest address 0x80000000, which its own stage-2 does not
    map, the console device reads and prints VM 1's memory instead. *)
Theorem virtio_tx_reads_foreign vc m (w : W) c d :
  wf_vc vc -> aget vc 0 = Ok c -> driver_ok c m -> host_off c = VM0_PA - VM_IPA ->
  u16 (ld16 m (q_avail (q_base c) (queue_num c) + 2) - last_avail c) = 1 ->
  d = d_idx m (q_avail (q_base c) (queue_num c)) (queue_num c) (last_avail c) ->
  ld64 m (u64 (q_base c + d * 16) + 0) = 0x80000000 ->
  tenant_space VM_IPA VM0_PA 0x80000000 = None /\
  exists vc' m' w', virtio_process_tx 0 vc m w = Ok (vc', m', w') /\
    put_all (mem_bytes m VM1_PA (Z.to_nat (d_len m (q_base c) d))) w = Ok (tt, w').
Proof.
  intros Hvc Hc Hdr Ho Hn Hd Ha. split; [reflexivity|].
  destruct (process_tx_spec 0 vc m w c Hvc ltac:(lia) Hc Hdr) as (c' & m' & w' & E & Hput & _).
  eexists _, m', w'. split; [exact E|]. rewrite Hn in Hput. change (Z.to_nat 1) with 1%nat in Hput.
  cbn [texts] in Hput. rewrite <- Hd, app_nil_r in Hput. unfold text, d_addr in Hput. by rewrite Ha, Ho in Hput.
Qed.
End TxTheorem.

(** ** A concrete queue: one buffer of [n] bytes at guest address [a] *)
Definition demo_con (o : Z) : vcon := mk_vcon 0 4096 2 0x40100 0 0 0 o.
Definition demo_mem (o a n : Z) : mem :=
  st32 (st64 (st16 ∅ (0x40100000 + o + 34) 1) (0x40100000 + o) a) (0x40100000 + o + 8) n.

Lemma demo_driver_ok :
  driver_ok (demo_con 0) (demo_mem 0 0x40200000 3) /\
  driver_ok (demo_con (VM0_PA - VM_IPA)) (demo_mem (VM0_PA - VM_IPA) 0x80000000 8).
Proof.
  split; (split;
    [done|done|by exists 32768|done|vm_compute; congruence
    |intros k Hk; change (queue_num _) with 2 in Hk; assert (k = 0 \/ k = 1) as [-> | ->] by lia; vm_compute; congruence|]);
    intros d Hd; change (queue_num _) with 2 in Hd; assert (d = 0 \/ d = 1) as [-> | ->] by lia;
    (apply disjoint_arith; [vm_compute; congruence|vm_compute; congruence|vm_compute; congruence|vm_compute; congruence|];
     first [left; vm_compute; congruence | right; vm_compute; congruence]).
Qed.

Lemma virtio_tx_delivers_witness :
  let c := demo_con 0 in let m := demo_mem 0 0x40200000 3 in
  let used := q_used (q_base c) (queue_num c) in
  let avail := q_avail (q_base c) (queue_num c) in
  let n := u16 (ld16 m (avail + 2) - last_avail c) in
  exists c' m' w', virtio_process_tx 0 [c; vcon_zero] m quiet = Ok (<[Z.to_nat 0 := c']> [c; vcon_zero], m', w') /\
    put_all (texts c m (last_avail c) (Z.to_nat n)) quiet = Ok (tt, w') /\
    last_avail c' = ld16 m (avail + 2) /\
    (if n =? 0 then c' = c else irq c' = 1 /\ Z.testbit (int_status c') 0 = true) /\
    ld16 m' (used + 2) = u16 (ld16 m (used + 2) + n) /\
    (forall k, 0 <= k < n ->
       used_entry used m' ((ld16 m (used + 2) + k) mod queue_num c) =
       (d_idx m avail (queue_num c) (u16 (last_avail c + k)), 0)) /\
    (forall a, ~ in_range (used_size (queue_num c)) used a -> rd8 m' a = rd8 m a).
Proof.
  apply (virtio_tx_delivers 0 [demo_con 0; vcon_zero] (demo_mem 0 0x40200000 3) quiet (demo_con 0));
    [closed_dec|lia|reflexivity|apply demo_driver_ok].
Defined.

Lemma virtio_tx_reads_foreign_witness :
  let c := demo_con (VM0_PA - VM_IPA) in let m := demo_mem (VM0_PA - VM_IPA) 0x80000000 8 in
  tenant_space VM_IPA VM0_PA 0x80000000 = None /\
  exists vc' m' w', virtio_process_tx 0 [c; vcon_zero] m quiet = Ok (vc', m', w') /\
    put_all (mem_bytes m VM1_PA (Z.to_nat (d_len m (q_base c) 0))) quiet = Ok (tt, w').
Proof.
  apply (virtio_tx_reads_foreign [demo_con (VM0_PA - VM_IPA); vcon_zero] (demo_mem (VM0_PA - VM_IPA) 0x80000000 8)
    quiet (demo_con (VM0_PA - VM_IPA)) 0);
    [closed_dec|reflexivity|apply demo_driver_ok|reflexivity|vm_compute; reflexivity|vm_compute; reflexivity|vm_compute; reflexivity].
Defined.
