(* ===== verification/Vblk.v ===== *)
(** The emulated virtio-mmio block device (second half of src/src/vvirtio.c):
    per-VM device registers, a 16-sector RAM disk and the request chains (header,
    data, status) of the virtqueue.  The fields struct vblk shares with struct vcon
    are the record [vcon] of Vvirtio.v. *)

From S2P Require Import Prelude Esr Machine Vcpu Uart Vvirtio.

Definition VBLK_BASE := 0x0A000200.
Definition VBLK_SIZE := 0x0200.
Definition VBLK_SECTORS := 16.
Definition VBLK_SECSZ := 512.
Definition DISK_SIZE := VBLK_SECTORS * VBLK_SECSZ.

Record vblk := mk_vblk { regs : vcon; disk : list Z }.

Definition vblk_contains (ipa : Z) : bool := (VBLK_BASE <=? ipa) && (ipa <? VBLK_BASE + VBLK_SIZE).

(** [for (i = 0; i < sizeof(b->disk); i++) b->disk[i] = 0] *)
Fixpoint zero_disk (d : list Z) (i : Z) (n : nat) : res (list Z) :=
  match n with O => Ok d | S n => d ← aset d i 0; zero_disk d (i + 1) n end.
Fixpoint vblk_reset_loop (vb : list vblk) (k : Z) (n : nat) : res (list vblk) :=
  match n with
  | O => Ok vb
  | S n =>
      b ← aget vb k;
      d ← zero_disk (disk b) 0 (Z.to_nat DISK_SIZE);
      vb ← aset vb k (mk_vblk (mk_vcon 0 4096 0 0 0 0 0 0) d);
      vblk_reset_loop vb (k + 1) n
  end.
Definition vblk_reset (vb : list vblk) : res (list vblk) := vblk_reset_loop vb 0 2.

Definition vblk_set_offset (vm off : Z) (vb : list vblk) : res (list vblk) :=
  b ← aget vb vm; aset vb vm (mk_vblk (set_host_off (regs b) off) (disk b)).

Definition vblk_take_irq (vm : Z) (vb : list vblk) : res (bool * list vblk) :=
  b ← aget vb vm;
  if negb (irq (regs b) =? 0)
  then vb ← aset vb vm (mk_vblk (set_irq (regs b) (int_status (regs b)) 0) (disk b)); Ok (true, vb)
  else Ok (false, vb).

(** The first [n] bytes of the disk, copied out. *)
Fixpoint peek_loop (d : list Z) (i : Z) (n : nat) : res (list Z) :=
  match n with O => Ok [] | S n => x ← aget d i; l ← peek_loop d (i + 1) n; Ok (x :: l) end.
Definition vblk_peek (vm n : Z) (vb : list vblk) : res (list Z) :=
  b ← aget vb vm; peek_loop (disk b) 0 (Z.to_nat n).

Fixpoint poke_loop (d inp : list Z) (i : Z) (n : nat) : res (list Z) :=
  match n with O => Ok d | S n => x ← aget inp i; d ← aset d i (u8 x); poke_loop d inp (i + 1) n end.
Definition vblk_poke (vm : Z) (inp : list Z) (n : Z) (vb : list vblk) : res (list vblk) :=
  b ← aget vb vm; d ← poke_loop (disk b) inp 0 (Z.to_nat n); aset vb vm (mk_vblk (regs b) d).

(** An access to the disk array by a request; out of range it is the fault
    [DiskOverrun]. *)
Definition on_disk {A} (r : res A) : res A := match r with Ok a => Ok a | Err _ => Err DiskOverrun end.
(** The two copy loops of a request. *)
Fixpoint copy_in (d : list Z) (m : mem) (doff daddr i : Z) (n : nat) : res (list Z) :=
  match n with
  | O => Ok d
  | S n => d ← on_disk (aset d (u64 (doff + i)) (rd8 m (daddr + i))); copy_in d m doff daddr (i + 1) n
  end.
Fixpoint copy_out (d : list Z) (m : mem) (doff daddr i : Z) (n : nat) : res mem :=
  match n with
  | O => Ok m
  | S n => x ← on_disk (aget d (u64 (doff + i))); copy_out d (wr8 m (daddr + i) x) doff daddr (i + 1) n
  end.

(** The transfer of one request: its status byte, the disk and memory. *)
Definition transfer (type sector daddr dlen : Z) (d : list Z) (m : mem) : res (Z * list Z * mem) :=
  let doff := u64 (sector * VBLK_SECSZ) in
  if u64 (doff + dlen) <=? DISK_SIZE then
    if type =? 1 then d ← copy_in d m doff daddr 0 (Z.to_nat dlen); Ok (0, d, m)
    else m ← copy_out d m doff daddr 0 (Z.to_nat dlen); Ok (0, d, m)
  else Ok (1, d, m).

Definition desc_at (base i : Z) : Z := u64 (base + i * 16).

(** The body of [while (b->last_avail != avail_idx)]. *)
Definition serve (base avail used : Z) (b : vblk) (m : mem) : res (vblk * mem) :=
  let o := host_off (regs b) in
  let num := queue_num (regs b) in
  let head := ld16 m (avail + 4 + 2 * (last_avail (regs b) mod num)) in
  let hd := desc_at base head in
  let haddr := u64 (ld64 m (hd + 0) + o) in
  let hnext := ld16 m (hd + 14) in
  let type := ld32 m (haddr + 0) in
  let sector := ld64 m (haddr + 8) in
  let dd := desc_at base hnext in
  let daddr := u64 (ld64 m (dd + 0) + o) in
  let dlen := ld32 m (dd + 8) in
  let dnext := ld16 m (dd + 14) in
  let sd := desc_at base dnext in
  let saddr := u64 (ld64 m (sd + 0) + o) in
  '(st, d, m) ← transfer type sector daddr dlen (disk b) m;
  let m := wr8 m saddr st in
  let uidx := ld16 m (used + 2) in
  let ue := u64 (used + 4 + 8 * (uidx mod num)) in
  let m := st32 m (ue + 0) head in
  let m := st32 m (ue + 4) dlen in
  let m := st16 m (used + 2) (uidx + 1) in
  let r := set_last_avail (regs b) (u16 (last_avail (regs b) + 1)) in
  Ok (mk_vblk (set_irq r (int_status r .| 1) 1) d, m).

Fixpoint blk_loop (fuel : nat) (base avail used avail_idx : Z) (b : vblk) (m : mem) : res (vblk * mem) :=
  if last_avail (regs b) =? avail_idx then Ok (b, m)
  else match fuel with
       | O => Err OutOfFuel
       | S fuel => '(b, m) ← serve base avail used b m; blk_loop fuel base avail used avail_idx b m
       end.

Definition vblk_process (vm : Z) (vb : list vblk) (m : mem) : res (list vblk * mem) :=
  b ← aget vb vm;
  let c := regs b in
  if (queue_pfn c =? 0) || (queue_num c =? 0) then Ok (vb, m)
  else
    let base := q_base c in
    let avail := q_avail base (queue_num c) in
    let used := q_used base (queue_num c) in
    let avail_idx := ld16 m (avail + 2) in
    '(b, m) ← blk_loop TX_FUEL base avail used avail_idx b m;
    vb ← aset vb vm b;
    Ok (vb, m).

Definition vblk_read (c : vcon) (off : Z) : Z :=
  if off =? 0x000 then 0x74726976
  else if off =? 0x004 then 1
  else if off =? 0x008 then 2
  else if off =? 0x00c then 0x554d4551
  else if off =? 0x010 then 0
  else if off =? 0x034 then 8
  else if off =? 0x040 then queue_pfn c
  else if off =? 0x060 then int_status c
  else if off =? 0x070 then status c
  else if off =? 0x100 then VBLK_SECTORS
  else if off =? 0x104 then 0
  else 0.

Definition vblk_mmio (vm : Z) (v : vcpu) (ipa : Z) (vb : list vblk) (m : mem) : res (vcpu * list vblk * mem) :=
  b ← aget vb vm;
  let c := regs b in
  let iss := ESR_ISS (exit_esr v) in
  if iss_isv iss =? 0 then Ok (pc_advance v, vb, m)
  else
    let wnr := iss_wnr iss in
    let srt := iss_srt iss in
    let off := u64 (ipa - VBLK_BASE) in
    let put c := vb ← aset vb vm (mk_vblk c (disk b)); Ok (vb, m) in
    if negb (wnr =? 0) then
      val ← read_rt v srt;
      let val := u32 val in
      '(vb, m) ←
        (if off =? 0x028 then put (set_page_size c val)
         else if off =? 0x038 then put (set_queue_num c val)
         else if off =? 0x040 then put (set_queue_pfn c val)
         else if off =? 0x070 then put (set_status c val)
         else if off =? 0x064 then put (set_irq c (int_status c .& cnot 32 val) (irq c))
         else if off =? 0x050 then vblk_process vm vb m
         else Ok (vb, m));
      Ok (pc_advance v, vb, m)
    else
      v ← write_rt v srt (vblk_read c off);
      Ok (pc_advance v, vb, m).

(** * Well-formedness *)
Definition wf_vblk (b : vblk) : Prop :=
  wf_vcon (regs b) /\ len (disk b) = DISK_SIZE /\ Forall (fits 8) (disk b).
Definition wf_vb (vb : list vblk) : Prop := len vb = 2 /\ Forall wf_vblk vb.
#[export] Instance wf_vb_dec vb : Decision (wf_vb vb).
Proof. unfold wf_vb, wf_vblk, wf_vcon. apply _. Defined.

(** * Transfers *)

(** [l] with the bytes of [x] stored from position [i] on. *)
Definition splice (l : list Z) (i : nat) (x : list Z) : list Z := take i l ++ x ++ drop (i + length x) l.

Lemma copy_in_spec m doff daddr n : forall (pre old post : list Z) i,
  fits 64 doff -> 0 <= i -> len pre = doff + i -> length old = n -> doff + i + Z.of_nat n < 2 ^ 64 ->
  copy_in (pre ++ old ++ post) m doff daddr i n = Ok (pre ++ mem_bytes m (daddr + i) n ++ post).
Proof.
  induction n as [|n IH]; intros pre [|x old] post i Hd Hi Hpre Hold Hlt; try done.
  cbn [copy_in mem_bytes app]. rewrite (wrap_fits 64 (doff + i)) by (unfold fits in *; lia).
  rewrite aset_app by done. cbn [on_disk mbind res_bind]. rewrite (cons_middle _ pre), app_assoc.
  rewrite IH; [by rewrite <- app_assoc, <- Z.add_assoc|done|lia|..].
  - unfold len in *. rewrite length_app. cbn. lia.
  - by injection Hold.
  - lia.
Qed.

Lemma copy_out_spec d doff daddr n : forall i m,
  fits 64 doff -> 0 <= i -> doff + i + Z.of_nat n <= len d -> len d < 2 ^ 64 -> Forall (fits 8) d ->
  exists m', copy_out d m doff daddr i n = Ok m' /\
    (forall b, ~ in_range (Z.of_nat n) (daddr + i) b -> rd8 m' b = rd8 m b) /\
    mem_bytes m' (daddr + i) n = take n (drop (Z.to_nat (doff + i)) d).
Proof.
  induction n as [|n IH]; intros i m Hd Hi Hle Hlt HF; [by exists m|].
  cbn [copy_out mem_bytes]. rewrite (wrap_fits 64 (doff + i)) by (unfold fits in *; lia).
  destruct (aget_ok d (doff + i)) as [x Hx]; [unfold fits in Hd; lia|]. rewrite Hx. cbn [on_disk mbind res_bind].
  destruct (IH (i + 1) (wr8 m (daddr + i) x)) as (m' & E & Hfr & Hb); [done|lia|lia|done|done|].
  exists m'. split; [done|]. replace (daddr + (i + 1)) with (daddr + i + 1) in * by lia.
  apply aget_inv in Hx as Hx'. destruct Hx' as [Hr Hl].
  split.
  - intros b Hout. rewrite Hfr.
    + apply rd8_wr8_ne. intros E'. apply Hout. rewrite Nat2Z.inj_succ. apply in_range_step; [lia|lia|by right].
    + intros Hin. apply Hout. rewrite Nat2Z.inj_succ. apply in_range_step; [lia|lia|by left].
  - erewrite drop_S by exact Hl. cbn [take]. f_equal.
    + rewrite Hfr.
      * rewrite rd8_wr8_eq. apply wrap_fits. by eapply Forall_lookup_1.
      * unfold in_range. replace (daddr + i - (daddr + i + 1)) with (-1) by lia.
        change (u64 (-1)) with (2 ^ 64 - 1). unfold len in *. lia.
    + rewrite Hb. do 2 f_equal. unfold fits in Hd. lia.
Qed.

Lemma transfer_in_range type sector daddr dlen d m :
  len d = DISK_SIZE -> Forall (fits 8) d -> 0 <= sector -> 0 <= dlen -> sector * 512 + dlen <= DISK_SIZE ->
  if type =? 1
  then transfer type sector daddr dlen d m =
         Ok (0, splice d (Z.to_nat (sector * 512)) (mem_bytes m daddr (Z.to_nat dlen)), m)
  else exists m', transfer type sector daddr dlen d m = Ok (0, d, m') /\
         (forall b, ~ in_range dlen daddr b -> rd8 m' b = rd8 m b) /\
         mem_bytes m' daddr (Z.to_nat dlen) = take (Z.to_nat dlen) (drop (Z.to_nat (sector * 512)) d).
Proof.
  intros Hl HF Hs Hd Hle. unfold transfer, DISK_SIZE, VBLK_SECTORS, VBLK_SECSZ in *.
  rewrite (wrap_fits 64 (sector * 512)) by (unfold fits; lia).
  rewrite (wrap_fits 64 (_ + dlen)) by (unfold fits; lia). cbv zeta.
  destruct (Z.leb_spec (sector * 512 + dlen) (16 * 512)); [|lia].
  destruct (type =? 1).
  - set (off := Z.to_nat (sector * 512)). set (n := Z.to_nat dlen).
    rewrite <- (take_drop off d) at 1. rewrite <- (take_drop n (drop off d)) at 1.
    pose proof (copy_in_spec m (sector * 512) daddr n (take off d) (take n (drop off d)) (drop n (drop off d)) 0) as E.
    unfold len in *. rewrite E; [|unfold fits; lia|lia|rewrite length_take; lia|rewrite length_take, length_drop; lia|lia].
    cbn [mbind res_bind]. rewrite drop_drop, Z.add_0_r. unfold splice.
    assert (forall k a, length (mem_bytes m a k) = k) as Hlen by (induction k; intros; cbn; auto).
    by rewrite Hlen.
  - destruct (copy_out_spec d (sector * 512) daddr (Z.to_nat dlen) 0 m) as (m' & E & Hfr & Hb);
      [unfold fits; lia|lia|lia|lia|done|]. rewrite E. exists m'.
    rewrite !Z.add_0_r, Z2Nat.id in * by lia. done.
Qed.

Lemma transfer_out_of_range type sector daddr dlen d m :
  0 <= sector < 2 ^ 54 -> 0 <= dlen < 2 ^ 32 -> DISK_SIZE < sector * 512 + dlen ->
  transfer type sector daddr dlen d m = Ok (1, d, m).
Proof.
  intros Hs Hd Hgt. unfold transfer, DISK_SIZE, VBLK_SECTORS, VBLK_SECSZ in *.
  rewrite (wrap_fits 64 (sector * 512)) by (unfold fits; lia).
  rewrite (wrap_fits 64 (_ + dlen)) by (unfold fits; lia). cbv zeta.
  by destruct (Z.leb_spec (sector * 512 + dlen) (16 * 512)); [lia|].
Qed.

(** A block request transfers exactly the sectors it names or fails cleanly.
    Inside the 16-sector disk a write stores the buffer's bytes at the sector's
    offset and changes nothing else, a read fills the buffer from the disk and
    changes no other memory, both with status 0; a request that reaches past the end
    reports status 1 and touches neither disk nor memory.  (Sector numbers below
    2^54, for which the offset computation does not wrap.) *)
Lemma vblk_transfer_spec type sector daddr dlen d m :
  len d = DISK_SIZE -> Forall (fits 8) d -> 0 <= sector < 2 ^ 54 -> fits 32 dlen ->
  if decide (sector * 512 + dlen <= DISK_SIZE) then
    if type =? 1
    then transfer type sector daddr dlen d m =
           Ok (0, splice d (Z.to_nat (sector * 512)) (mem_bytes m daddr (Z.to_nat dlen)), m)
    else exists m', transfer type sector daddr dlen d m = Ok (0, d, m') /\
           (forall b, ~ in_range dlen daddr b -> rd8 m' b = rd8 m b) /\
           mem_bytes m' daddr (Z.to_nat dlen) = take (Z.to_nat dlen) (drop (Z.to_nat (sector * 512)) d)
  else transfer type sector daddr dlen d m = Ok (1, d, m).
Proof.
  intros Hl HF Hs [Hd1 Hd2]. case_decide.
  - by apply transfer_in_range; try lia.
  - apply transfer_out_of_range; lia.
Qed.

Lemma mem_bytes_length m n : forall a, length (mem_bytes m a n) = n.
Proof. induction n; intros; cbn; auto. Qed.
Lemma mem_bytes_fits m n : forall a, Forall (fits 8) (mem_bytes m a n).
Proof. induction n as [|n IH]; intros; cbn; constructor; [apply fits_rd8|apply IH]. Qed.
Lemma splice_length l i x : (i + length x <= length l)%nat -> length (splice l i x) = length l.
Proof. intros. unfold splice. rewrite !length_app, length_take, length_drop. lia. Qed.
Lemma splice_Forall (P : Z -> Prop) l i x : Forall P l -> Forall P x -> Forall P (splice l i x).
Proof. intros. unfold splice. rewrite !Forall_app. eauto using Forall_take, Forall_drop. Qed.
Lemma splice_get l i x : (i + length x <= length l)%nat -> take (length x) (drop i (splice l i x)) = x.
Proof.
  intros. unfold splice. rewrite drop_app_ge by (rewrite length_take; lia).
  rewrite length_take. replace (i - i `min` length l)%nat with 0%nat by lia.
  rewrite drop_0. by rewrite take_app_length.
Qed.

(** C32: What is written to the disk is what is read back.  A write request that
    succeeds followed by a read request for the same sectors into any buffer returns
    the bytes written, both with status 0. *)
Theorem vblk_write_read sector a1 a2 dlen d m1 m2 :
  len d = DISK_SIZE -> Forall (fits 8) d -> 0 <= sector -> 0 <= dlen -> sector * 512 + dlen <= DISK_SIZE ->
  exists d' m', transfer 1 sector a1 dlen d m1 = Ok (0, d', m1) /\
    transfer 0 sector a2 dlen d' m2 = Ok (0, d', m') /\
    mem_bytes m' a2 (Z.to_nat dlen) = mem_bytes m1 a1 (Z.to_nat dlen).
Proof.
  intros Hl HF Hs Hd Hle. pose proof (transfer_in_range 1 sector a1 dlen d m1 Hl HF Hs Hd Hle) as E1. cbn in E1.
  set (x := mem_bytes m1 a1 (Z.to_nat dlen)) in *. unfold DISK_SIZE, VBLK_SECTORS, VBLK_SECSZ in *.
  assert (length x = Z.to_nat dlen) as Hx by apply mem_bytes_length.
  assert ((Z.to_nat (sector * 512) + length x <= length d)%nat) as Hb by (rewrite Hx; unfold len in Hl; lia).
  pose proof (transfer_in_range 0 sector a2 dlen (splice d (Z.to_nat (sector * 512)) x) m2) as E2.
  destruct E2 as (m' & E2 & _ & Hget); [by unfold len in *; rewrite splice_length
    |apply splice_Forall; [done|apply mem_bytes_fits]|done|done|done|].
  exists (splice d (Z.to_nat (sector * 512)) x), m'. split; [done|]. split; [done|].
  rewrite Hget, <- Hx. by apply splice_get.
Qed.

Lemma copy_in_ok m doff daddr n : forall d i,
  fits 64 doff -> 0 <= i -> doff + i + Z.of_nat n <= len d -> len d < 2 ^ 64 -> is_ok (copy_in d m doff daddr i n).
Proof.
  induction n as [|n IH]; intros d i Hd Hi Hle Hlt; [by eexists|].
  cbn [copy_in]. rewrite (wrap_fits 64 (doff + i)) by (unfold fits in *; lia).
  rewrite aset_ok by (unfold fits in *; lia). cbn [on_disk mbind res_bind].
  apply IH; [done|lia|rewrite len_insert; lia|by rewrite len_insert].
Qed.
(** A transfer that does not wrap never leaves the disk. *)
Lemma transfer_no_wrap type sector daddr dlen d m :
  len d = DISK_SIZE -> Forall (fits 8) d -> 0 <= dlen -> u64 (sector * 512) + dlen <= DISK_SIZE ->
  is_ok (transfer type sector daddr dlen d m).
Proof.
  intros Hl HF Hd Hle. assert (fits 64 (u64 (sector * 512))) as Hf by (apply fits_wrap; lia).
  unfold transfer. change VBLK_SECSZ with 512. cbv zeta. revert Hle Hf. generalize (u64 (sector * 512)). intros doff Hle Hf.
  unfold DISK_SIZE, VBLK_SECTORS, VBLK_SECSZ in *. destruct (_ <=? _); [|by eexists]. destruct (type =? 1).
  - destruct (copy_in_ok m doff daddr (Z.to_nat dlen) d 0) as [d' E]; [done|lia|lia|lia|]. rewrite E. by eexists.
  - destruct (copy_out_spec d doff daddr (Z.to_nat dlen) 0 m) as (m' & E & _); [done|lia|lia|lia|done|]. rewrite E. by eexists.
Qed.

(** C34: The bound check of a request is computed modulo 2^64, and exactly the requests
    for which offset plus length wraps back into the disk's size escape it: they, and
    no others, access the disk array out of bounds.  For sector 2^55 - 1 and one sector
    of data the first index used is 2^64 - 512. *)
Theorem vblk_bound_wraps type sector daddr dlen d m :
  len d = DISK_SIZE -> Forall (fits 8) d -> fits 32 dlen ->
  let doff := u64 (sector * 512) in
  transfer type sector daddr dlen d m = Err DiskOverrun <-> 2 ^ 64 <= doff + dlen <= 2 ^ 64 + DISK_SIZE.
Proof.
  intros Hl HF Hd doff. assert (fits 64 doff) as Hf by (apply fits_wrap; lia). split.
  - intros E. destruct (decide (2 ^ 64 <= doff + dlen <= 2 ^ 64 + DISK_SIZE)) as [|Hn]; [done|exfalso].
    destruct (decide (doff + dlen <= DISK_SIZE)).
    { destruct (transfer_no_wrap type sector daddr dlen d m Hl HF) as [r Er]; [apply Hd|done|]. by rewrite Er in E. }
    unfold transfer in E. change VBLK_SECSZ with 512 in E. fold doff in E. cbv zeta in E.
    destruct (Z.leb_spec (u64 (doff + dlen)) DISK_SIZE) as [Hc|]; [|done].
    unfold fits, DISK_SIZE, VBLK_SECTORS, VBLK_SECSZ in *. zlia.
  - intros Hw. unfold transfer. change VBLK_SECSZ with 512. fold doff. cbv zeta.
    unfold fits, DISK_SIZE, VBLK_SECTORS, VBLK_SECSZ in *.
    assert (u64 (doff + dlen) = doff + dlen - 2 ^ 64) as ->.
    { unfold wrap. rewrite <- (Z.mod_add (doff + dlen) (-1)), Z.mod_small by lia. lia. }
    destruct (Z.leb_spec (doff + dlen - 2 ^ 64) (16 * 512)); [|lia].
    destruct (Z.to_nat dlen) as [|n] eqn:En; [lia|].
    assert (u64 (doff + 0) = doff) as Hu by (rewrite Z.add_0_r; by apply wrap_fits).
    destruct (type =? 1); cbn [copy_in copy_out]; rewrite Hu.
    + unfold aset. rewrite decide_False; [done|]. lia.
    + rewrite aget_oob by lia. done.
Qed.

Definition disk0 : list Z := replicate (Z.to_nat DISK_SIZE) 0.
Lemma disk0_ok : len disk0 = DISK_SIZE /\ Forall (fits 8) disk0.
Proof. unfold disk0, len. rewrite length_replicate. split; [done|]. apply Forall_replicate. fits_const. Qed.

Lemma vblk_bound_wraps_witness : transfer 1 (2 ^ 55 - 1) 0x80000000 512 disk0 ∅ = Err DiskOverrun.
Proof.
  apply (vblk_bound_wraps 1 (2 ^ 55 - 1) 0x80000000 512); [apply disk0_ok|apply disk0_ok|fits_const|split; vm_compute; congruence].
Defined.

Lemma vblk_write_read_witness :
  exists d' m', transfer 1 3 0x40000000 1024 disk0 ∅ = Ok (0, d', ∅) /\
    transfer 0 3 0x40010000 1024 d' ∅ = Ok (0, d', m') /\
    mem_bytes m' 0x40010000 (Z.to_nat 1024) = mem_bytes ∅ 0x40000000 (Z.to_nat 1024).
Proof. apply (vblk_write_read 3 0x40000000 0x40010000 1024 disk0); try apply disk0_ok; [lia|lia|vm_compute; congruence]. Defined.

Lemma vblk_transfer_spec_witness :
  if decide (15 * 512 + 512 <= DISK_SIZE) then
    if 1 =? 1
    then transfer 1 15 0x80000000 512 disk0 ∅ =
           Ok (0, splice disk0 (Z.to_nat (15 * 512)) (mem_bytes ∅ 0x80000000 (Z.to_nat 512)), ∅)
    else exists m', transfer 1 15 0x80000000 512 disk0 ∅ = Ok (0, disk0, m') /\
           (forall b, ~ in_range 512 0x80000000 b -> rd8 m' b = rd8 ∅ b) /\
           mem_bytes m' 0x80000000 (Z.to_nat 512) = take (Z.to_nat 512) (drop (Z.to_nat (15 * 512)) disk0)
  else transfer 1 15 0x80000000 512 disk0 ∅ = Ok (1, disk0, ∅).
Proof. apply (vblk_transfer_spec 1 15 0x80000000 512 disk0 ∅); try apply disk0_ok; [lia|fits_const]. Defined.

(** * The device as a whole *)
Lemma copy_in_safe m doff daddr n : forall d i,
  Forall (fits 8) d ->
  match copy_in d m doff daddr i n with
  | Ok d' => len d' = len d /\ Forall (fits 8) d'
  | Err f => f = DiskOverrun
  end.
Proof.
  induction n as [|n IH]; intros d i HF; [done|]. cbn [copy_in].
  destruct (aset d _ _) as [d1|f] eqn:E; cbn [on_disk mbind res_bind]; [|done].
  pose proof (aset_len _ _ _ _ E) as Hl. pose proof (Forall_aset _ _ _ _ _ HF (fits_rd8 m (daddr + i)) E) as HF1.
  specialize (IH d1 (i + 1) HF1). destruct (copy_in d1 _ _ _ _ _); [|done]. by rewrite <- Hl.
Qed.
Lemma copy_out_safe d doff daddr n : forall m i,
  match copy_out d m doff daddr i n with Ok _ => True | Err f => f = DiskOverrun end.
Proof.
  induction n as [|n IH]; intros m i; [done|]. cbn [copy_out].
  destruct (aget d _) as [x|f] eqn:E; cbn [on_disk mbind res_bind]; [apply IH|done].
Qed.
Lemma transfer_safe type sector daddr dlen d m :
  len d = DISK_SIZE -> Forall (fits 8) d ->
  match transfer type sector daddr dlen d m with
  | Ok (st, d', _) => len d' = DISK_SIZE /\ Forall (fits 8) d'
  | Err f => f = DiskOverrun
  end.
Proof.
  intros Hl HF. unfold transfer. cbv zeta. destruct (_ <=? _); [|done]. destruct (type =? 1).
  - pose proof (copy_in_safe m (u64 (sector * VBLK_SECSZ)) daddr (Z.to_nat dlen) d 0 HF) as Hc.
    destruct (copy_in _ _ _ _ _ _); cbn [mbind res_bind]; [by rewrite <- Hl|done].
  - pose proof (copy_out_safe d (u64 (sector * VBLK_SECSZ)) daddr (Z.to_nat dlen) m 0) as Hc.
    by destruct (copy_out _ _ _ _ _ _).
Qed.

Lemma serve_safe base avail used b m :
  wf_vblk b ->
  match serve base avail used b m with
  | Ok (b', _) => wf_vblk b' /\ last_avail (regs b') = u16 (last_avail (regs b) + 1) /\
                  host_off (regs b') = host_off (regs b)
  | Err f => f = DiskOverrun
  end.
Proof.
  intros [(H1 & H2 & H3 & H4 & H5 & H6 & H7 & H8) [Hl HF]]. unfold serve. cbv zeta.
  match goal with |- context [transfer ?t ?s ?a ?n ?d ?x] => pose proof (transfer_safe t s a n d x Hl HF) as Ht; destruct (transfer t s a n d x) as [[[stt d'] m']|] end;
    cbn [mbind res_bind]; [|done].
  destruct Ht as [Hl' HF']. split; [|done]. split; [|by split].
  split_and!; cbn; try done; [apply fits_lor; [lia|done|fits_const]|apply fits_wrap; lia|by right].
Qed.

Lemma blk_loop_safe base avail used avail_idx n : forall fuel b m,
  (n <= fuel)%nat -> wf_vblk b -> fits 16 avail_idx -> Z.of_nat n = u16 (avail_idx - last_avail (regs b)) ->
  match blk_loop fuel base avail used avail_idx b m with
  | Ok (b', _) => wf_vblk b' /\ host_off (regs b') = host_off (regs b)
  | Err f => f = DiskOverrun
  end.
Proof.
  induction n as [|n IH]; intros fuel b m Hf Hb Hai Hn.
  - assert (last_avail (regs b) = avail_idx) as E.
    { destruct Hb as [(_ & _ & _ & _ & _ & H6 & _) _]. zlia. }
    destruct fuel; cbn [blk_loop]; rewrite E, Z.eqb_refl; done.
  - destruct fuel as [|fuel]; [lia|]. cbn [blk_loop].
    destruct (Z.eqb_spec (last_avail (regs b)) avail_idx) as [E|E].
    { rewrite E, Z.sub_diag in Hn. change (u16 0) with 0 in Hn. lia. }
    pose proof (serve_safe base avail used b m Hb) as Hs.
    destruct (serve base avail used b m) as [[b1 m1]|]; cbn [mbind res_bind]; [|done].
    destruct Hs as (Hb1 & Hla & Ho).
    assert (Z.of_nat n = u16 (avail_idx - last_avail (regs b1))) as Hn1.
    { destruct Hb as [(_ & _ & _ & _ & _ & H6 & _) _]. rewrite Hla. zlia. }
    specialize (IH fuel b1 m1 ltac:(lia) Hb1 Hai Hn1). destruct (blk_loop _ _ _ _ _ b1 m1) as [[b2 m2]|]; [|done].
    by rewrite <- Ho.
Qed.

(** The result of a notification, for any contents of guest memory. *)
Definition blk_result_ok (vm : Z) (vb : list vblk) (r : res (list vblk * mem)) : Prop :=
  match r with
  | Ok (vb', _) => wf_vb vb' /\ (forall j, j <> vm -> aget vb' j = aget vb j)
  | Err f => f = DiskOverrun
  end.

Lemma vblk_process_safe vm vb m : wf_vb vb -> 0 <= vm < 2 -> blk_result_ok vm vb (vblk_process vm vb m).
Proof.
  intros [Hl HF] Hvm. unfold vblk_process. destruct (aget_ok vb vm) as [b Hb]; [lia|]. rewrite Hb. cbn [mbind res_bind].
  pose proof (Forall_aget _ _ _ _ HF Hb) as Hwb. cbv zeta. case_match; [done|].
  set (ai := ld16 m _). assert (fits 16 ai) as Hai by apply (fits_load 2).
  pose proof (fits_wrap 16 (ai - last_avail (regs b)) ltac:(lia)) as Hd.
  match goal with |- context [blk_loop TX_FUEL ?x ?y ?z ai b m] =>
    pose proof (blk_loop_safe x y z ai (Z.to_nat (u16 (ai - last_avail (regs b)))) TX_FUEL b m) as Hs;
    destruct (blk_loop TX_FUEL x y z ai b m) as [[b' m']|] end.
  - cbn [mbind res_bind]. rewrite aset_ok by lia. cbn [mbind res_bind]. destruct Hs as [Hb' _].
    + unfold TX_FUEL, fits in *. lia.
    + done.
    + done.
    + unfold fits in Hd. lia.
    + split; [split; [by rewrite len_insert|by apply Forall_insert]|]. intros j Hj. apply aget_insert_ne; lia.
  - cbn [mbind res_bind]. apply Hs; [unfold TX_FUEL, fits in *; lia|done|done|unfold fits in Hd; lia].
Qed.

Lemma vblk_mmio_ok vm v ipa vb m :
  wf_vb vb -> wf_vcpu v -> 0 <= vm < 2 ->
  match vblk_mmio vm v ipa vb m with
  | Ok (v', vb', _) => wf_vb vb' /\ wf_vcpu v' /\ rt_only v v' (iss_srt (ESR_ISS (exit_esr v))) /\
                       (forall j, j <> vm -> aget vb' j = aget vb j)
  | Err f => f = DiskOverrun /\ vblk_process vm vb m = Err DiskOverrun
  end.
Proof.
  intros Hvb Hv Hvm. pose proof Hvb as [Hl HF]. destruct (aget_ok vb vm) as [b Hb]; [lia|].
  pose proof (Forall_aget _ _ _ _ HF Hb) as [Hwc [Hd1 Hd2]].
  pose proof Hwc as (H1 & H2 & H3 & H4 & H5 & H6 & H7 & H8).
  unfold vblk_mmio. rewrite Hb. cbn [mbind res_bind]. set (iss := ESR_ISS _). cbv zeta.
  pose proof (iss_srt_range iss) as Hr. set (off := u64 _).
  destruct (iss_isv iss =? 0); [eauto 10 using rt_only_same, pc_advance_wf|].
  destruct (iss_wnr iss =? 0); cbn [negb].
  { assert (fits 64 (vblk_read (regs b) off)) as Hf.
    { unfold vblk_read. apply (fits_mono 32); [lia|]. repeat case_match; assumption || fits_const. }
    destruct (write_rt_ok v (iss_srt iss) _ Hv Hr Hf) as (v' & E & Hv'). rewrite E. cbn [mbind res_bind].
    eauto 10 using rt_only_write, pc_advance_wf. }
  destruct (read_rt_ok v (iss_srt iss) Hv Hr) as (val & -> & Hval). cbn [mbind res_bind].
  pose proof (fits_wrap 32 val ltac:(lia)) as Hu. set (u := u32 val) in *.
  assert (fits 32 (int_status (regs b) .& cnot 32 u)) as Hi by (apply fits_land; [lia|done|apply fits_cnot; lia]).
  match goal with |- context [(if off =? 0x028 then ?x else ?y) ≫= _] => set (r := if off =? 0x028 then x else y) end.
  assert (blk_result_ok vm vb r /\ (forall f, r = Err f -> vblk_process vm vb m = Err f)) as [Hr1 Hr2].
  { assert (forall c, wf_vcon c ->
      blk_result_ok vm vb (vb ← aset vb vm (mk_vblk c (disk b)); Ok (vb, m)) /\
      forall f, (vb ← aset vb vm (mk_vblk c (disk b)); Ok (vb, m)) = Err f -> vblk_process vm vb m = Err f) as Hput.
    { intros c Hc. rewrite aset_ok by lia. split; [|done]. cbn.
      split; [split; [by rewrite len_insert|by apply Forall_insert]|]. intros j Hj. apply aget_insert_ne; lia. }
    subst r. repeat case_match; try (apply Hput; by split_and!); [|done].
    split; [by apply vblk_process_safe|done]. }
  destruct r as [[vb' m']|f] eqn:E; cbn [mbind res_bind].
  - destruct Hr1 as [? ?]. eauto 10 using rt_only_same, pc_advance_wf.
  - cbn in Hr1. subst f. split; [done|]. by apply Hr2.
Qed.


(** ** The hypervisor's own view of a disk *)
Lemma peek_loop_spec d n : forall pre i,
  len pre = i -> (n <= length d)%nat -> peek_loop (pre ++ d) i n = Ok (take n d).
Proof.
  revert d. induction n as [|n IH]; intros d pre i Hi Hn; [done|]. destruct d as [|x d]; [cbn in Hn; lia|].
  cbn [peek_loop take]. rewrite aget_app by done. cbn [mbind res_bind].
  rewrite (cons_middle x pre d), app_assoc, (IH d (pre ++ [x])); [done| |cbn in Hn; lia].
  unfold len in *. rewrite length_app. cbn. lia.
Qed.
Lemma poke_loop_spec n : forall (inp1 inp2 pre d : list Z) i,
  len inp1 = i -> len pre = i -> (n <= length inp2)%nat -> (n <= length d)%nat ->
  poke_loop (pre ++ d) (inp1 ++ inp2) i n = Ok (pre ++ map u8 (take n inp2) ++ drop n d).
Proof.
  induction n as [|n IH]; intros inp1 inp2 pre d i H1 H2 H3 H4; [done|].
  destruct inp2 as [|x inp2]; [cbn in H3; lia|]. destruct d as [|y d]; [cbn in H4; lia|].
  cbn [poke_loop]. rewrite aget_app by done. cbn [mbind res_bind]. rewrite aset_app by done. cbn [mbind res_bind].
  rewrite (cons_middle x inp1 inp2), app_assoc, (cons_middle (u8 x) pre d), app_assoc.
  cbn [length] in H3, H4.
  rewrite IH; [cbn; by rewrite <- app_assoc|unfold len in *; rewrite length_app; cbn; lia..|lia|lia].
Qed.
Lemma vblk_peek_ok vm n vb b :
  aget vb vm = Ok b -> 0 <= n <= len (disk b) -> vblk_peek vm n vb = Ok (take (Z.to_nat n) (disk b)).
Proof.
  intros Hb Hn. unfold vblk_peek. rewrite Hb. cbn [mbind res_bind].
  apply (peek_loop_spec (disk b) (Z.to_nat n) [] 0); unfold len in *; cbn; lia.
Qed.
Lemma vblk_poke_ok vm inp n vb b :
  aget vb vm = Ok b -> 0 <= n <= len inp -> n <= len (disk b) ->
  vblk_poke vm inp n vb = aset vb vm (mk_vblk (regs b) (map u8 (take (Z.to_nat n) inp) ++ drop (Z.to_nat n) (disk b))).
Proof.
  intros Hb Hn Hd. unfold vblk_poke. rewrite Hb. cbn [mbind res_bind]. unfold len in *.
  rewrite (poke_loop_spec _ [] inp [] (disk b) 0); [done|done|done|lia|lia].
Qed.

Definition vb0 : list vblk := replicate 2 (mk_vblk (mk_vcon 0 4096 0 0 0 0 0 0) disk0).
Lemma vb0_wf : wf_vb vb0.
Proof.
  split; [done|]. apply Forall_replicate. split; [|apply disk0_ok].
  split_and!; try fits_const. by left.
Qed.

