(* ===== verification/BlkQueue.v ===== *)
(** Block requests in batches: what one notification of the virtio-blk device
    (src/src/vvirtio.c, vblk_process) does with all the requests the driver has queued.

    [parse] follows a request chain in guest memory as the code does.  The driver's
    obligations ([batch_ok]) are stated as disjointness of the ranges each request
    reads and writes; under them a notification is a fold of an abstract disk over the
    queued requests, with every status byte, buffer and used-ring entry in place. *)

From S2P Require Import Prelude Esr Machine Vcpu Uart Vvirtio Vblk.

(** * Serving a request *)

(** The request the driver queued at ring position [la]: head descriptor, type,
    sector, data buffer and status byte, following the chain in memory. *)
Record request := mk_req { rq_head : Z; rq_type : Z; rq_sector : Z; rq_daddr : Z; rq_dlen : Z; rq_saddr : Z }.
Definition parse (c : vcon) (m : mem) : request :=
  let base := q_base c in
  let o := host_off c in
  let head := ld16 m (q_avail base (queue_num c) + 4 + 2 * (last_avail c mod queue_num c)) in
  let hd := desc_at base head in
  let haddr := u64 (ld64 m (hd + 0) + o) in
  let dd := desc_at base (ld16 m (hd + 14)) in
  let sd := desc_at base (ld16 m (dd + 14)) in
  mk_req head (ld32 m (haddr + 0)) (ld64 m (haddr + 8)) (u64 (ld64 m (dd + 0) + o)) (ld32 m (dd + 8))
         (u64 (ld64 m (sd + 0) + o)).

Lemma serve_parse b m :
  let c := regs b in let q := parse c m in
  serve (q_base c) (q_avail (q_base c) (queue_num c)) (q_used (q_base c) (queue_num c)) b m =
  ('(st, d, m) ← transfer (rq_type q) (rq_sector q) (rq_daddr q) (rq_dlen q) (disk b) m;
   Ok (mk_vblk (set_irq (set_last_avail c (u16 (last_avail c + 1))) (int_status c .| 1) 1) d,
       push_used (wr8 m (rq_saddr q) st) (q_used (q_base c) (queue_num c)) (queue_num c) (rq_head q) (rq_dlen q))).
Proof. reflexivity. Qed.

(** The driver's obligations for one request: a queue that does not wrap, a status
    byte and a data buffer apart from each other and from the used ring. *)
Record request_ok (c : vcon) (q : request) : Prop := {
  rk_pfn : queue_pfn c <> 0;
  rk_num : 1 <= queue_num c;
  rk_room : q_used (q_base c) (queue_num c) + used_size (queue_num c) < 2 ^ 64;
  rk_sector : rq_sector q < 2 ^ 54;
  rk_status_used : disjoint 1 (rq_saddr q) (used_size (queue_num c)) (q_used (q_base c) (queue_num c));
  rk_data_used : disjoint (rq_dlen q) (rq_daddr q) (used_size (queue_num c)) (q_used (q_base c) (queue_num c));
  rk_data_status : disjoint (rq_dlen q) (rq_daddr q) 1 (rq_saddr q)
}.

Lemma in_range_self a : in_range 1 a a.
Proof. unfold in_range. rewrite Z.sub_diag. done. Qed.
Lemma rd8_wr8_out m a v b : ~ in_range 1 a b -> rd8 (wr8 m a v) b = rd8 m b.
Proof. apply (rd8_store_out 1). done. Qed.

Lemma q_used_fits base num : fits 64 (q_used base num).
Proof. unfold q_used. apply fits_land; [lia|apply fits_wrap; lia|apply fits_cnot; lia]. Qed.

(** * Ranges of memory *)

(** A range is its length and its address. *)
Definition in_ranges (l : list (Z * Z)) (a : Z) : Prop := Exists (fun r => in_range r.1 r.2 a) l.
Definition apart (r s : Z * Z) : Prop := disjoint r.1 r.2 s.1 s.2.

Lemma apart_ranges r l a : Forall (apart r) l -> in_range r.1 r.2 a -> ~ in_ranges l a.
Proof.
  intros HF Hr Hin. unfold in_ranges in Hin. apply Exists_exists in Hin as (s & Hs & Ha). rewrite Forall_forall in HF. exact (HF s Hs a Hr Ha).
Qed.
Lemma sub_range n k off a b : 0 <= off -> 0 <= k -> off + k <= n -> n < 2 ^ 64 -> in_range k (a + off) b -> in_range n a b.
Proof. unfold in_range. intros. zlia. Qed.
Lemma load_same k m m' n a off :
  (forall b, in_range n a b -> rd8 m b = rd8 m' b) -> 0 <= off -> off + Z.of_nat k <= n -> n < 2 ^ 64 ->
  load k m (a + off) = load k m' (a + off).
Proof. intros Heq ???. apply load_ext; [lia|]. intros b Hb. apply Heq. eapply sub_range; [..|exact Hb]; lia. Qed.

(** * One request *)

(** What a request does to an abstract disk, given the memory its data comes from; the
    bytes a read returns; its status. *)
Definition rq_in_disk (q : request) : bool := bool_decide (rq_sector q * 512 + rq_dlen q <= DISK_SIZE).
Definition rq_is_read (q : request) : bool := rq_in_disk q && negb (rq_type q =? 1).
Definition rq_status (q : request) : Z := if rq_in_disk q then 0 else 1.
Definition apply_rq (m : mem) (q : request) (d : list Z) : list Z :=
  if rq_in_disk q && (rq_type q =? 1)
  then splice d (Z.to_nat (rq_sector q * 512)) (mem_bytes m (rq_daddr q) (Z.to_nat (rq_dlen q))) else d.
Definition rq_result (q : request) (d : list Z) : list Z :=
  take (Z.to_nat (rq_dlen q)) (drop (Z.to_nat (rq_sector q * 512)) d).

(** The memory a request writes: its status byte and, unless it is a write to the
    disk, its data buffer.  The memory it reads: ring slot, descriptors, header and, for
    a write to the disk, its data buffer. *)
Definition rq_writes (q : request) : list (Z * Z) :=
  (1, rq_saddr q) :: if rq_type q =? 1 then [] else [(rq_dlen q, rq_daddr q)].
Definition rq_reads (c : vcon) (m : mem) : list (Z * Z) :=
  let base := q_base c in
  let slot := q_avail base (queue_num c) + 4 + 2 * (last_avail c mod queue_num c) in
  let hd := desc_at base (ld16 m slot) in
  let dd := desc_at base (ld16 m (hd + 14)) in
  let sd := desc_at base (ld16 m (dd + 14)) in
  [(2, slot); (16, hd); (16, dd); (16, sd); (16, u64 (ld64 m (hd + 0) + host_off c))] ++
  (let q := parse c m in if rq_type q =? 1 then [(rq_dlen q, rq_daddr q)] else []).

Lemma parse_stable c m m' :
  (forall a, in_ranges (rq_reads c m) a -> rd8 m' a = rd8 m a) -> parse c m' = parse c m.
Proof.
  intros Heq.
  assert (forall n a, (n, a) ∈ rq_reads c m -> n < 2 ^ 64 -> forall k off, 0 <= off -> off + Z.of_nat k <= n ->
    load k m' (a + off) = load k m (a + off)) as Hld.
  { intros n a Hin Hn k off H0 H1. apply (load_same k m' m n); [|done..]. intros b Hb. apply Heq, Exists_exists. by exists (n, a). }
  assert (forall r i, rq_reads c m !! i = Some r -> r ∈ rq_reads c m) as Hin by (intros r i; apply list_elem_of_lookup_2).
  unfold parse. cbv zeta. set (slot := q_avail _ _ + 4 + _).
  rewrite <- (Z.add_0_r slot), (Hld 2 slot (Hin _ 0%nat eq_refl) ltac:(lia) 2%nat 0) by lia. rewrite !(Z.add_0_r slot).
  set (hd := desc_at (q_base c) (ld16 m slot)).
  pose proof (Hld 16 hd (Hin _ 1%nat eq_refl) ltac:(lia)) as Eh. rewrite !Eh by lia.
  set (dd := desc_at (q_base c) (ld16 m (hd + 14))).
  pose proof (Hld 16 dd (Hin _ 2%nat eq_refl) ltac:(lia)) as Ed. rewrite !Ed by lia.
  set (sd := desc_at (q_base c) (ld16 m (dd + 14))). rewrite (Hld 16 sd (Hin _ 3%nat eq_refl) ltac:(lia) 8%nat 0) by lia.
  set (ha := u64 (ld64 m (hd + 0) + host_off c)).
  pose proof (Hld 16 ha (Hin _ 4%nat eq_refl) ltac:(lia)) as Ea. by rewrite !Ea by lia.
Qed.

(** The transfer of a request inside or past the disk. *)
Lemma transfer_rq q d m :
  len d = DISK_SIZE -> Forall (fits 8) d -> 0 <= rq_sector q < 2 ^ 54 -> fits 32 (rq_dlen q) ->
  exists m1, transfer (rq_type q) (rq_sector q) (rq_daddr q) (rq_dlen q) d m = Ok (rq_status q, apply_rq m q d, m1) /\
    (forall a, ~ in_ranges (rq_writes q) a -> rd8 m1 a = rd8 m a) /\
    (forall a, ~ in_range (rq_dlen q) (rq_daddr q) a -> rd8 m1 a = rd8 m a) /\
    (rq_is_read q = true -> mem_bytes m1 (rq_daddr q) (Z.to_nat (rq_dlen q)) = rq_result q d).
Proof.
  intros Hl HF Hs Hd. unfold rq_status, apply_rq, rq_is_read, rq_in_disk, rq_writes, fits in *. case_bool_decide as Hin.
  - pose proof (transfer_in_range (rq_type q) (rq_sector q) (rq_daddr q) (rq_dlen q) d m Hl HF ltac:(lia) ltac:(lia) Hin) as Ht.
    destruct (rq_type q =? 1); cbn [andb negb].
    + exists m. by split.
    + destruct Ht as (m' & Ht & Hfr & Hrd). exists m'. split; [done|]. split; [|by split].
      intros a Ha. apply Hfr. intros Hx. apply Ha. right. by left.
  - exists m. split; [apply transfer_out_of_range; lia|]. by split.
Qed.

(** Serving one request: what [serve] returns, and the memory it leaves. *)
Record served (c : vcon) (q : request) (d : list Z) (m m' : mem) : Prop := {
  sv_frame a : ~ in_range (used_size (queue_num c)) (q_used (q_base c) (queue_num c)) a ->
               ~ in_ranges (rq_writes q) a -> rd8 m' a = rd8 m a;
  sv_status : rd8 m' (rq_saddr q) = rq_status q;
  sv_data : rq_is_read q = true -> mem_bytes m' (rq_daddr q) (Z.to_nat (rq_dlen q)) = rq_result q d;
  sv_idx : let u := q_used (q_base c) (queue_num c) in ld16 m' (u + 2) = u16 (ld16 m (u + 2) + 1);
  sv_entry : let u := q_used (q_base c) (queue_num c) in
    used_entry u m' (ld16 m (u + 2) mod queue_num c) = (rq_head q, rq_dlen q);
  sv_other r : let u := q_used (q_base c) (queue_num c) in
    0 <= r < queue_num c -> r <> ld16 m (u + 2) mod queue_num c -> used_entry u m' r = used_entry u m r
}.

Lemma parse_widths c m : fits 32 (rq_dlen (parse c m)) /\ 0 <= rq_sector (parse c m) /\ fits 32 (rq_head (parse c m)).
Proof.
  split; [apply (fits_load 4)|]. split; [apply (fits_load 8)|]. apply (fits_mono 16); [lia|apply (fits_load 2)].
Qed.

(** A load from the used ring is not affected by changes elsewhere. *)
Lemma used_load k m m' used n off :
  (forall a, in_range n used a -> rd8 m' a = rd8 m a) -> 0 <= off -> off + Z.of_nat k <= n -> n < 2 ^ 64 ->
  load k m' (used + off) = load k m (used + off).
Proof. intros Heq ???. by apply (load_same k m' m n). Qed.

Section ServeMemory.
Context (c : vcon) (q : request) (d : list Z) (m m1 : mem).
Context (Hwc : wf_vcon c) (Hok : request_ok c q) (Hdl : fits 32 (rq_dlen q)) (Hhd : fits 32 (rq_head q)).
Context (Hfr : forall a, ~ in_ranges (rq_writes q) a -> rd8 m1 a = rd8 m a).
Context (Hdt : forall a, ~ in_range (rq_dlen q) (rq_daddr q) a -> rd8 m1 a = rd8 m a).
Context (Hrd : rq_is_read q = true -> mem_bytes m1 (rq_daddr q) (Z.to_nat (rq_dlen q)) = rq_result q d).
Abbreviation used := (q_used (q_base c) (queue_num c)).
Abbreviation size := (used_size (queue_num c)).
Abbreviation m2 := (wr8 m1 (rq_saddr q) (rq_status q)).
Abbreviation m3 := (push_used m2 used (queue_num c) (rq_head q) (rq_dlen q)).

Lemma serve_used_same a : in_range size used a -> rd8 m2 a = rd8 m a.
Proof.
  intros Ha. rewrite rd8_wr8_out by (intros Hx; by apply (rk_status_used _ _ Hok a)).
  apply Hdt. intros Hx. by apply (rk_data_used _ _ Hok a).
Qed.
Lemma serve_outside a : ~ in_range size used a -> rd8 m3 a = rd8 m2 a.
Proof. intros. apply push_used_frame; [apply (rk_num _ _ Hok)|apply Hwc|done]. Qed.
Lemma serve_used_loads k off : 0 <= off -> off + Z.of_nat k <= size -> load k m2 (used + off) = load k m (used + off).
Proof.
  intros. apply (used_load k m m2 used size); [exact serve_used_same|done|done|].
  pose proof (rk_room _ _ Hok). pose proof (q_used_fits (q_base c) (queue_num c)) as Hf. unfold fits in Hf. lia.
Qed.

Lemma serve_memory : served c q d m m3.
Proof.
  pose proof (rk_num _ _ Hok) as Hn. pose proof (q_used_fits (q_base c) (queue_num c)) as Huf. unfold fits in Huf.
  destruct (push_used_spec m2 used (queue_num c) (rq_head q) (rq_dlen q)) as (P1 & P2 & P3);
    [done|lia|apply (rk_room _ _ Hok)|done|done|].
  rewrite (serve_used_loads 2 2) in P1, P2, P3 by (unfold used_size; lia). split.
  - intros a Ha Hw. rewrite serve_outside by done. rewrite rd8_wr8_out by (intros Hx; apply Hw; by left). by apply Hfr.
  - rewrite serve_outside by (intros Hx; by apply (rk_status_used _ _ Hok (rq_saddr q) (in_range_self _))).
    rewrite rd8_wr8_eq. unfold rq_status. by destruct (rq_in_disk q).
  - intros Hr. rewrite <- (Hrd Hr). unfold fits in Hdl. apply mem_bytes_ext; [lia|]. intros a Ha. rewrite Z2Nat.id in Ha by lia.
    rewrite serve_outside by (intros Hx; by apply (rk_data_used _ _ Hok a)). apply rd8_wr8_out. by apply (rk_data_status _ _ Hok a).
  - exact P1.
  - exact P2.
  - intros r u Hr Hne. unfold u. rewrite P3 by done. unfold used_entry.
    replace (used + 4 + 8 * r + 4) with (used + (8 + 8 * r)) by lia. replace (used + 4 + 8 * r) with (used + (4 + 8 * r)) by lia.
    by rewrite !serve_used_loads by (unfold used_size; lia).
Qed.
End ServeMemory.

Lemma serve_one b m :
  let c := regs b in let q := parse c m in
  wf_vblk b -> request_ok c q ->
  exists b' m', serve (q_base c) (q_avail (q_base c) (queue_num c)) (q_used (q_base c) (queue_num c)) b m = Ok (b', m') /\
    wf_vblk b' /\ regs b' = set_irq (set_last_avail c (u16 (last_avail c + 1))) (int_status c .| 1) 1 /\
    disk b' = apply_rq m q (disk b) /\ served c q (disk b) m m'.
Proof.
  intros c q Hwb Hok. pose proof Hwb as [Hwc [Hd1 Hd2]]. fold c in Hwc. destruct (parse_widths c m) as (Hdl & Hse & Hhd). fold q in Hdl, Hse, Hhd.
  destruct (transfer_rq q (disk b) m Hd1 Hd2 (conj Hse (rk_sector _ _ Hok)) Hdl) as (m1 & Et & Hfr & Hdt & Hrd).
  pose proof (serve_parse b m) as Es. cbv zeta in Es. fold c q in Es. rewrite Et in Es. cbn [mbind res_bind] in Es.
  eexists _, _. split; [exact Es|]. split; [|split; [done|split; [done|by apply serve_memory]]].
  pose proof (serve_safe (q_base c) (q_avail (q_base c) (queue_num c)) (q_used (q_base c) (queue_num c)) b m Hwb) as Hs.
  rewrite Es in Hs. apply Hs.
Qed.

(** * All queued requests *)
Section Batch.
Context (b0 : vblk) (m0 : mem).
Abbreviation c := (regs b0).
Abbreviation num := (queue_num c).
Abbreviation avail := (q_avail (q_base c) (queue_num c)).
Abbreviation used := (q_used (q_base c) (queue_num c)).
Abbreviation size := (used_size (queue_num c)).

(** The [k]-th outstanding request, as the driver wrote it, and the disk before it is
    served: the reference semantics of a notification. *)
Definition at_slot (k : nat) : vcon := set_last_avail c (u16 (last_avail c + Z.of_nat k)).
Definition rq (k : nat) : request := parse (at_slot k) m0.
Fixpoint disk_at (k : nat) : list Z := match k with O => disk b0 | S k => apply_rq m0 (rq k) (disk_at k) end.
(** The ranges requests before [k] write. *)
Definition written (k : nat) (a : Z) : Prop := exists j, (j < k)%nat /\ in_ranges (rq_writes (rq j)) a.

(** The driver's obligations for [n] outstanding requests: a ring of power-of-two size
    with room for them, well-formed requests, and no request that writes what a later
    one reads or what an earlier one has written. *)
Record batch_ok (n : nat) : Prop := {
  bk_pow : (num | 65536);
  bk_n : Z.of_nat n <= num;
  bk_rq k : (k < n)%nat -> request_ok c (rq k);
  bk_reads j k : (j < k < n)%nat -> Forall (fun r => Forall (apart r) (rq_writes (rq j))) (rq_reads (at_slot k) m0);
  bk_ring k : (k < n)%nat -> Forall (fun r => apart r (size, used)) (rq_reads (at_slot k) m0);
  bk_writes j k : (j < k < n)%nat -> Forall (fun r => Forall (apart r) (rq_writes (rq k))) (rq_writes (rq j))
}.

Definition regs_at (k : nat) : vcon :=
  match k with O => c | S _ => set_irq (at_slot k) (int_status c .| 1) 1 end.

(** The state after [k] requests. *)
Record batch_inv (k : nat) (b : vblk) (m : mem) : Prop := {
  bi_wf : wf_vblk b;
  bi_regs : regs b = regs_at k;
  bi_disk : disk b = disk_at k;
  bi_frame a : ~ in_range size used a -> ~ written k a -> rd8 m a = rd8 m0 a;
  bi_idx : ld16 m (used + 2) = u16 (ld16 m0 (used + 2) + Z.of_nat k);
  bi_used j : (j < k)%nat ->
    used_entry used m ((ld16 m0 (used + 2) + Z.of_nat j) mod num) = (rq_head (rq j), rq_dlen (rq j));
  bi_status j : (j < k)%nat -> rd8 m (rq_saddr (rq j)) = rq_status (rq j);
  bi_data j : (j < k)%nat -> rq_is_read (rq j) = true ->
    mem_bytes m (rq_daddr (rq j)) (Z.to_nat (rq_dlen (rq j))) = rq_result (rq j) (disk_at j)
}.

Context (Hwf : wf_vblk b0).

Lemma fits_la : fits 16 (last_avail c).
Proof. destruct Hwf as [(_ & _ & _ & _ & _ & H6 & _) _]. done. Qed.
Lemma regs_at_parse k m : parse (regs_at k) m = parse (at_slot k) m /\ rq_reads (regs_at k) m = rq_reads (at_slot k) m.
Proof.
  assert (at_slot 0 = c) as E0 by (unfold at_slot; rewrite Z.add_0_r, wrap_fits by apply fits_la; by destruct c).
  destruct k; [by rewrite E0|]. split; reflexivity.
Qed.
Lemma regs_at_next k :
  set_irq (set_last_avail (regs_at k) (u16 (last_avail (regs_at k) + 1))) (int_status (regs_at k) .| 1) 1 = regs_at (S k).
Proof.
  pose proof fits_la as Hla. unfold regs_at, at_slot. destruct k as [|k]; cbn [last_avail int_status set_irq set_last_avail].
  - unfold set_irq, set_last_avail. cbn. do 2 f_equal.
  - unfold set_irq, set_last_avail. cbn. rewrite wrap_add_l. f_equal.
    + rewrite <- Z.lor_assoc, Z.lor_diag. done.
    + f_equal. lia.
Qed.
Lemma regs_at_queue k : q_base (regs_at k) = q_base c /\ queue_num (regs_at k) = num.
Proof. by destruct k. Qed.

Lemma inv_start : batch_inv 0 b0 m0.
Proof.
  split; try done; try lia. rewrite Z.add_0_r. symmetry. apply wrap_fits. apply (fits_load 2).
Qed.

Context (n : nat) (Hok : batch_ok n).

(** The memory request [k] reads is still as the driver wrote it. *)
Lemma reads_stable k b m a : batch_inv k b m -> (k < n)%nat -> in_ranges (rq_reads (at_slot k) m0) a -> rd8 m a = rd8 m0 a.
Proof.
  intros Hi Hk Ha. unfold in_ranges in Ha. apply Exists_exists in Ha as (r & Hr & Ha). apply (bi_frame _ _ _ Hi).
  - pose proof (bk_ring _ Hok k Hk) as HF. rewrite Forall_forall in HF. exact (HF r Hr a Ha).
  - intros (j & Hj & Hw). pose proof (bk_reads _ Hok j k ltac:(lia)) as HF. rewrite Forall_forall in HF.
    exact (apart_ranges r _ a (HF r Hr) Ha Hw).
Qed.
(** What request [j] wrote is not touched by request [k]. *)
Lemma writes_kept j k m m' a d :
  (j < k < n)%nat -> served c (rq k) d m m' -> in_ranges (rq_writes (rq j)) a -> rd8 m' a = rd8 m a.
Proof.
  intros Hjk Hs Ha. unfold in_ranges in Ha. apply Exists_exists in Ha as (r & Hr & Ha). apply (sv_frame _ _ _ _ _ Hs).
  - intros Hx. pose proof (bk_rq _ Hok j ltac:(lia)) as Hq. unfold rq_writes in Hr. apply elem_of_cons in Hr as [->|Hr].
    + by apply (rk_status_used _ _ Hq a).
    + destruct (rq_type (rq j) =? 1); [by apply elem_of_nil in Hr|]. apply list_elem_of_singleton in Hr as ->.
      by apply (rk_data_used _ _ Hq a).
  - pose proof (bk_writes _ Hok j k Hjk) as HF. rewrite Forall_forall in HF. exact (apart_ranges r _ a (HF r Hr) Ha).
Qed.

Lemma request_ok_at k q : request_ok c q -> request_ok (regs_at k) q.
Proof. intros []. by destruct k; split. Qed.
Lemma served_at k q d m m' : served (regs_at k) q d m m' -> served c q d m m'.
Proof. intros []. by destruct k; split. Qed.

Lemma data_ranges q a : rq_is_read q = true -> in_range (rq_dlen q) (rq_daddr q) a -> in_ranges (rq_writes q) a.
Proof.
  unfold rq_is_read, rq_writes. intros [_ Ht%negb_true_iff]%andb_prop Ha. rewrite Ht. right. by left.
Qed.

Lemma inv_step k b m :
  batch_inv k b m -> (k < n)%nat ->
  exists b' m', serve (q_base c) avail used b m = Ok (b', m') /\ batch_inv (S k) b' m'.
Proof.
  intros Hi Hk. destruct (regs_at_parse k m) as [Ep _]. destruct (regs_at_queue k) as [Eb En].
  assert (parse (regs b) m = rq k) as Eq.
  { rewrite (bi_regs _ _ _ Hi), Ep. apply parse_stable. intros a Ha. by eapply reads_stable. }
  destruct (serve_one b m (bi_wf _ _ _ Hi)) as (b' & m' & Es & Wb & Hr & Hd & Hs).
  { rewrite Eq, (bi_regs _ _ _ Hi). apply request_ok_at. by apply Hok. }
  rewrite Eq in Hd, Hs. rewrite (bi_regs _ _ _ Hi) in Hr, Hs, Es. rewrite Eb, En in Es. apply served_at in Hs. rewrite (bi_disk _ _ _ Hi) in Hd, Hs.
  exists b', m'. split; [exact Es|]. pose proof (rk_num _ _ (bk_rq _ Hok k Hk)) as Hn1. pose proof (bk_n _ Hok) as Hn.
  assert (forall x, u16 x mod num = x mod num) as Hmod by (intros; apply Z.mod_mod_divide, Hok).
  pose proof (sv_idx _ _ _ _ _ Hs) as Si. pose proof (sv_entry _ _ _ _ _ Hs) as Se. cbv zeta in Si, Se.
  rewrite (bi_idx _ _ _ Hi) in Si, Se. rewrite Hmod in Se. split; [done| | | | | | |].
  - by rewrite Hr, regs_at_next.
  - rewrite Hd. cbn [disk_at]. unfold apply_rq. case_match eqn:Ew; [|done]. f_equal. apply andb_prop in Ew as [_ Et].
    destruct (parse_widths (at_slot k) m0) as (Hdl & _). fold (rq k) in Hdl. unfold fits in Hdl.
    apply mem_bytes_ext; [lia|]. intros a Ha. rewrite Z2Nat.id in Ha by lia. eapply reads_stable; [done|done|].
    unfold rq_reads. cbv zeta. fold (rq k). rewrite Et. apply Exists_app. right. by left.
  - intros a Ha Hw. rewrite (sv_frame _ _ _ _ _ Hs) by (done || (intros Hx; apply Hw; exists k; split; [lia|done])).
    apply (bi_frame _ _ _ Hi); [done|]. intros (j & Hj & Hx). apply Hw. exists j. split; [lia|done].
  - rewrite Si, wrap_add_l. f_equal. lia.
  - intros j Hj. destruct (decide (j = k)) as [->|Hne]; [exact Se|].
    rewrite (sv_other _ _ _ _ _ Hs); [apply (bi_used _ _ _ Hi); lia|apply Z.mod_pos_bound; lia|].
    rewrite (bi_idx _ _ _ Hi), Hmod. intros E. apply mod_add_inj in E; lia.
  - intros j Hj. destruct (decide (j = k)) as [->|Hne]; [apply (sv_status _ _ _ _ _ Hs)|].
    rewrite (writes_kept j k m m' _ _ ltac:(lia) Hs) by (left; apply in_range_self). apply (bi_status _ _ _ Hi). lia.
  - intros j Hj Hrd. destruct (decide (j = k)) as [->|Hne]; [by apply (sv_data _ _ _ _ _ Hs)|].
    rewrite <- (bi_data _ _ _ Hi j ltac:(lia) Hrd). destruct (parse_widths (at_slot j) m0) as (Hdl & _). fold (rq j) in Hdl. unfold fits in Hdl.
    apply mem_bytes_ext; [lia|]. intros a Ha. rewrite Z2Nat.id in Ha by lia.
    apply (writes_kept j k m m' _ _ ltac:(lia) Hs). by apply data_ranges.
Qed.

Lemma batch_loop ai k : forall j fuel b m,
  (j + k = n)%nat -> (k <= fuel)%nat -> batch_inv j b m -> ai = u16 (last_avail c + Z.of_nat n) -> Z.of_nat n < 65536 ->
  exists b' m', blk_loop fuel (q_base c) avail used ai b m = Ok (b', m') /\ batch_inv n b' m'.
Proof.
  assert (forall j b m, batch_inv j b m -> last_avail (regs b) = u16 (last_avail c + Z.of_nat j)) as Hla.
  { intros j b m Hi. rewrite (bi_regs _ _ _ Hi). destruct j; [|done]. cbn. rewrite Z.add_0_r. symmetry. apply wrap_fits, fits_la. }
  pose proof fits_la as Hf. induction k as [|k IH]; intros j fuel b m Hj Hfl Hi Hai Hn.
  - assert (j = n) as -> by lia. exists b, m. split; [|done]. destruct fuel; cbn [blk_loop]; rewrite (Hla _ _ _ Hi), <- Hai, Z.eqb_refl; done.
  - destruct fuel as [|fuel]; [lia|]. cbn [blk_loop]. rewrite (Hla _ _ _ Hi).
    destruct (Z.eqb_spec (u16 (last_avail c + Z.of_nat j)) ai) as [E|_]; [exfalso; subst ai; zlia|].
    destruct (inv_step j b m Hi ltac:(lia)) as (b1 & m1 & -> & Hi1). cbn [mbind res_bind].
    apply (IH (S j)); [lia|lia|done|done|done].
Qed.
End Batch.

(** C3: A notification serves every queued request, in order.  For [n] outstanding
    requests that keep the driver's side of the contract, vblk_process returns with the
    disk that results from applying the requests one after the other to the device's
    disk; every status byte says whether its request fitted the disk; every read buffer
    holds the sectors as they were after the requests before it; the used ring lists
    the chains in order with their lengths and its index has advanced by [n]; the
    device has caught up with the available ring and raised its interrupt; and no other
    byte of memory has changed. *)
Theorem vblk_serves_batch vm vb m b n :
  let c := regs b in let used := q_used (q_base c) (queue_num c) in
  let avail := q_avail (q_base c) (queue_num c) in let u := ld16 m (used + 2) in
  wf_vb vb -> 0 <= vm < 2 -> aget vb vm = Ok b -> batch_ok b m n -> (1 <= n)%nat ->
  Z.of_nat n = u16 (ld16 m (avail + 2) - last_avail c) ->
  exists b' m', vblk_process vm vb m = Ok (<[Z.to_nat vm := b']> vb, m') /\
    disk b' = disk_at b m n /\
    last_avail (regs b') = ld16 m (avail + 2) /\ irq (regs b') = 1 /\ Z.testbit (int_status (regs b')) 0 = true /\
    (forall k, (k < n)%nat ->
       rd8 m' (rq_saddr (rq b m k)) = rq_status (rq b m k) /\
       (rq_is_read (rq b m k) = true ->
          mem_bytes m' (rq_daddr (rq b m k)) (Z.to_nat (rq_dlen (rq b m k))) = rq_result (rq b m k) (disk_at b m k)) /\
       used_entry used m' ((u + Z.of_nat k) mod queue_num c) = (rq_head (rq b m k), rq_dlen (rq b m k))) /\
    ld16 m' (used + 2) = u16 (u + Z.of_nat n) /\
    (forall a, ~ in_range (used_size (queue_num c)) used a -> ~ written b m n a -> rd8 m' a = rd8 m a).
Proof.
  intros c used avail u [Hl HF] Hvm Hb Hok Hn1 Hn. pose proof (Forall_aget _ _ _ _ HF Hb) as Hwb.
  pose proof (fits_wrap 16 (ld16 m (avail + 2) - last_avail c) ltac:(lia)) as Hf. unfold fits in Hf.
  pose proof (fits_la b Hwb) as Hla. fold c in Hla. assert (fits 16 (ld16 m (avail + 2))) as Hai by apply (fits_load 2).
  assert (ld16 m (avail + 2) = u16 (last_avail c + Z.of_nat n)) as Eai by zlia.
  destruct (batch_loop b m Hwb n Hok (ld16 m (avail + 2)) n 0 TX_FUEL b m) as (b' & m' & E & Hi);
    [lia|unfold TX_FUEL; lia|by apply inv_start|done|lia|].
  pose proof (bk_rq _ _ _ Hok 0%nat ltac:(lia)) as Hq. exists b', m'. split.
  { unfold vblk_process. rewrite Hb. cbn [mbind res_bind]. cbv zeta. fold c used avail.
    destruct (Z.eqb_spec (queue_pfn c) 0); [by destruct (rk_pfn _ _ Hq)|].
    destruct (Z.eqb_spec (queue_num c) 0); [pose proof (rk_num _ _ Hq) as Hn2; fold c in Hn2; lia|]. cbn [orb].
    fold c used avail in E. rewrite E. cbn [mbind res_bind]. by rewrite aset_ok by lia. }
  split; [apply Hi|]. rewrite (bi_regs _ _ _ _ _ Hi). destruct n as [|n']; [lia|].
  split; [by rewrite Eai|]. split; [done|]. split; [cbn; by rewrite Z.lor_spec, orb_true_r|].
  split; [|split; [apply Hi|apply Hi]]. intros k Hk. split; [by apply Hi|]. split; [by apply Hi|]. by apply (bi_used _ _ _ _ _ Hi).
Qed.

(** Two requests of a guest with an identity-mapped queue at 0x40100000: write the 512
    bytes at 0x40200000 to sector 3, then read sector 3 into 0x40400000. *)
Definition two_requests : mem :=
  let base := 0x40100000 in
  let m := st16 (st16 (st16 ∅ (base + 8 * 16 + 2) 2) (base + 8 * 16 + 4) 0) (base + 8 * 16 + 6) 3 in
  let chain (m : mem) (d haddr daddr saddr ty : Z) :=
    let m := st16 (st64 m (base + 16 * d) haddr) (base + 16 * d + 14) (d + 1) in
    let m := st16 (st32 (st64 m (base + 16 * d + 16) daddr) (base + 16 * d + 24) 512) (base + 16 * d + 30) (d + 2) in
    let m := st64 m (base + 16 * d + 32) saddr in
    st64 (st32 m haddr ty) (haddr + 8) 3 in
  let m := chain m 0 0x40300000 0x40200000 0x40300100 1 in
  let m := chain m 3 0x40300200 0x40400000 0x40300300 0 in
  wr8 m 0x40200000 0x41.
Definition blk_demo : vblk := mk_vblk (mk_vcon 0 4096 8 0x40100 0 0 0 0) disk0.

Definition range_ok (r : Z * Z) : bool := (0 <=? r.2) && (r.2 + r.1 <=? 2 ^ 64).
Definition apartb (r s : Z * Z) : bool := range_ok r && range_ok s && ((r.2 + r.1 <=? s.2) || (s.2 + s.1 <=? r.2)).
Lemma apartb_apart r s : apartb r s = true -> apart r s.
Proof.
  unfold apartb, range_ok, apart. rewrite !andb_true_iff, orb_true_iff, !Z.leb_le. intros (((? & ?) & ? & ?) & ?).
  by apply disjoint_arith.
Qed.
Lemma apartb_disjoint n a k b : apartb (n, a) (k, b) = true -> disjoint n a k b.
Proof. apply (apartb_apart (n, a) (k, b)). Qed.
Lemma apart_check l s : forallb (fun r => forallb (apartb r) s) l = true -> Forall (fun r => Forall (apart r) s) l.
Proof.
  intros Hc. rewrite forallb_forall in Hc. apply Forall_forall. intros r Hr%list_elem_of_In. specialize (Hc r Hr).
  rewrite forallb_forall in Hc. apply Forall_forall. intros x Hx%list_elem_of_In. by apply apartb_apart, Hc.
Qed.
Lemma two_requests_ok : batch_ok blk_demo two_requests 2.
Proof.
  split.
  - by exists 8192.
  - vm_compute. congruence.
  - intros k Hk. assert (k = 0 \/ k = 1)%nat as [->| ->] by lia;
      (split; [vm_compute; congruence|vm_compute; congruence|vm_compute; congruence|vm_compute; congruence|..];
       apply apartb_disjoint; vm_compute; reflexivity).
  - intros j k Hjk. assert (j = 0 /\ k = 1)%nat as [-> ->] by lia. apply apart_check. vm_compute. reflexivity.
  - intros k Hk. assert (forall r, apart r (used_size 8, q_used (q_base (regs blk_demo)) 8) <->
      Forall (apart r) [(used_size 8, q_used (q_base (regs blk_demo)) 8)]) as Hs by (intros; by rewrite Forall_singleton).
    eapply Forall_impl; [|intros r Hr; apply Hs; exact Hr].
    assert (k = 0 \/ k = 1)%nat as [->| ->] by lia; apply apart_check; vm_compute; reflexivity.
  - intros j k Hjk. assert (j = 0 /\ k = 1)%nat as [-> ->] by lia. apply apart_check. vm_compute. reflexivity.
Qed.
Lemma vblk_serves_batch_witness :
  exists b' m', vblk_process 0 [blk_demo; mk_vblk vcon_zero disk0] two_requests = Ok ([b'; mk_vblk vcon_zero disk0], m') /\
    disk b' = disk_at blk_demo two_requests 2 /\
    mem_bytes m' 0x40400000 512 = mem_bytes two_requests 0x40200000 512 /\ rd8 m' 0x40400000 = 0x41 /\
    rd8 m' 0x40300100 = 0 /\ rd8 m' 0x40300300 = 0.
Proof.
  destruct (vblk_serves_batch 0 [blk_demo; mk_vblk vcon_zero disk0] two_requests blk_demo 2) as (b' & m' & E & Hd & _ & _ & _ & Hk & _).
  - split; [done|]. apply Forall_cons; split; [|apply Forall_cons; split; [|by apply Forall_nil]];
      (split; [|apply disk0_ok]); (split_and!; [fits_const..| |fits_const]); by left.
  - lia.
  - reflexivity.
  - apply two_requests_ok.
  - lia.
  - vm_compute. reflexivity.
  - exists b', m'. split; [exact E|]. split; [exact Hd|].
    destruct (Hk 0%nat ltac:(lia)) as (S0 & _). destruct (Hk 1%nat ltac:(lia)) as (S1 & D1 & _).
    assert (mem_bytes m' 0x40400000 512 = mem_bytes two_requests 0x40200000 512) as D
      by (etransitivity; [apply (D1 ltac:(vm_compute; reflexivity))|vm_compute; reflexivity]).
    split; [exact D|]. split; [|split; [exact S0|exact S1]].
    apply (f_equal head) in D. vm_compute in D. injection D as D. exact D.
Defined.
