(* ===== verification/Timer.v ===== *)
(** The physical interrupt controller and the EL2 timer as the hypervisor drives
    them (src/src/gic.c, src/src/timer.c).  The CPU-interface registers are part of
    the processor state; the distributor, the redistributor and the counter belong to
    the machine. *)

From S2P Require Import Prelude Machine Uart.

Definition GICD_CTLR := 0x08000000.
Definition GICD_CTLR_ENABLE_G1NS := bit 1.
Definition GICD_CTLR_ARE_NS := bit 4.
Definition GICR_WAKER_PROCESSOR_SLEEP := bit 1.
Definition GICR_WAKER_CHILDREN_ASLEEP := bit 2.
Definition GICR_SGI_BASE := 0x080A0000 + 0x10000.
Definition GICR_IGROUPR0 := GICR_SGI_BASE + 0x0080.
Definition GICR_IGRPMODR0 := GICR_SGI_BASE + 0x0D00.
Definition GICR_ISENABLER0 := GICR_SGI_BASE + 0x0100.
Definition GIC_SPURIOUS_INTID := 1020.
Definition HYP_TIMER_PPI := 26.

Record timer := mk_timer { t_freq : Z; t_interval : Z; t_ticks : Z }.
Definition timer_boot : timer := mk_timer 0 0 0.

Section Timer.
Context {W : Type} `{Platform W}.

(** Processor and machine, and with the timer's statics. *)
Definition at_w {A} (m : st W A) : st (cpu * W) A := zoom snd (fun t w => (fst t, w)) m.
Definition at_cpu (f : cpu -> cpu) : st (cpu * W) unit := modify (fun t => (f (fst t), snd t)).
Definition mrs (r : string) : st (cpu * W) Z := gets (fun t => rd_sysreg r (fst t)).
Definition msr (r : string) (v : Z) : st (cpu * W) unit := at_cpu (wr_sysreg r v).

Definition gic_enable_ppi (intid : Z) : st W unit := mmio_write32 GICR_ISENABLER0 (u32 (bit (intid .& 31))).
Definition gic_ack : st W Z := fun w => Ok (pl_iar1 w).
Definition gic_eoi (iar : Z) : st W unit := modify (pl_eoir1 iar).

Definition gic_init_el2 : st (cpu * W) unit :=
  sre ← mrs "icc_sre_el2";
  msr "icc_sre_el2" (sre .| (bit 0 .| bit 3));;
  sre ← mrs "icc_sre_el1";
  msr "icc_sre_el1" (sre .| 1);;
  at_w (mmio_write32 GICD_CTLR (GICD_CTLR_ARE_NS .| GICD_CTLR_ENABLE_G1NS));;
  waker ← at_w (mmio_read32 GICR_WAKER);
  at_w (mmio_write32 GICR_WAKER (waker .& cnot 32 GICR_WAKER_PROCESSOR_SLEEP));;
  at_w (poll pl_patience GICR_WAKER GICR_WAKER_CHILDREN_ASLEEP);;
  at_w (mmio_write32 GICR_IGROUPR0 0xFFFFFFFF);;
  at_w (mmio_write32 GICR_IGRPMODR0 0x00000000);;
  msr "icc_pmr_el1" 0xFF;;
  msr "icc_igrpen1_el1" 1;;
  at_w (uart_println (bytes "[GIC] GICv3 initialised for EL2")).

(** The timer's state with processor and machine. *)
Abbreviation tm := (timer * (cpu * W))%type.
Definition at_hw {A} (m : st (cpu * W) A) : st tm A := zoom snd (fun t h => (fst t, h)) m.
Definition at_timer (f : timer -> timer) : st tm unit := modify (fun t => (f (fst t), snd t)).
Definition timer_get {A} (f : timer -> A) : st tm A := gets (fun t => f (fst t)).

Definition hyptimer_init : st tm unit :=
  f ← at_hw (at_w (gets pl_cntfrq));
  at_timer (fun t => mk_timer f (t_interval t) (t_ticks t));;
  at_hw (at_w (gic_enable_ppi HYP_TIMER_PPI));;
  f ← timer_get t_freq;
  at_hw (at_w (uart_printf (bytes "[TIMER] CNTFRQ = %u Hz; hyp timer PPI %u enabled" ++ [LF]) [AInt f; AInt HYP_TIMER_PPI])).

Definition hyptimer_start (interval_ms : Z) : st tm unit :=
  at_timer (fun t => mk_timer (t_freq t) (u64 (t_freq t * interval_ms) / 1000) 0);;
  now ← at_hw (at_w (fun w => Ok (pl_cntpct w)));
  i ← timer_get t_interval;
  at_hw (msr "cnthp_cval_el2" (u64 (now + i)));;
  at_hw (msr "cnthp_ctl_el2" 1).

Definition hyptimer_stop : st tm unit := at_hw (msr "cnthp_ctl_el2" 0).

Definition hyptimer_on_irq : st tm unit :=
  at_timer (fun t => mk_timer (t_freq t) (t_interval t) (u64 (t_ticks t + 1)));;
  cval ← at_hw (mrs "cnthp_cval_el2");
  i ← timer_get t_interval;
  at_hw (msr "cnthp_cval_el2" (u64 (cval + i))).

Definition hyptimer_ticks : st tm Z := timer_get t_ticks.

(** [n] timer interrupts handled one after the other. *)
Fixpoint irqs (n : nat) : st tm unit :=
  match n with O => mret tt | S n => hyptimer_on_irq;; irqs n end.
End Timer.

Section TimerTheorems.
Context {W : Type} `{PlatformOk W}.

Lemma on_irq_eq t c (w : W) :
  hyptimer_on_irq (t, (c, w)) =
  Ok (tt, (mk_timer (t_freq t) (t_interval t) (u64 (t_ticks t + 1)),
           (wr_sysreg "cnthp_cval_el2" (u64 (rd_sysreg "cnthp_cval_el2" c + t_interval t)) c, w))).
Proof. reflexivity. Qed.

Lemma irqs_spec n : forall t c (w : W), fits 64 (t_ticks t) -> fits 64 (rd_sysreg "cnthp_cval_el2" c) ->
  exists c', irqs n (t, (c, w)) =
    Ok (tt, (mk_timer (t_freq t) (t_interval t) (u64 (t_ticks t + Z.of_nat n)), (c', w))) /\
    rd_sysreg "cnthp_cval_el2" c' = u64 (rd_sysreg "cnthp_cval_el2" c + Z.of_nat n * t_interval t) /\
    (forall r, r <> "cnthp_cval_el2"%string -> rd_sysreg r c' = rd_sysreg r c).
Proof.
  induction n as [|n IH]; intros t c w Ht Hc.
  { exists c. change (Z.of_nat 0) with 0. rewrite Z.mul_0_l, !Z.add_0_r, !wrap_fits by done. by destruct t. }
  cbn [irqs]. rewrite (st_bind_Ok _ _ _ _ _ (on_irq_eq t c w)).
  destruct (IH (mk_timer (t_freq t) (t_interval t) (u64 (t_ticks t + 1)))
    (wr_sysreg "cnthp_cval_el2" (u64 (rd_sysreg "cnthp_cval_el2" c + t_interval t)) c) w) as (c' & E & Hv & Hr).
  - apply fits_wrap; lia.
  - rewrite rd_wr_eq. apply fits_wrap; lia.
  - exists c'. split; [|split].
    + rewrite E. cbn [t_freq t_interval t_ticks]. rewrite wrap_add_l. by replace (t_ticks t + 1 + Z.of_nat n) with (t_ticks t + Z.of_nat (S n)) by lia.
    + rewrite Hv, rd_wr_eq, wrap_add_l. cbn [t_interval]. f_equal. lia.
    + intros r Hne. rewrite Hr by done. by rewrite rd_wr_ne.
Qed.

(** C40: The scheduling timer does not drift.  After [hyptimer_start] at counter value
    [now], the deadline programmed after handling [n] timer interrupts is
    [now + (n+1) * interval], however late each interrupt was handled, the tick count
    is [n], and the interval is the requested number of milliseconds at the counter's
    frequency. *)
Theorem hyptimer_no_drift ms n t c (w : W) :
  fits 64 (t_freq t * ms) ->
  let now := (pl_cntpct w).1 in let interval := t_freq t * ms / 1000 in
  exists t' c', (hyptimer_start ms;; irqs n) (t, (c, w)) = Ok (tt, (t', (c', (pl_cntpct w).2))) /\
    rd_sysreg "cnthp_cval_el2" c' = u64 (now + (Z.of_nat n + 1) * interval) /\
    t_ticks t' = u64 (Z.of_nat n) /\ t_interval t' = interval /\
    rd_sysreg "cnthp_ctl_el2" c' = 1.
Proof.
  intros Hf now interval.
  assert (hyptimer_start ms (t, (c, w)) = Ok (tt, (mk_timer (t_freq t) interval 0,
    (wr_sysreg "cnthp_ctl_el2" 1 (wr_sysreg "cnthp_cval_el2" (u64 (now + interval)) c), (pl_cntpct w).2)))) as E.
  { unfold hyptimer_start, at_timer, at_hw, at_w, timer_get, msr, at_cpu, zoom, gets, modify, mbind, st_bind.
    cbn [fst snd]. unfold now, interval. destruct (pl_cntpct w) as [x w'] eqn:Ep. cbn [fst snd t_interval t_freq].
    by rewrite (wrap_fits 64 (t_freq t * ms)). }
  rewrite (st_bind_Ok _ _ _ _ _ E).
  destruct (irqs_spec n (mk_timer (t_freq t) interval 0)
    (wr_sysreg "cnthp_ctl_el2" 1 (wr_sysreg "cnthp_cval_el2" (u64 (now + interval)) c)) (pl_cntpct w).2) as (c' & E2 & Hv & Hr).
  - fits_const.
  - sysreg. apply fits_wrap; lia.
  - eexists _, c'. split; [exact E2|]. split; [|split; [done|split; [done|]]].
    + rewrite Hv. sysreg. rewrite wrap_add_l. cbn [t_interval]. f_equal. lia.
    + rewrite Hr by done. by sysreg.
Qed.

Lemma gic_init_runs c (w : W) : exists c' w', gic_init_el2 (c, w) = Ok (tt, (c', w')) /\
  (forall r, r ∉ ["icc_sre_el2"; "icc_sre_el1"; "icc_pmr_el1"; "icc_igrpen1_el1"]%string -> rd_sysreg r c' = rd_sysreg r c) /\
  (wf_cpu c -> wf_cpu c').
Proof.
  unfold gic_init_el2, mrs, msr, at_cpu, gets, modify, at_w, zoom, mmio_write32, mmio_read32, mbind, st_bind.
  cbn [fst snd]. destruct (pl_read32 GICR_WAKER _) as [v w1]. cbn [fst snd].
  assert ((v .& cnot 32 GICR_WAKER_PROCESSOR_SLEEP .& bit 1) = 0) as Hs.
  { unfold GICR_WAKER_PROCESSOR_SLEEP. apply Z.bits_inj'. intros i Hi.
    rewrite !Z.land_spec, testbit_cnot, testbit_bit, Z.bits_0 by lia.
    destruct (i =? 1); cbn; rewrite ?andb_false_r; done. }
  destruct (poll_ready _ _ _ _ (waker_ready _ w1 Hs)) as [w2 E].
  unfold GICR_WAKER_CHILDREN_ASLEEP. rewrite E. cbn [fst snd].
  destruct (println_runs (bytes "[GIC] GICv3 initialised for EL2")
    (pl_write32 GICR_IGRPMODR0 0 (pl_write32 GICR_IGROUPR0 4294967295 w2))) as [w3 ->].
  eexists _, w3. split; [reflexivity|]. split.
  2:{ intros Hc. assert (fits 64 (rd_sysreg "icc_sre_el2" c) /\ fits 64 (rd_sysreg "icc_sre_el1" c)) as [F1 F2] by (split; by apply wf_rd_sysreg).
      do 2 (apply wf_wr_sysreg; [fits_const|]).
      repeat (apply wf_wr_sysreg; [apply fits_lor; [lia|sysreg; done|fits_const]|]). done. }
  intros r Hr. rewrite !not_elem_of_cons in Hr.
  destruct Hr as (? & ? & ? & ? & _). by rewrite !rd_wr_ne by done.
Qed.
End TimerTheorems.

Definition cpu0 : cpu := mk_cpu (replicate 31 0) (replicate 32 0) ∅.
Lemma hyptimer_no_drift_witness :
  let t := mk_timer 62500000 0 0 in
  let now := (pl_cntpct quiet).1 in let interval := 62500000 * 10 / 1000 in
  exists t' c', (hyptimer_start 10;; irqs 5) (t, (cpu0, quiet)) = Ok (tt, (t', (c', (pl_cntpct quiet).2))) /\
    rd_sysreg "cnthp_cval_el2" c' = u64 (now + (Z.of_nat 5 + 1) * interval) /\
    t_ticks t' = u64 (Z.of_nat 5) /\ t_interval t' = interval /\
    rd_sysreg "cnthp_ctl_el2" c' = 1.
Proof. apply (hyptimer_no_drift 10 5 (mk_timer 62500000 0 0) cpu0 quiet). fits_const. Defined.
