(* ===== verification/Hv.v ===== *)
(** The hypervisor's global state and the operations of every component on it.

    [hv] collects the statics of all C files with the processor, the physical
    memory and the rest of the machine.  The run loops of vcpu.c are written in the
    state-and-fault monad over [hv]; this file lifts each component's operations to
    it, gives the generic loop, and proves once and for all that every operation
    returns and preserves the well-formedness of the whole state. *)

From S2P Require Import Prelude Esr Machine Vcpu Stage2 Vgic Uart Vdev Handlers Vvirtio Vblk Timer.

(** What the linker decides: the addresses of the statics and of the guest entry
    points in guest.S, and the guest images embedded in the binary. *)
Record link := mk_link {
  lk_vcpus : Z; lk_gstack : Z; lk_s2_l1 : Z; lk_s2_vm : Z;
  lk_entry : string -> Z; lk_image : string -> list Z }.

Record hv (W : Type) := mk_hv {
  h_cpu : cpu; h_mem : mem; h_w : W; h_s2 : stage2; h_vgic : vgic; h_vcpus : list vcpu;
  h_vuart : vuart; h_vc : list vcon; h_vb : list vblk; h_timer : timer; h_psci : psci; h_cntp : cntp }.
Arguments mk_hv {W}.
Arguments h_cpu {W}. Arguments h_mem {W}. Arguments h_w {W}. Arguments h_s2 {W}. Arguments h_vgic {W}.
Arguments h_vcpus {W}. Arguments h_vuart {W}. Arguments h_vc {W}. Arguments h_vb {W}. Arguments h_timer {W}.
Arguments h_psci {W}. Arguments h_cntp {W}.

Section Setters.
Context {W : Type}.
Implicit Type h : hv W.
Definition put_cpu h x := mk_hv x (h_mem h) (h_w h) (h_s2 h) (h_vgic h) (h_vcpus h) (h_vuart h) (h_vc h) (h_vb h) (h_timer h) (h_psci h) (h_cntp h).
Definition put_mem h x := mk_hv (h_cpu h) x (h_w h) (h_s2 h) (h_vgic h) (h_vcpus h) (h_vuart h) (h_vc h) (h_vb h) (h_timer h) (h_psci h) (h_cntp h).
Definition put_w h (x : W) := mk_hv (h_cpu h) (h_mem h) x (h_s2 h) (h_vgic h) (h_vcpus h) (h_vuart h) (h_vc h) (h_vb h) (h_timer h) (h_psci h) (h_cntp h).
Definition put_s2 h x := mk_hv (h_cpu h) (h_mem h) (h_w h) x (h_vgic h) (h_vcpus h) (h_vuart h) (h_vc h) (h_vb h) (h_timer h) (h_psci h) (h_cntp h).
Definition put_vgic h x := mk_hv (h_cpu h) (h_mem h) (h_w h) (h_s2 h) x (h_vcpus h) (h_vuart h) (h_vc h) (h_vb h) (h_timer h) (h_psci h) (h_cntp h).
Definition put_vcpus h x := mk_hv (h_cpu h) (h_mem h) (h_w h) (h_s2 h) (h_vgic h) x (h_vuart h) (h_vc h) (h_vb h) (h_timer h) (h_psci h) (h_cntp h).
Definition put_vuart h x := mk_hv (h_cpu h) (h_mem h) (h_w h) (h_s2 h) (h_vgic h) (h_vcpus h) x (h_vc h) (h_vb h) (h_timer h) (h_psci h) (h_cntp h).
Definition put_vc h x := mk_hv (h_cpu h) (h_mem h) (h_w h) (h_s2 h) (h_vgic h) (h_vcpus h) (h_vuart h) x (h_vb h) (h_timer h) (h_psci h) (h_cntp h).
Definition put_vb h x := mk_hv (h_cpu h) (h_mem h) (h_w h) (h_s2 h) (h_vgic h) (h_vcpus h) (h_vuart h) (h_vc h) x (h_timer h) (h_psci h) (h_cntp h).
Definition put_timer h x := mk_hv (h_cpu h) (h_mem h) (h_w h) (h_s2 h) (h_vgic h) (h_vcpus h) (h_vuart h) (h_vc h) (h_vb h) x (h_psci h) (h_cntp h).
Definition put_psci h x := mk_hv (h_cpu h) (h_mem h) (h_w h) (h_s2 h) (h_vgic h) (h_vcpus h) (h_vuart h) (h_vc h) (h_vb h) (h_timer h) x (h_cntp h).
Definition put_cntp h x := mk_hv (h_cpu h) (h_mem h) (h_w h) (h_s2 h) (h_vgic h) (h_vcpus h) (h_vuart h) (h_vc h) (h_vb h) (h_timer h) (h_psci h) x.
End Setters.

Section Hv.
Context {W : Type} `{Platform W} (lk : link).

Abbreviation M A := (st (hv W) A).

(** ** Console, processor and memory *)
Definition on_uart {A} (m : st W A) : M A := zoom h_w put_w m.
Definition printf (fmt : list Z) (args : list arg) : M unit := on_uart (uart_printf fmt args).
Definition println (s : string) : M unit := on_uart (uart_println (bytes s)).
Definition puts (s : string) : M unit := on_uart (uart_puts (bytes s)).
Definition wr_sys (r : string) (v : Z) : M unit := modify (fun h => put_cpu h (wr_sysreg r v (h_cpu h))).

(** [for (i = 0; i < sz; i++) dst[i] = src[i]] *)
Fixpoint write_bytes (m : mem) (a : Z) (l : list Z) : mem :=
  match l with [] => m | b :: l => write_bytes (wr8 m a b) (a + 1) l end.
Definition copy_image (dst : Z) (img : string) : M unit :=
  modify (fun h => put_mem h (write_bytes (h_mem h) dst (lk_image lk img))).
Definition read_mem32 (a : Z) : M Z := gets (fun h => ld32 (h_mem h) a).

(** ** vCPUs *)
Definition get_vcpu (i : Z) : M vcpu := try_ (fun h => aget (h_vcpus h) i).
Definition set_vcpu (i : Z) (v : vcpu) : M unit := update (fun h => l ← aset (h_vcpus h) i v; Ok (put_vcpus h l)).
Definition vcpu_addr (i : Z) : Z := u64 (lk_vcpus lk + i * sizeof_vcpu).
Definition stack_top (i : Z) : Z := u64 (lk_gstack lk + i * 4096 + 4096).
Definition init_vcpu (i entry sp vttbr : Z) : M unit := set_vcpu i (vcpu_init entry sp vttbr i).
Definition set_x (i r val : Z) : M unit := v ← get_vcpu i; v ← try_ (fun _ => put_x v r val); set_vcpu i v.
Definition x_of (i r : Z) : M Z := v ← get_vcpu i; try_ (fun _ => get_x v r).
Definition advance (i : Z) : M unit := v ← get_vcpu i; set_vcpu i (pc_advance v).
Definition halt (i : Z) : M unit := v ← get_vcpu i; set_vcpu i (set_halted v 1).

Definition run_once (i : Z) : M unit := fun h =>
  v ← aget (h_vcpus h) i;
  '(v, c, m, w) ← vcpu_run_once (vcpu_addr i) v (h_cpu h) (h_mem h) (h_w h);
  l ← aset (h_vcpus h) i v;
  Ok (tt, put_w (put_mem (put_cpu (put_vcpus h l) c) m) w).

(** ** Component operations on a vCPU *)
Definition inject (i intid : Z) : M unit := v ← get_vcpu i; v ← try_ (fun _ => vgic_inject v intid); set_vcpu i v.
Definition irq_enabled (vm intid : Z) : M bool := try_ (fun h => vgic_irq_enabled (h_vgic h) vm intid).
Definition spi_enabled_q (vm intid : Z) : M bool := try_ (fun h => vgic_spi_enabled (h_vgic h) vm intid).
Definition pop_sgi (i : Z) : M Z := zoom h_vgic put_vgic (vgic_pop_sgi i).
Definition post_sgi (self intid : Z) : M unit := zoom h_vgic put_vgic (update (vgic_post_sgi self intid)).
Definition do_vgic_reset : M unit := zoom h_vgic put_vgic (update vgic_reset).
Definition do_set_ngicr (n : Z) : M unit := zoom h_vgic put_vgic (modify (vgic_set_ngicr n)).
Definition do_vgic_mmio (vm i ipa : Z) : M unit :=
  v ← get_vcpu i;
  v ← zoom h_vgic put_vgic (fun s => '(s, v) ← vgic_mmio vm v ipa s; Ok (v, s));
  set_vcpu i v.
Definition do_mmio_emulate (i ipa : Z) : M unit :=
  v ← get_vcpu i;
  v ← zoom (fun h => (h_vuart h, h_w h)) (fun h t => put_w (put_vuart h t.1) t.2) (mmio_emulate v ipa);
  set_vcpu i v.
Definition do_mmio_zero (i : Z) : M unit := v ← get_vcpu i; v ← try_ (fun _ => mmio_zero v); set_vcpu i v.
Definition do_cntp (vm i : Z) : M unit :=
  v ← get_vcpu i; v ← zoom h_cntp put_cntp (cntp_emulate vm v); set_vcpu i v.
Definition do_psci (i : Z) : M unit :=
  v ← get_vcpu i;
  v ← zoom (fun h => (h_psci h, h_w h)) (fun h t => put_w (put_psci h t.1) t.2) (psci_handle v);
  set_vcpu i v.
Definition do_virtio_mmio (vm i ipa : Z) : M unit :=
  v ← get_vcpu i;
  v ← (fun h => '(v, vc, m, w) ← virtio_mmio vm v ipa (h_vc h) (h_mem h) (h_w h);
                Ok (v, put_w (put_mem (put_vc h vc) m) w));
  set_vcpu i v.
Definition do_vblk_mmio (vm i ipa : Z) : M unit :=
  v ← get_vcpu i;
  v ← (fun h => '(v, vb, m) ← vblk_mmio vm v ipa (h_vb h) (h_mem h); Ok (v, put_mem (put_vb h vb) m));
  set_vcpu i v.
Definition do_virtio_reset : M unit := zoom h_vc put_vc (update virtio_reset).
Definition do_virtio_set_offset (vm off : Z) : M unit := zoom h_vc put_vc (update (virtio_set_offset vm off)).
Definition do_virtio_take_irq (vm : Z) : M bool := zoom h_vc put_vc (virtio_take_irq vm).
Definition do_vblk_reset : M unit := zoom h_vb put_vb (update vblk_reset).
Definition do_vblk_set_offset (vm off : Z) : M unit := zoom h_vb put_vb (update (vblk_set_offset vm off)).
Definition do_vblk_take_irq (vm : Z) : M bool := zoom h_vb put_vb (vblk_take_irq vm).
Definition do_vblk_peek (vm n : Z) : M (list Z) := try_ (fun h => vblk_peek vm n (h_vb h)).
Definition do_vblk_poke (vm : Z) (l : list Z) (n : Z) : M unit := zoom h_vb put_vb (update (vblk_poke vm l n)).

(** ** Stage-2, interrupts, timer *)
Definition do_stage2_init : M unit :=
  zoom h_s2 put_s2 (update stage2_init);;
  printf (bytes "[M3] stage-2 ON: vtcr=%x vttbr=%x (mapped 1GiB @0x40000000)" ++ [LF])
    [AInt VTCR_EL2_VALUE; AInt (u64 (lk_s2_l1 lk))].
Definition map_1gb (ipa : Z) : M unit := zoom h_s2 put_s2 (update (stage2_map_1gb ipa)).
Definition map_device (ipa : Z) : M unit := zoom h_s2 put_s2 (update (stage2_map_1gb_device ipa)).
Definition build_vm (vm ipa pa vmid : Z) : M Z := zoom h_s2 put_s2 (fun s =>
  '(s, v) ← stage2_build_vm (lk_s2_vm lk) vm ipa pa vmid s; Ok (v, s)).
Definition vttbr_g : Z := stage2_vttbr (lk_s2_l1 lk).
Definition ack : M Z := on_uart gic_ack.
Definition eoi (iar : Z) : M unit := on_uart (gic_eoi iar).
Definition on_hw {A} (m : st (cpu * W) A) : M A :=
  zoom (fun h => (h_cpu h, h_w h)) (fun h t => put_w (put_cpu h t.1) t.2) m.
Definition on_tm {A} (m : st (timer * (cpu * W)) A) : M A :=
  zoom (fun h => (h_timer h, (h_cpu h, h_w h)))
       (fun h t => put_w (put_cpu (put_timer h t.1) t.2.1) t.2.2) m.
Definition do_gic_init : M unit := on_hw gic_init_el2.
Definition do_hyptimer_init : M unit := on_tm hyptimer_init.
Definition timer_start (ms : Z) : M unit := on_tm (hyptimer_start ms).
Definition timer_stop : M unit := on_tm hyptimer_stop.
Definition timer_on_irq : M unit := on_tm hyptimer_on_irq.

(** ** Loops: [while] with the condition tested inside the body.  [body] says
    whether to go on; running out of [fuel] is the model's own fault. *)
Fixpoint loop {L} (fuel : nat) (body : L -> M (bool * L)) (l : L) : M L :=
  match fuel with
  | O => fun _ => Err OutOfFuel
  | S fuel => '(go, l) ← body l; if go : bool then loop fuel body l else mret l
  end.

(** The heads of the loop that an execution passes through. *)
Inductive reach {L} (body : L -> M (bool * L)) : L -> hv W -> L -> hv W -> Prop :=
| reach_here l h : reach body l h l h
| reach_next l h l1 h1 l2 h2 :
    body l h = Ok (true, l1, h1) -> reach body l1 h1 l2 h2 -> reach body l h l2 h2.

(** [n] iterations of a loop that goes on, for concrete runs. *)
Fixpoint iterate {L} (n : nat) (body : L -> M (bool * L)) (l : L) (h : hv W) : option (L * hv W) :=
  match n with
  | O => Some (l, h)
  | S n => match body l h with Ok (true, l1, h1) => iterate n body l1 h1 | _ => None end
  end.

(** [if (intid < GIC_SPURIOUS_INTID) gic_eoi(iar)] *)
Definition eoi_real (intid iar : Z) : M unit := if intid <? GIC_SPURIOUS_INTID then eoi iar else mret tt.
(** Acknowledge and drop a physical interrupt, as the loops without a timer do. *)
Definition ack_drop : M unit := iar ← ack; eoi_real (iar .& 0xFFFFFF) iar.
(** [ (v->exit_reason & 3) == 1 ]: the exit was an IRQ. *)
Definition is_irq (v : vcpu) : bool := (exit_reason v .& 3) =? 1.
Definition exit_ec (v : vcpu) : Z := ESR_EC (exit_esr v).
Definition exit_ipa (v : vcpu) : Z := fault_ipa (exit_hpfar v) (exit_far v).
(** The bring-up request PSCI CPU_ON leaves for the scheduler. *)
Definition psci_get {A} (f : psci -> A) : M A := gets (fun h => f (h_psci h)).
Definition clear_pending : M unit := modify (fun h => put_psci h (set_on_pending (h_psci h) 0)).
Definition is_abort (ec : Z) : bool := (ec =? EC_DABT_LOW) || (ec =? EC_IABT_LOW).
End Hv.

(** * Well-formedness of the whole state *)
Definition wf_tables (s : stage2) : Prop :=
  len (s2_l1 s) = 512 /\ len (s2_vm s) = 2 /\ Forall (fun t => len t = 512) (s2_vm s).
Definition wf_timer (t : timer) : Prop := fits 64 (t_freq t) /\ fits 64 (t_interval t) /\ fits 64 (t_ticks t).
Definition wf_psci (p : psci) : Prop := fits 64 (psci_on_entry p) /\ fits 64 (psci_on_ctx p).
Definition wf_vcpus (l : list vcpu) : Prop := len l = 2 /\ Forall wf_vcpu l.

Record wf_hv {W} (h : hv W) : Prop := {
  wh_cpu : wf_cpu (h_cpu h); wh_s2 : wf_tables (h_s2 h); wh_vgic : wf_vgic (h_vgic h);
  wh_vcpus : wf_vcpus (h_vcpus h); wh_vuart : wf_vuart (h_vuart h); wh_vc : wf_vc (h_vc h);
  wh_vb : wf_vb (h_vb h); wh_timer : wf_timer (h_timer h); wh_psci : wf_psci (h_psci h);
  wh_cntp : wf_cntp (h_cntp h) }.

(** What the run loops must not change behind a guest's back: which stage-2 tables
    and which identity each vCPU has, the tenants' tables themselves and the
    translation and trap configuration. *)
Definition vcpu_key (v : vcpu) : Z * Z * Z := (vttbr v, vmpidr v, vid v).
Definition core {W} (h : hv W) : list (Z * Z * Z) * list (list Z) * Z :=
  (map vcpu_key (h_vcpus h), s2_vm (h_s2 h), vtcr_el2 (h_s2 h)).
Definition config {W} (h : hv W) : list (Z * Z * Z) * list (list Z) * Z * Z :=
  (core h, rd_sysreg "hcr_el2" (h_cpu h)).

Section Keeps.
Context {W : Type} {PL : Platform W} {PO : PlatformOk W} (lk : link).
Abbreviation M A := (st (hv W) A).

(** [m] returns from every well-formed state, keeps it well-formed and its
    configuration fixed, and its result satisfies [P]. *)
Definition yields {A} (P : A -> Prop) (m : M A) : Prop :=
  forall h, wf_hv h -> exists a h', m h = Ok (a, h') /\ wf_hv h' /\ config h' = config h /\ P a.
Definition keeps {A} (m : M A) : Prop := yields (fun _ => True) m.

Lemma yields_bind {A B} (P : A -> Prop) (Q : B -> Prop) (m : M A) (f : A -> M B) :
  yields P m -> (forall a, P a -> yields Q (f a)) -> yields Q (m ≫= f).
Proof.
  intros Hm Hf h Hh. destruct (Hm h Hh) as (a & h1 & E & H1 & C1 & Pa).
  destruct (Hf a Pa h1 H1) as (b & h2 & E2 & H2 & C2 & Qb). exists b, h2.
  rewrite (st_bind_Ok _ _ _ _ _ E). rewrite C2. by split_and!.
Qed.
Lemma yields_ret {A} (P : A -> Prop) a : P a -> yields P (mret a : M A).
Proof. intros Pa h Hh. by exists a, h. Qed.
Lemma yields_weaken {A} (P Q : A -> Prop) (m : M A) : yields P m -> (forall a, P a -> Q a) -> yields Q m.
Proof. intros Hm HPQ h Hh. destruct (Hm h Hh) as (a & h' & ? & ? & ? & ?). exists a, h'. auto. Qed.
Lemma keeps_of {A} (P : A -> Prop) (m : M A) : yields P m -> keeps m.
Proof. intros Hm. eapply yields_weaken; [exact Hm|done]. Qed.

(** ** Loops *)
Lemma loop_yields {L} (I J : L -> Prop) (mu : L -> Z) (body : L -> M (bool * L)) :
  (forall l, I l -> yields (fun r : bool * L => if r.1 then I r.2 /\ 0 <= mu r.2 < mu l else J r.2) (body l)) ->
  forall fuel l, I l -> mu l < Z.of_nat fuel -> 0 <= mu l -> yields J (loop fuel body l).
Proof.
  intros Hb. induction fuel as [|fuel IH]; intros l Hl Hmu H0; [lia|].
  cbn [loop]. eapply yields_bind; [by apply Hb|]. intros [[] l1] HI; cbn in *.
  - apply IH; [by apply HI|lia|lia].
  - by apply yields_ret.
Qed.

(** The same for loops that may run for ever: every loop head reached is
    well-formed with the same configuration, and the next iteration returns. *)
Lemma reach_keeps {L} (I J : L -> Prop) (body : L -> M (bool * L)) l h l' h' :
  (forall l, I l -> yields (fun r : bool * L => if r.1 then I r.2 else J r.2) (body l)) -> I l -> wf_hv h ->
  reach body l h l' h' ->
  wf_hv h' /\ config h' = config h /\ I l' /\ is_ok (body l' h').
Proof.
  intros Hb Hl Hh R. induction R as [l h|l h l1 h1 l2 h2 E R IH].
  - destruct (Hb l Hl h Hh) as (r & h1 & E & _). split; [done|]. split; [done|]. split; [done|]. by eexists.
  - destruct (Hb l Hl h Hh) as (r & h3 & E' & W1 & C1 & I1). rewrite E in E'. injection E' as <- <-.
    destruct (IH I1 W1) as (? & C2 & ? & ?). rewrite C2, C1. by split_and!.
Qed.

Lemma reach_measured {L} (I J : L -> Prop) (mu : L -> Z) (body : L -> M (bool * L)) l h l' h' :
  (forall l, I l -> yields (fun r : bool * L => if r.1 then I r.2 /\ 0 <= mu r.2 < mu l else J r.2) (body l)) ->
  I l -> wf_hv h -> reach body l h l' h' ->
  wf_hv h' /\ config h' = config h /\ I l' /\ is_ok (body l' h').
Proof.
  intros Hb. apply (reach_keeps I J). intros k Hk. eapply yields_weaken; [by apply Hb|]. intros [[] ?] Hr; [apply Hr|exact Hr].
Qed.

Lemma iterate_reach {L} (body : L -> M (bool * L)) n : forall l h l' h',
  iterate n body l h = Some (l', h') -> reach body l h l' h'.
Proof.
  induction n as [|n IH]; intros l h l' h' E; cbn [iterate] in E; [injection E as <- <-; apply reach_here|].
  destruct (body l h) as [[[[] l1] h1]|] eqn:Eb; try discriminate E. eapply reach_next; [exact Eb|by apply IH].
Qed.
(** A concrete run, observed through a boolean test of its last loop head. *)
Lemma iterate_check {L} (body : L -> M (bool * L)) n l h (test : L -> hv W -> bool) :
  match iterate n body l h with Some (l', h') => test l' h' | None => false end = true ->
  exists l' h', reach body l h l' h' /\ test l' h' = true.
Proof.
  destruct (iterate n body l h) as [[l' h']|] eqn:E; [|done]. intros Ht. exists l', h'. split; [by eapply iterate_reach|done].
Qed.

(** Invariants of loop heads by rule induction. *)
Lemma reach_inv {L} (I : L -> hv W -> Prop) (body : L -> M (bool * L)) l h l' h' :
  (forall l h, I l h -> exists r h', body l h = Ok (r, h') /\ (r.1 = true -> I r.2 h')) ->
  I l h -> reach body l h l' h' -> I l' h' /\ is_ok (body l' h').
Proof.
  intros Hb Hl R. induction R as [l h|l h l1 h1 l2 h2 E R IH].
  - destruct (Hb l h Hl) as (r & h1 & E & _). split; [done|]. by eexists.
  - destruct (Hb l h Hl) as (r & h3 & E' & I1). rewrite E in E'. injection E' as <- <-. by apply IH, I1.
Qed.

(** ** Console and processor *)
Lemma on_uart_yields {A} (P : A -> Prop) (m : st W A) :
  (forall w, exists a w', m w = Ok (a, w') /\ P a) -> yields P (on_uart m).
Proof.
  intros Hm h Hh. destruct (Hm (h_w h)) as (a & w' & E & Pa). exists a, (put_w h w'). unfold on_uart, zoom. rewrite E.
  split; [done|]. split; [|done]. by destruct Hh.
Qed.
Lemma printf_keeps fmt args : Forall arg_ok args -> is_Some (render fmt args) -> keeps (printf fmt args).
Proof.
  intros Ha Hr. apply on_uart_yields. intros w. destruct (printf_runs fmt args w Ha Hr) as [w' E]. by exists tt, w'.
Qed.
Lemma println_keeps s : keeps (println s).
Proof. apply on_uart_yields. intros w. destruct (println_runs (bytes s) w) as [w' E]. by exists tt, w'. Qed.
Lemma puts_keeps s : keeps (puts s).
Proof. apply on_uart_yields. intros w. destruct (puts_runs (bytes s) w) as [w' E]. by exists tt, w'. Qed.
Lemma ack_yields : yields (fits 64) ack.
Proof. apply on_uart_yields. intros w. pose proof (iar_fits w). unfold gic_ack. destruct (pl_iar1 w) as [i w']. by exists i, w'. Qed.
Lemma eoi_keeps iar : keeps (eoi iar).
Proof. apply on_uart_yields. intros w. by eexists tt, _. Qed.
Lemma eoi_real_keeps i iar : keeps (eoi_real i iar).
Proof. unfold eoi_real. case_match; [apply eoi_keeps|by apply yields_ret]. Qed.
Lemma ack_drop_keeps : keeps ack_drop.
Proof. eapply yields_bind; [apply ack_yields|]. intros. apply eoi_real_keeps. Qed.
Lemma getc_yields : yields (fun c => -1 <= c < 256) (on_uart uart_getc_nonblock).
Proof.
  apply on_uart_yields. intros w. unfold uart_getc_nonblock, mmio_read32, mbind, st_bind.
  destruct (pl_read32 UART_FR w) as [f w1]. case_match; [exists (-1), w1; split; [done|lia]|].
  destruct (pl_read32 UART_DR w1) as [d w2]. exists (d .& 0xFF), w2. split; [done|].
  change 0xFF with (Z.ones 8). rewrite land_ones_wrap by lia. pose proof (fits_wrap 8 d). unfold fits in *. lia.
Qed.
Lemma read_mem32_yields a : yields (fits 32) (read_mem32 a).
Proof. intros h Hh. eexists _, h. split; [done|]. split; [done|]. split; [done|]. apply (fits_load 4). Qed.
Lemma copy_image_keeps dst img : keeps (copy_image lk dst img).
Proof. intros h Hh. eexists tt, _. split; [done|]. split; [by destruct Hh|done]. Qed.
Lemma wr_sys_keeps r v : r <> "hcr_el2"%string -> fits 64 v -> keeps (wr_sys r v).
Proof.
  intros Hr Hv h Hh. eexists tt, _. split; [done|]. split.
  - destruct Hh. split; try done. by apply wf_wr_sysreg.
  - split; [|done]. unfold config. cbn. by rewrite rd_wr_ne.
Qed.

(** ** vCPUs *)
Lemma yields_try {A} (Q : A -> Prop) (f : hv W -> res A) :
  (forall h, wf_hv h -> exists a, f h = Ok a /\ Q a) -> yields Q (try_ f).
Proof. intros Hf h Hh. destruct (Hf h Hh) as (a & E & Qa). exists a, h. unfold try_. rewrite E. by split_and!. Qed.

Lemma get_vcpu_yields i : 0 <= i < 2 -> yields wf_vcpu (get_vcpu i).
Proof.
  intros Hi. apply yields_try. intros h Hh. destruct (wh_vcpus h Hh) as [Hl HF].
  destruct (aget_ok (h_vcpus h) i) as [v E]; [lia|]. exists v. split; [done|]. by eapply Forall_aget.
Qed.

(** A read-modify-write of a vCPU by a handler that keeps its identity. *)
Definition same_key (v v' : vcpu) : Prop := wf_vcpu v' /\ vcpu_key v' = vcpu_key v.

Lemma set_vcpu_ok i v v' (h : hv W) :
  0 <= i < 2 -> wf_hv h -> map vcpu_key (h_vcpus h) !! Z.to_nat i = Some (vcpu_key v) -> same_key v v' ->
  exists h', set_vcpu i v' h = Ok (tt, h') /\ wf_hv h' /\ config h' = config h.
Proof.
  intros Hi Hh Hk [Hv' Hkey]. destruct (wh_vcpus h Hh) as [Hl HF]. unfold set_vcpu, update.
  rewrite aset_ok by lia. cbn [mbind res_bind]. eexists. split; [done|]. split.
  - destruct Hh. split; try done. split; [cbn; by rewrite len_insert|by apply Forall_insert].
  - unfold config, core. cbn. do 3 f_equal.
    change (map vcpu_key) with (fmap vcpu_key : list vcpu -> _) in *. rewrite list_fmap_insert, Hkey.
    by apply list_insert_id.
Qed.

Lemma with_vcpu_keeps i (g : vcpu -> M vcpu) :
  0 <= i < 2 -> (forall v, wf_vcpu v -> yields (same_key v) (g v)) ->
  keeps (v ← get_vcpu i; v' ← g v; set_vcpu i v').
Proof.
  intros Hi Hg h Hh. destruct (wh_vcpus h Hh) as [Hl HF]. destruct (aget_ok (h_vcpus h) i) as [v E]; [lia|].
  assert (get_vcpu i h = Ok (v, h)) as Eg by (unfold get_vcpu, try_; by rewrite E).
  rewrite (st_bind_Ok _ _ _ _ _ Eg).
  destruct (Hg v (Forall_aget _ _ _ _ HF E) h Hh) as (v' & h1 & E1 & W1 & C1 & Hk).
  rewrite (st_bind_Ok _ _ _ _ _ E1).
  destruct (set_vcpu_ok i v v' h1 Hi W1) as (h2 & E2 & W2 & C2); [|done|].
  - assert (map vcpu_key (h_vcpus h1) = map vcpu_key (h_vcpus h)) as -> by (unfold config, core in C1; congruence).
    change (map vcpu_key) with (fmap vcpu_key : list vcpu -> _). rewrite list_lookup_fmap.
    apply aget_inv in E as [_ ->]. done.
  - exists tt, h2. rewrite C2, C1. by split_and!.
Qed.

Lemma pc_advance_key v : wf_vcpu v -> same_key v (pc_advance v).
Proof. intros Hv. split; [by apply pc_advance_wf|done]. Qed.
Lemma rt_only_key v v' srt : wf_vcpu v' -> rt_only v v' srt -> same_key v v'.
Proof. intros Hw (l & -> & _). by split. Qed.

Lemma set_x_keeps i r val : 0 <= i < 2 -> 0 <= r < 31 -> fits 64 val -> keeps (set_x i r val).
Proof.
  intros Hi Hr Hv. apply (with_vcpu_keeps i (fun v => try_ (fun _ => put_x v r val))); [done|]. intros v Hw.
  apply yields_try. intros _ _. destruct (put_x_ok v r val Hw Hr Hv) as (v' & E & Hv' & _ & _ & _ & _ & Eq).
  exists v'. split; [done|]. split; [done|]. by rewrite Eq.
Qed.
Lemma x_of_yields i r : 0 <= i < 2 -> 0 <= r < 31 -> yields (fits 64) (x_of i r).
Proof.
  intros Hi Hr. eapply yields_bind; [by apply get_vcpu_yields|]. intros v (Hl & HF & _). apply yields_try. intros _ _.
  destruct (aget_ok (xregs v) r) as [x E]; [lia|]. exists x. split; [done|]. by eapply Forall_aget.
Qed.
Lemma advance_keeps i : 0 <= i < 2 -> keeps (advance i).
Proof.
  intros Hi. pose proof (with_vcpu_keeps i (fun v => mret (pc_advance v)) Hi) as Hk. apply Hk.
  intros v Hv. apply yields_ret. by apply pc_advance_key.
Qed.
Lemma halt_keeps i : 0 <= i < 2 -> keeps (halt i).
Proof.
  intros Hi. pose proof (with_vcpu_keeps i (fun v => mret (set_halted v 1)) Hi) as Hk. apply Hk.
  intros v Hv. apply yields_ret. by split.
Qed.
Lemma inject_keeps i intid : 0 <= i < 2 -> fits 32 intid -> keeps (inject i intid).
Proof.
  intros Hi Hf. apply (with_vcpu_keeps i (fun v => try_ (fun _ => vgic_inject v intid))); [done|]. intros v Hw.
  apply yields_try. intros _ _. destruct (vgic_inject_ok v intid Hw Hf) as (l & E & Hl). eexists. split; [exact E|]. by split.
Qed.
Lemma do_mmio_zero_keeps i : 0 <= i < 2 -> keeps (do_mmio_zero i).
Proof.
  intros Hi. apply (with_vcpu_keeps i (fun v => try_ (fun _ => mmio_zero v))); [done|]. intros v Hw.
  apply yields_try. intros _ _. destruct (mmio_zero_ok v Hw) as (v' & E & Hv' & Hrt). exists v'. split; [done|].
  by eapply rt_only_key.
Qed.

Lemma run_once_keeps i : 0 <= i < 2 -> keeps (run_once lk i).
Proof.
  intros Hi h Hh. destruct (wh_vcpus h Hh) as [Hl HF]. destruct (aget_ok (h_vcpus h) i) as [v E]; [lia|].
  unfold run_once. rewrite E. cbn [mbind res_bind].
  destruct (run_once_ok (vcpu_addr lk i) v (h_cpu h) (h_mem h) (h_w h)) as (v' & c' & m' & w' & E1 & Wv & Wc & _ & Hk & _ & _ & Hhcr);
    [apply fits_wrap; lia|by eapply Forall_aget|apply Hh|].
  rewrite E1. cbn [mbind res_bind]. rewrite aset_ok by lia. cbn [mbind res_bind].
  exists tt. eexists. split; [done|]. split.
  - destruct Hh. split; try done. split; [cbn; by rewrite len_insert|by apply Forall_insert].
  - split; [|done]. unfold config, core. cbn. rewrite Hhcr. do 3 f_equal.
    change (map vcpu_key) with (fmap vcpu_key : list vcpu -> _). rewrite list_fmap_insert.
    assert (vcpu_key v' = vcpu_key v) as -> by (unfold vcpu_key; congruence).
    apply list_insert_id. rewrite list_lookup_fmap. apply aget_inv in E as [_ ->]. done.
Qed.

(** ** Components behind a lens *)
Lemma zoom_yields {S A} (get : hv W -> S) (set : hv W -> S -> hv W) (inv : S -> Prop) (Q : A -> Prop) (m : st S A) :
  (forall h, wf_hv h -> inv (get h)) ->
  (forall h s, wf_hv h -> inv s -> wf_hv (set h s) /\ config (set h s) = config h) ->
  (forall s, inv s -> exists a s', m s = Ok (a, s') /\ inv s' /\ Q a) -> yields Q (zoom get set m).
Proof.
  intros Hg Hs Hm h Hh. destruct (Hm (get h) (Hg h Hh)) as (a & s' & E & Hi & Qa).
  exists a, (set h s'). unfold zoom. rewrite E. destruct (Hs h s' Hh Hi). by split_and!.
Qed.

Lemma vgic_lens {A} (Q : A -> Prop) (m : st vgic A) :
  (forall s, wf_vgic s -> exists a s', m s = Ok (a, s') /\ wf_vgic s' /\ Q a) -> yields Q (zoom h_vgic put_vgic m).
Proof. apply zoom_yields; [by intros h []|]. intros h s [] Hs. by split. Qed.

Lemma irq_enabled_keeps vm intid : 0 <= vm < 4 -> keeps (irq_enabled vm intid).
Proof.
  intros Hv. apply yields_try. intros h Hh. destruct (wh_vgic h Hh) as (Hl & _). unfold vgic_irq_enabled.
  case_match; [|by eexists]. destruct (aget_ok (vg (h_vgic h)) vm) as [g ->]; [lia|]. by eexists.
Qed.
Lemma spi_enabled_keeps vm intid : 0 <= vm < 4 -> keeps (spi_enabled_q vm intid).
Proof.
  intros Hv. apply yields_try. intros h Hh. destruct (wh_vgic h Hh) as (Hl & HF & _).
  destruct (aget_ok (vg (h_vgic h)) vm) as [g Hg]; [lia|].
  pose proof (Forall_aget _ _ _ _ HF Hg) as (_ & _ & _ & H8 & _).
  destruct (decide (32 <= intid < 256)) as [Hi|Hi].
  - destruct (spi_query _ _ _ _ Hi Hg H8) as (b & _ & ->). by eexists.
  - unfold vgic_spi_enabled. destruct (Z.ltb_spec intid 32), (Z.leb_spec 256 intid); try (by eexists); lia.
Qed.
Lemma pop_sgi_yields i : 0 <= i < 4 -> yields (fun r => -1 <= r < 16) (pop_sgi i).
Proof.
  intros Hi. apply vgic_lens. intros s Hs. pose proof Hs as (H1 & H2 & Hl & HF). unfold vgic_pop_sgi.
  case_match; [exists (-1), s; split; [done|split; [done|lia]]|].
  destruct (aget_ok (g_sgi_pending s) i) as [p Hp]; [lia|]. rewrite Hp. cbn [mbind res_bind].
  case_match; [exists (-1), s; split; [done|split; [done|lia]]|].
  pose proof (pop_loop_spec p 16 0 ltac:(lia) ltac:(lia)) as Hpop.
  destruct (pop_loop p 0 16) as [r|]; [|exists (-1), s; split; [done|split; [done|lia]]].
  rewrite aset_ok by lia. cbn [mbind res_bind]. eexists r, _. split; [done|]. split; [|lia].
  split; [done|]. split; [done|]. cbn. split; [by rewrite len_insert|]. apply Forall_insert; [done|].
  apply fits_land; [lia|by eapply Forall_aget|]. apply fits_cnot; lia.
Qed.
Lemma post_sgi_keeps self intid : keeps (post_sgi self intid).
Proof.
  apply vgic_lens. intros s Hs. pose proof Hs as (H1 & H2 & Hl & HF).
  destruct (post_sgi_spec self intid s Hl) as (l & E & Hl' & Hg). exists tt, (set_sgi s l). unfold update. rewrite E.
  split; [done|]. split; [|done]. split; [done|]. split; [done|]. split; [done|].
  apply Forall_lookup. intros k x Hx.
  assert (aget l (Z.of_nat k) = Ok x) as Hx' by (apply aget_lookup; [lia|by rewrite Nat2Z.id]).
  rewrite Hg in Hx'. case_match; [by eapply Forall_aget|].
  apply bind_Ok_inv in Hx' as (q & Hq & [= <-]). apply fits_lor; [lia|by eapply Forall_aget|].
  apply fits_bit, sgi_bit_range.
Qed.
Lemma vgic_reset_keeps : keeps do_vgic_reset.
Proof.
  apply vgic_lens. intros s Hs. exists tt, vgic_boot. unfold update. rewrite vgic_reset_eq by done.
  split; [done|]. split; [apply wf_vgic_boot|done].
Qed.
Lemma set_ngicr_keeps n : keeps (do_set_ngicr n).
Proof. apply vgic_lens. intros s Hs. eexists tt, _. split; [done|]. split; [|done]. exact Hs. Qed.

Lemma vgic_window ipa : vgic_contains ipa = true -> fits 44 ipa.
Proof.
  unfold vgic_contains, VGIC_GICD_BASE, VGIC_GICD_SIZE, VGIC_GICR_BASE, VGIC_GICR_SIZE, VGIC_MAX_VCPUS, VGIC_GICR_STRIDE, fits.
  bits_split; cbn; done || lia.
Qed.
Lemma vuart_window ipa : vuart_contains ipa = true -> fits 44 ipa.
Proof. unfold vuart_contains, VUART_BASE, VUART_SIZE, fits. bits_split; cbn; done || lia. Qed.

Lemma do_vgic_mmio_keeps vm i ipa :
  0 <= vm < 4 -> 0 <= i < 2 -> vgic_contains ipa = true -> keeps (do_vgic_mmio vm i ipa).
Proof.
  intros Hvm Hi Hipa%vgic_window.
  apply (with_vcpu_keeps i (fun v => zoom h_vgic put_vgic (fun s => '(s, v) ← vgic_mmio vm v ipa s; Ok (v, s)))); [done|].
  intros v Hv. apply vgic_lens. intros s Hs.
  destruct (vgic_mmio_ok vm v ipa s Hs Hv Hvm Hipa) as (s' & v' & E & Hs' & Hv' & Hrt & _).
  exists v', s'. rewrite E. split; [done|]. split; [done|]. by eapply rt_only_key.
Qed.

Lemma do_mmio_emulate_keeps i ipa : 0 <= i < 2 -> vuart_contains ipa = true -> keeps (do_mmio_emulate i ipa).
Proof.
  intros Hi Hipa%vuart_window.
  apply (with_vcpu_keeps i (fun v => zoom (fun h => (h_vuart h, h_w h)) (fun h t => put_w (put_vuart h t.1) t.2) (mmio_emulate v ipa))); [done|].
  intros v Hv. apply (zoom_yields _ _ (fun t => wf_vuart t.1)); [by intros h []|intros h t [] Ht; by split|].
  intros [d w] Hd. destruct (mmio_emulate_ok v ipa d w Hd Hv Hipa) as (v' & d' & w' & E & Hd' & Hv' & Hrt & _).
  exists v', (d', w'). split; [done|]. split; [done|]. by eapply rt_only_key.
Qed.

Lemma do_cntp_keeps vm i : 0 <= vm < 2 -> 0 <= i < 2 -> keeps (do_cntp vm i).
Proof.
  intros Hvm Hi. apply (with_vcpu_keeps i (fun v => zoom h_cntp put_cntp (cntp_emulate vm v))); [done|].
  intros v Hv. apply (zoom_yields _ _ wf_cntp); [by intros h []|intros h t [] Ht; by split|].
  intros t Ht. destruct (cntp_emulate_ok vm v t Hv Ht Hvm) as (v' & t' & E & Hv' & Ht' & Hrt & _).
  exists v', t'. split; [done|]. split; [done|]. by eapply rt_only_key.
Qed.
Lemma do_psci_keeps i : 0 <= i < 2 -> keeps (do_psci i).
Proof.
  intros Hi.
  apply (with_vcpu_keeps i (fun v => zoom (fun h => (h_psci h, h_w h)) (fun h t => put_w (put_psci h t.1) t.2) (psci_handle v))); [done|].
  intros v Hv. apply (zoom_yields _ _ (fun t => wf_psci t.1)); [by intros h []|intros h t [] Ht; by split|].
  intros [p w] Hp. pose proof Hv as (Hl & HF & _). destruct (aget_ok (xregs v) 0) as [x0 E0]; [lia|].
  destruct (psci_handle_ok v p w x0 Hv E0) as (v' & p' & w' & E & Hv' & Hk & Hp').
  exists v', (p', w'). split; [done|]. split; [|by split].
  destruct Hp' as [->|(x2 & x3 & E2 & E3 & ->)]; [done|]. split; by eapply Forall_aget.
Qed.

(** ** virtio *)
Lemma do_virtio_mmio_keeps vm i ipa : 0 <= vm < 2 -> 0 <= i < 2 -> keeps (do_virtio_mmio vm i ipa).
Proof.
  intros Hvm Hi. apply with_vcpu_keeps; [done|]. intros v Hv h Hh. pose proof (wh_vc h Hh) as [Hl _].
  destruct (aget_ok (h_vc h) vm) as [c Hc]; [lia|].
  destruct (virtio_mmio_ok vm v ipa (h_vc h) (h_mem h) (h_w h) c (wh_vc h Hh) Hv Hvm Hc) as (v' & vc' & m' & w' & E & Hvc & Hv' & Hrt & _).
  exists v'. rewrite E. cbn [mbind res_bind]. eexists. split; [done|]. split; [by destruct Hh|]. split; [done|].
  by eapply rt_only_key.
Qed.
Lemma vc_lens {A} (Q : A -> Prop) (m : st (list vcon) A) :
  (forall s, wf_vc s -> exists a s', m s = Ok (a, s') /\ wf_vc s' /\ Q a) -> yields Q (zoom h_vc put_vc m).
Proof. apply zoom_yields; [by intros h []|]. intros h s [] Hs. by split. Qed.
Lemma virtio_reset_keeps : keeps do_virtio_reset.
Proof.
  apply vc_lens. intros vc [Hl _]. exists tt, vc_reset. unfold len in Hl.
  destruct vc as [|a [|b [|]]]; cbn in Hl; try lia. split; [done|]. split; [closed_dec|done].
Qed.
Lemma virtio_set_offset_keeps vm off : 0 <= vm < 2 -> fits 64 off -> keeps (do_virtio_set_offset vm off).
Proof.
  intros Hvm Ho. apply vc_lens. intros vc [Hl HF]. destruct (aget_ok vc vm) as [c Hc]; [lia|].
  unfold update, virtio_set_offset. rewrite Hc. cbn [mbind res_bind]. rewrite aset_ok by lia. cbn [mbind res_bind].
  eexists tt, _. split; [done|]. split; [|done]. split; [by rewrite len_insert|]. apply Forall_insert; [done|].
  pose proof (Forall_aget _ _ _ _ HF Hc) as (?&?&?&?&?&?&?&?). by split_and!.
Qed.
Lemma virtio_take_irq_keeps vm : 0 <= vm < 2 -> keeps (do_virtio_take_irq vm).
Proof.
  intros Hvm. apply vc_lens. intros vc [Hl HF]. destruct (aget_ok vc vm) as [c Hc]; [lia|].
  unfold virtio_take_irq. rewrite Hc. cbn [mbind res_bind]. case_match; [|by eexists _, vc].
  rewrite aset_ok by lia. cbn [mbind res_bind].
  eexists _, _. split; [done|]. split; [|done]. split; [by rewrite len_insert|]. apply Forall_insert; [done|].
  pose proof (Forall_aget _ _ _ _ HF Hc) as (?&?&?&?&?&?&?&?). split_and!; try done. by left.
Qed.

Lemma vb_lens {A} (Q : A -> Prop) (m : st (list vblk) A) :
  (forall s, wf_vb s -> exists a s', m s = Ok (a, s') /\ wf_vb s' /\ Q a) -> yields Q (zoom h_vb put_vb m).
Proof. apply zoom_yields; [by intros h []|]. intros h s [] Hs. by split. Qed.

Lemma zero_disk_spec (post pre : list Z) i :
  len pre = i -> zero_disk (pre ++ post) i (length post) = Ok (pre ++ replicate (length post) 0).
Proof.
  revert pre i. induction post as [|x post IH]; intros pre i Hi; cbn [zero_disk length replicate]; [done|].
  rewrite aset_app by done. cbn [mbind res_bind]. rewrite (cons_middle 0 pre post), app_assoc, IH; [by rewrite <- app_assoc|].
  unfold len in *. rewrite length_app. cbn. lia.
Qed.
Lemma zero_disk_full d : length d = Z.to_nat DISK_SIZE -> zero_disk d 0 (Z.to_nat DISK_SIZE) = Ok disk0.
Proof. unfold disk0. generalize (Z.to_nat DISK_SIZE). intros n <-. by apply (zero_disk_spec d []). Qed.
Lemma reset_loop_pair (a b : vblk) :
  vblk_reset_loop [a; b] 0 2 =
  (da ← zero_disk (disk a) 0 (Z.to_nat DISK_SIZE); db ← zero_disk (disk b) 0 (Z.to_nat DISK_SIZE);
   Ok [mk_vblk (mk_vcon 0 4096 0 0 0 0 0 0) da; mk_vblk (mk_vcon 0 4096 0 0 0 0 0 0) db]).
Proof.
  cbn [vblk_reset_loop]. generalize (Z.to_nat DISK_SIZE). intros n.
  change (aget [a; b] 0) with (Ok a). cbn [mbind res_bind]. by destruct (zero_disk (disk a) 0 n).
Qed.
Lemma vblk_reset_eq vb : wf_vb vb -> vblk_reset vb = Ok vb0.
Proof.
  intros [Hl HF]. unfold len in Hl. destruct vb as [|a [|b [|]]]; cbn in Hl; try lia.
  rewrite !Forall_cons in HF. destruct HF as ((_ & La & _) & (_ & Lb & _) & _). unfold len in La, Lb.
  unfold vblk_reset. rewrite reset_loop_pair, !zero_disk_full by lia. reflexivity.
Qed.
Lemma vblk_reset_keeps : keeps do_vblk_reset.
Proof.
  apply vb_lens. intros vb Hvb. exists tt, vb0. unfold update. rewrite vblk_reset_eq by done.
  split; [done|]. split; [apply vb0_wf|done].
Qed.
Lemma vblk_set_offset_keeps vm off : 0 <= vm < 2 -> fits 64 off -> keeps (do_vblk_set_offset vm off).
Proof.
  intros Hvm Ho. apply vb_lens. intros vb [Hl HF]. destruct (aget_ok vb vm) as [b Hb]; [lia|].
  unfold update, vblk_set_offset. rewrite Hb. cbn [mbind res_bind]. rewrite aset_ok by lia. cbn [mbind res_bind].
  eexists tt, _. split; [done|]. split; [|done]. split; [by rewrite len_insert|]. apply Forall_insert; [done|].
  pose proof (Forall_aget _ _ _ _ HF Hb) as ((?&?&?&?&?&?&?&?)&?&?). split; [by split_and!|done].
Qed.
Lemma vblk_take_irq_keeps vm : 0 <= vm < 2 -> keeps (do_vblk_take_irq vm).
Proof.
  intros Hvm. apply vb_lens. intros vb [Hl HF]. destruct (aget_ok vb vm) as [b Hb]; [lia|].
  unfold vblk_take_irq. rewrite Hb. cbn [mbind res_bind]. case_match; [|by eexists _, vb].
  rewrite aset_ok by lia. cbn [mbind res_bind].
  eexists _, _. split; [done|]. split; [|done]. split; [by rewrite len_insert|]. apply Forall_insert; [done|].
  pose proof (Forall_aget _ _ _ _ HF Hb) as ((?&?&?&?&?&?&?&?)&?&?). split; [split_and!; try done; by left|done].
Qed.

(** ** Stage-2, interrupt controller, timer *)
Lemma map_1gb_keeps ipa : keeps (map_1gb ipa).
Proof.
  intros h Hh. destruct (wh_s2 h Hh) as (H1 & H2 & H3). pose proof (s2_idx_range ipa).
  unfold map_1gb, zoom, update, stage2_map_1gb. rewrite aset_ok by lia. cbn [mbind res_bind].
  eexists tt, _. split; [done|]. split; [|done]. destruct Hh. split; try done.
  split; [cbn; by rewrite len_insert|done].
Qed.
Lemma map_device_keeps ipa : keeps (map_device ipa).
Proof.
  intros h Hh. destruct (wh_s2 h Hh) as (H1 & H2 & H3). pose proof (s2_idx_range ipa).
  unfold map_device, zoom, update, stage2_map_1gb_device. rewrite aset_ok by lia. cbn [mbind res_bind].
  eexists tt, _. split; [done|]. split; [|done]. destruct Hh. split; try done.
  split; [cbn; by rewrite len_insert|done].
Qed.

Lemma gic_init_keeps : keeps do_gic_init.
Proof.
  intros h Hh. destruct (gic_init_runs (h_cpu h) (h_w h)) as (c' & w' & E & Hr & Hw).
  exists tt. unfold do_gic_init, on_hw, zoom. rewrite E. eexists. split; [done|].
  split; [|split; [|done]].
  - destruct Hh. split; try done. cbn. by apply Hw.
  - unfold config. cbn. rewrite Hr; [done|]. rewrite !not_elem_of_cons. split_and!; try done. by apply not_elem_of_nil.
Qed.
Lemma tm_lens (m : st (timer * (cpu * W)) unit) :
  (forall t c w, wf_timer t -> wf_cpu c -> exists t' c' w', m (t, (c, w)) = Ok (tt, (t', (c', w'))) /\ wf_timer t' /\
     wf_cpu c' /\ rd_sysreg "hcr_el2" c' = rd_sysreg "hcr_el2" c) -> keeps (on_tm m).
Proof.
  intros Hm h Hh. destruct (Hm (h_timer h) (h_cpu h) (h_w h) (wh_timer h Hh) (wh_cpu h Hh)) as (t' & c' & w' & E & Ht & Hc & Hr).
  exists tt. unfold on_tm, zoom. rewrite E. eexists. split; [done|]. split; [by destruct Hh; split|].
  split; [|done]. unfold config. cbn. by rewrite Hr.
Qed.
Lemma timer_init_keeps : keeps do_hyptimer_init.
Proof.
  apply tm_lens. intros t c w (H1 & H2 & H3) Hc.
  destruct (printf_runs (bytes "[TIMER] CNTFRQ = %u Hz; hyp timer PPI %u enabled" ++ [LF])
    [AInt (pl_cntfrq w); AInt HYP_TIMER_PPI] (pl_write32 GICR_ISENABLER0 (u32 (bit (HYP_TIMER_PPI .& 31))) w)) as [w' E].
  { constructor; [apply cntfrq_fits|]. constructor; [fits_const|constructor]. }
  { by eexists. }
  eexists (mk_timer (pl_cntfrq w) (t_interval t) (t_ticks t)), c, w'. split; [|split; [|done]].
  - assert (hyptimer_init (t, (c, w)) =
      match uart_printf (bytes "[TIMER] CNTFRQ = %u Hz; hyp timer PPI %u enabled" ++ [LF])
        [AInt (pl_cntfrq w); AInt HYP_TIMER_PPI] (pl_write32 GICR_ISENABLER0 (u32 (bit (HYP_TIMER_PPI .& 31))) w) with
      | Ok (a, w') => Ok (a, (mk_timer (pl_cntfrq w) (t_interval t) (t_ticks t), (c, w')))
      | Err f => Err f end) as ->; [|by rewrite E].
    unfold hyptimer_init, at_hw, at_w, at_timer, timer_get, gets, modify, zoom, mbind, st_bind.
    cbn [fst snd t_freq gic_enable_ppi mmio_write32]. by destruct (uart_printf _ _ _) as [[]|].
  - split; [apply cntfrq_fits|done].
Qed.
Lemma timer_start_keeps ms : keeps (timer_start ms).
Proof.
  apply tm_lens. intros t c w (H1 & H2 & H3) Hc. destruct (pl_cntpct w) as [x w'] eqn:Ep. eexists _, _, w'. split.
  - unfold hyptimer_start, at_timer, at_hw, at_w, timer_get, msr, at_cpu, zoom, gets, modify, mbind, st_bind.
    cbn [fst snd]. rewrite Ep. reflexivity.
  - split; [|split].
    + split; [done|]. pose proof (fits_wrap 64 (t_freq t * ms) ltac:(lia)). cbn. split; [|fits_const]. zlia.
    + apply wf_wr_sysreg; [fits_const|]. apply wf_wr_sysreg; [apply fits_wrap; lia|done].
    + by sysreg.
Qed.
Lemma timer_stop_keeps : keeps timer_stop.
Proof.
  apply tm_lens. intros t c w Ht Hc. eexists _, _, _. split; [reflexivity|]. split; [done|].
  split; [apply wf_wr_sysreg; [fits_const|done]|by sysreg].
Qed.
Lemma timer_on_irq_keeps : keeps timer_on_irq.
Proof.
  apply tm_lens. intros t c w (H1 & H2 & H3) Hc. eexists _, _, _. split; [reflexivity|].
  split; [split; [done|split; [done|apply fits_wrap; lia]]|].
  split; [apply wf_wr_sysreg; [apply fits_wrap; lia|done]|by sysreg].
Qed.

(** ** Setting up: operations that change the configuration *)
Definition total {A} (Q : A -> Prop) (m : M A) : Prop :=
  forall h, wf_hv h -> exists a h', m h = Ok (a, h') /\ wf_hv h' /\ Q a.
Lemma total_bind {A B} (P : A -> Prop) (Q : B -> Prop) (m : M A) (f : A -> M B) :
  total P m -> (forall a, P a -> total Q (f a)) -> total Q (m ≫= f).
Proof.
  intros Hm Hf h Hh. destruct (Hm h Hh) as (a & h1 & E & H1 & Pa).
  destruct (Hf a Pa h1 H1) as (b & h2 & E2 & H2 & Qb). exists b, h2. by rewrite (st_bind_Ok _ _ _ _ _ E).
Qed.
Lemma total_yields {A} (Q : A -> Prop) (m : M A) : yields Q m -> total Q m.
Proof. intros Hm h Hh. destruct (Hm h Hh) as (a & h' & ? & ? & _ & ?). by exists a, h'. Qed.

Lemma loop_total {L} (I J : L -> Prop) (mu : L -> Z) (body : L -> M (bool * L)) :
  (forall l, I l -> total (fun r : bool * L => if r.1 then I r.2 /\ 0 <= mu r.2 < mu l else J r.2) (body l)) ->
  forall fuel l, I l -> mu l < Z.of_nat fuel -> 0 <= mu l -> total J (loop fuel body l).
Proof.
  intros Hb. induction fuel as [|fuel IH]; intros l Hl Hmu H0; [lia|].
  cbn [loop]. eapply total_bind; [by apply Hb|]. intros [[] l1] HI; cbn in *.
  - apply IH; [by apply HI|lia|lia].
  - by apply total_yields, yields_ret.
Qed.
Lemma reach_total {L} (I J : L -> Prop) (body : L -> M (bool * L)) l h l' h' :
  (forall l, I l -> total (fun r : bool * L => if r.1 then I r.2 else J r.2) (body l)) -> I l -> wf_hv h ->
  reach body l h l' h' -> wf_hv h' /\ I l' /\ is_ok (body l' h').
Proof.
  intros Hb Hl Hh R. induction R as [l h|l h l1 h1 l2 h2 E R IH].
  - destruct (Hb l Hl h Hh) as (r & h1 & E & _). split; [done|]. split; [done|]. by eexists.
  - destruct (Hb l Hl h Hh) as (r & h3 & E' & W1 & I1). rewrite E in E'. injection E' as <- <-. by apply IH.
Qed.

Lemma psci_gets_total {A} (f : psci -> A) : total (fun _ => True) (psci_get (W := W) f).
Proof. intros h Hh. by eexists _, h. Qed.
Lemma psci_fits_total f :
  (forall p, wf_psci p -> fits 64 (f p)) -> total (fits 64) (psci_get (W := W) f).
Proof. intros Hf h Hh. eexists _, h. split; [done|]. split; [done|]. apply Hf, Hh. Qed.
Lemma clear_pending_total : total (fun _ => True) (clear_pending (W := W)).
Proof. intros h Hh. eexists tt, _. split; [done|]. split; [|done]. by destruct Hh. Qed.

Lemma wr_sys_total r v : fits 64 v -> total (fun _ => True) (wr_sys r v).
Proof. intros Hv h Hh. eexists tt, _. split; [done|]. split; [|done]. destruct Hh. split; try done. by apply wf_wr_sysreg. Qed.
Lemma init_vcpu_total i entry sp vt :
  0 <= i < 2 -> fits 64 entry -> fits 64 sp -> fits 64 vt -> total (fun _ => True) (init_vcpu i entry sp vt).
Proof.
  intros Hi He Hs Hv h Hh. destruct (wh_vcpus h Hh) as [Hl HF]. unfold init_vcpu, set_vcpu, update.
  rewrite aset_ok by lia. cbn [mbind res_bind]. eexists tt, _. split; [done|]. split; [|done].
  destruct Hh. split; try done. split; [cbn; by rewrite len_insert|]. apply Forall_insert; [done|].
  apply vcpu_init_wf; try done. unfold fits. lia.
Qed.
Lemma stage2_init_runs (h : hv W) :
  wf_hv h -> exists h', do_stage2_init lk h = Ok (tt, h') /\ wf_hv h' /\
    core h' = ((core h).1, VTCR_EL2_VALUE) /\
    h_s2 h' = mk_stage2 (put_block (replicate 512 0) 0x40000000 0x40000000 S2_BLOCK_NORMAL) (s2_vm (h_s2 h)) VTCR_EL2_VALUE.
Proof.
  intros Hh. destruct (wh_s2 h Hh) as (H1 & H2 & H3). unfold do_stage2_init.
  assert (zoom h_s2 put_s2 (update stage2_init) h = Ok (tt, put_s2 h (mk_stage2 (put_block (replicate 512 0) 0x40000000 0x40000000 S2_BLOCK_NORMAL)
    (s2_vm (h_s2 h)) VTCR_EL2_VALUE))) as E by (unfold zoom, update; by rewrite stage2_init_table).
  rewrite (st_bind_Ok _ _ _ _ _ E).
  destruct (printf_runs (bytes "[M3] stage-2 ON: vtcr=%x vttbr=%x (mapped 1GiB @0x40000000)" ++ [LF])
    [AInt VTCR_EL2_VALUE; AInt (u64 (lk_s2_l1 lk))] (h_w h)) as [w' Ew].
  { constructor; [fits_const|]. constructor; [apply fits_wrap; lia|constructor]. }
  { by eexists. }
  unfold printf, on_uart, zoom. cbn [h_w put_s2]. rewrite Ew. eexists. split; [done|]. split; [by destruct Hh|done].
Qed.
Lemma stage2_init_total : total (fun _ => True) (do_stage2_init lk).
Proof. intros h Hh. destruct (stage2_init_runs h Hh) as (h' & E & Hw & _). by exists tt, h'. Qed.
Lemma build_vm_total vm ipa pa vmid :
  0 <= vm < 2 -> total (fits 64) (build_vm lk vm ipa pa vmid).
Proof.
  intros Hvm h Hh. destruct (wh_s2 h Hh) as (H1 & H2 & H3). unfold build_vm, zoom, stage2_build_vm.
  destruct (aget_ok (s2_vm (h_s2 h)) vm) as [t Ht]; [lia|]. rewrite Ht. cbn [mbind res_bind].
  rewrite zero_fill_all by (apply (Forall_aget _ _ _ _ H3 Ht)). cbn [mbind res_bind].
  pose proof (s2_idx_range ipa). rewrite aset_ok by (unfold len; rewrite length_replicate; lia). cbn [mbind res_bind].
  rewrite aset_ok by lia. cbn [mbind res_bind]. eexists _, _. split; [done|]. split.
  - destruct Hh. split; try done. split; [done|]. cbn. split; [by rewrite len_insert|].
    apply Forall_insert; [done|]. by rewrite len_insert.
  - apply fits_lor; [lia|apply fits_wrap; lia..].
Qed.
End Keeps.

(** The state at power-on over the scripted machine, for concrete runs. *)
Definition hv_boot {W} (w : W) : hv W :=
  mk_hv (mk_cpu (replicate 31 0) (replicate 32 0) ∅) ∅ w stage2_boot vgic_boot [zero_vcpu; zero_vcpu] vuart_boot
    vc_reset vb0 timer_boot psci_boot cntp_boot.
Lemma hv_boot_wf {W} (w : W) : wf_hv (hv_boot w).
Proof.
  split.
  - split; [done|]. split; [closed_dec|]. split; [done|]. apply map_Forall_empty.
  - split; [done|]. split; [done|]. by repeat constructor.
  - apply wf_vgic_boot.
  - split; [done|]. repeat constructor; apply zero_vcpu_wf.
  - split; [fits_const|cbn; lia].
  - closed_dec.
  - apply vb0_wf.
  - split; [fits_const|split; fits_const].
  - split; fits_const.
  - closed_dec.
Qed.
Definition link0 : link := mk_link 0x70100000 0x70200000 0x70300000 0x70301000 (fun _ => 0x70010000) (fun _ => []).
