(* ===== verification/Sched.v ===== *)
(** The single-VM scheduling loops of src/src/vcpu.c: the round-robin scheduler, the
    virtual-interrupt and software-vGIC demonstrations and the SMP loops (two vCPUs
    of one guest, IPIs, PSCI bring-up).  Barriers and cache maintenance have no
    effect in the model.  Local variables of a loop are its [L] state; a C [int]
    printed with %d/%u occupies its argument slot zero-extended. *)

From S2P Require Import Prelude Esr Machine Vcpu Stage2 Vgic Uart Vdev Handlers Vvirtio Vblk Timer Hv.

(** A format string ending in a newline, and an [int] argument. *)
Definition ln (s : string) : list Z := bytes s ++ [LF].
Definition AI (n : Z) : arg := AInt (u32 n).
Definition AS (s : string) : arg := AStr (Some (bytes s)).
Definition name_of (ec : Z) : arg := AS (ec_name ec).

(** HCR_EL2 values: RW | VM, with DC, IMO and TSC as needed. *)
Definition HCR_RW_VM_DC := bit 31 .| bit 0 .| bit 12.
Definition HCR_RW_VM_DC_IMO := bit 31 .| bit 0 .| bit 12 .| bit 4.
Definition ICH_EN_TC := bit 0 .| bit 8.

Section Sched.
Context {W : Type} {PL : Platform W} (lk : link).
Abbreviation M A := (st (hv W) A).

(** The transfer register of a trapped system-register write, and the SGI number in
    an ICC_SGI1R value. *)
Definition trapped_rt (i : Z) : M Z :=
  v ← get_vcpu i; try_ (fun _ => read_rt v (iss_rt (ESR_ISS (exit_esr v)))).
Definition sgi_intid (val : Z) : Z := (val ≫ 24) .& 0xF.
(** [s = vgic_pop_sgi(i); if (s >= 0) vgic_inject(&vcpus[i], s)] *)
Definition deliver_sgi (i : Z) : M unit :=
  s ← pop_sgi i; if 0 <=? s then inject i (u32 s) else mret tt.
(** Route a trapped ICC_SGI1R write of vCPU [i] to the other vCPUs. *)
Definition route_sgi (i : Z) : M Z :=
  val ← trapped_rt i;
  let intid := sgi_intid val in
  post_sgi i intid;; advance i;; mret intid.
Definition init_at (i : Z) (entry : string) : M unit :=
  init_vcpu i (lk_entry lk entry) (stack_top lk i) (vttbr_g lk).

(** ** run_vcpus and sched_demo *)
Definition rv_one (budget : Z) (tag : string) (i : Z) (l : list Z * Z) : M (list Z * Z) :=
  let '(hcalls, active) := l in
  v ← get_vcpu i;
  if negb (halted v =? 0) then mret (hcalls, active)
  else
    run_once lk i;;
    v ← get_vcpu i;
    let ec := exit_ec v in
    if ec =? EC_HVC64 then
      x0 ← x_of i 0;
      printf (ln "[%s] vCPU %d HVC, x0=%u") [AS tag; AI (vid v); AInt x0];;
      n ← try_ (fun _ => aget hcalls i);
      hcalls ← try_ (fun _ => aset hcalls i (n + 1));
      if budget <=? n + 1 then halt i;; mret (hcalls, active - 1) else mret (hcalls, active)
    else if is_abort ec then
      let ipa := exit_ipa v in
      (if (ec =? EC_DABT_LOW) && vuart_contains ipa then do_mmio_emulate i ipa else map_1gb (block_base ipa));;
      mret (hcalls, active)
    else
      printf (ln "[%s] vCPU %d unexpected exit ec=%x (%s), halting") [AS tag; AI (vid v); AInt ec; name_of ec];;
      halt i;; mret (hcalls, active - 1).

Fixpoint rv_for (n : nat) (budget : Z) (tag : string) (i : Z) (l : list Z * Z) : M (list Z * Z) :=
  match n with
  | O => mret l
  | S n => l ← rv_one budget tag i l; rv_for n budget tag (i + 1) l
  end.
Definition rv_body (n : nat) (budget : Z) (tag : string) (l : list Z * Z) : M (bool * (list Z * Z)) :=
  if l.2 =? 0 then mret (false, l) else l ← rv_for n budget tag 0 l; mret (true, l).
Definition run_vcpus (fuel n : nat) (budget : Z) (tag : string) : M (list Z * Z) :=
  loop fuel (rv_body n budget tag) (replicate 2 0, Z.of_nat n).

Definition sched_demo (fuel : nat) : M unit :=
  do_stage2_init lk;;
  wr_sys "hcr_el2" (bit 31 .| bit 0 .| bit 12);;
  println "[M4] two counting vCPUs, round-robin (3 hypercalls each):";;
  init_at 0 "guest_counter_entry";;
  init_at 1 "guest_counter_entry";;
  _ ← run_vcpus fuel 2 3 "M4";
  println "[M5] one vCPU printing via emulated MMIO UART:";;
  puts "      guest says> ";;
  init_at 0 "guest_vuart_entry";;
  _ ← run_vcpus fuel 1 1 "M5";
  println "[SCHED] all vCPUs halted; demo done.".

(** ** virq_demo: local [ticks] *)
Definition virq_body (nticks : Z) (ticks : Z) : M (bool * Z) :=
  if nticks <=? ticks then mret (false, ticks)
  else
    run_once lk 0;;
    v ← get_vcpu 0;
    if is_irq v then
      iar ← ack;
      let intid := iar .& 0xFFFFFF in
      (if intid =? HYP_TIMER_PPI then timer_on_irq;; inject 0 27 else mret tt);;
      eoi_real intid iar;;
      mret (true, ticks)
    else if exit_ec v =? EC_HVC64 then
      x0 ← x_of 0 0;
      printf (ln "[M6b] guest handled virtual tick #%u (guest's own counter x0=%u)") [AI (ticks + 1); AInt x0];;
      mret (true, ticks + 1)
    else
      printf (ln "[M6b] unexpected exit reason=%u esr=%x, stopping") [AInt (exit_reason v); AInt (exit_esr v)];;
      mret (false, ticks).
Definition virq_demo (fuel : nat) (nticks : Z) : M unit :=
  init_at 0 "guest_virq_entry";;
  wr_sys "hcr_el2" HCR_RW_VM_DC_IMO;;
  wr_sys "ich_hcr_el2" 1;;
  timer_start 100;;
  println "[M6b] injecting virtual timer ticks into the guest:";;
  ticks ← loop fuel (virq_body nticks) 0;
  timer_stop;;
  printf (ln "[M6b] delivered %u virtual timer ticks to the guest.") [AI ticks].

(** ** vgic_demo: local [ticks] *)
Definition vgic_body (nticks : Z) (ticks : Z) : M (bool * Z) :=
  if nticks <=? ticks then mret (false, ticks)
  else
    run_once lk 0;;
    v ← get_vcpu 0;
    if is_irq v then
      iar ← ack;
      let intid := iar .& 0xFFFFFF in
      (if intid =? HYP_TIMER_PPI then
         timer_on_irq;; e ← irq_enabled 0 27; (if e : bool then inject 0 27 else mret tt)
       else mret tt);;
      eoi_real intid iar;;
      mret (true, ticks)
    else
      let ec := exit_ec v in
      if ec =? EC_HVC64 then
        printf (ln "[M13] guest serviced vGIC IRQ #%u (acked vINTID via ICV)") [AI (ticks + 1)];;
        mret (true, ticks + 1)
      else if is_abort ec then
        let ipa := exit_ipa v in
        (if vgic_contains ipa then do_vgic_mmio 0 0 ipa else map_1gb (block_base ipa));;
        mret (true, ticks)
      else
        printf (ln "[M13] unexpected exit ec=%x (%s), stopping") [AInt ec; name_of ec];;
        mret (false, ticks).
Definition vgic_demo (fuel : nat) (nticks : Z) : M unit :=
  do_stage2_init lk;;
  do_vgic_reset;;
  wr_sys "hcr_el2" HCR_RW_VM_DC_IMO;;
  wr_sys "ich_hcr_el2" 1;;
  init_at 0 "guest_vgic_entry";;
  timer_start 100;;
  println "[M13] software vGIC: guest configures emulated GICD/GICR,";;
  println "      hypervisor injects a virtual timer only when enabled.";;
  ticks ← loop fuel (vgic_body nticks) 0;
  timer_stop;;
  printf (ln "[M13] vGIC delivered %u interrupts through the emulated distributor.") [AI ticks].

(** ** smp_demo: [for (round...) for (i = 0; i < 2 && !got; i++)]; local [got] *)
Definition smp_one (i : Z) (got : bool) : M bool :=
  if got then mret true
  else
    s ← pop_sgi i;
    (if 0 <=? s then
       inject i (u32 s);;
       printf (ln "[M14] injecting SGI %d into vCPU%d's list register") [AI s; AI i]
     else mret tt);;
    run_once lk i;;
    v ← get_vcpu i;
    if is_irq v then ack_drop;; mret false
    else
      let ec := exit_ec v in
      if ec =? EC_SYSREG then
        val ← trapped_rt i;
        let intid := sgi_intid val in
        post_sgi i intid;;
        printf (ln "[M14] vCPU%d issued ICC_SGI1R -> SGI %u (trapped)") [AI i; AI intid];;
        advance i;;
        mret false
      else if ec =? EC_HVC64 then
        if i =? 0 then mret false
        else
          x0 ← x_of i 0;
          printf (ln "[M14] vCPU1 RECEIVED virtual IPI: SGI INTID %u (from vCPU0) via ICV") [AInt x0];;
          mret true
      else
        printf (ln "[M14] vCPU%d unexpected exit ec=%x (%s)") [AI i; AInt ec; name_of ec];;
        mret true.
Definition smp_body (l : Z * bool) : M (bool * (Z * bool)) :=
  let '(round, got) := l in
  if (round <? 50) && negb got then
    got ← smp_one 0 got;
    got ← smp_one 1 got;
    mret (true, (round + 1, got))
  else mret (false, l).
Definition smp_demo : M unit :=
  do_stage2_init lk;;
  do_vgic_reset;;
  wr_sys "hcr_el2" HCR_RW_VM_DC_IMO;;
  wr_sys "ich_hcr_el2" ICH_EN_TC;;
  init_at 0 "guest_ipi_entry";; set_x 0 0 0;;
  init_at 1 "guest_ipi_entry";; set_x 1 0 1;;
  println "[M14] SMP: vCPU0 sends a virtual IPI (SGI) to vCPU1 via the vGIC";;
  '(_, got) ← loop 52 smp_body (0, false);
  println (if got : bool then "[M14] virtual IPI delivered between vCPUs through the vGIC."
           else "[M14] IPI not delivered (timeout).").

(** ** smp_sched_demo: locals [cur], [slices], [guard] *)
Record sched := mk_sched { sc_cur : Z; sc_slices : Z; sc_guard : Z }.
Definition smp_sched_body (l : sched) : M (bool * sched) :=
  let '(mk_sched cur slices guard) := l in
  if negb (slices <? 12) then mret (false, l)
  else if negb (guard <? 100000) then mret (false, mk_sched cur slices (guard + 1))
  else
    let guard := guard + 1 in
    deliver_sgi cur;;
    run_once lk cur;;
    v ← get_vcpu cur;
    let ec := exit_ec v in
    if is_irq v then
      iar ← ack;
      let intid := iar .& 0xFFFFFF in
      if intid =? HYP_TIMER_PPI then
        timer_on_irq;; eoi_real intid iar;; mret (true, mk_sched (Z.lxor cur 1) (slices + 1) guard)
      else eoi_real intid iar;; mret (true, mk_sched cur slices guard)
    else if ec =? EC_SYSREG then
      _ ← route_sgi cur; mret (true, mk_sched cur slices guard)
    else
      printf (ln "[M15] vCPU%d unexpected exit ec=%x (%s)") [AI cur; AInt ec; name_of ec];;
      mret (false, mk_sched cur slices guard).
Definition smp_sched_demo : M unit :=
  do_stage2_init lk;;
  do_vgic_reset;;
  do_gic_init;;
  do_hyptimer_init;;
  wr_sys "hcr_el2" HCR_RW_VM_DC_IMO;;
  wr_sys "ich_hcr_el2" ICH_EN_TC;;
  init_at 0 "guest_smp_entry";; set_x 0 0 0;;
  init_at 1 "guest_smp_entry";; set_x 1 0 1;;
  println "[M15] dual-core guest: 2 vCPUs time-sliced by the EL2 timer;";;
  println "      vCPU0 (producer) IPIs vCPU1 (consumer). Both run concurrently.";;
  timer_start 10;;
  l ← loop (Z.to_nat 100002) smp_sched_body (mk_sched 0 0 0);
  timer_stop;;
  w0 ← x_of 0 20;
  w1 ← x_of 1 20;
  n1 ← x_of 1 21;
  printf (ln "[M15] after %d time-slices: vCPU0 work=%u, vCPU1 work=%u, vCPU1 received %u IPIs")
    [AI (sc_slices l); AInt w0; AInt w1; AInt n1];;
  println "[M15] dual-core guest: both vCPUs ran (preempted) and coordinated via virtual IPIs.".
End Sched.

(** * Proof automation for the run loops *)
Lemma exit_esr_fits v : wf_vcpu v -> fits 64 (exit_esr v).
Proof. intros (_ & _ & _ & _ & _ & _ & HB). cbv zeta in HB. rewrite !Forall_cons in HB. by destruct_and!. Qed.
Lemma exit_far_fits v : wf_vcpu v -> fits 64 (exit_far v).
Proof. intros (_ & _ & _ & _ & _ & _ & HB). cbv zeta in HB. rewrite !Forall_cons in HB. by destruct_and!. Qed.
Lemma exit_hpfar_fits v : wf_vcpu v -> fits 64 (exit_hpfar v).
Proof. intros (_ & _ & _ & _ & _ & _ & HB). cbv zeta in HB. rewrite !Forall_cons in HB. by destruct_and!. Qed.
Lemma exit_reason_fits v : wf_vcpu v -> fits 64 (exit_reason v).
Proof. intros (_ & _ & _ & _ & _ & _ & HB). cbv zeta in HB. rewrite !Forall_cons in HB. by destruct_and!. Qed.
Lemma ec_fits v : fits 64 (exit_ec v).
Proof. unfold exit_ec. rewrite ESR_EC_wrap. apply (fits_mono 6); [lia|apply fits_wrap; lia]. Qed.
Lemma pc_fits v : wf_vcpu v -> fits 64 (pc v).
Proof. by intros (_ & _ & ? & _). Qed.
Lemma ipa_fits v : fits 64 (exit_ipa v).
Proof.
  unfold exit_ipa, fault_ipa. apply fits_lor; [lia|apply fits_wrap; lia|].
  change 0xFFF with (Z.ones 12). rewrite land_ones_wrap by lia. apply (fits_mono 12); [lia|apply fits_wrap; lia].
Qed.
Lemma AI_ok n : arg_ok (AI n).
Proof. apply (fits_mono 32); [lia|apply fits_wrap; lia]. Qed.
#[export] Hint Resolve exit_reason_fits exit_esr_fits exit_far_fits exit_hpfar_fits ec_fits pc_fits ipa_fits AI_ok : hv.

Section SgiLemmas.
Context {W : Type} {PL : Platform W} {PO : PlatformOk W}.

Lemma trapped_rt_yields i : 0 <= i < 2 -> yields (fits 64) (trapped_rt (W := W) i).
Proof.
  intros Hi. unfold trapped_rt. eapply yields_bind; [by apply get_vcpu_yields|]. intros v Hv.
  apply yields_try. intros _ _. destruct (read_rt_ok v _ Hv (iss_rt_range (ESR_ISS (exit_esr v)))) as (x & ? & ?). by exists x.
Qed.
Lemma route_sgi_keeps i : 0 <= i < 2 -> keeps (route_sgi (W := W) i).
Proof.
  intros Hi. unfold route_sgi. eapply yields_bind; [by apply trapped_rt_yields|]. intros val _. cbv zeta.
  eapply yields_bind; [apply post_sgi_keeps|]. intros _ _. eapply yields_bind; [by apply advance_keeps|].
  intros _ _. by apply yields_ret.
Qed.
Lemma deliver_sgi_keeps i : 0 <= i < 2 -> keeps (deliver_sgi (W := W) i).
Proof.
  intros Hi. unfold deliver_sgi. eapply yields_bind; [apply pop_sgi_yields; lia|]. intros s _.
  case_match; [apply inject_keeps; [done|apply fits_wrap; lia]|by apply yields_ret].
Qed.
End SgiLemmas.

(** Boolean tests met on the way to a leaf. *)
Ltac hv_bools :=
  repeat match goal with
  | H : negb _ = true |- _ => apply negb_true_iff in H
  | H : negb _ = false |- _ => apply negb_false_iff in H
  | H : _ && _ = true |- _ => apply andb_prop in H as [? ?]
  end.
(** Side conditions of the operations' lemmas. *)
Ltac hv_side :=
  try match goal with
  | |- _ <= _ < _ => lia
  | |- Forall arg_ok _ => repeat (apply Forall_cons; split); try apply Forall_nil; try exact I; cbn [arg_ok AS name_of]; auto with hv;
      try match goal with |- fits _ (wrap _ _) => apply fits_wrap; lia | |- fits _ ?z => is_ground z; fits_const end
  | |- is_Some (render _ _) => eexists; reflexivity
  | |- fits _ (wrap _ _) => apply fits_wrap; lia
  | |- fits _ ?z => first [assumption | is_ground z; fits_const | solve [auto 2 with hv]]
  | |- _ <> _ => discriminate
  | |- _ = true => hv_bools; assumption
  end.

(** The lemma for the operation at the head of a goal. *)
Ltac hv_prim :=
  match goal with
  | |- yields _ (get_vcpu _) => apply get_vcpu_yields
  | |- yields _ (x_of _ _) => apply x_of_yields
  | |- yields _ ack => apply ack_yields
  | |- yields _ (pop_sgi _) => apply pop_sgi_yields
  | |- yields _ (read_mem32 _) => apply read_mem32_yields
  | |- yields _ (on_uart uart_getc_nonblock) => apply getc_yields
  | |- yields _ (println _) => apply println_keeps
  | |- yields _ (puts _) => apply puts_keeps
  | |- yields _ (printf _ _) => apply printf_keeps
  | |- yields _ (eoi_real _ _) => apply eoi_real_keeps
  | |- yields _ ack_drop => apply ack_drop_keeps
  | |- yields _ (run_once _ _) => apply run_once_keeps
  | |- yields _ (inject _ _) => apply inject_keeps
  | |- yields _ (irq_enabled _ _) => apply irq_enabled_keeps
  | |- yields _ (spi_enabled_q _ _) => apply spi_enabled_keeps
  | |- yields _ (post_sgi _ _) => apply post_sgi_keeps
  | |- yields _ (do_vgic_mmio _ _ _) => apply do_vgic_mmio_keeps
  | |- yields _ (do_mmio_emulate _ _) => apply do_mmio_emulate_keeps
  | |- yields _ (do_mmio_zero _) => apply do_mmio_zero_keeps
  | |- yields _ (do_cntp _ _) => apply do_cntp_keeps
  | |- yields _ (do_psci _) => apply do_psci_keeps
  | |- yields _ (do_virtio_mmio _ _ _) => apply do_virtio_mmio_keeps
  | |- yields _ (do_virtio_take_irq _) => apply virtio_take_irq_keeps
  | |- yields _ (do_vblk_take_irq _) => apply vblk_take_irq_keeps
  | |- yields _ (trapped_rt _) => apply trapped_rt_yields
  | |- yields _ (route_sgi _) => apply route_sgi_keeps
  | |- yields _ (deliver_sgi _) => apply deliver_sgi_keeps
  | |- yields _ (map_1gb _) => apply map_1gb_keeps
  | |- yields _ (set_x _ _ _) => apply set_x_keeps
  | |- yields _ (advance _) => apply advance_keeps
  | |- yields _ (halt _) => apply halt_keeps
  | |- yields _ (timer_start _) => apply timer_start_keeps
  | |- yields _ timer_stop => apply timer_stop_keeps
  | |- yields _ timer_on_irq => apply timer_on_irq_keeps
  | H : keeps ?m |- yields _ ?m => exact H
  end.

(** Introduce a result and what is known of it. *)
Ltac intro_result :=
  let HP := fresh "HP" in
  intros ? HP; cbv beta in HP; try match type of HP with True => clear HP end.

(** Symbolic execution of a loop body; stops at the leaves. *)
Ltac hv_step :=
  match goal with
  | |- keeps _ => unfold keeps
  | |- yields _ (let '(_, _) := ?x in _) => destruct x
  | |- yields _ (if ?b then _ else _) => destruct b eqn:?
  | |- yields _ (mret _) => apply yields_ret
  | |- yields _ (?m ≫= _) => first
      [ eapply yields_bind; [solve [hv_prim; hv_side]|]; intro_result
      | apply (yields_bind (fun _ : unit => True)); [|intros [] _] ]
  | |- yields _ _ => solve [hv_prim; hv_side | eapply yields_weaken; [hv_prim; hv_side|done]]
  end.
Ltac hv_run := repeat hv_step.

(** What the linker guarantees: 64-bit addresses. *)
Definition link_ok (lk : link) : Prop := fits 64 (lk_s2_l1 lk) /\ forall e, fits 64 (lk_entry lk e).

(** Set-up sequences. *)
Ltac hv_setup_prim :=
  match goal with
  | |- total _ (wr_sys _ _) => apply wr_sys_total
  | |- total _ (init_vcpu _ _ _ _) => apply init_vcpu_total
  | |- total _ (do_stage2_init _) => apply stage2_init_total
  | |- total _ (build_vm _ _ _ _ _) => apply build_vm_total
  | |- total _ (init_at _ _ _) => unfold init_at; apply init_vcpu_total
  | |- total _ do_vgic_reset => apply total_yields, vgic_reset_keeps
  | |- total _ (do_set_ngicr _) => apply total_yields, set_ngicr_keeps
  | |- total _ do_gic_init => apply total_yields, gic_init_keeps
  | |- total _ do_hyptimer_init => apply total_yields, timer_init_keeps
  | |- total _ do_virtio_reset => apply total_yields, virtio_reset_keeps
  | |- total _ (do_virtio_set_offset _ _) => apply total_yields, virtio_set_offset_keeps
  | |- total _ do_vblk_reset => apply total_yields, vblk_reset_keeps
  | |- total _ (do_vblk_set_offset _ _) => apply total_yields, vblk_set_offset_keeps
  | |- total _ (copy_image _ _ _) => apply total_yields, copy_image_keeps
  | |- total _ (psci_get psci_on_entry) => apply psci_fits_total; by intros ? []
  | |- total _ (psci_get psci_on_ctx) => apply psci_fits_total; by intros ? []
  | |- total _ (psci_get _) => apply psci_gets_total
  | |- total _ clear_pending => apply clear_pending_total
  | |- total _ (map_device _) => apply total_yields, map_device_keeps
  | |- total _ _ => apply total_yields; hv_prim
  end.
Ltac setup_side :=
  match goal with
  | |- fits _ (stack_top _ _) => apply fits_wrap; lia
  | Hl : link_ok ?lk |- fits _ (lk_entry ?lk _) => apply Hl
  | Hl : link_ok ?lk |- fits _ (vttbr_g ?lk) => apply Hl
  | _ => hv_side
  end.
Ltac hv_setup :=
  repeat match goal with
  | |- total _ (let '(_, _) := ?x in _) => destruct x
  | |- total _ (if ?b then _ else _) => destruct b eqn:?
  | |- total _ (mret _) => apply total_yields, yields_ret; first [exact I | idtac]
  | |- total _ (_ ≫= _) => first
      [ eapply total_bind; [solve [hv_setup_prim; setup_side]|]; intro_result
      | apply (total_bind (fun _ : unit => True)); [|intros [] _] ]
  | |- total _ _ => solve [hv_setup_prim; setup_side]
  end.

Section SchedTheorems.
Context {W : Type} {PL : Platform W} {PO : PlatformOk W} (lk : link).

(** Local state of smp_sched_demo: the vCPU to run alternates with the slices. *)
Definition sched_inv (l : sched) : Prop :=
  0 <= sc_slices l <= 12 /\ 0 <= sc_guard l <= 100000 /\ sc_cur l = sc_slices l mod 2.

Lemma flip x : Z.lxor (x mod 2) 1 = (x + 1) mod 2.
Proof.
  pose proof (Z.mod_pos_bound x 2 ltac:(lia)). rewrite Zplus_mod.
  assert (x mod 2 = 0 \/ x mod 2 = 1) as [-> | ->] by lia; done.
Qed.

Lemma smp_sched_body_ok l :
  sched_inv l ->
  yields (fun r : bool * sched => if r.1 then sched_inv r.2 /\ 0 <= 100000 - sc_guard r.2 < 100000 - sc_guard l else True)
         (smp_sched_body (W := W) lk l).
Proof.
  destruct l as [cur slices guard]. unfold sched_inv. cbn [sc_cur sc_slices sc_guard]. intros (H1 & H2 & ->).
  pose proof (Z.mod_pos_bound slices 2 ltac:(lia)). unfold smp_sched_body. cbv zeta.
  hv_run; cbn [fst snd sc_cur sc_slices sc_guard]; rewrite ?flip; hv_bools; try exact I; lia.
Qed.

Lemma sched_inv_start : sched_inv (mk_sched 0 0 0).
Proof. split; [cbn; lia|]. split; [cbn; lia|done]. Qed.

Lemma smp_sched_demo_runs : link_ok lk -> total (fun _ => True) (smp_sched_demo (W := W) lk).
Proof.
  intros Hlk. unfold smp_sched_demo. hv_setup.
  eapply total_bind; [apply total_yields, (loop_yields sched_inv (fun _ => True) (fun l => 100000 - sc_guard l));
    [apply smp_sched_body_ok|apply sched_inv_start|cbn [sc_guard]; lia|cbn [sc_guard]; lia]|].
  intros l _. hv_setup.
Qed.

(** C27: The time-sliced dual-core scheduler always finishes and is fair.  From any
    well-formed state and against any guest behaviour, smp_sched_demo returns with a
    well-formed state; and at every head of its loop the vCPU about to run is the
    parity of the number of expired time slices, so the two vCPUs get alternate
    slices, with configuration and well-formedness intact. *)
Theorem smp_sched_demo_fair (h : hv W) :
  link_ok lk -> wf_hv h ->
  (exists h', smp_sched_demo lk h = Ok (tt, h') /\ wf_hv h') /\
  (forall l h', reach (smp_sched_body lk) (mk_sched 0 0 0) h l h' ->
     sc_cur l = sc_slices l mod 2 /\ 0 <= sc_slices l <= 12 /\ wf_hv h' /\ config h' = config h).
Proof.
  intros Hlk Hh. split.
  - destruct (smp_sched_demo_runs Hlk h Hh) as ([] & h' & E & Hh' & _). by exists h'.
  - intros l h' R.
    destruct (reach_measured sched_inv (fun _ => True) (fun l => 100000 - sc_guard l) _ _ _ _ _ smp_sched_body_ok
      sched_inv_start Hh R) as (? & ? & (? & ? & ?) & _).
    done.
Qed.

(** ** The loops that wait for the guest *)
Definition rv_inv (l : list Z * Z) : Prop := len l.1 = 2.

Lemma rv_one_ok budget tag i l :
  0 <= i < 2 -> rv_inv l -> yields rv_inv (rv_one (W := W) lk budget tag i l).
Proof.
  destruct l as [hcalls active]. unfold rv_inv. cbn [fst]. intros Hi Hl. unfold rv_one.
  hv_run; try done.
  eapply yields_bind; [apply (yields_try (fun _ => True)); intros _ _; destruct (aget_ok hcalls i) as [n E]; [lia|by exists n]|].
  intros n _. eapply yields_bind; [apply (yields_try (fun l => len l = 2)); intros _ _|].
  - rewrite aset_ok by lia. eexists. split; [done|]. by rewrite len_insert.
  - intros hc Hhc. by hv_run.
Qed.
Lemma rv_for_ok n budget tag : forall i l,
  0 <= i -> i + Z.of_nat n <= 2 -> rv_inv l -> yields rv_inv (rv_for (W := W) lk n budget tag i l).
Proof.
  induction n as [|n IH]; intros i l Hi Hn Hl; cbn [rv_for]; [by apply yields_ret|].
  eapply yields_bind; [apply rv_one_ok; [lia|done]|]. intros l1 Hl1. apply IH; [lia|lia|done].
Qed.
Lemma rv_body_ok n budget tag l :
  (n <= 2)%nat -> rv_inv l ->
  yields (fun r : bool * (list Z * Z) => if r.1 then rv_inv r.2 else rv_inv r.2) (rv_body (W := W) lk n budget tag l).
Proof.
  intros Hn Hl. unfold rv_body. case_match; [by apply yields_ret|].
  eapply yields_bind; [apply rv_for_ok; [lia|lia|done]|]. intros l1 Hl1. by apply yields_ret.
Qed.
Lemma virq_body_ok nticks ticks :
  yields (fun r : bool * Z => if r.1 then True else True) (virq_body (W := W) lk nticks ticks).
Proof. unfold virq_body. hv_run; done. Qed.
Lemma vgic_body_ok nticks ticks :
  yields (fun r : bool * Z => if r.1 then True else True) (vgic_body (W := W) lk nticks ticks).
Proof. unfold vgic_body. hv_run; done. Qed.
Lemma smp_one_ok i got : 0 <= i < 2 -> keeps (smp_one (W := W) lk i got).
Proof. intros Hi. unfold smp_one. by hv_run. Qed.
Lemma smp_body_ok l :
  0 <= l.1 <= 50 ->
  yields (fun r : bool * (Z * bool) => if r.1 then 0 <= r.2.1 <= 50 /\ 0 <= 51 - r.2.1 < 51 - l.1 else True)
         (smp_body (W := W) lk l).
Proof.
  destruct l as [round got]. cbn [fst]. intros Hr. unfold smp_body. destruct (_ && _) eqn:E; [|by apply yields_ret].
  eapply yields_bind; [apply smp_one_ok; lia|]. intros g1 _. eapply yields_bind; [apply smp_one_ok; lia|]. intros g2 _.
  apply yields_ret. cbn. hv_bools. lia.
Qed.

(** A loop head from which the loop is safe: the state is well-formed, its
    configuration is the initial one, and the next iteration returns. *)
Definition safe_head {L} (body : L -> st (hv W) (bool * L)) (h : hv W) (l : L) (h' : hv W) : Prop :=
  wf_hv h' /\ config h' = config h /\ is_ok (body l h').

(** The scheduler loops that wait for the guest never fault, however long they
    run and whatever the guest does: every state the round-robin scheduler, the
    virtual-timer loop or the software-vGIC loop passes through is well-formed, no
    vCPU's stage-2 or identity has changed, and the next iteration completes. *)
Lemma waiting_loops_safe (h : hv W) n budget tag nticks :
  wf_hv h -> (n <= 2)%nat ->
  (forall l h', reach (rv_body lk n budget tag) (replicate 2 0, Z.of_nat n) h l h' -> safe_head (rv_body lk n budget tag) h l h') /\
  (forall t h', reach (virq_body lk nticks) 0 h t h' -> safe_head (virq_body lk nticks) h t h') /\
  (forall t h', reach (vgic_body lk nticks) 0 h t h' -> safe_head (vgic_body lk nticks) h t h').
Proof.
  intros Hh Hn. split_and!; intros l h' R.
  - destruct (reach_keeps rv_inv rv_inv _ _ _ _ _ (fun l => rv_body_ok n budget tag l Hn) (eq_refl : rv_inv (replicate 2 0, Z.of_nat n)) Hh R) as (? & ? & _ & ?). done.
  - destruct (reach_keeps (fun _ => True) (fun _ => True) _ _ _ _ _ (fun t _ => virq_body_ok nticks t) I Hh R) as (? & ? & _ & ?). done.
  - destruct (reach_keeps (fun _ => True) (fun _ => True) _ _ _ _ _ (fun t _ => vgic_body_ok nticks t) I Hh R) as (? & ? & _ & ?). done.
Qed.

Lemma smp_demo_runs : link_ok lk -> total (fun _ => True) (smp_demo (W := W) lk).
Proof.
  intros Hlk. unfold smp_demo. hv_setup.
  eapply total_bind; [apply total_yields, (loop_yields (fun l : Z * bool => 0 <= l.1 <= 50) (fun _ => True) (fun l => 51 - l.1));
    [apply smp_body_ok|cbn; lia|cbn; lia|cbn; lia]|].
  intros [r got] _. hv_setup.
Qed.

End SchedTheorems.

Lemma link0_ok : link_ok link0.
Proof. split; [fits_const|intros; fits_const]. Qed.

Lemma smp_sched_demo_fair_witness :
  (exists h', smp_sched_demo link0 (hv_boot quiet) = Ok (tt, h') /\ wf_hv h') /\
  (forall l h', reach (smp_sched_body link0) (mk_sched 0 0 0) (hv_boot quiet) l h' ->
     sc_cur l = sc_slices l mod 2 /\ 0 <= sc_slices l <= 12 /\ wf_hv h' /\ config h' = config (hv_boot quiet)).
Proof. apply (smp_sched_demo_fair link0 (hv_boot quiet)); [apply link0_ok|apply hv_boot_wf]. Defined.
Lemma waiting_loops_safe_witness :
  let h := hv_boot quiet in
  (forall l h', reach (rv_body link0 2 3 "M4") (replicate 2 0, Z.of_nat 2) h l h' -> safe_head (rv_body link0 2 3 "M4") h l h') /\
  (forall t h', reach (virq_body link0 5) 0 h t h' -> safe_head (virq_body link0 5) h t h') /\
  (forall t h', reach (vgic_body link0 5) 0 h t h' -> safe_head (vgic_body link0 5) h t h').
Proof. apply (waiting_loops_safe link0 (hv_boot quiet) 2 3 "M4" 5); [apply hv_boot_wf|lia]. Defined.
