(* ===== verification/Smp.v ===== *)
(** SMP guests (src/src/vcpu.c): a guest that boots its second vCPU through PSCI
    CPU_ON, two vCPUs with their own virtual timer context, per-vCPU redistributor
    frames, and SMP Linux on the emulated vGIC. *)

From S2P Require Import Prelude Esr Machine Vcpu Stage2 Vgic Uart Vdev Handlers Vvirtio Vblk Timer Hv Sched.

Definition HCR_RW_VM_TSC_IMO := bit 31 .| bit 0 .| bit 19 .| bit 4.

Section Smp.
Context {W : Type} {PL : Platform W} (lk : link).
Abbreviation M A := (st (hv W) A).

(** ** smp_psci_demo: locals [cur], [sec_on], [got], [guard] *)
Record psci_loc := mk_pl { pl_cur : Z; pl_sec_on : bool; pl_got : bool; pl_guard : Z }.

Definition bring_up_psci (sec_on : bool) : M bool :=
  p ← psci_get psci_on_pending;
  if negb (p =? 0) && negb sec_on then
    entry ← psci_get psci_on_entry;
    init_vcpu 1 entry (stack_top lk 1) (vttbr_g lk);;
    ctx ← psci_get psci_on_ctx;
    set_x 1 0 ctx;;
    clear_pending;;
    x0 ← x_of 1 0;
    printf (ln "[M22] PSCI CPU_ON honored: secondary vCPU1 created at entry=%x ctx=%x") [AInt entry; AInt x0];;
    mret true
  else mret sec_on.

Definition smp_psci_body (l : psci_loc) : M (bool * psci_loc) :=
  let '(mk_pl cur sec_on got guard) := l in
  if got then mret (false, l)
  else if negb (guard <? 100000) then mret (false, mk_pl cur sec_on got (guard + 1))
  else
    let guard := guard + 1 in
    sec_on ← bring_up_psci sec_on;
    deliver_sgi cur;;
    run_once lk cur;;
    v ← get_vcpu cur;
    let ec := exit_ec v in
    if is_irq v then
      iar ← ack;
      let id := iar .& 0xFFFFFF in
      if id =? HYP_TIMER_PPI then
        timer_on_irq;; eoi_real id iar;;
        mret (true, mk_pl (if sec_on : bool then Z.lxor cur 1 else cur) sec_on got guard)
      else eoi_real id iar;; mret (true, mk_pl cur sec_on got guard)
    else if ec =? EC_HVC64 then
      x0 ← x_of cur 0;
      let fn := u32 x0 in
      if ((fn .& 0xFFFF0000) =? 0xC4000000) || ((fn .& 0xFFFF0000) =? 0x84000000) then
        do_psci cur;; mret (true, mk_pl cur sec_on got guard)
      else
        printf (ln "[M22] primary vCPU0 RECEIVED IPI (SGI INTID %u) from the secondary core it booted!") [AInt x0];;
        mret (true, mk_pl cur sec_on true guard)
    else if ec =? EC_SYSREG then
      intid ← route_sgi cur;
      printf (ln "[M22] secondary vCPU1 issued SGI %u to the primary") [AI intid];;
      mret (true, mk_pl cur sec_on got guard)
    else
      printf (ln "[M22] vCPU%d exit ec=%x (%s)") [AI cur; AInt ec; name_of ec];;
      mret (false, mk_pl cur sec_on got guard).

Definition smp_psci_demo : M unit :=
  do_stage2_init lk;;
  do_vgic_reset;;
  do_gic_init;;
  do_hyptimer_init;;
  wr_sys "hcr_el2" HCR_RW_VM_DC_IMO;;
  wr_sys "ich_hcr_el2" ICH_EN_TC;;
  clear_pending;;
  init_at lk 0 "guest_psci_smp_entry";;
  println "[M22] guest-driven SMP: vCPU0 boots vCPU1 via PSCI CPU_ON,";;
  println "      then the secondary IPIs the primary back.";;
  timer_start 10;;
  l ← loop (Z.to_nat 100002) smp_psci_body (mk_pl 0 false false 0);
  timer_stop;;
  println (if pl_got l then "[M22] guest-driven SMP works: primary booted a secondary core via PSCI and they exchanged an IPI."
           else "[M22] secondary bring-up/IPI not observed.").

(** ** Loops that share a timer tick between two vCPUs: locals [ticks], [pend],
    [cur] and [guard] of smp_vtimer_demo, smp_gicr_demo and mtenant_vgic_demo *)
Record tick_loc := mk_tick { tk_ticks : list Z; tk_pend : list Z; tk_cur : Z; tk_guard : Z }.
Definition tick_start : tick_loc := mk_tick [0; 0] [0; 0] 0 0.

(** [if (pend[cur] && vgic_irq_enabled(cur, intid)) { inject; pend[cur] = 0; }] *)
Definition deliver_tick (cur intid : Z) (pend : list Z) : M (list Z) :=
  p ← try_ (fun _ => aget pend cur);
  if p =? 0 then mret pend
  else
    e ← irq_enabled cur intid;
    if e : bool then inject cur intid;; try_ (fun _ => aset pend cur 0) else mret pend.

(** The timer IRQ: a tick becomes available to both and the slice goes to the other. *)
Definition share_tick (l : tick_loc) : M (bool * tick_loc) :=
  let '(mk_tick ticks pend cur guard) := l in
  iar ← ack;
  let intid := iar .& 0xFFFFFF in
  if intid =? HYP_TIMER_PPI then
    timer_on_irq;; eoi_real intid iar;; mret (true, mk_tick ticks [1; 1] (Z.lxor cur 1) guard)
  else eoi_real intid iar;; mret (true, mk_tick ticks pend cur guard).

(** [while ((ticks[0] < 3 || ticks[1] < 3) && guard++ < limit)] *)
Definition tick_loop_body (limit : Z) (print_tick : Z -> Z -> Z -> M unit) (on_dabt : Z -> Z -> M unit)
    (stop_fmt : list Z) (l : tick_loc) : M (bool * tick_loc) :=
  let '(mk_tick ticks pend cur guard) := l in
  t0 ← try_ (fun _ => aget ticks 0);
  t1 ← try_ (fun _ => aget ticks 1);
  if negb ((t0 <? 3) || (t1 <? 3)) then mret (false, l)
  else if negb (guard <? limit) then mret (false, mk_tick ticks pend cur (guard + 1))
  else
    let guard := guard + 1 in
    pend ← deliver_tick cur 27 pend;
    run_once lk cur;;
    v ← get_vcpu cur;
    let ec := exit_ec v in
    if is_irq v then share_tick (mk_tick ticks pend cur guard)
    else if ec =? EC_HVC64 then
      n ← try_ (fun _ => aget ticks cur);
      ticks ← try_ (fun _ => aset ticks cur (n + 1));
      x0 ← x_of cur 0;
      print_tick cur (n + 1) x0;;
      mret (true, mk_tick ticks pend cur guard)
    else if ec =? EC_DABT_LOW then
      on_dabt cur (exit_ipa v);;
      mret (true, mk_tick ticks pend cur guard)
    else
      printf stop_fmt [AI cur; AInt ec; name_of ec];;
      mret (false, mk_tick ticks pend cur guard).

(** smp_vtimer_demo: each vCPU is its own VM slot of the vGIC. *)
Definition vtimer_dabt (cur ipa : Z) : M unit :=
  if vgic_contains ipa then do_vgic_mmio cur cur ipa else do_mmio_zero cur.
Definition vtimer_body : tick_loc -> M (bool * tick_loc) :=
  tick_loop_body 60000
    (fun cur n x0 => printf (ln "[M29] vCPU%d serviced its OWN virtual timer tick #%d (guest count=%u)") [AI cur; AI n; AInt x0])
    vtimer_dabt (ln "[M29] vCPU%d unexpected exit ec=%x (%s)").
Definition smp_vtimer_demo : M unit :=
  do_stage2_init lk;;
  do_vgic_reset;;
  do_gic_init;;
  do_hyptimer_init;;
  copy_image lk VM0_PA "guest_tvgic";;
  vttbr ← build_vm lk 0 VM_IPA VM0_PA 1;
  wr_sys "hcr_el2" HCR_RW_VM_DC_IMO;;
  wr_sys "ich_hcr_el2" 1;;
  init_vcpu 0 VM_IPA (VM_IPA + 0x8000) vttbr;;
  init_vcpu 1 VM_IPA (VM_IPA + 0x10000) vttbr;;
  println "[M29] one VM, TWO vCPUs: each with its OWN redistributor + virtual-";;
  println "      timer interrupt context (LR + CPU interface), time-sliced and";;
  println "      preempted by the EL2 timer:";;
  timer_start 10;;
  l ← loop (Z.to_nat 60002) vtimer_body tick_start;
  timer_stop;;
  t0 ← try_ (fun _ => aget (tk_ticks l) 0);
  t1 ← try_ (fun _ => aget (tk_ticks l) 1);
  printf (ln "[M29] vCPU0 serviced %d timer ticks, vCPU1 serviced %d -- two cores in one VM, each with independent per-vCPU GIC state.")
    [AI t0; AI t1].

(** smp_gicr_demo: one VM slot, the frame in the address selects the vCPU. *)
Definition gicr_dabt (cur ipa : Z) : M unit :=
  if vgic_contains ipa then do_vgic_mmio 0 cur ipa else do_mmio_zero cur.
Definition gicr_body : tick_loc -> M (bool * tick_loc) :=
  tick_loop_body 60000
    (fun cur _ x0 => printf (ln "[M30] vCPU%d serviced a timer IRQ via its OWN redistributor (frame %d, count=%u)") [AI cur; AI cur; AInt x0])
    gicr_dabt (ln "[M30] vCPU%d unexpected exit ec=%x (%s)").
Definition smp_gicr_demo : M unit :=
  do_stage2_init lk;;
  do_vgic_reset;;
  do_set_ngicr 2;;
  do_gic_init;;
  do_hyptimer_init;;
  copy_image lk VM0_PA "guest_smpgicr";;
  vttbr ← build_vm lk 0 VM_IPA VM0_PA 1;
  wr_sys "hcr_el2" HCR_RW_VM_DC_IMO;;
  wr_sys "ich_hcr_el2" 1;;
  init_vcpu 0 VM_IPA (VM_IPA + 0x8000) vttbr;;
  init_vcpu 1 VM_IPA (VM_IPA + 0x10000) vttbr;;
  set_x 0 0 0;;
  set_x 1 0 1;;
  println "[M30] two vCPUs, each with its OWN redistributor frame (0x080A0000 / 0x080C0000),";;
  println "      addressed by CPU id and routed by the vGIC:";;
  timer_start 10;;
  l ← loop (Z.to_nat 60002) gicr_body tick_start;
  timer_stop;;
  t0 ← try_ (fun _ => aget (tk_ticks l) 0);
  t1 ← try_ (fun _ => aget (tk_ticks l) 1);
  printf (ln "[M30] vCPU0 used redistributor frame 0, vCPU1 used frame 1 -- per-vCPU GICR routing (%d + %d ticks).")
    [AI t0; AI t1].

(** ** linux_vgic_boot: locals [ncpu], [cur] *)
Definition bring_up_linux (ncpu : Z) : M Z :=
  p ← psci_get psci_on_pending;
  if negb (p =? 0) && (ncpu <? 2) then
    entry ← psci_get psci_on_entry;
    init_vcpu 1 entry 0 (vttbr_g lk);;
    ctx ← psci_get psci_on_ctx;
    set_x 1 0 ctx;;
    clear_pending;;
    printf (LF :: ln "[M32] PSCI CPU_ON: starting secondary vCPU1 at entry=%x") [AInt entry];;
    mret 2
  else mret ncpu.

(** A host keystroke goes to the emulated UART and, if the guest wants it, raises SPI 33. *)
Definition forward_key : M unit :=
  ch ← on_uart uart_getc_nonblock;
  if 0 <=? ch then
    modify (fun h => put_vuart h (vuart_push_rx ch (h_vuart h)));;
    d ← gets h_vuart;
    if vuart_rx_irq_pending d then
      e ← spi_enabled_q 0 33; if e : bool then inject 0 33 else mret tt
    else mret tt
  else mret tt.

(** The guest's timer tick: PPI 30 if enabled, else PPI 27 if enabled. *)
Definition inject_timer (cur : Z) : M unit :=
  e ← irq_enabled cur 30;
  if e : bool then inject cur 30
  else e ← irq_enabled cur 27; if e : bool then inject cur 27 else mret tt.

Definition linux_vgic_body (l : Z * Z) : M (bool * (Z * Z)) :=
  let '(ncpu, cur) := l in
  ncpu ← bring_up_linux ncpu;
  forward_key;;
  deliver_sgi cur;;
  run_once lk cur;;
  v ← get_vcpu cur;
  if negb (halted v =? 0) then mret (false, (ncpu, cur))
  else
    let ec := exit_ec v in
    if is_irq v then
      iar ← ack;
      let id := iar .& 0xFFFFFF in
      if id =? HYP_TIMER_PPI then
        timer_on_irq;; inject_timer cur;; eoi_real id iar;;
        mret (true, (ncpu, if ncpu =? 2 then Z.lxor cur 1 else cur))
      else eoi_real id iar;; mret (true, (ncpu, cur))
    else if is_abort ec then
      let ipa := exit_ipa v in
      (if vgic_contains ipa then do_vgic_mmio 0 cur ipa
       else if vuart_contains ipa then do_mmio_emulate cur ipa
       else do_mmio_zero cur);;
      mret (true, (ncpu, cur))
    else if ec =? EC_SYSREG then
      (if iss_crn (ESR_ISS (exit_esr v)) =? 12 then _ ← route_sgi cur; mret tt else do_cntp cur cur);;
      mret (true, (ncpu, cur))
    else if ec =? EC_SMC64 then do_psci cur;; advance cur;; mret (true, (ncpu, cur))
    else if ec =? EC_HVC64 then do_psci cur;; mret (true, (ncpu, cur))
    else
      printf (LF :: ln "[M32] CPU%d trap ec=%x (%s) far=%x elr=%x") [AI cur; AInt ec; name_of ec; AInt (exit_far v); AInt (pc v)];;
      mret (false, (ncpu, cur)).

Definition rule_line : string := "------------------------------------------------------------".
Definition linux_vgic_boot (fuel : nat) : M unit :=
  do_stage2_init lk;;
  do_vgic_reset;;
  do_gic_init;;
  do_hyptimer_init;;
  copy_image lk 0x48000000 "guest_dtb";;
  wr_sys "cnthctl_el2" 1;;
  wr_sys "cntvoff_el2" 0;;
  wr_sys "hcr_el2" HCR_RW_VM_TSC_IMO;;
  wr_sys "ich_hcr_el2" ICH_EN_TC;;
  do_set_ngicr 2;;
  init_vcpu 0 0x41000000 0 (vttbr_g lk);;
  set_x 0 0 0x48000000;; set_x 0 1 0;; set_x 0 2 0;; set_x 0 3 0;;
  println "[M32] booting SMP Linux (2 vCPUs) on the EMULATED vGIC:";;
  println "      per-vCPU redistributor frames + PSCI CPU_ON + UART SPI,";;
  println "      time-sliced on one physical core. Kernel output:";;
  println rule_line;;
  clear_pending;;
  timer_start 10;;
  _ ← loop fuel linux_vgic_body (1, 0);
  println rule_line;;
  println "[M32] SMP-Linux-on-vGIC run ended.".
End Smp.

(** * Theorems *)
Section SmpTheorems.
Context {W : Type} {PL : Platform W} {PO : PlatformOk W} (lk : link).

Lemma inject_timer_keeps cur : 0 <= cur < 2 -> keeps (inject_timer (W := W) cur).
Proof. intros Hc. unfold inject_timer. by hv_run. Qed.
Lemma push_rx_keeps ch : keeps (modify (fun h : hv W => put_vuart h (vuart_push_rx ch (h_vuart h)))).
Proof.
  intros h Hh. eexists tt, _. split; [done|]. split; [|done]. destruct Hh. split; try done. by apply wf_push_rx.
Qed.
Lemma forward_key_keeps : keeps (forward_key (W := W)).
Proof.
  unfold forward_key. eapply yields_bind; [apply getc_yields|]. intros ch _. case_match; [|by apply yields_ret].
  eapply yields_bind; [apply push_rx_keeps|]. intros _ _.
  eapply (yields_bind (fun _ => True)); [intros h Hh; by eexists _, h|]. intros d _. by hv_run.
Qed.

Lemma bring_up_psci_total sec_on :
  link_ok lk -> total (fun b => sec_on = true -> b = true) (bring_up_psci (W := W) lk sec_on).
Proof. intros Hlk. unfold bring_up_psci. hv_setup; done. Qed.
Lemma bring_up_linux_total ncpu :
  link_ok lk -> 1 <= ncpu <= 2 -> total (fun n => ncpu <= n <= 2) (bring_up_linux (W := W) lk ncpu).
Proof. intros Hlk Hn. unfold bring_up_linux. hv_setup; cbv beta; lia. Qed.

(** Once a head has been taken, the rest of an iteration keeps the configuration. *)
Ltac then_keeps := apply total_yields; hv_run.

Definition psci_inv (l : psci_loc) : Prop :=
  0 <= pl_guard l <= 100000 /\ 0 <= pl_cur l < 2 /\ (pl_sec_on l = false -> pl_cur l = 0).

Lemma flip_range c : 0 <= c < 2 -> 0 <= Z.lxor c 1 < 2.
Proof. intros. assert (c = 0 \/ c = 1) as [-> | ->] by lia; split; vm_compute; congruence. Qed.

Lemma smp_psci_body_ok l :
  link_ok lk -> psci_inv l ->
  total (fun r : bool * psci_loc => if r.1 then psci_inv r.2 /\ 0 <= 100000 - pl_guard r.2 < 100000 - pl_guard l else True)
        (smp_psci_body (W := W) lk l).
Proof.
  destruct l as [cur sec got guard]. unfold psci_inv. cbn [pl_cur pl_guard pl_sec_on]. intros Hlk (Hg & Hc & Hs).
  unfold smp_psci_body. destruct got; [by apply total_yields, yields_ret|].
  destruct (negb _) eqn:Eg; [by apply total_yields, yields_ret|]. hv_bools. cbv zeta.
  eapply total_bind; [by apply bring_up_psci_total|]. intros sec' Hsec. pose proof (flip_range cur Hc).
  assert (sec' = false -> cur = 0) as Hs' by (intros ->; apply Hs; destruct sec; [by discriminate Hsec|done]).
  then_keeps; cbn [fst snd pl_cur pl_guard pl_sec_on]; try exact I;
    (split; [split; [lia|split; [by destruct sec'|intros ->; auto]]|lia]).
Qed.

(** ** Shared-tick loops *)
Definition tick_inv (limit : Z) (l : tick_loc) : Prop :=
  len (tk_ticks l) = 2 /\ len (tk_pend l) = 2 /\ 0 <= tk_cur l < 2 /\ 0 <= tk_guard l <= limit.

Lemma pure_get {A} (l : list A) i : 0 <= i < len l -> keeps (try_ (fun _ : hv W => aget l i)).
Proof. intros Hi. apply yields_try. intros _ _. destruct (aget_ok l i Hi) as [a E]. by exists a. Qed.
Lemma pure_set {A} (l : list A) i a : 0 <= i < len l -> yields (fun l' => len l' = len l) (try_ (fun _ : hv W => aset l i a)).
Proof. intros Hi. apply yields_try. intros _ _. rewrite aset_ok by done. eexists. split; [done|]. apply len_insert. Qed.

Lemma deliver_tick_ok cur intid pend :
  0 <= cur < 2 -> fits 32 intid -> len pend = 2 -> yields (fun p => len p = 2) (deliver_tick (W := W) cur intid pend).
Proof.
  intros Hc Hi Hp. unfold deliver_tick. eapply yields_bind; [apply pure_get; lia|]. intros p _.
  case_match; [by apply yields_ret|]. eapply yields_bind; [apply irq_enabled_keeps; lia|]. intros e _.
  destruct e; [|by apply yields_ret]. eapply yields_bind; [by apply inject_keeps|]. intros _ _.
  eapply yields_weaken; [apply pure_set; lia|]. intros l Hl. cbv beta in Hl. lia.
Qed.

Lemma share_tick_ok limit l :
  tick_inv limit l ->
  yields (fun r : bool * tick_loc => r.1 = true /\ tick_inv limit r.2 /\ tk_guard r.2 = tk_guard l) (share_tick (W := W) l).
Proof.
  destruct l as [ticks pend cur guard]. unfold tick_inv. cbn [tk_ticks tk_pend tk_cur tk_guard].
  intros (H1 & H2 & H3 & H4). pose proof (flip_range cur H3). unfold share_tick. cbv zeta.
  hv_run; cbn [fst snd tk_ticks tk_pend tk_cur tk_guard]; (split; [done|split; [|done]]);
    change (len [1; 1]) with 2; lia.
Qed.

Lemma tick_loop_body_ok limit print_tick on_dabt stop_fmt l :
  (forall cur n x0, fits 64 x0 -> keeps (print_tick cur n x0)) ->
  (forall cur ipa, 0 <= cur < 2 -> fits 64 ipa -> keeps (on_dabt cur ipa)) ->
  (forall cur ec, fits 64 ec -> keeps (printf (W := W) stop_fmt [AI cur; AInt ec; name_of ec])) ->
  tick_inv limit l ->
  yields (fun r : bool * tick_loc => if r.1 then tick_inv limit r.2 /\ 0 <= limit - tk_guard r.2 < limit - tk_guard l
                                     else len (tk_ticks r.2) = 2)
         (tick_loop_body (W := W) lk limit print_tick on_dabt stop_fmt l).
Proof.
  intros Hp Hd Hs. destruct l as [ticks pend cur guard]. unfold tick_inv at 1. cbn [tk_ticks tk_pend tk_cur tk_guard].
  intros (H1 & H2 & H3 & H4). unfold tick_loop_body.
  eapply yields_bind; [apply pure_get; lia|]. intros t0 _. eapply yields_bind; [apply pure_get; lia|]. intros t1 _.
  destruct (negb _); [by apply yields_ret|]. destruct (negb (guard <? limit)) eqn:Eg; [by apply yields_ret|]. hv_bools.
  cbv zeta. eapply yields_bind; [apply deliver_tick_ok; [done|fits_const|done]|]. intros pend' Hp'.
  eapply yields_bind; [by apply run_once_keeps|]. intros _ _. eapply yields_bind; [by apply get_vcpu_yields|]. intros v Hv.
  assert (forall tk pd, len tk = 2 -> len pd = 2 -> tick_inv limit (mk_tick tk pd cur (guard + 1)) /\
    0 <= limit - (guard + 1) < limit - guard) as Hnext by (intros; unfold tick_inv; cbn; lia).
  destruct (is_irq v).
  { eapply yields_weaken; [apply (share_tick_ok limit); by apply Hnext|]. intros [b l1] (-> & ? & E). cbn in *. rewrite E.
    by split; [|lia]. }
  destruct (_ =? EC_HVC64).
  { eapply yields_bind; [apply pure_get; lia|]. intros n _. eapply yields_bind; [apply pure_set; lia|]. intros tk Htk.
    eapply yields_bind; [apply x_of_yields; lia|]. intros x0 Hx. eapply yields_bind; [by apply Hp|]. intros _ _.
    apply yields_ret. apply Hnext; cbn in *; lia. }
  destruct (_ =? EC_DABT_LOW).
  { eapply yields_bind; [apply Hd; [done|by apply ipa_fits]|]. intros _ _. apply yields_ret. by apply Hnext. }
  eapply yields_bind; [apply Hs, ec_fits|]. intros _ _. by apply yields_ret.
Qed.

Lemma vtimer_body_ok l :
  tick_inv 60000 l ->
  yields (fun r : bool * tick_loc => if r.1 then tick_inv 60000 r.2 /\ 0 <= 60000 - tk_guard r.2 < 60000 - tk_guard l
                                     else len (tk_ticks r.2) = 2) (vtimer_body (W := W) lk l).
Proof.
  apply tick_loop_body_ok; intros; [|unfold vtimer_dabt|]; hv_run.
Qed.
Lemma gicr_body_ok l :
  tick_inv 60000 l ->
  yields (fun r : bool * tick_loc => if r.1 then tick_inv 60000 r.2 /\ 0 <= 60000 - tk_guard r.2 < 60000 - tk_guard l
                                     else len (tk_ticks r.2) = 2) (gicr_body (W := W) lk l).
Proof.
  apply tick_loop_body_ok; intros; [|unfold gicr_dabt|]; hv_run.
Qed.
Lemma tick_inv_start limit : 0 <= limit -> tick_inv limit tick_start.
Proof. intros. unfold tick_inv, tick_start. cbn [tk_ticks tk_pend tk_cur tk_guard]. change (len [0; 0]) with 2. lia. Qed.

(** ** SMP Linux *)
Definition linux_inv (l : Z * Z) : Prop := 1 <= l.1 <= 2 /\ 0 <= l.2 < l.1.

Lemma linux_vgic_body_ok l :
  link_ok lk -> linux_inv l ->
  total (fun r : bool * (Z * Z) => if r.1 then linux_inv r.2 /\ l.1 <= r.2.1 else True) (linux_vgic_body (W := W) lk l).
Proof.
  destruct l as [ncpu cur]. unfold linux_inv. cbn [fst snd]. intros Hlk (Hn & Hc). unfold linux_vgic_body.
  eapply total_bind; [by apply bring_up_linux_total|]. intros n Hn'. cbv beta in Hn'.
  assert (0 <= cur < 2) as Hc2 by lia. pose proof (flip_range cur Hc2).
  apply total_yields. eapply yields_bind; [apply forward_key_keeps|]. intros _ _.
  eapply yields_bind; [by apply deliver_sgi_keeps|]. intros _ _.
  assert (keeps (inject_timer (W := W) cur)) as Hit by by apply inject_timer_keeps.
  hv_run; cbn [fst snd]; try exact I; try lia.
  destruct (Z.eqb_spec n 2); lia.
Qed.

Lemma smp_psci_runs : link_ok lk -> total (fun _ => True) (smp_psci_demo (W := W) lk).
Proof.
  intros Hlk. unfold smp_psci_demo. hv_setup.
  eapply total_bind; [apply (loop_total psci_inv (fun _ => True) (fun l => 100000 - pl_guard l));
    [intros; by apply smp_psci_body_ok|split; [cbn; lia|split; [cbn; lia|done]]|cbn [pl_guard]; lia|cbn [pl_guard]; lia]|].
  intros l _. hv_setup.
Qed.
(** A shared-tick loop, then code that reads both tick counts. *)
Lemma tick_loop_then {A} limit fuel (body : tick_loc -> st (hv W) (bool * tick_loc)) (k : tick_loc -> st (hv W) A) :
  (forall l, tick_inv limit l ->
     yields (fun r : bool * tick_loc => if r.1 then tick_inv limit r.2 /\ 0 <= limit - tk_guard r.2 < limit - tk_guard l
                                        else len (tk_ticks r.2) = 2) (body l)) ->
  0 <= limit < Z.of_nat fuel -> (forall l, len (tk_ticks l) = 2 -> keeps (k l)) ->
  total (fun _ => True) (l ← loop fuel body tick_start; k l).
Proof.
  intros Hb Hf Hk. apply total_yields. eapply yields_bind.
  - apply (loop_yields (tick_inv limit) (fun l => len (tk_ticks l) = 2) (fun l => limit - tk_guard l));
      [exact Hb|apply tick_inv_start; lia|cbn; lia|cbn; lia].
  - intros l Hl. by apply Hk.
Qed.
Lemma read_ticks {A} (l : tick_loc) (k : Z -> Z -> st (hv W) A) :
  len (tk_ticks l) = 2 -> (forall t0 t1, keeps (k t0 t1)) ->
  keeps (timer_stop;; t0 ← try_ (fun _ => aget (tk_ticks l) 0); t1 ← try_ (fun _ => aget (tk_ticks l) 1); k t0 t1).
Proof.
  intros Hl Hk. eapply yields_bind; [apply timer_stop_keeps|]. intros _ _.
  eapply yields_bind; [apply pure_get; lia|]. intros t0 _. eapply yields_bind; [apply pure_get; lia|]. intros t1 _. apply Hk.
Qed.
Lemma smp_vtimer_runs : link_ok lk -> total (fun _ => True) (smp_vtimer_demo (W := W) lk).
Proof.
  intros Hlk. unfold smp_vtimer_demo. hv_setup. apply (tick_loop_then 60000); [apply vtimer_body_ok|lia|]. intros l Hl. apply read_ticks; [done|]. intros. by hv_run.
Qed.
Lemma smp_gicr_runs : link_ok lk -> total (fun _ => True) (smp_gicr_demo (W := W) lk).
Proof.
  intros Hlk. unfold smp_gicr_demo. hv_setup. apply (tick_loop_then 60000); [apply gicr_body_ok|lia|]. intros l Hl. apply read_ticks; [done|]. intros. by hv_run.
Qed.

End SmpTheorems.

(** The guest starts its second vCPU with PSCI CPU_ON and the next timer tick selects it. *)
Definition cpu_on_then_tick : script :=
  mk_script [mk_event 0 [("esr_el2", 0x16 * 2 ^ 26)%string] [(0%nat, 0xC4000003); (2%nat, 0x41000100); (3%nat, 7)] [];
             mk_event 1 [] [] []] [26] [] [] 0.
