(* ===== verification/Tenants.v ===== *)
(** Multi-tenancy (src/src/vcpu.c): two isolated VMs with the same guest address
    space in different host RAM, on per-VM vGICs, including Linux and fermi-os side
    by side. *)

From S2P Require Import Prelude Esr Machine Vcpu Stage2 Vgic Uart Vdev Handlers Vvirtio Vblk Timer Hv Sched Smp.

Definition HCR_RW_VM_IMO_TSC := bit 31 .| bit 0 .| bit 4 .| bit 19.

Section Tenants.
Context {W : Type} {PL : Platform W} (lk : link).
Abbreviation M A := (st (hv W) A).

(** ** mtenant_demo *)
Definition mtenant_one (i : Z) : M unit :=
  run_once lk i;;
  v ← get_vcpu i;
  let ec := exit_ec v in
  if ec =? EC_HVC64 then
    x0 ← x_of i 0;
    x1 ← x_of i 1;
    printf (ln "[M16] VM%u ran at IPA 0x40000000, wrote+read its private magic = %x") [AInt x0; AInt x1]
  else printf (ln "[M16] VM%d unexpected exit ec=%x (%s)") [AI i; AInt ec; name_of ec].

Definition mtenant_setup : M unit :=
  do_stage2_init lk;;
  copy_image lk VM0_PA "guest_tenant";;
  copy_image lk VM1_PA "guest_tenant";;
  vttbr0 ← build_vm lk 0 VM_IPA VM0_PA 1;
  vttbr1 ← build_vm lk 1 VM_IPA VM1_PA 2;
  wr_sys "hcr_el2" HCR_RW_VM_DC;;
  init_vcpu 0 VM_IPA (VM_IPA + 0x8000) vttbr0;;
  set_x 0 0 0;;
  init_vcpu 1 VM_IPA (VM_IPA + 0x8000) vttbr1;;
  set_x 1 0 1.
Definition mtenant_demo : M unit :=
  mtenant_setup;;
  println "[M16] two isolated VMs: same guest IPA 0x40000000 -> different host RAM";;
  printf (ln "      VM0 RAM @host %x, VM1 RAM @host %x") [AInt VM0_PA; AInt VM1_PA];;
  mtenant_one 0;;
  mtenant_one 1;;
  m0 ← read_mem32 (VM0_PA + 0x1000);
  m1 ← read_mem32 (VM1_PA + 0x1000);
  printf (ln "[M16] host view: VM0 block @%x = %x ; VM1 block @%x = %x")
    [AInt (VM0_PA + 0x1000); AInt m0; AInt (VM1_PA + 0x1000); AInt m1];;
  if negb (m0 =? m1) then
    println "[M16] isolation verified: identical guest address, distinct host memory; neither VM can see the other."
  else println "[M16] isolation FAILED (blocks match)".

(** ** mtenant_vgic_demo *)
Definition mtv_dabt (cur ipa : Z) : M unit :=
  if vgic_contains ipa then do_vgic_mmio cur cur ipa
  else printf (ln "[M18] VM%d unexpected DABT ipa=%x") [AI cur; AInt ipa].
Definition mtenant_vgic_body : tick_loc -> M (bool * tick_loc) :=
  tick_loop_body lk 20000
    (fun cur n x0 => printf (ln "[M18] VM%d serviced its OWN vGIC timer IRQ #%d (guest tick count=%u)") [AI cur; AI n; AInt x0])
    mtv_dabt (ln "[M18] VM%d unexpected exit ec=%x (%s)").
Definition mtenant_vgic_setup : M unit :=
  do_stage2_init lk;;
  do_vgic_reset;;
  do_gic_init;;
  do_hyptimer_init;;
  copy_image lk VM0_PA "guest_tvgic";;
  copy_image lk VM1_PA "guest_tvgic";;
  vttbr0 ← build_vm lk 0 VM_IPA VM0_PA 1;
  vttbr1 ← build_vm lk 1 VM_IPA VM1_PA 2;
  wr_sys "hcr_el2" HCR_RW_VM_DC_IMO;;
  wr_sys "ich_hcr_el2" 1;;
  init_vcpu 0 VM_IPA (VM_IPA + 0x10000) vttbr0;;
  init_vcpu 1 VM_IPA (VM_IPA + 0x10000) vttbr1;;
  println "[M18] two isolated VMs, each driving its OWN emulated vGIC,";;
  println "      time-sliced; each serviced timer IRQ is gated by its own vGIC.";;
  timer_start 10.
Definition mtenant_vgic_demo : M unit :=
  mtenant_vgic_setup;;
  l ← loop (Z.to_nat 20002) mtenant_vgic_body tick_start;
  timer_stop;;
  t0 ← try_ (fun _ => aget (tk_ticks l) 0);
  t1 ← try_ (fun _ => aget (tk_ticks l) 1);
  printf (ln "[M18] VM0 serviced %d timer IRQs, VM1 serviced %d -- each on its own per-VM vGIC.") [AI t0; AI t1];;
  println "[M18] two real-interrupt-driven VMs ran concurrently, fully isolated (separate stage-2 + separate vGIC state).".

(** ** Weighted time slicing: locals [pend], [cur], [slot], [guard] (and [t1]) *)
Record wsched := mk_ws { ws_pend : list Z; ws_cur : Z; ws_slot : Z; ws_guard : Z; ws_t1 : Z }.
Definition ws_start : wsched := mk_ws [0; 0] 0 0 0 0.

(** The timer IRQ: ticks pending for both; VM1 gets every fourth slice. *)
Definition weighted_tick (l : wsched) : M (bool * wsched) :=
  let '(mk_ws pend cur slot guard t1) := l in
  iar ← ack;
  let id := iar .& 0xFFFFFF in
  if id =? HYP_TIMER_PPI then
    timer_on_irq;; eoi_real id iar;;
    let slot := slot + 1 in
    mret (true, mk_ws [1; 1] (if (slot .& 3) =? 0 then 1 else 0) slot guard t1)
  else eoi_real id iar;; mret (true, mk_ws pend cur slot guard t1).

(** ** mtenant_real_demo: fermi-os and a small tenant *)
Definition real_hcr (cur : Z) : Z :=
  if cur =? 0 then bit 31 .| bit 0 .| bit 4 .| bit 19 else bit 31 .| bit 0 .| bit 12 .| bit 4.
Definition real_intid (cur : Z) : Z := if cur =? 0 then 30 else 27.
Definition mtenant_real_rest (l : wsched) : M (bool * wsched) :=
  let '(mk_ws pend cur slot guard t1) := l in
  pend ← deliver_tick cur (real_intid cur) pend;
  run_once lk cur;;
  v ← get_vcpu cur;
  let ec := exit_ec v in
  let next t1 := mret (true, mk_ws pend cur slot guard t1) in
  if is_irq v then weighted_tick (mk_ws pend cur slot guard t1)
  else if is_abort ec then
    let ipa := exit_ipa v in
    (if vgic_contains ipa then do_vgic_mmio cur cur ipa
     else if vuart_contains ipa then do_mmio_emulate cur ipa
     else printf (LF :: ln "[M19] VM%d DABT ipa=%x") [AI cur; AInt ipa]);;
    next t1
  else if ec =? EC_SYSREG then do_cntp cur cur;; next t1
  else if ec =? EC_HVC64 then
    if cur =? 1 then
      printf (LF :: ln "[M19] >> VM1 (tenant) serviced its vGIC tick #%d while fermi-os runs concurrently <<") [AI (t1 + 1)];;
      next (t1 + 1)
    else next t1
  else if ec =? EC_SMC64 then do_psci cur;; advance cur;; next t1
  else
    printf (LF :: ln "[M19] VM%d exit ec=%x (%s)") [AI cur; AInt ec; name_of ec];;
    mret (false, mk_ws pend cur slot guard t1).
Definition mtenant_real_body (l : wsched) : M (bool * wsched) :=
  let '(mk_ws pend cur slot guard t1) := l in
  if negb (t1 <? 8) then mret (false, l)
  else if negb (guard <? 2000000) then mret (false, mk_ws pend cur slot (guard + 1) t1)
  else
    wr_sys "hcr_el2" (real_hcr cur);;
    mtenant_real_rest (mk_ws pend cur slot (guard + 1) t1).
Definition mtenant_real_setup : M unit :=
  do_stage2_init lk;;
  do_vgic_reset;;
  do_gic_init;;
  do_hyptimer_init;;
  copy_image lk 0x80000000 "fermios_image";;
  copy_image lk 0xC0000000 "guest_tvgic";;
  vttbr0 ← build_vm lk 0 0x40000000 0x80000000 1;
  vttbr1 ← build_vm lk 1 0x40000000 0xC0000000 2;
  wr_sys "cnthctl_el2" 1;;
  wr_sys "cntvoff_el2" 0;;
  wr_sys "ich_hcr_el2" 1;;
  init_vcpu 0 0x40000000 0 vttbr0;;
  init_vcpu 1 0x40000000 0x40010000 vttbr1;;
  println "[M19] TWO concurrent isolated tenants on per-VM vGICs:";;
  println "      VM0 = fermi-os (real OS), VM1 = lightweight vGIC guest.";;
  println "      fermi-os boots below, interleaved with VM1's timer service:";;
  println rule_line;;
  timer_start 10.
Definition mtenant_real_demo : M unit :=
  mtenant_real_setup;;
  l ← loop (Z.to_nat 2000002) mtenant_real_body ws_start;
  timer_stop;;
  on_uart (uart_println (LF :: bytes rule_line));;
  printf (ln "[M19] done: VM1 serviced %d ticks while VM0 (fermi-os) booted alongside it.") [AI (ws_t1 l)];;
  println "[M19] a REAL OS and a second VM ran concurrently, each isolated (own stage-2 + own vGIC + own timer state).".

(** ** mtenant_os_demo: Linux and fermi-os *)
Definition mtenant_os_body (l : wsched) : M (bool * wsched) :=
  let '(mk_ws pend cur slot guard t1) := l in
  if negb (guard <? 4000000) then mret (false, mk_ws pend cur slot (guard + 1) t1)
  else
    let guard := guard + 1 in
    p ← try_ (fun _ => aget pend cur);
    pend ← (if p =? 0 then mret pend else inject_timer cur;; try_ (fun _ => aset pend cur 0));
    run_once lk cur;;
    v ← get_vcpu cur;
    if negb (halted v =? 0) then mret (false, mk_ws pend cur slot guard t1)
    else
      let ec := exit_ec v in
      let next := mret (true, mk_ws pend cur slot guard t1) in
      if is_irq v then weighted_tick (mk_ws pend cur slot guard t1)
      else if is_abort ec then
        let ipa := exit_ipa v in
        (if vgic_contains ipa then do_vgic_mmio cur cur ipa
         else if vuart_contains ipa then do_mmio_emulate cur ipa
         else do_mmio_zero cur);;
        next
      else if ec =? EC_SYSREG then do_cntp cur cur;; next
      else if ec =? EC_SMC64 then do_psci cur;; advance cur;; next
      else if ec =? EC_HVC64 then do_psci cur;; next
      else
        printf (LF :: ln "[M21] VM%d trap ec=%x (%s) far=%x") [AI cur; AInt ec; name_of ec; AInt (exit_far v)];;
        mret (false, mk_ws pend cur slot guard t1).
Definition mtenant_os_setup : M unit :=
  do_stage2_init lk;;
  do_vgic_reset;;
  do_gic_init;;
  do_hyptimer_init;;
  copy_image lk 0x88000000 "guest_dtb";;
  copy_image lk 0xC0000000 "fermios_image";;
  vttbr0 ← build_vm lk 0 0x40000000 0x80000000 1;
  vttbr1 ← build_vm lk 1 0x40000000 0xC0000000 2;
  wr_sys "cnthctl_el2" 1;;
  wr_sys "cntvoff_el2" 0;;
  wr_sys "ich_hcr_el2" 1;;
  wr_sys "hcr_el2" HCR_RW_VM_IMO_TSC;;
  init_vcpu 0 0x41000000 0 vttbr0;;
  set_x 0 0 0x48000000;;
  init_vcpu 1 0x40000000 0 vttbr1;;
  println "[M21] TWO real OSes as concurrent isolated tenants on per-VM vGICs:";;
  println "      VM0 = Linux, VM1 = fermi-os. Both boot below, interleaved.";;
  println "      (each: own stage-2 + own vGIC + own timer; HV is untouchable)";;
  println rule_line;;
  timer_start 10.
Definition mtenant_os_demo : M unit :=
  mtenant_os_setup;;
  _ ← loop (Z.to_nat 4000002) mtenant_os_body ws_start;
  on_uart (uart_println (LF :: bytes rule_line));;
  println "[M21] Linux and fermi-os ran concurrently, fully isolated.".
End Tenants.

(** * Theorems *)

(** The translation of a guest access: the table that the vCPU's VTTBR_EL2 points
    at, walked under the programmed VTCR_EL2. *)
Definition guest_walk {W} (lk : link) (h : hv W) (i a : Z) : option s2_out :=
  v ← h_vcpus h !! Z.to_nat i;
  let b := vttbr_baddr (vttbr v) in
  if b =? lk_s2_l1 lk then s2_walk (vtcr_el2 (h_s2 h)) (s2_l1 (h_s2 h)) a
  else if (b - lk_s2_vm lk) mod 4096 =? 0 then
    t ← s2_vm (h_s2 h) !! Z.to_nat ((b - lk_s2_vm lk) / 4096); s2_walk (vtcr_el2 (h_s2 h)) t a
  else None.
Definition guest_vmid {W} (h : hv W) (i : Z) : option Z :=
  v ← h_vcpus h !! Z.to_nat i; Some (vttbr_vmid (vttbr v)).

(** Two isolated tenants at host blocks [pa0] and [pa1]: each vCPU's whole guest
    physical space is its own block, under its own VMID, and no address of one
    reaches the memory of the other. *)
Definition isolated {W} (lk : link) (pa0 pa1 : Z) (h : hv W) : Prop :=
  (forall a, guest_walk lk h 0 a = tenant_space VM_IPA pa0 a) /\
  (forall a, guest_walk lk h 1 a = tenant_space VM_IPA pa1 a) /\
  guest_vmid h 0 = Some 1 /\ guest_vmid h 1 = Some 2 /\
  (forall a b oa ob, guest_walk lk h 0 a = Some oa -> guest_walk lk h 1 b = Some ob -> s2_pa oa <> s2_pa ob).

(** Where the linker puts the tables: page-aligned, below 2^48, in different pages. *)
Definition tables_ok (lk : link) : Prop :=
  0 <= lk_s2_vm lk /\ lk_s2_vm lk + 8192 <= 2 ^ 48 /\ lk_s2_vm lk mod 4096 = 0 /\
  ~ (lk_s2_vm lk <= lk_s2_l1 lk < lk_s2_vm lk + 8192).

Definition vm_vttbr (lk : link) (vm : Z) : Z := u64 (lk_s2_vm lk + vm * 4096) .| u64 ((vm + 1) ≪ 48).
Definition tenant_table (pa : Z) : list Z := put_block (replicate 512 0) VM_IPA pa S2_BLOCK_NORMAL.
Abbreviation core_t := (list (Z * Z * Z) * list (list Z) * Z)%type.
Definition tenant_core (lk : link) (pa0 pa1 : Z) : core_t :=
  ([(vm_vttbr lk 0, bit 31 .| 0, 0); (vm_vttbr lk 1, bit 31 .| 1, 1)], [tenant_table pa0; tenant_table pa1], VTCR_EL2_VALUE).

Section Isolation.
Context {W : Type} (lk : link).
Implicit Type h : hv W.

Lemma core_vttbr h pa0 pa1 i : core h = tenant_core lk pa0 pa1 -> 0 <= i < 2 ->
  exists v, h_vcpus h !! Z.to_nat i = Some v /\ vttbr v = vm_vttbr lk i.
Proof.
  unfold core, tenant_core. intros E Hi. injection E as Ek _ _.
  destruct (h_vcpus h) as [|v0 [|v1 [|? ?]]]; try discriminate Ek. cbn [map] in Ek. injection Ek as E0 _ _ E1 _ _.
  assert (i = 0 \/ i = 1) as [-> | ->] by lia; eexists; (split; [reflexivity|done]).
Qed.
Lemma core_walk h pa0 pa1 i a : tables_ok lk -> core h = tenant_core lk pa0 pa1 -> 0 <= i < 2 ->
  guest_walk lk h i a = s2_walk VTCR_EL2_VALUE (tenant_table (if i =? 0 then pa0 else pa1)) a.
Proof.
  intros (H0 & H1 & H2 & H3) E Hi. destruct (core_vttbr h pa0 pa1 i E Hi) as (v & Ev & Et).
  unfold guest_walk. rewrite Ev. cbn [mbind option_bind]. rewrite Et.
  destruct (vttbr_fields (lk_s2_vm lk) i (i + 1)) as [_ Hb]; [done|unfold fits; lia|done..|].
  unfold vm_vttbr. rewrite Hb. destruct (Z.eqb_spec (lk_s2_vm lk + i * 4096) (lk_s2_l1 lk)); [lia|].
  replace (lk_s2_vm lk + i * 4096 - lk_s2_vm lk) with (i * 4096) by lia.
  rewrite Z.mod_mul, Z.div_mul by lia. cbn [Z.eqb]. unfold core, tenant_core in E. injection E as _ Es ->. rewrite Es.
  assert (i = 0 \/ i = 1) as [-> | ->] by lia; reflexivity.
Qed.
Lemma core_vmid h pa0 pa1 i : tables_ok lk -> core h = tenant_core lk pa0 pa1 -> 0 <= i < 2 ->
  guest_vmid h i = Some (i + 1).
Proof.
  intros (H0 & H1 & H2 & _) E Hi. destruct (core_vttbr h pa0 pa1 i E Hi) as (v & Ev & Et).
  unfold guest_vmid. rewrite Ev. cbn [mbind option_bind]. rewrite Et. f_equal.
  apply vttbr_fields; [done|unfold fits; lia|done..].
Qed.

(** The configuration the set-up code leaves is an isolated one. *)
Lemma core_isolated h pa0 pa1 : tables_ok lk -> fits 40 pa0 -> fits 40 pa1 -> ~ same_block pa0 pa1 ->
  core h = tenant_core lk pa0 pa1 -> isolated lk pa0 pa1 h.
Proof.
  intros Ht F0 F1 Hd E. assert (fits 39 VM_IPA) as Hv by fits_const.
  assert (forall a, guest_walk lk h 0 a = tenant_space VM_IPA pa0 a) as G0.
  { intros a. rewrite (core_walk h pa0 pa1 0 a) by (done || lia). by apply tenant_table_refines. }
  assert (forall a, guest_walk lk h 1 a = tenant_space VM_IPA pa1 a) as G1.
  { intros a. rewrite (core_walk h pa0 pa1 1 a) by (done || lia). by apply tenant_table_refines. }
  split; [done|]. split; [done|]. split; [apply (core_vmid h pa0 pa1 0 Ht E); lia|].
  split; [apply (core_vmid h pa0 pa1 1 Ht E); lia|].
  intros a b oa ob. rewrite G0, G1. unfold tenant_space. do 2 case_decide; try done. intros [= <-] [= <-]. cbn [s2_pa].
  unfold same_block in Hd. rewrite !Z.shiftr_div_pow2 in Hd by lia.
  rewrite !block_base_arith in * by (eapply fits_mono; [|done]; lia). zlia.
Qed.
End Isolation.

(** ** Following the configuration through set-up code and loops *)
Section Follow.
Context {W : Type} {PL : Platform W} {PO : PlatformOk W} (lk : link).
Abbreviation M A := (st (hv W) A).

(** [m] returns [a] and changes the tenants' configuration by exactly [F]. *)
Definition does {A} (a : A) (F : core_t -> core_t) (m : M A) : Prop :=
  forall h, wf_hv h -> exists h', m h = Ok (a, h') /\ wf_hv h' /\ core h' = F (core h).
(** [m] returns and leaves that configuration alone (HCR_EL2 may change). *)
Definition steady {A} (P : A -> Prop) (m : M A) : Prop :=
  forall h, wf_hv h -> exists a h', m h = Ok (a, h') /\ wf_hv h' /\ core h' = core h /\ P a.

Lemma does_bind {A B} (a : A) (b : B) F G (m : M A) (f : A -> M B) :
  does a F m -> does b G (f a) -> does b (fun k => G (F k)) (m ≫= f).
Proof.
  intros Hm Hf h Hh. destruct (Hm h Hh) as (h1 & E & H1 & C1). destruct (Hf h1 H1) as (h2 & E2 & H2 & C2).
  exists h2. rewrite (st_bind_Ok _ _ _ _ _ E), C2, C1. by split_and!.
Qed.
Lemma does_steady (m : M unit) : steady (fun _ => True) m -> does tt (fun k => k) m.
Proof. intros Hm h Hh. destruct (Hm h Hh) as ([] & h' & ? & ? & ? & _). by exists h'. Qed.
Lemma steady_yields {A} (P : A -> Prop) (m : M A) : yields P m -> steady P m.
Proof.
  intros Hm h Hh. destruct (Hm h Hh) as (a & h' & ? & ? & C & ?). exists a, h'. split_and!; try done. unfold config in C. congruence.
Qed.
Lemma does_keeps (m : M unit) : keeps m -> does tt (fun k => k) m.
Proof. intros Hm. by apply does_steady, steady_yields. Qed.
Lemma does_total (a : unit) F (m : M unit) : does a F m -> total (fun _ => True) m.
Proof. intros Hm h Hh. destruct (Hm h Hh) as (h' & ? & ? & _). by exists a, h'. Qed.
Lemma steady_total {A} (P : A -> Prop) (m : M A) : steady P m -> total P m.
Proof. intros Hm h Hh. destruct (Hm h Hh) as (a & h' & ? & ? & _ & ?). by exists a, h'. Qed.
Lemma steady_bind {A B} (P : A -> Prop) (Q : B -> Prop) (m : M A) (f : A -> M B) :
  steady P m -> (forall a, P a -> steady Q (f a)) -> steady Q (m ≫= f).
Proof.
  intros Hm Hf h Hh. destruct (Hm h Hh) as (a & h1 & E & H1 & C1 & Pa).
  destruct (Hf a Pa h1 H1) as (b & h2 & E2 & H2 & C2 & Qb). exists b, h2.
  rewrite (st_bind_Ok _ _ _ _ _ E), C2. by split_and!.
Qed.
Lemma wr_sys_steady r v : fits 64 v -> steady (fun _ => True) (wr_sys (W := W) r v).
Proof.
  intros Hv h Hh. eexists tt, _. split; [done|]. split; [|done]. destruct Hh. split; try done. by apply wf_wr_sysreg.
Qed.

(** Every head of a steady loop has the configuration the loop started with. *)
Lemma steady_heads {L} (I J : L -> Prop) (body : L -> M (bool * L)) l h l' h' :
  (forall l, I l -> steady (fun r : bool * L => if r.1 then I r.2 else J r.2) (body l)) -> I l -> wf_hv h ->
  reach body l h l' h' -> wf_hv h' /\ core h' = core h /\ I l' /\ is_ok (body l' h').
Proof.
  intros Hb Hl Hh R.
  destruct (reach_inv (fun l' h' => wf_hv h' /\ core h' = core h /\ I l') body l h l' h') as ((? & ? & ?) & ?); try done.
  intros l1 h1 (H1 & C1 & I1). destruct (Hb l1 I1 h1 H1) as (r & h2 & E & H2 & C2 & Ir). exists r, h2.
  split; [done|]. intros Er. rewrite Er in Ir. split; [done|]. by rewrite C2, C1.
Qed.

(** What each set-up step does. *)
Definition set_key (i : Z) (k : Z * Z * Z) (c : core_t) : core_t := (<[Z.to_nat i := k]> c.1.1, c.1.2, c.2).
Definition set_table (vm : Z) (t : list Z) (c : core_t) : core_t := (c.1.1, <[Z.to_nat vm := t]> c.1.2, c.2).
Lemma stage2_init_does : does tt (fun c => (c.1, VTCR_EL2_VALUE)) (do_stage2_init (W := W) lk).
Proof. intros h Hh. destruct (stage2_init_runs lk h Hh) as (h' & E & Hw & C & _). by exists h'. Qed.
Lemma build_vm_does vm pa vmid :
  0 <= vm < 2 -> vmid = vm + 1 -> does (vm_vttbr lk vm) (set_table vm (tenant_table pa)) (build_vm lk vm VM_IPA pa vmid).
Proof.
  intros Hvm -> h Hh. destruct (wh_s2 h Hh) as (H1 & H2 & H3). unfold build_vm, zoom.
  rewrite build_vm_put by done. cbn [mbind res_bind]. eexists. split; [done|]. split; [|done].
  destruct Hh. split; try done. split; [done|]. cbn. split; [by rewrite len_insert|].
  apply Forall_insert; [done|]. unfold put_block. by rewrite len_insert.
Qed.
Lemma init_vcpu_does i entry sp vt :
  0 <= i < 2 -> fits 64 entry -> fits 64 sp -> fits 64 vt ->
  does tt (set_key i (vt, bit 31 .| i, i)) (init_vcpu (W := W) i entry sp vt).
Proof.
  intros Hi He Hs Hv h Hh. destruct (wh_vcpus h Hh) as [Hl HF]. unfold init_vcpu, set_vcpu, update.
  rewrite aset_ok by lia. cbn [mbind res_bind]. eexists. split; [done|]. split.
  - destruct Hh. split; try done. split; [cbn; by rewrite len_insert|]. apply Forall_insert; [done|].
    apply vcpu_init_wf; try done. unfold fits. lia.
  - unfold core, set_key. cbn. do 2 f_equal. change (map vcpu_key) with (fmap vcpu_key : list vcpu -> _).
    rewrite list_fmap_insert. f_equal. unfold vcpu_key, vcpu_init. cbn.
    rewrite (wrap_fits 64 i); [done|unfold fits; lia].
Qed.
Lemma vm_vttbr_fits vm : fits 64 (vm_vttbr lk vm).
Proof. apply fits_lor; [lia|apply fits_wrap; lia..]. Qed.
End Follow.

(** Set-up sequences, one operation at a time. *)
Ltac does_prim lk :=
  match goal with
  | |- does _ _ (do_stage2_init _) => apply stage2_init_does
  | |- does _ _ (build_vm _ _ _ _ _) => apply build_vm_does; [lia|reflexivity]
  | |- does _ _ (init_vcpu _ _ _ _) => apply init_vcpu_does; [lia| | |apply vm_vttbr_fits]; hv_side
  | |- does _ _ (wr_sys _ _) => apply does_steady, wr_sys_steady; hv_side
  | |- does _ _ (copy_image _ _ _) => apply does_keeps, copy_image_keeps
  | |- does _ _ do_vgic_reset => apply does_keeps, vgic_reset_keeps
  | |- does _ _ do_gic_init => apply does_keeps, gic_init_keeps
  | |- does _ _ do_hyptimer_init => apply does_keeps, timer_init_keeps
  | |- does _ _ (timer_start _) => apply does_keeps, timer_start_keeps
  | |- does _ _ (println _) => apply does_keeps, println_keeps
  | |- does _ _ (set_x _ _ _) => apply does_keeps, set_x_keeps; hv_side
  | |- does _ _ do_virtio_reset => apply does_keeps, virtio_reset_keeps
  | |- does _ _ (do_virtio_set_offset _ _) => apply does_keeps, virtio_set_offset_keeps; hv_side
  | |- does _ _ do_vblk_reset => apply does_keeps, vblk_reset_keeps
  | |- does _ _ (do_vblk_set_offset _ _) => apply does_keeps, vblk_set_offset_keeps; hv_side
  end.
Ltac does_run lk := repeat (eapply does_bind; [solve [does_prim lk]|]); does_prim lk.

Section TenantTheorems.
Context {W : Type} {PL : Platform W} {PO : PlatformOk W} (lk : link).

(** A set-up that fills both table slots and both vCPUs leaves [tenant_core]. *)
Lemma setup_core F (m : st (hv W) unit) pa0 pa1 :
  does tt F m -> (forall k0 k1 t0 t1 v, F ([k0; k1], [t0; t1], v) = tenant_core lk pa0 pa1) ->
  does tt (fun _ => tenant_core lk pa0 pa1) m.
Proof.
  intros Hm HF h Hh. destruct (Hm h Hh) as (h' & E & Hw & C). exists h'. split; [done|]. split; [done|]. rewrite C.
  destruct (wh_vcpus h Hh) as [Lv _], (wh_s2 h Hh) as (_ & Lt & _). unfold core, len in *.
  destruct (h_vcpus h) as [|a [|b [|]]]; cbn in Lv; try lia.
  destruct (s2_vm (h_s2 h)) as [|c [|d [|]]]; cbn in Lt; try lia. apply HF.
Qed.

Lemma mtenant_setup_does : does tt (fun _ => tenant_core lk VM0_PA VM1_PA) (mtenant_setup (W := W) lk).
Proof. eapply setup_core; [unfold mtenant_setup; does_run lk|]. intros. reflexivity. Qed.
Lemma mtenant_vgic_setup_does : does tt (fun _ => tenant_core lk VM0_PA VM1_PA) (mtenant_vgic_setup (W := W) lk).
Proof. eapply setup_core; [unfold mtenant_vgic_setup; does_run lk|]. intros. reflexivity. Qed.
Lemma mtenant_real_setup_does : does tt (fun _ => tenant_core lk VM0_PA VM1_PA) (mtenant_real_setup (W := W) lk).
Proof. eapply setup_core; [unfold mtenant_real_setup; does_run lk|]. intros. reflexivity. Qed.
Lemma mtenant_os_setup_does : does tt (fun _ => tenant_core lk VM0_PA VM1_PA) (mtenant_os_setup (W := W) lk).
Proof. eapply setup_core; [unfold mtenant_os_setup; does_run lk|]. intros. reflexivity. Qed.

(** ** Weighted slices: VM1 runs in every fourth one *)
Definition slice_owner (slot : Z) : Z := if (0 <? slot) && (slot mod 4 =? 0) then 1 else 0.
Definition ws_inv (limit : Z) (l : wsched) : Prop :=
  len (ws_pend l) = 2 /\ 0 <= ws_slot l <= ws_guard l /\ 0 <= ws_guard l <= limit /\ ws_cur l = slice_owner (ws_slot l).
Lemma slice_owner_range slot : 0 <= slice_owner slot < 2.
Proof. unfold slice_owner. case_match; lia. Qed.
Lemma slice_owner_next slot : 0 <= slot -> (if ((slot + 1) .& 3) =? 0 then 1 else 0) = slice_owner (slot + 1).
Proof.
  intros. unfold slice_owner. change 3 with (Z.ones 2). rewrite land_ones_wrap by lia.
  change (wrap 2 (slot + 1)) with ((slot + 1) mod 4). by destruct (Z.ltb_spec 0 (slot + 1)); [|lia].
Qed.
Lemma ws_inv_start limit : 0 <= limit -> ws_inv limit ws_start.
Proof. intros. unfold ws_inv, ws_start. cbn. unfold len. cbn. split; [lia|]. split; [lia|]. split; [lia|done]. Qed.

(** What one iteration that spent one unit of the guard promises. *)
Definition ws_next (limit : Z) (l : wsched) (r : bool * wsched) : Prop :=
  if r.1 then ws_inv limit r.2 /\ 0 <= limit - ws_guard r.2 < limit - ws_guard l else True.

Lemma weighted_tick_ok limit l l0 :
  len (ws_pend l) = 2 -> 0 <= ws_slot l < ws_guard l -> 0 <= ws_guard l <= limit -> ws_cur l = slice_owner (ws_slot l) ->
  ws_guard l0 < ws_guard l -> yields (ws_next limit l0) (weighted_tick (W := W) l).
Proof.
  destruct l as [pend cur slot guard t1]. cbn [ws_pend ws_slot ws_guard ws_cur]. intros Hp Hs Hg Hc H0.
  unfold weighted_tick, ws_next, ws_inv. cbv zeta.
  hv_run; cbn [fst snd ws_pend ws_slot ws_guard ws_cur]; (split; [|lia]).
  - change (len [1; 1]) with 2. rewrite slice_owner_next by lia. split; [done|]. split; [lia|]. by split; [lia|].
  - split; [done|]. split; [lia|]. by split; [lia|].
Qed.

Lemma mtenant_os_body_ok l : ws_inv 4000000 l -> yields (ws_next 4000000 l) (mtenant_os_body (W := W) lk l).
Proof.
  destruct l as [pend cur slot guard t1]. unfold ws_inv. cbn [ws_pend ws_slot ws_guard ws_cur].
  intros (Hp & Hs & Hg & Hc). pose proof (slice_owner_range slot) as Hr. rewrite <- Hc in Hr.
  unfold mtenant_os_body. destruct (negb _) eqn:Eg; [by apply yields_ret|]. hv_bools. apply Z.ltb_lt in Eg. cbv zeta.
  eapply yields_bind; [apply pure_get; lia|]. intros p _.
  eapply (yields_bind (fun pd => len pd = 2)).
  { case_match; [by apply yields_ret|]. eapply yields_bind; [by apply inject_timer_keeps|]. intros _ _.
    eapply yields_weaken; [apply pure_set; lia|]. intros pd Hpd. cbv beta in Hpd. lia. }
  intros pd Hpd.
  assert (forall t, ws_next 4000000 (mk_ws pend cur slot guard t1) (true, mk_ws pd cur slot (guard + 1) t)) as Hn.
  { intros t. unfold ws_next, ws_inv. cbn. split; [|lia]. split; [done|]. split; [lia|]. by split; [lia|]. }
  assert (yields (ws_next 4000000 (mk_ws pend cur slot guard t1)) (weighted_tick (W := W) (mk_ws pd cur slot (guard + 1) t1))) as Ht.
  { apply weighted_tick_ok; cbn; [done|lia|lia|done|lia]. }
  hv_run; first [exact I | apply Hn | exact Ht].
Qed.

Lemma mtenant_real_rest_ok l l0 :
  len (ws_pend l) = 2 -> 0 <= ws_slot l < ws_guard l -> 0 <= ws_guard l <= 2000000 -> ws_cur l = slice_owner (ws_slot l) ->
  ws_guard l0 < ws_guard l -> yields (ws_next 2000000 l0) (mtenant_real_rest (W := W) lk l).
Proof.
  destruct l as [pend cur slot guard t1]. cbn [ws_pend ws_slot ws_guard ws_cur]. intros Hp Hs Hg Hc H0.
  pose proof (slice_owner_range slot) as Hr. rewrite <- Hc in Hr. unfold mtenant_real_rest. cbv zeta.
  eapply yields_bind; [apply deliver_tick_ok; [done|unfold real_intid; case_match; fits_const|done]|]. intros pd Hpd. cbv beta in Hpd.
  assert (forall t, ws_next 2000000 l0 (true, mk_ws pd cur slot guard t)) as Hn.
  { intros t. unfold ws_next, ws_inv. cbn. split; [|lia]. split; [done|]. split; [lia|]. by split; [lia|]. }
  assert (yields (ws_next 2000000 l0) (weighted_tick (W := W) (mk_ws pd cur slot guard t1))) as Ht.
  { apply weighted_tick_ok; cbn; [done|lia|lia|done|lia]. }
  hv_run; first [exact I | apply Hn | exact Ht].
Qed.
Lemma mtenant_real_body_ok l : ws_inv 2000000 l -> steady (ws_next 2000000 l) (mtenant_real_body (W := W) lk l).
Proof.
  destruct l as [pend cur slot guard t1]. unfold ws_inv. cbn [ws_pend ws_slot ws_guard ws_cur].
  intros (Hp & Hs & Hg & Hc). unfold mtenant_real_body.
  destruct (negb (t1 <? 8)); [by apply steady_yields, yields_ret|].
  destruct (negb _) eqn:Eg; [by apply steady_yields, yields_ret|]. hv_bools. apply Z.ltb_lt in Eg.
  eapply steady_bind; [apply wr_sys_steady; unfold real_hcr; case_match; fits_const|]. intros _ _.
  apply steady_yields, mtenant_real_rest_ok; cbn; [done|lia|lia|done|lia].
Qed.
Lemma mtenant_vgic_body_ok l :
  tick_inv 20000 l ->
  yields (fun r : bool * tick_loc => if r.1 then tick_inv 20000 r.2 /\ 0 <= 20000 - tk_guard r.2 < 20000 - tk_guard l
                                     else len (tk_ticks r.2) = 2) (mtenant_vgic_body (W := W) lk l).
Proof. apply tick_loop_body_ok; intros; [|unfold mtv_dabt|]; hv_run. Qed.

Lemma mtenant_real_steady l :
  ws_inv 2000000 l ->
  steady (fun r : bool * wsched => if r.1 then ws_inv 2000000 r.2 else True) (mtenant_real_body (W := W) lk l).
Proof.
  intros Hl h Hh. destruct (mtenant_real_body_ok l Hl h Hh) as (r & h' & E & Hw & C & Hn). exists r, h'.
  split; [done|]. split; [done|]. split; [done|]. unfold ws_next in Hn. destruct r.1; [apply Hn|done].
Qed.
Lemma mtenant_os_steady l :
  ws_inv 4000000 l ->
  steady (fun r : bool * wsched => if r.1 then ws_inv 4000000 r.2 else True) (mtenant_os_body (W := W) lk l).
Proof.
  intros Hl. apply steady_yields. eapply yields_weaken; [by apply mtenant_os_body_ok|].
  intros [[] ?] Hn; [apply Hn|done].
Qed.
Lemma mtenant_vgic_steady l :
  tick_inv 20000 l ->
  steady (fun r : bool * tick_loc => if r.1 then tick_inv 20000 r.2 else True) (mtenant_vgic_body (W := W) lk l).
Proof.
  intros Hl. apply steady_yields. eapply yields_weaken; [by apply mtenant_vgic_body_ok|].
  intros [[] ?] Hn; [apply Hn|done].
Qed.

(** A set-up followed by a steady loop: every head is isolated, and safe. *)
Lemma heads_isolated {L} (I J : L -> Prop) (m : st (hv W) unit) (body : L -> st (hv W) (bool * L)) l0 :
  tables_ok lk -> does tt (fun _ => tenant_core lk VM0_PA VM1_PA) m -> I l0 ->
  (forall l, I l -> steady (fun r : bool * L => if r.1 then I r.2 else J r.2) (body l)) ->
  forall h, wf_hv h -> exists h1, m h = Ok (tt, h1) /\ wf_hv h1 /\
    forall l h', reach body l0 h1 l h' -> isolated lk VM0_PA VM1_PA h' /\ wf_hv h' /\ is_ok (body l h').
Proof.
  intros Ht Hm Hl Hb h Hh. destruct (Hm h Hh) as (h1 & E & H1 & C1). exists h1. split; [done|]. split; [done|].
  intros l h' R. destruct (steady_heads I J body l0 h1 l h' Hb Hl H1 R) as (H2 & C2 & _ & Hok).
  split; [|done]. apply core_isolated; [done|fits_const|fits_const|by vm_compute|]. by rewrite C2.
Qed.

(** C1: Tenants are isolated throughout their life.  The set-up of each two-tenant
    configuration (two vGIC guests; fermi-os and a guest; Linux and fermi-os) succeeds
    from any well-formed state, and at every head of its scheduling loop - after any
    number of exits, whatever the guests did - each vCPU's VTTBR_EL2 still selects its
    own VMID and a table that maps its whole guest-physical space onto its own host
    block, so that no address of one tenant translates to memory of the other; and the
    next iteration completes. *)
Theorem tenants_stay_isolated (h : hv W) :
  tables_ok lk -> wf_hv h ->
  (exists h1, mtenant_vgic_setup lk h = Ok (tt, h1) /\ wf_hv h1 /\ forall l h', reach (mtenant_vgic_body lk) tick_start h1 l h' ->
     isolated lk VM0_PA VM1_PA h' /\ wf_hv h' /\ is_ok (mtenant_vgic_body lk l h')) /\
  (exists h1, mtenant_real_setup lk h = Ok (tt, h1) /\ wf_hv h1 /\ forall l h', reach (mtenant_real_body lk) ws_start h1 l h' ->
     isolated lk VM0_PA VM1_PA h' /\ wf_hv h' /\ is_ok (mtenant_real_body lk l h')) /\
  (exists h1, mtenant_os_setup lk h = Ok (tt, h1) /\ wf_hv h1 /\ forall l h', reach (mtenant_os_body lk) ws_start h1 l h' ->
     isolated lk VM0_PA VM1_PA h' /\ wf_hv h' /\ is_ok (mtenant_os_body lk l h')).
Proof.
  intros Ht Hh. split; [|split].
  - apply (heads_isolated (tick_inv 20000) (fun _ => True)); [done|apply mtenant_vgic_setup_does|by apply tick_inv_start|apply mtenant_vgic_steady|done].
  - apply (heads_isolated (ws_inv 2000000) (fun _ => True)); [done|apply mtenant_real_setup_does|by apply ws_inv_start|apply mtenant_real_steady|done].
  - apply (heads_isolated (ws_inv 4000000) (fun _ => True)); [done|apply mtenant_os_setup_does|by apply ws_inv_start|apply mtenant_os_steady|done].
Qed.

(** C28: The weighted scheduler gives the second tenant exactly every fourth slice: at
    every head of the loops that run fermi-os beside a guest and Linux beside fermi-os,
    the tenant selected is VM1 when the number of expired slices is a positive multiple
    of four and VM0 otherwise. *)
Theorem weighted_schedule (h h' : hv W) l :
  wf_hv h ->
  reach (mtenant_real_body lk) ws_start h l h' \/ reach (mtenant_os_body lk) ws_start h l h' ->
  ws_cur l = (if (0 <? ws_slot l) && (ws_slot l mod 4 =? 0) then 1 else 0) /\ 0 <= ws_slot l <= ws_guard l.
Proof.
  intros Hh HR. assert (exists k, ws_inv k l) as (k & _ & Hs & _ & ->).
  { destruct HR as [R|R].
    - exists 2000000. by apply (steady_heads (ws_inv 2000000) (fun _ => True) _ _ _ _ _ mtenant_real_steady (ws_inv_start 2000000 ltac:(lia)) Hh R).
    - exists 4000000. by apply (steady_heads (ws_inv 4000000) (fun _ => True) _ _ _ _ _ mtenant_os_steady (ws_inv_start 4000000 ltac:(lia)) Hh R). }
  done.
Qed.

Lemma println_line_keeps : keeps (on_uart (W := W) (uart_println (LF :: bytes rule_line))).
Proof. apply on_uart_yields. intros w. destruct (println_runs (LF :: bytes rule_line) w) as [w' E]. by exists tt, w'. Qed.
Lemma mtenant_one_keeps i : 0 <= i < 2 -> keeps (mtenant_one (W := W) lk i).
Proof. intros Hi. unfold mtenant_one. by hv_run. Qed.

Lemma mtenant_demo_total : total (fun _ => True) (mtenant_demo (W := W) lk).
Proof.
  unfold mtenant_demo. eapply total_bind; [eapply does_total, mtenant_setup_does|]. intros _ _. apply total_yields.
  eapply yields_bind; [apply println_keeps|]. intros _ _.
  eapply yields_bind; [apply printf_keeps; hv_side|]. intros _ _.
  eapply yields_bind; [apply mtenant_one_keeps; lia|]. intros _ _. eapply yields_bind; [apply mtenant_one_keeps; lia|]. intros _ _.
  eapply yields_bind; [apply read_mem32_yields|]. intros m0 F0. eapply yields_bind; [apply read_mem32_yields|]. intros m1 F1.
  assert (fits 64 m0) by (eapply fits_mono; [|done]; lia). assert (fits 64 m1) by (eapply fits_mono; [|done]; lia).
  by hv_run.
Qed.
Lemma mtenant_vgic_demo_total : total (fun _ => True) (mtenant_vgic_demo (W := W) lk).
Proof.
  unfold mtenant_vgic_demo. eapply total_bind; [eapply does_total, mtenant_vgic_setup_does|]. intros _ _.
  apply (tick_loop_then 20000); [apply mtenant_vgic_body_ok|lia|]. intros l Hl. apply read_ticks; [done|]. intros. by hv_run.
Qed.
Lemma mtenant_real_demo_total : total (fun _ => True) (mtenant_real_demo (W := W) lk).
Proof.
  unfold mtenant_real_demo. eapply total_bind; [eapply does_total, mtenant_real_setup_does|]. intros _ _.
  eapply total_bind; [apply (loop_total (ws_inv 2000000) (fun _ => True) (fun l => 2000000 - ws_guard l));
    [intros l Hl; by apply steady_total, mtenant_real_body_ok|by apply ws_inv_start|cbn [ws_start ws_guard]; lia|cbn [ws_start ws_guard]; lia]|].
  intros l _. apply total_yields. eapply yields_bind; [apply timer_stop_keeps|]. intros _ _.
  eapply yields_bind; [apply println_line_keeps|]. intros _ _. by hv_run.
Qed.
Lemma mtenant_os_demo_total : total (fun _ => True) (mtenant_os_demo (W := W) lk).
Proof.
  unfold mtenant_os_demo. eapply total_bind; [eapply does_total, mtenant_os_setup_does|]. intros _ _.
  eapply total_bind; [apply total_yields, (loop_yields (ws_inv 4000000) (fun _ => True) (fun l => 4000000 - ws_guard l));
    [apply mtenant_os_body_ok|by apply ws_inv_start|cbn [ws_start ws_guard]; lia|cbn [ws_start ws_guard]; lia]|].
  intros l _. apply total_yields. eapply yields_bind; [apply println_line_keeps|]. intros _ _. by hv_run.
Qed.

End TenantTheorems.

Lemma link0_tables : tables_ok link0.
Proof. unfold tables_ok, link0. cbn [lk_s2_vm lk_s2_l1]. split; [lia|]. split; [lia|]. split; [done|lia]. Qed.
Lemma tenants_stay_isolated_witness :
  (exists h1, mtenant_vgic_setup link0 (hv_boot quiet) = Ok (tt, h1) /\ wf_hv h1 /\
     forall l h', reach (mtenant_vgic_body link0) tick_start h1 l h' ->
     isolated link0 VM0_PA VM1_PA h' /\ wf_hv h' /\ is_ok (mtenant_vgic_body link0 l h')) /\
  (exists h1, mtenant_real_setup link0 (hv_boot quiet) = Ok (tt, h1) /\ wf_hv h1 /\
     forall l h', reach (mtenant_real_body link0) ws_start h1 l h' ->
     isolated link0 VM0_PA VM1_PA h' /\ wf_hv h' /\ is_ok (mtenant_real_body link0 l h')) /\
  (exists h1, mtenant_os_setup link0 (hv_boot quiet) = Ok (tt, h1) /\ wf_hv h1 /\
     forall l h', reach (mtenant_os_body link0) ws_start h1 l h' ->
     isolated link0 VM0_PA VM1_PA h' /\ wf_hv h' /\ is_ok (mtenant_os_body link0 l h')).
Proof. apply (tenants_stay_isolated link0 (hv_boot quiet)); [apply link0_tables|apply hv_boot_wf]. Defined.
(** Four timer ticks into the run of fermi-os beside a guest, VM1 is selected. *)
Definition four_ticks : script := mk_script (replicate 4 (mk_event 1 [] [] [])) (replicate 4 26) [] [] 0.
Lemma weighted_schedule_witness :
  exists l h', reach (mtenant_real_body link0) ws_start (hv_boot four_ticks) l h' /\ ws_slot l = 4 /\ ws_cur l = 1.
Proof.
  destruct (iterate_check (mtenant_real_body link0) 4 ws_start (hv_boot four_ticks) (fun l _ => ws_slot l =? 4)) as (l & h' & R & E);
    [vm_compute; reflexivity|].
  exists l, h'. split; [exact R|]. apply Z.eqb_eq in E. split; [exact E|].
  destruct (weighted_schedule link0 (hv_boot four_ticks) h' l (hv_boot_wf _) (or_introl R)) as [Hc _].
  rewrite Hc, E. reflexivity.
Defined.
