(* ===== verification/VirtioRun.v ===== *)
(** The virtio run loops (src/src/vcpu.c): a guest that drives the emulated console,
    polled and interrupt-driven; a guest that writes and one that reads the emulated
    disk; two tenants with their own console and their own disk. *)

From S2P Require Import Prelude Esr Machine Vcpu Stage2 Vgic Uart Vdev Handlers Vvirtio Vblk Timer Hv Sched Smp Tenants.

(** [%s] between double quotes, in a format. *)
Definition quoted : list Z := [34; 37; 115; 34].

Section VirtioRun.
Context {W : Type} {PL : Platform W} (lk : link).
Abbreviation M A := (st (hv W) A).

(** Locals [done] and [guard] of [while (!done && guard++ < limit)]. *)
Record vloc := mk_vl { vl_done : bool; vl_guard : Z }.
Definition vl_start : vloc := mk_vl false 0.
(** The loop's condition; [step] is its body, which says whether to [break] and sets [done]. *)
Definition until_done (limit : Z) (step : M (bool * bool)) (l : vloc) : M (bool * vloc) :=
  if vl_done l then mret (false, l)
  else if negb (vl_guard l <? limit) then mret (false, mk_vl false (vl_guard l + 1))
  else '(go, fin) ← step; mret (go, mk_vl fin (vl_guard l + 1)).

(** ** virtio_demo *)
Definition virtio_step : M (bool * bool) :=
  run_once lk 0;;
  v ← get_vcpu 0;
  let ec := exit_ec v in
  if is_irq v then ack_drop;; mret (true, false)
  else if ec =? EC_HVC64 then mret (true, true)
  else if ec =? EC_DABT_LOW then
    let ipa := exit_ipa v in
    (if virtio_contains ipa then do_virtio_mmio 0 0 ipa else do_mmio_zero 0);;
    mret (true, false)
  else
    printf (ln "[M23] unexpected exit ec=%x (%s)") [AInt ec; name_of ec];;
    mret (false, false).
Definition virtio_demo : M unit :=
  do_stage2_init lk;;
  do_virtio_reset;;
  wr_sys "hcr_el2" HCR_RW_VM_DC;;
  init_at lk 0 "guest_virtio_entry";;
  println "[M23] guest drives an EMULATED virtio-console (virtqueue):";;
  puts "      device output> ";;
  _ ← loop (Z.to_nat 100002) (until_done 100000 virtio_step) vl_start;
  println "[M23] virtio-console: guest queued a buffer; the hypervisor's device model walked the virtqueue and emitted it.".

(** ** virtio_irq_demo *)
(** Deliver a device's completion interrupt if the guest enabled it. *)
Definition complete (take : M bool) (intid : Z) : M unit :=
  r ← take;
  if r : bool then e ← irq_enabled 0 intid; if e : bool then inject 0 intid else mret tt else mret tt.
Definition virtio_irq_step : M (bool * bool) :=
  run_once lk 0;;
  v ← get_vcpu 0;
  let ec := exit_ec v in
  let finish fin := complete (do_virtio_take_irq 0) 20;; mret (true, fin) in
  if is_irq v then ack_drop;; finish false
  else if ec =? EC_HVC64 then
    x1 ← x_of 0 1;
    printf (LF :: ln "[M24] guest serviced the virtio completion IRQ (INTID %u) delivered via the vGIC") [AInt x1];;
    finish true
  else if ec =? EC_DABT_LOW then
    let ipa := exit_ipa v in
    (if virtio_contains ipa then do_virtio_mmio 0 0 ipa
     else if vgic_contains ipa then do_vgic_mmio 0 0 ipa
     else do_mmio_zero 0);;
    finish false
  else
    printf (ln "[M24] unexpected exit ec=%x (%s)") [AInt ec; name_of ec];;
    mret (false, false).
Definition virtio_irq_demo : M unit :=
  do_stage2_init lk;;
  do_virtio_reset;;
  do_vgic_reset;;
  do_gic_init;;
  wr_sys "hcr_el2" HCR_RW_VM_DC_IMO;;
  wr_sys "ich_hcr_el2" 1;;
  init_at lk 0 "guest_virtio_irq_entry";;
  println "[M24] interrupt-driven virtio-console (used ring + completion IRQ):";;
  puts "      device output> ";;
  _ ← loop (Z.to_nat 100002) (until_done 100000 virtio_irq_step) vl_start;
  println "[M24] virtio-console is interrupt-driven end-to-end: the device wrote the used ring and signalled the guest through the vGIC.".

(** ** vblk_demo and vblk_rd_demo: [on_hvc] is what the loop does with the guest's
    HVC, [stop] its report of an unexpected exit. *)
Definition vblk_step {A} (none : A) (on_hvc : M A) (stop : vcpu -> M unit) : M (bool * (bool * A)) :=
  run_once lk 0;;
  v ← get_vcpu 0;
  let ec := exit_ec v in
  let finish fin a := complete (do_vblk_take_irq 0) 21;; mret (true, (fin, a)) in
  if is_irq v then ack_drop;; finish false none
  else if ec =? EC_HVC64 then a ← on_hvc; finish true a
  else if ec =? EC_DABT_LOW then
    let ipa := exit_ipa v in
    (if vblk_contains ipa then do_vblk_mmio 0 0 ipa
     else if vgic_contains ipa then do_vgic_mmio 0 0 ipa
     else do_mmio_zero 0);;
    finish false none
  else stop v;; mret (false, (false, none)).
Definition m25_step : M (bool * (bool * unit)) :=
  vblk_step tt
    (x1 ← x_of 0 1; printf (ln "[M25] guest serviced the virtio-blk completion IRQ (INTID %u)") [AInt x1])
    (fun v => printf (ln "[M25] unexpected exit ec=%x (%s) far=%x elr=%x")
                [AInt (exit_ec v); name_of (exit_ec v); AInt (exit_far v); AInt (pc v)]).
Definition m25_body : vloc -> M (bool * vloc) :=
  until_done 100000 ('(go, (fin, _)) ← m25_step; mret (go, fin)).
Definition vblk_setup (entry : string) (seed : M unit) : M unit :=
  do_stage2_init lk;;
  do_vblk_reset;;
  do_vgic_reset;;
  do_gic_init;;
  seed;;
  wr_sys "hcr_el2" HCR_RW_VM_DC_IMO;;
  wr_sys "ich_hcr_el2" 1;;
  init_at lk 0 entry.
(** The NUL-terminated buffer [vblk_peek(vm, buf, n); buf[n] = 0]. *)
Definition peek_str (vm n : Z) : M (list Z) := l ← do_vblk_peek vm n; mret (l ++ [0]).
Definition vblk_demo : M unit :=
  vblk_setup "guest_vblk_entry" (mret tt);;
  println "[M25] guest writes sector 0 via a virtio-blk request chain (header/data/status):";;
  _ ← loop (Z.to_nat 100002) m25_body vl_start;
  buf ← peek_str 0 32;
  printf (bytes "[M25] hypervisor reads virtio-blk disk sector 0 = " ++ quoted ++ [LF]) [AStr (Some buf)];;
  println "[M25] virtio-blk works: guest request chain -> device -> backing disk, with a completion IRQ.".

Definition magic : list Z := bytes "VBLK-RD!".
(** Locals [done], [guard] and [got]. *)
Definition m26_step : M (bool * (bool * option Z)) :=
  vblk_step None (x1 ← x_of 0 1; mret (Some x1))
    (fun v => printf (ln "[M26] unexpected exit ec=%x (%s) far=%x") [AInt (exit_ec v); name_of (exit_ec v); AInt (exit_far v)]).
Definition m26_body (l : vloc * Z) : M (bool * (vloc * Z)) :=
  let '(l, got) := l in
  if vl_done l then mret (false, (l, got))
  else if negb (vl_guard l <? 100000) then mret (false, (mk_vl false (vl_guard l + 1), got))
  else '(go, (fin, g)) ← m26_step; mret (go, (mk_vl fin (vl_guard l + 1), default got g)).
(** [rb[i] = (char)(got >> (8 * i))] and the terminator. *)
Definition read_back (got : Z) : list Z := map (fun i => u8 (got ≫ (8 * i))) (seqZ 0 8) ++ [0].
Definition vblk_rd_demo : M unit :=
  vblk_setup "guest_vblk_rd_entry" (do_vblk_poke 0 magic 8);;
  println "[M26] virtio-blk READ: hypervisor seeded sector 0; guest reads it back via a request chain.";;
  l ← loop (Z.to_nat 100002) m26_body (vl_start, 0);
  printf (bytes "[M26] guest read back first 8 bytes = " ++ quoted ++ [LF]) [AStr (Some (read_back l.2))];;
  println "[M26] virtio-blk read path verified: device copied the backing disk into the guest's buffer, with a completion IRQ.".

(** ** mtenant_virtio_demo *)
Definition m27_step (cur : Z) : M (bool * bool) :=
  run_once lk cur;;
  v ← get_vcpu cur;
  let ec := exit_ec v in
  if ec =? EC_HVC64 then mret (true, true)
  else if ec =? EC_DABT_LOW then
    let ipa := exit_ipa v in
    (if virtio_contains ipa then do_virtio_mmio cur cur ipa else do_mmio_zero cur);;
    mret (true, false)
  else
    printf (LF :: ln "[M27] VM%d unexpected exit ec=%x (%s)") [AI cur; AInt ec; name_of ec];;
    mret (false, false).
Definition m27_tenant (cur : Z) : M unit :=
  printf (bytes "      VM%d console emits> ") [AI cur];;
  _ ← loop (Z.to_nat 50002) (until_done 50000 (m27_step cur)) vl_start;
  mret tt.
Definition mtenant_virtio_setup : M unit :=
  do_stage2_init lk;;
  do_virtio_reset;;
  copy_image lk VM0_PA "guest_virtio";;
  copy_image lk VM1_PA "guest_virtio";;
  vttbr0 ← build_vm lk 0 VM_IPA VM0_PA 1;
  vttbr1 ← build_vm lk 1 VM_IPA VM1_PA 2;
  do_virtio_set_offset 0 (VM0_PA - VM_IPA);;
  do_virtio_set_offset 1 (VM1_PA - VM_IPA);;
  wr_sys "hcr_el2" HCR_RW_VM_DC;;
  init_vcpu 0 VM_IPA (VM_IPA + 0x10000) vttbr0;;
  init_vcpu 1 VM_IPA (VM_IPA + 0x10000) vttbr1;;
  println "[M27] two isolated VMs, each with its OWN emulated virtio-console (separate device state + per-VM address translation):".
Definition mtenant_virtio_demo : M unit :=
  mtenant_virtio_setup;;
  m27_tenant 0;;
  m27_tenant 1;;
  println "[M27] each tenant's virtio-console processed its own virtqueue from its own RAM block -- per-VM device isolation.".

(** ** mtenant_vblk_demo: local [g] *)
Definition m28_body (vm : Z) (g : Z) : M (bool * Z) :=
  if negb (g <? 50000) then mret (false, g)
  else
    run_once lk vm;;
    v ← get_vcpu vm;
    let ec := exit_ec v in
    if ec =? EC_HVC64 then mret (false, g)
    else if ec =? EC_DABT_LOW then
      let ipa := exit_ipa v in
      (if vblk_contains ipa then do_vblk_mmio vm vm ipa else do_mmio_zero vm);;
      mret (true, g + 1)
    else mret (false, g).
Definition mtenant_vblk_setup : M unit :=
  do_stage2_init lk;;
  do_vblk_reset;;
  copy_image lk VM0_PA "guest_vbs";;
  copy_image lk VM1_PA "guest_vbs";;
  vttbr0 ← build_vm lk 0 VM_IPA VM0_PA 1;
  vttbr1 ← build_vm lk 1 VM_IPA VM1_PA 2;
  do_vblk_set_offset 0 (VM0_PA - VM_IPA);;
  do_vblk_set_offset 1 (VM1_PA - VM_IPA);;
  wr_sys "hcr_el2" HCR_RW_VM_DC;;
  init_vcpu 0 VM_IPA (VM_IPA + 0x10000) vttbr0;;
  init_vcpu 1 VM_IPA (VM_IPA + 0x10000) vttbr1;;
  println "[M28] two isolated VMs, each with its OWN virtio-blk disk:".
Definition mtenant_vblk_demo : M unit :=
  mtenant_vblk_setup;;
  _ ← loop (Z.to_nat 50001) (m28_body 0) 0;
  d0 ← peek_str 0 18;
  d1 ← peek_str 1 18;
  c ← try_ (fun _ => aget d1 0);
  printf (bytes "[M28] after VM0 wrote: VM0 disk=" ++ quoted ++ ln "; VM1 disk first byte=%x (untouched)")
    [AStr (Some d0); AI (u8 c)];;
  _ ← loop (Z.to_nat 50001) (m28_body 1) 0;
  d1 ← peek_str 1 18;
  printf (bytes "[M28] after VM1 wrote: VM1 disk=" ++ quoted ++ [LF]) [AStr (Some d1)];;
  println "[M28] each tenant's block device wrote only its own backing disk -- per-VM storage isolation.".
End VirtioRun.

(** * Theorems *)
Section VirtioTheorems.
Context {W : Type} {PL : Platform W} {PO : PlatformOk W} (lk : link).

Definition vl_inv (limit : Z) (l : vloc) : Prop := 0 <= vl_guard l <= limit.
Lemma until_done_ok limit (step : st (hv W) (bool * bool)) l :
  keeps step -> vl_inv limit l ->
  yields (fun r : bool * vloc => if r.1 then vl_inv limit r.2 /\ 0 <= limit - vl_guard r.2 < limit - vl_guard l else True)
         (until_done limit step l).
Proof.
  intros Hs Hl. unfold vl_inv, until_done in *. case_match; [by apply yields_ret|].
  destruct (negb _) eqn:Eg; [by apply yields_ret|]. hv_bools. eapply yields_bind; [apply Hs|]. intros [go fin] _.
  apply yields_ret. cbn. destruct go; [|done]. lia.
Qed.
Lemma until_done_loop limit (step : st (hv W) (bool * bool)) fuel :
  keeps step -> 0 <= limit < Z.of_nat fuel -> keeps (loop fuel (until_done limit step) vl_start).
Proof.
  intros Hs Hf. apply (loop_yields (vl_inv limit) (fun _ => True) (fun l => limit - vl_guard l));
    [intros l; by apply until_done_ok|unfold vl_inv; cbn; lia|cbn; lia|cbn; lia].
Qed.
Lemma virtio_step_keeps : keeps (virtio_step (W := W) lk).
Proof. unfold virtio_step. by hv_run. Qed.
Lemma complete_keeps (take : st (hv W) bool) intid : keeps take -> fits 32 intid -> keeps (complete take intid).
Proof. intros Ht Hi. unfold complete. eapply yields_bind; [apply Ht|]. intros r _. by hv_run. Qed.
Lemma virtio_irq_step_keeps : keeps (virtio_irq_step (W := W) lk).
Proof.
  assert (keeps (complete (W := W) (do_virtio_take_irq 0) 20)) as Hc
    by (apply complete_keeps; [apply virtio_take_irq_keeps; lia|fits_const]).
  unfold virtio_irq_step. by hv_run.
Qed.
Lemma m27_step_keeps cur : 0 <= cur < 2 -> keeps (m27_step (W := W) lk cur).
Proof. intros Hc. unfold m27_step. by hv_run. Qed.
Lemma m27_tenant_keeps cur : 0 <= cur < 2 -> keeps (m27_tenant (W := W) lk cur).
Proof.
  intros Hc. unfold m27_tenant. eapply yields_bind; [apply printf_keeps; hv_side|]. intros _ _.
  eapply yields_bind; [apply until_done_loop; [by apply m27_step_keeps|lia]|]. intros _ _. by apply yields_ret.
Qed.

Lemma virtio_demo_total : link_ok lk -> total (fun _ => True) (virtio_demo (W := W) lk).
Proof.
  intros Hlk. unfold virtio_demo. hv_setup.
  eapply total_bind; [apply total_yields, until_done_loop; [apply virtio_step_keeps|lia]|]. intros _ _. hv_setup.
Qed.
Lemma virtio_irq_demo_total : link_ok lk -> total (fun _ => True) (virtio_irq_demo (W := W) lk).
Proof.
  intros Hlk. unfold virtio_irq_demo. hv_setup.
  eapply total_bind; [apply total_yields, until_done_loop; [apply virtio_irq_step_keeps|lia]|]. intros _ _. hv_setup.
Qed.
Lemma mtenant_virtio_setup_does : does tt (fun _ => tenant_core lk VM0_PA VM1_PA) (mtenant_virtio_setup (W := W) lk).
Proof. eapply setup_core; [unfold mtenant_virtio_setup; does_run lk|]. intros. reflexivity. Qed.
Lemma mtenant_virtio_demo_does : does tt (fun _ => tenant_core lk VM0_PA VM1_PA) (mtenant_virtio_demo (W := W) lk).
Proof.
  unfold mtenant_virtio_demo. eapply (does_bind tt tt _ (fun k => k)); [apply mtenant_virtio_setup_does|].
  apply does_keeps. eapply yields_bind; [apply m27_tenant_keeps; lia|]. intros _ _.
  eapply yields_bind; [apply m27_tenant_keeps; lia|]. intros _ _. apply println_keeps.
Qed.

(** ** The block device may run off the end of its disk *)

(** The one fault a guest can provoke: a request whose bound check wraps (see
    [Vblk.vblk_bound_wraps]) drives the device off its disk. *)
Definition overrun (f : fault) : Prop := f = DiskOverrun.
(** [m] returns as [yields] says, or stops in such an overrun; nothing else. *)
Definition contained {A} (P : A -> Prop) (m : st (hv W) A) : Prop :=
  forall h, wf_hv h ->
  match m h with Ok (a, h') => wf_hv h' /\ config h' = config h /\ P a | Err f => overrun f end.

Lemma contained_yields {A} (P : A -> Prop) (m : st (hv W) A) : yields P m -> contained P m.
Proof. intros Hm h Hh. destruct (Hm h Hh) as (a & h' & -> & ? & ? & ?). done. Qed.
Lemma contained_bind {A B} (P : A -> Prop) (Q : B -> Prop) (m : st (hv W) A) (f : A -> st (hv W) B) :
  contained P m -> (forall a, P a -> contained Q (f a)) -> contained Q (m ≫= f).
Proof.
  intros Hm Hf h Hh. specialize (Hm h Hh). unfold mbind, st_bind. destruct (m h) as [[a h1]|f0]; [|done].
  destruct Hm as (H1 & C1 & Pa). specialize (Hf a Pa h1 H1). destruct (f a h1) as [[b h2]|f0]; [|done].
  destruct Hf as (? & C2 & ?). by rewrite C2, C1.
Qed.
Lemma loop_contained {L} (I J : L -> Prop) (mu : L -> Z) (body : L -> st (hv W) (bool * L)) :
  (forall l, I l -> contained (fun r : bool * L => if r.1 then I r.2 /\ 0 <= mu r.2 < mu l else J r.2) (body l)) ->
  forall fuel l, I l -> mu l < Z.of_nat fuel -> 0 <= mu l -> contained J (loop fuel body l).
Proof.
  intros Hb. induction fuel as [|fuel IH]; intros l Hl Hmu H0; [lia|].
  cbn [loop]. eapply contained_bind; [by apply Hb|]. intros [[] l1] HI; cbn in *.
  - apply IH; [by apply HI|lia|lia].
  - by apply contained_yields, yields_ret.
Qed.

Lemma with_vcpu_contained i (g : vcpu -> st (hv W) vcpu) :
  0 <= i < 2 -> (forall v, wf_vcpu v -> contained (same_key v) (g v)) ->
  contained (fun _ => True) (v ← get_vcpu i; v' ← g v; set_vcpu i v').
Proof.
  intros Hi Hg h Hh. destruct (wh_vcpus h Hh) as [Hl HF]. destruct (aget_ok (h_vcpus h) i) as [v E]; [lia|].
  assert (get_vcpu i h = Ok (v, h)) as Eg by (unfold get_vcpu, try_; by rewrite E).
  rewrite (st_bind_Ok _ _ _ _ _ Eg). specialize (Hg v (Forall_aget _ _ _ _ HF E) h Hh).
  unfold mbind at 1, st_bind at 1. destruct (g v h) as [[v' h1]|f]; [|done]. destruct Hg as (W1 & C1 & Hk).
  destruct (set_vcpu_ok i v v' h1 Hi W1) as (h2 & -> & W2 & C2); [|done|].
  - assert (map vcpu_key (h_vcpus h1) = map vcpu_key (h_vcpus h)) as -> by (unfold config, core in C1; congruence).
    change (map vcpu_key) with (fmap vcpu_key : list vcpu -> _). rewrite list_lookup_fmap.
    apply aget_inv in E as [_ ->]. done.
  - by rewrite C2, C1.
Qed.

Lemma do_vblk_mmio_contained vm i ipa :
  0 <= vm < 2 -> 0 <= i < 2 -> contained (fun _ => True) (do_vblk_mmio (W := W) vm i ipa).
Proof.
  intros Hvm Hi. apply with_vcpu_contained; [done|]. intros v Hv h Hh.
  pose proof (vblk_mmio_ok vm v ipa (h_vb h) (h_mem h) (wh_vb h Hh) Hv Hvm) as Hr.
  destruct (vblk_mmio vm v ipa (h_vb h) (h_mem h)) as [[[v' vb'] m']|f]; cbn [mbind res_bind].
  - destruct Hr as (Hvb & Hv' & Hrt & _). split; [by destruct Hh; split|]. split; [done|]. by eapply rt_only_key.
  - by destruct Hr as [-> _].
Qed.

(** ** Frames: what an operation that returns leaves alone *)
Definition leaves {X A} (o : hv W -> X) (m : st (hv W) A) : Prop := forall h a h', m h = Ok (a, h') -> o h' = o h.
Lemma leaves_bind {X A B} (o : hv W -> X) (m : st (hv W) A) (f : A -> st (hv W) B) :
  leaves o m -> (forall a, leaves o (f a)) -> leaves o (m ≫= f).
Proof.
  intros Hm Hf h b h' E. unfold mbind, st_bind in E. destruct (m h) as [[a h1]|] eqn:E1; [|done].
  rewrite (Hf a _ _ _ E). by eapply Hm.
Qed.
Lemma leaves_ret {X A} (o : hv W -> X) (a : A) : leaves o (mret a).
Proof. intros h b h' E. by injection E as _ <-. Qed.
Lemma leaves_try {X A} (o : hv W -> X) (f : hv W -> res A) : leaves o (try_ f).
Proof. intros h a h' E. unfold try_ in E. res_inv. done. Qed.
Lemma set_vcpu_leaves {X} (o : hv W -> X) i v :
  (forall h l, o (put_vcpus h l) = o h) -> leaves o (set_vcpu i v).
Proof. intros Ho h a h' E. unfold set_vcpu, update in E. res_inv. apply Ho. Qed.
(** The device of the other VM. *)
Definition other_disk (vm : Z) (h : hv W) : res vblk := aget (h_vb h) (1 - vm).
Lemma vblk_mmio_frame vm v ipa vb m v' vb' m' j :
  vblk_mmio vm v ipa vb m = Ok (v', vb', m') -> j <> vm -> aget vb' j = aget vb j.
Proof.
  assert (forall x vb1, aset vb vm x = Ok vb1 -> j <> vm -> aget vb1 j = aget vb j) as Ha.
  { intros x vb1 E Hj. unfold aset in E. case_match; [|done]. injection E as <-. hv_bools. by apply aget_insert_ne; [lia|]. }
  unfold vblk_mmio, vblk_process. intros E Hj. repeat first [progress res_inv | case_match | progress simplify_eq]; eauto.
Qed.
Lemma do_vblk_mmio_leaves vm i ipa : leaves (other_disk vm) (do_vblk_mmio vm i ipa).
Proof.
  apply leaves_bind; [apply leaves_try|]. intros v. apply leaves_bind; [|intros v'; by apply set_vcpu_leaves].
  intros h a h' E. apply bind_Ok_inv in E as ([[v' vb'] m'] & E & [= _ <-]). unfold other_disk. cbn [h_vb put_mem put_vb].
  eapply vblk_mmio_frame; [exact E|lia].
Qed.
Lemma run_once_leaves {X} (o : hv W -> X) i :
  (forall h l c m w, o (put_w (put_mem (put_cpu (put_vcpus h l) c) m) w) = o h) -> leaves o (run_once lk i).
Proof.
  intros Ho h a h' E. unfold run_once in E. res_inv. destruct a1 as [[[v c] m] w]. res_inv. apply Ho.
Qed.
Lemma m28_body_leaves vm g : leaves (other_disk vm) (m28_body lk vm g).
Proof.
  unfold m28_body. case_match; [apply leaves_ret|]. apply leaves_bind; [by apply run_once_leaves|]. intros _.
  apply leaves_bind; [apply leaves_try|]. intros v. repeat case_match; try apply leaves_ret;
    (apply leaves_bind; [|intros; apply leaves_ret]).
  - apply do_vblk_mmio_leaves.
  - unfold do_mmio_zero. apply leaves_bind; [apply leaves_try|]. intros v1. apply leaves_bind; [apply leaves_try|]. intros v2.
    by apply set_vcpu_leaves.
Qed.
Lemma m28_body_contained vm g :
  0 <= vm < 2 -> 0 <= g <= 50000 ->
  contained (fun r : bool * Z => if r.1 then 0 <= r.2 <= 50000 /\ 0 <= 50000 - r.2 < 50000 - g else True) (m28_body (W := W) lk vm g).
Proof.
  intros Hvm Hg. unfold m28_body. destruct (negb _) eqn:Eg; [by apply contained_yields, yields_ret|]. hv_bools. apply Z.ltb_lt in Eg.
  eapply contained_bind; [by apply contained_yields, run_once_keeps|]. intros _ _.
  eapply contained_bind; [by apply contained_yields, get_vcpu_yields|]. intros v Hv. cbv zeta.
  case_match; [by apply contained_yields, yields_ret|]. case_match; [|by apply contained_yields, yields_ret].
  apply (contained_bind (fun _ => True)).
  - case_match; [by apply do_vblk_mmio_contained|by apply contained_yields, do_mmio_zero_keeps].
  - intros _ _. apply contained_yields, yields_ret. cbn. lia.
Qed.
Lemma m28_loop_contained vm : 0 <= vm < 2 -> contained (fun _ => True) (loop (W := W) (Z.to_nat 50001) (m28_body lk vm) 0).
Proof.
  intros Hvm. apply (loop_contained (fun g => 0 <= g <= 50000) (fun _ => True) (fun g => 50000 - g)); [|lia|lia|lia].
  intros g Hg. by apply m28_body_contained.
Qed.

Lemma m28_heads vm g0 (h : hv W) g h' :
  0 <= vm < 2 -> reach (m28_body lk vm) g0 h g h' -> wf_hv h -> 0 <= g0 <= 50000 ->
  other_disk vm h' = other_disk vm h /\ wf_hv h' /\ config h' = config h /\ 0 <= g <= 50000.
Proof.
  intros Hvm R. induction R as [l h|l h l1 h1 l2 h2 E R IH]; [done|]. intros Hh H0.
  pose proof (m28_body_contained vm l Hvm H0 h Hh) as Hc. rewrite E in Hc. destruct Hc as (W1 & C1 & (G1 & _)).
  destruct (IH W1 G1) as (O2 & W2 & C2 & G2). rewrite O2, C2, C1. split; [|done]. by eapply m28_body_leaves.
Qed.


(** ** The block demonstrations *)
Lemma peek_str_yields vm n : 0 <= vm < 2 -> 0 <= n <= DISK_SIZE -> yields (fun l => len l = n + 1) (peek_str (W := W) vm n).
Proof.
  intros Hvm Hn. unfold peek_str. eapply (yields_bind (fun l => len l = n)).
  - apply yields_try. intros h Hh. destruct (wh_vb h Hh) as [Hl HF]. destruct (aget_ok (h_vb h) vm) as [b Hb]; [lia|].
    pose proof (Forall_aget _ _ _ _ HF Hb) as (_ & Hd & _). eexists. split; [apply (vblk_peek_ok vm n _ b Hb); lia|].
    unfold len in *. rewrite length_take. lia.
  - intros l Hl. apply yields_ret. unfold len in *. rewrite length_app. cbn. lia.
Qed.
Lemma poke_keeps vm inp n : 0 <= vm < 2 -> 0 <= n <= len inp -> n <= DISK_SIZE -> keeps (do_vblk_poke (W := W) vm inp n).
Proof.
  intros Hvm Hn Hd. apply vb_lens. intros vb [Hl HF]. destruct (aget_ok vb vm) as [b Hb]; [lia|].
  pose proof (Forall_aget _ _ _ _ HF Hb) as (Hr & Hdl & HdF). unfold update. rewrite (vblk_poke_ok vm inp n vb b Hb) by lia.
  rewrite aset_ok by lia. cbn [mbind res_bind]. eexists tt, _. split; [done|]. split; [|done]. split; [by rewrite len_insert|].
  apply Forall_insert; [done|]. split; [done|]. cbn [disk]. unfold len in *. split.
  - rewrite length_app, length_map, length_take, length_drop. lia.
  - apply Forall_app. split; [|by apply Forall_drop]. apply Forall_map, Forall_true. intros x. apply fits_wrap. lia.
Qed.

Lemma vblk_step_contained {A} (P : A -> Prop) none on_hvc stop :
  P none -> yields P on_hvc -> (forall v, wf_vcpu v -> keeps (stop v)) ->
  contained (fun r : bool * (bool * A) => P r.2.2) (vblk_step (W := W) lk none on_hvc stop).
Proof.
  intros Hn Ho Hs. unfold vblk_step.
  assert (forall fin a, P a -> yields (fun r : bool * (bool * A) => P r.2.2)
    (complete (W := W) (do_vblk_take_irq 0) 21;; mret (true, (fin, a)))) as Hf.
  { intros fin a Pa. eapply yields_bind; [apply complete_keeps; [apply vblk_take_irq_keeps; lia|fits_const]|].
    intros _ _. by apply yields_ret. }
  eapply contained_bind; [apply contained_yields, run_once_keeps; lia|]. intros _ _.
  eapply contained_bind; [apply contained_yields, get_vcpu_yields; lia|]. intros v Hv. cbv zeta.
  case_match; [apply contained_yields; eapply yields_bind; [apply ack_drop_keeps|]; intros _ _; by apply Hf|].
  case_match; [apply contained_yields; eapply yields_bind; [apply Ho|]; intros a Pa; by apply Hf|].
  case_match.
  - apply (contained_bind (fun _ => True)); [|intros _ _; by apply contained_yields, Hf].
    destruct (vblk_contains _); [apply do_vblk_mmio_contained; lia|]. destruct (vgic_contains _) eqn:Eg.
    + by apply contained_yields, do_vgic_mmio_keeps.
    + apply contained_yields, do_mmio_zero_keeps. lia.
  - apply contained_yields. eapply yields_bind; [by apply Hs|]. intros _ _. by apply yields_ret.
Qed.

Lemma contained_true {A} (P : A -> Prop) (m : st (hv W) A) : contained P m -> contained (fun _ => True) m.
Proof. intros Hm h Hh. specialize (Hm h Hh). destruct (m h) as [[a h']|f]; [|done]. by destruct Hm as (? & ? & _). Qed.
Lemma m25_loop_contained : contained (fun _ => True) (loop (W := W) (Z.to_nat 100002) (m25_body lk) vl_start).
Proof.
  apply (loop_contained (vl_inv 100000) (fun _ => True) (fun l => 100000 - vl_guard l));
    [|unfold vl_inv; cbn; lia|cbn; lia|cbn; lia].
  intros l Hl. unfold m25_body, until_done, vl_inv in *. case_match; [by apply contained_yields, yields_ret|].
  destruct (negb _) eqn:Eg; [by apply contained_yields, yields_ret|]. hv_bools.
  apply (contained_bind (fun _ => True)).
  - eapply contained_bind; [apply (vblk_step_contained (fun _ => True)); [done|by hv_run|intros v Hv; by hv_run]|].
    intros [go [fin a]] _. by apply contained_yields, yields_ret.
  - intros [go fin] _. apply contained_yields, yields_ret. cbn. destruct go; [lia|done].
Qed.
Lemma m26_loop_contained : contained (fun _ => True) (loop (W := W) (Z.to_nat 100002) (m26_body lk) (vl_start, 0)).
Proof.
  apply (loop_contained (fun l => vl_inv 100000 l.1) (fun _ => True) (fun l => 100000 - vl_guard l.1));
    [|unfold vl_inv; cbn; lia|cbn; lia|cbn; lia].
  intros [l got] Hl. unfold m26_body, vl_inv in *. cbn [fst] in *. case_match; [by apply contained_yields, yields_ret|].
  destruct (negb _) eqn:Eg; [by apply contained_yields, yields_ret|]. hv_bools.
  eapply contained_bind; [apply (vblk_step_contained (fun _ => True)); [done| |intros v Hv; by hv_run]|].
  - eapply yields_bind; [apply x_of_yields; lia|]. intros x _. by apply yields_ret.
  - intros [go [fin a]] _. apply contained_yields, yields_ret. cbn. destruct go; [lia|done].
Qed.

Lemma vblk_setup_total entry seed :
  link_ok lk -> keeps seed -> total (fun _ => True) (vblk_setup (W := W) lk entry seed).
Proof.
  intros Hlk Hs. unfold vblk_setup. hv_setup.
Qed.
Lemma mtenant_vblk_setup_does : does tt (fun _ => tenant_core lk VM0_PA VM1_PA) (mtenant_vblk_setup (W := W) lk).
Proof. eapply setup_core; [unfold mtenant_vblk_setup; does_run lk|]. intros. reflexivity. Qed.

(** A set-up that returns, then code that is contained. *)
Lemma total_then (m k : st (hv W) unit) (h : hv W) :
  total (fun _ => True) m -> contained (fun _ => True) k -> wf_hv h ->
  match (m;; k) h with Ok (_, h') => wf_hv h' | Err f => overrun f end.
Proof.
  intros Hm Hk Hh. destruct (Hm h Hh) as ([] & h1 & E & H1 & _). rewrite (st_bind_Ok _ _ _ _ _ E).
  specialize (Hk h1 H1). destruct (k h1) as [[a h2]|f]; [apply Hk|done].
Qed.

Lemma vblk_demos_ok (h : hv W) :
  link_ok lk -> wf_hv h ->
  Forall (fun demo : st (hv W) unit => match demo h with Ok (_, h') => wf_hv h' | Err f => overrun f end)
    [vblk_demo lk; vblk_rd_demo lk; mtenant_vblk_demo lk].
Proof.
  intros Hlk Hh. repeat (apply Forall_cons; split); [| | |done].
  - apply total_then; [by apply vblk_setup_total; [|apply yields_ret]| |done].
    eapply contained_bind; [apply contained_yields, println_keeps|]. intros _ _.
    eapply contained_bind; [apply m25_loop_contained|]. intros _ _.
    eapply contained_bind; [apply contained_yields, (peek_str_yields 0 32); unfold DISK_SIZE, VBLK_SECTORS, VBLK_SECSZ; lia|].
    intros buf _. apply contained_yields. by hv_run.
  - apply total_then; [apply vblk_setup_total; [done|apply poke_keeps; [lia|vm_compute; split; congruence|vm_compute; congruence]]| |done].
    eapply contained_bind; [apply contained_yields, println_keeps|]. intros _ _.
    eapply contained_bind; [apply m26_loop_contained|]. intros [l got] _. apply contained_yields. by hv_run.
  - apply total_then; [eapply does_total, mtenant_vblk_setup_does| |done].
    eapply contained_bind; [apply m28_loop_contained; lia|]. intros _ _.
    assert (forall vm, 0 <= vm < 2 -> contained (fun l => len l = 18 + 1) (peek_str (W := W) vm 18)) as Hp.
    { intros vm Hvm. apply contained_yields, peek_str_yields; [done|]. unfold DISK_SIZE, VBLK_SECTORS, VBLK_SECSZ. lia. }
    eapply contained_bind; [apply Hp; lia|]. intros d0 _. eapply contained_bind; [apply Hp; lia|]. intros d1 Hd. cbv beta in Hd.
    eapply contained_bind; [apply contained_yields, pure_get; lia|]. intros c _.
    eapply contained_bind; [apply contained_yields, printf_keeps; hv_side|]. intros _ _.
    eapply contained_bind; [apply m28_loop_contained; lia|]. intros _ _.
    eapply contained_bind; [apply Hp; lia|]. intros d _. apply contained_yields. by hv_run.
Qed.

End VirtioTheorems.

(** VM0 programs its device's queue size (a trapped store of x0 to offset 0x38). *)
Definition queue_num_store : script :=
  mk_script [mk_event 0 [("esr_el2", 0x24 * 2 ^ 26 + 2 ^ 24 + 2 ^ 6)%string; ("hpfar_el2", 0xA0000)%string; ("far_el2", 0x238)%string] [(0%nat, 8)] []]
    [] [] [] 0.
