(* ===== verification/Boot.v ===== *)
(** Booting whole kernels as guests (src/src/vcpu.c), the hypervisor's own exception
    handler (src/src/exception.c) and the boot sequence (src/src/main.c). *)

From S2P Require Import Prelude Esr Machine Vcpu Stage2 Vgic Uart Vdev Handlers Vvirtio Vblk Timer Hv Sched Smp Tenants VirtioRun.

Definition GUEST_LOAD_IPA := 0x48000000.
Definition LINUX_LOAD_IPA := 0x41000000.
Definition LINUX_DTB_IPA := 0x48000000.
Definition FERMIOS_LOAD_IPA := 0x40000000.
Definition HCR_RW_VM_IMO := bit 31 .| bit 0 .| bit 4.
Definition HCR_RW_VM_TSC := bit 31 .| bit 0 .| bit 19.

(** The frame vectors.S builds for an exception taken while in EL2. *)
Record el2_frame := mk_frame { f_x : list Z; f_elr : Z; f_spsr : Z; f_esr : Z; f_far : Z }.
Definition set_elr (f : el2_frame) (e : Z) : el2_frame := mk_frame (f_x f) e (f_spsr f) (f_esr f) (f_far f).

Section Boot.
Context {W : Type} {PL : Platform W} (lk : link).
Abbreviation M A := (st (hv W) A).

(** ** Guest kernels *)
Definition image_size (img : string) : Z := len (lk_image lk img).

Definition real_guest_body (_ : unit) : M (bool * unit) :=
  run_once lk 0;;
  v ← get_vcpu 0;
  if is_irq v then ack_drop;; mret (true, tt)
  else
    let ec := exit_ec v in
    if ec =? EC_HVC64 then
      x0 ← x_of 0 0;
      printf (ln "[M7] guest exited via HVC (x0=%x) -> success.") [AInt x0];;
      mret (false, tt)
    else if is_abort ec then
      let ipa := exit_ipa v in
      (if (ec =? EC_DABT_LOW) && vuart_contains ipa then do_mmio_emulate 0 ipa else map_1gb (block_base ipa));;
      mret (true, tt)
    else
      printf (ln "[M7] unexpected exit ec=%x (%s) far=%x, stopping") [AInt ec; name_of ec; AInt (exit_far v)];;
      mret (false, tt).
Definition real_guest_demo (fuel : nat) : M unit :=
  copy_image lk GUEST_LOAD_IPA "nano_image";;
  printf (ln "[M7] loaded %u-byte guest image -> IPA %x; booting at EL1") [AInt (u64 (image_size "nano_image")); AInt GUEST_LOAD_IPA];;
  init_vcpu 0 GUEST_LOAD_IPA (stack_top lk 0) (vttbr_g lk);;
  wr_sys "hcr_el2" HCR_RW_VM_IMO;;
  _ ← loop fuel real_guest_body tt;
  mret tt.

Definition linux_body (_ : unit) : M (bool * unit) :=
  run_once lk 0;;
  v ← get_vcpu 0;
  if negb (halted v =? 0) then mret (false, tt)
  else
    let ec := exit_ec v in
    if is_irq v then ack_drop;; mret (true, tt)
    else if ec =? EC_SMC64 then do_psci 0;; advance 0;; mret (true, tt)
    else if ec =? EC_HVC64 then do_psci 0;; mret (true, tt)
    else if is_abort ec then map_1gb (block_base (exit_ipa v));; mret (true, tt)
    else
      printf (LF :: ln "[M7] guest trap ec=%x (%s) far=%x elr=%x -- stopping")
        [AInt ec; name_of ec; AInt (exit_far v); AInt (pc v)];;
      mret (false, tt).
Definition linux_boot (fuel : nat) : M unit :=
  do_stage2_init lk;;
  map_device 0;;
  wr_sys "cnthctl_el2" 3;;
  wr_sys "cntvoff_el2" 0;;
  init_vcpu 0 LINUX_LOAD_IPA 0 (vttbr_g lk);;
  set_x 0 0 LINUX_DTB_IPA;; set_x 0 1 0;; set_x 0 2 0;; set_x 0 3 0;;
  wr_sys "hcr_el2" HCR_RW_VM_TSC;;
  println "[M7] booting Linux at EL1 (x0=DTB). Kernel output follows:";;
  println rule_line;;
  copy_image lk LINUX_DTB_IPA "guest_dtb";;
  img_magic ← read_mem32 (LINUX_LOAD_IPA + 56);
  dtb_magic ← read_mem32 LINUX_DTB_IPA;
  printf (ln "[M7] image_magic=%x dtb_magic=%x dtb_size=%u")
    [AInt img_magic; AInt dtb_magic; AInt (u64 (image_size "guest_dtb"))];;
  _ ← loop fuel linux_body tt;
  println rule_line;;
  println "[M7] Linux guest run ended.".

Definition fermios_body (_ : unit) : M (bool * unit) :=
  run_once lk 0;;
  v ← get_vcpu 0;
  if negb (halted v =? 0) then mret (false, tt)
  else
    let ec := exit_ec v in
    if is_irq v then ack_drop;; mret (true, tt)
    else if ec =? EC_SMC64 then do_psci 0;; advance 0;; mret (true, tt)
    else if is_abort ec then
      let base := block_base (exit_ipa v) in
      (if base <? 0x8000000000 then map_1gb base else advance 0);;
      mret (true, tt)
    else
      printf (LF :: ln "[M12] fermi-os trap ec=%x (%s) far=%x elr=%x")
        [AInt ec; name_of ec; AInt (exit_far v); AInt (pc v)];;
      mret (false, tt).
Definition fermios_boot (fuel : nat) : M unit :=
  do_stage2_init lk;;
  map_device 0;;
  copy_image lk FERMIOS_LOAD_IPA "fermios_image";;
  printf (ln "[M12] placed %u-byte fermi-os image at %x") [AInt (u64 (image_size "fermios_image")); AInt FERMIOS_LOAD_IPA];;
  wr_sys "cnthctl_el2" 3;;
  wr_sys "cntvoff_el2" 0;;
  init_vcpu 0 FERMIOS_LOAD_IPA 0 (vttbr_g lk);;
  wr_sys "hcr_el2" HCR_RW_VM_TSC;;
  println "[M12] booting fermi-os as a guest at EL1. Its output follows:";;
  println rule_line;;
  _ ← loop fuel fermios_body tt;
  println rule_line;;
  println "[M12] fermi-os guest run ended.".

(** ** fermios_vgic_boot: local [guard] *)
Definition fermios_vgic_body (guard : Z) : M (bool * Z) :=
  if negb (guard <? 2000000) then mret (false, guard + 1)
  else
    let guard := guard + 1 in
    run_once lk 0;;
    v ← get_vcpu 0;
    if negb (halted v =? 0) then mret (false, guard)
    else
      let ec := exit_ec v in
      if is_irq v then
        iar ← ack;
        let intid := iar .& 0xFFFFFF in
        (if intid =? HYP_TIMER_PPI then
           timer_on_irq;; e ← irq_enabled 0 30; if e : bool then inject 0 30 else mret tt
         else mret tt);;
        eoi_real intid iar;;
        mret (true, guard)
      else if is_abort ec then
        let ipa := exit_ipa v in
        (if vgic_contains ipa then do_vgic_mmio 0 0 ipa
         else if vuart_contains ipa then do_mmio_emulate 0 ipa
         else map_1gb (block_base ipa));;
        mret (true, guard)
      else if ec =? EC_SYSREG then do_cntp 0 0;; mret (true, guard)
      else if ec =? EC_SMC64 then do_psci 0;; advance 0;; mret (true, guard)
      else
        printf (LF :: ln "[M17] fermi-os trap ec=%x (%s) far=%x elr=%x")
          [AInt ec; name_of ec; AInt (exit_far v); AInt (pc v)];;
        mret (false, guard).
Definition fermios_vgic_boot : M unit :=
  do_stage2_init lk;;
  do_vgic_reset;;
  do_gic_init;;
  do_hyptimer_init;;
  copy_image lk 0x40000000 "fermios_image";;
  wr_sys "cnthctl_el2" 1;;
  wr_sys "cntvoff_el2" 0;;
  wr_sys "hcr_el2" HCR_RW_VM_IMO_TSC;;
  wr_sys "ich_hcr_el2" 1;;
  init_vcpu 0 0x40000000 0 (vttbr_g lk);;
  println "[M17] booting fermi-os on the EMULATED vGIC (GIC+UART emulated,";;
  println "      timer trapped; ticks injected via vGIC). Output follows:";;
  println rule_line;;
  timer_start 100;;
  _ ← loop (Z.to_nat 2000002) fermios_vgic_body 0;
  timer_stop;;
  println rule_line;;
  println "[M17] fermi-os-on-vGIC run ended.".

(** ** exception.c: an exception taken while the processor is in EL2.  The result is
    the frame to return through, or [None] when the handler parks the processor. *)
Definition ticks : M Z := on_tm hyptimer_ticks.
Definition irq_dispatch : M unit :=
  iar ← ack;
  let intid := iar .& 0xFFFFFF in
  (if intid =? HYP_TIMER_PPI then
     timer_on_irq;;
     n ← ticks;
     printf (ln "[IRQ] EL2 timer tick #%u (intid=%u)") [AInt n; AInt intid]
   else if intid <? GIC_SPURIOUS_INTID then printf (ln "[IRQ] unexpected intid=%u") [AInt intid]
   else mret tt);;
  eoi_real intid iar.
Definition el2_exception_dispatch (vector_index : Z) (f : el2_frame) : M (option el2_frame) :=
  if (vector_index .& 3) =? 1 then irq_dispatch;; mret (Some f)
  else
    let ec := ESR_EC (f_esr f) in
    printf (ln "[EL2-EXC] %s idx=%u ec=%x (%s) iss=%x")
      [AS (vector_name vector_index); AInt vector_index; AInt ec; name_of ec; AInt (ESR_ISS (f_esr f))];;
    printf (ln "          elr=%x spsr=%x far=%x") [AInt (f_elr f); AInt (f_spsr f); AInt (f_far f)];;
    if ec =? EC_HVC64 then
      x0 ← try_ (fun _ => aget (f_x f) 0);
      printf (ln "          HVC #%x from guest, x0=%x -> handled, resuming") [AInt (ESR_ISS (f_esr f) .& 0xFFFF); AInt x0];;
      mret (Some f)
    else if is_abort ec then
      hpfar ← gets (fun h => rd_sysreg "hpfar_el2" (h_cpu h));
      let ipa := u64 ((hpfar ≫ 4) ≪ 12) in
      let base := block_base ipa in
      printf (ln "          stage-2 %s: guest_va=%x ipa=%x")
        [AS (if ec =? EC_DABT_LOW then "data-abort" else "insn-abort"); AInt (f_far f); AInt ipa];;
      printf (ln "          faulting in 1GiB block @%x and retrying") [AInt base];;
      map_1gb base;;
      mret (Some f)
    else if ec =? EC_BRK then
      printf (ln "          BRK #%x -> advancing ELR, recovering") [AInt (ESR_ISS (f_esr f) .& 0xFFFF)];;
      mret (Some (set_elr f (u64 (f_elr f + 4))))
    else
      println "[EL2-EXC] unhandled exception, halting";;
      mret None.

(** ** main.c; [lk_entry] also gives the addresses of the [brk] and [wfi] instructions
    of hv_main *)
(** The frame of an exception taken at [elr]: registers and syndrome from the processor. *)
Definition take_exception (vector elr esr : Z) : M (option el2_frame) :=
  c ← gets h_cpu;
  el2_exception_dispatch vector (mk_frame (gp c) elr (rd_sysreg "spsr_el2" c) esr (rd_sysreg "far_el2" c)).
(** [brk #imm]: EC 0x3C, IL set, the immediate in ISS. *)
Definition brk_esr (imm : Z) : Z := (EC_BRK ≪ 26) .| bit 25 .| imm.
(** [while (hyptimer_ticks() < 5) wfi]: each wake-up is an IRQ taken to EL2. *)
Definition wfi_body (elr : Z) (_ : unit) : M (bool * unit) :=
  n ← ticks;
  if n <? 5 then
    esr ← gets (fun h => rd_sysreg "esr_el2" (h_cpu h));
    _ ← take_exception 5 elr esr; mret (true, tt)
  else mret (false, tt).

Inductive boot_choice := BootLinuxVgic | BootMtenantOs | BootLinux | BootFermios | BootFermiosVgic | BootMtenantReal | BootNone.
Definition choose_boot (lmagic marker : Z) : boot_choice :=
  if marker =? 0x0FE33108 then BootLinuxVgic
  else if marker =? 0x0FE33109 then BootMtenantOs
  else if lmagic =? 0x644d5241 then BootLinux
  else if marker =? 0x0FE33105 then BootFermios
  else if marker =? 0x0FE33106 then BootFermiosVgic
  else if marker =? 0x0FE33107 then BootMtenantReal
  else BootNone.
Definition boot_guest (fuel : nat) (b : boot_choice) : M unit :=
  match b with
  | BootLinuxVgic => linux_vgic_boot lk fuel
  | BootMtenantOs => mtenant_os_demo lk
  | BootLinux => linux_boot fuel
  | BootFermios => fermios_boot fuel
  | BootFermiosVgic => fermios_vgic_boot
  | BootMtenantReal => mtenant_real_demo lk
  | BootNone => println "[HV] no guest image loaded; demos only."
  end.

Definition read_currentel : M Z := gets (fun h => (rd_sysreg "CurrentEL" (h_cpu h) ≫ 2) .& 3).
Definition exceptions_init : M unit := wr_sys "vbar_el2" (lk_entry lk "el2_vector_table").

(** The boot banner and the EL2 trap test (M1). *)
Definition main_banner : M unit :=
  on_uart uart_init;;
  println "";;
  println "========================================";;
  println " FermiHV  -  AArch64 type-1 hypervisor";;
  println "========================================";;
  el ← read_currentel;
  printf (ln "[BOOT] CurrentEL = EL%u") [AInt el];;
  (if el =? 2 then println "[BOOT] Running at EL2 (hypervisor) - OK"
   else println "[BOOT] WARNING: not at EL2 (need virtualization=on)");;
  exceptions_init;;
  println "[M1] VBAR_EL2 installed.";;
  println "[M1] Triggering deliberate BRK #0xBEEF ...";;
  _ ← take_exception 4 (lk_entry lk "hv_main_brk") (brk_esr 0xBEEF);
  println "[M1] Resumed after BRK -> EL2 trap+recover works.".
(** The EL2 timer test (M6a). *)
Definition main_timer (fuel : nat) : M unit :=
  println "[M6a] EL2 physical timer interrupts via GICv3:";;
  do_gic_init;;
  do_hyptimer_init;;
  hcr ← gets (fun h => rd_sysreg "hcr_el2" (h_cpu h));
  wr_sys "hcr_el2" (hcr .| bit 4);;
  timer_start 100;;
  _ ← loop fuel (wfi_body (lk_entry lk "hv_main_wfi")) tt;
  timer_stop;;
  n ← ticks;
  printf (ln "[M6a] received %u EL2 timer ticks; IRQ plumbing works.") [AInt n].
Definition main_demos (fuel : nat) : M unit :=
  virq_demo lk fuel 5;;
  vgic_demo lk fuel 5;;
  smp_demo lk;;
  smp_sched_demo lk;;
  mtenant_demo lk;;
  mtenant_vgic_demo lk;;
  smp_psci_demo lk;;
  virtio_demo lk;;
  virtio_irq_demo lk;;
  vblk_demo lk;;
  vblk_rd_demo lk;;
  mtenant_virtio_demo lk;;
  mtenant_vblk_demo lk;;
  smp_vtimer_demo lk;;
  smp_gicr_demo lk.
Definition hv_main (fuel : nat) : M unit :=
  main_banner;;
  println "[HV] Starting vCPU scheduler...";;
  sched_demo lk fuel;;
  main_timer fuel;;
  main_demos fuel;;
  println "[M7] booting a separately-built guest kernel:";;
  real_guest_demo fuel;;
  lmagic ← read_mem32 (0x41000000 + 56);
  marker ← read_mem32 0x46000000;
  boot_guest fuel (choose_boot lmagic marker);;
  println "[HV] Done. Parking CPU.".
End Boot.

(** * Theorems *)
Section BootTheorems.
Context {W : Type} {PL : Platform W} {PO : PlatformOk W} (lk : link).

Lemma real_guest_body_ok l : yields (fun r : bool * unit => if r.1 then True else True) (real_guest_body (W := W) lk l).
Proof. unfold real_guest_body. hv_run; done. Qed.
Lemma linux_body_ok l : yields (fun r : bool * unit => if r.1 then True else True) (linux_body (W := W) lk l).
Proof. unfold linux_body. hv_run; done. Qed.
Lemma fermios_body_ok l : yields (fun r : bool * unit => if r.1 then True else True) (fermios_body (W := W) lk l).
Proof. unfold fermios_body. hv_run; done. Qed.
Lemma fermios_vgic_body_ok g :
  0 <= g <= 2000000 ->
  yields (fun r : bool * Z => if r.1 then 0 <= r.2 <= 2000000 /\ 0 <= 2000000 - r.2 < 2000000 - g else True) (fermios_vgic_body (W := W) lk g).
Proof.
  intros Hg. unfold fermios_vgic_body. destruct (negb _) eqn:Eg; [by apply yields_ret|]. hv_bools. apply Z.ltb_lt in Eg. cbv zeta.
  hv_run; cbn [fst snd]; try exact I; lia.
Qed.
Lemma fermios_vgic_boot_total : link_ok lk -> total (fun _ => True) (fermios_vgic_boot (W := W) lk).
Proof.
  intros Hlk. unfold fermios_vgic_boot. hv_setup.
  eapply total_bind; [apply total_yields, (loop_yields (fun g => 0 <= g <= 2000000) (fun _ => True) (fun g => 2000000 - g));
    [apply fermios_vgic_body_ok|lia|lia|lia]|].
  intros _ _. hv_setup.
Qed.

(** Guest kernels cannot bring the hypervisor down: at every head of the (endless)
    loops that run the separately built guest and Linux with device passthrough, the
    state is well-formed with the configuration of the start and the next iteration
    completes; and the guarded run of fermi-os on the emulated vGIC always returns. *)
Lemma kernel_boots_safe (h : hv W) :
  link_ok lk -> wf_hv h ->
  (forall h', reach (real_guest_body lk) tt h tt h' -> safe_head (real_guest_body lk) h tt h') /\
  (forall h', reach (linux_body lk) tt h tt h' -> safe_head (linux_body lk) h tt h') /\
  (exists h', fermios_vgic_boot lk h = Ok (tt, h') /\ wf_hv h').
Proof.
  intros Hlk Hh. split; [|split].
  - intros h' R. destruct (reach_keeps (fun _ => True) (fun _ => True) _ _ _ _ _ (fun l _ => real_guest_body_ok l) I Hh R) as (? & ? & _ & ?). done.
  - intros h' R. destruct (reach_keeps (fun _ => True) (fun _ => True) _ _ _ _ _ (fun l _ => linux_body_ok l) I Hh R) as (? & ? & _ & ?). done.
  - destruct (fermios_vgic_boot_total Hlk h Hh) as ([] & h' & ? & ? & _). by exists h'.
Qed.

(** ** The stage-2 tables through an operation that does not map *)
Lemma zoom_leaves {X S A} (o : hv W -> X) (get : hv W -> S) (set : hv W -> S -> hv W) (m : st S A) :
  (forall h s, o (set h s) = o h) -> leaves o (zoom get set m).
Proof. intros Ho h a h' E. unfold zoom in E. destruct (m (get h)) as [[b s]|]; [|done]. injection E as _ <-. apply Ho. Qed.
Lemma leaves_gets {X A} (o : hv W -> X) (f : hv W -> A) : leaves o (gets f).
Proof. intros h a h' E. by injection E as _ <-. Qed.
Lemma map_1gb_l1 ipa (h : hv W) : wf_hv h ->
  map_1gb ipa h = Ok (tt, put_s2 h (set_s2_l1 (h_s2 h) (put_block (s2_l1 (h_s2 h)) ipa ipa S2_BLOCK_NORMAL))).
Proof.
  intros Hh. destruct (wh_s2 h Hh) as (H1 & _). unfold map_1gb, zoom, update, stage2_map_1gb. rewrite map_put by done. reflexivity.
Qed.
End BootTheorems.

(** Discharge [leaves h_s2 m] for the operations of the loops. *)
Ltac s2_leaves :=
  repeat match goal with
  | |- leaves _ (if ?b then _ else _) => destruct b
  | |- leaves _ (mret _) => apply leaves_ret
  | |- leaves _ (try_ _) => apply leaves_try
  | |- leaves _ (get_vcpu _) => apply leaves_try
  | |- leaves _ (_ ≫= _) => apply leaves_bind; [|intros ?]
  | |- leaves _ (run_once _ _) => by apply run_once_leaves
  | |- leaves _ (set_vcpu _ _) => by apply set_vcpu_leaves
  | |- leaves _ (zoom _ _ _) => by apply zoom_leaves
  | |- leaves _ (printf _ _) => by apply zoom_leaves
  | |- leaves _ (println _) => by apply zoom_leaves
  | |- leaves _ ack => by apply zoom_leaves
  | |- leaves _ (eoi _) => by apply zoom_leaves
  | |- leaves _ ticks => by apply zoom_leaves
  | |- leaves _ timer_on_irq => by apply zoom_leaves
  | |- leaves _ (gets _) => apply leaves_gets
  | |- leaves _ (map_1gb _) => by apply zoom_leaves
  | |- leaves _ ?m => unfold ack_drop, eoi_real, do_psci, advance
  end.

Section Identity.
Context {W : Type} {PL : Platform W} {PO : PlatformOk W} (lk : link).

Definition identity_mapped (h : hv W) : Prop := identity_table (s2_l1 (h_s2 h)).
(** [m] keeps the identity table an identity table. *)
Definition stays_identity {A} (m : st (hv W) A) : Prop :=
  forall h a h', wf_hv h -> identity_mapped h -> m h = Ok (a, h') -> identity_mapped h'.
Lemma leaves_identity {A} (m : st (hv W) A) : leaves h_s2 m -> stays_identity m.
Proof. intros Hm h a h' _ Hi E. unfold identity_mapped in *. by rewrite (Hm h a h' E). Qed.
Lemma identity_bind {A B} (P : A -> Prop) (m : st (hv W) A) (f : A -> st (hv W) B) :
  yields P m -> stays_identity m -> (forall a, P a -> stays_identity (f a)) -> stays_identity (m ≫= f).
Proof.
  intros Hy Hm Hf h b h' Hh Hi E. destruct (Hy h Hh) as (a & h1 & E1 & H1 & _ & Pa).
  rewrite (st_bind_Ok _ _ _ _ _ E1) in E. exact (Hf a Pa h1 b h' H1 (Hm h a h1 Hh Hi E1) E).
Qed.
Lemma block_base_fits39 ipa : fits 64 ipa -> block_base ipa < 2 ^ 39 -> fits 39 (block_base ipa).
Proof.
  intros Hf Hb. split; [|done]. rewrite block_base_shift by done. apply Z.shiftl_nonneg, Z.shiftr_nonneg, Hf.
Qed.
Lemma map_identity ipa : fits 39 ipa -> stays_identity (map_1gb (W := W) ipa).
Proof.
  intros Hf h a h' Hh Hi E. rewrite map_1gb_l1 in E by done. injection E as _ <-.
  unfold identity_mapped in *. cbn. apply identity_put; [done|done|by left].
Qed.
Lemma fermios_body_identity l : stays_identity (fermios_body (W := W) lk l).
Proof.
  unfold fermios_body. eapply identity_bind; [apply run_once_keeps; lia|apply leaves_identity; s2_leaves|]. intros _ _.
  eapply identity_bind; [apply get_vcpu_yields; lia|apply leaves_identity; s2_leaves|]. intros v Hv. cbv zeta.
  case_match; [apply leaves_identity; s2_leaves|]. case_match; [apply leaves_identity; s2_leaves|].
  case_match; [apply leaves_identity; s2_leaves|].
  case_match; [|apply leaves_identity; s2_leaves].
  pose proof (ipa_fits v) as Hf. destruct (Z.ltb_spec (block_base (exit_ipa v)) 0x8000000000).
  - eapply identity_bind; [apply map_1gb_keeps|apply map_identity, block_base_fits39; [done|lia]|].
    intros _ _. apply leaves_identity; s2_leaves.
  - apply leaves_identity; s2_leaves.
Qed.

(** C25: fermi-os with passthrough only ever sees identity mappings: its loop maps a
    faulting block only when it lies in the 39-bit input range and skips the access
    otherwise, so at every loop head, whatever addresses the guest touched, a stage-2
    translation either faults or returns the address itself; the loop never faults. *)
Theorem fermios_boot_identity (h h' : hv W) :
  wf_hv h -> identity_mapped h -> reach (fermios_body lk) tt h tt h' ->
  (forall a o, s2_walk VTCR_EL2_VALUE (s2_l1 (h_s2 h')) a = Some o -> s2_pa o = a) /\ safe_head (fermios_body lk) h tt h'.
Proof.
  intros Hh Hi R. split.
  - assert (identity_mapped h') as Hi'; [|intros a o; by apply identity_walk].
    destruct (reach_inv (fun _ h => wf_hv h /\ identity_mapped h) (fermios_body lk) tt h tt h') as ((_ & ?) & _); try done.
    intros l h1 (H1 & I1). destruct (fermios_body_ok lk l h1 H1) as (r & h2 & E & H2 & _). exists r, h2. split; [done|].
    intros _. split; [done|]. exact (fermios_body_identity l h1 r h2 H1 I1 E).
  - destruct (reach_keeps (fun _ => True) (fun _ => True) _ _ _ _ _ (fun l _ => fermios_body_ok lk l) I Hh R) as (? & ? & _ & ?). done.
Qed.

(** ** The EL2 exception handler *)
Definition wf_frame (f : el2_frame) : Prop :=
  len (f_x f) = 31 /\ Forall (fits 64) (f_x f) /\ fits 64 (f_elr f) /\ fits 64 (f_spsr f) /\ fits 64 (f_esr f) /\ fits 64 (f_far f).
(** Where the handler resumes: interrupts, hypercalls and aborts at the frame as it
    is, a breakpoint after the instruction, anything else nowhere. *)
Definition resume (vector : Z) (f : el2_frame) : option el2_frame :=
  let ec := ESR_EC (f_esr f) in
  if (vector .& 3) =? 1 then Some f
  else if (ec =? EC_HVC64) || is_abort ec then Some f
  else if ec =? EC_BRK then Some (set_elr f (u64 (f_elr f + 4)))
  else None.
Lemma ticks_yields : yields (fits 64) (ticks (W := W)).
Proof.
  intros h Hh. eexists _, _. split; [reflexivity|]. destruct (wh_timer h Hh) as (? & ? & ?).
  split; [by destruct h, Hh|]. by split.
Qed.
Lemma irq_dispatch_keeps : keeps (irq_dispatch (W := W)).
Proof.
  unfold irq_dispatch. eapply yields_bind; [apply ack_yields|]. intros iar Hi.
  assert (fits 64 (iar .& 0xFFFFFF)) by (apply fits_land; [lia|done|lia]). cbv zeta.
  eapply (yields_bind (fun _ => True)); [|intros _ _; apply eoi_real_keeps].
  case_match; [|by hv_run]. eapply yields_bind; [apply timer_on_irq_keeps|]. intros _ _.
  eapply yields_bind; [apply ticks_yields|]. intros n Hn. by hv_run.
Qed.
Lemma esr_parts f : fits 64 (ESR_EC (f_esr f)) /\ fits 64 (ESR_ISS (f_esr f)) /\ fits 64 (ESR_ISS (f_esr f) .& 0xFFFF).
Proof.
  assert (fits 64 (ESR_ISS (f_esr f))).
  { unfold ESR_ISS. change 0x1FFFFFF with (Z.ones 25). rewrite land_ones_wrap by lia. apply (fits_mono 25); [lia|apply fits_wrap; lia]. }
  split; [rewrite ESR_EC_wrap; apply (fits_mono 6); [lia|apply fits_wrap; lia]|]. split; [done|].
  apply fits_land; [lia|done|lia].
Qed.

Lemma dispatch_yields vector f :
  fits 64 vector -> wf_frame f -> yields (fun r => r = resume vector f) (el2_exception_dispatch (W := W) vector f).
Proof.
  intros Hv (Hl & HF & He & Hs & Hr & Ha). destruct (esr_parts f) as (P1 & P2 & P3). unfold el2_exception_dispatch, resume.
  destruct (_ =? 1); [eapply yields_bind; [apply irq_dispatch_keeps|]; intros _ _; by apply yields_ret|]. cbv zeta.
  eapply yields_bind; [apply printf_keeps; hv_side|]. intros _ _. eapply yields_bind; [apply printf_keeps; hv_side|]. intros _ _.
  destruct (_ =? EC_HVC64); cbn [orb].
  { eapply (yields_bind (fits 64)); [|intros x0 Hx; by hv_run]. apply yields_try. intros _ _.
    destruct (aget_ok (f_x f) 0) as [x E]; [lia|]. exists x. split; [done|]. by eapply Forall_aget. }
  destruct (is_abort _).
  { eapply (yields_bind (fits 64)); [intros h Hh; eexists _, h; split; [done|]; split; [done|]; split; [done|]; apply wf_rd_sysreg, Hh|].
    intros hp _. assert (fits 64 (u64 ((hp ≫ 4) ≪ 12))) as Hi by (apply fits_wrap; lia).
    assert (fits 64 (block_base (u64 ((hp ≫ 4) ≪ 12)))) as Hb by (apply fits_land; [lia|done|apply (fits_cnot 64); lia]).
    by hv_run. }
  by hv_run.
Qed.

(** The effects of the handler: a timer interrupt counts one tick, an abort maps its
    block, nothing else changes. *)
Definition tick_taken (vector : Z) (h : hv W) : Prop :=
  (vector .& 3) = 1 /\ ((pl_iar1 (h_w h)).1 .& 0xFFFFFF) = HYP_TIMER_PPI.
#[export] Instance tick_taken_dec vector h : Decision (tick_taken vector h).
Proof. unfold tick_taken. apply _. Defined.
Definition abort_taken (vector : Z) (f : el2_frame) : bool := negb ((vector .& 3) =? 1) && is_abort (ESR_EC (f_esr f)).
Definition abort_block (h : hv W) : Z := block_base (u64 ((rd_sysreg "hpfar_el2" (h_cpu h) ≫ 4) ≪ 12)).

Lemma irq_dispatch_ticks (h h' : hv W) a :
  irq_dispatch h = Ok (a, h') ->
  t_ticks (h_timer h') = (if ((pl_iar1 (h_w h)).1 .& 0xFFFFFF) =? HYP_TIMER_PPI then u64 (t_ticks (h_timer h) + 1) else t_ticks (h_timer h)).
Proof.
  intros E. assert (exists w1, ack h = Ok ((pl_iar1 (h_w h)).1, put_w h w1)) as [w1 Ea].
  { unfold ack, on_uart, zoom, gic_ack. destruct (pl_iar1 (h_w h)) as [i w]. by exists w. }
  unfold irq_dispatch in E. rewrite (st_bind_Ok _ _ _ _ _ Ea) in E. cbv zeta in E.
  destruct (_ =? HYP_TIMER_PPI).
  - apply st_bind_inv in E as (u & h1 & E1 & E2). apply st_bind_inv in E1 as (u' & h2 & E0 & E1).
    assert (leaves h_timer (n ← ticks; printf (W := W) (ln "[IRQ] EL2 timer tick #%u (intid=%u)") [AInt n; AInt ((pl_iar1 (h_w h)).1 .& 0xFFFFFF)])) as L1.
    { apply leaves_bind; [|intros n; by apply zoom_leaves]. intros h3 n h4 En. by injection En as _ <-. }
    assert (leaves h_timer (eoi_real (W := W) ((pl_iar1 (h_w h)).1 .& 0xFFFFFF) (pl_iar1 (h_w h)).1)) as L2 by s2_leaves.
    rewrite (L2 _ _ _ E2), (L1 _ _ _ E1). injection E0 as _ <-. reflexivity.
  - revert E. generalize (pl_iar1 (h_w h)).1. intros i E.
    assert (leaves h_timer ((if (i .& 0xFFFFFF) <? GIC_SPURIOUS_INTID then printf (W := W) (ln "[IRQ] unexpected intid=%u") [AInt (i .& 0xFFFFFF)] else mret tt);;
      eoi_real (i .& 0xFFFFFF) i)) as L by s2_leaves.
    by rewrite (L _ _ _ E).
Qed.
Lemma irq_dispatch_s2 : leaves h_s2 (irq_dispatch (W := W)).
Proof. unfold irq_dispatch. s2_leaves. Qed.

Lemma dispatch_sync_timer vector f : (vector .& 3) <> 1 -> leaves h_timer (el2_exception_dispatch (W := W) vector f).
Proof. intros Hv. unfold el2_exception_dispatch. destruct (Z.eqb_spec (vector .& 3) 1); [done|]. cbv zeta. s2_leaves. Qed.
Lemma dispatch_s2 vector f (h h' : hv W) r :
  wf_frame f -> fits 64 vector -> wf_hv h -> el2_exception_dispatch vector f h = Ok (r, h') ->
  h_s2 h' = if abort_taken vector f
            then set_s2_l1 (h_s2 h) (put_block (s2_l1 (h_s2 h)) (abort_block h) (abort_block h) S2_BLOCK_NORMAL) else h_s2 h.
Proof.
  intros (Hl & HF & He & Hs & Hr & Ha) Hv Hh E. destruct (esr_parts f) as (P1 & P2 & P3).
  unfold el2_exception_dispatch, abort_taken in *. destruct (_ =? 1); cbn [negb andb].
  { assert (leaves h_s2 (irq_dispatch (W := W);; mret (Some f))) as L by (apply leaves_bind; [apply irq_dispatch_s2|intros; apply leaves_ret]).
    exact (L _ _ _ E). }
  cbv zeta in E.
  destruct (printf_keeps (W := W) (ln "[EL2-EXC] %s idx=%u ec=%x (%s) iss=%x")
    [AS (vector_name vector); AInt vector; AInt (ESR_EC (f_esr f)); name_of (ESR_EC (f_esr f)); AInt (ESR_ISS (f_esr f))]
    ltac:(hv_side) ltac:(hv_side) h Hh) as ([] & h1 & E1 & W1 & _).
  rewrite (st_bind_Ok _ _ _ _ _ E1) in E.
  destruct (printf_keeps (W := W) (ln "          elr=%x spsr=%x far=%x") [AInt (f_elr f); AInt (f_spsr f); AInt (f_far f)]
    ltac:(hv_side) ltac:(hv_side) h1 W1) as ([] & h2 & E2 & W2 & _).
  rewrite (st_bind_Ok _ _ _ _ _ E2) in E.
  assert (forall fmt args (g g' : hv W) u, printf fmt args g = Ok (u, g') -> h_s2 g' = h_s2 g /\ h_cpu g' = h_cpu g) as Lp.
  { intros fmt args g g' u Eg. split; [|]; (eapply (zoom_leaves _ h_w put_w); [|exact Eg]); done. }
  destruct (Lp _ _ _ _ _ E1) as [S1 C1], (Lp _ _ _ _ _ E2) as [S2 C2].
  destruct (is_abort (ESR_EC (f_esr f))) eqn:Eab.
  - destruct (Z.eqb_spec (ESR_EC (f_esr f)) EC_HVC64) as [Eh|]; [by rewrite Eh in Eab|].
    apply st_bind_inv in E as (hp & h3 & E3 & E). injection E3 as <- <-.
    apply st_bind_inv in E as ([] & h4 & E4 & E). apply st_bind_inv in E as ([] & h5 & E5 & E).
    destruct (Lp _ _ _ _ _ E4) as [S4 C4], (Lp _ _ _ _ _ E5) as [S5 C5].
    apply st_bind_inv in E as ([] & h6 & E6 & E). injection E as _ <-.
    unfold map_1gb, zoom, update, stage2_map_1gb in E6. rewrite map_put in E6.
    + injection E6 as <-. cbn. rewrite S5, S4, S2, S1, C2, C1. reflexivity.
    + rewrite S5, S4, S2, S1. apply (wh_s2 h Hh).
  - rewrite <- S1, <- S2. revert E. generalize h2. intros g E.
    match type of E with ?m g = _ => assert (leaves h_s2 m) as L by s2_leaves; exact (L _ _ _ E) end.
Qed.

(** C21: The EL2 exception handler is correct on every vector and syndrome.  It always
    returns control: interrupts, hypercalls and stage-2 aborts resume at the same
    instruction, a breakpoint after it, and any other synchronous exception parks the
    processor.  A timer interrupt (and nothing else) advances the tick count by one; an
    abort (and nothing else) identity-maps the 1 GiB block HPFAR_EL2 names. *)
Theorem el2_dispatch_spec (h : hv W) vector f :
  wf_hv h -> fits 64 vector -> wf_frame f ->
  exists h', el2_exception_dispatch vector f h = Ok (resume vector f, h') /\ wf_hv h' /\ config h' = config h /\
    t_ticks (h_timer h') = (if decide (tick_taken vector h) then u64 (t_ticks (h_timer h) + 1) else t_ticks (h_timer h)) /\
    h_s2 h' = if abort_taken vector f
              then set_s2_l1 (h_s2 h) (put_block (s2_l1 (h_s2 h)) (abort_block h) (abort_block h) S2_BLOCK_NORMAL) else h_s2 h.
Proof.
  intros Hh Hv Hf. destruct (dispatch_yields vector f Hv Hf h Hh) as (r & h' & E & Hw & C & ->). exists h'.
  split; [done|]. split; [done|]. split; [done|]. split; [|by eapply dispatch_s2].
  destruct (Z.eq_dec (vector .& 3) 1) as [Ev|Ev].
  - unfold el2_exception_dispatch in E. rewrite Ev in E. cbn [Z.eqb Pos.eqb] in E.
    apply st_bind_inv in E as (u & h1 & E & E1). injection E1 as _ <-. rewrite (irq_dispatch_ticks _ _ _ E).
    destruct (Z.eqb_spec ((pl_iar1 (h_w h)).1 .& 0xFFFFFF) HYP_TIMER_PPI) as [Ei|Ei].
    + by rewrite decide_True by done.
    + rewrite decide_False; [done|]. by intros [_ ?].
  - rewrite decide_False by (by intros [? _]). by rewrite (dispatch_sync_timer vector f Ev _ _ _ E).
Qed.
End Identity.

(** ** The whole boot sequence *)
Section Main.
Context {W : Type} {PL : Platform W} {PO : PlatformOk W} (lk : link).

(** [m] returns to a well-formed state, is still waiting for a guest when the fuel of
    its waiting loops is spent, or stops in the block device's overrun. *)
Definition sound {A} (P : A -> Prop) (m : st (hv W) A) : Prop :=
  forall h, wf_hv h ->
  match m h with Ok (a, h') => wf_hv h' /\ P a | Err f => f = OutOfFuel \/ overrun f end.

Lemma sound_total {A} (P : A -> Prop) (m : st (hv W) A) : total P m -> sound P m.
Proof. intros Hm h Hh. destruct (Hm h Hh) as (a & h' & -> & ? & ?). done. Qed.
Lemma sound_yields {A} (P : A -> Prop) (m : st (hv W) A) : yields P m -> sound P m.
Proof. intros Hm. by apply sound_total, total_yields. Qed.
Lemma sound_bind {A B} (P : A -> Prop) (Q : B -> Prop) (m : st (hv W) A) (f : A -> st (hv W) B) :
  sound P m -> (forall a, P a -> sound Q (f a)) -> sound Q (m ≫= f).
Proof.
  intros Hm Hf h Hh. specialize (Hm h Hh). unfold mbind, st_bind. destruct (m h) as [[a h1]|f0]; [|done].
  destruct Hm as (H1 & Pa). exact (Hf a Pa h1 H1).
Qed.
Lemma loop_sound {L} (I J : L -> Prop) (body : L -> st (hv W) (bool * L)) :
  (forall l, I l -> total (fun r : bool * L => if r.1 then I r.2 else J r.2) (body l)) ->
  forall fuel l, I l -> sound J (loop fuel body l).
Proof.
  intros Hb. induction fuel as [|fuel IH]; intros l Hl; [intros h Hh; by left|].
  cbn [loop]. eapply sound_bind; [by apply sound_total, Hb|]. intros [[] l1] HI; cbn in *; [by apply IH|].
  by apply sound_yields, yields_ret.
Qed.
Lemma waiting_loop {L} (body : L -> st (hv W) (bool * L)) fuel l :
  (forall l, yields (fun r : bool * L => if r.1 then True else True) (body l)) -> sound (fun _ => True) (loop fuel body l).
Proof. intros Hb. apply (loop_sound (fun _ => True) (fun _ => True)); [|done]. intros k _. by apply total_yields. Qed.
Lemma demo_sound (m : st (hv W) unit) :
  (forall h, wf_hv h -> match m h with Ok (_, h') => wf_hv h' | Err f => overrun f end) -> sound (fun _ => True) m.
Proof. intros Hm h Hh. specialize (Hm h Hh). destruct (m h) as [[a h']|f]; [done|by right]. Qed.

Lemma sched_demo_sound fuel : link_ok lk -> sound (fun _ => True) (sched_demo (W := W) lk fuel).
Proof.
  intros Hlk. assert (forall n b t, (n <= 2)%nat -> sound (fun _ => True) (run_vcpus (W := W) lk fuel n b t)) as Hr.
  { intros n b t Hn h Hh. pose proof (loop_sound rv_inv rv_inv (rv_body (W := W) lk n b t)) as Hl.
    specialize (Hl (fun l Hi => total_yields _ _ (rv_body_ok lk n b t l Hn Hi)) fuel (replicate 2 0, Z.of_nat n) eq_refl h Hh).
    unfold run_vcpus. destruct (loop _ _ _ h) as [[? ?]|]; [by destruct Hl|done]. }
  unfold sched_demo.
  do 5 (eapply sound_bind; [apply sound_total; hv_setup|intros _ _]). eapply sound_bind; [apply Hr; lia|]. intros _ _.
  do 3 (eapply sound_bind; [apply sound_total; hv_setup|intros _ _]). eapply sound_bind; [apply Hr; lia|]. intros _ _.
  apply sound_total. hv_setup.
Qed.
Lemma virq_demo_sound fuel n : link_ok lk -> sound (fun _ => True) (virq_demo (W := W) lk fuel n).
Proof.
  intros Hlk. unfold virq_demo. do 5 (eapply sound_bind; [apply sound_total; hv_setup|intros _ _]).
  eapply sound_bind; [apply waiting_loop, virq_body_ok|]. intros t _. apply sound_total. hv_setup.
Qed.
Lemma vgic_demo_sound fuel n : link_ok lk -> sound (fun _ => True) (vgic_demo (W := W) lk fuel n).
Proof.
  intros Hlk. unfold vgic_demo. do 8 (eapply sound_bind; [apply sound_total; hv_setup|intros _ _]).
  eapply sound_bind; [apply waiting_loop, vgic_body_ok|]. intros t _. apply sound_total. hv_setup.
Qed.

(** One statement of a sequence that always returns. *)
Ltac sound_step := eapply sound_bind; [apply sound_total; solve [hv_setup]|intros ? _].

Lemma real_guest_sound fuel : link_ok lk -> sound (fun _ => True) (real_guest_demo (W := W) lk fuel).
Proof.
  intros Hlk. unfold real_guest_demo. do 4 sound_step.
  eapply sound_bind; [apply waiting_loop, real_guest_body_ok|]. intros _ _. apply sound_total. hv_setup.
Qed.
Lemma read32_total a : total (fits 64) (read_mem32 (W := W) a).
Proof. apply total_yields. eapply yields_weaken; [apply read_mem32_yields|]. intros x Hx. eapply fits_mono; [|exact Hx]; lia. Qed.
Lemma linux_boot_sound fuel : link_ok lk -> sound (fun _ => True) (linux_boot (W := W) lk fuel).
Proof.
  intros Hlk. unfold linux_boot. do 13 sound_step.
  eapply sound_bind; [apply sound_total, read32_total|]. intros m0 H0. eapply sound_bind; [apply sound_total, read32_total|]. intros m1 H1.
  sound_step. eapply sound_bind; [apply waiting_loop, linux_body_ok|]. intros _ _. apply sound_total. hv_setup.
Qed.
Lemma fermios_boot_sound fuel : link_ok lk -> sound (fun _ => True) (fermios_boot (W := W) lk fuel).
Proof.
  intros Hlk. unfold fermios_boot. do 10 sound_step.
  eapply sound_bind; [apply waiting_loop, fermios_body_ok|]. intros _ _. apply sound_total. hv_setup.
Qed.
Lemma linux_vgic_boot_sound fuel : link_ok lk -> sound (fun _ => True) (linux_vgic_boot (W := W) lk fuel).
Proof.
  intros Hlk. unfold linux_vgic_boot. do 21 sound_step.
  eapply (sound_bind (fun _ => True)); [|intros _ _; apply sound_total; hv_setup].
  apply (loop_sound linux_inv (fun _ => True)); [|split; cbn; lia].
  intros l Hl h1 Hh1. destruct (linux_vgic_body_ok lk l Hlk Hl h1 Hh1) as (r & h2 & E & Hw & Hr).
  exists r, h2. split; [done|]. split; [done|]. destruct r.1; [apply Hr|done].
Qed.
Lemma boot_guest_sound fuel b : link_ok lk -> sound (fun _ => True) (boot_guest (W := W) lk fuel b).
Proof.
  intros Hlk. destruct b; cbn [boot_guest].
  - by apply linux_vgic_boot_sound.
  - apply sound_total, mtenant_os_demo_total.
  - by apply linux_boot_sound.
  - by apply fermios_boot_sound.
  - by apply sound_total, fermios_vgic_boot_total.
  - apply sound_total, mtenant_real_demo_total.
  - apply sound_total. hv_setup.
Qed.

Lemma take_exception_yields vector elr esr :
  fits 64 vector -> fits 64 elr -> fits 64 esr -> keeps (take_exception (W := W) vector elr esr).
Proof.
  intros Hv He Hs. eapply (yields_bind wf_cpu); [intros h Hh; eexists _, h; split; [done|]; split; [done|]; split; [done|]; apply Hh|].
  intros c Hc. eapply keeps_of, dispatch_yields; [done|]. pose proof Hc as (Hl & HF & _). split; [unfold len; cbn; lia|].
  cbn. split_and!; try done; by apply wf_rd_sysreg.
Qed.
Lemma sysreg_yields (g : Z -> Z) r :
  (forall v, fits 64 v -> fits 64 (g v)) -> yields (fits 64) (gets (fun h : hv W => g (rd_sysreg r (h_cpu h)))).
Proof. intros Hg h Hh. eexists _, h. split; [done|]. split; [done|]. split; [done|]. apply Hg, wf_rd_sysreg, Hh. Qed.
Lemma wfi_body_keeps elr l :
  fits 64 elr -> yields (fun r : bool * unit => if r.1 then True else True) (wfi_body (W := W) elr l).
Proof.
  intros He. unfold wfi_body. eapply yields_bind; [apply ticks_yields|]. intros n _. case_match; [|by apply yields_ret].
  eapply yields_bind; [apply (sysreg_yields (fun v => v)); done|]. intros esr Hs.
  eapply yields_bind; [apply take_exception_yields; [fits_const|done|done]|]. intros _ _. by apply yields_ret.
Qed.
Lemma uart_init_keeps : keeps (on_uart (W := W) uart_init).
Proof. apply on_uart_yields. intros w. eexists tt, _. split; [reflexivity|done]. Qed.
Lemma main_banner_total : link_ok lk -> total (fun _ => True) (main_banner (W := W) lk).
Proof.
  intros Hlk. assert (forall e, fits 64 (lk_entry lk e)) as He by apply Hlk. unfold main_banner, read_currentel, exceptions_init.
  eapply total_bind; [apply total_yields, uart_init_keeps|]. intros _ _.
  do 4 (eapply total_bind; [hv_setup|intros _ _]).
  eapply total_bind; [apply total_yields, (sysreg_yields (fun v => (v ≫ 2) .& 3))|].
  { intros v Hv. change 3 with (Z.ones 2). rewrite land_ones_wrap by lia. apply (fits_mono 2); [lia|apply fits_wrap; lia]. }
  intros el Hel. assert (keeps (take_exception (W := W) 4 (lk_entry lk "hv_main_brk") (brk_esr 0xBEEF))) as Hx
    by (apply take_exception_yields; [fits_const|done|fits_const]).
  do 5 (eapply total_bind; [hv_setup|intros _ _]).
  eapply total_bind; [apply total_yields, Hx|]. intros _ _. hv_setup.
Qed.
Lemma main_timer_sound fuel : link_ok lk -> sound (fun _ => True) (main_timer (W := W) lk fuel).
Proof.
  intros Hlk. unfold main_timer. do 3 sound_step.
  eapply sound_bind; [apply sound_yields, (sysreg_yields (fun v => v)); done|]. intros hcr Hh.
  eapply sound_bind; [apply sound_total, wr_sys_total, fits_lor; [lia|done|fits_const]|]. intros _ _. sound_step.
  eapply sound_bind; [apply waiting_loop; intros l; apply wfi_body_keeps, Hlk|]. intros _ _. sound_step.
  eapply sound_bind; [apply sound_yields, ticks_yields|]. intros n Hn. apply sound_total. hv_setup.
Qed.

Lemma vblk_sound (m : st (hv W) unit) :
  link_ok lk -> m ∈ [vblk_demo lk; vblk_rd_demo lk; mtenant_vblk_demo lk] -> sound (fun _ => True) m.
Proof.
  intros Hlk Hm. apply demo_sound. intros h Hh. pose proof (vblk_demos_ok lk h Hlk Hh) as HF.
  rewrite Forall_forall in HF. by apply HF.
Qed.
Lemma main_demos_sound fuel : link_ok lk -> sound (fun _ => True) (main_demos (W := W) lk fuel).
Proof.
  intros Hlk. unfold main_demos.
  eapply sound_bind; [by apply virq_demo_sound|]. intros _ _. eapply sound_bind; [by apply vgic_demo_sound|]. intros _ _.
  eapply sound_bind; [by apply sound_total, smp_demo_runs|]. intros _ _.
  eapply sound_bind; [by apply sound_total, smp_sched_demo_runs|]. intros _ _.
  eapply sound_bind; [apply sound_total, mtenant_demo_total|]. intros _ _.
  eapply sound_bind; [apply sound_total, mtenant_vgic_demo_total|]. intros _ _.
  eapply sound_bind; [by apply sound_total, smp_psci_runs|]. intros _ _.
  eapply sound_bind; [by apply sound_total, virtio_demo_total|]. intros _ _.
  eapply sound_bind; [by apply sound_total, virtio_irq_demo_total|]. intros _ _.
  eapply sound_bind; [apply vblk_sound; [done|apply list_elem_of_here]|]. intros _ _.
  eapply sound_bind; [apply vblk_sound; [done|apply list_elem_of_further, list_elem_of_here]|]. intros _ _.
  eapply sound_bind; [eapply sound_total, does_total, mtenant_virtio_demo_does|]. intros _ _.
  eapply sound_bind; [apply vblk_sound; [done|by do 2 apply list_elem_of_further; apply list_elem_of_here]|]. intros _ _.
  eapply sound_bind; [by apply sound_total, smp_vtimer_runs|]. intros _ _.
  by apply sound_total, smp_gicr_runs.
Qed.

(** *** Independence of the fuel

    [settled f]: a result of [f] other than running out of fuel does not change when the
    fuel grows. *)
Definition settled {A} (f : nat -> st (hv W) A) : Prop :=
  forall n n' h, (n <= n')%nat -> f n h <> Err OutOfFuel -> f n' h = f n h.
Lemma settled_const {A} (m : st (hv W) A) : settled (fun _ => m).
Proof. by intros n n' h _ _. Qed.
Lemma settled_bind {A B} (m : nat -> st (hv W) A) (f : nat -> A -> st (hv W) B) :
  settled m -> (forall a, settled (fun n => f n a)) -> settled (fun n => m n ≫= f n).
Proof.
  intros Hm Hf n n' h Hn. unfold mbind, st_bind. specialize (Hm n n' h Hn).
  destruct (m n h) as [[a h1]|e].
  - rewrite Hm by done. by apply (Hf a).
  - intros He. rewrite Hm; [done|]. intros [= ->]. by apply He.
Qed.
Lemma settled_loop {L} (body : L -> st (hv W) (bool * L)) l : settled (fun n => loop n body l).
Proof.
  intros n. revert l. induction n as [|n IH]; intros l n' h Hn; [done|].
  destruct n' as [|n']; [lia|]. cbn [loop]. unfold mbind, st_bind.
  destruct (body l h) as [[[[] l1] h1]|e]; [|done..]. apply IH. lia.
Qed.
Ltac settled :=
  repeat first [apply settled_const | apply settled_loop | apply settled_bind; [|intros ?]].
Lemma boot_guest_settled b : settled (fun n => boot_guest (W := W) lk n b).
Proof. destruct b; cbn [boot_guest]; unfold linux_vgic_boot, linux_boot, fermios_boot; settled. Qed.
Lemma hv_main_settled : settled (hv_main (W := W) lk).
Proof.
  unfold hv_main, sched_demo, run_vcpus, main_timer, main_demos, virq_demo, vgic_demo, real_guest_demo. settled.
  apply boot_guest_settled.
Qed.


End Main.

Lemma kernel_boots_safe_witness :
  let h := hv_boot quiet in
  (forall h', reach (real_guest_body link0) tt h tt h' -> safe_head (real_guest_body link0) h tt h') /\
  (forall h', reach (linux_body link0) tt h tt h' -> safe_head (linux_body link0) h tt h') /\
  (exists h', fermios_vgic_boot link0 h = Ok (tt, h') /\ wf_hv h').
Proof. apply (kernel_boots_safe link0 (hv_boot quiet)); [apply link0_ok|apply hv_boot_wf]. Defined.
Definition brk_frame : el2_frame := mk_frame (replicate 31 0) 0x70000100 0x3C9 (brk_esr 0xBEEF) 0.
Lemma el2_dispatch_spec_witness :
  exists h', el2_exception_dispatch 4 brk_frame (hv_boot quiet) = Ok (Some (set_elr brk_frame 0x70000104), h') /\ wf_hv h' /\
    config h' = config (hv_boot quiet) /\ t_ticks (h_timer h') = 0 /\ h_s2 h' = stage2_boot.
Proof.
  destruct (el2_dispatch_spec (hv_boot quiet) 4 brk_frame (hv_boot_wf quiet)) as (h' & E & Hw & C & Ht & Hs);
    [fits_const|split; [done|split; [by apply Forall_replicate; fits_const|split_and!; fits_const]]|].
  exists h'. split; [exact E|]. split; [done|]. split; [done|]. split; [exact Ht|exact Hs].
Defined.
(** The guest touches RAM at 0xC0000000, then a device window at 0x8000000000. *)
Definition two_faults : script :=
  mk_script [mk_event 0 [("esr_el2", 0x24 * 2 ^ 26)%string; ("hpfar_el2", 0xC00000)%string] [] [];
             mk_event 0 [("esr_el2", 0x24 * 2 ^ 26)%string; ("hpfar_el2", 0x80000000)%string] [] []] [] [] [] 0.
Lemma fermios_boot_identity_witness :
  exists h', reach (fermios_body link0) tt (hv_boot two_faults) tt h' /\
    s2_walk VTCR_EL2_VALUE (s2_l1 (h_s2 h')) 0xC0000123 = Some (mk_s2_out 0xC0000123 0xF 3) /\
    (forall a o, s2_walk VTCR_EL2_VALUE (s2_l1 (h_s2 h')) a = Some o -> s2_pa o = a).
Proof.
  destruct (iterate_check (fermios_body link0) 2 tt (hv_boot two_faults)
    (fun _ h => match s2_walk VTCR_EL2_VALUE (s2_l1 (h_s2 h)) 0xC0000123 with
                | Some o => (s2_pa o =? 0xC0000123) && (s2_memattr o =? 0xF) && (s2_ap o =? 3) | None => false end))
    as ([] & h' & R & E); [vm_compute; reflexivity|].
  exists h'. split; [exact R|]. destruct (s2_walk _ _ _) as [[pa at_ ap]|]; [|discriminate E].
  cbn in E. apply andb_prop in E as [[->%Z.eqb_eq ->%Z.eqb_eq]%andb_prop ->%Z.eqb_eq]. split; [reflexivity|].
  apply (fermios_boot_identity link0 (hv_boot two_faults) h'); [apply hv_boot_wf|apply identity_zero|exact R].
Defined.
