(* ===== verification/Vectors.v ===== *)
(** The EL2 exception vectors, instruction by instruction (src/src/vectors.S).

    An exception taken from EL2 itself enters a [VEC] stub, which with [el2_common]
    builds a [struct el2_frame] on the stack, calls the C handler
    [el2_exception_dispatch] of Boot.v on it, reloads the frame and returns.  Exceptions
    from a guest enter the [VEC_GUEST] stubs of World.v. *)

From S2P Require Import Prelude Esr Machine Vcpu Asm World Uart Timer Hv Boot.

(** * The code *)
Definition FRAME_SIZE := 288.

(** The stub of a vector of the current EL (or of the unused AArch32 group), up to its
    branch to [el2_common]. *)
Definition VEC (idx : Z) : list instr := [SubSp FRAME_SIZE; Stp 0 1 SP 0; Mov 0 idx].

Definition el2_vector_table : list (list instr) := [
  VEC 0; VEC 1; VEC 2; VEC 3;
  VEC 4; VEC 5; VEC 6; VEC 7;
  VEC_GUEST 8; VEC_GUEST 9; VEC_GUEST 10; VEC_GUEST 11;
  VEC 12; VEC 13; VEC 14; VEC 15].

(** [el2_common] up to the call of the handler, and from its return to the [eret]. *)
Definition el2_common_save : list instr := [
  Stp 2 3 SP 16; Stp 4 5 SP 32; Stp 6 7 SP 48; Stp 8 9 SP 64; Stp 10 11 SP 80; Stp 12 13 SP 96;
  Stp 14 15 SP 112; Stp 16 17 SP 128; Stp 18 19 SP 144; Stp 20 21 SP 160; Stp 22 23 SP 176;
  Stp 24 25 SP 192; Stp 26 27 SP 208; Stp 28 29 SP 224; Str 30 SP 240;
  Mrs 1 "elr_el2"; Str 1 SP 248; Mrs 1 "spsr_el2"; Str 1 SP 256;
  Mrs 1 "esr_el2"; Str 1 SP 264; Mrs 1 "far_el2"; Str 1 SP 272;
  MovFromSp 1]%string.
Definition el2_common_restore : list instr := [
  Ldr 1 SP 248; Msr "elr_el2" 1; Ldr 1 SP 256; Msr "spsr_el2" 1;
  Ldp 2 3 SP 16; Ldp 4 5 SP 32; Ldp 6 7 SP 48; Ldp 8 9 SP 64; Ldp 10 11 SP 80; Ldp 12 13 SP 96;
  Ldp 14 15 SP 112; Ldp 16 17 SP 128; Ldp 18 19 SP 144; Ldp 20 21 SP 160; Ldp 22 23 SP 176;
  Ldp 24 25 SP 192; Ldp 26 27 SP 208; Ldp 28 29 SP 224; Ldr 30 SP 240;
  Ldp 0 1 SP 0; AddSp FRAME_SIZE]%string.

(** A [struct el2_frame] in memory: 35 consecutive 64-bit words. *)
Definition frame_words (f : el2_frame) : list Z := f_x f ++ [f_elr f; f_spsr f; f_esr f; f_far f].
Definition frame_at (m : mem) (p : Z) (f : el2_frame) : Prop := Forall (holds m p) (array 0 8 (frame_words f)).
(** The frame of an exception taken in processor state [c]. *)
Definition frame_of (c : cpu) : el2_frame :=
  mk_frame (gp c) (rd_sysreg "elr_el2" c) (rd_sysreg "spsr_el2" c) (rd_sysreg "esr_el2" c) (rd_sysreg "far_el2" c).

(** * The two halves of the trap path *)
Lemma trap_save_exec idx x q sp s m :
  length x = 31%nat ->
  exists y, exec (VEC idx ++ el2_common_save) (mk_asm x q sp s m) =
  mk_asm (idx :: u64 (sp - FRAME_SIZE) :: y) q (u64 (sp - FRAME_SIZE)) s
    (stores m (u64 (sp - FRAME_SIZE)) (array 0 8 (x ++ reg_values ["elr_el2"; "spsr_el2"; "esr_el2"; "far_el2"]%string s))) /\
    length y = 29%nat.
Proof. intros Hx. regs Hx. eexists. split; reflexivity. Qed.

Lemma trap_restore_exec x q sp s m :
  length x = 31%nat ->
  exec el2_common_restore (mk_asm x q sp s m) =
  mk_asm (map (fun i => ld64 m (sp + (0 + 8 * Z.of_nat i))) (seq 0 31)) q (u64 (sp + FRAME_SIZE))
    (<["spsr_el2" := ld64 m (sp + 256)]> (<["elr_el2" := ld64 m (sp + 248)]> s))%string m.
Proof. intros Hx. regs Hx. reflexivity. Qed.

Lemma words_stored m p l :
  length l = 35%nat -> Forall (fits 64) l ->
  forallb (within FRAME_SIZE) (array 0 8 l) = true /\ Forall (holds (stores m p (array 0 8 l)) p) (array 0 8 l).
Proof.
  intros Hl HF. assert (forallb (within FRAME_SIZE) (array 0 8 l) = true) as Hw by (clear HF; by regs Hl).
  split; [done|]. apply (holds_written p FRAME_SIZE); [done|done|by apply array_fit|].
  clear HF Hw. regs Hl. repeat (apply Forall_cons; split; [by split; vm_compute|]). by apply Forall_nil.
Qed.

Lemma trap_save idx c m :
  wf_cpu c ->
  let sp' := u64 (rd_sysreg "sp_el2" c - FRAME_SIZE) in
  exists y m1, exec (VEC idx ++ el2_common_save) (of_cpu c m) = of_cpu (set_gp (wr_sysreg "sp_el2" sp' c) (idx :: sp' :: y)) m1 /\
    length y = 29%nat /\ frame_at m1 sp' (frame_of c) /\ (forall b, ~ in_range FRAME_SIZE sp' b -> rd8 m1 b = rd8 m b).
Proof.
  intros Hwf sp'. pose proof Hwf as (Hg & HF & _). unfold of_cpu at 1.
  destruct (trap_save_exec idx (gp c) (qreg c) (rd_sysreg "sp_el2" c) (delete "sp_el2"%string (sys c)) m Hg) as (y & -> & Hy).
  rewrite reg_values_cpu by (apply (bool_decide_eq_true_1 _); by vm_compute). fold sp'.
  change (gp c ++ _) with (frame_words (frame_of c)).
  destruct (words_stored m sp' (frame_words (frame_of c))) as [Hw Hh].
  { unfold frame_words. rewrite length_app. cbn [frame_of f_x]. by rewrite Hg. }
  { apply Forall_app. split; [done|]. repeat (apply Forall_cons; split; [by apply wf_rd_sysreg|]). by apply Forall_nil. }
  eexists y, _. split; [symmetry; apply of_cpu_sp|]. split; [done|]. split; [done|].
  intros b Hb. by apply (rd8_stores_out _ FRAME_SIZE).
Qed.

Lemma trap_restore f c m sp :
  length (gp c) = 31%nat -> length (f_x f) = 31%nat -> rd_sysreg "sp_el2" c = sp -> frame_at m sp f ->
  exec el2_common_restore (of_cpu c m) =
  of_cpu (set_gp (wr_sysreg "sp_el2" (u64 (sp + FRAME_SIZE)) (msr_all [("elr_el2", f_elr f); ("spsr_el2", f_spsr f)]%string c)) (f_x f)) m.
Proof.
  intros Hg Hf Hs Ha. unfold of_cpu at 1. rewrite Hs, trap_restore_exec, of_cpu_sp by done.
  unfold frame_at in Ha. pose proof Ha as Hx. apply array_read in Hx. unfold frame_words in Hx at 2.
  rewrite length_app, Hf in Hx. change (Z.of_nat 8) with 8 in Hx. cbn [length Nat.add] in Hx.
  rewrite (seq_app 31 4), map_app in Hx. apply app_inj_1 in Hx as [Hx Hr]; [|by rewrite length_map, length_seq].
  rewrite <- Hx. cbn [seq map] in Hr. injection Hr as E1 E2 _ _. cbn [msr_all qreg wr_sysreg sys].
  rewrite !delete_insert_ne by done. rewrite E1, E2. reflexivity.
Qed.

(** The handler's [f->elr += 4]. *)
Lemma frame_put_elr m p f e :
  length (f_x f) = 31%nat -> fits 64 e -> frame_at m p f -> frame_at (st64 m (p + 248) e) p (set_elr f e).
Proof.
  intros Hl He Ha. destruct f as [x a b c d]. cbn [f_x] in Hl. unfold frame_at, frame_words in *. cbn [set_elr f_x f_elr f_spsr f_esr f_far] in *.
  change (st64 m (p + 248) e) with (stores m p [(248, 8%nat, e)]).
  assert (forall l, array 0 8 (x ++ l) = array 0 8 x ++ array 248 8 l) as Happ by (intros; clear -Hl; by regs Hl).
  rewrite Happ in *. apply Forall_app in Ha as [Hx Ha]. cbn [array] in *. apply Forall_cons in Ha as [_ Ha].
  apply Forall_app. split; [|apply Forall_cons; split].
  - apply (holds_untouched p FRAME_SIZE); [done|done|clear -Hl; by regs Hl..|exact Hx].
  - apply (load_written p FRAME_SIZE ltac:(done) 248 8 [(248, 8%nat, e)] m None); [done|done|by apply Forall_cons|done|done].
  - by apply (holds_untouched p FRAME_SIZE).
Qed.

(** * The trap path around the handler *)
Section Trap.
Context {W : Type} {PL : Platform W} {PO : PlatformOk W}.

(** Where the interrupted code continues. *)
Definition resume_at (idx : Z) (c : cpu) : Z :=
  if negb ((idx .& 3) =? 1) && (ESR_EC (rd_sysreg "esr_el2" c) =? EC_BRK)
  then u64 (rd_sysreg "elr_el2" c + 4) else rd_sysreg "elr_el2" c.
Lemma resume_frame idx c f' :
  Boot.resume idx (frame_of c) = Some f' ->
  f_x f' = gp c /\ f_spsr f' = rd_sysreg "spsr_el2" c /\ f_elr f' = resume_at idx c.
Proof.
  unfold Boot.resume, resume_at. cbn [frame_of f_esr]. destruct (_ =? 1); cbn [negb andb]; [by intros [= <-]|].
  destruct (_ || _) eqn:Ea.
  - assert ((ESR_EC (rd_sysreg "esr_el2" c) =? EC_BRK) = false) as ->; [|by intros [= <-]].
    unfold is_abort, EC_HVC64, EC_DABT_LOW, EC_IABT_LOW, EC_BRK in *. lia.
  - destruct (_ =? EC_BRK); [by intros [= <-]|done].
Qed.
Lemma frame_of_wf c : wf_cpu c -> wf_frame (frame_of c).
Proof.
  intros Hc. pose proof Hc as (Hg & HF & _). split; [unfold len; cbn [frame_of f_x]; lia|].
  split_and!; try done; by apply wf_rd_sysreg.
Qed.
Lemma table_vec idx code :
  0 <= idx -> el2_vector_table !! Z.to_nat idx = Some code -> ~ (8 <= idx < 12) -> code = VEC idx /\ fits 64 idx.
Proof.
  intros Hi E Hn. assert (Z.to_nat idx < 16)%nat as Hl by (apply lookup_lt_Some in E; exact E).
  assert (idx = Z.of_nat (Z.to_nat idx)) as Ei by lia. rewrite Ei in Hn |- *. clear Ei Hi. revert E Hl Hn.
  generalize (Z.to_nat idx) as n. intros n E Hl Hn.
  do 16 (destruct n as [|n]; [first [by injection E as <-|lia]|]). lia.
Qed.

(** C22: The EL2 vectors are transparent to the code they interrupt.  For every vector of
    the table that is not a guest exit, the stub and el2_common hand the handler its vector
    index and a struct el2_frame holding x0..x30, ELR, SPSR, ESR and FAR, and store
    nowhere else; the handler terminates without fault; and whenever it returns, whatever
    it did to registers and to memory outside the frame, the code after the call
    restores x0..x30, the stack pointer and SPSR of the interrupted code, which resumes at
    the interrupted instruction, or after it when that was a breakpoint. *)
Theorem el2_trap_transparent (h : hv W) c m idx code :
  wf_hv h -> wf_cpu c -> 0 <= idx -> el2_vector_table !! Z.to_nat idx = Some code -> ~ (8 <= idx < 12) ->
  let sp' := u64 (rd_sysreg "sp_el2" c - FRAME_SIZE) in
  exists y m1 h',
    exec (code ++ el2_common_save) (of_cpu c m) = of_cpu (set_gp (wr_sysreg "sp_el2" sp' c) (idx :: sp' :: y)) m1 /\
    frame_at m1 sp' (frame_of c) /\ (forall b, ~ in_range FRAME_SIZE sp' b -> rd8 m1 b = rd8 m b) /\
    el2_exception_dispatch idx (frame_of c) h = Ok (Boot.resume idx (frame_of c), h') /\ wf_hv h' /\
    forall f' c2 m2,
      Boot.resume idx (frame_of c) = Some f' -> length (gp c2) = 31%nat -> rd_sysreg "sp_el2" c2 = sp' -> frame_at m2 sp' f' ->
      exec el2_common_restore (of_cpu c2 m2) =
      of_cpu (set_gp (wr_sysreg "sp_el2" (rd_sysreg "sp_el2" c)
        (msr_all [("elr_el2", resume_at idx c); ("spsr_el2", rd_sysreg "spsr_el2" c)]%string c2)) (gp c)) m2.
Proof.
  intros Hh Hc Hi Hcode Hn sp'. destruct (table_vec idx code Hi Hcode Hn) as [-> Hf].
  destruct (trap_save idx c m Hc) as (y & m1 & E1 & _ & A1 & F1).
  destruct (dispatch_yields idx (frame_of c) Hf (frame_of_wf c Hc) h Hh) as (r & h' & E & Hw & _ & ->).
  exists y, m1, h'. split; [exact E1|]. split; [exact A1|]. split; [exact F1|]. split; [exact E|]. split; [exact Hw|].
  intros f' c2 m2 Hr Hg2 Hs Ha. apply resume_frame in Hr as (Rx & Rs & Re).
  rewrite (trap_restore f' c2 m2 sp' Hg2) by (done || (rewrite Rx; apply Hc)). rewrite Rx, Rs, Re.
  do 3 f_equal. unfold sp'. rewrite wrap_add_l.
  replace (_ - _ + _) with (rd_sysreg "sp_el2" c) by lia. by apply wrap_fits, wf_rd_sysreg.
Qed.
End Trap.

(** The deliberate BRK of hv_main, through vector 4. *)
Definition brk_cpu : cpu :=
  mk_cpu (replicate 31 5) (replicate 32 0)
    (<["sp_el2" := 0x70090000]> (<["elr_el2" := 0x70000100]> (<["spsr_el2" := 0x3C9]> (<["esr_el2" := brk_esr 0xBEEF]> ∅))))%string.
Lemma el2_trap_transparent_witness :
  exists y m1 h',
    exec (VEC 4 ++ el2_common_save) (of_cpu brk_cpu ∅) =
      of_cpu (set_gp (wr_sysreg "sp_el2" 0x7008FEE0 brk_cpu) (4 :: 0x7008FEE0 :: y)) m1 /\
    el2_exception_dispatch 4 (frame_of brk_cpu) (hv_boot quiet) = Ok (Some (set_elr (frame_of brk_cpu) 0x70000104), h') /\
    exec el2_common_restore (of_cpu (set_gp (wr_sysreg "sp_el2" 0x7008FEE0 brk_cpu) (replicate 31 0))
        (st64 m1 (0x7008FEE0 + 248) 0x70000104)) =
      of_cpu (set_gp (wr_sysreg "sp_el2" 0x70090000 (msr_all [("elr_el2", 0x70000104); ("spsr_el2", 0x3C9)]%string
        (set_gp (wr_sysreg "sp_el2" 0x7008FEE0 brk_cpu) (replicate 31 0)))) (replicate 31 5)) (st64 m1 (0x7008FEE0 + 248) 0x70000104).
Proof.
  destruct (el2_trap_transparent (hv_boot quiet) brk_cpu ∅ 4 (VEC 4)) as (y & m1 & h' & E1 & A & _ & E & _ & R).
  - exact (hv_boot_wf quiet).
  - split_and!; [done|closed_dec|done|]. repeat (apply map_Forall_insert_2; [fits_const|]). apply map_Forall_empty.
  - lia.
  - reflexivity.
  - lia.
  - exists y, m1, h'. split; [exact E1|]. split; [exact E|].
    apply (R (set_elr (frame_of brk_cpu) 0x70000104)); [reflexivity|reflexivity|reflexivity|].
    by apply frame_put_elr.
Defined.
