(* ===== verification/GuestProg.v ===== *)
(** Guests as programs.

    The other files quantify over everything a guest may do.  This one gives the
    [Platform] interface a concrete inhabitant: a guest at EL1 that executes a program
    made of stores, accesses to its stage-1 translation registers, hypercalls and a
    final [wfi] loop.  A store goes through the guest's own stage-1 translation and
    then through stage 2; when stage 2 does not map it, it is taken to EL2 with the
    syndrome of the Arm architecture, and whether it is retried or skipped depends on
    the return address the hypervisor enters the guest with.  Physical interrupts may
    arrive before any entry.  Devices and console are those of the scripted machine. *)

From S2P Require Import Prelude Esr Machine Vcpu Stage2 Vgic Uart Vdev Handlers Vvirtio Vblk Timer Hv.

(** * Stage-1 translation *)
Record mmu := mk_mmu { m_sctlr : Z; m_tcr : Z; m_ttbr0 : Z; m_mair : Z }.
Inductive s1reg := SCTLR_EL1 | TCR_EL1 | TTBR0_EL1 | MAIR_EL1.
Definition mmu_get (r : s1reg) (M : mmu) : Z :=
  match r with SCTLR_EL1 => m_sctlr M | TCR_EL1 => m_tcr M | TTBR0_EL1 => m_ttbr0 M | MAIR_EL1 => m_mair M end.
Definition mmu_set (r : s1reg) (v : Z) (M : mmu) : mmu :=
  match r with
  | SCTLR_EL1 => mk_mmu v (m_tcr M) (m_ttbr0 M) (m_mair M)
  | TCR_EL1 => mk_mmu (m_sctlr M) v (m_ttbr0 M) (m_mair M)
  | TTBR0_EL1 => mk_mmu (m_sctlr M) (m_tcr M) v (m_mair M)
  | MAIR_EL1 => mk_mmu (m_sctlr M) (m_tcr M) (m_ttbr0 M) v
  end.
Definition mmu_of_cpu (c : cpu) : mmu :=
  mk_mmu (rd_sysreg "sctlr_el1" c) (rd_sysreg "tcr_el1" c) (rd_sysreg "ttbr0_el1" c) (rd_sysreg "mair_el1" c).
Definition mmu_of_vcpu (v : vcpu) : mmu :=
  mk_mmu (sctlr_el1 (el1 v)) (tcr_el1 (el1 v)) (ttbr0_el1 (el1 v)) (mair_el1 (el1 v)).
Definition put_mmu (M : mmu) (c : cpu) : cpu :=
  msr_all [("sctlr_el1", m_sctlr M); ("tcr_el1", m_tcr M); ("ttbr0_el1", m_ttbr0 M); ("mair_el1", m_mair M)]%string c.
Definition mmu_fits (M : mmu) : Prop :=
  fits 64 (m_sctlr M) /\ fits 64 (m_tcr M) /\ fits 64 (m_ttbr0 M) /\ fits 64 (m_mair M).

(** Address and memory attribute byte (from MAIR_EL1) of a translated access. *)
Record s1_out := mk_s1_out { s1_pa : Z; s1_attr : Z }.

Section Walk.
(** The stage-2 translation in force: host address of a guest-physical one. *)
Context (xlate : Z -> option Z).

(** The walk of a level-1 table of 1 GiB blocks, the 4 KiB granule and a 39-bit input
    range (TCR_EL1.T0SZ = 25, TG0 = 0), which is itself subject to stage 2.  With
    SCTLR_EL1.M clear addresses are used as they are, with Device-nGnRnE attributes.
    Other configurations are not given a meaning. *)
Definition s1_walk (M : mmu) (m : mem) (va : Z) : option s1_out :=
  if negb (Z.testbit (m_sctlr M) 0) then Some (mk_s1_out va 0)
  else if (wrap 6 (m_tcr M) =? 25) && (wrap 2 (m_tcr M ≫ 14) =? 0) then
    if decide (fits 39 va) then
      pa ← xlate (wrap 48 (m_ttbr0 M) + 8 * (va ≫ 30));
      let d := ld64 m pa in
      if (wrap 2 d =? 1) && Z.testbit d 10 then
        Some (mk_s1_out ((wrap 18 (d ≫ 30) ≪ 30) .| wrap 30 va)
                        (wrap 8 (m_mair M ≫ (8 * wrap 3 (d ≫ 2)))))
      else None
    else None
  else None.
End Walk.

(** * Programs *)
Inductive prog :=
| St32 (a v : Z) (k : prog)
| St64 (a v : Z) (k : prog)
| Msr (r : s1reg) (v : Z) (k : prog)
| Mrs (r : s1reg) (k : Z -> prog)
| Hvc (x0 : Z) (k : prog)
| Park.

(** The program after its first instruction has been skipped; only instructions that
    leave the guest ever are. *)
Definition after (p : prog) : prog := match p with St32 _ _ k | St64 _ _ k | Hvc _ k => k | _ => p end.

(** A guest: the program still to run, the address of its next instruction, how many
    exceptions it has taken to EL2, for each coming entry whether a physical interrupt
    is pending then, and the devices. *)
Record guest := mk_guest { g_prog : prog; g_pc : Z; g_n : nat; g_irq : list bool; g_dev : script }.
Definition set_dev (g : guest) (w : script) : guest := mk_guest (g_prog g) (g_pc g) (g_n g) (g_irq g) w.
Definition set_irqs (g : guest) (l : list bool) : guest := mk_guest (g_prog g) (g_pc g) (g_n g) l (g_dev g).

(** A machine with these devices and any guest execution [run]. *)
Definition dev_platform (run : cpu -> mem -> guest -> Z * cpu * mem * guest) : Platform guest := {|
  pl_guest := run;
  pl_iar1 g := let '(i, w) := pl_iar1 (g_dev g) in (i, set_dev g w);
  pl_eoir1 i g := set_dev g (pl_eoir1 i (g_dev g));
  pl_read32 a g := let '(v, w) := pl_read32 a (g_dev g) in (v, set_dev g w);
  pl_write32 a v g := set_dev g (pl_write32 a v (g_dev g));
  pl_cntpct g := let '(v, w) := pl_cntpct (g_dev g) in (v, set_dev g w);
  pl_cntfrq g := pl_cntfrq (g_dev g);
  pl_patience := 2%nat
|}.

Section Machine.
(** The stage-2 translation, the address of the instruction that takes the [n]-th
    exception and the register it stores from: the compiler's choice. *)
Context (xlate : Z -> option Z) (site rt : nat -> Z).

(** Run up to an instruction that leaves the guest. *)
Fixpoint silent (p : prog) (M : mmu) (m : mem) : prog * mmu * mem :=
  match p with
  | St32 a v k =>
      match o ← s1_walk xlate M m a; xlate (s1_pa o) with
      | Some pa => silent k M (st32 m pa v)
      | None => (p, M, m)
      end
  | St64 a v k =>
      match o ← s1_walk xlate M m a; xlate (s1_pa o) with
      | Some pa => silent k M (st64 m pa v)
      | None => (p, M, m)
      end
  | Msr r v k => silent k (mmu_set r (u64 v) M) m
  | Mrs r k => silent (k (mmu_get r M)) M m
  | Hvc _ _ | Park => (p, M, m)
  end.

Definition esr_store (sas t : Z) : Z := mk_esr EC_DABT_LOW 1 (mk_dabt_iss 1 sas 0 t 0 0 0 1 5).
Definition esr_hvc : Z := mk_esr EC_HVC64 1 0.

(** A stage-2 fault on a store of [v] to [va], translated to [ipa] by stage 1. *)
Definition store_fault (n : nat) (sas va ipa v : Z) (c : cpu) : Z * cpu :=
  (8, set_gp (msr_all [("esr_el2", u64 (esr_store sas (rt n))); ("far_el2", u64 va); ("hpfar_el2", u64 ((ipa ≫ 12) ≪ 4));
                       ("elr_el2", u64 (site n))]%string c)
             (<[Z.to_nat (rt n) := u64 v]> (gp c))).
(** The next instruction of [p] leaves the guest.  What stays in EL1 (a stage-1 fault,
    the [wfi] loop) leaves it only with the next physical interrupt. *)
Definition leave (p : prog) (n : nat) (M : mmu) (m : mem) (c : cpu) : Z * cpu :=
  let waiting := (9, wr_sysreg "elr_el2" (u64 (site n)) c) in
  match p with
  | St32 a v _ => match s1_walk xlate M m a with Some o => store_fault n 2 a (s1_pa o) v c | None => waiting end
  | St64 a v _ => match s1_walk xlate M m a with Some o => store_fault n 3 a (s1_pa o) v c | None => waiting end
  | Hvc x0 _ =>
      (8, set_gp (msr_all [("esr_el2", u64 esr_hvc); ("elr_el2", u64 (site n + 4))]%string c) (<[0%nat := u64 x0]> (gp c)))
  | _ => waiting
  end.

(** Where the guest continues when entered at address [e]: at its next instruction, or
    after it; anywhere else it is lost. *)
Definition resume (e : Z) (g : guest) : option prog :=
  if e =? g_pc g then Some (g_prog g)
  else if e =? u64 (g_pc g + 4) then Some (after (g_prog g))
  else None.

Definition guest_run (c : cpu) (m : mem) (g : guest) : Z * cpu * mem * guest :=
  match g_irq g with
  | true :: l => (9, c, m, set_irqs g l)
  | _ =>
      let g := set_irqs g (tail (g_irq g)) in
      match resume (rd_sysreg "elr_el2" c) g with
      | None => (9, c, m, g)
      | Some p =>
          let '(p, M, m) := silent p (mmu_of_cpu c) m in
          let '(idx, c) := leave p (g_n g) M m (put_mmu M c) in
          (idx, c, m, mk_guest p (u64 (site (g_n g))) (S (g_n g)) (g_irq g) (g_dev g))
      end
  end.

Definition guest_platform : Platform guest := dev_platform guest_run.
End Machine.

(** * The machine is a platform *)
Lemma mmu_of_cpu_fits c : wf_cpu c -> mmu_fits (mmu_of_cpu c).
Proof. intros Hc. split_and!; by apply wf_rd_sysreg. Qed.
Lemma mmu_set_fits r v M : mmu_fits M -> mmu_fits (mmu_set r (u64 v) M).
Proof. intros (?&?&?&?). pose proof (fits_wrap 64 v ltac:(lia)). destruct r; by split_and!. Qed.
Lemma put_mmu_wf M c : mmu_fits M -> wf_cpu c -> wf_cpu (put_mmu M c).
Proof. intros (?&?&?&?) Hc. cbn. by repeat apply wf_wr_sysreg. Qed.
Lemma mmu_put M c : mmu_of_cpu (put_mmu M c) = M.
Proof. unfold mmu_of_cpu, put_mmu. cbn [msr_all]. sysreg. by destruct M. Qed.
Lemma set_gp_wf c l : length l = 31%nat -> Forall (fits 64) l -> wf_cpu c -> wf_cpu (set_gp c l).
Proof. intros ?? (?&?&?&?). by split_and!. Qed.

Lemma not_private r r' : r ∈ el2_private -> bool_decide (r' ∈ el2_private) = false -> r <> r'.
Proof. intros Hr Hd ->. by apply bool_decide_eq_false_1 in Hd. Qed.

Lemma dev_platform_ok run :
  (forall c m g, 8 <= (run c m g).1.1.1 < 12) -> (forall c m g, wf_cpu c -> wf_cpu (run c m g).1.1.2) ->
  (forall c m g r, r ∈ el2_private -> rd_sysreg r (run c m g).1.1.2 = rd_sysreg r c) ->
  @PlatformOk guest (dev_platform run).
Proof.
  intros H1 H2 H3. split; [exact H1|exact H2|exact H3|..].
  - intros g. pose proof (iar_fits (g_dev g)) as Hi. cbn in *. by destruct (sc_iar (g_dev g)).
  - intros g. apply (cntfrq_fits (g_dev g)).
  - intros a g. pose proof (read32_fits a (g_dev g)) as Hi. cbn [pl_read32 dev_platform].
    by destruct (pl_read32 a (g_dev g)).
  - intros g. cbn. case_decide; by left.
  - intros v g _. by left.
Qed.

Section MachineOk.
Context (xlate : Z -> option Z) (site rt : nat -> Z).

Lemma silent_fits p : forall M m, mmu_fits M -> mmu_fits (silent xlate p M m).1.2.
Proof.
  induction p as [a v k IH|a v k IH|r v k IH|r k IH|x0 k IH|]; intros M m HM; cbn [silent]; try done.
  - case_match; [by apply IH|done].
  - case_match; [by apply IH|done].
  - by apply IH, mmu_set_fits.
  - by apply IH.
Qed.
Lemma gp_insert_wf c l i v : wf_cpu c -> wf_cpu l -> wf_cpu (set_gp c (<[i := u64 v]> (gp l))).
Proof.
  intros Hc (Hl & HF & _). apply set_gp_wf; [by rewrite length_insert|apply Forall_insert; [done|apply fits_wrap; lia]|done].
Qed.
Lemma leave_wf p n M m c : wf_cpu c -> wf_cpu (leave xlate site rt p n M m c).2.
Proof.
  intros Hc. assert (forall v c, wf_cpu c -> wf_cpu (wr_sysreg "elr_el2" (u64 v) c)) as He
    by (intros; apply wf_wr_sysreg; [apply fits_wrap; lia|done]).
  assert (forall s va ipa v, wf_cpu (store_fault site rt n s va ipa v c).2) as Hf.
  { intros. apply gp_insert_wf; [|done]. cbn. repeat (apply wf_wr_sysreg; [apply fits_wrap; lia|]). done. }
  unfold leave. destruct p; repeat case_match; cbn [snd]; try apply Hf; try by apply He.
  apply gp_insert_wf; [|done]. cbn. repeat (apply wf_wr_sysreg; [apply fits_wrap; lia|]). done.
Qed.
Lemma leave_vector p n M m c : 8 <= (leave xlate site rt p n M m c).1 < 12.
Proof. unfold leave, store_fault. destruct p; repeat case_match; cbn; lia. Qed.
Lemma leave_el2 p n M m c r :
  r ∈ el2_private -> rd_sysreg r (leave xlate site rt p n M m c).2 = rd_sysreg r c.
Proof.
  intros Hr. assert (Forall (fun r' => r <> r') ["esr_el2"; "far_el2"; "hpfar_el2"; "elr_el2"]%string) as HF.
  { by repeat (apply Forall_cons; split; [apply not_private; [done|vm_compute; reflexivity]|]). }
  rewrite !Forall_cons in HF. destruct HF as (?&?&?&?&_).
  assert (forall l c, rd_sysreg r (set_gp c l) = rd_sysreg r c) as Hs by done.
  unfold leave, store_fault. destruct p; repeat case_match; cbn [snd]; rewrite ?Hs; cbn [msr_all]; by rewrite ?rd_wr_ne by done.
Qed.
Lemma put_mmu_el2 M c r : r ∈ el2_private -> rd_sysreg r (put_mmu M c) = rd_sysreg r c.
Proof.
  intros Hr. assert (Forall (fun r' => r <> r') ["sctlr_el1"; "tcr_el1"; "ttbr0_el1"; "mair_el1"]%string) as HF.
  { by repeat (apply Forall_cons; split; [apply not_private; [done|vm_compute; reflexivity]|]). }
  rewrite !Forall_cons in HF. destruct HF as (?&?&?&?&_). unfold put_mmu. cbn [msr_all]. by rewrite !rd_wr_ne by done.
Qed.

Lemma guest_platform_ok : @PlatformOk guest (guest_platform xlate site rt).
Proof.
  apply dev_platform_ok.
  - intros c m g. cbn. unfold guest_run. destruct (g_irq g) as [|[] l]; [|cbn; lia|].
    all: destruct (resume _ _) as [p|]; [|cbn; lia]; destruct (silent _ _ _ _) as [[p' M] m'];
      pose proof (leave_vector p' (g_n g) M m' (put_mmu M c)); cbn [g_n set_irqs] in *;
      destruct (leave _ _ _ _ _ _ _ _); cbn in *; lia.
  - intros c m g Hc. cbn. unfold guest_run. destruct (g_irq g) as [|[] l]; [|done|].
    all: destruct (resume _ _) as [p|]; [|done];
      pose proof (silent_fits p (mmu_of_cpu c) m (mmu_of_cpu_fits c Hc)) as HM;
      destruct (silent _ _ _ _) as [[p' M] m']; cbn [fst snd] in HM;
      pose proof (leave_wf p' (g_n g) M m' (put_mmu M c) (put_mmu_wf _ _ HM Hc)); cbn [g_n set_irqs] in *;
      destruct (leave _ _ _ _ _ _ _ _); done.
  - intros c m g r Hr. cbn. unfold guest_run. destruct (g_irq g) as [|[] l]; [|done|].
    all: destruct (resume _ _) as [p|]; [|done]; destruct (silent _ _ _ _) as [[p' M] m'];
      pose proof (leave_el2 p' (g_n g) M m' (put_mmu M c) r Hr) as Hl; cbn [g_n set_irqs] in *;
      destruct (leave _ _ _ _ _ _ _ _); cbn in *; rewrite Hl; by apply put_mmu_el2.
Qed.
End MachineOk.

(** * One run of a guest, seen from outside

    The guest starts with the vCPU's registers and its exit state is what the vCPU
    holds afterwards. *)
Definition holds (v : vcpu) (c : cpu) : Prop :=
  gp c = xregs v /\ Forall (fun '(r, a) => rd_sysreg r c = a) (saved_regs v).
Definition exit_of (v : vcpu) : Z * Z * Z * Z := (exit_reason v, exit_esr v, exit_far v, exit_hpfar v).

Lemma holds_reg v c r a : holds v c -> (r, a) ∈ saved_regs v -> rd_sysreg r c = a.
Proof. intros [_ HF] Hin. exact (proj1 (Forall_forall _ _) HF (r, a) Hin). Qed.
Ltac saved_reg := apply list_elem_of_In; cbn [saved_regs In]; tauto.
Lemma holds_elr v c : holds v c -> rd_sysreg "elr_el2" c = pc v.
Proof. intros Hh. eapply holds_reg; [done|saved_reg]. Qed.
Lemma holds_mmu v c : holds v c -> mmu_of_cpu c = mmu_of_vcpu v.
Proof.
  intros Hh. unfold mmu_of_cpu, mmu_of_vcpu. f_equal; (eapply holds_reg; [done|saved_reg]).
Qed.

(** The registers that decide how interrupts reach a guest; the run of a guest leaves
    them alone. *)
Definition hyp_kept (c c' : cpu) : Prop := Forall (fun r => rd_sysreg r c' = rd_sysreg r c) ["hcr_el2"; "ich_hcr_el2"]%string.

Section RunOnce.
Context {W : Type} {PL : Platform W} {PO : PlatformOk W} (lk : link).

Lemma enter_hyp vptr v c v1 c1 : run_enter vptr v c = Ok (v1, c1) -> hyp_kept c c1.
Proof.
  intros HE. unfold hyp_kept. repeat (apply Forall_cons; split); [..|by apply Forall_nil];
    (eapply unswitched_register_leaks; [|exact HE]; apply (bool_decide_eq_true_1 _); by vm_compute).
Qed.
Lemma leave_hyp idx v c1 m w v' c' :
  run_leave idx v (pl_guest c1 m w).1.1.2 = (v', c') -> hyp_kept c1 c'.
Proof.
  unfold run_leave, guest_exit. intros [= _ <-]. unfold hyp_kept.
  repeat (apply Forall_cons; split); [..|by apply Forall_nil]; rewrite rd_wr_ne by done;
    (apply guest_el2; apply (bool_decide_eq_true_1 _); by vm_compute).
Qed.

Lemma run_once_spec i (h : hv W) v :
  0 <= i < 2 -> wf_hv h -> aget (h_vcpus h) i = Ok v ->
  exists c1 v' c3, wf_cpu c1 /\ holds v c1 /\ rd_sysreg "vttbr_el2" c1 = vttbr v /\ hyp_kept (h_cpu h) c1 /\ hyp_kept c1 c3 /\
    let r := pl_guest c1 (h_mem h) (h_w h) in
    let h1 := put_w (put_mem (put_cpu (put_vcpus h (<[Z.to_nat i := v']> (h_vcpus h))) c3) r.1.2) r.2 in
    run_once lk i h = Ok (tt, h1) /\ wf_hv h1 /\ wf_vcpu v' /\ holds v' r.1.1.2 /\
    (vttbr v', vmpidr v', vid v', halted v') = (vttbr v, vmpidr v, vid v, halted v) /\
    exit_of v' = (r.1.1.1, rd_sysreg "esr_el2" r.1.1.2, rd_sysreg "far_el2" r.1.1.2, rd_sysreg "hpfar_el2" r.1.1.2).
Proof.
  intros Hi Hh Hv. pose proof (wh_vcpus h Hh) as [Hl HF]. pose proof (Forall_aget _ _ _ _ HF Hv) as Hwv.
  destruct (run_enter_ok (vcpu_addr lk i) v (h_cpu h)) as [[v1 c1] HE]; [apply Hwv|].
  pose proof (run_enter_wf _ _ _ _ _ (fits_wrap 64 _ ltac:(lia)) Hwv (wh_cpu h Hh) HE) as Hc1.
  destruct (enter_context _ _ _ _ _ HE) as (Hg & _ & HS & HT & _). pose proof (run_enter_cfg _ _ _ _ _ HE) as Hcfg.
  destruct (run_once_keeps lk i Hi h Hh) as ([] & h1 & E & Hh1 & _).
  destruct (pl_guest c1 (h_mem h) (h_w h)) as [[[idx c2] m2] w2] eqn:Ep.
  destruct (run_leave idx v1 c2) as [v' c3] eqn:HL.
  destruct (leave_context _ _ _ _ _ HL) as (L1 & _ & L2 & L3 & L4).
  exists c1, v', c3. split; [done|]. split; [by split|]. split; [done|].
  split; [by eapply enter_hyp|]. split; [apply (leave_hyp idx v1 c1 (h_mem h) (h_w h) v'); by rewrite Ep|]. cbv zeta. rewrite Ep. cbn [fst snd].
  pose proof E as E0. unfold run_once in E. rewrite Hv in E. cbn [mbind res_bind] in E.
  unfold vcpu_run_once in E. rewrite HE in E. cbn [mbind res_bind] in E. rewrite Ep, HL in E. cbn [mbind res_bind] in E.
  rewrite aset_ok in E by lia. cbn [mbind res_bind] in E. injection E as E1. rewrite E0. subst h1.
  split; [done|]. split; [done|]. split.
  { pose proof (wh_vcpus _ Hh1) as [_ HF1]. cbn in HF1. rewrite Forall_lookup in HF1. apply (HF1 (Z.to_nat i)).
    apply list_lookup_insert_eq. unfold len in Hl. lia. }
  split; [by split|]. split; [congruence|exact L4].
Qed.

(** The same when the guest's behaviour is known. *)
Definition ran (h : hv W) (i : Z) (v' : vcpu) (c : cpu) (m : mem) (w : W) : hv W :=
  put_w (put_mem (put_cpu (put_vcpus h (<[Z.to_nat i := v']> (h_vcpus h))) c) m) w.
Lemma run_once_under i (h : hv W) v idx (f : cpu -> cpu) m w :
  0 <= i < 2 -> wf_hv h -> aget (h_vcpus h) i = Ok v ->
  (forall c, holds v c -> rd_sysreg "vttbr_el2" c = vttbr v -> hyp_kept (h_cpu h) c -> pl_guest c (h_mem h) (h_w h) = (idx, f c, m, w)) ->
  exists c1 v' c3, wf_cpu c1 /\ holds v c1 /\ run_once lk i h = Ok (tt, ran h i v' c3 m w) /\
    wf_hv (ran h i v' c3 m w) /\ wf_vcpu v' /\ holds v' (f c1) /\
    (vttbr v', vmpidr v', vid v', halted v') = (vttbr v, vmpidr v, vid v, halted v) /\
    exit_of v' = (idx, rd_sysreg "esr_el2" (f c1), rd_sysreg "far_el2" (f c1), rd_sysreg "hpfar_el2" (f c1)) /\
    get_vcpu i (ran h i v' c3 m w) = Ok (v', ran h i v' c3 m w) /\ hyp_kept (h_cpu h) c3.
Proof.
  intros Hi Hh Hv Hg. destruct (run_once_spec i h v Hi Hh Hv) as (c1 & v' & c3 & Hc & H1 & HT & K1 & K2 & Hr). exists c1, v', c3.
  rewrite (Hg c1 H1 HT K1) in Hr. cbn [fst snd] in Hr. destruct Hr as (E & Wh & Wv & H2 & Hk & Hx). repeat (split; [done|]).
  split.
  2: { unfold hyp_kept in *. rewrite !Forall_cons in *. destruct K1 as (A1 & A2 & _), K2 as (B1 & B2 & _).
       split; [by rewrite B1|]. split; [by rewrite B2|by apply Forall_nil]. }
  unfold get_vcpu, try_, ran. cbn [h_vcpus put_w put_mem put_cpu put_vcpus].
  pose proof (wh_vcpus h Hh) as [Hl _]. by rewrite aget_insert_eq by lia.
Qed.
Lemma run_once_as i (h : hv W) v idx (f : cpu -> cpu) m w :
  0 <= i < 2 -> wf_hv h -> aget (h_vcpus h) i = Ok v ->
  (forall c, holds v c -> pl_guest c (h_mem h) (h_w h) = (idx, f c, m, w)) ->
  exists c1 v' c3, wf_cpu c1 /\ holds v c1 /\ run_once lk i h = Ok (tt, ran h i v' c3 m w) /\
    wf_hv (ran h i v' c3 m w) /\ wf_vcpu v' /\ holds v' (f c1) /\
    (vttbr v', vmpidr v', vid v', halted v') = (vttbr v, vmpidr v, vid v, halted v) /\
    exit_of v' = (idx, rd_sysreg "esr_el2" (f c1), rd_sysreg "far_el2" (f c1), rd_sysreg "hpfar_el2" (f c1)) /\
    get_vcpu i (ran h i v' c3 m w) = Ok (v', ran h i v' c3 m w).
Proof.
  intros Hi Hh Hv Hg. destruct (run_once_under i h v idx f m w Hi Hh Hv) as (c1 & v' & c3 & Hr); [intros c Hc _ _; by apply Hg|].
  exists c1, v', c3. tauto.
Qed.
End RunOnce.

(** * The console of the machine *)
Definition console (w : script) : list Z := rev (map snd (filter (fun p => p.1 = UART_DR) (sc_log w))).
Definition h_console (h : hv guest) : list Z := console (g_dev (h_w h)).

Section Console.
Context (run : cpu -> mem -> guest -> Z * cpu * mem * guest).
#[local] Instance dev_inst : Platform guest := dev_platform run.

(** The devices after the characters [l] were written to the console. *)
Fixpoint typed (l : list Z) (w : script) : script :=
  match l with
  | [] => w
  | c :: l => typed l (mk_script (sc_events w) (sc_iar w) (sc_read w) ((UART_DR, u8 c) :: sc_log w) (sc_time w))
  end.
Lemma typed_console l : forall w, console (typed l w) = console w ++ map u8 l /\ sc_iar (typed l w) = sc_iar w.
Proof.
  induction l as [|c l IH]; intros w; cbn [typed map]; [by rewrite app_nil_r|].
  edestruct IH as [-> ->]. split; [|done]. rewrite cons_middle, app_assoc. f_equal.
Qed.
Lemma putc_typed c g : uart_putc c g = Ok (tt, set_dev g (typed [c] (g_dev g))).
Proof.
  destruct g as [p a n l w]. unfold uart_putc, mbind, st_bind. cbn [pl_patience dev_inst dev_platform poll].
  unfold mbind, st_bind, mmio_read32. cbn [pl_read32 dev_inst dev_platform g_dev].
  assert (pl_read32 UART_FR w = (if decide (sc_read w = []) then bit 4 else 0, w)) as -> by reflexivity.
  case_decide; reflexivity.
Qed.
Lemma put_all_typed l : forall g, put_all l g = Ok (tt, set_dev g (typed l (g_dev g))).
Proof.
  induction l as [|c l IH]; intros g; [by destruct g|].
  cbn [put_all]. rewrite (st_bind_Ok _ _ _ _ _ (putc_typed c g)), IH. by destruct g.
Qed.
Lemma printf_typed fmt args out (h : hv guest) :
  Forall arg_ok args -> render fmt args = Some out ->
  printf fmt args h = Ok (tt, put_w h (set_dev (h_w h) (typed out (g_dev (h_w h))))).
Proof.
  intros Ha Ho. unfold printf, on_uart, zoom.
  by rewrite (printf_text (S (length fmt)) fmt args out (h_w h) (Nat.lt_succ_diag_r _) Ha Ho), put_all_typed.
Qed.
Lemma guest_putc c g : exists w', uart_putc c g = Ok (tt, set_dev g w') /\ console w' = console (g_dev g) ++ [u8 c].
Proof. eexists. split; [apply putc_typed|]. apply (typed_console [c]). Qed.
Lemma guest_put_all l g : exists w', put_all l g = Ok (tt, set_dev g w') /\ console w' = console (g_dev g) ++ map u8 l.
Proof. eexists. split; [apply put_all_typed|]. apply typed_console. Qed.
Lemma guest_printf fmt args out (h : hv guest) :
  Forall arg_ok args -> render fmt args = Some out ->
  exists w', printf fmt args h = Ok (tt, put_w h (set_dev (h_w h) w')) /\ console w' = h_console h ++ map u8 out.
Proof. intros Ha Ho. eexists. split; [by apply printf_typed|]. apply typed_console. Qed.
Lemma guest_puts s (h : hv guest) :
  exists w', puts s h = Ok (tt, put_w h (set_dev (h_w h) w')) /\ console w' = h_console h ++ map u8 (line (bytes s)).
Proof. eexists. split; [|apply typed_console]. unfold puts, on_uart, zoom. by rewrite puts_line, put_all_typed. Qed.
Lemma println_typed s (h : hv guest) :
  println s h = Ok (tt, put_w h (set_dev (h_w h) (typed (line (bytes s) ++ [CR; LF]) (g_dev (h_w h))))).
Proof.
  unfold println, on_uart, zoom, uart_println.
  assert ((uart_puts (bytes s);; uart_putc CR;; uart_putc LF) (h_w h) = put_all (line (bytes s) ++ [CR; LF]) (h_w h)) as ->; [|by rewrite put_all_typed].
  rewrite put_all_app. apply st_bind_ext; [apply puts_line|]. intros [] w1. cbn [put_all]. apply st_bind_ext; [done|]. intros [] w2.
  unfold mbind, st_bind. by destruct (uart_putc LF w2) as [[[] ?]|].
Qed.
Lemma guest_println s (h : hv guest) :
  exists w', println s h = Ok (tt, put_w h (set_dev (h_w h) w')) /\ console w' = h_console h ++ map u8 (line (bytes s) ++ [CR; LF]).
Proof. eexists. split; [apply println_typed|]. apply typed_console. Qed.
End Console.

(** * Facts about single instructions *)
Lemma small_check (f : Z -> bool) n i : forallb f (seqZ 0 n) = true -> 0 <= i < n -> f i = true.
Proof. intros Hf Hi. rewrite forallb_forall in Hf. apply Hf, list_elem_of_In, elem_of_seqZ. lia. Qed.

Lemma esr_store_u64 t : 0 <= t < 31 -> u64 (esr_store 2 t) = esr_store 2 t.
Proof.
  intros Ht. apply Z.eqb_eq. apply (small_check (fun t => u64 (esr_store 2 t) =? esr_store 2 t) 31); [vm_compute; reflexivity|lia].
Qed.
Lemma esr_store_ec t : 0 <= t < 31 -> ESR_EC (esr_store 2 t) = EC_DABT_LOW.
Proof.
  intros Ht. apply Z.eqb_eq. apply (small_check (fun t => ESR_EC (esr_store 2 t) =? EC_DABT_LOW) 31); [vm_compute; reflexivity|lia].
Qed.

(** After a skipped instruction the guest goes on with the rest of its program. *)
Lemma resume_after a e g : e = g_pc g -> fits 64 (g_pc g) -> a = u64 (e + 4) -> resume a g = Some (after (g_prog g)).
Proof.
  intros -> Hf ->. unfold resume. destruct (Z.eqb_spec (u64 (g_pc g + 4)) (g_pc g)) as [E|_]; [exfalso; zlia|].
  by rewrite Z.eqb_refl.
Qed.
Lemma guest_run_at xlate site rt p c m g idx c' p' M' m' :
  head (g_irq g) <> Some true -> resume (rd_sysreg "elr_el2" c) g = Some p ->
  (silent xlate p (mmu_of_cpu c) m = (p', M', m') /\ leave xlate site rt p' (g_n g) M' m' (put_mmu M' c) = (idx, c')) ->
  guest_run xlate site rt c m g = (idx, c', m', mk_guest p' (u64 (site (g_n g))) (S (g_n g)) (tail (g_irq g)) (g_dev g)).
Proof.
  intros Hi Hr [Hs Hl]. unfold guest_run.
  assert (resume (rd_sysreg "elr_el2" c) (set_irqs g (tail (g_irq g))) = Some p) as Hr' by exact Hr.
  destruct (g_irq g) as [|[] l]; [|done|]; rewrite Hr', Hs; cbn [g_n set_irqs]; rewrite Hl; done.
Qed.
Lemma rd_set_gp r c l : rd_sysreg r (set_gp c l) = rd_sysreg r c.
Proof. reflexivity. Qed.
Lemma put_mmu_gp M c : gp (put_mmu M c) = gp c.
Proof. apply gp_msr_all. Qed.
(** The processor after a trapped store. *)
Lemma store_fault_state site rt n sas va ipa v c :
  let c' := (store_fault site rt n sas va ipa v c).2 in
  rd_sysreg "esr_el2" c' = u64 (esr_store sas (rt n)) /\ rd_sysreg "far_el2" c' = u64 va /\
  rd_sysreg "hpfar_el2" c' = u64 ((ipa ≫ 12) ≪ 4) /\ rd_sysreg "elr_el2" c' = u64 (site n) /\
  mmu_of_cpu c' = mmu_of_cpu c /\ gp c' = <[Z.to_nat (rt n) := u64 v]> (gp c).
Proof.
  cbv zeta. unfold store_fault. cbn [snd msr_all]. unfold mmu_of_cpu. rewrite !rd_set_gp. sysreg. done.
Qed.
