(* ===== verification/Nano.v ===== *)
(** The nano guest kernel (src/guest/nano.c) and its run under real_guest_demo
    (src/src/vcpu.c).

    [Nano] translates nano.c into a guest program: printing through the emulated UART,
    the identity map of its own stage-1 table, the MMU registers, the final hypercall.
    The theorems compose it with the hypervisor: nested translation is the identity,
    and the demonstration finishes with exactly nano's output on the console, whatever
    the compiler's choices and wherever physical interrupts fall. *)

From S2P Require Import Prelude Esr Machine Vcpu Stage2 Vgic Uart Vdev Handlers Vvirtio Vblk Timer Hv Sched Smp Tenants VirtioRun Boot GuestProg.

Module Nano.
(** A statement is what it does before the rest of the program. *)
Definition cmd := prog -> prog.

Definition UART_DR := 0x09000000.
Definition putc (c : Z) : cmd := St32 UART_DR (u8 c).
Fixpoint puts (s : list Z) (k : prog) : prog :=
  match s with
  | [] => k
  | c :: s => if c =? 0 then k else if c =? LF then putc CR (putc c (puts s k)) else putc c (puts s k)
  end.
Definition hvc (a0 : Z) : cmd := Hvc a0.

Definition BLK_NORMAL (addr : Z) : Z := addr .| bit 10 .| (3 ≪ 8) .| (0 ≪ 2) .| 1.
Definition BLK_DEVICE (addr : Z) : Z := addr .| bit 10 .| (0 ≪ 8) .| (1 ≪ 2) .| 1.

Definition hello : list Z := ln "[nano] hello! a separately-built guest kernel, loaded by FermiHV, running at EL1.".
Definition enabling : list Z := ln "[nano] enabling my own stage-1 MMU (TTBR0_EL1)...".
Definition running : list Z := ln "[nano] stage-1 MMU is ON and I am still running -> nested translation works!".
Definition MAIR := 0x00000000000000FF.
Definition TCR := 25 .| bit 8 .| bit 10 .| (3 ≪ 12) .| bit 23 .| (2 ≪ 32).

Section Kernel.
(** The link address of [static uint64_t l1[512]]. *)
Context (l1 : Z).

(** [for (i = 1; i < 512; i++) l1[i] = BLK_NORMAL(i << 30)]: [n] iterations from [i] on. *)
Fixpoint fill (i : Z) (n : nat) (k : prog) : prog :=
  match n with O => k | S n => St64 (l1 + 8 * i) (BLK_NORMAL (u64 (i ≪ 30))) (fill (i + 1) n k) end.

Definition nano_main : prog :=
  puts hello (
  St64 (l1 + 8 * 0) (BLK_DEVICE 0) (
  fill 1 511 (
  Msr MAIR_EL1 MAIR (
  Msr TCR_EL1 TCR (
  Msr TTBR0_EL1 l1 (
  puts enabling (
  Mrs SCTLR_EL1 (fun sctlr =>
  Msr SCTLR_EL1 (sctlr .| (bit 0 .| bit 2 .| bit 12)) (
  puts running (
  hvc 0x7777 Park)))))))))).
End Kernel.
End Nano.

(** * Programs that print *)
Definition outs (l : list Z) (k : prog) : prog := foldr (fun b => St32 Nano.UART_DR b) k l.
Lemma puts_outs s k : Nano.puts s k = outs (map u8 (line s)) k.
Proof.
  induction s as [|c s IH]; [done|]. cbn [Nano.puts]. unfold line in *. cbn [until_nul].
  destruct (c =? 0); [done|]. rewrite IH. change (crlf (c :: until_nul s)) with ((if c =? LF then [CR; c] else [c]) ++ crlf (until_nul s)).
  by destruct (Z.eqb_spec c LF) as [->|].
Qed.

(** * The stage-1 table *)
Section Table.
Context (l1 : Z).

(** The parts of nano_main between its messages. *)
Definition nano_setup (k : prog) : prog := St64 (l1 + 8 * 0) (Nano.BLK_DEVICE 0) (Nano.fill l1 1 511 (
  Msr MAIR_EL1 Nano.MAIR (Msr TCR_EL1 Nano.TCR (Msr TTBR0_EL1 l1 k)))).
Definition nano_after (k : prog) : prog := Mrs SCTLR_EL1 (fun sctlr => Msr SCTLR_EL1 (sctlr .| (bit 0 .| bit 2 .| bit 12)) k).
Definition SCTLR_ON : Z := SCTLR_EL1_RESET .| (bit 0 .| bit 2 .| bit 12).
Lemma nano_main_parts :
  Nano.nano_main l1 = Nano.puts Nano.hello (nano_setup (Nano.puts Nano.enabling (nano_after (
    Nano.puts Nano.running (Nano.hvc 0x7777 Park))))).
Proof. unfold Nano.nano_main, nano_setup, nano_after. reflexivity. Qed.

Definition nano_desc (i : Z) : Z := if i =? 0 then Nano.BLK_DEVICE 0 else Nano.BLK_NORMAL (u64 (i ≪ 30)).
Fixpoint fill_mem (i : Z) (n : nat) (m : mem) : mem :=
  match n with O => m | S n => fill_mem (i + 1) n (st64 m (l1 + 8 * i) (nano_desc i)) end.

Lemma fill_mem_S i n m : fill_mem i (S n) m = fill_mem (i + 1) n (st64 m (l1 + 8 * i) (nano_desc i)).
Proof. reflexivity. Qed.
Lemma fill_mem_ld n : forall i m j,
  0 <= l1 -> l1 + 4096 <= 2 ^ 48 -> 0 <= i -> i + Z.of_nat n <= 512 -> 0 <= j < 512 ->
  ld64 (fill_mem i n m) (l1 + 8 * j) =
  if decide (i <= j < i + Z.of_nat n) then u64 (nano_desc j) else ld64 m (l1 + 8 * j).
Proof.
  induction n as [|n IH]; intros i m j Hl Hr Hi Hn Hj.
  { rewrite decide_False by lia. done. }
  cbn [fill_mem]. rewrite IH by lia. destruct (decide (i = j)) as [->|Hne].
  - rewrite decide_False, decide_True by lia. apply (load_store_eq 8). lia.
  - assert (ld64 (st64 m (l1 + 8 * i) (nano_desc i)) (l1 + 8 * j) = ld64 m (l1 + 8 * j)) as ->.
    { apply (load_store_disjoint 8 8); [lia|lia|]. apply disjoint_arith; lia. }
    repeat case_decide; done || lia.
Qed.

(** Every descriptor is a valid block that maps its own GiB: Device memory for the
    first, Normal write-back for the others. *)
Definition desc_ok (i : Z) : bool :=
  let d := u64 (nano_desc i) in
  (wrap 2 d =? 1) && Z.testbit d 10 && (wrap 18 (d ≫ 30) =? i) &&
  (wrap 8 (Nano.MAIR ≫ (8 * wrap 3 (d ≫ 2))) =? (if i =? 0 then 0 else 0xFF)).
Lemma desc_ok_all i : 0 <= i < 512 -> desc_ok i = true.
Proof. apply small_check. vm_compute. reflexivity. Qed.
End Table.

(** * Nested translation *)
Definition s2x (T : list Z) (a : Z) : option Z := s2_pa <$> s2_walk VTCR_EL2_VALUE T a.

(** Where nano runs: an identity stage-2 table [T] that maps nano's table at [l1] and
    not the UART. *)
Record nano_env (T : list Z) (l1 : Z) : Prop := {
  ne_l1 : 0 <= l1 /\ l1 + 4096 <= 2 ^ 39 /\ l1 mod 4096 = 0;
  ne_id a o : s2_walk VTCR_EL2_VALUE T a = Some o -> s2_pa o = a;
  ne_ram a : l1 <= a < l1 + 4096 -> is_Some (s2_walk VTCR_EL2_VALUE T a);
  ne_dev : s2_walk VTCR_EL2_VALUE T Nano.UART_DR = None
}.

Section Nested.
Context (T : list Z) (l1 : Z) (Henv : nano_env T l1).

Lemma s2x_table j : 0 <= j < 512 -> s2x T (l1 + 8 * j) = Some (l1 + 8 * j).
Proof.
  intros Hj. unfold s2x. destruct (ne_ram _ _ Henv (l1 + 8 * j)) as [o E]; [lia|]. rewrite E. cbn.
  by rewrite (ne_id _ _ Henv _ _ E).
Qed.
Lemma s2x_uart : s2x T Nano.UART_DR = None.
Proof. unfold s2x. by rewrite (ne_dev _ _ Henv). Qed.

Definition table_in (m : mem) : Prop := forall j, 0 <= j < 512 -> ld64 m (l1 + 8 * j) = u64 (nano_desc j).
Definition mmu_on (sctlr : Z) : mmu := mk_mmu sctlr Nano.TCR l1 Nano.MAIR.

Lemma nano_walk sctlr m va :
  Z.testbit sctlr 0 = true -> table_in m -> fits 39 va ->
  s1_walk (s2x T) (mmu_on sctlr) m va = Some (mk_s1_out va (if va <? 2 ^ 30 then 0 else 0xFF)).
Proof.
  intros Hs Ht Hva. pose proof (ne_l1 _ _ Henv) as (H0 & H1 & _). unfold s1_walk. cbn [m_sctlr m_tcr m_ttbr0 m_mair mmu_on].
  rewrite Hs. cbn [negb]. change ((wrap 6 Nano.TCR =? 25) && (wrap 2 (Nano.TCR ≫ 14) =? 0)) with true. cbn [andb].
  rewrite decide_True by done. set (i := va ≫ 30).
  assert (0 <= i < 512) as Hi by (unfold i, fits in *; rewrite Z.shiftr_div_pow2 by lia; zlia).
  rewrite (wrap_fits 48 l1) by (unfold fits; lia). rewrite s2x_table by done. cbn [mbind option_bind].
  rewrite Ht by done. pose proof (desc_ok_all i Hi) as Hd. unfold desc_ok in Hd. cbv zeta.
  apply andb_prop in Hd as [Hd Ha%Z.eqb_eq]. apply andb_prop in Hd as [Hd Ho%Z.eqb_eq]. rewrite Hd, Ha, Ho.
  do 2 f_equal.
  - apply block_split. unfold fits in Hva. lia.
  - unfold i. rewrite Z.shiftr_div_pow2 by lia. unfold fits in Hva.
    destruct (Z.eqb_spec (va / 2 ^ 30) 0), (Z.ltb_spec va (2 ^ 30)); try done; zlia.
Qed.

(** With the MMU off, a store to nano's table goes through. *)
Lemma silent_entry j v k M m :
  Z.testbit (m_sctlr M) 0 = false -> 0 <= j < 512 ->
  silent (s2x T) (St64 (l1 + 8 * j) v k) M m = silent (s2x T) k M (st64 m (l1 + 8 * j) v).
Proof.
  intros Hs Hj. cbn [silent]. unfold s1_walk at 1. rewrite Hs. cbn [negb mbind option_bind s1_pa].
  by rewrite s2x_table by lia.
Qed.
Lemma silent_msr x r v k M m : silent x (Msr r v k) M m = silent x k (mmu_set r (u64 v) M) m.
Proof. reflexivity. Qed.
Lemma silent_fill n : forall i k M m,
  Z.testbit (m_sctlr M) 0 = false -> 1 <= i -> i + Z.of_nat n <= 512 ->
  silent (s2x T) (Nano.fill l1 i n k) M m = silent (s2x T) k M (fill_mem l1 i n m).
Proof.
  induction n as [|n IH]; intros i k M m Hs Hi Hn; [done|]. cbn [Nano.fill]. rewrite silent_entry, IH by (done || lia).
  rewrite fill_mem_S. unfold nano_desc. destruct (Z.eqb_spec i 0); [lia|done].
Qed.
(** nano's table is in place before the second message. *)
Lemma silent_setup k s t b a m :
  Z.testbit s 0 = false ->
  silent (s2x T) (nano_setup l1 k) (mk_mmu s t b a) m = silent (s2x T) k (mmu_on s) (fill_mem l1 0 512 m).
Proof.
  intros Hs. pose proof (ne_l1 _ _ Henv) as (H0 & H1 & _). unfold nano_setup. rewrite silent_entry, silent_fill by (done || lia).
  rewrite !silent_msr. cbn [mmu_set m_sctlr m_tcr m_ttbr0 m_mair].
  rewrite (wrap_fits 64 l1) by (unfold fits; lia). rewrite (fill_mem_S l1 0 511 m). reflexivity.
Qed.
Lemma silent_after k m :
  silent (s2x T) (nano_after k) (mmu_on SCTLR_EL1_RESET) m = silent (s2x T) k (mmu_on SCTLR_ON) m.
Proof.
  unfold nano_after. cbn [silent mmu_get mmu_set mmu_on m_sctlr m_tcr m_ttbr0 m_mair]. fold SCTLR_ON.
  by rewrite (wrap_fits 64 SCTLR_ON) by fits_const.
Qed.
Lemma table_filled m : table_in (fill_mem l1 0 512 m).
Proof.
  intros j Hj. pose proof (ne_l1 _ _ Henv) as (H0 & H1 & _).
  rewrite (fill_mem_ld l1 512 0 m j) by lia. by rewrite decide_True by lia.
Qed.
End Nested.

(** * nano under the hypervisor *)
Section Run.
Context (T : list Z) (l1 : Z) (site rt : nat -> Z) (lk : link).
Context (Henv : nano_env T l1) (Hrt : forall n, 0 <= rt n < 31).
#[local] Instance nano_platform : Platform guest := guest_platform (s2x T) site rt.
#[local] Instance nano_platform_ok : PlatformOk guest := guest_platform_ok (s2x T) site rt.
Abbreviation body := (real_guest_body lk).

(** The guest of [h] will continue with [p] under the translation registers [M]. *)
Definition located (p : prog) (M : mmu) (h : hv guest) : Prop :=
  wf_hv h /\ exists v, aget (h_vcpus h) 0 = Ok v /\ resume (pc v) (h_w h) = Some p /\ mmu_of_vcpu v = M.
Definition irqs (h : hv guest) : nat := length (g_irq (h_w h)).

(** What the emulation of one trapped store to the UART does. *)
Lemma emulate_store v d g b t :
  wf_vcpu v -> 0 <= t < 31 -> exit_esr v = esr_store 2 t -> get_x v t = Ok b ->
  exists w', mmio_emulate v Nano.UART_DR (d, g) = Ok (pc_advance v, (d, set_dev g w')) /\
    console w' = console (g_dev g) ++ [u8 b].
Proof.
  intros Hv Ht He Hx. destruct (guest_putc (guest_run (s2x T) site rt) (b .& 0xFF) g) as (w' & E & C).
  exists w'. split; [|by rewrite C; change 0xFF with (Z.ones 8); rewrite land_ones_wrap, wrap_wrap by lia].
  unfold mmio_emulate. rewrite He.
  assert (fits 5 t) as Hf by (unfold fits; lia).
  destruct (dabt_syndrome_roundtrip EC_DABT_LOW 1 1 2 0 t 0 0 0 1 5) as (_ & E1 & _ & E2 & E3); [first [exact Hf|fits_const]..|].
  unfold esr_store. rewrite E1, E2, E3. change (1 =? 0) with false. cbn [negb].
  unfold read_rt. destruct (Z.eqb_spec t 31); [lia|]. unfold mbind, st_bind, try_. rewrite Hx.
  change (u64 (Nano.UART_DR - VUART_BASE)) with VUART_DR. unfold vuart_write. rewrite Z.eqb_refl.
  unfold on_w, zoom. cbn [mbind res_bind fst snd].
  assert (uart_putc (b .& 0xFF) g = Ok (tt, set_dev g w')) as -> by exact E. done.
Qed.
Lemma guest_ack_drop (h : hv guest) :
  exists w', ack_drop h = Ok (tt, put_w h (set_dev (h_w h) w')) /\ console w' = console (g_dev (h_w h)).
Proof.
  unfold ack_drop, ack, eoi_real, eoi, on_uart, zoom, mbind, st_bind, gic_ack, gic_eoi.
  destruct h as [c m [p a n l w] s2 vg vs vu vc vb t ps cn]. cbn. destruct (sc_iar w) as [|i il]; cbn; [by eexists|].
  case_match; by eexists.
Qed.
Lemma set_dev_at e g w : resume e (set_dev g w) = resume e g.
Proof. reflexivity. Qed.

(** An interrupt is dropped and the guest left where it was. *)
Lemma body_irq p M h l :
  located p M h -> g_irq (h_w h) = true :: l ->
  exists h1, body tt h = Ok (true, tt, h1) /\ located p M h1 /\ g_irq (h_w h1) = l /\
    h_mem h1 = h_mem h /\ h_s2 h1 = h_s2 h /\ h_console h1 = h_console h.
Proof.
  intros (Hh & v & Hv & Hr & HM) Hi. pose proof (wh_vcpus h Hh) as [Hl _].
  destruct (run_once_as lk 0 h v 9 id (h_mem h) (set_irqs (h_w h) l))
    as (c1 & v' & c3 & _ & H1 & E & W1 & Wv & H2 & Hk & Hx & Eg); [lia|done|done| |].
  { intros c Hc. cbn. unfold guest_run. by rewrite Hi. }
  change (id c1) with c1 in *. set (h1 := ran _ _ _ _ _ _) in *.
  destruct (guest_ack_drop h1) as (w' & Ea & Ca). exists (put_w h1 (set_dev (h_w h1) w')).
  assert (is_irq v' = true) as Hirq by (unfold exit_of in Hx; injection Hx as Hx _; unfold is_irq; by rewrite Hx).
  split.
  { unfold real_guest_body. rewrite (st_bind_Ok _ _ _ _ _ E), (st_bind_Ok _ _ _ _ _ Eg), Hirq. by rewrite (st_bind_Ok _ _ _ _ _ Ea). }
  split.
  { split; [by destruct W1|]. exists v'. split; [cbn; by rewrite aget_insert_eq by lia|].
    split; [|by rewrite <- (holds_mmu _ _ H2), (holds_mmu _ _ H1)].
    cbn [h_w put_w]. rewrite set_dev_at, <- (holds_elr _ _ H2), (holds_elr _ _ H1). exact Hr. }
  split; [done|]. split; [done|]. split; [done|]. unfold h_console. cbn [h_w put_w g_dev set_dev]. by rewrite Ca.
Qed.

(** A message byte: the store traps, is emulated and skipped. *)
Lemma body_store p M h b k M' m' o :
  located p M h -> head (g_irq (h_w h)) <> Some true -> fits 8 b ->
  silent (s2x T) p M (h_mem h) = (St32 Nano.UART_DR b k, M', m') ->
  s1_walk (s2x T) M' m' Nano.UART_DR = Some o -> s1_pa o = Nano.UART_DR ->
  exists h1, body tt h = Ok (true, tt, h1) /\ located k M' h1 /\ g_irq (h_w h1) = tail (g_irq (h_w h)) /\
    h_mem h1 = m' /\ h_s2 h1 = h_s2 h /\ h_console h1 = h_console h ++ [b].
Proof.
  intros (Hh & v & Hv & Hr & HM) Hi Hb Hsil Hw Ho. pose proof (wh_vcpus h Hh) as [Hl _].
  set (n := g_n (h_w h)). set (t := rt n). pose proof (Hrt n) as Ht. fold t in Ht.
  set (f := fun c => (store_fault site rt n 2 Nano.UART_DR Nano.UART_DR b (put_mmu M' c)).2).
  set (g1 := mk_guest (St32 Nano.UART_DR b k) (u64 (site n)) (S n) (tail (g_irq (h_w h))) (g_dev (h_w h))).
  destruct (run_once_as lk 0 h v 8 f m' g1)
    as (c1 & v' & c3 & Hc1 & H1 & E & W1 & Wv & H2 & Hk & Hx & Eg); [lia|done|done| |].
  { intros c Hc. cbn. eapply guest_run_at with (p := p); [done|by rewrite (holds_elr _ _ Hc)|].
    rewrite (holds_mmu _ _ Hc), HM, Hsil. split; [done|]. unfold leave. rewrite Hw, Ho. done. }
  unfold exit_of in Hx. injection Hx as X1 X2 X3 X4.
  destruct (store_fault_state site rt n 2 Nano.UART_DR Nano.UART_DR b (put_mmu M' c1)) as (F1 & F2 & F3 & F4 & F5 & F6).
  fold (f c1) in F1, F2, F3, F4, F5, F6. fold t in F1, F6. rewrite mmu_put in F5. rewrite put_mmu_gp in F6.
  rewrite F1, esr_store_u64 in X2 by lia. rewrite F2 in X3. rewrite F3 in X4.
  assert (exit_ec v' = EC_DABT_LOW) as Hec by (unfold exit_ec; rewrite X2; apply esr_store_ec; lia).
  assert (exit_ipa v' = Nano.UART_DR) as Hipa by (unfold exit_ipa; rewrite X3, X4; vm_compute; reflexivity).
  assert (get_x v' t = Ok b) as Hgx.
  { unfold get_x. rewrite <- (proj1 H2), F6, (wrap_fits 64 b) by (eapply fits_mono; [|exact Hb]; lia).
    apply aget_insert_eq. destruct Hc1 as [Hc1 _]. unfold len. lia. }
  set (h1 := ran _ _ _ _ _ _) in *.
  destruct (emulate_store v' (h_vuart h1) (h_w h1) b t) as (w' & Em & Cm); [done|lia|done|done|].
  exists (put_vcpus (put_w h1 (set_dev g1 w')) (<[Z.to_nat 0 := pc_advance v']> (h_vcpus h1))).
  assert (do_mmio_emulate 0 Nano.UART_DR h1 =
    Ok (tt, put_vcpus (put_w h1 (set_dev g1 w')) (<[Z.to_nat 0 := pc_advance v']> (h_vcpus h1)))) as Ed.
  { unfold do_mmio_emulate. rewrite (st_bind_Ok _ _ _ _ _ Eg). unfold mbind at 1, st_bind at 1, zoom at 1. rewrite Em.
    unfold set_vcpu, update. rewrite aset_ok by (cbn; rewrite len_insert; lia). done. }
  assert (body tt h = Ok (true, tt, put_vcpus (put_w h1 (set_dev g1 w')) (<[Z.to_nat 0 := pc_advance v']> (h_vcpus h1)))) as Eb.
  { unfold real_guest_body. rewrite (st_bind_Ok _ _ _ _ _ E), (st_bind_Ok _ _ _ _ _ Eg). unfold is_irq. rewrite X1.
    change ((8 .& 3) =? 1) with false. cbv zeta. rewrite Hec, Hipa. change (EC_DABT_LOW =? EC_HVC64) with false.
    change (is_abort EC_DABT_LOW) with true. change ((EC_DABT_LOW =? EC_DABT_LOW) && vuart_contains Nano.UART_DR) with true.
    cbv beta iota. by rewrite (st_bind_Ok _ _ _ _ _ Ed). }
  split; [exact Eb|]. split.
  { destruct (real_guest_body_ok lk tt h Hh) as (r & h2 & E2 & W2 & _). rewrite Eb in E2. injection E2 as _ <-.
    split; [done|]. exists (pc_advance v'). split; [cbn; apply aget_insert_eq; rewrite len_insert; lia|].
    split.
    - cbn. eapply resume_after; [|apply fits_wrap; lia|reflexivity]. by rewrite <- (holds_elr _ _ H2).
    - change (mmu_of_vcpu (pc_advance v')) with (mmu_of_vcpu v'). by rewrite <- (holds_mmu _ _ H2). }
  split; [done|]. split; [done|]. split; [done|]. unfold h_console. cbn [h_w put_vcpus put_w g_dev set_dev]. rewrite Cm.
  by rewrite (wrap_fits 8 b Hb).
Qed.

(** The final hypercall ends the loop. *)
Definition success_text : list Z := line (ln "[M7] guest exited via HVC (x0=0x7777) -> success.").
Lemma body_hvc p M h k M' m' :
  located p M h -> head (g_irq (h_w h)) <> Some true -> silent (s2x T) p M (h_mem h) = (Hvc 0x7777 k, M', m') ->
  exists h1 v1, body tt h = Ok (false, tt, h1) /\ aget (h_vcpus h1) 0 = Ok v1 /\ mmu_of_vcpu v1 = M' /\
    h_mem h1 = m' /\ h_s2 h1 = h_s2 h /\ h_console h1 = h_console h ++ success_text.
Proof.
  intros (Hh & v & Hv & Hr & HM) Hi Hsil. pose proof (wh_vcpus h Hh) as [Hl _]. set (n := g_n (h_w h)).
  set (f := fun c => (leave (s2x T) site rt (Hvc 0x7777 k) n M' m' (put_mmu M' c)).2).
  set (g1 := mk_guest (Hvc 0x7777 k) (u64 (site n)) (S n) (tail (g_irq (h_w h))) (g_dev (h_w h))).
  destruct (run_once_as lk 0 h v 8 f m' g1)
    as (c1 & v' & c3 & Hc1 & H1 & E & W1 & Wv & H2 & Hk & Hx & Eg); [lia|done|done| |].
  { intros c Hc. cbn. eapply guest_run_at with (p := p); [done|by rewrite (holds_elr _ _ Hc)|].
    by rewrite (holds_mmu _ _ Hc), HM, Hsil. }
  unfold exit_of in Hx. injection Hx as X1 X2 _ _.
  assert (mmu_of_cpu (f c1) = M' /\ rd_sysreg "esr_el2" (f c1) = u64 esr_hvc /\ gp (f c1) = <[0%nat := 0x7777]> (gp c1)) as (F1 & F2 & F3).
  { unfold f, leave. cbn [snd msr_all]. unfold mmu_of_cpu. rewrite !rd_set_gp. sysreg. fold (mmu_of_cpu (put_mmu M' c1)).
    rewrite mmu_put. split; [done|]. split; [done|]. cbn [gp set_gp]. by rewrite put_mmu_gp. }
  rewrite F2 in X2. set (h1 := ran _ _ _ _ _ _) in *.
  destruct (guest_printf (guest_run (s2x T) site rt) (ln "[M7] guest exited via HVC (x0=%x) -> success.") [AInt 0x7777] success_text h1) as (w' & Ep & Cp);
    [apply Forall_singleton; cbn; fits_const|vm_compute; reflexivity|].
  exists (put_w h1 (set_dev (h_w h1) w')), v'. split.
  { unfold real_guest_body. rewrite (st_bind_Ok _ _ _ _ _ E), (st_bind_Ok _ _ _ _ _ Eg). unfold is_irq, exit_ec. rewrite X1, X2.
    change ((8 .& 3) =? 1) with false. change (ESR_EC (u64 esr_hvc) =? EC_HVC64) with true. cbv beta iota zeta.
    assert (x_of 0 0 h1 = Ok (0x7777, h1)) as Ex.
    { unfold x_of. rewrite (st_bind_Ok _ _ _ _ _ Eg). unfold try_, get_x. rewrite <- (proj1 H2), F3.
      change 0%nat with (Z.to_nat 0) at 1. rewrite aget_insert_eq; [done|]. destruct Hc1 as [Hc1 _]. unfold len. lia. }
    rewrite (st_bind_Ok _ _ _ _ _ Ex). by rewrite (st_bind_Ok _ _ _ _ _ Ep). }
  split; [cbn; by rewrite aget_insert_eq by lia|]. split; [by rewrite <- (holds_mmu _ _ H2)|].
  split; [done|]. split; [done|]. unfold h_console at 1. cbn [h_w put_w g_dev set_dev]. rewrite Cp. done.
Qed.

(** ** Whole messages *)
Definition leads (n : nat) (h h1 : hv guest) : Prop := forall f, loop (n + f) body tt h = loop f body tt h1.
Lemma leads_step h h1 : body tt h = Ok (true, tt, h1) -> leads 1 h h1.
Proof. intros E f. cbn [Nat.add loop]. by rewrite (st_bind_Ok _ _ _ _ _ E). Qed.
Lemma leads_trans n n' h h1 h2 : leads n h h1 -> leads n' h1 h2 -> leads (n + n') h h2.
Proof. intros H1 H2 f. by rewrite <- Nat.add_assoc, H1. Qed.

(** Interrupts that are pending before an entry are absorbed. *)
Lemma absorb p M h :
  located p M h ->
  exists n h1, leads n h h1 /\ located p M h1 /\ (n + irqs h1 = irqs h)%nat /\ head (g_irq (h_w h1)) <> Some true /\
    h_mem h1 = h_mem h /\ h_s2 h1 = h_s2 h /\ h_console h1 = h_console h.
Proof.
  remember (g_irq (h_w h)) as l eqn:El. symmetry in El. revert h El. induction l as [|[] l IH]; intros h El Hh.
  - exists 0%nat, h. rewrite El. split; [by intros f|]. do 5 (split; [done|]). done.
  - destruct (body_irq p M h l Hh El) as (h1 & E & H1 & El1 & Q1 & Q2 & Q3).
    destruct (IH h1 El1 H1) as (n & h2 & L2 & H2 & Hn & Hd & Q4 & Q5 & Q6).
    exists (1 + n)%nat, h2. split; [by eapply leads_trans; [apply leads_step|]|]. split; [done|].
    split; [unfold irqs in *; rewrite El, El1 in *; cbn; lia|]. split; [done|]. split_and!; congruence.
  - exists 0%nat, h. rewrite El. split; [by intros f|]. do 5 (split; [done|]). done.
Qed.

Lemma byte_run p M h b k M' m' o :
  located p M h -> fits 8 b -> silent (s2x T) p M (h_mem h) = (St32 Nano.UART_DR b k, M', m') ->
  s1_walk (s2x T) M' m' Nano.UART_DR = Some o -> s1_pa o = Nano.UART_DR ->
  exists n h1, leads n h h1 /\ located k M' h1 /\ (n + irqs h1 <= 1 + irqs h)%nat /\
    h_mem h1 = m' /\ h_s2 h1 = h_s2 h /\ h_console h1 = h_console h ++ [b].
Proof.
  intros Hh Hb Hs Hw Ho. destruct (absorb p M h Hh) as (n & h1 & L1 & H1 & Hn & Hd & Em & Es & Ec). rewrite <- Em in Hs.
  destruct (body_store p M h1 b k M' m' o H1 Hd Hb Hs Hw Ho) as (h2 & E & H2 & Ei & Q1 & Q2 & Q3).
  exists (n + 1)%nat, h2. split; [by eapply leads_trans; [|apply leads_step]|]. split; [done|].
  split; [unfold irqs in *; rewrite Ei; destruct (g_irq (h_w h1)); cbn in *; lia|]. split_and!; congruence.
Qed.

Lemma silent_outs b l k M m o :
  s1_walk (s2x T) M m Nano.UART_DR = Some o -> s1_pa o = Nano.UART_DR ->
  silent (s2x T) (outs (b :: l) k) M m = (outs (b :: l) k, M, m).
Proof. intros Hw Ho. cbn [outs foldr silent]. rewrite Hw. cbn [mbind option_bind]. by rewrite Ho, (s2x_uart T l1 Henv). Qed.

Lemma outs_run l : forall p M h b k M' m' o,
  located p M h -> Forall (fits 8) (b :: l) -> silent (s2x T) p M (h_mem h) = (outs (b :: l) k, M', m') ->
  s1_walk (s2x T) M' m' Nano.UART_DR = Some o -> s1_pa o = Nano.UART_DR ->
  exists n h1, leads n h h1 /\ located k M' h1 /\ (n + irqs h1 <= length (b :: l) + irqs h)%nat /\
    h_mem h1 = m' /\ h_s2 h1 = h_s2 h /\ h_console h1 = h_console h ++ b :: l.
Proof.
  induction l as [|b' l IH]; intros p M h b k M' m' o Hh HF Hs Hw Ho; apply Forall_cons in HF as [Hb HF].
  { by eapply byte_run. }
  destruct (byte_run p M h b (outs (b' :: l) k) M' m' o Hh Hb Hs Hw Ho) as (n & h1 & L1 & H1 & Hn & Em & Es & Ec).
  destruct (IH (outs (b' :: l) k) M' h1 b' k M' m' o H1 HF) as (n2 & h2 & L2 & H2 & Hn2 & Q1 & Q2 & Ec2);
    [rewrite Em; by eapply silent_outs|done|done|].
  exists (n + n2)%nat, h2. split; [by eapply leads_trans|]. split; [done|]. split; [cbn [length] in *; lia|].
  split; [done|]. split; [congruence|]. by rewrite Ec2, Ec, <- app_assoc.
Qed.

(** A message [s] that is next in the program. *)
Lemma message_run s p M h k M' m' o :
  located p M h -> line s <> [] -> silent (s2x T) p M (h_mem h) = silent (s2x T) (Nano.puts s k) M' m' ->
  s1_walk (s2x T) M' m' Nano.UART_DR = Some o -> s1_pa o = Nano.UART_DR ->
  exists n h1, leads n h h1 /\ located k M' h1 /\ (n + irqs h1 <= length (line s) + irqs h)%nat /\
    h_mem h1 = m' /\ h_s2 h1 = h_s2 h /\ h_console h1 = h_console h ++ map u8 (line s).
Proof.
  intros Hh Hne Hs Hw Ho. rewrite puts_outs in Hs. rewrite <- (length_map u8 (line s)).
  assert (Forall (fits 8) (map u8 (line s))) as HF by (apply Forall_fmap, Forall_true; intros; apply fits_wrap; lia).
  destruct (map u8 (line s)) as [|b l] eqn:El; [by destruct (line s)|].
  rewrite (silent_outs b l k M' m' o Hw Ho) in Hs. by eapply outs_run.
Qed.

Definition nano_out : list Z := line Nano.hello ++ line Nano.enabling ++ line Nano.running ++ success_text.

Lemma nano_bytes s : s = Nano.hello \/ s = Nano.enabling \/ s = Nano.running -> map u8 (line s) = line s.
Proof. intros Hs. destruct Hs as [Hs|[Hs|Hs]]; rewrite Hs; vm_compute; reflexivity. Qed.

Lemma nano_loop h :
  located (Nano.nano_main l1) (mk_mmu SCTLR_EL1_RESET 0 0 0) h ->
  exists n h1 v, (forall f, loop (n + f) body tt h = Ok (tt, h1)) /\
    (n <= length nano_out + irqs h)%nat /\ aget (h_vcpus h1) 0 = Ok v /\ mmu_of_vcpu v = mmu_on l1 SCTLR_ON /\
    table_in l1 (h_mem h1) /\ h_s2 h1 = h_s2 h /\ h_console h1 = h_console h ++ nano_out.
Proof.
  intros H0.
  assert (forall M m, Z.testbit (m_sctlr M) 0 = false -> s1_walk (s2x T) M m Nano.UART_DR = Some (mk_s1_out Nano.UART_DR 0)) as Hoff
    by (intros M m E; unfold s1_walk; by rewrite E).
  rewrite nano_main_parts in H0.
  destruct (message_run Nano.hello _ _ h _ _ (h_mem h) _ H0 ltac:(done) eq_refl (Hoff (mk_mmu SCTLR_EL1_RESET 0 0 0) (h_mem h) eq_refl) eq_refl)
    as (n1 & h1 & L1 & H1 & N1 & E1 & S1 & C1).
  destruct (message_run Nano.enabling _ _ h1 _ _ _ _ H1 ltac:(done)
    (silent_setup T l1 Henv _ SCTLR_EL1_RESET 0 0 0 _ eq_refl) (Hoff (mmu_on l1 SCTLR_EL1_RESET) _ eq_refl) eq_refl) as (n2 & h2 & L2 & H2 & N2 & E2 & S2 & C2).
  assert (table_in l1 (h_mem h2)) as Ht by (rewrite E2; apply (table_filled T l1 Henv)).
  destruct (message_run Nano.running _ _ h2 _ _ _ _ H2 ltac:(done) (silent_after T l1 (Nano.puts Nano.running (Nano.hvc 0x7777 Park)) (h_mem h2))
    (nano_walk T l1 Henv SCTLR_ON (h_mem h2) Nano.UART_DR eq_refl Ht ltac:(fits_const)) eq_refl) as (n3 & h3 & L3 & H3 & N3 & E3 & S3 & C3).
  destruct (absorb _ _ h3 H3) as (n4 & h4 & L4 & H4 & N4 & D4 & E4 & S4 & C4).
  destruct (body_hvc _ _ h4 Park _ (h_mem h4) H4 D4 eq_refl) as (h5 & v & E & Hv & HM & E5 & S5 & C5).
  exists (n1 + n2 + n3 + n4 + 1)%nat, h5, v.
  pose proof (leads_trans _ _ _ _ _ (leads_trans _ _ _ _ _ (leads_trans _ _ _ _ _ L1 L2) L3) L4) as L.
  split.
  { intros f. rewrite <- Nat.add_assoc, L. cbn [Nat.add loop]. by rewrite (st_bind_Ok _ _ _ _ _ E). }
  split.
  { assert (1 <= length success_text)%nat by (vm_compute; lia). unfold nano_out. rewrite !length_app. lia. }
  split; [done|]. split; [done|]. split; [by rewrite E5, E4, E3|]. split; [congruence|].
  rewrite C5, C4, C3, C2, C1. unfold nano_out. rewrite !nano_bytes, <- !app_assoc by tauto. reflexivity.
Qed.

Definition loaded_fmt : list Z := ln "[M7] loaded %u-byte guest image -> IPA %x; booting at EL1".
Definition loaded_args : list arg := [AInt (u64 (image_size lk "nano_image")); AInt GUEST_LOAD_IPA].
Definition loaded_text : list Z := map u8 (default [] (render loaded_fmt loaded_args)).

(** The guest as the hypervisor finds it: nano's program, to be entered where it is
    loaded, with any sequence of interrupts to come. *)
Definition nano_guest (l : list bool) (w : script) : guest := mk_guest (Nano.nano_main l1) GUEST_LOAD_IPA 0 l w.

Lemma nano_located h l w :
  link_ok lk -> wf_hv h -> h_w h = nano_guest l w ->
  exists h0, (forall A (k : st (hv guest) A), (copy_image lk GUEST_LOAD_IPA "nano_image";; printf loaded_fmt loaded_args;;
      init_vcpu 0 GUEST_LOAD_IPA (stack_top lk 0) (vttbr_g lk);; wr_sys "hcr_el2" HCR_RW_VM_IMO;; k) h = k h0) /\
    located (Nano.nano_main l1) (mk_mmu SCTLR_EL1_RESET 0 0 0) h0 /\ irqs h0 = length l /\ h_s2 h0 = h_s2 h /\
    h_console h0 = h_console h ++ loaded_text.
Proof.
  intros Hlk Hh Hg. destruct (copy_image_keeps lk GUEST_LOAD_IPA "nano_image" h Hh) as ([] & h1 & E1 & W1 & _).
  assert (is_Some (render loaded_fmt loaded_args)) as [out Ho] by (eexists; reflexivity).
  assert (Forall arg_ok loaded_args) as Ha by (apply Forall_cons; split; [apply fits_wrap; lia|apply Forall_singleton; cbn; fits_const]).
  destruct (guest_printf (guest_run (s2x T) site rt) loaded_fmt loaded_args out h1 Ha Ho) as (w2 & E2 & C2).
  destruct (printf_keeps loaded_fmt loaded_args Ha ltac:(by eexists) h1 W1) as ([] & h2' & E2' & W2 & _).
  assert (h2' = put_w h1 (set_dev (h_w h1) w2)) as ->.
  { assert (Ok (tt, put_w h1 (set_dev (h_w h1) w2)) = Ok (tt, h2')) as Heq by (etransitivity; [symmetry; exact E2|exact E2']). by injection Heq. }
  set (h2 := put_w h1 _) in *.
  destruct (init_vcpu_total 0 GUEST_LOAD_IPA (stack_top lk 0) (vttbr_g lk) ltac:(lia) ltac:(fits_const) (fits_wrap 64 _ ltac:(lia)) (proj1 Hlk) h2 W2)
    as ([] & h3 & E3 & W3 & _).
  destruct (wr_sys_total "hcr_el2" HCR_RW_VM_IMO ltac:(fits_const) h3 W3) as ([] & h4 & E4 & W4 & _).
  exists h4. split; [intros A k; by rewrite (st_bind_Ok _ _ _ _ _ E1), (st_bind_Ok _ _ _ _ _ E2'), (st_bind_Ok _ _ _ _ _ E3), (st_bind_Ok _ _ _ _ _ E4)|].
  injection E1 as E1. injection E4 as E4. pose proof (wh_vcpus _ W2) as [Hl2 _].
  unfold init_vcpu, set_vcpu, update in E3. rewrite aset_ok in E3 by lia. cbn [mbind res_bind] in E3. injection E3 as E3.
  split.
  - split; [exact W4|]. rewrite <- E4, <- E3. eexists. split; [apply (aget_insert_eq (h_vcpus h2) 0); rewrite Hl2; lia|].
    split; [|reflexivity].
    assert (h_w h1 = nano_guest l w) as Hw1 by (rewrite <- E1; exact Hg).
    unfold h2, resume. cbn [h_w put_cpu put_vcpus put_w]. rewrite Hw1. cbn [g_pc g_prog set_dev nano_guest pc vcpu_init].
    by rewrite Z.eqb_refl.
  - rewrite <- E4, <- E3. unfold h2. rewrite <- E1 in *. split; [unfold irqs; cbn [h_w put_cpu put_vcpus put_w put_mem g_irq set_dev]; by rewrite Hg|]. split; [done|].
    unfold h_console at 1. cbn [h_w put_cpu put_vcpus put_w g_dev set_dev]. rewrite C2. unfold loaded_text. by rewrite Ho.
Qed.

End Run.

(** nano on the table stage2_init leaves, its own table one page into the image, with
    interrupts before its second and fourth entry. *)
Lemma init_env l1 : 0x40000000 <= l1 -> l1 + 4096 <= 0x80000000 -> l1 mod 4096 = 0 -> nano_env init_table l1.
Proof.
  intros H1 H2 H3. split.
  - lia.
  - intros a o. rewrite init_walk. case_decide; intros E; [|done]. by injection E as <-.
  - intros a Ha. rewrite init_walk, decide_True by lia. by eexists.
  - rewrite init_walk, decide_False by (unfold Nano.UART_DR; lia). done.
Qed.
Definition demo_site (n : nat) : Z := 0x48000100 + 4 * Z.of_nat n.
Definition demo_rt (n : nat) : Z := 3.
Definition nano_hv : hv guest :=
  put_s2 (hv_boot (nano_guest 0x48001000 [false; true; false; true] quiet)) (mk_stage2 init_table (replicate 2 (replicate 512 0)) VTCR_EL2_VALUE).
Lemma nano_hv_wf : wf_hv nano_hv.
Proof. destruct (hv_boot_wf (nano_guest 0x48001000 [false; true; false; true] quiet)). by split. Qed.
