(* ===== verification/Counters.v ===== *)
(** The round-robin demonstration with its guests (src/src/guest.S,
    guest_counter_entry; run_vcpus of src/src/vcpu.c): each guest keeps a counter in
    the callee-saved register x20 and hands it to the hypervisor by hypercall.  The
    theorem says what the demonstration is there to show: with two such guests sharing
    the processor, each counts on as if it were alone. *)

From S2P Require Import Prelude Esr Machine Vcpu Stage2 Vgic Uart Vdev Handlers Vvirtio Vblk Timer Hv Sched GuestProg.

Section Counter.
(** The address of guest_counter_entry. *)
Context (entry : Z).

(** From the entry: clear x20, then count; from the branch after [hvc]: count.  To count
    is to add one to x20, copy it to x0 and execute [hvc]. *)
Definition count (n : Z) (c : cpu) : cpu :=
  set_gp (msr_all [("esr_el2", u64 esr_hvc); ("elr_el2", u64 (entry + 16))]%string c) (<[0%nat := n]> (<[20%nat := n]> (gp c))).
Definition counter_run (c : cpu) (m : mem) (g : guest) : Z * cpu * mem * guest :=
  let e := rd_sysreg "elr_el2" c in
  if e =? entry then (8, count (u64 (0 + 1)) c, m, g)
  else if e =? u64 (entry + 16) then (8, count (u64 (default 0 (gp c !! 20%nat) + 1)) c, m, g)
  else (9, c, m, g).

Lemma count_wf n c : wf_cpu c -> wf_cpu (count (u64 n) c).
Proof.
  intros Hc. pose proof Hc as (Hl & HF & _). apply set_gp_wf; [by rewrite !length_insert| |].
  - do 2 (apply Forall_insert; [|apply fits_wrap; lia]). done.
  - cbn. by do 2 (apply wf_wr_sysreg; [apply fits_wrap; lia|]).
Qed.
Lemma counter_platform_ok : @PlatformOk guest (dev_platform counter_run).
Proof.
  apply dev_platform_ok; intros c m g.
  - unfold counter_run. cbv zeta. repeat case_match; cbn; lia.
  - intros Hc. unfold counter_run. cbv zeta. repeat case_match; cbn [fst snd]; [by apply count_wf..|done].
  - intros r Hr. assert (forall n, rd_sysreg r (count n c) = rd_sysreg r c) as Hn.
    { intros n. unfold count. rewrite rd_set_gp. cbn [msr_all].
      rewrite !rd_wr_ne; [done|apply not_private; [done|vm_compute; reflexivity]..]. }
    unfold counter_run. cbv zeta. repeat case_match; cbn [fst snd]; [apply Hn..|done].
Qed.
End Counter.

(** A machine that runs the counter from its entry point, given that memory holds what
    [code] asks for: entered there or after a hypercall, under the hypervisor's stage-2
    table and with the stage-1 MMU off, it does what [counter_run] does. *)
Definition runs_counter (lk : link) (code : mem -> Prop) (run : cpu -> mem -> guest -> Z * cpu * mem * guest) : Prop :=
  let entry := lk_entry lk "guest_counter_entry" in
  forall c m g, code m -> length (gp c) = 31%nat -> rd_sysreg "vttbr_el2" c = vttbr_g lk -> rd_sysreg "sctlr_el1" c = SCTLR_EL1_RESET ->
  rd_sysreg "elr_el2" c = entry \/ rd_sysreg "elr_el2" c = u64 (entry + 16) -> run c m g = counter_run entry c m g.

Section Run.
Context (lk : link) (tag : string) (budget : Z).
Abbreviation entry := (lk_entry lk "guest_counter_entry").
Context (Hlk : link_ok lk) (Hb : 1 <= budget < 2 ^ 64).
Context (run : cpu -> mem -> guest -> Z * cpu * mem * guest) (Hok : @PlatformOk guest (dev_platform run)).
Context (code : mem -> Prop) (Hrun : runs_counter lk code run).
#[local] Instance counter_platform : Platform guest := dev_platform run.
#[local] Instance counter_ok : PlatformOk guest := Hok.

(** What one hypercall prints. *)
Definition hvc_fmt : list Z := ln "[%s] vCPU %d HVC, x0=%u".
Definition hvc_text (i r : Z) : list Z := map u8 (default [] (render hvc_fmt [AS tag; AI i; AInt r])).

(** vCPU [i] has made [r] hypercalls. *)
Record counted (i r : Z) (v : vcpu) : Prop := {
  ct_pc : pc v = if r =? 0 then entry else u64 (entry + 16);
  ct_x20 : 0 < r -> xregs v !! 20%nat = Some r;
  ct_id : vid v = i;
  ct_halted : halted v = if r <? budget then 0 else 1;
  ct_vttbr : vttbr v = vttbr_g lk;
  ct_sctlr : m_sctlr (mmu_of_vcpu v) = SCTLR_EL1_RESET
}.

(** What the guest does from a counted state. *)
Lemma counter_runs i r v c m g :
  0 <= r -> r + 1 < 2 ^ 64 -> counted i r v -> wf_vcpu v -> holds v c -> rd_sysreg "vttbr_el2" c = vttbr v -> code m ->
  run c m g = (8, count entry (r + 1) c, m, g).
Proof.
  intros Hr Hr2 Hc Hw Hh HT Hm. rewrite Hrun; [|done|rewrite (proj1 Hh); exact (Nat2Z.inj _ 31 (proj1 Hw))|by rewrite HT, (ct_vttbr _ _ _ Hc)| |].
  2: { rewrite <- (ct_sctlr _ _ _ Hc), <- (holds_mmu _ _ Hh). done. }
  2: { rewrite (holds_elr _ _ Hh), (ct_pc _ _ _ Hc). case_match; tauto. }
  pose proof (proj2 Hlk "guest_counter_entry"%string) as He. unfold fits in He.
  unfold counter_run. cbv zeta. rewrite (holds_elr _ _ Hh), (ct_pc _ _ _ Hc).
  destruct (Z.eqb_spec r 0) as [->|Hne]; [by rewrite Z.eqb_refl|].
  destruct (Z.eqb_spec (u64 (entry + 16)) entry) as [E|_]; [exfalso; zlia|]. rewrite Z.eqb_refl.
  destruct Hh as [-> _]. rewrite (ct_x20 _ _ _ Hc) by lia. change (default 0 (Some r)) with r. by rewrite (wrap_fits 64 (r + 1)) by (unfold fits; lia).
Qed.
Lemma count_state n c :
  rd_sysreg "esr_el2" (count entry n c) = u64 esr_hvc /\ rd_sysreg "elr_el2" (count entry n c) = u64 (entry + 16) /\
  gp (count entry n c) = <[0%nat := n]> (<[20%nat := n]> (gp c)) /\ m_sctlr (mmu_of_cpu (count entry n c)) = m_sctlr (mmu_of_cpu c).
Proof. unfold count, mmu_of_cpu. cbn [m_sctlr]. rewrite !rd_set_gp. cbn [msr_all]. by repeat sysreg. Qed.

Lemma hvc_printed i r (h : hv guest) :
  0 <= i < 2 -> fits 64 r ->
  exists w', printf hvc_fmt [AS tag; AI i; AInt r] h = Ok (tt, put_w h (set_dev (h_w h) w')) /\
    console w' = h_console h ++ hvc_text i r.
Proof.
  intros Hi Hr. assert (is_Some (render hvc_fmt [AS tag; AI i; AInt r])) as [out Ho] by (eexists; reflexivity).
  destruct (guest_printf run hvc_fmt [AS tag; AI i; AInt r] out h) as (w' & E & C).
  - repeat (apply Forall_cons; split); [done| |done|by apply Forall_nil]. apply (fits_mono 32); [lia|apply fits_wrap; lia].
  - done.
  - exists w'. split; [exact E|]. rewrite C. unfold hvc_text. by rewrite Ho.
Qed.

(** What the scheduler makes of a hypercall. *)
Lemma rv_hvc i n r v v' (h h1 : hv guest) hcalls active :
  0 <= i < 2 -> fits 64 r -> aget (h_vcpus h) i = Ok v -> halted v = 0 -> run_once lk i h = Ok (tt, h1) -> get_vcpu i h1 = Ok (v', h1) ->
  exit_ec v' = EC_HVC64 -> vid v' = i -> get_x v' 0 = Ok r -> len hcalls = 2 -> aget hcalls i = Ok n ->
  exists w', console w' = h_console h1 ++ hvc_text i r /\
    let h2 := put_w h1 (set_dev (h_w h1) w') in let hcalls' := <[Z.to_nat i := n + 1]> hcalls in
    rv_one lk budget tag i (hcalls, active) h =
      (if budget <=? n + 1 then Ok ((hcalls', active - 1), put_vcpus h2 (<[Z.to_nat i := set_halted v' 1]> (h_vcpus h1)))
       else Ok ((hcalls', active), h2)).
Proof.
  intros Hi Hr Hv Hh0 E Eg Hec Hid Hx Hl Hg. destruct (hvc_printed i r h1 Hi Hr) as (w' & Ep & Cp). exists w'. split; [exact Cp|]. cbv zeta.
  assert (get_vcpu i h = Ok (v, h)) as Eg0 by (unfold get_vcpu, try_; by rewrite Hv).
  assert (x_of i 0 h1 = Ok (r, h1)) as Ex by (unfold x_of; rewrite (st_bind_Ok _ _ _ _ _ Eg); unfold try_; by rewrite Hx).
  unfold rv_one. rewrite (st_bind_Ok _ _ _ _ _ Eg0), Hh0.
  change (negb (0 =? 0)) with false. cbv iota. rewrite (st_bind_Ok _ _ _ _ _ E), (st_bind_Ok _ _ _ _ _ Eg). rewrite Hec. cbv zeta. rewrite Z.eqb_refl.
  rewrite (st_bind_Ok _ _ _ _ _ Ex), Hid, (st_bind_Ok _ _ _ _ _ Ep). unfold try_ at 1 2, mbind at 1 2, st_bind at 1 2. rewrite Hg.
  cbn [mbind res_bind]. rewrite aset_ok by lia. cbn [mbind res_bind]. destruct (budget <=? n + 1); [|done].
  assert (aget (h_vcpus h1) i = Ok v') as Ea by (revert Eg; unfold get_vcpu, try_; destruct (aget (h_vcpus h1) i) as [u|]; [by intros [= ->]|done]).
  set (h2 := put_w _ _). assert (get_vcpu i h2 = Ok (v', h2)) as Eg2 by (unfold get_vcpu, try_; cbn; by rewrite Ea).
  apply aget_inv in Ea as [Ha _].
  unfold halt. rewrite st_bind_assoc, (st_bind_Ok _ _ _ _ _ Eg2). unfold mbind, st_bind, set_vcpu, update. by rewrite aset_ok.
Qed.

(** A vCPU after its [r + 1]-st hypercall, before the scheduler looks at it. *)
Record called (i r : Z) (v : vcpu) : Prop := {
  cl_ec : exit_ec v = EC_HVC64; cl_id : vid v = i; cl_halted : halted v = 0;
  cl_pc : pc v = u64 (entry + 16); cl_x20 : xregs v !! 20%nat = Some (r + 1); cl_x0 : get_x v 0 = Ok (r + 1);
  cl_vttbr : vttbr v = vttbr_g lk; cl_sctlr : m_sctlr (mmu_of_vcpu v) = SCTLR_EL1_RESET }.
Lemma counter_exit i r v (h : hv guest) :
  0 <= i < 2 -> 0 <= r < budget -> wf_hv h -> aget (h_vcpus h) i = Ok v -> counted i r v -> code (h_mem h) ->
  exists v' h1, run_once lk i h = Ok (tt, h1) /\ wf_hv h1 /\ h_vcpus h1 = <[Z.to_nat i := v']> (h_vcpus h) /\
    h_w h1 = h_w h /\ (h_mem h1, h_s2 h1) = (h_mem h, h_s2 h) /\ get_vcpu i h1 = Ok (v', h1) /\ called i r v'.
Proof.
  intros Hi Hr Hh Hv Hc Hm. pose proof (Forall_aget _ _ _ _ (proj2 (wh_vcpus h Hh)) Hv) as Hw.
  destruct (run_once_under lk i h v 8 (count entry (r + 1)) (h_mem h) (h_w h))
    as (c1 & v' & c3 & Hc1 & H1 & E & W1 & Wv & H2 & Hk & Hx & Eg & _); [done|done|done|intros c Hh1 HT _; by apply (counter_runs i r v); [lia|lia|..]|].
  destruct (count_state (r + 1) c1) as (F1 & F2 & F3 & F4). unfold exit_of in Hx. injection Hx as _ X2 _ _. rewrite F1 in X2.
  assert (length (gp c1) = 31%nat) as L1 by apply Hc1. injection Hk as K0 _ K1 K2.
  exists v', (ran h i v' c3 (h_mem h) (h_w h)). do 6 (split; [done|]). split.
  - unfold exit_ec. by rewrite X2.
  - rewrite K1. apply Hc.
  - rewrite K2, (ct_halted _ _ _ Hc). by destruct (Z.ltb_spec r budget); [|lia].
  - by rewrite <- (holds_elr _ _ H2).
  - rewrite <- (proj1 H2), F3, list_lookup_insert_ne, list_lookup_insert_eq by (rewrite ?length_insert; lia). done.
  - unfold get_x. rewrite <- (proj1 H2), F3. apply aget_lookup; [lia|]. apply list_lookup_insert_eq. rewrite length_insert. lia.
  - by rewrite K0, (ct_vttbr _ _ _ Hc).
  - by rewrite <- (holds_mmu _ _ H2), F4, (holds_mmu _ _ H1), (ct_sctlr _ _ _ Hc).
Qed.

Lemma count_one i r v (h : hv guest) hcalls active :
  0 <= i < 2 -> 0 <= r < budget -> wf_hv h -> aget (h_vcpus h) i = Ok v -> counted i r v -> code (h_mem h) ->
  len hcalls = 2 -> aget hcalls i = Ok r ->
  exists v' h', rv_one lk budget tag i (hcalls, active) h =
      Ok ((<[Z.to_nat i := r + 1]> hcalls, if budget <=? r + 1 then active - 1 else active), h') /\
    wf_hv h' /\ h_vcpus h' = <[Z.to_nat i := v']> (h_vcpus h) /\ counted i (r + 1) v' /\
    (h_mem h', h_s2 h') = (h_mem h, h_s2 h) /\ h_console h' = h_console h ++ hvc_text i (r + 1).
Proof.
  intros Hi Hr Hh Hv Hc Hm Hl Hg. pose proof (wh_vcpus h Hh) as [Hlv _].
  destruct (counter_exit i r v h Hi Hr Hh Hv Hc Hm) as (v' & h1 & E & W1 & V1 & G1 & M1 & Eg & C1).
  destruct (rv_hvc i r (r + 1) v v' h h1 hcalls active Hi ltac:(unfold fits; lia) Hv) as (w' & Cp & Eo); try done; try apply C1.
  { rewrite (ct_halted _ _ _ Hc). by destruct (Z.ltb_spec r budget); [|lia]. }
  cbv zeta in Eo. set (h2 := put_w h1 (set_dev (h_w h1) w')) in *.
  assert (h_console h2 = h_console h ++ hvc_text i (r + 1)) as C2 by (transitivity (console w'); [done|]; rewrite Cp; unfold h_console; by rewrite G1).
  destruct (rv_one_ok lk budget tag i (hcalls, active) Hi Hl h Hh) as (res1 & hf & Ef & Wf & _). rewrite Eo in *.
  assert (pc v' = if r + 1 =? 0 then entry else u64 (entry + 16)) as Hpc by (destruct (Z.eqb_spec (r + 1) 0); [lia|apply C1]).
  destruct (Z.leb_spec budget (r + 1)) as [Hfin|Hgo]; injection Ef as <- <-; eexists _, _; (split; [reflexivity|]); (split; [exact Wf|]).
  - split; [cbn; by rewrite V1, list_insert_insert_eq|]. split; [|split; [exact M1|exact C2]].
    split; [exact Hpc|intros _; apply C1|apply C1| |apply C1|apply C1]. cbn. by destruct (Z.ltb_spec (r + 1) budget); [lia|].
  - split; [exact V1|]. split; [|split; [exact M1|exact C2]].
    split; [exact Hpc|intros _; apply C1|apply C1| |apply C1|apply C1]. rewrite (cl_halted _ _ _ C1). by destruct (Z.ltb_spec (r + 1) budget); [|lia].
Qed.

(** ** Rounds *)

(** Both vCPUs have made [r] hypercalls. *)
Definition both (r : Z) (h : hv guest) : Prop :=
  wf_hv h /\ exists v0 v1, h_vcpus h = [v0; v1] /\ counted 0 r v0 /\ counted 1 r v1 /\ code (h_mem h).
Definition round_text (r : Z) : list Z := hvc_text 0 r ++ hvc_text 1 r.

Lemma one_round r (h : hv guest) :
  0 <= r < budget -> both r h ->
  exists h', rv_body lk 2 budget tag ([r; r], 2) h =
      Ok ((true, ([r + 1; r + 1], if budget <=? r + 1 then 0 else 2)), h') /\
    both (r + 1) h' /\ (h_mem h', h_s2 h') = (h_mem h, h_s2 h) /\ h_console h' = h_console h ++ round_text (r + 1).
Proof.
  intros Hr (Hh & v0 & v1 & Ev & C0 & C1 & Hm).
  destruct (count_one 0 r v0 h [r; r] 2 ltac:(lia) Hr Hh) as (v0' & h1 & E1 & W1 & V1 & D1 & M1 & K1); [by rewrite Ev|done|done|done|done|].
  injection M1 as M1 S1.
  rewrite Ev in V1. cbn in V1.
  destruct (count_one 1 r v1 h1 [r + 1; r] (if budget <=? r + 1 then 2 - 1 else 2) ltac:(lia) Hr W1) as (v1' & h2 & E2 & W2 & V2 & D2 & M2 & K2);
    [by rewrite V1|done|by rewrite M1|done|done|]. injection M2 as M2 S2.
  rewrite V1 in V2. cbn in V2. exists h2. split.
  { unfold rv_body. cbn [snd]. change (2 =? 0) with false. cbv iota. cbn [rv_for]. rewrite st_bind_assoc, (st_bind_Ok _ _ _ _ _ E1).
    cbn [Z.to_nat insert list_insert Z.add]. rewrite st_bind_assoc, (st_bind_Ok _ _ _ _ _ E2). by destruct (budget <=? r + 1). }
  split; [split; [done|]; exists v0', v1'; by rewrite M2, M1|]. by rewrite M2, M1, S2, S1, K2, K1, <- app_assoc.
Qed.

Lemma all_rounds k : forall r fuel (h : hv guest),
  0 <= r -> r + Z.of_nat k = budget -> (k < fuel)%nat -> both r h ->
  exists h', loop fuel (rv_body lk 2 budget tag) ([r; r], if budget <=? r then 0 else 2) h = Ok (([budget; budget], 0), h') /\
    both budget h' /\ (h_mem h', h_s2 h') = (h_mem h, h_s2 h) /\ h_console h' = h_console h ++ concat (map round_text (seqZ (r + 1) (Z.of_nat k))).
Proof.
  induction k as [|k IH]; intros r fuel h Hr Hk Hf Hh; (destruct fuel as [|fuel]; [lia|]); cbn [loop].
  - assert (r = budget) as -> by lia. rewrite Z.leb_refl. exists h. rewrite app_nil_r. by split.
  - destruct (Z.leb_spec budget r); [lia|]. destruct (one_round r h ltac:(lia) Hh) as (h1 & E1 & H1 & M1 & K1).
    destruct (IH (r + 1) fuel h1 ltac:(lia) ltac:(lia) ltac:(lia) H1) as (h2 & E2 & H2 & M2 & K2). exists h2.
    rewrite (st_bind_Ok _ _ _ _ _ E1). split; [exact E2|]. split; [done|]. split; [by rewrite M2|].
    rewrite K2, K1, (seqZ_cons (r + 1) (Z.of_nat (S k))) by lia. cbn [map concat]. rewrite <- !app_assoc.
    replace (Z.pred (Z.of_nat (S k))) with (Z.of_nat k) by lia. replace (Z.succ (r + 1)) with (r + 1 + 1) by lia. done.
Qed.

Lemma counters_ready (h : hv guest) :
  wf_hv h -> code (h_mem h) ->
  exists h1, (forall A (k : st (hv guest) A), (init_at lk 0 "guest_counter_entry";; init_at lk 1 "guest_counter_entry";; k) h = k h1) /\
    both 0 h1 /\ (h_mem h1, h_s2 h1) = (h_mem h, h_s2 h) /\ h_console h1 = h_console h.
Proof.
  intros Hh Hm. assert (forall i, 0 <= i < 2 -> total (fun _ => True) (init_at (W := guest) lk i "guest_counter_entry")) as Hi.
  { intros i Hi. apply init_vcpu_total; [done|apply Hlk|apply fits_wrap; lia|apply Hlk]. }
  destruct (Hi 0 ltac:(lia) h Hh) as ([] & h1 & E1 & W1 & _). destruct (Hi 1 ltac:(lia) h1 W1) as ([] & h2 & E2 & W2 & _).
  exists h2. split; [intros A k; by rewrite (st_bind_Ok _ _ _ _ _ E1), (st_bind_Ok _ _ _ _ _ E2)|].
  pose proof (wh_vcpus h Hh) as [Hl _]. pose proof (wh_vcpus h1 W1) as [Hl1 _].
  unfold init_at, init_vcpu, set_vcpu, update in E1, E2.
  rewrite aset_ok in E1 by lia. rewrite aset_ok in E2 by lia. cbn [mbind res_bind] in E1, E2. injection E1 as E1. injection E2 as E2.
  split; [|by rewrite <- E2, <- E1]. split; [done|].  rewrite <- E2, <- E1. cbn [h_vcpus put_vcpus].
  destruct (h_vcpus h) as [|u0 [|u1 [|]]]; unfold len in Hl; cbn in Hl; try lia.
  eexists _, _. split; [reflexivity|]. assert ((0 <? budget) = true) as Hb0 by (apply Z.ltb_lt; lia).
  split; [|split; [|done]]; split; cbn; rewrite ?Hb0; try done; lia.
Qed.

(** Two counting guests that share the processor do not disturb each other.  From
    any well-formed state, the two vCPUs of the round-robin demonstration, each running
    guest_counter_entry, make [budget] hypercalls each and are then halted; the
    scheduler returns; and the console shows, round by round, vCPU 0 and then vCPU 1
    with the same count 1, 2, ..., [budget]: the counter each guest keeps in x20
    survives every world switch. *)
Lemma counters_demo (h : hv guest) fuel :
  wf_hv h -> code (h_mem h) -> (Z.to_nat budget < fuel)%nat ->
  exists h' v0 v1,
    (init_at lk 0 "guest_counter_entry";; init_at lk 1 "guest_counter_entry";; run_vcpus lk fuel 2 budget tag) h =
      Ok (([budget; budget], 0), h') /\ wf_hv h' /\ (h_mem h', h_s2 h') = (h_mem h, h_s2 h) /\
    h_console h' = h_console h ++ concat (map round_text (seqZ 1 budget)) /\
    h_vcpus h' = [v0; v1] /\ Forall (fun v => xregs v !! 20%nat = Some budget /\ halted v = 1) [v0; v1].
Proof.
  intros Hh Hm Hf. destruct (counters_ready h Hh Hm) as (h1 & E1 & H1 & M1 & K1).
  destruct (all_rounds (Z.to_nat budget) 0 fuel h1 ltac:(lia) ltac:(lia) Hf H1) as (h2 & E2 & (W2 & v0 & v1 & Ev & C0 & C1 & _) & M2 & K2).
  exists h2, v0, v1. split.
  { rewrite E1. unfold run_vcpus. change (replicate 2 0) with [0; 0]. change (Z.of_nat 2) with 2.
    destruct (Z.leb_spec budget 0); [lia|exact E2]. }
  split; [done|]. split; [by rewrite M2|]. split; [rewrite K2, K1; do 3 f_equal; rewrite Z2Nat.id by lia; done|]. split; [done|].
  assert (forall i v, counted i budget v -> xregs v !! 20%nat = Some budget /\ halted v = 1) as Hfin.
  { intros i v Hc. split; [by apply Hc; lia|]. by rewrite (ct_halted _ _ _ Hc), Z.ltb_irrefl. }
  repeat (apply Forall_cons; split); [by eapply Hfin..|by apply Forall_nil].
Qed.
End Run.

Definition idle_guest : guest := mk_guest Park 0 0 [] quiet.
Lemma counters_demo_witness :
  exists h' v0 v1,
    (init_at link0 0 "guest_counter_entry";; init_at link0 1 "guest_counter_entry";;
     run_vcpus (PL := counter_platform (counter_run 0x70010000)) link0 4 2 3 "M4") (hv_boot idle_guest) = Ok (([3; 3], 0), h') /\
    h_console h' = line (ln "[M4] vCPU 0 HVC, x0=1" ++ ln "[M4] vCPU 1 HVC, x0=1" ++ ln "[M4] vCPU 0 HVC, x0=2" ++
      ln "[M4] vCPU 1 HVC, x0=2" ++ ln "[M4] vCPU 0 HVC, x0=3" ++ ln "[M4] vCPU 1 HVC, x0=3") /\
    h_vcpus h' = [v0; v1] /\ Forall (fun v => xregs v !! 20%nat = Some 3 /\ halted v = 1) [v0; v1].
Proof.
  destruct (counters_demo link0 "M4" 3 link0_ok ltac:(lia) (counter_run _) (counter_platform_ok _) (fun _ => True)
    ltac:(done) (hv_boot idle_guest) 4 (hv_boot_wf _) I ltac:(lia)) as (h' & v0 & v1 & E & _ & _ & C & V & F).
  exists h', v0, v1. split; [exact E|]. split; [rewrite C; vm_compute; reflexivity|]. by split.
Defined.
