(* ===== verification/Init.v ===== *)
(** The user-space init of the Linux guest (src/guest/init.c): raw system calls, string
    length and the heartbeat loop.  The Linux kernel under it is the interface [Kernel];
    the program's string literals live in its memory, at addresses the linker chose. *)

From S2P Require Import Prelude Machine Uart.

(** A Linux kernel as the program sees it: system call number and three arguments, the
    result and what becomes of the kernel. *)
Class Kernel (W : Type) := { k_syscall : Z -> Z -> Z -> Z -> W -> Z * W }.

Module Init.
Definition SYS_openat := 56.
Definition SYS_write := 64.
Definition SYS_nanosleep := 101.

Definition banner_text : list Z :=
  [LF] ++ bytes "========================================================" ++ [LF] ++
  bytes "  Hello from Linux USERSPACE (PID 1 /init) on FermiHV!" ++ [LF] ++
  bytes "  A from-scratch EL2 hypervisor is hosting this kernel." ++ [LF] ++
  bytes "========================================================" ++ [LF].
Definition beat_text : list Z := bytes "[init] userspace heartbeat on FermiHV" ++ [LF].

Section Program.
Context {W : Type} `{Kernel W}.
(** The process's memory, and the addresses of the literals and of [ts]. *)
Context (m : mem) (banner beat path ts : Z).

Definition syscall3 (n a b c : Z) : st W Z := fun w => Ok (k_syscall n a b c w).

(** [while (s[n]) n++], with [n] a non-negative int. *)
Fixpoint slen_loop (fuel : nat) (s n : Z) : res Z :=
  if rd8 m (s + n) =? 0 then Ok n
  else match fuel with O => Err OutOfFuel | S fuel => slen_loop fuel s (n + 1) end.
Definition slen (fuel : nat) (s : Z) : res Z := slen_loop fuel s 0.

(** [_start] up to its loop: the file descriptor it prints to. *)
Definition start (fuel : nat) : st W Z :=
  fd ← syscall3 SYS_openat (-100) path 1;
  let out := if 0 <=? fd then fd else 1 in
  n ← try_ (fun _ => slen fuel banner);
  syscall3 SYS_write out banner n;;
  mret out.
(** One iteration of [for (;;)], and the first [k] of them. *)
Definition heartbeat (fuel : nat) (out : Z) : st W unit :=
  syscall3 SYS_nanosleep ts 0 0;;
  n ← try_ (fun _ => slen fuel beat);
  syscall3 SYS_write out beat n;;
  mret tt.
Fixpoint heartbeats (fuel k : nat) (out : Z) : st W unit :=
  match k with O => mret tt | S k => heartbeat fuel out;; heartbeats fuel k out end.
Definition _start (fuel k : nat) : st W unit := out ← start fuel; heartbeats fuel k out.
End Program.
End Init.

(** * Theorems *)

(** A C string in memory: its bytes, none of them zero, and a terminating zero. *)
Definition c_string (m : mem) (s : Z) (l : list Z) : Prop :=
  (forall i, 0 <= i < len l -> exists b, l !! Z.to_nat i = Some b /\ rd8 m (s + i) = b /\ b <> 0) /\ rd8 m (s + len l) = 0.

Lemma slen_string m s l fuel :
  c_string m s l -> (length l <= fuel)%nat -> Init.slen m fuel s = Ok (len l).
Proof.
  intros [Hl Hz] Hf. unfold Init.slen.
  assert (forall k fuel n, 0 <= n -> n + Z.of_nat k = len l -> (k <= fuel)%nat -> Init.slen_loop m fuel s n = Ok (len l)) as Hloop.
  { induction k as [|k IH]; intros fl n H0 Hn Hfl.
    - replace n with (len l) by lia. by destruct fl; cbn [Init.slen_loop]; rewrite Hz.
    - destruct (Hl n) as (b & _ & Hb & Hne); [lia|]. destruct fl as [|fl]; [lia|]. cbn [Init.slen_loop]. rewrite Hb.
      destruct (Z.eqb_spec b 0); [done|]. apply IH; lia. }
  apply (Hloop (length l)); unfold len; lia.
Qed.

(** The system calls made, in order. *)
Abbreviation call := (Z * Z * Z * Z)%type.
Definition traced {W} `{Kernel W} : Kernel (W * list call) := {|
  k_syscall n a b c wl := let '(r, w) := k_syscall n a b c wl.1 in (r, (w, wl.2 ++ [(n, a, b, c)])) |}.

Section Trace.
Context {W : Type} `{Kernel W} (m : mem) (banner beat path ts : Z) (fuel : nat).
Context (Hbanner : c_string m banner Init.banner_text) (Hbeat : c_string m beat Init.beat_text).
Context (Hfuel : (length Init.banner_text <= fuel)%nat).
#[local] Existing Instance traced.

Definition beat_calls (out : Z) : list call :=
  [(Init.SYS_nanosleep, ts, 0, 0); (Init.SYS_write, out, beat, len Init.beat_text)].
Definition start_calls (out : Z) : list call :=
  [(Init.SYS_openat, -100, path, 1); (Init.SYS_write, out, banner, len Init.banner_text)].

Lemma traced_call n a b c (w : W) l :
  exists r w', Init.syscall3 n a b c (w, l) = Ok (r, (w', l ++ [(n, a, b, c)])) /\ k_syscall n a b c w = (r, w').
Proof. unfold Init.syscall3. cbn. destruct (k_syscall n a b c w) as [r w']. by exists r, w'. Qed.

Lemma heartbeat_trace out (w : W) l :
  exists w', Init.heartbeat m beat ts fuel out (w, l) = Ok (tt, (w', l ++ beat_calls out)).
Proof.
  assert (Init.slen m fuel beat = Ok (len Init.beat_text)) as Es.
  { apply slen_string; [done|]. transitivity (length Init.banner_text); [vm_compute; lia|done]. }
  destruct (traced_call Init.SYS_nanosleep ts 0 0 w l) as (r1 & w1 & E1 & _).
  destruct (traced_call Init.SYS_write out beat (len Init.beat_text) w1 (l ++ [(Init.SYS_nanosleep, ts, 0, 0)])) as (r2 & w2 & E2 & _).
  exists w2. unfold Init.heartbeat. rewrite (st_bind_Ok _ _ _ _ _ E1). unfold mbind, st_bind, try_. rewrite Es.
  cbn [mbind res_bind]. rewrite E2. by rewrite <- app_assoc.
Qed.
Lemma heartbeats_trace k out : forall (w : W) l,
  exists w', Init.heartbeats m beat ts fuel k out (w, l) = Ok (tt, (w', l ++ concat (replicate k (beat_calls out)))).
Proof.
  induction k as [|k IH]; intros w l; [exists w; by rewrite app_nil_r|]. cbn [Init.heartbeats replicate concat].
  destruct (heartbeat_trace out w l) as (w1 & E1). destruct (IH w1 (l ++ beat_calls out)) as (w2 & E2).
  exists w2. by rewrite (st_bind_Ok _ _ _ _ _ E1), E2, <- app_assoc.
Qed.
Lemma start_trace (w : W) :
  let out := let fd := (k_syscall Init.SYS_openat (-100) path 1 w).1 in if 0 <=? fd then fd else 1 in
  exists w', Init.start m banner path fuel (w, []) = Ok (out, (w', start_calls out)).
Proof.
  intros out. assert (Init.slen m fuel banner = Ok (len Init.banner_text)) as Es by (by apply slen_string).
  destruct (traced_call Init.SYS_openat (-100) path 1 w []) as (fd & w1 & E1 & Efd).
  assert (out = if 0 <=? fd then fd else 1) as Hout by (unfold out; by rewrite Efd).
  destruct (traced_call Init.SYS_write out banner (len Init.banner_text) w1 [(Init.SYS_openat, -100, path, 1)]) as (r2 & w2 & E2 & _).
  exists w2. unfold Init.start. rewrite (st_bind_Ok _ _ _ _ _ E1). cbv zeta. rewrite <- Hout.
  unfold mbind, st_bind, try_. rewrite Es. cbn [mbind res_bind app]. rewrite E2. done.
Qed.

(** C39: init announces itself once and then beats for ever.  Whatever the kernel
    answers, [_start] opens the console, writes the whole banner to the descriptor it
    got (or to standard output when opening failed), and the first [k] iterations of
    its loop are [k] times a sleep and a write of the whole heartbeat line: [slen] ends
    and gives the exact lengths, and no other system call, in particular no exit, is
    ever made. *)
Theorem init_heartbeat (w : W) k :
  let out := let fd := (k_syscall Init.SYS_openat (-100) path 1 w).1 in if 0 <=? fd then fd else 1 in
  exists w', Init._start m banner beat path ts fuel k (w, []) =
    Ok (tt, (w', start_calls out ++ concat (replicate k (beat_calls out)))).
Proof.
  intros out. destruct (start_trace w) as (w1 & E1). fold out in E1. destruct (heartbeats_trace k out w1 (start_calls out)) as (w2 & E2).
  exists w2. unfold Init._start. by rewrite (st_bind_Ok _ _ _ _ _ E1).
Qed.
End Trace.

(** A kernel that answers every call with -1, and the literals in memory. *)
Definition no_kernel : Kernel unit := {| k_syscall _ _ _ _ w := (-1, w) |}.
Fixpoint place (m : mem) (a : Z) (l : list Z) : mem := match l with [] => m | b :: l => place (wr8 m a b) (a + 1) l end.
Definition init_mem : mem := place (place ∅ 0x400000 Init.banner_text) 0x400200 Init.beat_text.
Definition c_string_check (m : mem) (s : Z) (l : list Z) : bool :=
  forallb (fun i => match l !! Z.to_nat i with Some b => (rd8 m (s + i) =? b) && negb (b =? 0) | None => false end) (seqZ 0 (len l)) &&
  (rd8 m (s + len l) =? 0).
Lemma c_string_checked m s l : c_string_check m s l = true -> c_string m s l.
Proof.
  intros [Hc Hz%Z.eqb_eq]%andb_prop. split; [|done]. intros i Hi. rewrite forallb_forall in Hc.
  specialize (Hc i). rewrite <- list_elem_of_In, elem_of_seqZ in Hc. specialize (Hc ltac:(lia)).
  destruct (l !! Z.to_nat i) as [b|]; [|done]. apply andb_prop in Hc as [Hb%Z.eqb_eq Hn%negb_true_iff%Z.eqb_neq]. by exists b.
Qed.
Lemma init_heartbeat_witness :
  exists w', Init._start (H := @traced unit no_kernel) init_mem 0x400000 0x400200 0x400400 0x7fff0000 300 2 (tt, []) =
    Ok (tt, (w', start_calls 0x400000 0x400400 1 ++ concat (replicate 2 (beat_calls 0x400200 0x7fff0000 1)))).
Proof.
  apply (init_heartbeat (H := no_kernel) init_mem 0x400000 0x400200 0x400400 0x7fff0000 300).
  - apply c_string_checked. vm_compute. reflexivity.
  - apply c_string_checked. vm_compute. reflexivity.
  - apply Nat.leb_le. vm_compute. reflexivity.
Defined.
