(* ===== verification/A64.v ===== *)
(** The A64 instructions the tenants' guests of src/src/guest.S are written in: their
    32-bit encodings and the decoder of the processor, the assembler's layout of labels,
    alignment and strings, and execution from memory.  Execution is generic in the memory
    it runs on; GuestRun.v runs it on the physical memory of the machine. *)

From S2P Require Import Prelude Esr Machine.

(** * Instructions

    Registers are numbers, 31 being the zero register; offsets are in bytes; [sf] selects
    the 64-bit form. *)
Inductive a64 :=
| MovZ (sf : bool) (d imm hw : Z)              (* movz rd, #imm, lsl #(16 * hw) *)
| MovK (sf : bool) (d imm hw : Z)              (* movk rd, #imm, lsl #(16 * hw) *)
| OrrR (d n m : Z)                             (* orr xd, xn, xm; mov xd, xm *)
| AddI (d n imm sh : Z)                        (* add xd, xn, #imm, lsl #(12 * sh) *)
| Adr (d off : Z)                              (* adr xd, . + off *)
| LdrbR (t n m : Z)                            (* ldrb wt, [xn, xm] *)
| LdrbP (t n off : Z)                          (* ldrb wt, [xn], #off *)
| LdrI (sz t n off : Z)                        (* ldr of 2^sz bytes from [xn, #off] *)
| StrI (sz t n off : Z)                        (* str of 2^sz bytes to [xn, #off] *)
| CbzW (t off : Z)                             (* cbz wt, . + off *)
| Br (off : Z)                                 (* b . + off *)
| HvcI (imm : Z)                               (* hvc #imm *)
| Wfi | DsbSy | IsbSy | Nop.

#[export] Instance a64_eq_dec : EqDecision a64.
Proof. solve_decision. Defined.

(** * Encoding (Arm ARM, C4 and C6) *)
Definition encode (i : a64) : Z :=
  match i with
  | MovZ sf d imm hw => (if sf then 0xD2800000 else 0x52800000) + hw * 2 ^ 21 + imm * 2 ^ 5 + d
  | MovK sf d imm hw => (if sf then 0xF2800000 else 0x72800000) + hw * 2 ^ 21 + imm * 2 ^ 5 + d
  | OrrR d n m => 0xAA000000 + m * 2 ^ 16 + n * 2 ^ 5 + d
  | AddI d n imm sh => 0x91000000 + sh * 2 ^ 22 + imm * 2 ^ 10 + n * 2 ^ 5 + d
  | Adr d off => 0x10000000 + wrap 2 off * 2 ^ 29 + wrap 19 (off / 4) * 2 ^ 5 + d
  | LdrbR t n m => 0x38606800 + m * 2 ^ 16 + n * 2 ^ 5 + t
  | LdrbP t n off => 0x38400400 + wrap 9 off * 2 ^ 12 + n * 2 ^ 5 + t
  | LdrI sz t n off => 0x39400000 + sz * 2 ^ 30 + off / 2 ^ sz * 2 ^ 10 + n * 2 ^ 5 + t
  | StrI sz t n off => 0x39000000 + sz * 2 ^ 30 + off / 2 ^ sz * 2 ^ 10 + n * 2 ^ 5 + t
  | CbzW t off => 0x34000000 + wrap 19 (off / 4) * 2 ^ 5 + t
  | Br off => 0x14000000 + wrap 26 (off / 4)
  | HvcI imm => 0xD4000002 + imm * 2 ^ 5
  | Wfi => 0xD503207F
  | DsbSy => 0xD5033F9F
  | IsbSy => 0xD5033FDF
  | Nop => 0xD503201F
  end.

(** The operands an instruction can have.  Register 31 as a base or in [add] would be the
    stack pointer, which none of these guests uses. *)
Definition reg (r : Z) : bool := (0 <=? r) && (r <? 32).
Definition low (k z : Z) : bool := (0 <=? z) && (z <? 2 ^ k).
(** Signed numbers of [k + 1] bits. *)
Definition signed (k z : Z) : bool := (- 2 ^ k <=? z) && (z <? 2 ^ k).
Definition a64_ok (i : a64) : bool :=
  match i with
  | MovZ sf d imm hw | MovK sf d imm hw => reg d && low 16 imm && low (if sf then 2 else 1) hw
  | OrrR d n m => reg d && reg n && reg m
  | AddI d n imm sh => low 5 d && low 5 n && (d <? 31) && (n <? 31) && low 12 imm && low 1 sh
  | Adr d off => reg d && signed 20 off
  | LdrbR t n m => reg t && reg n && (n <? 31) && reg m
  | LdrbP t n off => reg t && reg n && (n <? 31) && negb (t =? n) && signed 8 off
  | LdrI sz t n off | StrI sz t n off =>
      low 2 sz && reg t && reg n && (n <? 31) && (off mod 2 ^ sz =? 0) && (0 <=? off) && (off <? 2 ^ sz * 4096)
  | CbzW t off => reg t && (off mod 4 =? 0) && signed 20 off
  | Br off => (off mod 4 =? 0) && signed 27 off
  | HvcI imm => low 16 imm
  | Wfi | DsbSy | IsbSy | Nop => true
  end.

(** * Decoding, by the fields of the word *)
Definition fld (w lo n : Z) : Z := (w / 2 ^ lo) mod 2 ^ n.
(** The value of a field of [k + 1] bits as a signed number. *)
Definition sx (k z : Z) : Z := if z <? 2 ^ k then z else z - 2 * 2 ^ k.

Definition decode (w : Z) : option a64 :=
  let d := fld w 0 5 in
  let n := fld w 5 5 in
  let m := fld w 16 5 in
  let op := fld w 26 3 in
  if op =? 4 then
    if (fld w 24 2 =? 0) && (fld w 31 1 =? 0) then Some (Adr d (sx 20 (fld w 29 2 + 4 * fld w 5 19)))
    else if (fld w 24 2 =? 1) && (fld w 29 3 =? 4) && (fld w 23 1 =? 0) && (d <? 31) && (n <? 31) then
      Some (AddI d n (fld w 10 12) (fld w 22 1))
    else if (fld w 23 3 =? 5) && ((fld w 31 1 =? 1) || (fld w 22 1 =? 0)) then
      if fld w 29 2 =? 2 then Some (MovZ (fld w 31 1 =? 1) d (fld w 5 16) (fld w 21 2))
      else if fld w 29 2 =? 3 then Some (MovK (fld w 31 1 =? 1) d (fld w 5 16) (fld w 21 2))
      else None
    else None
  else if op =? 2 then
    if (fld w 21 11 =? 0x550) && (fld w 10 6 =? 0) then Some (OrrR d n m) else None
  else if op =? 6 then
    if n =? 31 then None
    else if (fld w 24 6 =? 0x39) then
      if fld w 22 2 =? 0 then Some (StrI (fld w 30 2) d n (fld w 10 12 * 2 ^ fld w 30 2))
      else if fld w 22 2 =? 1 then Some (LdrI (fld w 30 2) d n (fld w 10 12 * 2 ^ fld w 30 2))
      else None
    else if (fld w 21 11 =? 0x1C3) && (fld w 10 6 =? 26) then Some (LdrbR d n m)
    else if (fld w 21 11 =? 0x1C2) && (fld w 10 2 =? 1) && negb (d =? n) then Some (LdrbP d n (sx 8 (fld w 12 9)))
    else None
  else if op =? 5 then
    if fld w 29 3 =? 0 then Some (Br (4 * sx 25 (fld w 0 26)))
    else if fld w 24 8 =? 0x34 then Some (CbzW d (4 * sx 18 (fld w 5 19)))
    else if (fld w 21 11 =? 0x6A0) && (d =? 2) then Some (HvcI (fld w 5 16))
    else if w =? 0xD503207F then Some Wfi
    else if w =? 0xD5033F9F then Some DsbSy
    else if w =? 0xD5033FDF then Some IsbSy
    else if w =? 0xD503201F then Some Nop
    else None
  else None.

(** ** Decoding inverts encoding *)

(** Facts about the fields of a word, from its value. *)
Ltac fields := unfold fld, wrap, fits in *; Z.to_euclidean_division_equations; lia.
Ltac decode_step :=
  match goal with
  | |- context [if ?b then _ else _] =>
      let E := fresh in
      first [ assert (b = true) as E by fields | assert (b = false) as E by fields ]; rewrite E; clear E
  end.
Ltac access_size w :=
  try (let k := match goal with |- _ = Some (LdrI ?k _ _ _) => k | |- _ = Some (StrI ?k _ _ _) => k end in
       replace (fld w 30 2) with k by fields).
Ltac decoded :=
  match goal with
  | |- decode (encode ?i) = _ /\ _ =>
      let w := fresh "w" in let E := fresh in
      pose (w := encode i); assert (w = encode i) as E by reflexivity; cbn [encode] in E; fold w; clearbody w;
      split; [unfold decode; cbv zeta; repeat decode_step; access_size w; do 2 f_equal; unfold sx|];
      try (match goal with |- context [if ?b then _ else _] => destruct b eqn:? end); fields
  end.

(** The processor decodes what the assembler encodes: every instruction with
    operands in range has a 32-bit encoding, and decoding it gives the instruction back,
    so no two of them share an encoding. *)
Lemma decode_encode i : a64_ok i = true -> decode (encode i) = Some i /\ fits 32 (encode i).
Proof.
  destruct i as [[] d imm hw|[] d imm hw|d n m|d n imm sh|d off|t n m|t n off|sz t n off|sz t n off|t off|off|imm| | | |];
    cbn [a64_ok]; unfold reg, low, signed; intros Hok.
  10-11: assert (sz = 0 \/ sz = 1 \/ sz = 2 \/ sz = 3) as Hsz by lia; destruct Hsz as [ -> |[ -> |[ -> | -> ]]].
  all: decoded.
Qed.
Lemma decode_encode_witness :
  decode (encode (StrI 2 0 5 0x3c)) = Some (StrI 2 0 5 0x3c) /\ fits 32 (encode (StrI 2 0 5 0x3c)) /\
  encode (StrI 2 0 5 0x3c) = 0xB9003CA0.
Proof. destruct (decode_encode (StrI 2 0 5 0x3c) eq_refl) as [H1 H2]. split; [exact H1|]. split; [exact H2|reflexivity]. Defined.

(** * Assembly

    Lines of a source file: labels, instructions, instructions that refer to a label by
    its distance, words of instructions encoded elsewhere, .balign and .asciz. *)
Inductive asm_line :=
| Lbl (l : string)
| Ins (i : a64)
| Ref (l : string) (f : Z -> a64)
| Word (w : Z)
| Balign (n : Z)
| Asciz (s : list Z).

(** The layout depends on the address of the first line, [a]; [o] is the offset from it. *)
Definition line_size (a o : Z) (x : asm_line) : Z :=
  match x with Lbl _ => 0 | Ins _ | Ref _ _ | Word _ => 4 | Balign n => (- (a + o)) mod n | Asciz s => len s + 1 end.
Fixpoint labels (a o : Z) (p : list asm_line) : list (string * Z) :=
  match p with
  | [] => []
  | x :: p => match x with Lbl l => [(l, o)] | _ => [] end ++ labels a (o + line_size a o x) p
  end.
Fixpoint find_label (l : string) (t : list (string * Z)) : option Z :=
  match t with [] => None | (l', o) :: t => if decide (l = l') then Some o else find_label l t end.

Definition bytes_of (w : Z) : list Z := [u8 w; u8 (w / 2 ^ 8); u8 (w / 2 ^ 16); u8 (w / 2 ^ 24)].
(** Padding of code: zero bytes up to a word boundary, then [nop]s. *)
Definition padding (n : Z) : list Z :=
  replicate (Z.to_nat (n mod 4)) 0 ++ concat (replicate (Z.to_nat (n / 4)) (bytes_of (encode Nop))).
Fixpoint emit_lines (a o : Z) (t : list (string * Z)) (p : list asm_line) : option (list Z) :=
  match p with
  | [] => Some []
  | x :: p =>
      b ← match x with
          | Lbl _ => Some []
          | Ins i => if a64_ok i then Some (bytes_of (encode i)) else None
          | Ref l f => o' ← find_label l t; if a64_ok (f (o' - o)) then Some (bytes_of (encode (f (o' - o)))) else None
          | Word w => if low 32 w then Some (bytes_of w) else None
          | Balign n => Some (padding (line_size a o x))
          | Asciz s => Some (s ++ [0])
          end;
      r ← emit_lines a (o + line_size a o x) t p;
      Some (b ++ r)
  end.
Definition assemble (a : Z) (p : list asm_line) : option (list Z) := emit_lines a 0 (labels a 0 p) p.

(** The layout depends on the address of the first line only as far as alignment goes. *)
Definition aligns (k : Z) (x : asm_line) : bool := match x with Balign n => (0 <? n) && (k mod n =? 0) | _ => true end.
Lemma line_size_mod k a o x : 0 < k -> aligns k x = true -> line_size (a mod k) o x = line_size a o x.
Proof.
  intros H0. destruct x as [| | | |n|]; try done. cbn. rewrite andb_true_iff, Z.ltb_lt, Z.eqb_eq. intros [Hn Hk].
  rewrite (Z.mod_eq a k) by lia. rewrite (Z.div_mod k n) at 1 by lia. rewrite Hk, Z.add_0_r.
  replace (- (a - n * (k / n) * (a / k) + o)) with (- (a + o) + k / n * (a / k) * n) by ring. by rewrite Z.mod_add by lia.
Qed.
Lemma labels_mod k a p : 0 < k -> forallb (aligns k) p = true -> forall o, labels (a mod k) o p = labels a o p.
Proof.
  intros H0. induction p as [|x p IH]; intros Hp o; [done|]. cbn [forallb labels] in *. apply andb_prop in Hp as [Hx Hp].
  by rewrite line_size_mod, IH.
Qed.
Lemma assemble_mod k a p : 0 < k -> forallb (aligns k) p = true -> assemble (a mod k) p = assemble a p.
Proof.
  intros H0 Hp. unfold assemble. rewrite labels_mod by done. generalize (labels a 0 p) as t. intros t. generalize 0 as o. revert Hp.
  induction p as [|x p IH]; intros Hp o; [done|]. cbn [forallb emit_lines] in *. apply andb_prop in Hp as [Hx Hp].
  by rewrite line_size_mod, IH.
Qed.

(** * Execution *)

(** General-purpose registers. *)
Definition gx (g : list Z) (r : Z) : Z := if r =? 31 then 0 else nth (Z.to_nat r) g 0.
Definition gw (r v : Z) (g : list Z) : list Z := if r =? 31 then g else <[Z.to_nat r := u64 v]> g.

(** What one instruction does: go on at [pc], leave EL1 with a syndrome (for an abort
    with the faulting address) and the address to return to, or nothing this model gives a
    meaning to. *)
Inductive outcome (M : Type) :=
| Go (pc : Z) (g : list Z) (m : M)
| Leave (elr esr : Z) (far : option Z) (g : list Z) (m : M)
| Lost.
Arguments Go {M}. Arguments Leave {M}. Arguments Lost {M}.

(** The syndromes of the Arm architecture.  Only accesses without write-back describe
    themselves (ISV = 1); the fault is a stage-2 translation fault at level 1. *)
Definition esr_hvc64 (imm : Z) : Z := mk_esr EC_HVC64 1 imm.
Definition esr_fetch : Z := mk_esr EC_IABT_LOW 1 5.
Definition esr_access (isv sas srt sf wnr : Z) : Z :=
  mk_esr EC_DABT_LOW 1 (if isv =? 1 then mk_dabt_iss 1 sas 0 srt sf 0 0 wnr 5 else mk_dabt_iss 0 0 0 0 0 0 0 wnr 5).

Section Exec.
(** Memory by physical address, and the translation of the guest's addresses. *)
Context {M : Type} (ld : nat -> Z -> M -> option Z) (st : nat -> Z -> Z -> M -> option M) (xl : Z -> option Z).

(** An access of [n] bytes at [va], all in one translated range. *)
Definition phys (n : nat) (va : Z) : option Z :=
  match xl va with
  | Some pa => if decide (xl (va + Z.of_nat n - 1) = Some (pa + Z.of_nat n - 1)) then Some pa else None
  | None => None
  end.
Definition access_load (n : nat) (va : Z) (syn : Z) (pc : Z) (g : list Z) (m : M) (k : Z -> list Z) : outcome M :=
  match xl va with
  | None => Leave pc syn (Some va) g m
  | Some _ => match (pa ← phys n va; ld n pa m) with Some v => Go (u64 (pc + 4)) (k v) m | None => Lost end
  end.
Definition access_store (n : nat) (va v : Z) (syn : Z) (pc : Z) (g : list Z) (m : M) : outcome M :=
  match xl va with
  | None => Leave pc syn (Some va) g m
  | Some _ => match (pa ← phys n va; st n pa v m) with Some m => Go (u64 (pc + 4)) g m | None => Lost end
  end.

Definition a64_exec (i : a64) (pc : Z) (g : list Z) (m : M) : outcome M :=
  let next g := Go (u64 (pc + 4)) g m in
  let mask sf v := if sf : bool then v else u32 v in
  match i with
  | MovZ sf d imm hw => next (gw d (imm * 2 ^ (16 * hw)) g)
  | MovK sf d imm hw =>
      let v := gx g d in
      next (gw d (mask sf (v - fld v (16 * hw) 16 * 2 ^ (16 * hw) + imm * 2 ^ (16 * hw))) g)
  | OrrR d n m => next (gw d (gx g n .| gx g m) g)
  | AddI d n imm sh => next (gw d (gx g n + imm * 2 ^ (12 * sh)) g)
  | Adr d off => next (gw d (pc + off) g)
  | LdrbR t n m' => access_load 1 (u64 (gx g n + gx g m')) (esr_access 1 0 t 0 0) pc g m (fun v => gw t v g)
  | LdrbP t n off =>
      access_load 1 (gx g n) (esr_access 0 0 t 0 0) pc g m (fun v => gw t v (gw n (gx g n + off) g))
  | LdrI sz t n off =>
      access_load (Z.to_nat (2 ^ sz)) (u64 (gx g n + off)) (esr_access 1 sz t (sz / 3) 0) pc g m (fun v => gw t v g)
  | StrI sz t n off =>
      access_store (Z.to_nat (2 ^ sz)) (u64 (gx g n + off)) (gx g t) (esr_access 1 sz t (sz / 3) 1) pc g m
  | CbzW t off => Go (u64 (if u32 (gx g t) =? 0 then pc + off else pc + 4)) g m
  | Br off => Go (u64 (pc + off)) g m
  | HvcI imm => Leave (u64 (pc + 4)) (esr_hvc64 imm) None g m
  | Wfi | DsbSy | IsbSy | Nop => next g
  end.

Definition a64_step (pc : Z) (g : list Z) (m : M) : outcome M :=
  if negb (pc mod 4 =? 0) then Lost
  else match xl pc with
       | None => Leave pc esr_fetch (Some pc) g m
       | Some pa =>
           match (w ← ld 4 pa m; decode w) with Some i => a64_exec i pc g m | None => Lost end
       end.

(** Up to [q] instructions: where the guest stands then, and how it left, if it did. *)
Fixpoint a64_run (q : nat) (pc : Z) (g : list Z) (m : M) : Z * list Z * M * option (Z * option Z) :=
  match q with
  | O => (pc, g, m, None)
  | S q =>
      match a64_step pc g m with
      | Go pc g m => a64_run q pc g m
      | Leave elr esr far g m => (elr, g, m, Some (esr, far))
      | Lost => (pc, g, m, None)
      end
  end.
End Exec.
