(* ===== verification/GuestRun.v ===== *)
(** Guests that run from memory.

    The machine of this file executes what is in guest RAM: instruction words are fetched
    through stage 2 from physical memory, decoded and executed by A64.v.  A guest image
    copied to a VM's block is therefore run byte by byte as it was copied.  To compute
    with such runs although most of memory is unknown, the same interpreter is also run on
    a record of the guest's own stores over its image, and the two are related. *)

From S2P Require Import Prelude Esr Machine Vcpu Asm World Stage2 Uart Vvirtio Vblk Hv GuestProg A64.

(** * The machine *)
Definition m_ld (n : nat) (a : Z) (m : mem) : option Z := Some (load n m a).
Definition m_st (n : nat) (a v : Z) (m : mem) : option mem := Some (store n m a v).

Section Machine.
(** How many instructions a guest may execute before a physical interrupt takes the
    processor from it, and the stage-2 translation VTTBR_EL2 selects. *)
Context (quantum : nat) (xlate : Z -> Z -> option Z).

(** The guest runs with its stage-1 MMU off; a guest that turned it on is beyond this
    machine. *)
Definition asm_guest (c : cpu) (m : mem) (g : guest) : Z * cpu * mem * guest :=
  if Z.testbit (rd_sysreg "sctlr_el1" c) 0 then (9, c, m, g)
  else
    let '(pc, x, m, e) := a64_run m_ld m_st (xlate (rd_sysreg "vttbr_el2" c)) quantum (rd_sysreg "elr_el2" c) (gp c) m in
    let c := set_gp (wr_sysreg "elr_el2" (u64 pc) c) x in
    match e with
    | None => (9, c, m, g)
    | Some (esr, None) => (8, wr_sysreg "esr_el2" (u64 esr) c, m, g)
    | Some (esr, Some va) =>
        (8, msr_all [("esr_el2", u64 esr); ("far_el2", u64 va); ("hpfar_el2", u64 ((va ≫ 12) ≪ 4))]%string c, m, g)
    end.
Definition asm_platform : Platform guest := dev_platform asm_guest.
End Machine.

(** * It is a platform *)
Definition regs_ok (g : list Z) : Prop := length g = 31%nat /\ Forall (fits 64) g.
Lemma gw_ok r v g : regs_ok g -> regs_ok (gw r v g).
Proof.
  intros [Hl HF]. unfold gw. case_match; [done|]. split; [by rewrite length_insert|]. apply Forall_insert; [done|apply fits_wrap; lia].
Qed.

Section RegsOk.
Context {M : Type} (ld : nat -> Z -> M -> option Z) (st : nat -> Z -> Z -> M -> option M) (xl : Z -> option Z).
Definition outcome_regs (o : outcome M) : option (list Z) :=
  match o with Go _ g _ | Leave _ _ _ g _ => Some g | Lost => None end.
Lemma step_regs pc g m g' : regs_ok g -> outcome_regs (a64_step ld st xl pc g m) = Some g' -> regs_ok g'.
Proof.
  intros Hg. unfold a64_step, a64_exec, access_load, access_store. cbv zeta.
  repeat case_match; cbn [outcome_regs]; intros [= <-]; auto using gw_ok.
Qed.
Lemma run_regs q : forall pc g m, regs_ok g -> regs_ok (a64_run ld st xl q pc g m).1.1.2.
Proof.
  induction q as [|q IH]; intros pc g m Hg; [done|]. cbn [a64_run].
  pose proof (step_regs pc g m) as Hs. destruct (a64_step ld st xl pc g m) as [pc' g' m'|elr esr far g' m'|]; cbn in *; [|by eapply Hs|done].
  apply IH. by eapply Hs.
Qed.
End RegsOk.

Lemma asm_platform_ok quantum xlate : @PlatformOk guest (asm_platform quantum xlate).
Proof.
  apply dev_platform_ok; intros c m g; unfold asm_guest.
  - repeat case_match; cbn; lia.
  - intros Hc. pose proof Hc as (H1 & H2 & _). case_match; [done|].
    pose proof (run_regs m_ld m_st (xlate (rd_sysreg "vttbr_el2" c)) quantum (rd_sysreg "elr_el2" c) (gp c) m (conj H1 H2)) as [L F].
    destruct (a64_run _ _ _ _ _ _ _) as [[[pc x] m'] e]. cbn [fst snd] in L, F.
    assert (wf_cpu (set_gp (wr_sysreg "elr_el2" (u64 pc) c) x)) as Hc'
      by (apply set_gp_wf; [done|done|apply wf_wr_sysreg; [apply fits_wrap; lia|done]]).
    repeat case_match; cbn [fst snd msr_all]; [|by apply wf_wr_sysreg; [apply fits_wrap; lia|]|done].
    by repeat (apply wf_wr_sysreg; [apply fits_wrap; lia|]).
  - intros r Hr. assert (Forall (fun r' => r <> r') ["esr_el2"; "far_el2"; "hpfar_el2"; "elr_el2"]%string) as HF.
    { by repeat (apply Forall_cons; split; [apply not_private; [done|vm_compute; reflexivity]|]). }
    rewrite !Forall_cons in HF. destruct HF as (?&?&?&?&_).
    case_match; [done|]. destruct (a64_run _ _ _ _ _ _ _) as [[[pc x] m'] e].
    repeat case_match; cbn [fst snd msr_all]; rewrite ?rd_wr_ne by done; rewrite ?rd_set_gp; by rewrite ?rd_wr_ne by done.
Qed.

(** * One interpreter, two memories *)
Section Simulation.
Context {M N : Type} (ld1 : nat -> Z -> M -> option Z) (st1 : nat -> Z -> Z -> M -> option M) (xl1 : Z -> option Z).
Context (ld2 : nat -> Z -> N -> option Z) (st2 : nat -> Z -> Z -> N -> option N) (xl2 : Z -> option Z) (R : M -> N -> Prop).
Context (Hld : forall n a m m2 v, R m m2 -> ld1 n a m = Some v -> ld2 n a m2 = Some v).
Context (Hst : forall n a v m m2 m', R m m2 -> st1 n a v m = Some m' -> exists m2', st2 n a v m2 = Some m2' /\ R m' m2').
Context (Hxl : forall a, xl1 a = xl2 a).

Definition simulates (o1 : outcome M) (o2 : outcome N) : Prop :=
  match o1 with
  | Go pc g m => exists m2, o2 = Go pc g m2 /\ R m m2
  | Leave elr esr far g m => exists m2, o2 = Leave elr esr far g m2 /\ R m m2
  | Lost => True
  end.
Lemma phys_eq n va : phys xl2 n va = phys xl1 n va.
Proof. unfold phys. by rewrite !Hxl. Qed.
Lemma access_load_sim n va syn pc g m m2 k :
  R m m2 -> simulates (access_load ld1 xl1 n va syn pc g m k) (access_load ld2 xl2 n va syn pc g m2 k).
Proof.
  intros HR. unfold access_load. rewrite Hxl, phys_eq. destruct (xl2 va); [|by eexists].
  destruct (phys xl1 n va) as [pa|]; [|done]. cbn [mbind option_bind].
  destruct (ld1 n pa m) as [v|] eqn:E; [|done]. rewrite (Hld _ _ _ _ _ HR E). by eexists.
Qed.
Lemma access_store_sim n va v syn pc g m m2 :
  R m m2 -> simulates (access_store st1 xl1 n va v syn pc g m) (access_store st2 xl2 n va v syn pc g m2).
Proof.
  intros HR. unfold access_store. rewrite Hxl, phys_eq. destruct (xl2 va); [|by eexists].
  destruct (phys xl1 n va) as [pa|]; [|done]. cbn [mbind option_bind].
  destruct (st1 n pa v m) as [m'|] eqn:E; [|done]. destruct (Hst _ _ _ _ _ _ HR E) as (m2' & -> & HR'). by eexists.
Qed.
Lemma step_sim pc g m m2 : R m m2 -> simulates (a64_step ld1 st1 xl1 pc g m) (a64_step ld2 st2 xl2 pc g m2).
Proof.
  intros HR. unfold a64_step. rewrite Hxl. case_match; [done|]. destruct (xl2 pc) as [pa|]; [|by eexists].
  destruct (ld1 4%nat pa m) as [w|] eqn:E; [|done]. rewrite (Hld _ _ _ _ _ HR E). cbn [mbind option_bind].
  destruct (decode w) as [i|]; [|done].
  destruct i; cbn [a64_exec]; cbv zeta; auto using access_load_sim, access_store_sim; by eexists.
Qed.
Lemma run_sim q : forall q' pc g m m2 elr g' m' e,
  (q <= q')%nat -> R m m2 -> a64_run ld1 st1 xl1 q pc g m = (elr, g', m', Some e) ->
  exists m2', a64_run ld2 st2 xl2 q' pc g m2 = (elr, g', m2', Some e) /\ R m' m2'.
Proof.
  induction q as [|q IH]; intros q' pc g m m2 elr g' m' e Hq HR E; [done|]. destruct q' as [|q']; [lia|]. cbn [a64_run] in *.
  pose proof (step_sim pc g m m2 HR) as Hs. destruct (a64_step ld1 st1 xl1 pc g m) as [pc1 g1 m1|elr1 esr far g1 m1|]; [| |done].
  - destruct Hs as (m3 & -> & HR1). by eapply IH; [lia| |].
  - destruct Hs as (m3 & -> & HR1). injection E as <- <- <- <-. by eexists.
Qed.
End Simulation.

(** * Runs over an image

    The bytes [img] at the physical address [b], and what the guest has stored since. *)
Section Trace.
Context (b : Z) (img : list Z).

Fixpoint le (l : list Z) : Z := match l with [] => 0 | x :: l => x + 2 ^ 8 * le l end.
Definition SPACE := 2 ^ 48.
Definition t_ld (n : nat) (a : Z) (w : list cell) : option Z :=
  if (b <=? a) && (a + Z.of_nat n <=? b + len img) then Some (le (take n (drop (Z.to_nat (a - b)) img)))
  else if within SPACE (a, n, 0) then Asm.written a n w None else None.
Definition t_st (n : nat) (a v : Z) (w : list cell) : option (list cell) :=
  if within SPACE (a, n, v) && Asm.apart b (length img) (a, n, v) && (0 <=? v) && (v <? 2 ^ (8 * Z.of_nat n))
  then Some (w ++ [(a, n, v)]) else None.

(** [m] holds the image. *)
Definition image_at (m : mem) : Prop := mem_bytes m b (length img) = img.
Definition trace_ok (w : list cell) : Prop :=
  forallb (within SPACE) w = true /\ Forall fit_cell w /\ forallb (Asm.apart b (length img)) w = true.

Lemma load_le n : forall m a, load n m a = le (mem_bytes m a n).
Proof. induction n as [|n IH]; intros m a; [done|]. cbn [load mem_bytes le]. by rewrite IH. Qed.
Lemma mem_bytes_sub m k : forall n i a, (i + n <= k)%nat -> mem_bytes m (a + Z.of_nat i) n = take n (drop i (mem_bytes m a k)).
Proof.
  induction k as [|k IH]; intros n i a Hk.
  { assert (i = 0 /\ n = 0)%nat as [-> ->] by lia. done. }
  destruct i as [|i].
  - change (Z.of_nat 0) with 0. rewrite drop_0, Z.add_0_r. clear IH. revert a k Hk. induction n as [|n IH]; intros a k Hk; [done|].
    cbn [mem_bytes take]. f_equal. destruct k as [|k]; [destruct n; [done|lia]|]. apply IH. lia.
  - cbn [mem_bytes drop]. rewrite <- IH by lia. f_equal. lia.
Qed.

Context (Hb : 0 <= b) (Hend : b + len img <= SPACE).

Lemma image_apart a n w :
  trace_ok w -> b <= a -> a + Z.of_nat n <= b + len img -> forallb (Asm.apart a n) w = true.
Proof.
  intros (_ & _ & Ha) H1 H2. rewrite forallb_forall in *. intros [[o k] x] Hx. specialize (Ha _ Hx). unfold Asm.apart in *.
  unfold len in *. lia.
Qed.
Lemma t_ld_sound m0 n a w v :
  image_at m0 -> trace_ok w -> t_ld n a w = Some v -> load n (stores m0 0 w) a = v.
Proof.
  intros Hi Hw. pose proof Hw as (Hw1 & Hw2 & _). unfold t_ld.
  destruct (Z.leb_spec b a), (Z.leb_spec (a + Z.of_nat n) (b + len img)); cbn [andb].
  1: { intros [= <-]. rewrite <- (Z.add_0_l a) at 1.
    rewrite (load_stores_out 0 SPACE); [|unfold SPACE; lia|unfold within; lia|done|by apply image_apart].
    rewrite Z.add_0_l, load_le, <- Hi. f_equal. unfold len in *. rewrite <- mem_bytes_sub by lia. f_equal. lia. }
  all: destruct (within SPACE (a, n, 0)) eqn:Ew; [|done]; intros E; rewrite <- (Z.add_0_l a);
    apply (load_written 0 SPACE ltac:(unfold SPACE; lia) a n w m0 None v); done.
Qed.
Lemma t_st_sound m0 n a v w w' :
  trace_ok w -> t_st n a v w = Some w' -> trace_ok w' /\ stores m0 0 w' = store n (stores m0 0 w) a v.
Proof.
  intros (H1 & H2 & H3). unfold t_st. destruct (_ && _) eqn:E; [|done]. intros [= <-].
  rewrite !andb_true_iff, Z.leb_le, Z.ltb_lt in E. destruct E as (((E1 & E2) & E3) & E4). split.
  - split; [by rewrite forallb_app, H1; cbn [forallb]; rewrite andb_true_r|]. split.
    + apply Forall_app. split; [done|]. apply Forall_singleton. split; lia.
    + by rewrite forallb_app, H3; cbn [forallb]; rewrite andb_true_r.
  - by rewrite stores_app.
Qed.

Lemma trace_ok_app w1 w2 : trace_ok w1 -> trace_ok w2 -> trace_ok (w1 ++ w2).
Proof.
  intros (A1 & A2 & A3) (B1 & B2 & B3). split; [by rewrite forallb_app, A1, B1|]. split; [by apply Forall_app|].
  by rewrite forallb_app, A3, B3.
Qed.
Lemma trace_ok_nil : trace_ok [].
Proof. split; [done|]. split; [by apply Forall_nil|done]. Qed.

(** A run over the image is a run on every memory that holds it. *)
Lemma trace_run m0 q q' xl1 xl2 pc g elr g' w e :
  (q <= q')%nat -> (forall a, xl1 a = xl2 a) -> image_at m0 ->
  a64_run t_ld t_st xl1 q pc g [] = (elr, g', w, Some e) ->
  a64_run m_ld m_st xl2 q' pc g m0 = (elr, g', stores m0 0 w, Some e) /\ trace_ok w.
Proof.
  intros Hq Hx Hi E. pose proof (run_sim t_ld t_st xl1 m_ld m_st xl2 (fun w m => trace_ok w /\ m = stores m0 0 w)) as Hs.
  destruct (Hs) with (q' := q') (m2 := m0) (m' := w) (m := @nil cell) (4 := Hq) (6 := E) as (m2 & E2 & Hw & ->); [|..|done].
  - intros n a w1 m2 v [Hw ->] El. unfold m_ld. f_equal. by apply t_ld_sound.
  - intros n a v w1 m2 w1' [Hw ->] Es. destruct (t_st_sound m0 n a v w1 w1' Hw Es) as [Hw' Em].
    eexists. split; [reflexivity|]. split; [done|]. by rewrite Em.
  - done.
  - split; [apply trace_ok_nil|done].
Qed.
End Trace.

(** * A run of a vCPU whose guest is an image *)

(** The vCPU after an exit, given what it was entered with. *)
Record exited (v v' : vcpu) (elr esr : Z) (far : option Z) (x : list Z) : Prop := {
  ex_wf : wf_vcpu v';
  ex_x : xregs v' = x;
  ex_pc : pc v' = u64 elr;
  ex_reason : exit_reason v' = 8;
  ex_esr : exit_esr v' = u64 esr;
  ex_ipa va : far = Some va -> fits 48 va -> exit_ipa v' = va;
  ex_key : vcpu_key v' = vcpu_key v;
  ex_mmu : mmu_of_vcpu v' = mmu_of_vcpu v;
  ex_halted : halted v' = halted v
}.

Section Exits.
Context (quantum : nat) (xlate : Z -> Z -> option Z) (lk : link).
#[local] Instance asm_pl : Platform guest := asm_platform quantum xlate.
#[local] Instance asm_ok : PlatformOk guest := asm_platform_ok quantum xlate.

(** The processor as the guest leaves it. *)
Definition left_cpu (elr esr : Z) (far : option Z) (x : list Z) (c : cpu) : cpu :=
  let c := set_gp (wr_sysreg "elr_el2" (u64 elr) c) x in
  match far with
  | None => wr_sysreg "esr_el2" (u64 esr) c
  | Some va => msr_all [("esr_el2", u64 esr); ("far_el2", u64 va); ("hpfar_el2", u64 ((va ≫ 12) ≪ 4))]%string c
  end.
Lemma left_cpu_state elr esr far x c :
  let c' := left_cpu elr esr far x c in
  gp c' = x /\ rd_sysreg "elr_el2" c' = u64 elr /\ rd_sysreg "esr_el2" c' = u64 esr /\ mmu_of_cpu c' = mmu_of_cpu c /\
  (forall va, far = Some va -> rd_sysreg "far_el2" c' = u64 va /\ rd_sysreg "hpfar_el2" c' = u64 ((va ≫ 12) ≪ 4)).
Proof.
  cbv zeta. unfold left_cpu, mmu_of_cpu. destruct far as [va|]; cbn [msr_all]; repeat (sysreg; rewrite ?rd_set_gp);
    (do 4 (split; [done|])); [|done].
  intros va' [= <-]. repeat (sysreg; rewrite ?rd_set_gp). done.
Qed.
Lemma hpfar_fits va : fits 48 va -> fits 64 ((va ≫ 12) ≪ 4).
Proof. unfold fits. rewrite Z.shiftl_mul_pow2, Z.shiftr_div_pow2 by lia. intros. zlia. Qed.

Lemma guest_leaves i (h : hv guest) v elr x m esr far :
  0 <= i < 2 -> wf_hv h -> aget (h_vcpus h) i = Ok v -> m_sctlr (mmu_of_vcpu v) = SCTLR_EL1_RESET ->
  a64_run m_ld m_st (xlate (vttbr v)) quantum (pc v) (xregs v) (h_mem h) = (elr, x, m, Some (esr, far)) ->
  exists v' c, let h1 := ran h i v' c m (h_w h) in
    run_once lk i h = Ok (tt, h1) /\ wf_hv h1 /\ get_vcpu i h1 = Ok (v', h1) /\ exited v v' elr esr far x.
Proof.
  intros Hi Hh Hv Hs Er.
  destruct (run_once_under lk i h v 8 (left_cpu elr esr far x) m (h_w h))
    as (c1 & v' & c3 & Hc1 & H1 & Ero & W1 & Wv & H2 & Hk & Hxit & Eg & _); [done|done|done| |].
  { intros c Hc HT _. cbn [pl_guest asm_pl asm_platform dev_platform]. unfold asm_guest.
    assert (rd_sysreg "sctlr_el1" c = SCTLR_EL1_RESET) as -> by (rewrite <- Hs, <- (holds_mmu _ _ Hc); done).
    change (Z.testbit SCTLR_EL1_RESET 0) with false. cbv iota. rewrite (holds_elr _ _ Hc), (proj1 Hc), HT, Er.
    unfold left_cpu. by destruct far. }
  destruct (left_cpu_state elr esr far x c1) as (L1 & L2 & L3 & L4 & L5).
  exists v', c3. cbv zeta. split; [exact Ero|]. split; [exact W1|]. split; [exact Eg|].
  unfold exit_of in Hxit. injection Hxit as X1 X2 X3 X4. injection Hk as K1 K2 K3 K4. split.
  - exact Wv.
  - by rewrite <- (proj1 H2).
  - by rewrite <- (holds_elr _ _ H2).
  - done.
  - by rewrite X2.
  - intros va Hf Hva. destruct (L5 va Hf) as [F1 F2]. unfold exit_ipa. rewrite X3, X4, F1, F2.
    rewrite (wrap_fits 64 va), (wrap_fits 64 (_ ≪ _)) by (try apply hpfar_fits; try done; by apply (fits_mono 48)).
    by apply fault_ipa_correct.
  - unfold vcpu_key. congruence.
  - by rewrite <- (holds_mmu _ _ H2), L4, (holds_mmu _ _ H1).
  - exact K4.
Qed.
(** The same for a run computed on the image. *)
Lemma guest_exits i (h : hv guest) v b img xl1 q elr x w esr far :
  0 <= i < 2 -> wf_hv h -> aget (h_vcpus h) i = Ok v -> m_sctlr (mmu_of_vcpu v) = SCTLR_EL1_RESET ->
  (forall a, xl1 a = xlate (vttbr v) a) -> (q <= quantum)%nat -> 0 <= b -> b + len img <= SPACE -> image_at b img (h_mem h) ->
  a64_run (t_ld b img) (t_st b img) xl1 q (pc v) (xregs v) [] = (elr, x, w, Some (esr, far)) ->
  exists v' c, let h1 := ran h i v' c (stores (h_mem h) 0 w) (h_w h) in
    run_once lk i h = Ok (tt, h1) /\ wf_hv h1 /\ get_vcpu i h1 = Ok (v', h1) /\ exited v v' elr esr far x /\ trace_ok b img w.
Proof.
  intros Hi Hh Hv Hs Hx Hq Hb Hend Him E.
  destruct (trace_run b img Hb Hend (h_mem h) q quantum xl1 _ _ _ _ _ _ _ Hq Hx Him E) as [Er Hw].
  destruct (guest_leaves i h v _ _ _ _ _ Hi Hh Hv Hs Er) as (v' & c & E1 & W1 & G1 & X1). by exists v', c.
Qed.
End Exits.

(** * Images in memory *)
Lemma rd8_write_bytes l : forall m a c,
  len l < 2 ^ 64 -> ~ in_range (len l) a c -> rd8 (write_bytes m a l) c = rd8 m c.
Proof.
  induction l as [|x l IH]; intros m a c Hl Hc; [done|]. unfold len in *. cbn [length write_bytes] in *. rewrite Nat2Z.inj_succ in *.
  rewrite IH; [apply rd8_wr8_ne; intros E; apply Hc; apply in_range_step; [lia|lia|by right]|lia|].
  intros Hin. apply Hc. apply in_range_step; [lia|lia|by left].
Qed.
Lemma write_bytes_image l : forall m a,
  len l < 2 ^ 64 -> image_at a (map u8 l) (write_bytes m a l).
Proof.
  unfold image_at. induction l as [|x l IH]; intros m a Hl; [done|]. unfold len in *. cbn [length write_bytes map mem_bytes] in *. f_equal.
  - rewrite rd8_write_bytes, rd8_wr8_eq; [done|unfold len; lia|]. unfold in_range, len.
    replace (a - (a + 1)) with (-1) by lia. change (u64 (-1)) with (2 ^ 64 - 1). lia.
  - rewrite length_map. specialize (IH (wr8 m a x) (a + 1) ltac:(lia)). by rewrite length_map in IH.
Qed.
Lemma image_at_frame b img m m' :
  len img < 2 ^ 64 -> image_at b img m -> (forall c, in_range (len img) b c -> rd8 m' c = rd8 m c) -> image_at b img m'.
Proof. intros Hl Hi Hf. unfold image_at in *. rewrite <- Hi at 2. apply mem_bytes_ext; [exact Hl|]. intros c Hc. by apply Hf. Qed.
(** Bytes that no store of a run touched. *)
Lemma rd8_stores_apart w : forall m c,
  0 <= c < SPACE -> forallb (within SPACE) w = true -> forallb (Asm.apart c 1) w = true -> rd8 (stores m 0 w) c = rd8 m c.
Proof.
  intros m c Hc Hw Ha. pose proof (load_stores_out 0 SPACE ltac:(unfold SPACE; lia) c 1 w m) as E.
  rewrite Z.add_0_l in E. cbn [load] in E. rewrite !Z.mul_0_r, !Z.add_0_r in E. apply E; [unfold within; change (Z.of_nat 1) with 1; lia|done|done].
Qed.
Lemma rd8_u64 m c : rd8 m (u64 c) = rd8 m c.
Proof. unfold rd8. by rewrite wrap_wrap. Qed.
Lemma in_range_bounds n a c : 0 <= a -> a + n <= SPACE -> in_range n a c -> a <= u64 c < a + n.
Proof. unfold in_range, SPACE. intros. zlia. Qed.
(** The image survives stores elsewhere. *)
Lemma image_stores b img m w :
  0 <= b -> b + len img <= SPACE -> trace_ok b img w -> image_at b img m -> image_at b img (stores m 0 w).
Proof.
  intros Hb He (H1 & _ & H3) Hi. apply (image_at_frame b img m); [unfold SPACE in *; lia|done|]. intros c Hc.
  pose proof (in_range_bounds _ _ _ Hb He Hc) as Hr. rewrite <- (rd8_u64 _ c), <- (rd8_u64 m c). apply rd8_stores_apart; [lia|done|].
  rewrite forallb_forall in *. intros [[o k] x] Hx. specialize (H3 _ Hx). unfold Asm.apart, len in *. change (Z.of_nat 1) with 1. lia.
Qed.
Lemma image_write b img m a l :
  0 <= b -> b + len img <= SPACE -> 0 <= a -> a + len l <= SPACE -> b + len img <= a \/ a + len l <= b ->
  image_at b img m -> image_at b img (write_bytes m a l).
Proof.
  intros Hb He Ha Hl Hd Hi. apply (image_at_frame b img m); [unfold SPACE in *; lia|done|]. intros c Hc.
  pose proof (in_range_bounds _ _ _ Hb He Hc) as Hr. apply rd8_write_bytes; [unfold SPACE in *; lia|]. intros Hc2.
  pose proof (in_range_bounds _ _ _ Ha Hl Hc2). lia.
Qed.
(** The low bytes of a wider cell. *)
Lemma load_low k : forall n m a, load n m a = wrap (8 * Z.of_nat n) (load (n + k) m a).
Proof.
  induction n as [|n IH]; intros m a; [unfold wrap; by rewrite Z.mul_0_r, Z.mod_1_r|]. cbn [Nat.add load]. rewrite (IH m (a + 1)).
  pose proof (fits_rd8 m a) as Hr. unfold fits, wrap in *. rewrite Nat2Z.inj_succ.
  replace (8 * Z.succ (Z.of_nat n)) with (8 + 8 * Z.of_nat n) by lia.
  rewrite Z.pow_add_r, Z.rem_mul_r by lia. replace (rd8 m a + 2 ^ 8 * load (n + k) m (a + 1)) with (rd8 m a + load (n + k) m (a + 1) * 2 ^ 8) by lia.
  rewrite Z.mod_add, Z.div_add by lia. rewrite (Z.mod_small (rd8 m a)), (Z.div_small (rd8 m a)), Z.add_0_l by lia. done.
Qed.

(** ** Bytes that are known although memory is not: the image and what was stored *)
Lemma rd8_store_same n : forall m1 m2 p v c,
  Z.of_nat n < 2 ^ 64 -> in_range (Z.of_nat n) p c \/ rd8 m1 c = rd8 m2 c -> rd8 (store n m1 p v) c = rd8 (store n m2 p v) c.
Proof.
  induction n as [|n IH]; intros m1 m2 p v c Hn H; cbn [store].
  { destruct H as [H|H]; [|done]. unfold in_range in H. pose proof (fits_wrap 64 (c - p)). unfold fits in *. lia. }
  apply IH; [lia|]. rewrite Nat2Z.inj_succ in *.
  destruct (decide (u64 p = u64 c)) as [E|E].
  - right. rewrite <- (rd8_u64 _ c), <- (rd8_u64 (wr8 m2 p v) c), <- E, !rd8_u64. by rewrite !rd8_wr8_eq.
  - destruct H as [H|H]; [left|right; by rewrite !rd8_wr8_ne]. unfold in_range in *. revert E H. zlia.
Qed.
Definition covers (a : Z) (c : cell) : bool := let '(o, n, _) := c in (o <=? a) && (a <? o + Z.of_nat n).
Lemma rd8_stores_same w : forall m1 m2 a,
  0 <= a < SPACE -> forallb (within SPACE) w = true -> existsb (covers a) w = true \/ rd8 m1 a = rd8 m2 a ->
  rd8 (stores m1 0 w) a = rd8 (stores m2 0 w) a.
Proof.
  induction w as [|[[o n] v] w IH]; intros m1 m2 a Ha Hw H; [by destruct H|]. cbn [stores forallb existsb] in *.
  apply andb_prop in Hw as [Hw1 Hw]. unfold within in Hw1. apply IH; [done|done|]. unfold SPACE in *.
  destruct H as [[H|H]%orb_prop|H]; [right|by left|right].
  - apply rd8_store_same; [lia|]. left. unfold covers in H. unfold in_range. rewrite Z.add_0_l. zlia.
  - apply rd8_store_same; [lia|]. by right.
Qed.

(** The same guest on an otherwise empty memory, to compute with. *)
Definition model_mem (b : Z) (img : list Z) (w : list cell) : mem := stores (write_bytes ∅ b img) 0 w.
Definition known (b : Z) (img : list Z) (w : list cell) (a : Z) : bool :=
  ((b <=? a) && (a <? b + len img)) || existsb (covers a) w.
Lemma mem_bytes_at m a : forall n i, (i < n)%nat -> mem_bytes m a n !! i = Some (rd8 m (a + Z.of_nat i)).
Proof.
  intros n. revert a. induction n as [|n IH]; intros a [|i] Hi; try lia; cbn [mem_bytes lookup list_lookup].
  - by rewrite Z.add_0_r.
  - rewrite IH by lia. do 2 f_equal. lia.
Qed.
Lemma rd8_image b img m1 m2 a :
  0 <= a -> b <= a < b + len img -> image_at b img m1 -> image_at b img m2 -> rd8 m1 a = rd8 m2 a.
Proof.
  unfold image_at. intros H0 Ha H1 H2. unfold len in Ha.
  pose proof (mem_bytes_at m1 b (length img) (Z.to_nat (a - b)) ltac:(lia)) as E1.
  pose proof (mem_bytes_at m2 b (length img) (Z.to_nat (a - b)) ltac:(lia)) as E2.
  rewrite H1 in E1. rewrite H2, E1 in E2. rewrite Z2Nat.id in E2 by lia. replace (b + (a - b)) with a in E2 by lia. by injection E2.
Qed.
Lemma image_u8 b img m : image_at b img m -> map u8 img = img.
Proof.
  unfold image_at. intros <-. generalize (length img) as n. intros n. revert b. induction n as [|n IH]; intros b; [done|].
  cbn [mem_bytes map]. rewrite IH. f_equal. apply wrap_fits, fits_rd8.
Qed.
Lemma rd8_known b img m w a :
  0 <= b -> b + len img <= SPACE -> image_at b img m -> trace_ok b img w -> 0 <= a < SPACE -> known b img w a = true ->
  rd8 (stores m 0 w) a = rd8 (model_mem b img w) a.
Proof.
  intros Hb He Hi (Hw & _ & _) Ha Hk. unfold model_mem. apply rd8_stores_same; [done|done|].
  unfold known in Hk. apply orb_prop in Hk as [Hk|Hk]; [right|by left]. apply (rd8_image b img); [lia|lia|done|].
  rewrite <- (image_u8 _ _ _ Hi) at 1. apply write_bytes_image. unfold SPACE in He. lia.
Qed.
(** Whole ranges, by their length and address. *)
Definition known_range (b : Z) (img : list Z) (w : list cell) (r : Z * Z) : bool :=
  (0 <=? r.2) && (r.2 + r.1 <=? SPACE) && forallb (fun k => known b img w (r.2 + k)) (seqZ 0 r.1).
Lemma rd8_known_range b img m w n p c :
  0 <= b -> b + len img <= SPACE -> image_at b img m -> trace_ok b img w -> known_range b img w (n, p) = true -> in_range n p c ->
  rd8 (stores m 0 w) c = rd8 (model_mem b img w) c.
Proof.
  intros Hb He Hi Hw Hk Hc. unfold known_range in Hk. cbn [fst snd] in Hk. rewrite !andb_true_iff, !Z.leb_le in Hk. destruct Hk as ((H0 & H1) & Hk).
  pose proof (in_range_bounds _ _ _ H0 H1 Hc) as Hr. rewrite <- (rd8_u64 _ c), <- (rd8_u64 (model_mem _ _ _) c).
  apply rd8_known; [done|done|done|done|lia|]. rewrite forallb_forall in Hk. specialize (Hk (u64 c - p)).
  replace (p + (u64 c - p)) with (u64 c) in Hk by lia. apply Hk, list_elem_of_In, elem_of_seqZ. lia.
Qed.
Lemma load_known b img m w (n : nat) p :
  0 <= b -> b + len img <= SPACE -> image_at b img m -> trace_ok b img w -> known_range b img w (Z.of_nat n, p) = true ->
  load n (stores m 0 w) p = load n (model_mem b img w) p.
Proof.
  intros Hb He Hi Hw Hk. assert (Z.of_nat n < 2 ^ 64) as Hn.
  { unfold known_range in Hk. cbn [fst snd] in Hk. rewrite !andb_true_iff, !Z.leb_le in Hk. unfold SPACE in Hk. lia. }
  apply load_ext; [done|]. intros c Hc. by apply (rd8_known_range b img m w (Z.of_nat n) p).
Qed.

(** * Programs in memory

    What the lines of an assembled program, placed at [a], leave in memory; [t] gives the
    addresses of its labels. *)
Definition line_holds (m : mem) (t : string -> Z) (a : Z) (x : asm_line) : Prop :=
  match x with
  | Lbl l => t l = a
  | Ins i => decode (ld32 m a) = Some i
  | Ref l f => decode (ld32 m a) = Some (f (t l - a))
  | Word w => ld32 m a = w
  | Asciz s => mem_bytes m a (length (s ++ [0])) = s ++ [0]
  | Balign _ => True
  end.
Fixpoint loaded (m : mem) (t : string -> Z) (a : Z) (p : list asm_line) : Prop :=
  match p with
  | [] => True
  | x :: p => line_holds m t a x /\ loaded m t (a + line_size a 0 x) p
  end.
Lemma le_bytes_of w : fits 32 w -> le (bytes_of w) = w.
Proof. unfold fits, bytes_of, le, wrap. intros Hw. zlia. Qed.
Lemma padding_length n : 0 <= n -> len (padding n) = n.
Proof.
  intros Hn. unfold padding, len. rewrite length_app, length_replicate.
  assert (forall k, length (concat (replicate k (bytes_of (encode Nop)))) = (4 * k)%nat) as ->
    by (induction k as [|k IH]; [done|]; cbn [replicate concat]; rewrite length_app, IH; cbn [bytes_of length]; lia).
  pose proof (Z.mod_pos_bound n 4). pose proof (Z.div_pos n 4). zlia.
Qed.
Lemma mem_bytes_app m a l1 l2 :
  mem_bytes m a (length (l1 ++ l2)) = l1 ++ l2 -> mem_bytes m a (length l1) = l1 /\ mem_bytes m (a + len l1) (length l2) = l2.
Proof.
  intros E. rewrite length_app in E.
  pose proof (mem_bytes_sub m (length l1 + length l2) (length l1) 0 a ltac:(lia)) as E1. change (Z.of_nat 0) with 0 in E1.
  pose proof (mem_bytes_sub m (length l1 + length l2) (length l2) (length l1) a ltac:(lia)) as E2.
  rewrite E in E1, E2. rewrite drop_0, take_app_length, Z.add_0_r in E1. rewrite drop_app_length, firstn_all in E2. by split.
Qed.
Lemma word_at m a w : fits 32 w -> mem_bytes m a (length (bytes_of w)) = bytes_of w -> ld32 m a = w.
Proof. intros Hw E. change (ld32 m a) with (load 4 m a). rewrite load_le. change (mem_bytes m a 4 = bytes_of w) in E. by rewrite E, le_bytes_of. Qed.
Lemma line_size_at a o x : line_size a o x = line_size (a + o) 0 x.
Proof. destruct x; cbn; [..|by rewrite Z.add_0_r|]; reflexivity. Qed.

Section Loaded.
Context (m : mem) (a k : Z) (t : list (string * Z)).
Definition label_at (l : string) : Z := a + default 0 (find_label l t).
Lemma emitted p : forall o img,
  forallb (aligns k) p = true -> emit_lines a o t p = Some img -> Forall (fun '(l, o') => find_label l t = Some o') (labels a o p) ->
  mem_bytes m (a + o) (length img) = img -> loaded m label_at (a + o) p.
Proof.
  induction p as [|x p IH]; intros o img Hp E Hl Hm; [exact I|].
  cbn [forallb emit_lines labels loaded line_holds] in *. apply andb_prop in Hp as [Hx Hp]. apply Forall_app in Hl as [Hlx Hl].
  assert (forall bs rest, len bs = line_size a o x -> emit_lines a (o + line_size a o x) t p = Some rest -> img = bs ++ rest ->
    mem_bytes m (a + o) (length bs) = bs /\ loaded m label_at (a + o + line_size (a + o) 0 x) p) as Hgo.
  { intros bs rest Hlen Er ->. apply mem_bytes_app in Hm as [Hm1 Hm2]. split; [exact Hm1|]. rewrite <- line_size_at, <- Z.add_assoc.
    apply (IH _ rest Hp Er Hl). by rewrite Z.add_assoc, <- Hlen. }
  assert (forall i, a64_ok i = true -> mem_bytes m (a + o) (length (bytes_of (encode i))) = bytes_of (encode i) -> decode (ld32 m (a + o)) = Some i) as Hins.
  { intros i Hi Hb. destruct (decode_encode i Hi) as [D F]. by rewrite (word_at m _ _ F Hb). }
  destruct (emit_lines a (o + line_size a o x) t p) as [rest|] eqn:Er; [|exfalso; match type of E with (?u ≫= _) = _ => destruct u; discriminate end].
  destruct x as [l|i|l f|w|n|s]; cbn [mbind option_bind line_holds] in *.
  - injection E as <-. destruct (Hgo [] rest eq_refl eq_refl eq_refl) as [_ H2]. split; [|exact H2].
    apply Forall_inv in Hlx. unfold label_at. by rewrite Hlx.
  - destruct (a64_ok i) eqn:Hi; [|done]. injection E as <-. destruct (Hgo (bytes_of (encode i)) rest eq_refl eq_refl eq_refl) as [H1 H2]. exact (conj (Hins i Hi H1) H2).
  - destruct (find_label l t) as [o'|] eqn:El; [|done]. cbn [mbind option_bind] in E. destruct (a64_ok (f (o' - o))) eqn:Hi; [|done]. injection E as <-.
    destruct (Hgo (bytes_of (encode (f (o' - o)))) rest eq_refl eq_refl eq_refl) as [H1 H2]. split; [|exact H2].
    unfold label_at. rewrite El. change (default 0 (Some o')) with o'. replace (a + o' - (a + o)) with (o' - o) by lia. exact (Hins _ Hi H1).
  - destruct (low 32 w) eqn:Hw; [|done]. injection E as <-. destruct (Hgo (bytes_of w) rest eq_refl eq_refl eq_refl) as [H1 H2].
    split; [|exact H2]. apply word_at; [unfold low in Hw; unfold fits; lia|exact H1].
  - cbn [aligns] in Hx. apply andb_prop in Hx as [Hx _]. injection E as <-. destruct (Hgo (padding (line_size a o (Balign n))) rest) as [_ H2]; [|reflexivity..|by split].
    apply padding_length. cbn [line_size]. apply Z.mod_pos_bound. apply Z.ltb_lt in Hx. exact Hx.
  - injection E as <-. destruct (Hgo (s ++ [0]) rest) as [H1 H2]; [cbn [line_size]; unfold len; rewrite length_app; cbn [length]; lia|reflexivity..|by split].
Qed.
End Loaded.

(** A program assembled for [a] and found there is loaded, with its labels where the
    assembler put them. *)
Definition label_addr (a : Z) (p : list asm_line) : string -> Z := label_at a (labels a 0 p).
Lemma assembled_loaded k m a p img :
  forallb (aligns k) p = true -> assemble a p = Some img -> forallb (fun '(l, o) => bool_decide (find_label l (labels a 0 p) = Some o)) (labels a 0 p) = true ->
  image_at a img m -> loaded m (label_addr a p) a p.
Proof.
  intros Hp E Hl Hm. rewrite <- (Z.add_0_r a) at 2. apply (emitted m a k _ p 0 img Hp E); [|by rewrite Z.add_0_r].
  apply Forall_forall. intros [l o] Hin. apply list_elem_of_In in Hin. rewrite forallb_forall in Hl. specialize (Hl _ Hin). by apply bool_decide_eq_true in Hl.
Qed.

(** What is where: from an address aligned like the program, the layout is that of the
    program assembled for address 0. *)
Fixpoint line_at (o o' : Z) (p : list asm_line) : option asm_line :=
  match p with
  | [] => None
  | x :: p => if (o =? o') && (0 <? line_size 0 o x) then Some x else line_at (o + line_size 0 o x) o' p
  end.
Section Aligned.
Context (m : mem) (t : string -> Z) (k a : Z) (Hk : 0 < k) (Ha : a mod k = 0).
Lemma line_size_aligned o x : aligns k x = true -> line_size (a + o) 0 x = line_size 0 o x.
Proof. intros Hx. by rewrite <- line_size_at, <- (line_size_mod k a o x), Ha. Qed.
Lemma loaded_line p : forall o o' x,
  forallb (aligns k) p = true -> loaded m t (a + o) p -> line_at o o' p = Some x -> line_holds m t (a + o') x.
Proof.
  induction p as [|y p IH]; intros o o' x Hp Hl E; [done|]. cbn [forallb loaded line_at] in *. apply andb_prop in Hp as [Hy Hp]. destruct Hl as [H1 H2].
  destruct (Z.eqb_spec o o') as [->|]; cbn [andb] in E; [destruct (0 <? line_size 0 o' y); [by injection E as ->|]|].
  all: rewrite (line_size_aligned _ _ Hy), <- Z.add_assoc in H2; by eapply IH.
Qed.
Lemma loaded_label p : forall o l o',
  forallb (aligns k) p = true -> loaded m t (a + o) p -> (l, o') ∈ labels 0 o p -> t l = a + o'.
Proof.
  induction p as [|y p IH]; intros o l o' Hp Hl E; [by apply not_elem_of_nil in E|]. cbn [forallb loaded labels] in *.
  apply andb_prop in Hp as [Hy Hp]. destruct Hl as [H1 H2]. apply elem_of_app in E as [E|E].
  - destruct y; try (by apply not_elem_of_nil in E). apply list_elem_of_singleton in E. injection E as -> ->. exact H1.
  - rewrite (line_size_aligned _ _ Hy), <- Z.add_assoc in H2. by eapply IH.
Qed.
End Aligned.
Fixpoint end_of (a : Z) (p : list asm_line) : Z := match p with [] => a | x :: p => end_of (a + line_size a 0 x) p end.
Lemma loaded_app m t p q : forall a, loaded m t a (p ++ q) -> loaded m t a p /\ loaded m t (end_of a p) q.
Proof.
  induction p as [|x p IH]; intros a Hl; [by split|]. cbn [app loaded end_of] in *. destruct Hl as [H1 H2]. by destruct (IH _ H2) as [H3 H4].
Qed.
