(* ===== verification/TenantRun.v ===== *)
(** The isolation demonstration with its guest (src/src/guest.S, guest_tenant_entry;
    mtenant_demo of src/src/vcpu.c): both VMs run the copied image from their own RAM.
    The first part is shared with the other tenants' demonstrations: the two VMs'
    translation, and what the set-up code does to vCPUs, memory, devices and console. *)

From S2P Require Import Prelude Esr Machine Vcpu Asm World Stage2 Vgic Uart Vdev Handlers Vvirtio Vblk Timer Hv Sched Smp Tenants.
From S2P Require Import VirtioRun GuestProg Counters A64 GuestRun.

(** * The tenants' translation *)

(** What the hardware finds behind a VTTBR_EL2 value: the two tables the set-up code
    builds, wherever the linker put them. *)
Definition tenant_xlate (lk : link) (t a : Z) : option Z :=
  let b := vttbr_baddr t in
  o ← (if b =? lk_s2_vm lk then s2_walk VTCR_EL2_VALUE (tenant_table VM0_PA) a
       else if b =? lk_s2_vm lk + 4096 then s2_walk VTCR_EL2_VALUE (tenant_table VM1_PA) a
       else None);
  Some (s2_pa o).
Definition vm_pa (i : Z) : Z := if i =? 0 then VM0_PA else VM1_PA.
Definition block_xl (pa a : Z) : option Z := if (VM_IPA <=? a) && (a <? VM_IPA + 2 ^ 30) then Some (a - VM_IPA + pa) else None.

Lemma tenant_space_block pa a : pa = VM0_PA \/ pa = VM1_PA -> s2_pa <$> tenant_space VM_IPA pa a = block_xl pa a.
Proof.
  intros Hpa. unfold tenant_space, block_xl. change (block_base VM_IPA) with VM_IPA.
  assert (block_base pa = pa) as -> by (by destruct Hpa as [-> | ->]).
  case_decide as Hd; destruct (Z.leb_spec VM_IPA a), (Z.ltb_spec a (VM_IPA + 2 ^ 30)); cbn [andb]; try done; lia.
Qed.
(** In a state with the tenants' configuration it is what the hypervisor's own tables
    say. *)
Lemma tenant_xlate_walk {W} lk (h : hv W) i a :
  tables_ok lk -> core h = tenant_core lk VM0_PA VM1_PA -> 0 <= i < 2 ->
  tenant_xlate lk (vm_vttbr lk i) a = s2_pa <$> guest_walk lk h i a.
Proof.
  intros Ht Hc Hi. rewrite (core_walk lk h VM0_PA VM1_PA i a Ht Hc Hi). destruct Ht as (H0 & H1 & H2 & H3).
  destruct (vttbr_fields (lk_s2_vm lk) i (i + 1)) as [_ Hb]; [done|unfold fits; lia|done..|].
  unfold tenant_xlate, vm_vttbr. rewrite Hb. assert (i = 0 \/ i = 1) as [-> | ->] by lia.
  - rewrite Z.mul_0_l, Z.add_0_r, Z.eqb_refl. by destruct (s2_walk _ _ _).
  - rewrite Z.mul_1_l. destruct (Z.eqb_spec (lk_s2_vm lk + 4096) (lk_s2_vm lk)); [lia|]. rewrite Z.eqb_refl. by destruct (s2_walk _ _ _).
Qed.
Lemma tenant_xlate_block lk i a : tables_ok lk -> 0 <= i < 2 -> tenant_xlate lk (vm_vttbr lk i) a = block_xl (vm_pa i) a.
Proof.
  intros (H0 & H1 & H2 & H3) Hi. destruct (vttbr_fields (lk_s2_vm lk) i (i + 1)) as [_ Hb]; [done|unfold fits; lia|done..|].
  unfold tenant_xlate, vm_vttbr, vm_pa. rewrite Hb. assert (i = 0 \/ i = 1) as [-> | ->] by lia.
  - rewrite Z.mul_0_l, Z.add_0_r, Z.eqb_refl. unfold tenant_table. rewrite tenant_table_refines by fits_const.
    change (0 =? 0) with true. cbv iota. rewrite <- tenant_space_block by tauto. by destruct (tenant_space _ _ _).
  - rewrite Z.mul_1_l. destruct (Z.eqb_spec (lk_s2_vm lk + 4096) (lk_s2_vm lk)); [lia|]. rewrite Z.eqb_refl.
    unfold tenant_table. rewrite tenant_table_refines by fits_const.
    change (1 =? 0) with false. cbv iota. rewrite <- tenant_space_block by tauto. by destruct (tenant_space _ _ _).
Qed.

(** * What the code does to vCPUs, memory, devices and console *)
Record view := mk_view { w_vcpus : list vcpu; w_mem : mem; w_vc : list vcon; w_vb : list vblk; w_out : list Z }.
Definition view_of (h : hv guest) : view := mk_view (h_vcpus h) (h_mem h) (h_vc h) (h_vb h) (h_console h).
Definition on_vcpus f (w : view) := mk_view (f (w_vcpus w)) (w_mem w) (w_vc w) (w_vb w) (w_out w).
Definition on_mem f (w : view) := mk_view (w_vcpus w) (f (w_mem w)) (w_vc w) (w_vb w) (w_out w).
Definition on_vc f (w : view) := mk_view (w_vcpus w) (w_mem w) (f (w_vc w)) (w_vb w) (w_out w).
Definition on_vb f (w : view) := mk_view (w_vcpus w) (w_mem w) (w_vc w) (f (w_vb w)) (w_out w).
Definition says (l : list Z) (w : view) := mk_view (w_vcpus w) (w_mem w) (w_vc w) (w_vb w) (w_out w ++ l).
(** An equation between views, part by part. *)
Ltac view_parts V A M C B O :=
  pose proof (f_equal w_vcpus V) as A; pose proof (f_equal w_mem V) as M; pose proof (f_equal w_vc V) as C;
  pose proof (f_equal w_vb V) as B; pose proof (f_equal w_out V) as O;
  cbn [w_vcpus w_mem w_vc w_vb w_out view_of says on_mem on_vcpus on_vc on_vb] in A, M, C, B, O.
(** What a format and its arguments put on the console. *)
Definition said (fmt : list Z) (args : list arg) : list Z := map u8 (default [] (render fmt args)).

Lemma alter_known {A} (f : A -> A) (l : list A) (i : nat) x : l !! i = Some x -> <[i := f x]> l = alter f i l.
Proof. revert i. induction l as [|y l IH]; intros [|i] E; try done; cbn in *; [by injection E as ->|f_equal; by apply IH]. Qed.

Section Acts.
Context (quantum : nat) (lk : link).
#[local] Instance tenant_pl : Platform guest := asm_platform quantum (tenant_xlate lk).
#[local] Instance tenant_ok : PlatformOk guest := asm_platform_ok quantum (tenant_xlate lk).
Abbreviation M A := (st (hv guest) A).

(** [m] returns [a], and the view changes by [G]. *)
Definition acts {A} (a : A) (G : view -> view) (m : M A) : Prop :=
  forall h, wf_hv h -> exists h', m h = Ok (a, h') /\ wf_hv h' /\ view_of h' = G (view_of h).

Lemma acts_bind {A B} (a : A) (b : B) F G (m : M A) (f : A -> M B) :
  acts a F m -> acts b G (f a) -> acts b (fun w => G (F w)) (m ≫= f).
Proof.
  intros Hm Hf h Hh. destruct (Hm h Hh) as (h1 & E & H1 & C1). destruct (Hf h1 H1) as (h2 & E2 & H2 & C2).
  exists h2. rewrite (st_bind_Ok _ _ _ _ _ E), C2, C1. by split_and!.
Qed.
(** From an equation for the result and any of the general lemmas about [m]. *)
Lemma acts_total {A} (a : A) G (m : M A) :
  total (fun _ => True) m -> (forall h, wf_hv h -> exists h', m h = Ok (a, h') /\ view_of h' = G (view_of h)) -> acts a G m.
Proof.
  intros Ht Hm h Hh. destruct (Ht h Hh) as (a' & h' & E & Hw & _). destruct (Hm h Hh) as (h2 & E2 & Hv).
  rewrite E in E2. injection E2 as -> ->. by exists h2.
Qed.
Lemma acts_printf fmt args :
  Forall arg_ok args -> is_Some (render fmt args) -> acts tt (says (said fmt args)) (printf fmt args).
Proof.
  intros Ha [out Ho]. apply acts_total; [apply total_yields, printf_keeps; [done|by eexists]|]. intros h Hh.
  destruct (guest_printf (asm_guest quantum (tenant_xlate lk)) fmt args out h Ha Ho) as (w' & E & C).
  eexists. split; [exact E|]. unfold view_of, says, said. rewrite Ho. cbn. f_equal. exact C.
Qed.
Lemma acts_puts s : acts tt (says (map u8 (line (bytes s)))) (puts s).
Proof.
  apply acts_total; [apply total_yields, puts_keeps|]. intros h Hh.
  destruct (guest_puts (asm_guest quantum (tenant_xlate lk)) s h) as (w' & E & C).
  eexists. split; [exact E|]. unfold view_of, says. cbn. f_equal. exact C.
Qed.
Lemma acts_println s : acts tt (says (map u8 (line (bytes s) ++ [CR; LF]))) (println s).
Proof.
  apply acts_total; [apply total_yields, println_keeps|]. intros h Hh.
  destruct (guest_println (asm_guest quantum (tenant_xlate lk)) s h) as (w' & E & C).
  eexists. split; [exact E|]. unfold view_of, says. cbn. f_equal. exact C.
Qed.
Lemma acts_wr_sys r v : fits 64 v -> acts tt id (wr_sys r v).
Proof. intros Hv. apply acts_total; [by apply wr_sys_total|]. intros h Hh. by eexists. Qed.
Lemma acts_copy dst img : acts tt (on_mem (fun m => write_bytes m dst (lk_image lk img))) (copy_image lk dst img).
Proof. apply acts_total; [apply total_yields, copy_image_keeps|]. intros h Hh. by eexists. Qed.
Lemma acts_build_vm vm pa vmid : 0 <= vm < 2 -> vmid = vm + 1 -> acts (vm_vttbr lk vm) id (build_vm lk vm VM_IPA pa vmid).
Proof.
  intros Hvm Hid h Hh. destruct (build_vm_does lk vm pa vmid Hvm Hid h Hh) as (h' & E & Hw & _). exists h'. split; [done|]. split; [done|].
  destruct (wh_s2 h Hh) as (H1 & H2 & H3). revert E. unfold build_vm, zoom. subst vmid. rewrite build_vm_put by done.
  cbn [mbind res_bind]. by intros [= <-].
Qed.
Lemma acts_init_vcpu i entry sp vt :
  0 <= i < 2 -> fits 64 entry -> fits 64 sp -> fits 64 vt ->
  acts tt (on_vcpus (fun l => <[Z.to_nat i := vcpu_init entry sp vt i]> l)) (init_vcpu i entry sp vt).
Proof.
  intros Hi He Hs Hv. apply acts_total; [by apply init_vcpu_total|]. intros h Hh. destruct (wh_vcpus h Hh) as [Hl _].
  unfold init_vcpu, set_vcpu, update. rewrite aset_ok by lia. by eexists.
Qed.
Definition with_x (r val : Z) (v : vcpu) : vcpu := set_xregs v (<[Z.to_nat r := val]> (xregs v)).
Lemma acts_set_x i r val :
  0 <= i < 2 -> 0 <= r < 31 -> fits 64 val -> acts tt (on_vcpus (alter (with_x r val) (Z.to_nat i))) (set_x i r val).
Proof.
  intros Hi Hr Hv. apply acts_total; [by apply total_yields, set_x_keeps|]. intros h Hh. destruct (wh_vcpus h Hh) as [Hl HF].
  destruct (aget_ok (h_vcpus h) i) as [v E]; [lia|]. pose proof (Forall_aget _ _ _ _ HF E) as (Lx & _).
  unfold set_x. assert (get_vcpu i h = Ok (v, h)) as Eg by (unfold get_vcpu, try_; by rewrite E). rewrite (st_bind_Ok _ _ _ _ _ Eg).
  unfold put_x, try_, mbind, st_bind. rewrite aset_ok by lia. cbn [mbind res_bind].
  unfold set_vcpu, update. rewrite aset_ok by lia. eexists. split; [reflexivity|].
  apply aget_inv in E as [_ E]. unfold view_of, on_vcpus. cbn. f_equal. by apply (alter_known (with_x r val)).
Qed.
Definition stage2_text : list Z :=
  said (bytes "[M3] stage-2 ON: vtcr=%x vttbr=%x (mapped 1GiB @0x40000000)" ++ [LF]) [AInt VTCR_EL2_VALUE; AInt (u64 (lk_s2_l1 lk))].
Lemma acts_stage2_init : acts tt (says stage2_text) (do_stage2_init lk).
Proof.
  unfold do_stage2_init. apply (acts_bind tt tt id (says stage2_text)).
  - intros h Hh. destruct (wh_s2 h Hh) as (H1 & H2 & H3). unfold zoom, update. rewrite stage2_init_table by done.
    cbn [mbind res_bind]. eexists. split; [reflexivity|]. split; [|done]. by destruct Hh; split.
  - apply acts_printf; [|by eexists]. constructor; [fits_const|]. constructor; [apply fits_wrap; lia|constructor].
Qed.
Definition con_at (off : Z) (c : vcon) : vcon := set_host_off c off.
Definition blk_at (off : Z) (b : vblk) : vblk := mk_vblk (set_host_off (regs b) off) (disk b).
Lemma acts_virtio_reset : acts tt (on_vc (fun _ => vc_reset)) do_virtio_reset.
Proof.
  apply acts_total; [apply total_yields, virtio_reset_keeps|]. intros h Hh. destruct (wh_vc h Hh) as [Hl _]. unfold do_virtio_reset, zoom, update, len in *.
  exists (put_vc h vc_reset). split; [|done]. destruct (h_vc h) as [|a [|b [|]]]; cbn in Hl; try lia. done.
Qed.
Lemma acts_virtio_set_offset vm off :
  0 <= vm < 2 -> fits 64 off -> acts tt (on_vc (alter (con_at off) (Z.to_nat vm))) (do_virtio_set_offset vm off).
Proof.
  intros Hvm Ho. apply acts_total; [by apply total_yields, virtio_set_offset_keeps|]. intros h Hh. destruct (wh_vc h Hh) as [Hl _].
  destruct (aget_ok (h_vc h) vm) as [c Hc]; [lia|]. unfold do_virtio_set_offset, zoom, update, virtio_set_offset. rewrite Hc.
  cbn [mbind res_bind]. rewrite aset_ok by lia. eexists. split; [reflexivity|]. apply aget_inv in Hc as [_ Hc].
  unfold view_of, on_vc. cbn. f_equal. by apply (alter_known (con_at off)).
Qed.
Lemma acts_vblk_reset : acts tt (on_vb (fun _ => vb0)) do_vblk_reset.
Proof.
  apply acts_total; [apply total_yields, vblk_reset_keeps|]. intros h Hh. unfold do_vblk_reset, zoom, update.
  rewrite vblk_reset_eq by apply (wh_vb h Hh). by eexists.
Qed.
Lemma acts_vblk_set_offset vm off :
  0 <= vm < 2 -> fits 64 off -> acts tt (on_vb (alter (blk_at off) (Z.to_nat vm))) (do_vblk_set_offset vm off).
Proof.
  intros Hvm Ho. apply acts_total; [by apply total_yields, vblk_set_offset_keeps|]. intros h Hh. destruct (wh_vb h Hh) as [Hl _].
  destruct (aget_ok (h_vb h) vm) as [b Hb]; [lia|]. unfold do_vblk_set_offset, zoom, update, vblk_set_offset. rewrite Hb.
  cbn [mbind res_bind]. rewrite aset_ok by lia. eexists. split; [reflexivity|]. apply aget_inv in Hb as [_ Hb].
  unfold view_of, on_vb. cbn. f_equal. by apply (alter_known (blk_at off)).
Qed.
End Acts.

(** Set-up sequences, one operation at a time. *)
Ltac acts_prim :=
  match goal with
  | |- acts _ _ (do_stage2_init _) => apply acts_stage2_init
  | |- acts _ _ (copy_image _ _ _) => apply acts_copy
  | |- acts _ _ (build_vm _ _ _ _ _) => apply acts_build_vm; [lia|reflexivity]
  | |- acts _ _ (wr_sys _ _) => apply acts_wr_sys; hv_side
  | |- acts _ _ (init_vcpu _ _ _ _) => apply acts_init_vcpu; [lia| | |apply vm_vttbr_fits]; hv_side
  | |- acts _ _ (set_x _ _ _) => apply acts_set_x; hv_side
  | |- acts _ _ (println _) => apply acts_println
  | |- acts _ _ (printf _ _) => apply acts_printf; hv_side
  | |- acts _ _ do_virtio_reset => apply acts_virtio_reset
  | |- acts _ _ (do_virtio_set_offset _ _) => apply acts_virtio_set_offset; hv_side
  | |- acts _ _ do_vblk_reset => apply acts_vblk_reset
  | |- acts _ _ (do_vblk_set_offset _ _) => apply acts_vblk_set_offset; hv_side
  end.
Ltac acts_run := repeat (eapply acts_bind; [solve [acts_prim]|]); acts_prim.


Lemma does_acts F G (m : st (hv guest) unit) :
  does tt F m -> acts tt G m ->
  forall h, wf_hv h -> exists h1, m h = Ok (tt, h1) /\ wf_hv h1 /\ core h1 = F (core h) /\ view_of h1 = G (view_of h).
Proof.
  intros Hd Ha h Hh. destruct (Hd h Hh) as (h1 & E1 & W1 & C1). destruct (Ha h Hh) as (h2 & E2 & _ & V2).
  rewrite E1 in E2. injection E2 as <-. by exists h1.
Qed.
(** A VM's vCPU and its peer. *)
Lemma two_vcpus {W} (h : hv W) : wf_hv h -> exists v0 v1, h_vcpus h = [v0; v1].
Proof.
  intros Hh. destruct (wh_vcpus h Hh) as [Hl _]. unfold len in Hl.
  destruct (h_vcpus h) as [|v0 [|v1 [|]]]; cbn in Hl; try lia. by exists v0, v1.
Qed.

Section TenantExits.
Context (quantum : nat) (lk : link) (Htab : tables_ok lk).
#[local] Instance tenant_pl' : Platform guest := asm_platform quantum (tenant_xlate lk).
#[local] Instance tenant_ok' : PlatformOk guest := asm_platform_ok quantum (tenant_xlate lk).

(** One run of VM [i], whose guest is the image in its RAM block. *)
Lemma tenant_exits i (h : hv guest) v img q elr x w esr far :
  0 <= i < 2 -> wf_hv h -> core h = tenant_core lk VM0_PA VM1_PA -> aget (h_vcpus h) i = Ok v ->
  m_sctlr (mmu_of_vcpu v) = SCTLR_EL1_RESET -> (q <= quantum)%nat -> len img <= 2 ^ 30 -> image_at (vm_pa i) img (h_mem h) ->
  a64_run (t_ld (vm_pa i) img) (t_st (vm_pa i) img) (block_xl (vm_pa i)) q (pc v) (xregs v) [] = (elr, x, w, Some (esr, far)) ->
  exists v' c, let h1 := ran h i v' c (stores (h_mem h) 0 w) (h_w h) in
    run_once lk i h = Ok (tt, h1) /\ wf_hv h1 /\ core h1 = core h /\ get_vcpu i h1 = Ok (v', h1) /\
    exited v v' elr esr far x /\ trace_ok (vm_pa i) img w.
Proof.
  intros Hi Hh Hc Hv Hs Hq Hl Him E. destruct (core_vttbr lk h VM0_PA VM1_PA i Hc Hi) as (v1 & Ev & Et).
  pose proof (aget_inv _ _ _ Hv) as [_ Ev2]. rewrite Ev in Ev2. injection Ev2 as ->.
  assert (0 <= vm_pa i /\ vm_pa i + 2 ^ 30 <= SPACE) as [Hp1 Hp2] by (unfold vm_pa, VM0_PA, VM1_PA, SPACE; case_match; lia).
  destruct (guest_exits quantum (tenant_xlate lk) lk i h v (vm_pa i) img (block_xl (vm_pa i)) q elr x w esr far)
    as (v' & c & E1 & W1 & Eg & Hx & Hw); try done; [|lia|].
  { intros b. rewrite Et. symmetry. by apply tenant_xlate_block. }
  exists v', c. cbv zeta. split; [exact E1|]. split; [exact W1|]. split; [|by split].
  destruct (run_once_keeps lk i Hi h Hh) as ([] & h2 & E2 & _ & C2 & _). unfold config in C2.
  assert (Ok (tt, ran h i v' c (stores (h_mem h) 0 w) (h_w h)) = Ok (tt, h2)) as Heq by (rewrite <- E1; exact E2).
  injection Heq as <-. exact (f_equal fst C2).
Qed.

(** VM [i] is about to execute at [p] with registers [x], its image still in place. *)
Record tenant_at (i p : Z) (x img : list Z) (h : hv guest) : Prop := {
  ta_wf : wf_hv h;
  ta_core : core h = tenant_core lk VM0_PA VM1_PA;
  ta_vcpu : exists v, aget (h_vcpus h) i = Ok v /\ pc v = p /\ xregs v = x /\ m_sctlr (mmu_of_vcpu v) = SCTLR_EL1_RESET;
  ta_image : image_at (vm_pa i) img (h_mem h)
}.
Definition runs_to (i : Z) (img : list Z) (q : nat) (p : Z) (x : list Z) (elr : Z) (x' : list Z) (w : list cell) (esr : Z) (far : option Z) : Prop :=
  a64_run (t_ld (vm_pa i) img) (t_st (vm_pa i) img) (block_xl (vm_pa i)) q p x [] = (elr, x', w, Some (esr, far)).
(** The state after the exit: only this vCPU and the memory its guest stored to differ. *)
Record tenant_exit (i : Z) (img : list Z) (h h1 : hv guest) (v' : vcpu) (elr : Z) (x' : list Z) (w : list cell) (esr : Z) (far : option Z) : Prop := {
  te_run : run_once lk i h = Ok (tt, h1);
  te_get : get_vcpu i h1 = Ok (v', h1);
  te_wf : wf_hv h1;
  te_core : core h1 = tenant_core lk VM0_PA VM1_PA;
  te_view : view_of h1 = on_mem (fun m => stores m 0 w) (on_vcpus (fun l => <[Z.to_nat i := v']> l) (view_of h));
  te_vcpu : wf_vcpu v';
  te_x : xregs v' = x';
  te_pc : pc v' = u64 elr;
  te_esr : exit_esr v' = u64 esr;
  te_ipa va : far = Some va -> fits 48 va -> exit_ipa v' = va;
  te_mmu : m_sctlr (mmu_of_vcpu v') = SCTLR_EL1_RESET;
  te_image : image_at (vm_pa i) img (h_mem h1);
  te_trace : trace_ok (vm_pa i) img w
}.
Lemma vm_block i : 0 <= vm_pa i /\ vm_pa i + 2 ^ 30 <= SPACE.
Proof. unfold vm_pa, VM0_PA, VM1_PA, SPACE. case_match; lia. Qed.
Lemma tenant_leaves i p x img q h elr x' w esr far :
  0 <= i < 2 -> (q <= quantum)%nat -> len img <= 2 ^ 30 -> tenant_at i p x img h -> runs_to i img q p x elr x' w esr far ->
  exists h1 v', tenant_exit i img h h1 v' elr x' w esr far.
Proof.
  intros Hi Hq Hl [Hh Hc (v & Hv & Hp & Hx & Hs) Him] E. pose proof (vm_block i) as [B1 B2].
  destruct (tenant_exits i h v img q elr x' w esr far) as (v' & c & E1 & W1 & C1 & Eg & Hxt & Hw); try done; [by rewrite Hp, Hx|].
  exists (ran h i v' c (stores (h_mem h) 0 w) (h_w h)), v'. split; try done.
  - by rewrite C1.
  - apply Hxt.
  - apply Hxt.
  - apply Hxt.
  - apply Hxt.
  - apply Hxt.
  - by rewrite (ex_mmu _ _ _ _ _ _ Hxt).
  - apply image_stores; [done|lia|done|done].
Qed.
End TenantExits.

Arguments te_run {_ _ _ _ _ _ _ _ _ _ _ _} _.
Arguments te_get {_ _ _ _ _ _ _ _ _ _ _ _} _.
Arguments te_wf {_ _ _ _ _ _ _ _ _ _ _ _} _.
Arguments te_core {_ _ _ _ _ _ _ _ _ _ _ _} _.
Arguments te_view {_ _ _ _ _ _ _ _ _ _ _ _} _.
Arguments te_vcpu {_ _ _ _ _ _ _ _ _ _ _ _} _.
Arguments te_x {_ _ _ _ _ _ _ _ _ _ _ _} _.
Arguments te_pc {_ _ _ _ _ _ _ _ _ _ _ _} _.
Arguments te_esr {_ _ _ _ _ _ _ _ _ _ _ _} _.
Arguments te_mmu {_ _ _ _ _ _ _ _ _ _ _ _} _.
Arguments te_image {_ _ _ _ _ _ _ _ _ _ _ _} _.
Arguments te_trace {_ _ _ _ _ _ _ _ _ _ _ _} _.
Arguments te_ipa {_ _ _ _ _ _ _ _ _ _ _ _} _.

(** A driver at work: from [p] with [x] it makes the trapped 32-bit stores [l] (offset
    from [base] and value) to a device, each resumed after, and stores [w] to memory. *)
Inductive drives (i : Z) (img : list Z) (q : nat) (base : Z) : Z -> list Z -> list (Z * Z) -> list cell -> Z -> list Z -> Prop :=
| drives_done p x : drives i img q base p x [] [] p x
| drives_store p x elr x' w off srt val l w' p' x'' :
    runs_to i img q p x elr x' w (esr_access 1 2 srt 0 1) (Some (base + off)) -> 0 <= srt < 32 -> val = u32 (gx x' srt) ->
    drives i img q base (u64 (elr + 4)) x' l w' p' x'' ->
    drives i img q base p x ((off, val) :: l) (w ++ w') p' x''.

(** The syndrome of a trapped 32-bit store, as the emulation decodes it. *)
Lemma store_syndrome srt :
  0 <= srt < 32 ->
  let esr := u64 (esr_access 1 2 srt 0 1) in
  ESR_EC esr = EC_DABT_LOW /\ iss_isv (ESR_ISS esr) = 1 /\ iss_srt (ESR_ISS esr) = srt /\ iss_wnr (ESR_ISS esr) = 1.
Proof.
  intros Hs. pose proof (small_check (fun s => let esr := u64 (esr_access 1 2 s 0 1) in (ESR_EC esr =? EC_DABT_LOW) &&
    (iss_isv (ESR_ISS esr) =? 1) && (iss_srt (ESR_ISS esr) =? s) && (iss_wnr (ESR_ISS esr) =? 1)) 32 srt) as Hc.
  cbv zeta in *. rewrite !andb_true_iff, !Z.eqb_eq in Hc. destruct Hc as (((? & ?) & ?) & ?); [vm_compute; reflexivity|done|done].
Qed.
Lemma read_rt_gx v srt : wf_vcpu v -> 0 <= srt < 32 -> read_rt v srt = Ok (gx (xregs v) srt).
Proof.
  intros (Hl & _) Hs. unfold read_rt, gx, get_x. destruct (Z.eqb_spec srt 31); [done|].
  destruct (aget_ok (xregs v) srt) as [y E]; [lia|]. rewrite E. apply aget_inv in E as [_ E]. f_equal. symmetry. by apply nth_lookup_Some.
Qed.

(** ** Register stores of a driver *)

(** The registers of the two virtio devices that only hold a value. *)
Definition dev_reg (off val : Z) (c : vcon) : vcon :=
  if off =? 0x28 then set_page_size c val else if off =? 0x38 then set_queue_num c val
  else if off =? 0x40 then set_queue_pfn c val else if off =? 0x70 then set_status c val else c.
Definition plain_reg (off : Z) : bool := (0 <=? off) && (off <? 0x200) && negb (off =? 0x50) && negb (off =? 0x64).
Definition set_regs (l : list (Z * Z)) (c : vcon) : vcon := fold_left (fun c r => dev_reg r.1 r.2 c) l c.

(** A run loop whose iteration number [g] starts from the locals [at_g g], and the device
    of VM [i] in it: which registers it has, and their update. *)
Section Drive.
Context (quantum : nat) (lk : link) (Htab : tables_ok lk) (i base : Z) (Hi : 0 <= i < 2).
Context {L : Type} (body : L -> st (hv guest) (bool * L)) (at_g : Z -> L) (limit : Z).
Context (has : vcon -> view -> Prop) (put : vcon -> view -> view).
Context (has_put : forall c c' w, has c w -> has c' (put c' w)) (put_put : forall c c' w, put c (put c' w) = put c w).
Context (put_has : forall c w, has c w -> put c w = w).
Context (has_rest : forall c f g w, has c w -> has c (on_mem f (on_vcpus g w))).
Context (put_rest : forall c f g w, on_mem f (on_vcpus g (put c w)) = put c (on_mem f (on_vcpus g w))).
Context (Hdev : forall g img h h1 v' elr x' w srt off c,
  0 <= g < limit -> 0 <= srt < 32 -> plain_reg off = true ->
  tenant_exit quantum lk i img h h1 v' elr x' w (esr_access 1 2 srt 0 1) (Some (base + off)) -> has c (view_of h1) ->
  exists h2, body (at_g g) h = Ok (true, at_g (g + 1), h2) /\ tenant_at lk i (u64 (elr + 4)) x' img h2 /\
    view_of h2 = put (dev_reg off (u32 (gx x' srt)) c) (on_mem id (on_vcpus (fun l => <[Z.to_nat i := pc_advance v']> l) (view_of h1)))).

Lemma drive_loop img q p x l w p' x' :
  (q <= quantum)%nat -> len img <= 2 ^ 30 -> drives i img q base p x l w p' x' -> forallb (fun r => plain_reg r.1) l = true ->
  forall h g fuel c, 0 <= g -> g + len l <= limit -> tenant_at lk i p x img h -> has c (view_of h) ->
  exists h' v', loop (length l + fuel) body (at_g g) h = loop fuel body (at_g (g + len l)) h' /\ tenant_at lk i p' x' img h' /\
    view_of h' = put (set_regs l c) (on_mem (fun m => stores m 0 w) (on_vcpus (fun l => <[Z.to_nat i := v']> l) (view_of h))) /\
    trace_ok (vm_pa i) img w.
Proof.
  intros Hq Hl D. induction D as [p x|p x elr x' w off srt val l w' p' x'' Hr Hs Hval D IH]; intros Hp h g fuel c Hg0 Hg H Hc.
  - destruct (ta_vcpu _ _ _ _ _ _ H) as (v & Ev & _). apply aget_inv in Ev as [_ Ev]. exists h, v. cbn [length Nat.add set_regs fold_left].
    rewrite Z.add_0_r. split; [done|]. split; [done|]. split; [|apply trace_ok_nil].
    rewrite put_has by (by apply has_rest). unfold view_of, on_mem, on_vcpus. cbn. by rewrite (list_insert_id _ _ _ Ev).
  - cbn [forallb fst] in Hp. apply andb_prop in Hp as [Hp1 Hp]. unfold len in Hg. cbn [length] in Hg.
    destruct (tenant_leaves quantum lk Htab i p x img q h _ _ _ _ _ Hi Hq Hl H Hr) as (h1 & v1 & T).
    destruct (Hdev g img h h1 v1 elr x' w srt off c) as (h2 & E2 & H2 & V2); [lia|done|done|done|rewrite (te_view T); by apply has_rest|].
    rewrite <- Hval in V2.
    destruct (IH Hp h2 (g + 1) fuel (dev_reg off val c)) as (h3 & v3 & E3 & H3 & V3 & Hw'); [lia|unfold len; lia|done| |].
    { rewrite V2, (te_view T). by apply (has_put c), has_rest, has_rest. }
    exists h3, v3. split; [|split; [done|split; [|apply trace_ok_app; [apply T|done]]]].
    + cbn [length Nat.add loop]. rewrite (st_bind_Ok _ _ _ _ _ E2), E3. unfold len. cbn [length].
      by replace (g + 1 + Z.of_nat (length l)) with (g + Z.of_nat (S (length l))) by lia.
    + rewrite V3, V2, put_rest, put_put, (te_view T). change (set_regs ((off, val) :: l) c) with (set_regs l (dev_reg off val c)).
      f_equal. unfold on_mem, on_vcpus. cbn [w_vcpus w_mem w_vc w_vb w_out]. by rewrite stores_app, !list_insert_insert_eq.
Qed.
End Drive.

(** ** Blocks *)

(** Cells inside the block of VM [i]. *)
Definition in_block (i : Z) (c : cell) : bool := let '(o, n, _) := c in (vm_pa i <=? o) && (o + Z.of_nat n <=? vm_pa i + 2 ^ 30).
(** Memory outside the block of VM [i]. *)
Definition same_elsewhere (i : Z) (m m' : mem) : Prop :=
  forall c, 0 <= c < SPACE -> ~ (vm_pa i <= c < vm_pa i + 2 ^ 30) -> rd8 m' c = rd8 m c.
Lemma stores_elsewhere i w m : forallb (within SPACE) w = true -> forallb (in_block i) w = true -> same_elsewhere i m (stores m 0 w).
Proof.
  intros Hw Hb c Hc Hn. apply rd8_stores_apart; [done|done|]. rewrite forallb_forall in *. intros [[o n] v] Hx. specialize (Hb _ Hx).
  unfold in_block, Asm.apart in *. change (Z.of_nat 1) with 1. lia.
Qed.
Lemma image_elsewhere i j y m m' :
  0 <= i < 2 -> 0 <= j < 2 -> i <> j -> len y <= 2 ^ 30 -> same_elsewhere i m m' -> image_at (vm_pa j) y m -> image_at (vm_pa j) y m'.
Proof.
  intros Hi Hj Hne Hl Hs. pose proof (vm_block j) as [B1 B2]. intros Hm. apply (image_at_frame _ _ m); [lia|exact Hm|]. intros c Hc.
  apply in_range_bounds in Hc; [|lia|lia]. rewrite <- (rd8_u64 m' c), <- (rd8_u64 m c). apply Hs; [lia|].
  unfold vm_pa, VM0_PA, VM1_PA in *. destruct (Z.eqb_spec i 0), (Z.eqb_spec j 0); lia.
Qed.
Ltac driven off srt := eapply (drives_store _ _ _ _ _ _ _ _ _ off srt); [vm_compute; reflexivity|lia|vm_compute; reflexivity|].

(** Output changes nothing but the console. *)
Section Output.
Context (quantum : nat) (lk : link).
#[local] Instance out_pl : Platform guest := asm_platform quantum (tenant_xlate lk).
#[local] Instance out_ok : PlatformOk guest := asm_platform_ok quantum (tenant_xlate lk).
Lemma println_says s (h : hv guest) :
  wf_hv h -> exists h', println s h = Ok (tt, h') /\ wf_hv h' /\ core h' = core h /\ view_of h' = says (map u8 (line (bytes s) ++ [CR; LF])) (view_of h).
Proof. apply (does_acts (fun k => k) _ (println s)); [apply does_keeps, println_keeps|apply (acts_println quantum lk)]. Qed.
Lemma printf_says fmt args (h : hv guest) :
  Forall arg_ok args -> is_Some (render fmt args) -> wf_hv h ->
  exists h', printf fmt args h = Ok (tt, h') /\ wf_hv h' /\ core h' = core h /\ view_of h' = says (said fmt args) (view_of h).
Proof. intros Ha Hr. apply (does_acts (fun k => k) _ (printf fmt args)); [by apply does_keeps, printf_keeps|by apply (acts_printf quantum lk)]. Qed.
End Output.
Ltac args_ok := repeat (apply Forall_cons; split); [..|by apply Forall_nil]; cbn [arg_ok]; fits_const.

(** Both blocks hold the image after the copies. *)
Lemma images_copied y m m1 :
  map u8 y = y -> len y <= 2 ^ 30 -> m1 = write_bytes (write_bytes m VM0_PA y) VM1_PA y -> image_at VM0_PA y m1 /\ image_at VM1_PA y m1.
Proof.
  intros Hu Hl ->. pose proof (fun m b => write_bytes_image y m b ltac:(lia)) as Hw. rewrite Hu in Hw.
  split; [|apply Hw]. apply image_write; unfold VM0_PA, VM1_PA, SPACE; [lia|lia|lia|lia|lia|apply Hw].
Qed.

(** * The isolation demonstration *)

(** guest_tenant_start up to guest_tenant_end; the VM's number is in x0 on entry. *)
Definition guest_tenant : list asm_line := [
  Ins (OrrR 20 31 0);                (* mov x20, x0 *)
  Ins (MovZ true 1 0x4000 1);        (* movz x1, #0x4000, lsl #16 *)
  Ins (MovK true 1 0x1000 0);        (* movk x1, #0x1000 *)
  Ins (MovZ true 2 0xA5A5 1);        (* movz x2, #0xA5A5, lsl #16 *)
  Ins (OrrR 2 2 20);                 (* orr x2, x2, x20 *)
  Ins (StrI 3 2 1 0);                (* str x2, [x1] *)
  Ins DsbSy;
  Ins (LdrI 3 3 1 0);                (* ldr x3, [x1] *)
  Ins (OrrR 0 31 20);                (* mov x0, x20 *)
  Ins (OrrR 1 31 3);                 (* mov x1, x3 *)
  Ins (HvcI 0);
  Lbl "1"; Ins Wfi; Ref "1" Br ].
Definition tenant_image : list Z := default [] (assemble 0 guest_tenant).
Lemma tenant_assembled a : assemble a guest_tenant = Some tenant_image.
Proof. vm_compute. reflexivity. Qed.
Definition tenant_magic (i : Z) : Z := 0xA5A50000 .| i.
Definition tenant_store (i : Z) : list cell := [(vm_pa i + 0x1000, 8%nat, tenant_magic i)].

(** The run of VM [i], computed on its image. *)
Lemma tenant_trace i :
  0 <= i < 2 ->
  exists x, a64_run (t_ld (vm_pa i) tenant_image) (t_st (vm_pa i) tenant_image) (block_xl (vm_pa i)) 11 VM_IPA
              (<[0%nat := i]> (replicate 31 0)) [] = (VM_IPA + 44, x, tenant_store i, Some (esr_hvc64 0, None)) /\
    x !! 0%nat = Some i /\ x !! 1%nat = Some (tenant_magic i).
Proof. intros Hi. assert (i = 0 \/ i = 1) as [-> | ->] by lia; eexists; (split; [vm_compute; reflexivity|done]). Qed.

Section M16.
Context (quantum : nat) (lk : link) (a : Z).
Context (Hq : (11 <= quantum)%nat) (Htab : tables_ok lk) (Himg : assemble a guest_tenant = Some (lk_image lk "guest_tenant")).
#[local] Instance m16_pl : Platform guest := asm_platform quantum (tenant_xlate lk).
#[local] Instance m16_ok : PlatformOk guest := asm_platform_ok quantum (tenant_xlate lk).

Lemma m16_image : lk_image lk "guest_tenant" = tenant_image.
Proof. rewrite tenant_assembled in Himg. by injection Himg. Qed.
Definition m16_vcpu (i : Z) : vcpu := with_x 0 i (vcpu_init VM_IPA (VM_IPA + 0x8000) (vm_vttbr lk i) i).
Definition m16_mem (m : mem) : mem := write_bytes (write_bytes m VM0_PA tenant_image) VM1_PA tenant_image.

Lemma m16_ready (h : hv guest) :
  wf_hv h ->
  exists h1, mtenant_setup lk h = Ok (tt, h1) /\ wf_hv h1 /\ core h1 = tenant_core lk VM0_PA VM1_PA /\
    view_of h1 = mk_view [m16_vcpu 0; m16_vcpu 1] (m16_mem (h_mem h)) (h_vc h) (h_vb h) (h_console h ++ stage2_text lk).
Proof.
  intros Hh. assert (exists G, acts tt G (mtenant_setup lk) /\ G (view_of h) = mk_view [m16_vcpu 0; m16_vcpu 1] (m16_mem (h_mem h))
    (h_vc h) (h_vb h) (h_console h ++ stage2_text lk)) as (G & HG & EG).
  { eexists. split; [unfold mtenant_setup; acts_run|]. destruct (two_vcpus h Hh) as (v0 & v1 & Ev).
    unfold view_of, m16_mem. rewrite Ev, <- m16_image. reflexivity. }
  destruct (does_acts _ _ _ (mtenant_setup_does lk) HG h Hh) as (h1 & E & W1 & C1 & V1). exists h1. by rewrite V1, EG.
Qed.

Definition m16_fmt : list Z := ln "[M16] VM%u ran at IPA 0x40000000, wrote+read its private magic = %x".
Lemma m16_vm i (h : hv guest) :
  0 <= i < 2 -> wf_hv h -> core h = tenant_core lk VM0_PA VM1_PA -> aget (h_vcpus h) i = Ok (m16_vcpu i) ->
  image_at (vm_pa i) tenant_image (h_mem h) ->
  exists h' v', mtenant_one lk i h = Ok (tt, h') /\ wf_hv h' /\ core h' = core h /\ h_vcpus h' = <[Z.to_nat i := v']> (h_vcpus h) /\
    h_mem h' = stores (h_mem h) 0 (tenant_store i) /\
    h_console h' = h_console h ++ said m16_fmt [AInt i; AInt (tenant_magic i)].
Proof.
  intros Hi Hh Hc Hv Him. destruct (tenant_trace i Hi) as (x & Et & X0 & X1).
  destruct (tenant_exits quantum lk Htab i h (m16_vcpu i) tenant_image 11 _ _ _ _ _ Hi Hh Hc Hv eq_refl Hq ltac:(vm_compute; congruence) Him Et)
    as (v' & c & E1 & W1 & C1 & Eg & Hx & _). set (h1 := ran _ _ _ _ _ _) in *.
  assert (fits 64 (tenant_magic i)) as Hm by (apply fits_lor; [lia|fits_const|unfold fits; lia]).
  destruct (acts_printf quantum lk m16_fmt [AInt i; AInt (tenant_magic i)]) with (h := h1) as (h' & E2 & W2 & V2); [|by eexists|done|].
  { apply Forall_cons. split; [unfold arg_ok, fits; lia|]. by apply Forall_singleton. }
  unfold view_of, says in V2. injection V2 as V2 V3 _ _ V4. exists h', v'.
  assert (mtenant_one lk i h = Ok (tt, h')) as E.
  { unfold mtenant_one. rewrite (st_bind_Ok _ _ _ _ _ E1), (st_bind_Ok _ _ _ _ _ Eg).
    unfold exit_ec. rewrite (ex_esr _ _ _ _ _ _ Hx). change (ESR_EC (u64 (esr_hvc64 0)) =? EC_HVC64) with true. cbv beta iota zeta.
    assert (forall r y, x !! Z.to_nat r = Some y -> 0 <= r -> x_of i r h1 = Ok (y, h1)) as Hr.
    { intros r y Hy Hr. unfold x_of. rewrite (st_bind_Ok _ _ _ _ _ Eg). unfold try_, get_x. rewrite (ex_x _ _ _ _ _ _ Hx).
      by rewrite (aget_lookup _ _ _ Hr Hy). }
    rewrite (st_bind_Ok _ _ _ _ _ (Hr 0 i X0 ltac:(lia))), (st_bind_Ok _ _ _ _ _ (Hr 1 _ X1 ltac:(lia))). exact E2. }
  split; [exact E|]. split; [exact W2|]. split.
  - destruct (mtenant_one_keeps lk i Hi h Hh) as ([] & h2 & E3 & _ & C3 & _). rewrite E in E3. injection E3 as <-. exact (f_equal fst C3).
  - split; [by rewrite V2|]. split; [by rewrite V3|]. by rewrite V4.
Qed.

(** Memory through the demonstration. *)
Lemma m16_images m : image_at VM0_PA tenant_image (m16_mem m) /\ image_at VM1_PA tenant_image (m16_mem m).
Proof. apply (images_copied _ m); [vm_compute; reflexivity|vm_compute; congruence|reflexivity]. Qed.
Lemma tenant_store_ok i j : 0 <= i < 2 -> 0 <= j < 2 -> trace_ok (vm_pa j) tenant_image (tenant_store i).
Proof.
  intros Hi Hj. assert (i = 0 \/ i = 1) as [-> | ->] by lia; assert (j = 0 \/ j = 1) as [-> | ->] by lia;
    (split; [reflexivity|]; split; [|reflexivity]); apply Forall_singleton; fits_const.
Qed.
(** The memory the demonstration leaves. *)
Definition m16_final (m : mem) : mem := stores (m16_mem m) 0 (tenant_store 0 ++ tenant_store 1).
Lemma m16_cell m i : 0 <= i < 2 -> ld64 (m16_final m) (vm_pa i + 0x1000) = tenant_magic i.
Proof.
  intros Hi. unfold m16_final. rewrite <- (Z.add_0_l (vm_pa i + 0x1000)).
  apply (load_written 0 SPACE ltac:(unfold SPACE; lia) _ _ _ _ None); [|reflexivity| |done|];
    [|repeat (apply Forall_cons; split); [fits_const|fits_const|by apply Forall_nil]|];
    (assert (i = 0 \/ i = 1) as [-> | ->] by lia; reflexivity).
Qed.
Lemma m16_frame m c :
  0 <= c < SPACE -> ~ in_range (len tenant_image) VM0_PA c -> ~ in_range (len tenant_image) VM1_PA c ->
  ~ in_range 8 (VM0_PA + 0x1000) c -> ~ in_range 8 (VM1_PA + 0x1000) c -> rd8 (m16_final m) c = rd8 m c.
Proof.
  intros Hc H0 H1 H2 H3. unfold m16_final. rewrite rd8_stores_apart; [|done|reflexivity|].
  - unfold m16_mem. by rewrite !rd8_write_bytes.
  - cbn [app tenant_store forallb]. unfold Asm.apart, in_range, vm_pa, VM0_PA, VM1_PA, SPACE in *. change (Z.of_nat 1) with 1.
    change (0 =? 0) with true. change (1 =? 0) with false. cbv iota. clear H0 H1.
    assert (forall b, 0 <= b < 2 ^ 40 -> ~ u64 (c - b) < 8 -> (c + 1 <=? b) || (b + Z.of_nat 8 <=? c) = true) as Hf.
    { intros b Hb Hn. destruct (Z.leb_spec (c + 1) b), (Z.leb_spec (b + Z.of_nat 8) c); try done. destruct Hn. zlia. }
    by rewrite !Hf by (done || lia).
Qed.

(** What the demonstration prints after the stage-2 message. *)
Definition m16_text : list Z := flat_map (fun s => line (ln s)) [
  "[M16] two isolated VMs: same guest IPA 0x40000000 -> different host RAM";
  "      VM0 RAM @host 0x80000000, VM1 RAM @host 0xc0000000";
  "[M16] VM0 ran at IPA 0x40000000, wrote+read its private magic = 0xa5a50000";
  "[M16] VM1 ran at IPA 0x40000000, wrote+read its private magic = 0xa5a50001";
  "[M16] host view: VM0 block @0x80001000 = 0xa5a50000 ; VM1 block @0xc0001000 = 0xa5a50001";
  "[M16] isolation verified: identical guest address, distinct host memory; neither VM can see the other."]%string.

(** C9: The isolation demonstration shows isolation.  With the image of
    guest_tenant_entry as the assembler lays it out, mtenant_demo copies it to both VMs'
    blocks, both VMs execute it from there instruction by instruction under their own
    stage-2 tables, and from any well-formed state it returns with exactly the expected
    report on the console: the two VMs ran at one address and read back their own magic
    numbers, the host finds the two numbers at different physical addresses.  The VMs are
    isolated in the sense of [isolated], and no byte of memory has changed outside the two
    images and the two cells the guests wrote. *)
Theorem mtenant_demo_shows (h : hv guest) :
  wf_hv h ->
  exists h', mtenant_demo lk h = Ok (tt, h') /\ h_console h' = h_console h ++ stage2_text lk ++ m16_text /\
    isolated lk VM0_PA VM1_PA h' /\ (forall i b, 0 <= i < 2 -> tenant_xlate lk (vm_vttbr lk i) b = s2_pa <$> guest_walk lk h' i b) /\
    ld64 (h_mem h') (VM0_PA + 0x1000) = 0xA5A50000 /\ ld64 (h_mem h') (VM1_PA + 0x1000) = 0xA5A50001 /\
    (forall c, 0 <= c < SPACE -> ~ in_range (len tenant_image) VM0_PA c -> ~ in_range (len tenant_image) VM1_PA c ->
       ~ in_range 8 (VM0_PA + 0x1000) c -> ~ in_range 8 (VM1_PA + 0x1000) c -> rd8 (h_mem h') c = rd8 (h_mem h) c).
Proof.
  intros Hh. destruct (m16_ready h Hh) as (h1 & E1 & W1 & C1 & V1).
  destruct (println_says quantum lk "[M16] two isolated VMs: same guest IPA 0x40000000 -> different host RAM" h1 W1) as (h2 & E2 & W2 & C2 & V2).
  destruct (printf_says quantum lk (ln "      VM0 RAM @host %x, VM1 RAM @host %x") [AInt VM0_PA; AInt VM1_PA] h2 ltac:(args_ok) ltac:(by eexists) W2)
    as (h3 & E3 & W3 & C3 & V3). rewrite V2, V1 in V3. injection V3 as A3 M3 _ _ O3. clear V1 V2.
  destruct (m16_images (h_mem h)) as [I0 I1].
  destruct (m16_vm 0 h3) as (h4 & v0 & E4 & W4 & C4 & A4 & M4 & O4); [lia|done|congruence|by rewrite A3|by rewrite M3|].
  destruct (m16_vm 1 h4) as (h5 & v1 & E5 & W5 & C5 & A5 & M5 & O5); [lia|done|congruence|by rewrite A4, A3| |].
  { rewrite M4, M3. apply image_stores; [done|done|by apply (tenant_store_ok 0 1); lia|exact I1]. }
  assert (h_mem h5 = m16_final (h_mem h)) as M6 by (rewrite M5, M4, M3; symmetry; apply stores_app).
  pose proof (m16_cell (h_mem h) 0 ltac:(lia)) as L0. pose proof (m16_cell (h_mem h) 1 ltac:(lia)) as L1.
  rewrite <- M6 in L0, L1.
  assert (forall b v, ld64 (h_mem h5) b = v -> read_mem32 b h5 = Ok (u32 v, h5)) as Hrd.
  { intros b v Hb. unfold read_mem32, gets. rewrite (load_low 4 4). change (4 + 4)%nat with 8%nat. by rewrite Hb. }
  destruct (printf_says quantum lk (ln "[M16] host view: VM0 block @%x = %x ; VM1 block @%x = %x")
    [AInt (VM0_PA + 0x1000); AInt (u32 (tenant_magic 0)); AInt (VM1_PA + 0x1000); AInt (u32 (tenant_magic 1))] h5 ltac:(args_ok) ltac:(by eexists) W5)
    as (h6 & E6 & W6 & C6 & V6).
  destruct (println_says quantum lk "[M16] isolation verified: identical guest address, distinct host memory; neither VM can see the other." h6 W6)
    as (h7 & E7 & W7 & C7 & V7). rewrite V6 in V7. injection V7 as A7 M7 _ _ O7. clear V6.
  assert (core h7 = tenant_core lk VM0_PA VM1_PA) as Hc by congruence.
  exists h7. split.
  { unfold mtenant_demo. rewrite (st_bind_Ok _ _ _ _ _ E1), (st_bind_Ok _ _ _ _ _ E2), (st_bind_Ok _ _ _ _ _ E3), (st_bind_Ok _ _ _ _ _ E4),
      (st_bind_Ok _ _ _ _ _ E5), (st_bind_Ok _ _ _ _ _ (Hrd _ _ L0)), (st_bind_Ok _ _ _ _ _ (Hrd _ _ L1)), (st_bind_Ok _ _ _ _ _ E6).
    change (u32 (tenant_magic 0) =? u32 (tenant_magic 1)) with false. exact E7. }
  split.
  { rewrite O7, O5, O4, O3, <- !app_assoc. do 2 apply (f_equal (app _)). vm_compute. reflexivity. }
  split; [apply core_isolated; [done|fits_const|fits_const|by vm_compute|done]|].
  split; [intros i b Hi; by apply tenant_xlate_walk|]. rewrite M7. split; [exact L0|]. split; [exact L1|]. rewrite M6. apply m16_frame.
Qed.
End M16.

Definition image_link (name : string) (img : list Z) : link :=
  mk_link (lk_vcpus link0) (lk_gstack link0) (lk_s2_l1 link0) (lk_s2_vm link0) (lk_entry link0) (fun s => if decide (s = name) then img else []).
Lemma mtenant_demo_shows_witness :
  exists h', mtenant_demo (PL := m16_pl 11 (image_link "guest_tenant" tenant_image)) (image_link "guest_tenant" tenant_image) (hv_boot idle_guest) =
      Ok (tt, h') /\
    h_console h' = line (ln "[M3] stage-2 ON: vtcr=0x80023559 vttbr=0x70300000 (mapped 1GiB @0x40000000)") ++ m16_text /\
    ld64 (h_mem h') (VM0_PA + 0x1000) = 0xA5A50000 /\ ld64 (h_mem h') (VM1_PA + 0x1000) = 0xA5A50001.
Proof.
  destruct (mtenant_demo_shows 11 (image_link "guest_tenant" tenant_image) 0x40081000 (le_n _) link0_tables (tenant_assembled _) (hv_boot idle_guest)
    (hv_boot_wf _)) as (h' & E & C & _ & _ & L0 & L1 & _). exists h'. split; [exact E|].
  split; [rewrite C; vm_compute; reflexivity|]. by split.
Defined.
