(* ===== verification/DiskRun.v ===== *)
(** The disk demonstration with its guest (src/src/guest.S, guest_vblk_simple_entry;
    mtenant_vblk_demo of src/src/vcpu.c): each VM builds a request chain in its own RAM,
    programs its virtio-blk device by trapped stores and notifies it. *)

From S2P Require Import Prelude Esr Machine Vcpu Asm World Stage2 Vgic Uart Vdev Handlers Vvirtio Vblk BlkQueue Timer Hv Sched Smp Tenants.
From S2P Require Import VirtioRun GuestProg Counters A64 GuestRun TenantRun.

(** guest_vbs_start up to guest_vbs_end. *)
Definition vbs_message : list Z := bytes "per-VM virtio-blk!".
Definition guest_vbs : list asm_line := [
  Ins (MovZ true 10 0x4002 1);       (* movz x10, #0x4002, lsl #16 *)
  Ref "gvbs_msg" (Adr 11);           (* adr x11, gvbs_msg *)
  Ins (MovZ true 3 0 0);             (* mov x3, #0 *)
  Lbl "1"; Ins (LdrbR 0 11 3);       (* ldrb w0, [x11, x3] *)
  Ref "2" (CbzW 0);                  (* cbz w0, 2f *)
  Ins (AddI 3 3 1 0);                (* add x3, x3, #1 *)
  Ref "1" Br;                        (* b 1b *)
  Lbl "2"; Ins (MovZ true 6 0x4002 1); (* movz x6, #0x4002, lsl #16 *)
  Ins (AddI 6 6 1 1);                (* add x6, x6, #0x1000 *)
  Ins (MovZ false 0 1 0);            (* mov w0, #1 *)
  Ins (StrI 2 0 6 0);                (* str w0, [x6] *)
  Ins (StrI 2 31 6 4);               (* str wzr, [x6, #4] *)
  Ins (StrI 3 31 6 8);               (* str xzr, [x6, #8] *)
  Ins (StrI 3 6 10 0);               (* str x6, [x10, #0] *)
  Ins (MovZ false 0 16 0);           (* mov w0, #16 *)
  Ins (StrI 2 0 10 8);               (* str w0, [x10, #8] *)
  Ins (MovZ false 0 1 0);            (* movz w0, #1 *)
  Ins (MovK false 0 1 1);            (* movk w0, #1, lsl #16 *)
  Ins (StrI 2 0 10 12);              (* str w0, [x10, #12] *)
  Ins (StrI 3 11 10 16);             (* str x11, [x10, #16] *)
  Ins (StrI 2 3 10 24);              (* str w3, [x10, #24] *)
  Ins (MovZ false 0 1 0);            (* movz w0, #1 *)
  Ins (MovK false 0 2 1);            (* movk w0, #2, lsl #16 *)
  Ins (StrI 2 0 10 28);              (* str w0, [x10, #28] *)
  Ins (AddI 7 6 0x100 0);            (* add x7, x6, #0x100 *)
  Ins (StrI 3 7 10 32);              (* str x7, [x10, #32] *)
  Ins (MovZ false 0 1 0);            (* mov w0, #1 *)
  Ins (StrI 2 0 10 40);              (* str w0, [x10, #40] *)
  Ins (MovZ false 0 2 0);            (* mov w0, #2 *)
  Ins (StrI 2 0 10 44);              (* str w0, [x10, #44] *)
  Ins (AddI 4 10 64 0);              (* add x4, x10, #64 *)
  Ins (StrI 1 31 4 0);               (* strh wzr, [x4, #0] *)
  Ins (MovZ false 0 1 0);            (* mov w0, #1 *)
  Ins (StrI 1 0 4 2);                (* strh w0, [x4, #2] *)
  Ins (StrI 1 31 4 4);               (* strh wzr, [x4, #4] *)
  Ins DsbSy;
  Ins (MovZ true 5 0x0A00 1);        (* movz x5, #0x0A00, lsl #16 *)
  Ins (AddI 5 5 0x200 0);            (* add x5, x5, #0x200 *)
  Ins (MovZ false 0 4096 0);         (* mov w0, #4096 *)
  Ins (StrI 2 0 5 0x28);             (* str w0, [x5, #0x28] *)
  Ins (StrI 2 31 5 0x30);            (* str wzr, [x5, #0x30] *)
  Ins (MovZ false 0 4 0);            (* mov w0, #4 *)
  Ins (StrI 2 0 5 0x38);             (* str w0, [x5, #0x38] *)
  Ins (MovZ false 0 4096 0);         (* mov w0, #4096 *)
  Ins (StrI 2 0 5 0x3c);             (* str w0, [x5, #0x3c] *)
  Ins (MovZ false 0 4 1);            (* movz w0, #0x0004, lsl #16 *)
  Ins (MovK false 0 0x20 0);         (* movk w0, #0x0020 *)
  Ins (StrI 2 0 5 0x40);             (* str w0, [x5, #0x40] *)
  Ins (MovZ false 0 0xF 0);          (* mov w0, #0xF *)
  Ins (StrI 2 0 5 0x70);             (* str w0, [x5, #0x70] *)
  Ins (StrI 2 31 5 0x50);            (* str wzr, [x5, #0x50] *)
  Ins (HvcI 0);
  Lbl "3"; Ins Wfi; Ref "3" Br;
  Balign 8;
  Lbl "gvbs_msg"; Asciz vbs_message;
  Balign 4 ].

(** * The device behind trapped stores *)

Section Mmio.
Context (vm : Z) (v : vcpu) (vb : list vblk) (m : mem) (b : vblk) (srt : Z).
Context (Hvm : 0 <= vm < len vb) (Hb : aget vb vm = Ok b) (Hv : wf_vcpu v) (Hs : 0 <= srt < 32).
Context (He : exit_esr v = u64 (esr_access 1 2 srt 0 1)).

Lemma vblk_mmio_store off :
  0 <= off < 0x200 ->
  vblk_mmio vm v (VBLK_BASE + off) vb m =
    ('(vb, m) ← (if off =? 0x50 then vblk_process vm vb m
                 else if off =? 0x64 then
                   vb ← aset vb vm (mk_vblk (set_irq (regs b) (int_status (regs b) .& cnot 32 (u32 (gx (xregs v) srt))) (irq (regs b))) (disk b)); Ok (vb, m)
                 else Ok (<[Z.to_nat vm := mk_vblk (dev_reg off (u32 (gx (xregs v) srt)) (regs b)) (disk b)]> vb, m));
     Ok (pc_advance v, vb, m)).
Proof.
  intros Hoff. destruct (store_syndrome srt Hs) as (_ & S1 & S2 & S3). unfold vblk_mmio. rewrite Hb. cbn [mbind res_bind].
  rewrite He, S1, S2, S3. change (1 =? 0) with false. cbv beta iota zeta. cbn [negb].
  rewrite (read_rt_gx v srt Hv Hs). cbn [mbind res_bind].
  replace (VBLK_BASE + off - VBLK_BASE) with off by lia. rewrite (wrap_fits 64 off) by (unfold fits; lia). unfold dev_reg.
  destruct (Z.eqb_spec off 0x28) as [->|]; [by rewrite aset_ok by done|]. destruct (Z.eqb_spec off 0x38) as [->|]; [by rewrite aset_ok by done|].
  destruct (Z.eqb_spec off 0x40) as [->|]; [by rewrite aset_ok by done|]. destruct (Z.eqb_spec off 0x70) as [->|]; [by rewrite aset_ok by done|].
  destruct (Z.eqb_spec off 0x64) as [->|]; [done|]. destruct (Z.eqb_spec off 0x50) as [->|]; [done|].
  cbn [mbind res_bind]. rewrite list_insert_id; [done|]. apply aget_inv in Hb as [_ Hb']. rewrite Hb'. by destruct b.
Qed.
End Mmio.

(** One outstanding request.  The driver's chain may share memory with the used ring: the
    device has read it before it reports completion. *)
Lemma process_one vm vb m b :
  let c := regs b in let q := parse c m in
  wf_vb vb -> 0 <= vm < 2 -> aget vb vm = Ok b -> request_ok c q ->
  ld16 m (q_avail (q_base c) (queue_num c) + 2) = u16 (last_avail c + 1) ->
  exists b' m', vblk_process vm vb m = Ok (<[Z.to_nat vm := b']> vb, m') /\ wf_vblk b' /\
    regs b' = set_irq (set_last_avail c (u16 (last_avail c + 1))) (int_status c .| 1) 1 /\
    disk b' = apply_rq m q (disk b) /\ served c q (disk b) m m'.
Proof.
  intros c q [Hl HF] Hvm Hb Hok Hai. pose proof (Forall_aget _ _ _ _ HF Hb) as Hwb.
  destruct (serve_one b m Hwb Hok) as (b' & m' & Es & Wb & Hr & Hd & Hs). fold c q in Es, Hr, Hd, Hs.
  exists b', m'. split; [|done]. pose proof (fits_la b Hwb) as Hla. fold c in Hla. unfold vblk_process. rewrite Hb. cbn [mbind res_bind]. cbv zeta. fold c.
  destruct (Z.eqb_spec (queue_pfn c) 0); [by destruct (rk_pfn _ _ Hok)|].
  destruct (Z.eqb_spec (queue_num c) 0); [pose proof (rk_num _ _ Hok); lia|]. cbn [orb]. rewrite Hai.
  assert (TX_FUEL = S (S (Z.to_nat 65534))) as -> by (unfold TX_FUEL; lia). cbn [blk_loop]. fold c.
  destruct (Z.eqb_spec (last_avail c) (u16 (last_avail c + 1))) as [E|_]; [exfalso; zlia|]. rewrite Es. cbn [mbind res_bind].
  assert (last_avail (regs b') = u16 (last_avail c + 1)) as -> by by rewrite Hr. rewrite Z.eqb_refl. cbn [mbind res_bind].
  by rewrite aset_ok by lia.
Qed.

(** * The image and its run *)
Definition vbs_image (a : Z) : list Z := default [] (assemble a guest_vbs).
(** The layout depends only on the alignment of its address. *)
Lemma vbs_assembled a : a mod 4 = 0 -> assemble a guest_vbs = Some (vbs_image (a mod 8)) /\ (a mod 8 = 0 \/ a mod 8 = 4).
Proof.
  intros Ha. rewrite <- (assemble_mod 8) by done. assert (a mod 8 = 0 \/ a mod 8 = 4) as H by zlia. split; [|done].
  destruct H as [-> | ->]; vm_compute; reflexivity.
Qed.

Definition vbs_regs : list (Z * Z) := [(0x28, 4096); (0x30, 0); (0x38, 4); (0x3c, 4096); (0x40, 0x40020); (0x70, 0xF)].
Definition vbs_con (i : Z) : vcon := mk_vcon 0xF 4096 4 0x40020 0 0 0 (vm_pa i - VM_IPA).
Definition vbs_request (i a : Z) : request := mk_req 0 1 0 (vm_pa i + 216 + a) 18 (vm_pa i + 0x21100).
(** What the guest does, computed on its image: six register stores, the notification,
    the hypercall; and the chain it has built by then, as the device will read it. *)
Definition vbs_ready (i a : Z) (w : list cell) : Prop :=
  let m := model_mem (vm_pa i) (vbs_image a) w in let c := vbs_con i in
  forallb (known_range (vm_pa i) (vbs_image a) w)
    ((2, q_avail (q_base c) 4 + 2) :: (2, q_used (q_base c) 4 + 2) :: rq_reads c m) = true /\
  forallb (in_block i) w = true /\ parse c m = vbs_request i a /\ ld16 m (q_avail (q_base c) 4 + 2) = 1 /\
  ld16 m (q_used (q_base c) 4 + 2) = 0 /\ mem_bytes m (vm_pa i + 216 + a) 18 = vbs_message.
Lemma vbs_runs i a :
  0 <= i < 2 -> a = 0 \/ a = 4 ->
  exists w p x, drives i (vbs_image a) 150 VBLK_BASE VM_IPA (replicate 31 0) vbs_regs w p x /\
    runs_to i (vbs_image a) 150 p x (VM_IPA + 200) x [] (esr_access 1 2 31 0 1) (Some (VBLK_BASE + 0x50)) /\
    runs_to i (vbs_image a) 150 (VM_IPA + 204) x (VM_IPA + 208) x [] (esr_hvc64 0) None /\ vbs_ready i a w.
Proof.
  intros Hi Ha. assert (i = 0 \/ i = 1) as Hi' by lia. clear Hi. unfold vbs_regs.
  destruct Hi' as [-> | ->], Ha as [-> | ->]; (eexists _, _, _; split;
    [ driven 0x28 0; driven 0x30 31; driven 0x38 0; driven 0x3c 0; driven 0x40 0; driven 0x70 0; apply drives_done
    | split; [vm_compute; reflexivity|]; split; [vm_compute; reflexivity|];
      split; [vm_compute; reflexivity|]; split; [vm_compute; reflexivity|]; split; [vm_compute; reflexivity|];
      split; [vm_compute; reflexivity|]; split; vm_compute; reflexivity ]).
Qed.

Section M28.
Context (quantum : nat) (lk : link) (Htab : tables_ok lk).
#[local] Instance m28_pl : Platform guest := asm_platform quantum (tenant_xlate lk).
#[local] Instance m28_ok : PlatformOk guest := asm_platform_ok quantum (tenant_xlate lk).

(** One iteration that emulates a trapped store to the device. *)
Lemma m28_device i g img h h1 v' elr x' w srt off vb' m' :
  0 <= i < 2 -> g < 50000 -> 0 <= srt < 32 -> 0 <= off < 0x200 ->
  tenant_exit quantum lk i img h h1 v' elr x' w (esr_access 1 2 srt 0 1) (Some (VBLK_BASE + off)) ->
  vblk_mmio i v' (VBLK_BASE + off) (h_vb h1) (h_mem h1) = Ok (pc_advance v', vb', m') -> image_at (vm_pa i) img m' ->
  exists h2, m28_body lk i g h = Ok (true, g + 1, h2) /\ tenant_at lk i (u64 (elr + 4)) x' img h2 /\
    view_of h2 = mk_view (<[Z.to_nat i := pc_advance v']> (h_vcpus h)) m' (h_vc h) vb' (h_console h).
Proof.
  intros Hi Hg Hs Hoff T Em Him. destruct (store_syndrome srt Hs) as (Sec & _).
  pose proof (te_view T) as V. view_parts V V1 V2 V3 V4 V5.
  assert (exit_ec v' = EC_DABT_LOW) as Hec by (unfold exit_ec; by rewrite (te_esr T)).
  assert (exit_ipa v' = VBLK_BASE + off) as Hipa.
  { apply (te_ipa T); [done|]. unfold fits, VBLK_BASE. lia. }
  pose proof (te_wf T) as W1. destruct (wh_vcpus h1 W1) as [Hl _].
  set (h2 := put_vcpus (put_mem (put_vb h1 vb') m') (<[Z.to_nat i := pc_advance v']> (h_vcpus h1))).
  assert (do_vblk_mmio i i (VBLK_BASE + off) h1 = Ok (tt, h2)) as Ed.
  { unfold do_vblk_mmio. rewrite (st_bind_Ok _ _ _ _ _ (te_get T)). unfold mbind at 1, st_bind at 1. rewrite Em.
    cbn [mbind res_bind]. unfold set_vcpu, update. cbn [h_vcpus put_mem put_vb]. by rewrite aset_ok by lia. }
  pose proof (do_vblk_mmio_contained i i (VBLK_BASE + off) Hi Hi h1 W1) as Hc. rewrite Ed in Hc. destruct Hc as (W2 & C2 & _).
  exists h2. split; [|split].
  - unfold m28_body. destruct (Z.ltb_spec g 50000); [|lia]. cbn [negb].
    rewrite (st_bind_Ok _ _ _ _ _ (te_run T)), (st_bind_Ok _ _ _ _ _ (te_get T)).
    rewrite Hec, Hipa. change (EC_DABT_LOW =? EC_HVC64) with false. change (EC_DABT_LOW =? EC_DABT_LOW) with true. cbv beta iota zeta.
    assert (vblk_contains (VBLK_BASE + off) = true) as -> by (unfold vblk_contains, VBLK_SIZE; lia). by rewrite (st_bind_Ok _ _ _ _ _ Ed).
  - split; [done| | |done].
    + transitivity (core h1); [exact (f_equal fst C2)|apply T].
    + exists (pc_advance v'). split; [cbn [h2 h_vcpus put_vcpus]; by rewrite aget_insert_eq by lia|]. split; [|split; [apply T|apply T]].
      unfold pc_advance, set_pc. cbn [pc]. rewrite (te_pc T). apply wrap_add_l.
  - unfold view_of, h2. cbn [h_vcpus h_mem h_vc h_vb h_w put_vcpus put_mem put_vb]. rewrite V1, V3, list_insert_insert_eq. f_equal. exact V5.
Qed.

(** A sequence of register stores. *)
Definition blk_has (i : Z) (d : list Z) (c : vcon) (w : view) : Prop := w_vb w !! Z.to_nat i = Some (mk_vblk c d).
Definition blk_put (i : Z) (d : list Z) (c : vcon) : view -> view := on_vb (fun l => <[Z.to_nat i := mk_vblk c d]> l).
Lemma m28_drives i d img q p x l w p' x' :
  0 <= i < 2 -> (q <= quantum)%nat -> len img <= 2 ^ 30 -> drives i img q VBLK_BASE p x l w p' x' ->
  forallb (fun r => plain_reg r.1) l = true ->
  forall h g fuel c, 0 <= g -> g + len l <= 50000 -> tenant_at lk i p x img h -> blk_has i d c (view_of h) ->
  exists h' v', loop (length l + fuel) (m28_body lk i) g h = loop fuel (m28_body lk i) (g + len l) h' /\ tenant_at lk i p' x' img h' /\
    view_of h' = blk_put i d (set_regs l c) (on_mem (fun m => stores m 0 w) (on_vcpus (fun l => <[Z.to_nat i := v']> l) (view_of h))) /\
    trace_ok (vm_pa i) img w.
Proof.
  intros Hi. apply (drive_loop quantum lk Htab i VBLK_BASE Hi (m28_body lk i) id 50000 (blk_has i d) (blk_put i d)).
  - intros c c' v Hc. unfold blk_has, blk_put in *. cbn. apply list_lookup_insert_eq. by eapply lookup_lt_Some.
  - intros c c' v. unfold blk_put, on_vb. cbn. by rewrite list_insert_insert_eq.
  - intros c v Hc. unfold blk_put, on_vb. rewrite list_insert_id by done. by destruct v.
  - done.
  - done.
  - intros g img' h h1 v' elr y w' srt off c Hg Hs Ho T Hc. unfold plain_reg in Ho.
    rewrite !andb_true_iff, !negb_true_iff, !Z.eqb_neq in Ho. destruct Ho as (((Ho1 & Ho2) & Ho3) & Ho4). assert (0 <= off < 0x200) as Hoff by lia.
    assert (aget (h_vb h1) i = Ok (mk_vblk c d)) as Hb by (apply aget_lookup; [lia|exact Hc]). destruct (wh_vb h1 (te_wf T)) as [Lb _].
    pose proof (vblk_mmio_store i v' (h_vb h1) (h_mem h1) _ srt ltac:(lia) Hb (te_vcpu T) Hs (te_esr T) off Hoff) as Em.
    destruct (Z.eqb_spec off 0x50); [done|]. destruct (Z.eqb_spec off 0x64); [done|]. cbn [mbind res_bind] in Em. rewrite (te_x T) in Em.
    destruct (m28_device i g img' h h1 v' elr y w' srt off _ _ Hi ltac:(lia) Hs Hoff T Em (te_image T)) as (h2 & E2 & H2 & V2).
    exists h2. split; [exact E2|]. split; [exact H2|]. rewrite V2. pose proof (te_view T) as V. view_parts V V1 V3 V4 V5 V6.
    unfold blk_put, on_vb, on_mem, on_vcpus, view_of. cbn [w_vcpus w_mem w_vc w_vb w_out]. by rewrite V1, V4, V6, list_insert_insert_eq.
Qed.

Lemma vbs_request_ok i a : 0 <= i < 2 -> a = 0 \/ a = 4 -> request_ok (vbs_con i) (vbs_request i a).
Proof.
  intros Hi Ha. assert (i = 0 \/ i = 1) as [-> | ->] by lia; destruct Ha as [-> | ->];
    (split; [done|done|reflexivity|done|..]; apply apartb_disjoint; vm_compute; reflexivity).
Qed.

(** The notification: the device reads the chain the guest built and writes the disk. *)
Lemma vbs_notified i a w m vb d :
  0 <= i < 2 -> a = 0 \/ a = 4 -> wf_vb vb -> aget vb i = Ok (mk_vblk (vbs_con i) d) -> vbs_ready i a w -> trace_ok (vm_pa i) (vbs_image a) w ->
  image_at (vm_pa i) (vbs_image a) m ->
  exists b' m', vblk_process i vb (stores m 0 w) = Ok (<[Z.to_nat i := b']> vb, m') /\ disk b' = splice d 0 vbs_message /\
    image_at (vm_pa i) (vbs_image a) m' /\ same_elsewhere i m m' /\ ld32 m' (vm_pa i + 0x21008) = 18.
Proof.
  intros Hi Ha Hvb Hb (K & Kb & Kp & Kai & Ku & Kd) Hw Him. pose proof (vm_block i) as [B1 B2].
  assert (len (vbs_image a) <= 2 ^ 30) as Hlen by (destruct Ha as [-> | ->]; vm_compute; congruence).
  set (img := vbs_image a) in *. set (mm := model_mem (vm_pa i) img w) in *. set (c := vbs_con i) in *.
  cbn [forallb] in K. apply andb_prop in K as [K1 K]. apply andb_prop in K as [K2 K]. rewrite forallb_forall in K.
  assert (parse c (stores m 0 w) = vbs_request i a) as Ep.
  { rewrite <- Kp. apply parse_stable. intros e He. unfold in_ranges in He. apply Exists_exists in He as ([n p] & Hin & He). cbn [fst snd] in He.
    apply (rd8_known_range (vm_pa i) img m w n p); [done|lia|done|done| |done]. apply K. by apply list_elem_of_In. }
  assert (forall p, known_range (vm_pa i) img w (2, p) = true -> ld16 (stores m 0 w) p = ld16 mm p) as Hld
    by (intros p Hp; apply load_known; [done|lia|done|done|exact Hp]).
  assert (mem_bytes (stores m 0 w) (vm_pa i + 216 + a) 18 = vbs_message) as Ed.
  { rewrite <- Kd. apply mem_bytes_ext; [done|]. intros e He. apply (rd8_known_range (vm_pa i) img m w 18 (vm_pa i + 216 + a)); [done|lia|done|done| |done].
    apply K. apply list_elem_of_In. unfold rq_reads. rewrite Kp. apply elem_of_app. right. by left. }
  pose proof (vbs_request_ok i a Hi Ha) as Hok.
  destruct (process_one i vb (stores m 0 w) (mk_vblk c d)) as (b' & m' & E & _ & _ & Hd & Hs); [done|done|done|cbn [regs]; by rewrite Ep| |].
  { cbn [regs]. change (queue_num c) with 4. rewrite (Hld _ K1). exact Kai. }
  cbn [regs disk] in Hd, Hs. rewrite Ep in Hd, Hs. exists b', m'. split; [exact E|]. split; [by rewrite <- Ed|].
  assert (q_used (q_base c) 4 = vm_pa i + 0x21000) as Eu by (assert (i = 0 \/ i = 1) as [-> | ->] by lia; reflexivity).
  assert (forall e, 0 <= e < SPACE -> ~ (vm_pa i + 0x21000 <= e < vm_pa i + 0x21200) -> rd8 m' e = rd8 (stores m 0 w) e) as Hfr.
  { intros e He Hne. assert (u64 e = e) as Hue by (apply wrap_fits; unfold fits, SPACE in *; lia).
    apply (sv_frame _ _ _ _ _ Hs).
    - change (queue_num c) with 4. rewrite Eu. intros Hin. apply in_range_bounds in Hin; [|lia|unfold used_size, SPACE in *; lia]. unfold used_size in Hin. lia.
    - intros Hin. unfold in_ranges, rq_writes in Hin. cbn in Hin. apply Exists_cons in Hin as [Hin|Hin]; [|by apply Exists_nil in Hin].
      cbn [fst snd] in Hin. apply in_range_bounds in Hin; [|lia|unfold SPACE in *; lia]. lia. }
  assert (len img <= 0x1000) as Hl2 by (destruct Ha as [-> | ->]; vm_compute; congruence).
  split; [|split].
  - apply (image_at_frame _ _ (stores m 0 w)); [lia|apply image_stores; [done|lia|done|done]|]. intros e He.
    apply in_range_bounds in He; [|lia|lia]. rewrite <- (rd8_u64 _ e), <- (rd8_u64 (stores m 0 w) e). apply Hfr; lia.
  - intros e He Hne. rewrite Hfr; [|exact He|lia]. exact (stores_elsewhere i w m (proj1 Hw) Kb e He Hne).
  - pose proof (sv_entry _ _ _ _ _ Hs) as Se. cbv zeta in Se. change (queue_num c) with 4 in Se. rewrite (Hld _ K2), Ku, Eu in Se.
    unfold used_entry in Se. apply (f_equal snd) in Se. cbn [snd] in Se.
    replace (vm_pa i + 0x21008) with (vm_pa i + 0x21000 + 4 + 8 * (0 mod 4) + 4) by (change (0 mod 4) with 0; lia). exact Se.
Qed.

Context (Hq : (150 <= quantum)%nat).
Lemma vbs_image_len a : a = 0 \/ a = 4 -> len (vbs_image a) <= 2 ^ 30.
Proof. intros [-> | ->]; vm_compute; congruence. Qed.

(** The hypercall ends the loop. *)
Lemma m28_hvc i g img p x elr x' w h :
  0 <= i < 2 -> g < 50000 -> len img <= 2 ^ 30 -> tenant_at lk i p x img h -> runs_to i img 150 p x elr x' w (esr_hvc64 0) None ->
  exists h1 v', m28_body lk i g h = Ok (false, g, h1) /\ wf_hv h1 /\ core h1 = tenant_core lk VM0_PA VM1_PA /\
    view_of h1 = on_mem (fun m => stores m 0 w) (on_vcpus (fun l => <[Z.to_nat i := v']> l) (view_of h)).
Proof.
  intros Hi Hg Hl H Hr. destruct (tenant_leaves quantum lk Htab i p x img 150 h _ _ _ _ _ Hi Hq Hl H Hr) as (h1 & v' & T).
  exists h1, v'. split; [|split; [apply T|split; [apply T|apply (te_view T)]]]. unfold m28_body. destruct (Z.ltb_spec g 50000); [|lia]. cbn [negb].
  rewrite (st_bind_Ok _ _ _ _ _ (te_run T)), (st_bind_Ok _ _ _ _ _ (te_get T)). unfold exit_ec. by rewrite (te_esr T).
Qed.

(** The whole loop of one VM: its guest writes the message to its own disk. *)
Lemma m28_vm i a h d :
  0 <= i < 2 -> a = 0 \/ a = 4 -> tenant_at lk i VM_IPA (replicate 31 0) (vbs_image a) h ->
  aget (h_vb h) i = Ok (mk_vblk (mk_vcon 0 4096 0 0 0 0 0 (vm_pa i - VM_IPA)) d) ->
  exists h' v' b' m' g, loop (Z.to_nat 50001) (m28_body lk i) 0 h = Ok (g, h') /\ wf_hv h' /\ core h' = tenant_core lk VM0_PA VM1_PA /\
    view_of h' = mk_view (<[Z.to_nat i := v']> (h_vcpus h)) m' (h_vc h) (<[Z.to_nat i := b']> (h_vb h)) (h_console h) /\
    disk b' = splice d 0 vbs_message /\ same_elsewhere i (h_mem h) m' /\ ld32 m' (vm_pa i + 0x21008) = 18.
Proof.
  intros Hi Ha H Hb. pose proof (vbs_image_len a Ha) as Hl. destruct (vbs_runs i a Hi Ha) as (w & p & x & D & R1 & R2 & Hrdy).
  set (n := Z.to_nat 49993). assert (Z.to_nat 50001 = length vbs_regs + S (S n))%nat as -> by (unfold n; cbn [length vbs_regs]; lia).
  apply aget_inv in Hb as [_ Hb].
  destruct (m28_drives i d (vbs_image a) 150 _ _ _ _ _ _ Hi Hq Hl D eq_refl h 0 (S (S n)) _ ltac:(lia) ltac:(vm_compute; congruence) H Hb)
    as (h1 & v1 & E1 & H1 & V1 & Hw). unfold blk_put in V1. view_parts V1 A1 M1 X1 B1 O1.
  destruct (tenant_leaves quantum lk Htab i p x (vbs_image a) 150 h1 _ _ _ _ _ Hi Hq Hl H1 R1) as (h2 & v2 & T).
  pose proof (te_view T) as V2. view_parts V2 A2 M2 V2c B2 O2.
  destruct (wh_vb h (ta_wf _ _ _ _ _ _ H)) as [Lb _]. pose proof (wh_vb h2 (te_wf T)) as Wb.
  assert (aget (h_vb h2) i = Ok (mk_vblk (vbs_con i) d)) as Hb2 by (rewrite B2, B1, aget_insert_eq by lia; done).
  assert (h_mem h2 = stores (h_mem h) 0 w) as M2' by (rewrite M2, M1; done).
  destruct (vbs_notified i a w (h_mem h) (h_vb h2) d Hi Ha Wb Hb2 Hrdy Hw (ta_image _ _ _ _ _ _ H)) as (b' & m' & Ev & Hd & Him & Hfr & H18).
  pose proof (vblk_mmio_store i v2 (h_vb h2) (h_mem h2) _ 31 ltac:(rewrite (proj1 Wb); lia) Hb2 (te_vcpu T) ltac:(lia) (te_esr T) 0x50 ltac:(lia)) as Em.
  change (0x50 =? 0x50) with true in Em. cbv iota in Em. rewrite M2', Ev in Em. cbn [mbind res_bind] in Em. rewrite <- M2' in Em.
  destruct (m28_device i 6 (vbs_image a) h1 h2 v2 _ _ _ 31 0x50 _ _ Hi ltac:(lia) ltac:(lia) ltac:(lia) T Em Him) as (h3 & E3 & H3 & V3).
  destruct (m28_hvc i 7 (vbs_image a) _ _ _ _ _ h3 Hi ltac:(lia) Hl H3 R2) as (h4 & v4 & E4 & W4 & C4 & V4).
  exists h4, v4, b', m', 7. split; [|split; [exact W4|split; [exact C4|split; [|split; [exact Hd|split; [exact Hfr|exact H18]]]]]].
  - rewrite E1. change (0 + len vbs_regs) with 6. cbn [loop]. rewrite (st_bind_Ok _ _ _ _ _ E3). cbv beta iota.
    rewrite (st_bind_Ok _ _ _ _ _ E4). reflexivity.
  - rewrite V4, V3. unfold on_mem, on_vcpus. cbn [w_vcpus w_mem w_vc w_vb w_out stores].
    rewrite A1, B2, B1, O1, X1, !list_insert_insert_eq. reflexivity.
Qed.

(** ** The demonstration *)
#[local] Opaque vbs_image write_bytes.
Context (a : Z) (Ha : a mod 4 = 0) (Himg : assemble a guest_vbs = Some (lk_image lk "guest_vbs")).
Abbreviation img := (vbs_image (a mod 8)).
Lemma m28_image : lk_image lk "guest_vbs" = img /\ (a mod 8 = 0 \/ a mod 8 = 4).
Proof. destruct (vbs_assembled a Ha) as [E H]. split; [|exact H]. rewrite Himg in E. revert E. generalize img as y. by intros y [= ->]. Qed.
Definition m28_vcpu (i : Z) : vcpu := vcpu_init VM_IPA (VM_IPA + 0x10000) (vm_vttbr lk i) i.
Definition m28_blk (i : Z) : vblk := mk_vblk (mk_vcon 0 4096 0 0 0 0 0 (vm_pa i - VM_IPA)) disk0.
Definition m28_head : list Z := line (ln "[M28] two isolated VMs, each with its OWN virtio-blk disk:").

Lemma m28_ready (h : hv guest) :
  wf_hv h ->
  exists h1, mtenant_vblk_setup lk h = Ok (tt, h1) /\ wf_hv h1 /\ core h1 = tenant_core lk VM0_PA VM1_PA /\
    view_of h1 = mk_view [m28_vcpu 0; m28_vcpu 1] (write_bytes (write_bytes (h_mem h) VM0_PA img) VM1_PA img) (h_vc h) [m28_blk 0; m28_blk 1]
      (h_console h ++ stage2_text lk ++ m28_head).
Proof.
  intros Hh. assert (exists G, acts tt G (mtenant_vblk_setup lk) /\ G (view_of h) =
    mk_view [m28_vcpu 0; m28_vcpu 1] (write_bytes (write_bytes (h_mem h) VM0_PA img) VM1_PA img) (h_vc h) [m28_blk 0; m28_blk 1]
      (h_console h ++ stage2_text lk ++ m28_head)) as (G & HG & EG).
  { eexists. split; [unfold mtenant_vblk_setup; acts_run|]. destruct (two_vcpus h Hh) as (v0 & v1 & Ev).
    unfold view_of. rewrite Ev, <- (proj1 m28_image), app_assoc. reflexivity. }
  destruct (does_acts _ _ _ (mtenant_vblk_setup_does lk) HG h Hh) as (h1 & E & W1 & C1 & V1). exists h1.
  split; [exact E|]. split; [exact W1|]. split; [exact C1|]. rewrite V1. exact EG.
Qed.

Lemma peek_reads vm n (h : hv guest) b :
  aget (h_vb h) vm = Ok b -> 0 <= n <= len (disk b) -> peek_str vm n h = Ok (take (Z.to_nat n) (disk b) ++ [0], h).
Proof.
  intros Hb Hn. assert (do_vblk_peek vm n h = Ok (take (Z.to_nat n) (disk b), h)) as E
    by (unfold do_vblk_peek, try_; by rewrite (vblk_peek_ok vm n (h_vb h) b Hb Hn)).
  unfold peek_str. by rewrite (st_bind_Ok _ _ _ _ _ E).
Qed.
(** A disk with the message in its first sector. *)
Definition vbs_disk : list Z := splice disk0 0 vbs_message.
Lemma vbs_disk_ok : len vbs_disk = DISK_SIZE /\ take 18 vbs_disk = vbs_message.
Proof. vm_compute. by split. Qed.
Definition m28_text : list Z :=
  m28_head ++ line (bytes "[M28] after VM0 wrote: VM0 disk=" ++ [34] ++ vbs_message ++ [34] ++ ln "; VM1 disk first byte=0x0 (untouched)") ++
  line (bytes "[M28] after VM1 wrote: VM1 disk=" ++ [34] ++ vbs_message ++ [34; LF]) ++
  line (ln "[M28] each tenant's block device wrote only its own backing disk -- per-VM storage isolation.").
Lemma vbs_bytes : map u8 img = img /\ len img <= 2 ^ 30.
Proof. destruct m28_image as [_ Hm]. destruct Hm as [-> | ->]; vm_compute; by split. Qed.
(** C10: Each tenant writes its own disk.  With the image of guest_vblk_simple_entry as
    the assembler lays it out, mtenant_vblk_demo copies it to both VMs' blocks; each VM,
    executing it instruction by instruction, measures the message, builds the request
    chain in its own RAM, programs its device by trapped stores and notifies it; the
    device follows the chain.  From any well-formed state the demonstration returns with
    exactly the expected report; after VM0's run VM1's disk is still blank; in the end both disks
    hold the message at the start of sector 0 and zeros elsewhere.  The guest's request
    header lies in the device's used ring, so completion has overwritten it: where the
    guest stored sector number 0 it would now read 18. *)
Theorem mtenant_vblk_demo_shows (h : hv guest) :
  wf_hv h ->
  exists h' b0 b1, mtenant_vblk_demo lk h = Ok (tt, h') /\ h_console h' = h_console h ++ stage2_text lk ++ m28_text /\
    isolated lk VM0_PA VM1_PA h' /\ h_vb h' = [b0; b1] /\ disk b0 = vbs_disk /\ disk b1 = vbs_disk /\
    ld32 (h_mem h') (VM0_PA + 0x21008) = 18.
Proof.
  intros Hh. destruct m28_image as [_ Hm]. destruct (m28_ready h Hh) as (h1 & E1 & W1 & C1 & V1). view_parts V1 A1 M1 X1 B1 O1.
  destruct (images_copied img (h_mem h) (h_mem h1) (proj1 vbs_bytes) (proj2 vbs_bytes) M1) as [I0 I1].
  destruct (m28_vm 0 (a mod 8) h1 disk0) as (h2 & v2 & b0 & m2 & g2 & E2 & W2 & C2 & V2 & D0 & F2 & L2); [lia|exact Hm| |by rewrite B1|].
  { split; [exact W1|exact C1| |exact I0]. exists (m28_vcpu 0). rewrite A1. split; [reflexivity|]. split; [reflexivity|]. split; reflexivity. }
  view_parts V2 A2 M2 X2 B2 O2. rewrite A1 in A2. rewrite B1 in B2. cbn [insert list_insert Z.to_nat] in A2, B2.
  destruct vbs_disk_ok as [Ld Td]. fold vbs_disk in D0.
  pose proof (peek_reads 0 18 h2 b0 ltac:(by rewrite B2) ltac:(rewrite D0, Ld; unfold DISK_SIZE, VBLK_SECTORS, VBLK_SECSZ; lia)) as P0.
  pose proof (peek_reads 1 18 h2 (m28_blk 1) ltac:(by rewrite B2) ltac:(unfold m28_blk; cbn [disk]; rewrite (proj1 disk0_ok); unfold DISK_SIZE, VBLK_SECTORS, VBLK_SECSZ; lia)) as P1.
  rewrite D0 in P0. change (Z.to_nat 18) with 18%nat in P0, P1. rewrite Td in P0.
  destruct (printf_says quantum lk (bytes "[M28] after VM0 wrote: VM0 disk=" ++ quoted ++ ln "; VM1 disk first byte=%x (untouched)")
    [AStr (Some (vbs_message ++ [0])); AI (u8 0)] h2 ltac:(repeat (apply Forall_cons; split); [done|fits_const|by apply Forall_nil]) ltac:(by eexists) W2)
    as (h3 & E3 & W3 & C3 & V3). view_parts V3 A3 M3 X3 B3 O3.
  destruct (m28_vm 1 (a mod 8) h3 disk0) as (h4 & v4 & b1 & m4 & g4 & E4 & W4 & C4 & V4 & D1 & F4 & L4); [lia|exact Hm| |by rewrite B3, B2|].
  { split; [exact W3|by rewrite C3, C2| |].
    - exists (m28_vcpu 1). rewrite A3, A2. split; [reflexivity|]. split; [reflexivity|]. split; reflexivity.
    - rewrite M3, M2. apply (image_elsewhere 0 1 _ (h_mem h1)); [lia|lia|lia|by apply vbs_image_len|exact F2|exact I1]. }
  view_parts V4 A4 M4 X4 B4 O4. rewrite B3, B2 in B4. cbn [insert list_insert Z.to_nat] in B4. fold vbs_disk in D1.
  pose proof (peek_reads 1 18 h4 b1 ltac:(by rewrite B4) ltac:(rewrite D1, Ld; unfold DISK_SIZE, VBLK_SECTORS, VBLK_SECSZ; lia)) as P4.
  rewrite D1 in P4. change (Z.to_nat 18) with 18%nat in P4. rewrite Td in P4.
  destruct (printf_says quantum lk (bytes "[M28] after VM1 wrote: VM1 disk=" ++ quoted ++ [LF]) [AStr (Some (vbs_message ++ [0]))] h4
    ltac:(by apply Forall_singleton) ltac:(by eexists) W4) as (h5 & E5 & W5 & C5 & V5). view_parts V5 A5 M5 X5 B5 O5.
  destruct (println_says quantum lk "[M28] each tenant's block device wrote only its own backing disk -- per-VM storage isolation." h5 W5)
    as (h6 & E6 & W6 & C6 & V6). view_parts V6 A6 M6 X6 B6 O6.
  assert (core h6 = tenant_core lk VM0_PA VM1_PA) as Hc by (rewrite C6, C5; exact C4).
  exists h6, b0, b1. split; [|split; [|split; [|split; [|split; [exact D0|split; [exact D1|]]]]]].
  - unfold mtenant_vblk_demo. rewrite (st_bind_Ok _ _ _ _ _ E1), (st_bind_Ok _ _ _ _ _ E2), (st_bind_Ok _ _ _ _ _ P0), (st_bind_Ok _ _ _ _ _ P1).
    assert (try_ (fun _ => aget (take 18 (disk (m28_blk 1)) ++ [0]) 0) h2 = Ok (0, h2)) as Et by reflexivity.
    rewrite (st_bind_Ok _ _ _ _ _ Et), (st_bind_Ok _ _ _ _ _ E3), (st_bind_Ok _ _ _ _ _ E4), (st_bind_Ok _ _ _ _ _ P4), (st_bind_Ok _ _ _ _ _ E5).
    exact E6.
  - rewrite O6, O5, O4, O3, O2, O1, <- !app_assoc. do 2 apply (f_equal (app _)). vm_compute. reflexivity.
  - apply core_isolated; [exact Htab|fits_const|fits_const|by vm_compute|exact Hc].
  - rewrite B6, B5. exact B4.
  - rewrite M6, M5, M4. etransitivity; [|exact L2]. apply load_ext; [done|]. intros c Hc'.
    apply in_range_bounds in Hc'; [|done|done]. change (Z.of_nat 4) with 4 in Hc'.
    rewrite <- (rd8_u64 m4 c), <- (rd8_u64 m2 c). rewrite (F4 (u64 c)); [by rewrite M3, M2| |]; clear - Hc'; change (vm_pa 0) with VM0_PA in Hc'; change (vm_pa 1) with VM1_PA; unfold VM0_PA, VM1_PA, SPACE in *; lia.
Qed.
End M28.

Definition vbs_link : link := image_link "guest_vbs" (vbs_image 4).
Lemma mtenant_vblk_demo_shows_witness :
  exists h' b0 b1, mtenant_vblk_demo (PL := m28_pl 150 vbs_link) vbs_link (hv_boot idle_guest) = Ok (tt, h') /\
    h_console h' = line (ln "[M3] stage-2 ON: vtcr=0x80023559 vttbr=0x70300000 (mapped 1GiB @0x40000000)") ++ m28_text /\
    h_vb h' = [b0; b1] /\ disk b0 = vbs_disk /\ disk b1 = vbs_disk.
Proof.
  assert (assemble 0x40081004 guest_vbs = Some (lk_image vbs_link "guest_vbs")) as Hi by (vm_compute; reflexivity).
  destruct (mtenant_vblk_demo_shows 150 vbs_link link0_tables (le_n _) 0x40081004 eq_refl Hi (hv_boot idle_guest) (hv_boot_wf _))
    as (h' & b0 & b1 & E & C & _ & B & D0 & D1 & _). exists h', b0, b1. split; [exact E|].
  split; [rewrite C; vm_compute; reflexivity|]. split; [exact B|]. split; [exact D0|exact D1].
Defined.
