(* ===== verification/ConsoleRun.v ===== *)
(** The console demonstration with its guest (src/src/guest.S, guest_virtio_entry;
    mtenant_virtio_demo of src/src/vcpu.c): each VM queues a message on its own
    virtio-console and notifies the device. *)

From S2P Require Import Prelude Esr Machine Vcpu Asm World Stage2 Vgic Uart Vdev Handlers Vvirtio Vblk Timer Hv Sched Smp Tenants.
From S2P Require Import VirtioRun GuestProg Counters A64 GuestRun TenantRun.

(** guest_virtio_start up to guest_virtio_end. *)
Definition virtio_message : list Z := ln "Hello from a guest, printed through an EMULATED virtio-console device!".
Definition guest_virtio : list asm_line := [
  Ins (MovZ true 10 0x4002 1);       (* movz x10, #0x4002, lsl #16 *)
  Ref "vvmsg" (Adr 11);              (* adr x11, vvmsg *)
  Ins (MovZ true 3 0 0);             (* mov x3, #0 *)
  Lbl "1"; Ins (LdrbR 0 11 3);       (* ldrb w0, [x11, x3] *)
  Ref "2" (CbzW 0);                  (* cbz w0, 2f *)
  Ins (AddI 3 3 1 0);                (* add x3, x3, #1 *)
  Ref "1" Br;                        (* b 1b *)
  Lbl "2"; Ins (StrI 3 11 10 0);     (* str x11, [x10, #0] *)
  Ins (StrI 2 3 10 8);               (* str w3, [x10, #8] *)
  Ins (StrI 2 31 10 12);             (* str wzr, [x10, #12] *)
  Ins (AddI 4 10 16 0);              (* add x4, x10, #16 *)
  Ins (StrI 1 31 4 0);               (* strh wzr, [x4, #0] *)
  Ins (MovZ false 0 1 0);            (* mov w0, #1 *)
  Ins (StrI 1 0 4 2);                (* strh w0, [x4, #2] *)
  Ins (StrI 1 31 4 4);               (* strh wzr, [x4, #4] *)
  Ins DsbSy;
  Ins (MovZ true 5 0x0A00 1);        (* movz x5, #0x0A00, lsl #16 *)
  Ins (MovZ false 0 4096 0);         (* mov w0, #4096 *)
  Ins (StrI 2 0 5 0x28);             (* str w0, [x5, #0x28] *)
  Ins (StrI 2 31 5 0x30);            (* str wzr, [x5, #0x30] *)
  Ins (MovZ false 0 1 0);            (* mov w0, #1 *)
  Ins (StrI 2 0 5 0x38);             (* str w0, [x5, #0x38] *)
  Ins (MovZ false 0 4096 0);         (* mov w0, #4096 *)
  Ins (StrI 2 0 5 0x3c);             (* str w0, [x5, #0x3c] *)
  Ins (MovZ false 0 4 1);            (* movz w0, #0x0004, lsl #16 *)
  Ins (MovK false 0 0x20 0);         (* movk w0, #0x0020 *)
  Ins (StrI 2 0 5 0x40);             (* str w0, [x5, #0x40] *)
  Ins (MovZ false 0 0xF 0);          (* mov w0, #0xF *)
  Ins (StrI 2 0 5 0x70);             (* str w0, [x5, #0x70] *)
  Ins (StrI 2 31 5 0x50);            (* str wzr, [x5, #0x50] *)
  Ins (HvcI 0);
  Lbl "3"; Ins Wfi; Ref "3" Br;
  Balign 8;
  Lbl "vvmsg"; Asciz virtio_message;
  Balign 4 ].
Definition virtio_image (a : Z) : list Z := default [] (assemble a guest_virtio).
Lemma virtio_assembled a : a mod 4 = 0 -> assemble a guest_virtio = Some (virtio_image (a mod 8)) /\ (a mod 8 = 0 \/ a mod 8 = 4).
Proof.
  intros Ha. rewrite <- (assemble_mod 8) by done. assert (a mod 8 = 0 \/ a mod 8 = 4) as H by zlia. split; [|done].
  destruct H as [-> | ->]; vm_compute; reflexivity.
Qed.

(** * The device behind trapped stores *)
Section Mmio.
Context {W : Type} {PL : Platform W} (vm : Z) (v : vcpu) (vc : list vcon) (m : mem) (w : W) (c : vcon) (srt : Z).
Context (Hvm : 0 <= vm < len vc) (Hc : aget vc vm = Ok c) (Hv : wf_vcpu v) (Hs : 0 <= srt < 32).
Context (He : exit_esr v = u64 (esr_access 1 2 srt 0 1)).

Lemma virtio_mmio_store off :
  0 <= off < 0x200 -> off <> 0x64 ->
  virtio_mmio vm v (VIRTIO_BASE + off) vc m w =
    ('(vc, m, w) ← (if off =? 0x50 then virtio_process_tx vm vc m w
                    else Ok (<[Z.to_nat vm := dev_reg off (u32 (gx (xregs v) srt)) c]> vc, m, w));
     Ok (pc_advance v, vc, m, w)).
Proof.
  intros Hoff Hne. destruct (store_syndrome srt Hs) as (_ & S1 & S2 & S3). unfold virtio_mmio. rewrite Hc. cbn [mbind res_bind].
  rewrite He, S1, S2, S3. change (1 =? 0) with false. cbv beta iota zeta. cbn [negb].
  rewrite (read_rt_gx v srt Hv Hs). cbn [mbind res_bind].
  replace (VIRTIO_BASE + off - VIRTIO_BASE) with off by lia. rewrite (wrap_fits 64 off) by (unfold fits; lia). unfold dev_reg.
  destruct (Z.eqb_spec off 0x28) as [->|]; [by rewrite aset_ok by done|]. destruct (Z.eqb_spec off 0x38) as [->|]; [by rewrite aset_ok by done|].
  destruct (Z.eqb_spec off 0x40) as [->|]; [by rewrite aset_ok by done|]. destruct (Z.eqb_spec off 0x70) as [->|]; [by rewrite aset_ok by done|].
  destruct (Z.eqb_spec off 0x64) as [->|]; [done|]. destruct (Z.eqb_spec off 0x50) as [->|]; [done|].
  cbn [mbind res_bind]. rewrite list_insert_id; [done|]. by apply aget_inv in Hc as [_ Hc'].
Qed.
End Mmio.

(** * The run of the guest *)
Definition virtio_regs : list (Z * Z) := [(0x28, 4096); (0x30, 0); (0x38, 1); (0x3c, 4096); (0x40, 0x40020); (0x70, 0xF)].
Definition virtio_con (i : Z) : vcon := mk_vcon 0xF 4096 1 0x40020 0 0 0 (vm_pa i - VM_IPA).
(** Where the message is in the image: after 33 instructions and the padding. *)
Definition msg_at (a : Z) : Z := if a =? 0 then 136 else 132.
(** The queue as the device will read it. *)
Definition virtio_ready (i a : Z) (w : list cell) : Prop :=
  let m := model_mem (vm_pa i) (virtio_image a) w in let base := vm_pa i + 0x20000 in
  forallb (known_range (vm_pa i) (virtio_image a) w) [(8, base); (4, base + 8); (2, base + 18); (2, base + 20); (71, vm_pa i + msg_at a)] = true /\
  forallb (in_block i) w = true /\ ld64 m base = VM_IPA + msg_at a /\ ld32 m (base + 8) = 71 /\ ld16 m (base + 18) = 1 /\ ld16 m (base + 20) = 0 /\
  mem_bytes m (vm_pa i + msg_at a) 71 = virtio_message.
Lemma virtio_runs i a :
  0 <= i < 2 -> a = 0 \/ a = 4 ->
  exists w p x, drives i (virtio_image a) 350 VIRTIO_BASE VM_IPA (replicate 31 0) virtio_regs w p x /\
    runs_to i (virtio_image a) 350 p x (VM_IPA + 116) x [] (esr_access 1 2 31 0 1) (Some (VIRTIO_BASE + 0x50)) /\
    runs_to i (virtio_image a) 350 (VM_IPA + 120) x (VM_IPA + 124) x [] (esr_hvc64 0) None /\ virtio_ready i a w.
Proof.
  intros Hi Ha. assert (i = 0 \/ i = 1) as Hi' by lia. clear Hi. unfold virtio_regs.
  destruct Hi' as [-> | ->], Ha as [-> | ->]; (eexists _, _, _; split;
    [ driven 0x28 0; driven 0x30 31; driven 0x38 0; driven 0x3c 0; driven 0x40 0; driven 0x70 0; apply drives_done
    | split; [vm_compute; reflexivity|]; split; [vm_compute; reflexivity|];
      split; [vm_compute; reflexivity|]; split; [vm_compute; reflexivity|]; split; [vm_compute; reflexivity|];
      split; [vm_compute; reflexivity|]; split; [vm_compute; reflexivity|]; split; vm_compute; reflexivity ]).
Qed.

Section M27.
Context (quantum : nat) (lk : link) (Htab : tables_ok lk).
#[local] Instance m27_pl : Platform guest := asm_platform quantum (tenant_xlate lk).
#[local] Instance m27_ok : PlatformOk guest := asm_platform_ok quantum (tenant_xlate lk).
Abbreviation body i := (until_done 50000 (m27_step lk i)).

(** One iteration that emulates a trapped store to the device. *)
Lemma m27_device i g img h h1 v' elr x' w srt off vc' m' g' :
  0 <= i < 2 -> g < 50000 -> 0 <= srt < 32 -> 0 <= off < 0x200 ->
  tenant_exit quantum lk i img h h1 v' elr x' w (esr_access 1 2 srt 0 1) (Some (VIRTIO_BASE + off)) ->
  virtio_mmio i v' (VIRTIO_BASE + off) (h_vc h1) (h_mem h1) (h_w h1) = Ok (pc_advance v', vc', m', g') -> image_at (vm_pa i) img m' ->
  exists h2, body i (mk_vl false g) h = Ok (true, mk_vl false (g + 1), h2) /\ tenant_at lk i (u64 (elr + 4)) x' img h2 /\
    view_of h2 = mk_view (<[Z.to_nat i := pc_advance v']> (h_vcpus h)) m' vc' (h_vb h) (console (g_dev g')).
Proof.
  intros Hi Hg Hs Hoff T Em Him. destruct (store_syndrome srt Hs) as (Sec & _).
  pose proof (te_view T) as V. view_parts V V1 V2 V3 V4 V5.
  assert (exit_ec v' = EC_DABT_LOW) as Hec by (unfold exit_ec; by rewrite (te_esr T)).
  assert (exit_ipa v' = VIRTIO_BASE + off) as Hipa.
  { apply (te_ipa T); [done|]. unfold fits, VIRTIO_BASE. lia. }
  pose proof (te_wf T) as W1. destruct (wh_vcpus h1 W1) as [Hl _].
  set (h2 := put_vcpus (put_w (put_mem (put_vc h1 vc') m') g') (<[Z.to_nat i := pc_advance v']> (h_vcpus h1))).
  assert (do_virtio_mmio i i (VIRTIO_BASE + off) h1 = Ok (tt, h2)) as Ed.
  { unfold do_virtio_mmio. rewrite (st_bind_Ok _ _ _ _ _ (te_get T)). unfold mbind at 1, st_bind at 1. rewrite Em.
    cbn [mbind res_bind]. unfold set_vcpu, update. cbn [h_vcpus put_mem put_vc put_w]. by rewrite aset_ok by lia. }
  destruct (do_virtio_mmio_keeps i i (VIRTIO_BASE + off) Hi Hi h1 W1) as ([] & h3 & E3 & W2 & C2 & _). rewrite Ed in E3. injection E3 as <-.
  assert (m27_step lk i h = Ok (true, false, h2)) as Es.
  { unfold m27_step. rewrite (st_bind_Ok _ _ _ _ _ (te_run T)), (st_bind_Ok _ _ _ _ _ (te_get T)).
    rewrite Hec, Hipa. change (EC_DABT_LOW =? EC_HVC64) with false. change (EC_DABT_LOW =? EC_DABT_LOW) with true. cbv beta iota zeta.
    assert (virtio_contains (VIRTIO_BASE + off) = true) as -> by (unfold virtio_contains, VIRTIO_SIZE; lia). by rewrite (st_bind_Ok _ _ _ _ _ Ed). }
  exists h2. split; [|split].
  - unfold until_done. cbn [vl_done vl_guard]. destruct (Z.ltb_spec g 50000); [|lia]. cbn [negb]. by rewrite (st_bind_Ok _ _ _ _ _ Es).
  - split; [done| | |done].
    + transitivity (core h1); [exact (f_equal fst C2)|apply T].
    + exists (pc_advance v'). split; [cbn [h2 h_vcpus put_vcpus]; by rewrite aget_insert_eq by lia|]. split; [|split; [apply T|apply T]].
      unfold pc_advance, set_pc. cbn [pc]. rewrite (te_pc T). apply wrap_add_l.
  - unfold view_of, h2. cbn [h_vcpus h_mem h_vc h_vb h_w put_vcpus put_mem put_vc put_w]. by rewrite V1, V4, list_insert_insert_eq.
Qed.

(** A sequence of register stores. *)
Definition con_has (i : Z) (c : vcon) (w : view) : Prop := w_vc w !! Z.to_nat i = Some c.
Definition con_put (i : Z) (c : vcon) : view -> view := on_vc (fun l => <[Z.to_nat i := c]> l).
Lemma m27_drives i img q p x l w p' x' :
  0 <= i < 2 -> (q <= quantum)%nat -> len img <= 2 ^ 30 -> drives i img q VIRTIO_BASE p x l w p' x' ->
  forallb (fun r => plain_reg r.1) l = true ->
  forall h g fuel c, 0 <= g -> g + len l <= 50000 -> tenant_at lk i p x img h -> con_has i c (view_of h) ->
  exists h' v', loop (length l + fuel) (body i) (mk_vl false g) h = loop fuel (body i) (mk_vl false (g + len l)) h' /\ tenant_at lk i p' x' img h' /\
    view_of h' = con_put i (set_regs l c) (on_mem (fun m => stores m 0 w) (on_vcpus (fun l => <[Z.to_nat i := v']> l) (view_of h))) /\
    trace_ok (vm_pa i) img w.
Proof.
  intros Hi. apply (drive_loop quantum lk Htab i VIRTIO_BASE Hi (body i) (mk_vl false) 50000 (con_has i) (con_put i)).
  - intros c c' v Hc. unfold con_has, con_put in *. cbn. apply list_lookup_insert_eq. by eapply lookup_lt_Some.
  - intros c c' v. unfold con_put, on_vc. cbn. by rewrite list_insert_insert_eq.
  - intros c v Hc. unfold con_put, on_vc. rewrite list_insert_id by done. by destruct v.
  - done.
  - done.
  - intros g img' h h1 v' elr y w' srt off c Hg Hs Ho T Hc. unfold plain_reg in Ho.
    rewrite !andb_true_iff, !negb_true_iff, !Z.eqb_neq in Ho. destruct Ho as (((Ho1 & Ho2) & Ho3) & Ho4). assert (0 <= off < 0x200) as Hoff by lia.
    assert (aget (h_vc h1) i = Ok c) as Hb by (apply aget_lookup; [lia|exact Hc]). destruct (wh_vc h1 (te_wf T)) as [Lb _].
    pose proof (virtio_mmio_store i v' (h_vc h1) (h_mem h1) (h_w h1) _ srt ltac:(lia) Hb (te_vcpu T) Hs (te_esr T) off Hoff Ho4) as Em.
    destruct (Z.eqb_spec off 0x50); [done|]. cbn [mbind res_bind] in Em. rewrite (te_x T) in Em.
    destruct (m27_device i g img' h h1 v' elr y w' srt off _ _ _ Hi ltac:(lia) Hs Hoff T Em (te_image T)) as (h2 & E2 & H2 & V2).
    exists h2. split; [exact E2|]. split; [exact H2|]. rewrite V2. pose proof (te_view T) as V. view_parts V V1 V3 V4 V5 V6.
    unfold con_put, on_vc, on_mem, on_vcpus, view_of. cbn [w_vcpus w_mem w_vc w_vb w_out]. by rewrite V1, V5, list_insert_insert_eq.
Qed.
Lemma msg_at_bounds a : 0 <= msg_at a <= 136.
Proof. unfold msg_at. case_match; lia. Qed.
Lemma virtio_layout i :
  0 <= i < 2 -> let base := vm_pa i + 0x20000 in
  q_base (virtio_con i) = base /\ q_avail base 1 = base + 16 /\ q_used base 1 = vm_pa i + 0x21000.
Proof. intros Hi. assert (i = 0 \/ i = 1) as [-> | ->] by lia; by vm_compute. Qed.
(** The notification: the device emits the text the guest queued and completes it in the
    used ring, which is all it writes. *)
Lemma virtio_notified i a w m vc g :
  0 <= i < 2 -> a = 0 \/ a = 4 -> wf_vc vc -> aget vc i = Ok (virtio_con i) -> virtio_ready i a w -> trace_ok (vm_pa i) (virtio_image a) w ->
  image_at (vm_pa i) (virtio_image a) m ->
  exists c' m' d, virtio_process_tx i vc (stores m 0 w) g = Ok (<[Z.to_nat i := c']> vc, m', set_dev g d) /\
    console d = console (g_dev g) ++ virtio_message /\ image_at (vm_pa i) (virtio_image a) m' /\ same_elsewhere i m m'.
Proof.
  intros Hi Ha Hvc Hc (K & Kb & Ka & Kl & Kai & Kd & Kt) Hw Him. pose proof (vm_block i) as [B1 B2].
  assert (len (virtio_image a) <= 0x1000) as Hlen by (destruct Ha as [-> | ->]; vm_compute; congruence).
  set (img := virtio_image a) in *. set (c := virtio_con i) in *. set (base := vm_pa i + 0x20000) in *.
  destruct (virtio_layout i Hi) as (Eb & Eav & Eu). fold c base in Eb, Eav, Eu.
  cbn [forallb] in K. apply andb_prop in K as [K1 K]. apply andb_prop in K as [K2 K]. apply andb_prop in K as [K3 K].
  apply andb_prop in K as [K4 K]. apply andb_prop in K as [K5 _].
  pose proof (fun n p => load_known (vm_pa i) img m w n p B1 ltac:(lia) Him Hw) as Hld.
  apply (Hld 8%nat) in K1. apply (Hld 4%nat) in K2. apply (Hld 2%nat) in K3. apply (Hld 2%nat) in K4.
  rewrite Ka in K1. rewrite Kl in K2. rewrite Kai in K3. rewrite Kd in K4.
  assert (mem_bytes (stores m 0 w) (vm_pa i + msg_at a) 71 = virtio_message) as Et.
  { rewrite <- Kt. apply mem_bytes_ext; [done|]. intros e He. by apply (rd8_known_range (vm_pa i) img m w 71 (vm_pa i + msg_at a)); [|lia|..]. }
  set (m1 := stores m 0 w) in *. pose proof (msg_at_bounds a) as Hma.
  assert (d_len m1 base 0 = 71 /\ d_addr m1 base (host_off c) 0 = vm_pa i + msg_at a) as [El Ead].
  { unfold d_len, d_addr. rewrite (wrap_fits 64 (base + 0 * 16)) by (unfold fits, base, SPACE in *; lia).
    replace (base + 0 * 16 + 8) with (base + 8) by lia. replace (base + 0 * 16 + 0) with base by lia. split; [exact K2|].
    rewrite K1. unfold c, virtio_con. cbn [host_off]. replace (VM_IPA + msg_at a + (vm_pa i - VM_IPA)) with (vm_pa i + msg_at a) by lia.
    apply wrap_fits. unfold fits, SPACE in *. lia. }
  assert (driver_ok c m1) as Hdr.
  { split; rewrite ?Eb; change (queue_num c) with 1; rewrite ?Eav, ?Eu.
    - done.
    - lia.
    - apply Z.divide_1_l.
    - unfold base, SPACE in *. lia.
    - replace (base + 16 + 2) with (base + 18) by lia. rewrite K3. change (last_avail c) with 0. by vm_compute.
    - intros k Hk. assert (k = 0) as -> by lia. replace (base + 16 + 4 + 2 * 0) with (base + 20) by lia. rewrite K4. lia.
    - intros d Hd. assert (d = 0) as -> by lia. rewrite El, Ead. apply disjoint_arith; unfold used_size, SPACE in *; lia. }
  destruct (process_tx_spec i vc m1 g c Hvc Hi Hc Hdr) as (c' & m' & g' & E & Hput & _ & _ & _ & _ & Hfr).
  rewrite Eb in Hput, Hfr. change (queue_num c) with 1 in Hput, Hfr. rewrite Eav in Hput. rewrite Eu in Hfr.
  replace (base + 16 + 2) with (base + 18) in Hput by lia. rewrite K3 in Hput. change (last_avail c) with 0 in Hput.
  change (Z.to_nat (u16 (1 - 0))) with 1%nat in Hput. cbn [texts] in Hput. rewrite app_nil_r in Hput. unfold text in Hput. rewrite Eb in Hput.
  change (queue_num c) with 1 in Hput. rewrite Eav in Hput.
  assert (d_idx m1 (base + 16) 1 0 = 0) as Ei.
  { unfold d_idx. change (u16 (0 mod 1)) with 0. by replace (base + 16 + 4 + 2 * 0) with (base + 20) by lia. }
  rewrite Ei, El, Ead in Hput. change (Z.to_nat 71) with 71%nat in Hput. rewrite Et in Hput.
  destruct (guest_put_all (asm_guest quantum (tenant_xlate lk)) virtio_message g) as (d & Ed & Cd).
  assert (put_all virtio_message g = Ok (tt, set_dev g d)) as Ed' by exact Ed. rewrite Hput in Ed'. injection Ed' as ->.
  exists c', m', d. split; [exact E|]. split; [exact Cd|].
  assert (forall e, 0 <= e < SPACE -> ~ (vm_pa i + 0x21000 <= e < vm_pa i + 0x2100c) -> rd8 m' e = rd8 m1 e) as Hfr'.
  { intros e He Hne. apply Hfr. intros Hin. assert (u64 e = e) as Hue by (apply wrap_fits; unfold fits, SPACE in *; lia).
    apply in_range_bounds in Hin; unfold used_size in *; [lia|lia|lia]. }
  split.
  - apply (image_at_frame _ _ m1); [lia|apply image_stores; [done|lia|done|done]|]. intros e He.
    apply in_range_bounds in He; [|lia|lia]. rewrite <- (rd8_u64 _ e), <- (rd8_u64 m1 e). apply Hfr'; lia.
  - intros e He Hne. rewrite Hfr'; [|exact He|lia]. exact (stores_elsewhere i w m (proj1 Hw) Kb e He Hne).
Qed.

Context (Hq : (350 <= quantum)%nat).
Lemma virtio_image_len a : a = 0 \/ a = 4 -> len (virtio_image a) <= 2 ^ 30.
Proof. intros [-> | ->]; vm_compute; congruence. Qed.

(** The hypercall sets [done]. *)
Lemma m27_hvc i g img p x elr x' w h :
  0 <= i < 2 -> g < 50000 -> len img <= 2 ^ 30 -> tenant_at lk i p x img h -> runs_to i img 350 p x elr x' w (esr_hvc64 0) None ->
  exists h1 v', body i (mk_vl false g) h = Ok (true, mk_vl true (g + 1), h1) /\ wf_hv h1 /\ core h1 = tenant_core lk VM0_PA VM1_PA /\
    view_of h1 = on_mem (fun m => stores m 0 w) (on_vcpus (fun l => <[Z.to_nat i := v']> l) (view_of h)).
Proof.
  intros Hi Hg Hl H Hr. destruct (tenant_leaves quantum lk Htab i p x img 350 h _ _ _ _ _ Hi Hq Hl H Hr) as (h1 & v' & T).
  exists h1, v'. split; [|split; [apply T|split; [apply T|apply (te_view T)]]].
  assert (m27_step lk i h = Ok (true, true, h1)) as Es.
  { unfold m27_step. rewrite (st_bind_Ok _ _ _ _ _ (te_run T)), (st_bind_Ok _ _ _ _ _ (te_get T)). unfold exit_ec. by rewrite (te_esr T). }
  unfold until_done. cbn [vl_done vl_guard]. destruct (Z.ltb_spec g 50000); [|lia]. cbn [negb]. by rewrite (st_bind_Ok _ _ _ _ _ Es).
Qed.

(** The whole loop of one VM: its message, and nothing else, reaches the console. *)
Lemma m27_vm i a h :
  0 <= i < 2 -> a = 0 \/ a = 4 -> tenant_at lk i VM_IPA (replicate 31 0) (virtio_image a) h ->
  aget (h_vc h) i = Ok (mk_vcon 0 4096 0 0 0 0 0 (vm_pa i - VM_IPA)) ->
  exists h' v' c' m' l, loop (Z.to_nat 50002) (body i) vl_start h = Ok (l, h') /\ wf_hv h' /\ core h' = tenant_core lk VM0_PA VM1_PA /\
    view_of h' = mk_view (<[Z.to_nat i := v']> (h_vcpus h)) m' (<[Z.to_nat i := c']> (h_vc h)) (h_vb h) (h_console h ++ virtio_message) /\
    same_elsewhere i (h_mem h) m'.
Proof.
  intros Hi Ha H Hc. pose proof (virtio_image_len a Ha) as Hl. destruct (virtio_runs i a Hi Ha) as (w & p & x & D & R1 & R2 & Hrdy).
  set (n := Z.to_nat 49993). assert (Z.to_nat 50002 = length virtio_regs + S (S (S n)))%nat as -> by (unfold n; cbn [length virtio_regs]; lia).
  apply aget_inv in Hc as [_ Hc].
  destruct (m27_drives i (virtio_image a) 350 _ _ _ _ _ _ Hi Hq Hl D eq_refl h 0 (S (S (S n))) _ ltac:(lia) ltac:(vm_compute; congruence) H Hc)
    as (h1 & v1 & E1 & H1 & V1 & Hw). unfold con_put in V1. view_parts V1 A1 M1 X1 B1 O1.
  destruct (tenant_leaves quantum lk Htab i p x (virtio_image a) 350 h1 _ _ _ _ _ Hi Hq Hl H1 R1) as (h2 & v2 & T).
  pose proof (te_view T) as V2. view_parts V2 A2 M2 X2 B2 O2.
  destruct (wh_vc h (ta_wf _ _ _ _ _ _ H)) as [Lc _]. pose proof (wh_vc h2 (te_wf T)) as Wc.
  assert (aget (h_vc h2) i = Ok (virtio_con i)) as Hc2 by (rewrite X2, X1, aget_insert_eq by lia; done).
  assert (h_mem h2 = stores (h_mem h) 0 w) as M2' by (rewrite M2, M1; done).
  destruct (virtio_notified i a w (h_mem h) (h_vc h2) (h_w h2) Hi Ha Wc Hc2 Hrdy Hw (ta_image _ _ _ _ _ _ H)) as (c' & m' & d & Ev & Hd & Him & Hfr).
  pose proof (virtio_mmio_store i v2 (h_vc h2) (h_mem h2) (h_w h2) _ 31 ltac:(rewrite (proj1 Wc); lia) Hc2 (te_vcpu T) ltac:(lia) (te_esr T) 0x50 ltac:(lia) ltac:(lia)) as Em.
  change (0x50 =? 0x50) with true in Em. cbv iota in Em. rewrite M2', Ev in Em. cbn [mbind res_bind] in Em. rewrite <- M2' in Em.
  destruct (m27_device i 6 (virtio_image a) h1 h2 v2 _ _ _ 31 0x50 _ _ _ Hi ltac:(lia) ltac:(lia) ltac:(lia) T Em Him) as (h3 & E3 & H3 & V3).
  destruct (m27_hvc i 7 (virtio_image a) _ _ _ _ _ h3 Hi ltac:(lia) Hl H3 R2) as (h4 & v4 & E4 & W4 & C4 & V4).
  exists h4, v4, c', m', (mk_vl true 8). split; [|split; [exact W4|split; [exact C4|split; [|exact Hfr]]]].
  - unfold vl_start. rewrite E1. change (0 + len virtio_regs) with 6. cbn [loop]. rewrite (st_bind_Ok _ _ _ _ _ E3). cbv beta iota.
    rewrite (st_bind_Ok _ _ _ _ _ E4). reflexivity.
  - rewrite V4, V3. unfold on_mem, on_vcpus. cbn [w_vcpus w_mem w_vc w_vb w_out stores g_dev set_dev].
    rewrite A1, X2, X1, B1, Hd, !list_insert_insert_eq. f_equal. f_equal. etransitivity; [exact O2|exact O1].
Qed.
(** ** The demonstration *)
#[local] Opaque virtio_image write_bytes.
Context (a : Z) (Ha : a mod 4 = 0) (Himg : assemble a guest_virtio = Some (lk_image lk "guest_virtio")).
Abbreviation img := (virtio_image (a mod 8)).
Lemma m27_image : lk_image lk "guest_virtio" = img /\ (a mod 8 = 0 \/ a mod 8 = 4).
Proof. destruct (virtio_assembled a Ha) as [E H]. split; [|exact H]. rewrite Himg in E. revert E. generalize img as y. by intros y [= ->]. Qed.
Definition m27_vcpu (i : Z) : vcpu := vcpu_init VM_IPA (VM_IPA + 0x10000) (vm_vttbr lk i) i.
Definition m27_con (i : Z) : vcon := mk_vcon 0 4096 0 0 0 0 0 (vm_pa i - VM_IPA).
Definition m27_head : list Z :=
  line (ln "[M27] two isolated VMs, each with its OWN emulated virtio-console (separate device state + per-VM address translation):").
Lemma virtio_bytes : map u8 img = img /\ len img <= 2 ^ 30.
Proof. destruct m27_image as [_ Hm]. destruct Hm as [-> | ->]; vm_compute; by split. Qed.

Lemma m27_ready (h : hv guest) :
  wf_hv h ->
  exists h1, mtenant_virtio_setup lk h = Ok (tt, h1) /\ wf_hv h1 /\ core h1 = tenant_core lk VM0_PA VM1_PA /\
    view_of h1 = mk_view [m27_vcpu 0; m27_vcpu 1] (write_bytes (write_bytes (h_mem h) VM0_PA img) VM1_PA img) [m27_con 0; m27_con 1] (h_vb h)
      (h_console h ++ stage2_text lk ++ m27_head).
Proof.
  intros Hh. assert (exists G, acts tt G (mtenant_virtio_setup lk) /\ G (view_of h) =
    mk_view [m27_vcpu 0; m27_vcpu 1] (write_bytes (write_bytes (h_mem h) VM0_PA img) VM1_PA img) [m27_con 0; m27_con 1] (h_vb h)
      (h_console h ++ stage2_text lk ++ m27_head)) as (G & HG & EG).
  { eexists. split; [unfold mtenant_virtio_setup; acts_run|]. destruct (two_vcpus h Hh) as (v0 & v1 & Ev).
    unfold view_of. rewrite Ev, <- (proj1 m27_image), app_assoc. reflexivity. }
  destruct (does_acts _ _ _ (mtenant_virtio_setup_does lk) HG h Hh) as (h1 & E & W1 & C1 & V1). exists h1.
  split; [exact E|]. split; [exact W1|]. split; [exact C1|]. rewrite V1. exact EG.
Qed.

(** One VM's turn, from the state the set-up left it. *)
Definition m27_says (i : Z) : list Z := said (bytes "      VM%d console emits> ") [AI i] ++ virtio_message.
Lemma m27_turn i (h : hv guest) :
  0 <= i < 2 -> wf_hv h -> core h = tenant_core lk VM0_PA VM1_PA -> aget (h_vcpus h) i = Ok (m27_vcpu i) ->
  aget (h_vc h) i = Ok (m27_con i) -> image_at (vm_pa i) img (h_mem h) ->
  exists h' v' c' m', m27_tenant lk i h = Ok (tt, h') /\ wf_hv h' /\ core h' = tenant_core lk VM0_PA VM1_PA /\
    view_of h' = mk_view (<[Z.to_nat i := v']> (h_vcpus h)) m' (<[Z.to_nat i := c']> (h_vc h)) (h_vb h) (h_console h ++ m27_says i) /\
    same_elsewhere i (h_mem h) m'.
Proof.
  intros Hi Hh Hc Hv Hd Him.
  destruct (printf_says quantum lk (bytes "      VM%d console emits> ") [AI i] h) as (h1 & E1 & W1 & C1 & V1);
    [hv_side|by eexists|exact Hh|]. view_parts V1 A1 M1 X1 B1 O1.
  destruct (m27_vm i (a mod 8) h1 Hi (proj2 m27_image)) as (h2 & v2 & c2 & m2 & l & E2 & W2 & C2 & V2 & F2).
  - split; [exact W1|by rewrite C1| |by rewrite M1]. exists (m27_vcpu i). rewrite A1. split; [exact Hv|]. split; [reflexivity|]. split; reflexivity.
  - by rewrite X1.
  - exists h2, v2, c2, m2. split; [|split; [exact W2|split; [exact C2|split; [|by rewrite <- M1]]]].
    + unfold m27_tenant. rewrite (st_bind_Ok _ _ _ _ _ E1), (st_bind_Ok _ _ _ _ _ E2). reflexivity.
    + rewrite V2, A1, X1, B1, O1. unfold m27_says. by rewrite app_assoc.
Qed.

Definition m27_text : list Z :=
  m27_head ++ bytes "      VM0 console emits> " ++ virtio_message ++ bytes "      VM1 console emits> " ++ virtio_message ++
  line (ln "[M27] each tenant's virtio-console processed its own virtqueue from its own RAM block -- per-VM device isolation.").
(** C11: Each tenant prints through its own console.  With the image of
    guest_virtio_entry as the assembler lays it out, mtenant_virtio_demo copies it to both
    VMs' blocks; each VM, executing it instruction by instruction, measures the message,
    builds a one-entry virtqueue in its own RAM, programs its device by trapped stores and
    notifies it; the device, reading through the VM's own offset, emits the text.  From any
    well-formed state the demonstration returns, the console shows exactly the two
    messages between the expected lines, the VMs are isolated, and every byte of memory
    outside the two VMs' blocks is as it was. *)
Theorem mtenant_virtio_demo_shows (h : hv guest) :
  wf_hv h ->
  exists h', mtenant_virtio_demo lk h = Ok (tt, h') /\ h_console h' = h_console h ++ stage2_text lk ++ m27_text /\
    isolated lk VM0_PA VM1_PA h' /\ h_vb h' = h_vb h /\
    forall e, 0 <= e < SPACE -> ~ (VM0_PA <= e < VM0_PA + 2 ^ 30) -> ~ (VM1_PA <= e < VM1_PA + 2 ^ 30) -> rd8 (h_mem h') e = rd8 (h_mem h) e.
Proof.
  intros Hh. destruct (m27_ready h Hh) as (h1 & E1 & W1 & C1 & V1). view_parts V1 A1 M1 X1 B1 O1.
  destruct (images_copied img (h_mem h) (h_mem h1) (proj1 virtio_bytes) (proj2 virtio_bytes) M1) as [I0 I1].
  destruct (m27_turn 0 h1 ltac:(lia) W1 C1 ltac:(by rewrite A1) ltac:(by rewrite X1) I0) as (h2 & v2 & c2 & m2 & E2 & W2 & C2 & V2 & F2).
  view_parts V2 A2 M2 X2 B2 O2. rewrite A1 in A2. rewrite X1 in X2. cbn [insert list_insert Z.to_nat] in A2, X2.
  destruct (m27_turn 1 h2 ltac:(lia) W2 C2 ltac:(by rewrite A2) ltac:(by rewrite X2)) as (h3 & v3 & c3 & m3 & E3 & W3 & C3 & V3 & F3).
  { rewrite M2. apply (image_elsewhere 0 1 _ (h_mem h1)); [lia|lia|lia|exact (proj2 virtio_bytes)|exact F2|exact I1]. }
  view_parts V3 A3 M3 X3 B3 O3.
  destruct (println_says quantum lk "[M27] each tenant's virtio-console processed its own virtqueue from its own RAM block -- per-VM device isolation." h3 W3)
    as (h4 & E4 & W4 & C4 & V4). view_parts V4 A4 M4 X4 B4 O4.
  exists h4. split; [|split; [|split; [|split]]].
  - unfold mtenant_virtio_demo. rewrite (st_bind_Ok _ _ _ _ _ E1), (st_bind_Ok _ _ _ _ _ E2), (st_bind_Ok _ _ _ _ _ E3). exact E4.
  - rewrite O4, O3, O2, O1, <- !app_assoc. do 2 apply (f_equal (app _)). vm_compute. reflexivity.
  - apply core_isolated; [exact Htab|fits_const|fits_const|by vm_compute|]. rewrite C4. exact C3.
  - rewrite B4, B3, B2. exact B1.
  - intros e He N0 N1. rewrite M4, M3, (F3 e He N1), M2, (F2 e He N0), M1. pose proof (proj2 virtio_bytes) as Hl.
    pose proof (fun mm p => rd8_write_bytes img mm p e ltac:(lia)) as Hw.
    assert (u64 e = e) as Hue by (apply wrap_fits; unfold fits, SPACE in *; lia).
    rewrite !Hw; [reflexivity|..]; intros Hin; apply in_range_bounds in Hin; unfold VM0_PA, VM1_PA, SPACE in *; lia.
Qed.
End M27.

Definition virtio_link : link := image_link "guest_virtio" (virtio_image 4).
Lemma mtenant_virtio_demo_shows_witness :
  exists h', mtenant_virtio_demo (PL := m27_pl 350 virtio_link) virtio_link (hv_boot idle_guest) = Ok (tt, h') /\
    h_console h' = line (ln "[M3] stage-2 ON: vtcr=0x80023559 vttbr=0x70300000 (mapped 1GiB @0x40000000)") ++ m27_text.
Proof.
  assert (assemble 0x40081004 guest_virtio = Some (lk_image virtio_link "guest_virtio")) as Hi by (vm_compute; reflexivity).
  destruct (mtenant_virtio_demo_shows 350 virtio_link link0_tables (le_n _) 0x40081004 eq_refl Hi (hv_boot idle_guest) (hv_boot_wf _))
    as (h' & E & C & _). exists h'. split; [exact E|]. rewrite C; vm_compute; reflexivity.
Defined.
