(* ===== verification/SchedRun.v ===== *)
(** The scheduling demonstration with its guests (src/src/guest.S, guest_counter_entry
    and guest_vuart_entry; sched_demo of src/src/vcpu.c).  Both guests are executed in
    place, wherever the linker put them, under the identity table of stage2_init: the
    counters are shown to do what Counters.v assumes of them, and the printing guest has
    each of its stores to the console trapped and emulated. *)

From S2P Require Import Prelude Esr Machine Vcpu Asm World Stage2 Vgic Uart Vdev Handlers Vvirtio Vblk Timer Hv Sched.
From S2P Require Import GuestProg Counters A64 GuestRun TenantRun.

(** * The images *)
Definition guest_counter : list asm_line := [
  Ins (MovZ true 20 0 0);            (* mov x20, #0 *)
  Lbl "1"; Ins (AddI 20 20 1 0);     (* add x20, x20, #1 *)
  Ins (OrrR 0 31 20);                (* mov x0, x20 *)
  Ins (HvcI 0);
  Ref "1" Br ].                      (* b 1b *)
Definition vmsg : list Z := ln "Hello from the guest via an emulated UART (MMIO trap-and-emulate)!".
Definition guest_vuart : list asm_line := [
  Ins (MovZ true 2 0x0900 1);        (* movz x2, #0x0900, lsl #16 *)
  Ref "vmsg" (Adr 1);                (* adr x1, vmsg *)
  Lbl "2"; Ins (LdrbP 0 1 1);        (* ldrb w0, [x1], #1 *)
  Ref "3" (CbzW 0);                  (* cbz w0, 3f *)
  Ins (StrI 2 0 2 0);                (* str w0, [x2] *)
  Ref "2" Br;                        (* b 2b *)
  Lbl "3"; Ins (HvcI 0);
  Lbl "4"; Ins Wfi; Ref "4" Br;      (* wfi; b 4b *)
  Balign 4;
  Lbl "vmsg"; Asciz vmsg ].
(** The two programs follow each other in the section .text.guest. *)
Definition guest_sched : list asm_line := guest_counter ++ guest_vuart.
Definition sched_image : list Z := default [] (assemble 0 guest_sched).
Lemma sched_assembled a : a mod 4 = 0 -> assemble a guest_sched = Some sched_image.
Proof. intros Ha. rewrite <- (assemble_mod 4), Ha by done. vm_compute. reflexivity. Qed.
Definition image_end : Z := 124.
Lemma image_len : len sched_image = image_end.
Proof. vm_compute. reflexivity. Qed.
Lemma image_bytes : map u8 sched_image = sched_image.
Proof. vm_compute. reflexivity. Qed.
#[local] Opaque sched_image.

(** The translation stage2_init sets up. *)
Definition sched_xlate (lk : link) (t a : Z) : option Z :=
  if t =? vttbr_g lk then s2_pa <$> s2_walk VTCR_EL2_VALUE init_table a else None.
Definition in_ram (a : Z) : Prop := 0x40000000 <= a < 0x80000000.
Lemma sched_ident lk a : in_ram a -> sched_xlate lk (vttbr_g lk) a = Some a.
Proof. intros Ha. unfold sched_xlate. rewrite Z.eqb_refl, init_walk. by rewrite decide_True. Qed.
Lemma sched_uart lk : sched_xlate lk (vttbr_g lk) VUART_BASE = None.
Proof. unfold sched_xlate. by rewrite Z.eqb_refl, init_walk. Qed.

(** * Execution in place *)
Section Place.
Context (lk : link) (b : Z) (Hb : b mod 4 = 0) (Hlo : 0x40000000 <= b) (Hhi : b + len sched_image <= 0x80000000).
Abbreviation xl := (sched_xlate lk (vttbr_g lk)).
Abbreviation run := (a64_run m_ld m_st xl).
Definition code (m : mem) : Prop := image_at b sched_image m.
(** The instruction at offset [o] of the image. *)
Definition fetch (o : Z) : option a64 :=
  if (0 <=? o) && (o + 4 <=? len sched_image) && (o mod 4 =? 0) then decode (le (take 4 (drop (Z.to_nat o) sched_image))) else None.

Lemma step_code m o i g : code m -> fetch o = Some i -> a64_step m_ld m_st xl (b + o) g m = a64_exec m_ld m_st xl i (b + o) g m.
Proof.
  intros Hm. unfold fetch. destruct (_ && _) eqn:Ho; [|done]. rewrite !andb_true_iff, !Z.leb_le, Z.eqb_eq in Ho. destruct Ho as ((H0 & H1) & H4).
  intros Hf. unfold a64_step. assert ((b + o) mod 4 = 0) as -> by zlia. change (negb (0 =? 0)) with false. cbv iota.
  rewrite sched_ident by (unfold in_ram; lia). unfold m_ld at 1. cbn [mbind option_bind].
  rewrite load_le. rewrite <- (Z2Nat.id o H0) at 1. rewrite (mem_bytes_sub m (length sched_image) 4) by (unfold len in *; lia).
  rewrite Hm, Hf. done.
Qed.
Lemma next_pc o : 0 <= o <= image_end -> u64 (b + o) = b + o.
Proof. intros Ho. rewrite image_len in Hhi. apply wrap_fits. unfold fits. lia. Qed.

(** One instruction that goes on at offset [o']. *)
Lemma run_code q m o o' i g p g' :
  code m -> fetch o = Some i -> a64_exec m_ld m_st xl i (b + o) g m = Go (u64 p) g' m -> p = b + o' -> 0 <= o' <= image_end ->
  run (S q) (b + o) g m = run q (b + o') g' m.
Proof. intros Hm Hf He -> Ho. cbn [a64_run]. rewrite (step_code m o i g Hm Hf), He, next_pc by done. done. Qed.
Lemma run_leave_code q m o i g elr esr far g' :
  code m -> fetch o = Some i -> a64_exec m_ld m_st xl i (b + o) g m = Leave elr esr far g' m ->
  run (S q) (b + o) g m = (elr, g', m, Some (esr, far)).
Proof. intros Hm Hf He. cbn [a64_run]. by rewrite (step_code m o i g Hm Hf), He. Qed.

Lemma gx_gw r v g : 0 <= r < 31 -> length g = 31%nat -> gx (gw r v g) r = u64 v.
Proof.
  intros Hr Hl. unfold gx, gw. destruct (Z.eqb_spec r 31); [lia|]. rewrite nth_lookup, list_lookup_insert_eq by lia. done.
Qed.
Lemma gx_gw_ne r r' v g : 0 <= r -> 0 <= r' -> r <> r' -> gx (gw r v g) r' = gx g r'.
Proof.
  intros Hr Hr' Hne. unfold gx, gw. destruct (Z.eqb_spec r' 31); [done|]. destruct (Z.eqb_spec r 31); [done|].
  rewrite !nth_lookup, list_lookup_insert_ne by lia. done.
Qed.
Lemma gw_length r v g : length (gw r v g) = length g.
Proof. unfold gw. case_match; [done|apply length_insert]. Qed.
Lemma gw_gw r v v' g : gw r v (gw r v' g) = gw r v g.
Proof. unfold gw. case_match; [done|]. apply list_insert_insert_eq. Qed.

(** Execute the instruction [i] at offset [o] and go on at [o'], or leave. *)
Ltac code_step o o' i := erewrite (run_code _ _ o o' i); [|eassumption|vm_compute; reflexivity|reflexivity|lia|unfold image_end; lia].
Ltac code_leave o i := erewrite (run_leave_code _ _ o i); [|eassumption|vm_compute; reflexivity|reflexivity].

(** ** The counter *)
Definition counted_regs (n : Z) (g : list Z) : list Z := <[0%nat := n]> (<[20%nat := n]> g).
Lemma counter_loop q m g n :
  code m -> length g = 31%nat -> gx g 20 = n ->
  run (S (S (S q))) (b + 4) g m = (b + 16, counted_regs (u64 (n + 1)) g, m, Some (esr_hvc64 0, None)).
Proof.
  intros Hm Hl Hn. code_step 4 8 (AddI 20 20 1 0). code_step 8 12 (OrrR 0 31 20). code_leave 12 (HvcI 0).
  rewrite (gx_gw 20); [|lia|exact Hl]. rewrite Hn. change (gx (gw _ _ _) 31) with 0. rewrite Z.lor_0_l.
  replace (b + 12 + 4) with (b + 16) by lia. rewrite next_pc by (unfold image_end; lia). unfold gw, counted_regs. cbn [Z.eqb Pos.eqb].
  change (1 * 2 ^ (12 * 0)) with 1. by rewrite wrap_wrap.
Qed.
(** Entered where it starts or after a hypercall, the machine does what [counter_run] says. *)
Lemma counter_in_place quantum : (5 <= quantum)%nat -> lk_entry lk "guest_counter_entry" = b ->
  runs_counter lk code (asm_guest quantum (sched_xlate lk)).
Proof.
  intros Hq He c m g Hm Hl HT HS Hpc. rewrite He in *. unfold asm_guest. rewrite HS, HT. change (Z.testbit SCTLR_EL1_RESET 0) with false. cbv iota.
  assert (u64 (b + 16) = b + 16) as E16 by (apply next_pc; unfold image_end; lia).
  assert (forall n, wr_sysreg "esr_el2" (u64 (esr_hvc64 0)) (set_gp (wr_sysreg "elr_el2" (b + 16) c) (counted_regs n (gp c))) = count b n c) as Hcount.
  { intros n. unfold count. rewrite E16. destruct c. unfold wr_sysreg, set_gp. cbn. f_equal. by apply insert_insert_ne. }
  unfold counter_run. cbv zeta. destruct quantum as [|[|[|[|[|q]]]]]; [lia..|]. destruct Hpc as [-> | ->].
  - rewrite Z.eqb_refl. replace b with (b + 0) at 1 by lia. code_step 0 4 (MovZ true 20 0 0).
    rewrite (counter_loop _ m _ 0 Hm); [|rewrite gw_length; exact Hl|apply gx_gw; [lia|exact Hl]]. rewrite E16, <- Hcount. unfold counted_regs, gw. cbn [Z.eqb Pos.eqb].
    change (Z.to_nat 20) with 20%nat. by rewrite list_insert_insert_eq.
  - rewrite E16. destruct (Z.eqb_spec (b + 16) b); [lia|]. rewrite Z.eqb_refl. code_step 16 4 (Br (-12)).
    rewrite (counter_loop _ m _ (default 0 (gp c !! 20%nat)) Hm Hl); [|apply nth_lookup]. by rewrite E16, <- Hcount.
Qed.

(** ** The printing guest *)
Definition msg_len : Z := 67.
Definition msg_char (j : Z) : Z := nth (Z.to_nat j) (vmsg ++ [0]) 0.
Lemma msg_char_ok j : 0 <= j < msg_len -> 0 < msg_char j < 256.
Proof.
  intros Hj. assert ((0 <? msg_char j) && (msg_char j <? 256) = true) as Hc; [|lia].
  apply (small_check (fun j => (0 <? msg_char j) && (msg_char j <? 256)) msg_len j); [vm_compute; reflexivity|exact Hj].
Qed.
Lemma msg_byte m j : code m -> 0 <= j <= msg_len -> load 1 m (b + (56 + j)) = msg_char j.
Proof.
  intros Hm Hj. cbn [load]. rewrite Z.mul_0_r, Z.add_0_r.
  pose proof (mem_bytes_at m b (length sched_image) (Z.to_nat (56 + j))) as E. rewrite Hm, Z2Nat.id in E by (unfold msg_len in Hj; lia).
  pose proof image_len as Hl. unfold len, image_end, msg_len in *. specialize (E ltac:(lia)).
  unfold msg_char. replace (vmsg ++ [0]) with (drop 56 sched_image) by (vm_compute; reflexivity).
  rewrite nth_lookup, lookup_drop. replace (56 + Z.to_nat j)%nat with (Z.to_nat (56 + j)) by lia. by rewrite E.
Qed.

(** Registers at the head of the loop, before character [j]; and after it was read. *)
Definition at_loop (j : Z) (x : list Z) : Prop := length x = 31%nat /\ gx x 1 = b + (56 + j) /\ gx x 2 = VUART_BASE.
Definition read_char (j : Z) (x : list Z) : list Z := gw 0 (msg_char j) (gw 1 (b + (56 + j) + 1) x).
Lemma read_char_loop j x : 0 <= j < msg_len -> at_loop j x -> at_loop (j + 1) (read_char j x) /\ gx (read_char j x) 0 = msg_char j.
Proof.
  intros Hj (Hl & H1 & H2). unfold read_char, at_loop, msg_len in *. rewrite !gw_length.
  rewrite !(gx_gw_ne 0), (gx_gw 1), (gx_gw_ne 1) by lia. rewrite gx_gw by (rewrite ?gw_length; lia).
  replace (b + (56 + j) + 1) with (b + (56 + (j + 1))) by lia. rewrite next_pc by (unfold image_end; lia).
  pose proof (msg_char_ok j Hj). split; [by split_and!|]. apply wrap_fits. unfold fits. lia.
Qed.
Definition vuart_esr : Z := esr_access 1 2 0 0 1.
Lemma vuart_loop q m x j :
  code m -> 0 <= j <= msg_len -> at_loop j x ->
  run (S (S (S q))) (b + 28) x m =
    if j <? msg_len then (b + 36, read_char j x, m, Some (vuart_esr, Some VUART_BASE))
    else (b + 48, read_char j x, m, Some (esr_hvc64 0, None)).
Proof.
  intros Hm Hj Hx. pose proof (msg_byte m j Hm Hj) as Hb1. pose proof Hx as (Hl & H1 & H2). unfold msg_len in *.
  assert (in_ram (b + (56 + j))) as Hr by (rewrite image_len in Hhi; unfold in_ram, image_end in *; lia).
  assert (a64_exec m_ld m_st xl (LdrbP 0 1 1) (b + 28) x m = Go (u64 (b + 28 + 4)) (read_char j x) m) as E1.
  { cbn [a64_exec]. unfold access_load, phys. rewrite H1, (sched_ident lk _ Hr). change (Z.of_nat 1) with 1.
    replace (b + (56 + j) + 1 - 1) with (b + (56 + j)) by lia. rewrite (sched_ident lk _ Hr), decide_True by reflexivity.
    cbn [mbind option_bind]. unfold m_ld. by rewrite Hb1. }
  erewrite (run_code _ _ 28 32 (LdrbP 0 1 1)); [|exact Hm|vm_compute; reflexivity|exact E1|lia|unfold image_end; lia].
  destruct (Z.ltb_spec j 67) as [Hlt|Hge].
  - destruct (read_char_loop j x ltac:(unfold msg_len; lia) Hx) as [(Hl' & _ & H2') H0]. pose proof (msg_char_ok j ltac:(unfold msg_len; lia)) as Hc.
    assert (a64_exec m_ld m_st xl (CbzW 0 12) (b + 32) (read_char j x) m = Go (u64 (b + 32 + 4)) (read_char j x) m) as E2.
    { cbn [a64_exec]. rewrite H0, (wrap_fits 32) by (unfold fits; lia). by destruct (Z.eqb_spec (msg_char j) 0); [lia|]. }
    erewrite (run_code _ _ 32 36 (CbzW 0 12)); [|exact Hm|vm_compute; reflexivity|exact E2|lia|unfold image_end; lia].
    erewrite (run_leave_code _ _ 36 (StrI 2 0 2 0)); [reflexivity|exact Hm|vm_compute; reflexivity|].
    cbn [a64_exec]. unfold access_store. rewrite H2'. change (u64 (VUART_BASE + 0)) with VUART_BASE. by rewrite (sched_uart lk).
  - assert (j = 67) as -> by lia. assert (gx (read_char 67 x) 0 = 0) as H0 by (unfold read_char; rewrite gx_gw by (rewrite ?gw_length; lia); reflexivity).
    assert (a64_exec m_ld m_st xl (CbzW 0 12) (b + 32) (read_char 67 x) m = Go (u64 (b + 32 + 12)) (read_char 67 x) m) as E2
      by (cbn [a64_exec]; by rewrite H0).
    erewrite (run_code _ _ 32 44 (CbzW 0 12)); [|exact Hm|vm_compute; reflexivity|exact E2|lia|unfold image_end; lia].
    erewrite (run_leave_code _ _ 44 (HvcI 0)); [|exact Hm|vm_compute; reflexivity|reflexivity].
    replace (b + 44 + 4) with (b + 48) by lia. by rewrite next_pc by (unfold image_end; lia).
Qed.

(** Where the guest is entered: at its first instruction, and after each emulated store. *)
Definition enters (j p : Z) (x : list Z) : Prop := (j = 0 /\ p = b + 20 /\ length x = 31%nat) \/ (0 < j /\ p = b + 40 /\ at_loop j x).
Lemma enters_loop q m j p x :
  code m -> 0 <= j <= msg_len -> enters j p x ->
  exists y, at_loop j y /\
    run (5 + q) p x m =
      if j <? msg_len then (b + 36, read_char j y, m, Some (vuart_esr, Some VUART_BASE))
      else (b + 48, read_char j y, m, Some (esr_hvc64 0, None)).
Proof.
  intros Hm Hj [(-> & -> & Hl)|(H0 & -> & Hx)]; cbn [Nat.add].
  - exists (gw 1 (b + 24 + 32) (gw 2 (0x0900 * 2 ^ (16 * 1)) x)). split.
    + unfold at_loop. rewrite !gw_length, (gx_gw 1), gx_gw_ne, gx_gw by (rewrite ?gw_length; lia).
      replace (b + 24 + 32) with (b + (56 + 0)) by lia. rewrite next_pc by (unfold image_end; lia). by split_and!.
    + code_step 20 24 (MovZ true 2 0x0900 1). code_step 24 28 (Adr 1 32). apply vuart_loop; [exact Hm|exact Hj|].
      unfold at_loop. rewrite !gw_length, (gx_gw 1), gx_gw_ne, gx_gw by (rewrite ?gw_length; lia).
      replace (b + 24 + 32) with (b + (56 + 0)) by lia. rewrite next_pc by (unfold image_end; lia). by split_and!.
  - exists x. split; [exact Hx|]. code_step 40 28 (Br (-12)). by apply vuart_loop.
Qed.
End Place.

(** A trapped word store of [w0] to the data register of the emulated UART. *)
Section Emulate.
Context (gst : cpu -> mem -> guest -> Z * cpu * mem * guest).
#[local] Instance emulate_pl : Platform guest := dev_platform gst.
Lemma emulate_char v d g ch :
  wf_vcpu v -> exit_esr v = u64 vuart_esr -> gx (xregs v) 0 = ch -> 0 <= ch < 256 ->
  exists w', mmio_emulate v VUART_BASE (d, g) = Ok (pc_advance v, (d, set_dev g w')) /\ console w' = console (g_dev g) ++ [ch].
Proof.
  intros Hv He Hx Hc. destruct (guest_putc gst ch g) as (w' & E & C). exists w'. rewrite (wrap_fits 8 ch) in C by (unfold fits; lia).
  split; [|exact C]. destruct (store_syndrome 0 ltac:(lia)) as (_ & S1 & S2 & S3). unfold mmio_emulate. cbv zeta. rewrite He. unfold vuart_esr.
  rewrite S1, S2, S3. change (1 =? 0) with false. cbv iota. cbn [negb].
  change (u64 (VUART_BASE - VUART_BASE)) with VUART_DR. unfold try_, on_w, vuart_write, zoom, mbind, st_bind.
  rewrite (read_rt_gx v 0 Hv ltac:(lia)), Hx. cbn [mbind res_bind]. rewrite Z.eqb_refl. cbn [fst snd].
  change 0xFF with (Z.ones 8). rewrite land_ones_wrap, (wrap_fits 8 ch) by (unfold fits; lia).
  unfold on_w, zoom. cbn [snd]. assert (uart_putc ch g = Ok (tt, set_dev g w')) as -> by exact E. done.
Qed.
End Emulate.

(** * The demonstration *)
Section Sched.
Context (quantum : nat) (lk : link) (Hlk : link_ok lk) (Hq : (5 <= quantum)%nat).
Abbreviation b := (lk_entry lk "guest_counter_entry").
Context (Hb : b mod 4 = 0) (Hlo : 0x40000000 <= b) (Hhi : b + len sched_image <= 0x80000000) (Hv : lk_entry lk "guest_vuart_entry" = b + 20).
#[local] Instance sched_pl : Platform guest := asm_platform quantum (sched_xlate lk).
#[local] Instance sched_ok : PlatformOk guest := asm_platform_ok quantum (sched_xlate lk).

(** vCPU 0 is about to run the printing guest from character [j] on. *)
Record prints (j : Z) (v : vcpu) : Prop := {
  pr_enters : enters b j (pc v) (xregs v);
  pr_vttbr : vttbr v = vttbr_g lk;
  pr_sctlr : m_sctlr (mmu_of_vcpu v) = SCTLR_EL1_RESET;
  pr_id : vid v = 0;
  pr_halted : halted v = 0 }.
Definition printing (j : Z) (h : hv guest) : Prop :=
  wf_hv h /\ code b (h_mem h) /\ exists v, aget (h_vcpus h) 0 = Ok v /\ prints j v.

(** One run of the guest. *)
Lemma print_exit j h v :
  wf_hv h -> code b (h_mem h) -> aget (h_vcpus h) 0 = Ok v -> prints j v -> 0 <= j <= msg_len ->
  exists y v' c, at_loop b j y /\ let h1 := ran h 0 v' c (h_mem h) (h_w h) in
    run_once lk 0 h = Ok (tt, h1) /\ wf_hv h1 /\ get_vcpu 0 h1 = Ok (v', h1) /\
    exited v v' (if j <? msg_len then b + 36 else b + 48) (if j <? msg_len then vuart_esr else esr_hvc64 0)
      (if j <? msg_len then Some VUART_BASE else None) (read_char b j y).
Proof.
  intros Hh Hm Ha Hp Hj. destruct (enters_loop lk b Hb Hlo Hhi (quantum - 5) (h_mem h) j _ _ Hm Hj (pr_enters _ _ Hp)) as (y & Hy & E).
  replace (5 + (quantum - 5))%nat with quantum in E by lia. rewrite <- (pr_vttbr _ _ Hp) in E. exists y.
  assert (exists f e, (f = if j <? msg_len then Some VUART_BASE else None) /\ (e = if j <? msg_len then vuart_esr else esr_hvc64 0) /\
    a64_run m_ld m_st (sched_xlate lk (vttbr v)) quantum (pc v) (xregs v) (h_mem h) =
      (if j <? msg_len then b + 36 else b + 48, read_char b j y, h_mem h, Some (e, f))) as (f & e & <- & <- & Er).
  { eexists _, _. split; [reflexivity|]. split; [reflexivity|]. rewrite E. by case_match. }
  destruct (guest_leaves quantum (sched_xlate lk) lk 0 h v _ _ _ _ _ ltac:(lia) Hh Ha (pr_sctlr _ _ Hp) Er) as (v' & c & H1 & H2 & H3 & H4).
  exists v', c. exact (conj Hy (conj H1 (conj H2 (conj H3 H4)))).
Qed.

(** The store of a character is trapped, emulated and skipped. *)
Lemma print_char j h hcalls active :
  printing j h -> 0 <= j < msg_len -> len hcalls = 2 ->
  exists h', rv_one lk 1 "M5" 0 (hcalls, active) h = Ok ((hcalls, active), h') /\ printing (j + 1) h' /\
    (h_mem h', h_s2 h') = (h_mem h, h_s2 h) /\ h_console h' = h_console h ++ [msg_char j].
Proof.
  intros (Hh & Hm & v & Ha & Hp) Hj Hl. destruct (print_exit j h v Hh Hm Ha Hp ltac:(lia)) as (y & v' & c & Hy & E1 & W1 & G1 & X).
  set (h1 := ran _ _ _ _ _ _) in *. destruct (Z.ltb_spec j msg_len) as [_|]; [|lia].
  destruct (read_char_loop b Hlo Hhi j y Hj Hy) as [Hy' Hc]. pose proof (msg_char_ok j Hj) as Hcb.
  destruct (emulate_char (asm_guest quantum (sched_xlate lk)) v' (h_vuart h1) (h_w h1) (msg_char j)) as (w' & Ee & Cw);
    [apply X|apply X|by rewrite (ex_x _ _ _ _ _ _ X)|lia|].
  assert (exit_ec v' = EC_DABT_LOW) as Hec by (unfold exit_ec; by rewrite (ex_esr _ _ _ _ _ _ X)).
  assert (exit_ipa v' = VUART_BASE) as Hipa by (apply (ex_ipa _ _ _ _ _ _ X); [done|fits_const]).
  pose proof (wh_vcpus h1 W1) as [Hl1 _]. pose proof (wh_vcpus h Hh) as [Hl0 _].
  set (h2 := put_vcpus (put_w (put_vuart h1 (h_vuart h1)) (set_dev (h_w h1) w')) (<[0%nat := pc_advance v']> (h_vcpus h1))).
  assert (do_mmio_emulate 0 VUART_BASE h1 = Ok (tt, h2)) as Ed.
  { unfold do_mmio_emulate. rewrite (st_bind_Ok _ _ _ _ _ G1). unfold zoom, mbind, st_bind.
    assert (mmio_emulate v' VUART_BASE (h_vuart h1, h_w h1) = Ok (pc_advance v', (h_vuart h1, set_dev (h_w h1) w'))) as -> by exact Ee.
    cbn [fst snd]. unfold set_vcpu, update. cbn [h_vcpus put_w put_vuart]. by rewrite aset_ok by lia. }
  assert (rv_one lk 1 "M5" 0 (hcalls, active) h = Ok ((hcalls, active), h2)) as Er.
  { unfold rv_one. assert (get_vcpu 0 h = Ok (v, h)) as G0 by (unfold get_vcpu, try_; by rewrite Ha).
    rewrite (st_bind_Ok _ _ _ _ _ G0), (pr_halted _ _ Hp). change (negb (0 =? 0)) with false. cbv iota.
    rewrite (st_bind_Ok _ _ _ _ _ E1), (st_bind_Ok _ _ _ _ _ G1). cbv zeta. rewrite Hec, Hipa.
    change (EC_DABT_LOW =? EC_HVC64) with false. change (is_abort EC_DABT_LOW) with true.
    change ((EC_DABT_LOW =? EC_DABT_LOW) && vuart_contains VUART_BASE) with true. cbv iota. by rewrite (st_bind_Ok _ _ _ _ _ Ed). }
  destruct (rv_one_ok lk 1 "M5" 0 (hcalls, active) ltac:(lia) Hl h Hh) as (r & hf & Ef & Wf & _). rewrite Er in Ef. injection Ef as <- <-.
  exists h2. split; [exact Er|]. split; [|split; [done|exact Cw]].
  split; [exact Wf|]. split; [exact Hm|]. exists (pc_advance v'). split; [unfold h2; cbn [h_vcpus put_vcpus]; apply aget_insert_eq; lia|].
  injection (ex_key _ _ _ _ _ _ X) as K1 _ K3. split.
  - right. split; [lia|]. unfold pc_advance, set_pc. cbn [pc xregs]. rewrite (ex_pc _ _ _ _ _ _ X), (ex_x _ _ _ _ _ _ X), wrap_add_l.
    replace (b + 36 + 4) with (b + 40) by lia. split; [apply next_pc; [exact Hlo|exact Hhi|unfold image_end; lia]|exact Hy'].
  - cbn. by rewrite K1, (pr_vttbr _ _ Hp).
  - change (m_sctlr (mmu_of_vcpu v') = SCTLR_EL1_RESET). by rewrite (ex_mmu _ _ _ _ _ _ X), (pr_sctlr _ _ Hp).
  - cbn. by rewrite K3, (pr_id _ _ Hp).
  - cbn. by rewrite (ex_halted _ _ _ _ _ _ X), (pr_halted _ _ Hp).
Qed.

(** After the last character the guest reports by hypercall and its vCPU is halted. *)
Lemma print_end h :
  printing msg_len h ->
  exists h', rv_one lk 1 "M5" 0 ([0; 0], 1) h = Ok (([1; 0], 0), h') /\ wf_hv h' /\
    (h_mem h', h_s2 h') = (h_mem h, h_s2 h) /\ h_console h' = h_console h ++ hvc_text "M5" 0 0.
Proof.
  intros (Hh & Hm & v & Ha & Hp). destruct (print_exit msg_len h v Hh Hm Ha Hp ltac:(unfold msg_len; lia)) as (y & v' & c & (Hl & _) & E1 & W1 & G1 & X).
  set (h1 := ran _ _ _ _ _ _) in *. rewrite Z.ltb_irrefl in X. cbv iota in X. injection (ex_key _ _ _ _ _ _ X) as K1 _ K3.
  assert (exit_ec v' = EC_HVC64) as Hec by (unfold exit_ec; by rewrite (ex_esr _ _ _ _ _ _ X)).
  assert (get_x v' 0 = Ok 0) as Hx0.
  { unfold get_x. rewrite (ex_x _ _ _ _ _ _ X). apply aget_lookup; [lia|]. unfold read_char. change (gw 0 ?u ?g) with (<[0%nat := u64 u]> g).
    apply list_lookup_insert_eq. rewrite gw_length. lia. }
  destruct (rv_hvc lk "M5" 1 (asm_guest quantum (sched_xlate lk)) 0 0 0 v v' h h1 [0; 0] 1 ltac:(lia) ltac:(unfold fits; lia) Ha (pr_halted _ _ Hp)
    E1 G1 Hec) as (w' & Cw & Er); [by rewrite K3, (pr_id _ _ Hp)|exact Hx0|reflexivity|reflexivity|].
  cbv zeta in Er. change (1 <=? 0 + 1) with true in Er. cbv iota in Er. eexists. split; [exact Er|].
  destruct (rv_one_ok lk 1 "M5" 0 ([0; 0], 1) ltac:(lia) eq_refl h Hh) as (r & hf & Ef & Wf & _). pose proof (eq_trans (eq_sym Ef) Er) as Eh. injection Eh as _ ->.
  split; [exact Wf|]. split; [reflexivity|exact Cw].
Qed.

(** The run loop with the one vCPU. *)
Abbreviation body := (rv_body lk 1 1 "M5").
Lemma rv_single hcalls (l' : list Z * Z) h h' : rv_one lk 1 "M5" 0 (hcalls, 1) h = Ok (l', h') -> body (hcalls, 1) h = Ok ((true, l'), h').
Proof.
  intros E. unfold rv_body. cbn [snd]. change (1 =? 0) with false. cbv iota. cbn [rv_for].
  rewrite st_bind_assoc, (st_bind_Ok _ _ _ _ _ E). reflexivity.
Qed.
Lemma print_all fuel k : forall j h,
  printing j h -> 0 <= j -> j + Z.of_nat k = msg_len ->
  exists h', loop (k + fuel) body ([0; 0], 1) h = loop fuel body ([0; 0], 1) h' /\ printing msg_len h' /\
    (h_mem h', h_s2 h') = (h_mem h, h_s2 h) /\ h_console h' = h_console h ++ map msg_char (seqZ j (Z.of_nat k)).
Proof.
  induction k as [|k IH]; intros j h Hp Hj Hk.
  { exists h. assert (j = msg_len) as -> by lia. rewrite app_nil_r. split; [reflexivity|]. split; [exact Hp|]. by split. }
  destruct (print_char j h [0; 0] 1 Hp ltac:(lia) eq_refl) as (h1 & E1 & P1 & M1 & C1).
  destruct (IH (j + 1) h1 P1 ltac:(lia) ltac:(lia)) as (h2 & E2 & P2 & M2 & C2). exists h2. split; [|split; [exact P2|split; [by rewrite M2|]]].
  - cbn [Nat.add loop]. rewrite (st_bind_Ok _ _ _ _ _ (rv_single _ _ _ _ E1)). exact E2.
  - rewrite C2, C1, (seqZ_cons j) by lia. cbn [map]. rewrite <- app_assoc.
    replace (Z.pred (Z.of_nat (S k))) with (Z.of_nat k) by lia. by replace (Z.succ j) with (j + 1) by lia.
Qed.
Lemma msg_chars : map msg_char (seqZ 0 msg_len) = vmsg.
Proof. vm_compute. reflexivity. Qed.
Lemma print_run fuel h :
  printing 0 h -> (69 <= fuel)%nat ->
  exists h', run_vcpus lk fuel 1 1 "M5" h = Ok (([1; 0], 0), h') /\ wf_hv h' /\ (h_mem h', h_s2 h') = (h_mem h, h_s2 h) /\
    h_console h' = h_console h ++ vmsg ++ hvc_text "M5" 0 0.
Proof.
  intros Hp Hf. destruct (print_all (fuel - 67) 67 0 h Hp ltac:(lia) eq_refl) as (h1 & E1 & P1 & M1 & C1).
  destruct (print_end h1 P1) as (h2 & E2 & W2 & M2 & C2). exists h2. split; [|split; [exact W2|split; [by rewrite M2|]]].
  - unfold run_vcpus. change (replicate 2 0) with [0; 0]. change (Z.of_nat 1) with 1.
    replace (67 + (fuel - 67))%nat with fuel in E1 by lia. rewrite E1. destruct (fuel - 67)%nat as [|[|n]] eqn:En; [lia|lia|].
    cbn [loop]. rewrite (st_bind_Ok _ _ _ _ _ (rv_single _ _ _ _ E2)). reflexivity.
  - rewrite C2, C1. change (Z.of_nat 67) with msg_len. by rewrite msg_chars, <- app_assoc.
Qed.

(** ** The whole of sched_demo *)

(** [m] shows [l], leaving memory and stage-2 tables alone. *)
Definition shows (l : list Z) (m : st (hv guest) unit) : Prop :=
  forall h, wf_hv h -> exists h', m h = Ok (tt, h') /\ wf_hv h' /\ (h_mem h', h_s2 h') = (h_mem h, h_s2 h) /\ h_console h' = h_console h ++ l.
Lemma shows_println s : shows (map u8 (line (bytes s) ++ [CR; LF])) (println s).
Proof.
  intros h Hh. destruct (guest_println (asm_guest quantum (sched_xlate lk)) s h) as (w' & E & C).
  destruct (println_keeps s h Hh) as ([] & h1 & E1 & W1 & _). pose proof (eq_trans (eq_sym E1) E) as Eh. injection Eh as ->.
  eexists. split; [exact E|]. by split_and!.
Qed.
Lemma shows_puts s : shows (map u8 (line (bytes s))) (puts s).
Proof.
  intros h Hh. destruct (guest_puts (asm_guest quantum (sched_xlate lk)) s h) as (w' & E & C).
  destruct (puts_keeps s h Hh) as ([] & h1 & E1 & W1 & _). pose proof (eq_trans (eq_sym E1) E) as Eh. injection Eh as ->.
  eexists. split; [exact E|]. by split_and!.
Qed.
Lemma shows_wr_sys r v : fits 64 v -> shows [] (wr_sys r v).
Proof.
  intros Hf h Hh. destruct (wr_sys_total r v Hf h Hh) as ([] & h1 & E1 & W1 & _). exists h1. split; [exact E1|]. split; [exact W1|].
  injection E1 as <-. rewrite app_nil_r. by split.
Qed.

Lemma sched_stage2 (h : hv guest) :
  wf_hv h ->
  exists h', do_stage2_init lk h = Ok (tt, h') /\ wf_hv h' /\ h_mem h' = h_mem h /\ s2_l1 (h_s2 h') = init_table /\
    vtcr_el2 (h_s2 h') = VTCR_EL2_VALUE /\ h_console h' = h_console h ++ stage2_text lk.
Proof.
  intros Hh. destruct (wh_s2 h Hh) as (H1 & _).
  set (h1 := put_s2 h (mk_stage2 init_table (s2_vm (h_s2 h)) VTCR_EL2_VALUE)).
  destruct (guest_printf (asm_guest quantum (sched_xlate lk)) (bytes "[M3] stage-2 ON: vtcr=%x vttbr=%x (mapped 1GiB @0x40000000)" ++ [LF])
    [AInt VTCR_EL2_VALUE; AInt (u64 (lk_s2_l1 lk))] (default [] (render (bytes "[M3] stage-2 ON: vtcr=%x vttbr=%x (mapped 1GiB @0x40000000)" ++ [LF])
    [AInt VTCR_EL2_VALUE; AInt (u64 (lk_s2_l1 lk))])) h1) as (w' & E & C); [|reflexivity|].
  { constructor; [fits_const|]. constructor; [apply fits_wrap; lia|constructor]. }
  set (h2 := put_w h1 (set_dev (h_w h1) w')) in *.
  assert (do_stage2_init lk h = Ok (tt, h2)) as E2.
  { unfold do_stage2_init, zoom at 1, update, mbind at 1, st_bind at 1. rewrite stage2_init_table by done. cbn [mbind res_bind]. exact E. }
  destruct (stage2_init_total lk h Hh) as ([] & h3 & E3 & W3 & _). rewrite E2 in E3. injection E3 as <-.
  exists h2. split; [exact E2|]. split; [exact W3|]. by split_and!.
Qed.
Lemma vuart_ready (h : hv guest) :
  wf_hv h -> code b (h_mem h) ->
  exists h', init_at lk 0 "guest_vuart_entry" h = Ok (tt, h') /\ printing 0 h' /\ (h_mem h', h_s2 h') = (h_mem h, h_s2 h) /\ h_console h' = h_console h.
Proof.
  intros Hh Hm. destruct (wh_vcpus h Hh) as [Hl _].
  assert (total (fun _ => True) (init_at (W := guest) lk 0 "guest_vuart_entry")) as Ht
    by (apply init_vcpu_total; [lia|apply Hlk|apply fits_wrap; lia|apply Hlk]).
  destruct (Ht h Hh) as ([] & h1 & E1 & W1 & _). exists h1. split; [exact E1|].
  unfold init_at, init_vcpu, set_vcpu, update in E1. rewrite aset_ok in E1 by lia. injection E1 as E1.
  split; [|rewrite <- E1; split; reflexivity]. split; [exact W1|]. rewrite <- E1. cbn [h_mem put_vcpus h_vcpus]. split; [exact Hm|].
  eexists. split; [apply aget_insert_eq; lia|]. split; [left|..]; try reflexivity. split; [reflexivity|]. split; [exact Hv|reflexivity].
Qed.

Definition sched_text : list Z :=
  line (ln "[M4] two counting vCPUs, round-robin (3 hypercalls each):" ++
    ln "[M4] vCPU 0 HVC, x0=1" ++ ln "[M4] vCPU 1 HVC, x0=1" ++ ln "[M4] vCPU 0 HVC, x0=2" ++
    ln "[M4] vCPU 1 HVC, x0=2" ++ ln "[M4] vCPU 0 HVC, x0=3" ++ ln "[M4] vCPU 1 HVC, x0=3" ++
    ln "[M5] one vCPU printing via emulated MMIO UART:" ++ bytes "      guest says> ") ++ vmsg ++
  line (ln "[M5] vCPU 0 HVC, x0=0" ++ ln "[SCHED] all vCPUs halted; demo done.").
(** C6: The scheduling demonstration, down to its guests' instructions.  With the two
    programs of guest.S in RAM where the linker put them, sched_demo returns from every
    well-formed state: the two counters, executed instruction by instruction, share the
    processor without disturbing each other's register x20; the printing guest reads its
    message byte by byte, each of its stores to the UART faults in stage 2, is decoded,
    emulated and skipped, and its final hypercall ends the run.  The console shows exactly
    the expected lines, with the message in the guest's own words; memory is unchanged;
    and the translation the guests ran under is that of the tables the hypervisor set up. *)
Theorem sched_demo_shows (h : hv guest) fuel :
  wf_hv h -> code b (h_mem h) -> (69 <= fuel)%nat ->
  exists h', sched_demo lk fuel h = Ok (tt, h') /\ h_console h' = h_console h ++ stage2_text lk ++ sched_text /\ h_mem h' = h_mem h /\
    forall a, sched_xlate lk (vttbr_g lk) a = s2_pa <$> s2_walk (vtcr_el2 (h_s2 h')) (s2_l1 (h_s2 h')) a.
Proof.
  intros Hh Hm Hf. destruct (sched_stage2 h Hh) as (h1 & E1 & W1 & M1 & T1 & R1 & C1).
  destruct (shows_wr_sys "hcr_el2" (bit 31 .| bit 0 .| bit 12) ltac:(fits_const) h1 W1) as (h2 & E2 & W2 & M2 & C2). injection M2 as M2 S2.
  destruct (shows_println "[M4] two counting vCPUs, round-robin (3 hypercalls each):" h2 W2) as (h3 & E3 & W3 & M3 & C3). injection M3 as M3 S3.
  destruct (counters_demo lk "M4" 3 Hlk ltac:(lia) _ sched_ok (code b) (counter_in_place lk b Hb Hlo Hhi quantum Hq eq_refl) h3 fuel W3) as
    (h6 & v0 & v1 & E4 & W6 & M6 & C6 & _); [by rewrite M3, M2, M1|lia|]. injection M6 as M6 S6.
  apply st_bind_inv in E4 as ([] & h4 & E4 & E5). apply st_bind_inv in E5 as ([] & h5 & E5 & E6).
  destruct (shows_println "[M5] one vCPU printing via emulated MMIO UART:" h6 W6) as (h7 & E7 & W7 & M7 & C7). injection M7 as M7 S7.
  destruct (shows_puts "      guest says> " h7 W7) as (h8 & E8 & W8 & M8 & C8). injection M8 as M8 S8.
  destruct (vuart_ready h8 W8) as (h9 & E9 & P9 & M9 & C9); [by rewrite M8, M7, M6, M3, M2, M1|]. injection M9 as M9 S9.
  destruct (print_run fuel h9 P9 Hf) as (h10 & E10 & W10 & M10 & C10). injection M10 as M10 S10.
  destruct (shows_println "[SCHED] all vCPUs halted; demo done." h10 W10) as (h11 & E11 & W11 & M11 & C11). injection M11 as M11 S11.
  exists h11. split; [|split; [|split]].
  - unfold sched_demo. rewrite (st_bind_Ok _ _ _ _ _ E1), (st_bind_Ok _ _ _ _ _ E2), (st_bind_Ok _ _ _ _ _ E3), (st_bind_Ok _ _ _ _ _ E4),
      (st_bind_Ok _ _ _ _ _ E5), (st_bind_Ok _ _ _ _ _ E6), (st_bind_Ok _ _ _ _ _ E7), (st_bind_Ok _ _ _ _ _ E8), (st_bind_Ok _ _ _ _ _ E9),
      (st_bind_Ok _ _ _ _ _ E10). exact E11.
  - rewrite C11, C10, C9, C8, C7, C6, C3, C2, C1, <- !app_assoc. do 2 apply (f_equal (app _)). vm_compute. reflexivity.
  - by rewrite M11, M10, M9, M8, M7, M6, M3, M2.
  - intros x. assert (h_s2 h11 = h_s2 h1) as -> by (by rewrite S11, S10, S9, S8, S7, S6, S3, S2).
    unfold sched_xlate. by rewrite Z.eqb_refl, T1, R1.
Qed.
End Sched.

(** A link whose guests are in RAM, and a memory with the image there. *)
Definition sched_link : link :=
  mk_link 0x70100000 0x70200000 0x70300000 0x70301000 (fun e => if decide (e = "guest_vuart_entry"%string) then 0x40081014 else 0x40081000) (fun _ => []).
Definition sched_boot : hv guest := put_mem (hv_boot idle_guest) (write_bytes (h_mem (hv_boot idle_guest)) 0x40081000 sched_image).
Lemma sched_demo_shows_witness :
  exists h', sched_demo (PL := sched_pl 5 sched_link) sched_link 69 sched_boot = Ok (tt, h') /\
    h_console h' = line (ln "[M3] stage-2 ON: vtcr=0x80023559 vttbr=0x70300000 (mapped 1GiB @0x40000000)") ++ sched_text.
Proof.
  assert (link_ok sched_link) as Hlk by (split; [fits_const|intros e; unfold sched_link; cbn; case_decide; fits_const]).
  assert (wf_hv sched_boot) as Hw by (destruct (hv_boot_wf idle_guest); by split).
  assert (code 0x40081000 (h_mem sched_boot)) as Hc.
  { unfold code. rewrite <- image_bytes at 1. apply write_bytes_image. rewrite image_len. by vm_compute. }
  destruct (sched_demo_shows 5 sched_link Hlk (le_n _) eq_refl ltac:(by vm_compute) ltac:(by vm_compute) eq_refl sched_boot 69 Hw Hc (le_n _))
    as (h' & E & C & _). exists h'. split; [exact E|]. rewrite C. vm_compute. reflexivity.
Defined.
