(* ===== verification/VirtIrq.v ===== *)
(** Guests that take interrupts: the processor's virtual CPU interface (list registers,
    ICV_IAR1/EOIR1, running priority), exceptions taken to EL1 and [eret], and the system
    instructions of the interrupt-driven guests of src/src/guest.S.  This is the other
    side of [vgic_inject]: what the hardware and the guest do with the list registers the
    hypervisor fills.  The instance [virq_platform] runs such guests from memory. *)

From S2P Require Import Prelude Esr Machine Vcpu Stage2 Handlers Hv GuestProg A64 GuestRun.

(** * System instructions, and the others of these guests that A64.v lacks *)
Inductive sys_ins :=
| MsrR (r t : Z)                               (* msr <r>, xt *)
| MrsR (t r : Z)                               (* mrs xt, <r> *)
| DaifClr (imm : Z)                            (* msr daifclr, #imm *)
| SpAdd (imm : Z) | SpSub (imm : Z)            (* add sp, sp, #imm; sub sp, sp, #imm *)
| StpSp (t t2 off : Z) | LdpSp (t t2 off : Z)  (* stp xt, xt2, [sp, #off]; ldp *)
| MovnW (d imm : Z)                            (* mov wd, #(~imm) *)
| LslW (d n sh : Z)                            (* lsl wd, wn, #sh *)
| Eret.

(** The 15-bit name of the system register S3_<op1>_C<n>_C<m>_<op2>. *)
Definition s3 (op1 crn crm op2 : Z) : Z := 2 ^ 14 + op1 * 2 ^ 11 + crn * 2 ^ 7 + crm * 2 ^ 3 + op2.
Definition R_VBAR_EL1 := s3 0 12 0 0.
Definition R_ICC_PMR_EL1 := s3 0 4 6 0.
Definition R_ICC_IAR1_EL1 := s3 0 12 12 0.
Definition R_ICC_EOIR1_EL1 := s3 0 12 12 1.
Definition R_ICC_SRE_EL1 := s3 0 12 12 5.
Definition R_ICC_IGRPEN1_EL1 := s3 0 12 12 7.

Definition sys_encode (i : sys_ins) : Z :=
  match i with
  | MsrR r t => 0xD5100000 + r * 2 ^ 5 + t
  | MrsR t r => 0xD5300000 + r * 2 ^ 5 + t
  | DaifClr imm => 0xD50340FF + imm * 2 ^ 8
  | SpAdd imm => 0x910003FF + imm * 2 ^ 10
  | SpSub imm => 0xD10003FF + imm * 2 ^ 10
  | StpSp t t2 off => 0xA9000000 + wrap 7 (off / 8) * 2 ^ 15 + t2 * 2 ^ 10 + 31 * 2 ^ 5 + t
  | LdpSp t t2 off => 0xA9400000 + wrap 7 (off / 8) * 2 ^ 15 + t2 * 2 ^ 10 + 31 * 2 ^ 5 + t
  | MovnW d imm => 0x12800000 + imm * 2 ^ 5 + d
  | LslW d n sh => 0x53000000 + (32 - sh) * 2 ^ 16 + (31 - sh) * 2 ^ 10 + n * 2 ^ 5 + d
  | Eret => 0xD69F03E0
  end.
Definition sys_ok (i : sys_ins) : bool :=
  match i with
  | MsrR r t | MrsR t r => low 15 r && reg t
  | DaifClr imm => low 4 imm
  | SpAdd imm | SpSub imm => low 12 imm
  | StpSp t t2 off | LdpSp t t2 off => reg t && reg t2 && (off mod 8 =? 0) && signed 6 (off / 8)
  | MovnW d imm => reg d && low 16 imm
  | LslW d n sh => reg d && reg n && (1 <=? sh) && (sh <? 32)
  | Eret => true
  end.
Definition sys_decode (w : Z) : option sys_ins :=
  if fld w 20 12 =? 0xD51 then Some (MsrR (fld w 5 15) (fld w 0 5))
  else if fld w 20 12 =? 0xD53 then Some (MrsR (fld w 0 5) (fld w 5 15))
  else if (fld w 12 20 =? 0xD5034) && (fld w 0 8 =? 0xFF) then Some (DaifClr (fld w 8 4))
  else if (fld w 22 10 =? 0x244) && (fld w 0 10 =? 0x3FF) then Some (SpAdd (fld w 10 12))
  else if (fld w 22 10 =? 0x344) && (fld w 0 10 =? 0x3FF) then Some (SpSub (fld w 10 12))
  else if (fld w 22 10 =? 0x2A4) && (fld w 5 5 =? 31) then Some (StpSp (fld w 0 5) (fld w 10 5) (8 * sx 6 (fld w 15 7)))
  else if (fld w 22 10 =? 0x2A5) && (fld w 5 5 =? 31) then Some (LdpSp (fld w 0 5) (fld w 10 5) (8 * sx 6 (fld w 15 7)))
  else if fld w 21 11 =? 0x94 then Some (MovnW (fld w 0 5) (fld w 5 16))
  else if (fld w 22 10 =? 0x14C) && (fld w 16 6 =? fld w 10 6 + 1) && (fld w 10 6 <? 31) then
    Some (LslW (fld w 0 5) (fld w 5 5) (31 - fld w 10 6))
  else if w =? 0xD69F03E0 then Some Eret
  else None.

(** The decoder reads every such instruction back, and the general decoder leaves it alone. *)
Ltac sys_decoded :=
  match goal with
  | |- sys_decode (sys_encode ?i) = _ /\ _ =>
      let w := fresh "w" in let E := fresh in
      pose (w := sys_encode i); assert (w = sys_encode i) as E by reflexivity; cbn [sys_encode] in E; fold w; clearbody w;
      split; [unfold sys_decode; repeat decode_step; do 2 f_equal; unfold sx|split; [unfold decode; cbv zeta; repeat decode_step; reflexivity|]];
      try (match goal with |- context [if ?b then _ else _] => destruct b eqn:? end); fields
  end.
Lemma sys_decode_encode i : sys_ok i = true -> sys_decode (sys_encode i) = Some i /\ decode (sys_encode i) = None /\ fits 32 (sys_encode i).
Proof.
  destruct i as [r t|t r|imm|imm|imm|t t2 off|t t2 off|d imm|d n sh|]; cbn [sys_ok]; unfold reg, low, signed; intros Hok.
  all: sys_decoded.
Qed.

(** * The processor as a guest at EL1 sees it

    Program counter, PSTATE, general-purpose registers, the EL1 registers an interrupt
    uses, and the state of the virtual CPU interface. *)
Record vcore := mk_vcore {
  k_pc : Z; k_ps : Z; k_x : list Z; k_sp : Z; k_vbar : Z; k_elr : Z; k_spsr : Z;
  k_lr : list Z; k_vmcr : Z; k_ap : Z }.
Definition k_at (p : Z) (k : vcore) := mk_vcore p (k_ps k) (k_x k) (k_sp k) (k_vbar k) (k_elr k) (k_spsr k) (k_lr k) (k_vmcr k) (k_ap k).
Definition k_set_ps (s : Z) (k : vcore) := mk_vcore (k_pc k) s (k_x k) (k_sp k) (k_vbar k) (k_elr k) (k_spsr k) (k_lr k) (k_vmcr k) (k_ap k).
Definition k_set_x (x : list Z) (k : vcore) := mk_vcore (k_pc k) (k_ps k) x (k_sp k) (k_vbar k) (k_elr k) (k_spsr k) (k_lr k) (k_vmcr k) (k_ap k).
Definition k_set_sp (s : Z) (k : vcore) := mk_vcore (k_pc k) (k_ps k) (k_x k) s (k_vbar k) (k_elr k) (k_spsr k) (k_lr k) (k_vmcr k) (k_ap k).
Definition k_set_vbar (b : Z) (k : vcore) := mk_vcore (k_pc k) (k_ps k) (k_x k) (k_sp k) b (k_elr k) (k_spsr k) (k_lr k) (k_vmcr k) (k_ap k).
Definition k_set_vmcr (v : Z) (k : vcore) := mk_vcore (k_pc k) (k_ps k) (k_x k) (k_sp k) (k_vbar k) (k_elr k) (k_spsr k) (k_lr k) v (k_ap k).
Definition k_set_irq (l : list Z) (a : Z) (k : vcore) := mk_vcore (k_pc k) (k_ps k) (k_x k) (k_sp k) (k_vbar k) (k_elr k) (k_spsr k) l (k_vmcr k) a.

(** * The virtual CPU interface (GICv3 architecture, chapter 6)

    An entry of the list registers is pending when its state is 1; only Group 1 is used.
    The five priority bits all count for preemption (the binary point is at its
    minimum). *)
Definition lr_prio (lr : Z) : Z := fld lr 48 8.
Definition lr_pending (lr : Z) : bool := (lr_state lr =? 1) && Z.testbit lr 60.
(** Position and priority of the highest-priority pending entry. *)
Fixpoint highest (i : nat) (l : list Z) : option (nat * Z) :=
  match l with
  | [] => None
  | lr :: l =>
      let r := highest (S i) l in
      if lr_pending lr then
        match r with
        | Some (j, q) => if q <? lr_prio lr then Some (j, q) else Some (i, lr_prio lr)
        | None => Some (i, lr_prio lr)
        end
      else r
  end.
(** The running priority: that of the lowest active-priority bit, or idle. *)
Definition running_prio (a : Z) : Z := if a =? 0 then 0xFF else 8 * Z.log2 (a .& - a).
(** The interrupt signalled to EL1: Group 1 enabled (VMCR.VENG1), above the priority mask
    (VMCR.VPMR) and above what is running. *)
Definition signalled (k : vcore) : option (nat * Z) :=
  if Z.testbit (k_vmcr k) 1 then
    match highest 0 (k_lr k) with
    | Some (i, p) => if (p <? fld (k_vmcr k) 24 8) && (p <? running_prio (k_ap k)) then Some (i, p) else None
    | None => None
    end
  else None.
(** ICV_IAR1_EL1: acknowledge; the entry becomes active. *)
Definition icv_iar1 (k : vcore) : Z * vcore :=
  match signalled k with
  | Some (i, p) =>
      let lr := default 0 (k_lr k !! i) in
      (lr_id lr, k_set_irq (<[i := Z.lxor lr (bit 63 .| bit 62)]> (k_lr k)) (k_ap k .| bit (p / 8)) k)
  | None => (1023, k)
  end.
(** ICV_EOIR1_EL1: priority drop and, unless VMCR.VEOIM separates them, deactivation of
    the entry with that number. *)
Definition deactivate (v lr : Z) : Z := if Z.testbit lr 63 && (lr_id lr =? v) then lr .& cnot 64 (bit 63) else lr.
Definition icv_eoir1 (v : Z) (k : vcore) : vcore :=
  k_set_irq (if Z.testbit (k_vmcr k) 9 then k_lr k else map (deactivate v) (k_lr k)) (k_ap k .& (k_ap k - 1)) k.

(** With HCR_EL2.IMO and ICH_HCR_EL2.En the ICC_* registers of EL1 are the virtual ones;
    a guest that uses them otherwise is not given a meaning.  ICC_SRE_EL1.SRE is
    write-ignored. *)
Definition msr_sys (virt : bool) (r v : Z) (k : vcore) : option vcore :=
  if r =? R_VBAR_EL1 then Some (k_set_vbar v k)
  else if r =? R_ICC_SRE_EL1 then Some k
  else if negb virt then None
  else if r =? R_ICC_PMR_EL1 then Some (k_set_vmcr (k_vmcr k - fld (k_vmcr k) 24 8 * 2 ^ 24 + wrap 8 v * 2 ^ 24) k)
  else if r =? R_ICC_IGRPEN1_EL1 then Some (k_set_vmcr (k_vmcr k - fld (k_vmcr k) 1 1 * 2 + wrap 1 v * 2) k)
  else if r =? R_ICC_EOIR1_EL1 then Some (icv_eoir1 v k)
  else None.
Definition mrs_sys (virt : bool) (r : Z) (k : vcore) : option (Z * vcore) :=
  if r =? R_VBAR_EL1 then Some (k_vbar k, k)
  else if virt && (r =? R_ICC_IAR1_EL1) then Some (icv_iar1 k)
  else None.

(** * Execution *)
Inductive voutcome :=
| VGo (k : vcore) (m : mem)
| VExit (idx : Z) (esr : option (Z * option Z)) (k : vcore) (m : mem)
| VLost.
Definition PS_I : Z := 7.
(** SPSR values: EL1 with its own stack pointer; all of D, A, I, F masked. *)
Definition PS_EL1h := 5.
Definition PS_DAIF := 0x3C0.

Section Exec.
Context (virt : bool) (xl : Z -> option Z).

Definition v_next (k : vcore) : vcore := k_at (u64 (k_pc k + 4)) k.
(** A pair of doublewords at the stack pointer. *)
Definition stack_pair (off wnr : Z) (k : vcore) (m : mem) (f : Z -> voutcome) : voutcome :=
  let a := u64 (k_sp k + off) in
  match xl a with
  | None => VExit 8 (Some (esr_access 0 0 0 0 wnr, Some a)) k m
  | Some _ => match phys xl 16 a with Some pa => f pa | None => VLost end
  end.
Definition sys_exec (i : sys_ins) (k : vcore) (m : mem) : voutcome :=
  match i with
  | MsrR r t => match msr_sys virt r (gx (k_x k) t) k with Some k => VGo (v_next k) m | None => VLost end
  | MrsR t r => match mrs_sys virt r k with Some (v, k) => VGo (v_next (k_set_x (gw t v (k_x k)) k)) m | None => VLost end
  | DaifClr imm => VGo (v_next (k_set_ps (k_ps k .& cnot 64 (imm ≪ 6)) k)) m
  | SpAdd imm => VGo (v_next (k_set_sp (u64 (k_sp k + imm)) k)) m
  | SpSub imm => VGo (v_next (k_set_sp (u64 (k_sp k - imm)) k)) m
  | StpSp t t2 off => stack_pair off 1 k m (fun pa => VGo (v_next k) (st64 (st64 m pa (gx (k_x k) t)) (pa + 8) (gx (k_x k) t2)))
  | LdpSp t t2 off => stack_pair off 0 k m (fun pa => VGo (v_next (k_set_x (gw t2 (ld64 m (pa + 8)) (gw t (ld64 m pa) (k_x k))) k)) m)
  | MovnW d imm => VGo (v_next (k_set_x (gw d (cnot 32 imm) (k_x k)) k)) m
  | LslW d n sh => VGo (v_next (k_set_x (gw d (u32 (gx (k_x k) n ≪ sh)) (k_x k)) k)) m
  | Eret => VGo (k_at (k_elr k) (k_set_ps (k_spsr k) k)) m
  end.
(** Exception entry at EL1 for an IRQ from EL1 with its own stack pointer. *)
Definition take_irq (k : vcore) : vcore :=
  mk_vcore (u64 (k_vbar k + 0x280)) (k_ps k .| PS_DAIF) (k_x k) (k_sp k) (k_vbar k) (k_pc k) (k_ps k) (k_lr k) (k_vmcr k) (k_ap k).
Definition ins_exec (i : a64) (k : vcore) (m : mem) : voutcome :=
  match a64_exec m_ld m_st xl i (k_pc k) (k_x k) m with
  | Go p x m => VGo (k_at p (k_set_x x k)) m
  | Leave p esr far x m => VExit 8 (Some (esr, far)) (k_at p (k_set_x x k)) m
  | Lost => VLost
  end.
(** An interrupt that is signalled and not masked is taken before the next instruction.
    [wfi] waits for a virtual interrupt, masked or not, or for a physical one, which is
    taken to EL2. *)
Definition v_step (k : vcore) (m : mem) : voutcome :=
  let irq := bool_decide (is_Some (signalled k)) && virt in
  if irq && negb (Z.testbit (k_ps k) PS_I) then
    if wrap 4 (k_ps k) =? PS_EL1h then VGo (take_irq k) m else VLost
  else if negb (k_pc k mod 4 =? 0) then VLost
  else match xl (k_pc k) with
       | None => VExit 8 (Some (esr_fetch, Some (k_pc k))) k m
       | Some pa =>
           let w := ld32 m pa in
           match decode w with
           | Some Wfi => if irq then VGo (v_next k) m else VExit 9 None (v_next k) m
           | Some i => ins_exec i k m
           | None => match sys_decode w with Some i => sys_exec i k m | None => VLost end
           end
       end.
(** Up to [q] steps; a physical interrupt then takes the processor. *)
Fixpoint v_run (q : nat) (k : vcore) (m : mem) : Z * option (Z * option Z) * vcore * mem :=
  match q with
  | O => (9, None, k, m)
  | S q =>
      match v_step k m with
      | VGo k m => v_run q k m
      | VExit idx esr k m => (idx, esr, k, m)
      | VLost => (9, None, k, m)
      end
  end.
End Exec.

(** * The machine *)
Definition core_of (c : cpu) : vcore :=
  mk_vcore (rd_sysreg "elr_el2" c) (rd_sysreg "spsr_el2" c) (gp c) (rd_sysreg "sp_el1" c) (rd_sysreg "vbar_el1" c)
    (rd_sysreg "elr_el1" c) (rd_sysreg "spsr_el1" c)
    [rd_sysreg "ich_lr0_el2" c; rd_sysreg "ich_lr1_el2" c; rd_sysreg "ich_lr2_el2" c; rd_sysreg "ich_lr3_el2" c]
    (rd_sysreg "ich_vmcr_el2" c) (rd_sysreg "ich_ap1r0_el2" c).
Definition core_regs (k : vcore) : list (string * Z) :=
  let lr i := default 0 (k_lr k !! i) in
  [("elr_el2", u64 (k_pc k)); ("spsr_el2", u64 (k_ps k)); ("sp_el1", u64 (k_sp k)); ("vbar_el1", u64 (k_vbar k));
   ("elr_el1", u64 (k_elr k)); ("spsr_el1", u64 (k_spsr k)); ("ich_lr0_el2", u64 (lr 0%nat)); ("ich_lr1_el2", u64 (lr 1%nat));
   ("ich_lr2_el2", u64 (lr 2%nat)); ("ich_lr3_el2", u64 (lr 3%nat)); ("ich_vmcr_el2", u64 (k_vmcr k)); ("ich_ap1r0_el2", u64 (k_ap k))]%string.
Definition exit_regs (e : option (Z * option Z)) : list (string * Z) :=
  match e with
  | None => []
  | Some (esr, None) => [("esr_el2", u64 esr)]
  | Some (esr, Some va) => [("esr_el2", u64 esr); ("far_el2", u64 va); ("hpfar_el2", u64 ((va ≫ 12) ≪ 4))]
  end%string.
Definition put_core (k : vcore) (e : option (Z * option Z)) (c : cpu) : cpu := set_gp (msr_all (core_regs k ++ exit_regs e) c) (k_x k).
Definition virt_of (c : cpu) : bool := Z.testbit (rd_sysreg "hcr_el2" c) 4 && Z.testbit (rd_sysreg "ich_hcr_el2" c) 0.

Section Machine.
Context (quantum : nat) (xlate : Z -> Z -> option Z).
Definition virq_guest (c : cpu) (m : mem) (g : guest) : Z * cpu * mem * guest :=
  if Z.testbit (rd_sysreg "sctlr_el1" c) 0 then (9, c, m, g)
  else let '(idx, e, k, m) := v_run (virt_of c) (xlate (rd_sysreg "vttbr_el2" c)) quantum (core_of c) m in (idx, put_core k e c, m, g).
Definition virq_platform : Platform guest := dev_platform virq_guest.

(** Exits are by a lower-EL synchronous or IRQ vector, and registers keep their widths. *)
Definition regs_kept (k k' : vcore) : Prop := regs_ok (k_x k) -> regs_ok (k_x k').
Definition step_ok (k : vcore) (r : voutcome) : Prop :=
  match r with VGo k' _ => regs_kept k k' | VExit idx _ k' _ => (idx = 8 \/ idx = 9) /\ regs_kept k k' | VLost => True end.
Lemma ins_exec_ok i k m xl : step_ok k (ins_exec xl i k m).
Proof.
  unfold ins_exec, a64_exec, access_load, access_store. cbv zeta.
  repeat case_match; simplify_eq; cbn [step_ok]; try (split; [left; reflexivity|]); try exact I; unfold regs_kept; cbn [k_x k_at k_set_x]; auto using gw_ok.
Qed.
Lemma sys_exec_ok virt i k m xl : step_ok k (sys_exec virt xl i k m).
Proof.
  unfold sys_exec, stack_pair, msr_sys, mrs_sys, icv_iar1, icv_eoir1, v_next.
  repeat case_match; simplify_eq; cbn [step_ok]; try (split; [left; reflexivity|]); try exact I; unfold regs_kept;
    cbn [k_x k_at k_set_x k_set_vbar k_set_vmcr k_set_irq k_set_sp k_set_ps]; auto using gw_ok.
Qed.
Lemma v_step_ok virt xl k m : step_ok k (v_step virt xl k m).
Proof.
  assert (forall e, step_ok k (VExit 8 e k m)) as H8 by (intros e; split; [by left|by intros ?]).
  assert (step_ok k (VExit 9 None (v_next k) m)) as H9 by (split; [by right|by intros ?]).
  unfold v_step. cbv zeta.
  repeat (match goal with |- step_ok _ (if ?b then _ else _) => destruct b end; try exact I; try (by intros ?));
    (destruct (xl (k_pc k)) as [pa|]; [|apply H8]);
    (destruct (decode _) as [i|]; [|destruct (sys_decode _) as [i|]; [apply sys_exec_ok|exact I]]);
    destruct i; try apply ins_exec_ok; case_match; [by intros ?|exact H9].
Qed.
Lemma v_run_ok virt xl q : forall k m idx e k' m',
  v_run virt xl q k m = (idx, e, k', m') -> (idx = 8 \/ idx = 9) /\ regs_kept k k'.
Proof.
  induction q as [|q IH]; intros k m idx e k' m'; cbn [v_run]; [intros [= <- <- <- <-]; split; [tauto|by intros ?]|].
  pose proof (v_step_ok virt xl k m) as Hs. destruct (v_step virt xl k m) as [k1 m1|i1 e1 k1 m1|]; cbn [step_ok] in Hs.
  - intros E. apply IH in E as [H1 H2]. split; [done|]. unfold regs_kept in *. tauto.
  - intros [= <- <- <- <-]. exact Hs.
  - intros [= <- <- <- <-]. split; [tauto|by intros ?].
Qed.

Lemma put_core_wf k e c : regs_ok (k_x k) -> wf_cpu c -> wf_cpu (put_core k e c).
Proof.
  intros [Hl HF] Hc. unfold put_core. apply set_gp_wf; [done|done|]. unfold core_regs, exit_regs.
  destruct e as [[esr [va|]]|]; cbn [app msr_all]; repeat (apply wf_wr_sysreg; [apply fits_wrap; lia|]); done.
Qed.
Lemma rd_put_core r k e c : r ∉ map fst (core_regs k ++ exit_regs e) -> rd_sysreg r (put_core k e c) = rd_sysreg r c.
Proof. intros Hr. unfold put_core. rewrite rd_set_gp. by apply rd_msr_all_ne. Qed.
Lemma virq_platform_ok : @PlatformOk guest virq_platform.
Proof.
  apply dev_platform_ok; intros c m g; unfold virq_guest; (destruct (Z.testbit _ _); [try done; cbn; lia|]);
    destruct (v_run _ _ _ _ _) as [[[idx e] k] m'] eqn:E; cbn [fst snd]; apply v_run_ok in E as [Hi Hk].
  - lia.
  - intros Hc. pose proof Hc as (Hl & HF & _). apply put_core_wf; [|done]. apply Hk. by split.
  - intros r Hr. apply rd_put_core. intros Hin.
    assert (forall x, x ∈ map fst (core_regs k ++ exit_regs e) -> bool_decide (x ∈ el2_private) = false) as Hp.
    { intros x Hx. unfold core_regs, exit_regs in Hx. destruct e as [[esr [va|]]|]; cbn [map app fst] in Hx;
        rewrite ?elem_of_cons, elem_of_nil in Hx; destruct_or! Hx; subst; by vm_compute. }
    specialize (Hp r Hin). by apply bool_decide_eq_false_1 in Hp.
Qed.
End Machine.

(** * A run of a vCPU *)
Definition core_of_vcpu (v : vcpu) : vcore :=
  mk_vcore (pc v) (pstate v) (xregs v) (sp_el1 (el1 v)) (vbar_el1 (el1 v)) (elr_el1 (el1 v)) (spsr_el1 (el1 v))
    (ich_lr (ich v)) (ich_vmcr (ich v)) (ich_ap1r0 (ich v)).
(** What is left of a core in 64-bit registers. *)
Definition core64 (k : vcore) : vcore :=
  let lr i := u64 (default 0 (k_lr k !! i)) in
  mk_vcore (u64 (k_pc k)) (u64 (k_ps k)) (k_x k) (u64 (k_sp k)) (u64 (k_vbar k)) (u64 (k_elr k)) (u64 (k_spsr k))
    [lr 0%nat; lr 1%nat; lr 2%nat; lr 3%nat] (u64 (k_vmcr k)) (u64 (k_ap k)).
Lemma core_of_put k e c : core_of (put_core k e c) = core64 k.
Proof.
  unfold core_of, put_core, core_regs, exit_regs. rewrite !rd_set_gp. cbn [gp set_gp].
  destruct e as [[esr [va|]]|]; cbn [app msr_all]; unfold core64; cbv zeta; f_equal; repeat (f_equal; [..|]); by repeat sysreg.
Qed.
Lemma holds_core v c : wf_vcpu v -> holds v c -> core_of c = core_of_vcpu v.
Proof.
  intros (_ & _ & _ & Hl & _) Hh. pose proof Hh as [Hg _].
  assert (exists a b c d, ich_lr (ich v) = [a; b; c; d]) as (l0 & l1 & l2 & l3 & El)
    by (destruct (ich_lr (ich v)) as [|? [|? [|? [|? [|]]]]]; unfold len in Hl; cbn in Hl; try lia; by do 4 eexists).
  unfold core_of, core_of_vcpu. f_equal; try (eapply holds_reg; [exact Hh|saved_reg]); [exact Hg|].
  rewrite El. f_equal; [|f_equal; [|f_equal; [|f_equal]]]; (etransitivity; [eapply holds_reg; [exact Hh|saved_reg]|by rewrite El]).
Qed.

Record took (v v' : vcpu) (idx : Z) (e : option (Z * option Z)) (k : vcore) : Prop := {
  tk_wf : wf_vcpu v';
  tk_core : core_of_vcpu v' = core64 k;
  tk_reason : exit_reason v' = idx;
  tk_esr esr far : e = Some (esr, far) -> exit_esr v' = u64 esr;
  tk_ipa esr va : e = Some (esr, Some va) -> fits 48 va -> exit_ipa v' = va;
  tk_key : (vttbr v', vmpidr v', vid v', halted v') = (vttbr v, vmpidr v, vid v, halted v);
  tk_sctlr : m_sctlr (mmu_of_vcpu v') = m_sctlr (mmu_of_vcpu v) }.

Section Runs.
Context (quantum : nat) (xlate : Z -> Z -> option Z) (lk : link).
#[local] Instance virq_pl : Platform guest := virq_platform quantum xlate.
#[local] Instance virq_ok : PlatformOk guest := virq_platform_ok quantum xlate.

Lemma virq_leaves i (h : hv guest) v idx e k m :
  0 <= i < 2 -> wf_hv h -> aget (h_vcpus h) i = Ok v -> m_sctlr (mmu_of_vcpu v) = SCTLR_EL1_RESET ->
  v_run (virt_of (h_cpu h)) (xlate (vttbr v)) quantum (core_of_vcpu v) (h_mem h) = (idx, e, k, m) ->
  exists v' c, let h1 := ran h i v' c m (h_w h) in
    run_once lk i h = Ok (tt, h1) /\ wf_hv h1 /\ get_vcpu i h1 = Ok (v', h1) /\ took v v' idx e k /\ virt_of c = virt_of (h_cpu h).
Proof.
  intros Hi Hh Hv Hs Er. pose proof (Forall_aget _ _ _ _ (proj2 (wh_vcpus h Hh)) Hv) as Hw.
  assert (forall c c', hyp_kept c c' -> virt_of c' = virt_of c) as Hvirt.
  { intros c c' Hk. unfold hyp_kept in Hk. rewrite !Forall_cons in Hk. destruct Hk as (K1 & K2 & _). unfold virt_of. by rewrite K1, K2. }
  destruct (run_once_under lk i h v idx (put_core k e) m (h_w h))
    as (c1 & v' & c3 & Hc1 & H1 & Ero & W1 & Wv & H2 & Hk & Hx & Eg & K3); [done|done|done| |].
  { intros c Hc HT K. cbn [pl_guest virq_pl virq_platform dev_platform]. unfold virq_guest.
    assert (rd_sysreg "sctlr_el1" c = SCTLR_EL1_RESET) as -> by (rewrite <- Hs, <- (holds_mmu _ _ Hc); done).
    change (Z.testbit SCTLR_EL1_RESET 0) with false. cbv iota. by rewrite (holds_core v c Hw Hc), HT, (Hvirt _ _ K), Er. }
  exists v', c3. cbv zeta. split; [exact Ero|]. split; [exact W1|]. split; [exact Eg|]. split; [|by apply Hvirt].
  unfold exit_of in Hx. injection Hx as X1 X2 X3 X4. split.
  - exact Wv.
  - by rewrite <- (holds_core v' _ Wv H2), core_of_put.
  - exact X1.
  - intros esr far ->. rewrite X2. unfold put_core. rewrite rd_set_gp. destruct far; cbn [core_regs exit_regs app msr_all]; by repeat sysreg.
  - intros esr va -> Hva. unfold exit_ipa. rewrite X3, X4. unfold put_core. rewrite !rd_set_gp. cbn [core_regs exit_regs app msr_all]. repeat sysreg.
    rewrite (wrap_fits 64 va), (wrap_fits 64 (_ ≪ _)) by (try apply hpfar_fits; try done; by apply (fits_mono 48)). by apply fault_ipa_correct.
  - exact Hk.
  - rewrite <- (holds_mmu _ _ H2), <- (holds_mmu _ _ H1). unfold mmu_of_cpu. cbn [m_sctlr]. apply rd_put_core.
    intros Hin. unfold core_regs, exit_regs in Hin. destruct e as [[esr [va|]]|]; cbn [map app fst] in Hin;
      rewrite ?elem_of_cons, elem_of_nil in Hin; destruct_or! Hin; discriminate.
Qed.
End Runs.
