(* ===== verification/IrqGuest.v ===== *)
(** Guests that wait for interrupts: what guest_virq_entry and guest_vgic_entry of
    src/src/guest.S have in common.  Such a guest sets up its virtual CPU interface and its
    vector table, waits, and takes every injected tick through its vectors: it
    acknowledges and ends it in the list registers, counts it and reports by hypercall.
    The guest is executed in place, from the bytes the assembler emits for it; a
    hypervisor loop that injects ticks and prints reports ([TickLoop]) is shown to deliver
    each of them exactly once. *)

From S2P Require Import Prelude Esr Machine Vcpu Asm World Stage2 Vgic Uart Vdev Handlers Vvirtio Vblk Timer Hv Sched.
From S2P Require Import GuestProg Counters A64 GuestRun TenantRun SchedRun VirtIrq.

(** * The program *)
Definition Sys (i : sys_ins) : asm_line := Word (sys_encode i).
(** Set-up of the interface, with the vector table [tab], and the waiting loop. *)
Definition irq_entry (tab : string) : list asm_line := [
  Ins (MovZ true 0 1 0);                 (* mov x0, #1 *)
  Sys (MsrR R_ICC_SRE_EL1 0);            (* msr icc_sre_el1, x0 *)
  Ins IsbSy;
  Ins (MovZ true 0 0xFF 0);              (* mov x0, #0xFF *)
  Sys (MsrR R_ICC_PMR_EL1 0);            (* msr icc_pmr_el1, x0 *)
  Ins (MovZ true 0 1 0);                 (* mov x0, #1 *)
  Sys (MsrR R_ICC_IGRPEN1_EL1 0);        (* msr icc_igrpen1_el1, x0 *)
  Ref tab (Adr 0);                       (* adr x0, tab *)
  Sys (MsrR R_VBAR_EL1 0);               (* msr vbar_el1, x0 *)
  Ins IsbSy;
  Ins (MovZ true 21 0 0);                (* mov x21, #0 *)
  Sys (DaifClr 2);                       (* msr daifclr, #2 *)
  Lbl "1"; Ins Wfi; Ref "1" Br ].        (* wfi; b 1b *)
(** The vector table, the handler [irq] of its entry 5 and the trap [bad] of all others. *)
Definition vector (l : string) : list asm_line := [Balign 0x80; Ref l Br].
Definition irq_vectors (tab irq bad : string) : list asm_line :=
  Lbl tab :: vector bad ++ vector bad ++ vector bad ++ vector bad ++ vector bad ++ vector irq ++ vector bad ++ vector bad ++
  vector bad ++ vector bad ++ vector bad ++ vector bad ++ vector bad ++ vector bad ++ vector bad ++ vector bad ++ [
  Lbl irq;
  Sys (SpSub 32);                        (* sub sp, sp, #32 *)
  Sys (StpSp 0 1 0);                     (* stp x0, x1, [sp] *)
  Sys (StpSp 29 30 16);                  (* stp x29, x30, [sp, #16] *)
  Sys (MrsR 0 R_ICC_IAR1_EL1);           (* mrs x0, icc_iar1_el1 *)
  Ins (AddI 21 21 1 0);                  (* add x21, x21, #1 *)
  Sys (MsrR R_ICC_EOIR1_EL1 0);          (* msr icc_eoir1_el1, x0 *)
  Ins (OrrR 0 31 21);                    (* mov x0, x21 *)
  Ins (HvcI 0);
  Sys (LdpSp 29 30 16);                  (* ldp x29, x30, [sp, #16] *)
  Sys (LdpSp 0 1 0);                     (* ldp x0, x1, [sp] *)
  Sys (SpAdd 32);                        (* add sp, sp, #32 *)
  Sys Eret;
  Lbl bad; Ref bad Br ].                 (* b . *)
(** A whole program: instructions of its own, then these. *)
Definition irq_guest (pre : list asm_line) (tab irq bad : string) : list asm_line :=
  pre ++ irq_entry tab ++ Balign 2048 :: irq_vectors tab irq bad.
Definition image_of (p : list asm_line) (a : Z) : list Z := default [] (assemble a p).

(** Wherever it is placed the program assembles, without clashing labels. *)
Definition CODE_MAX := 4352.
Definition assembles (p : list asm_line) (a : Z) : bool :=
  match assemble a p with
  | Some img => (len img <=? CODE_MAX) && forallb (fun '(l, o) => bool_decide (find_label l (labels a 0 p) = Some o)) (labels a 0 p)
  | None => false
  end.
Lemma assembles_mod p a : forallb (aligns 2048) p = true -> assembles p (a mod 2048) = assembles p a.
Proof. intros Hp. unfold assembles. by rewrite (assemble_mod 2048 a _ eq_refl Hp), (labels_mod 2048 a _ eq_refl Hp). Qed.
Lemma assembles_any p a : forallb (aligns 2048) p = true -> forallb (fun i => assembles p (4 * i)) (seqZ 0 512) = true -> a mod 4 = 0 -> assembles p a = true.
Proof.
  intros Hp Hall Ha. rewrite <- assembles_mod by done. replace (a mod 2048) with (4 * (a mod 2048 / 4)) by zlia.
  apply (small_check (fun i => assembles p (4 * i)) 512 (a mod 2048 / 4) Hall). zlia.
Qed.
Lemma assembled p a : assembles p a = true ->
  assemble a p = Some (image_of p a) /\ len (image_of p a) <= CODE_MAX /\
  forallb (fun '(l, o) => bool_decide (find_label l (labels a 0 p) = Some o)) (labels a 0 p) = true.
Proof.
  unfold assembles, image_of. intros H. destruct (assemble a p) as [img|]; [|discriminate H].
  apply andb_prop in H as [H1 H2]. apply Z.leb_le in H1. exact (conj eq_refl (conj H1 H2)).
Qed.

(** * Execution in place *)
Ltac core := cbv beta iota delta [k_at k_set_x k_set_ps k_pc k_ps k_x k_sp k_vbar k_elr k_spsr k_lr k_vmcr k_ap take_irq v_next].
(** The program is at [a0], its common part at [b]; its stack ends at [top]. *)
Record placed (pre : list asm_line) (tab irq bad : string) (a0 b top : Z) : Prop := {
  pl_asm : assembles (irq_guest pre tab irq bad) a0 = true;
  pl_aligns : forallb (aligns 2048) pre = true;
  pl_end : end_of a0 pre = b;
  pl_b : b mod 4 = 0;
  pl_pre : a0 <= b <= a0 + 64;
  pl_lo : 0x40000000 <= a0;
  pl_hi : a0 + CODE_MAX <= 0x80000000;
  pl_top : 0x40000020 <= top <= 0x80000000;
  pl_apart : top <= a0 \/ a0 + CODE_MAX <= top - 32 }.

Section Steps.
Context (lk : link).
Abbreviation xl := (sched_xlate lk (vttbr_g lk)).
Abbreviation run := (v_run true xl).
(** ** Single steps *)
Definition fetches (p : Z) : Prop := p mod 4 = 0 /\ in_ram p.
Definition quiet (k : vcore) : bool := Z.testbit (k_ps k) PS_I || negb (bool_decide (is_Some (signalled k))).
Lemma quiet_step k m : quiet k = true -> fetches (k_pc k) ->
  v_step true xl k m =
    let w := ld32 m (k_pc k) in
    match decode w with
    | Some Wfi => if bool_decide (is_Some (signalled k)) then VGo (v_next k) m else VExit 9 None (v_next k) m
    | Some i => ins_exec xl i k m
    | None => match sys_decode w with Some i => sys_exec true xl i k m | None => VLost end
    end.
Proof.
  intros Hq [H4 Hr]. unfold v_step. unfold quiet in Hq. cbv zeta. rewrite H4, (sched_ident lk _ Hr), andb_true_r.
  change (negb (0 =? 0)) with false. cbv iota.
  destruct (bool_decide _); cbn [negb orb andb] in *; [|reflexivity]. rewrite orb_false_r in Hq. by rewrite Hq.
Qed.
Lemma run_ins q k m i p p' x : quiet k = true -> fetches (k_pc k) -> decode (ld32 m (k_pc k)) = Some i ->
  a64_exec m_ld m_st xl i (k_pc k) (k_x k) m = Go (u64 p) x m -> i <> Wfi -> u64 p = p' ->
  run (S q) k m = run q (k_at p' (k_set_x x k)) m.
Proof.
  intros Hq Hf Hd He Hi <-. cbn [v_run]. rewrite (quiet_step k m Hq Hf). cbv zeta. rewrite Hd.
  assert (ins_exec xl i k m = VGo (k_at (u64 p) (k_set_x x k)) m) as E by (unfold ins_exec; by rewrite He).
  destruct i; try (rewrite E; reflexivity). by destruct Hi.
Qed.
Lemma run_hvc q k m imm : quiet k = true -> fetches (k_pc k) -> decode (ld32 m (k_pc k)) = Some (HvcI imm) ->
  run (S q) k m = (8, Some (esr_hvc64 imm, None), k_at (u64 (k_pc k + 4)) k, m).
Proof.
  intros Hq Hf Hd. cbn [v_run]. rewrite (quiet_step k m Hq Hf). cbv zeta. rewrite Hd. unfold ins_exec. cbn [a64_exec]. by destruct k.
Qed.
Lemma run_wfi q k m : signalled k = None -> fetches (k_pc k) -> decode (ld32 m (k_pc k)) = Some Wfi ->
  run (S q) k m = (9, None, v_next k, m).
Proof.
  intros Hs Hf Hd. cbn [v_run]. rewrite (quiet_step k m); [|unfold quiet; rewrite Hs; apply orb_true_r|exact Hf].
  cbv zeta. by rewrite Hd, Hs.
Qed.
Lemma run_sys q k m i k' m' p' : quiet k = true -> fetches (k_pc k) -> ld32 m (k_pc k) = sys_encode i -> sys_ok i = true ->
  sys_exec true xl i k m = VGo (v_next k') m' -> u64 (k_pc k' + 4) = p' ->
  run (S q) k m = run q (k_at p' k') m'.
Proof.
  intros Hq Hf Hw Hi He <-. destruct (sys_decode_encode i Hi) as (D1 & D2 & _). cbn [v_run]. rewrite (quiet_step k m Hq Hf). cbv zeta.
  by rewrite Hw, D2, D1, He.
Qed.
Lemma run_eret q k m : quiet k = true -> fetches (k_pc k) -> ld32 m (k_pc k) = sys_encode Eret ->
  run (S q) k m = run q (k_at (k_elr k) (k_set_ps (k_spsr k) k)) m.
Proof.
  intros Hq Hf Hw. destruct (sys_decode_encode Eret eq_refl) as (D1 & D2 & _). cbn [v_run]. rewrite (quiet_step k m Hq Hf). cbv zeta.
  by rewrite Hw, D2, D1.
Qed.
Lemma run_take q k m j : signalled k = Some j -> Z.testbit (k_ps k) PS_I = false -> wrap 4 (k_ps k) = PS_EL1h ->
  run (S q) k m = run q (take_irq k) m.
Proof. intros Hs Hp Hw. cbn [v_run]. unfold v_step. rewrite Hs, Hp, Hw. reflexivity. Qed.
Lemma run_leave q k m i p esr far x : quiet k = true -> fetches (k_pc k) -> decode (ld32 m (k_pc k)) = Some i -> i <> Wfi ->
  a64_exec m_ld m_st xl i (k_pc k) (k_x k) m = Leave p esr far x m ->
  run (S q) k m = (8, Some (esr, far), k_at p (k_set_x x k), m).
Proof.
  intros Hq Hf Hd Hi He. cbn [v_run]. rewrite (quiet_step k m Hq Hf). cbv zeta. rewrite Hd.
  assert (ins_exec xl i k m = VExit 8 (Some (esr, far)) (k_at p (k_set_x x k)) m) as E by (unfold ins_exec; by rewrite He).
  destruct i; try (rewrite E; reflexivity). by destruct Hi.
Qed.
End Steps.

Section Place.
Context (lk : link) (pre : list asm_line) (tab irq bad : string) (a0 b top : Z) (Hpl : placed pre tab irq bad a0 b top).
Abbreviation xl := (sched_xlate lk (vttbr_g lk)).
Abbreviation run := (v_run true xl).
Abbreviation prog := (irq_guest pre tab irq bad).
Definition vcode (m : mem) : Prop := image_at a0 (image_of prog a0) m.
Lemma placed_bounds : b mod 4 = 0 /\ 0x40000000 <= b /\ b + 4288 <= 0x80000000 /\ 0x40000020 <= top <= 0x80000000.
Proof. destruct Hpl. unfold CODE_MAX in *. split; [done|]. lia. Qed.
(** The address of the vector table. *)
Definition vtab : Z := b + 56 + (- (b + 56)) mod 2048.
Lemma vtab_mod : vtab mod 2048 = 0.
Proof. unfold vtab. zlia. Qed.
Lemma vtab_bounds : b + 56 <= vtab <= b + 2100.
Proof. pose proof vtab_mod as H. pose proof (pl_b _ _ _ _ _ _ _ Hpl). unfold vtab in *. zlia. Qed.
#[local] Opaque vtab.

Abbreviation lb := (label_addr a0 prog).
Lemma aligned_prog : forallb (aligns 2048) prog = true.
Proof. unfold irq_guest. rewrite forallb_app, (pl_aligns _ _ _ _ _ _ _ Hpl). reflexivity. Qed.
Lemma vcode_loaded m : vcode m -> loaded m lb a0 pre /\ loaded m lb (b + 0) (irq_entry tab) /\ loaded m lb (vtab + 0) (irq_vectors tab irq bad).
Proof.
  intros Hm. destruct (assembled _ _ (pl_asm _ _ _ _ _ _ _ Hpl)) as (Ea & _ & El).
  pose proof (assembled_loaded 2048 m a0 prog _ aligned_prog Ea El Hm) as H. apply loaded_app in H as [H0 H]. split; [exact H0|].
  rewrite (pl_end _ _ _ _ _ _ _ Hpl) in H. apply loaded_app in H as [H1 H2]. rewrite !Z.add_0_r. split; [exact H1|].
  replace (end_of b (irq_entry tab)) with (b + 56) in H2 by (cbn; lia). destruct H2 as [_ H2].
  cbn [line_size] in H2. rewrite Z.add_0_r in H2. exact H2.
Qed.
Lemma entry_line m o x : vcode m -> line_at 0 o (irq_entry tab) = Some x -> line_holds m lb (b + o) x.
Proof. intros Hm. exact (loaded_line m lb 4 b eq_refl (pl_b _ _ _ _ _ _ _ Hpl) (irq_entry tab) 0 o x eq_refl (proj1 (proj2 (vcode_loaded m Hm)))). Qed.
Lemma vector_line m o x : vcode m -> line_at 0 o (irq_vectors tab irq bad) = Some x -> line_holds m lb (vtab + o) x.
Proof. intros Hm. exact (loaded_line m lb 2048 vtab eq_refl vtab_mod (irq_vectors tab irq bad) 0 o x eq_refl (proj2 (proj2 (vcode_loaded m Hm)))). Qed.
Lemma irq_labels m : vcode m -> lb "1" = b + 48 /\ lb tab = vtab /\ lb irq = vtab + 0x784.
Proof.
  intros Hm. destruct (vcode_loaded m Hm) as (_ & H1 & H2).
  assert (labels 0 0 (irq_vectors tab irq bad) = [(tab, 0); (irq, 0x784); (bad, 0x7B4)]) as EL by reflexivity.
  pose proof (fun l o' => loaded_label m lb 4 b eq_refl (pl_b _ _ _ _ _ _ _ Hpl) (irq_entry tab) 0 l o' eq_refl H1) as L1.
  pose proof (fun l o' => loaded_label m lb 2048 vtab eq_refl vtab_mod (irq_vectors tab irq bad) 0 l o' eq_refl H2) as L2. rewrite EL in L2.
  split; [|split].
  - apply L1. apply (list_elem_of_here ("1"%string, 48) []).
  - rewrite <- (Z.add_0_r vtab). apply L2. rewrite !elem_of_cons. by left.
  - apply L2. rewrite !elem_of_cons. by right; left.
Qed.

(** ** The states between which the guest moves: x0 and the count in x21 change, x2, x3 and
    x4 are as its own instructions left them *)
Context (c2 c3 c4 : Z).
Definition vregs (x0 t : Z) : list Z := x0 :: 0 :: c2 :: c3 :: c4 :: replicate 16 0 ++ t :: replicate 9 0.
(** Priority mask 0xFF, Group 1 enabled. *)
Definition VMCR_ON := 0xFF000002.
(** The list register of the injected tick, once it has been deactivated. *)
Definition LR_DONE := bit 60 .| 27.
Definition at_entry (x0 : Z) : vcore := mk_vcore b 0x3C5 (vregs x0 0) top 0 0 0 [0; 0; 0; 0] 0 0.
(** After [wfi], interrupts enabled, [t] ticks counted. *)
Definition at_wait (e s lr t : Z) : vcore := mk_vcore (b + 52) 0x345 (vregs vtab t) top vtab e s [lr; 0; 0; 0] VMCR_ON 0.
(** After the hypercall of the handler. *)
Definition at_report (t : Z) : vcore :=
  mk_vcore (vtab + 0x7A4) 0x3C5 (vregs t t) (top - 32) vtab (b + 52) 0x345 [LR_DONE; 0; 0; 0] VMCR_ON 0.

Lemma fetch_b o : 0 <= o <= 56 -> o mod 4 = 0 -> fetches (b + o).
Proof. pose proof placed_bounds as (Hb & ? & ? & ?). intros Ho H4. split; [zlia|unfold in_ram; lia]. Qed.
Lemma fetch_v o : 0 <= o <= 1976 -> o mod 4 = 0 -> fetches (vtab + o).
Proof. pose proof vtab_mod. pose proof vtab_bounds. pose proof placed_bounds. intros Ho H4. split; [zlia|unfold in_ram; lia]. Qed.
Lemma next_b o : 0 <= o <= 56 -> u64 (b + o) = b + o.
Proof. pose proof placed_bounds. intros Ho. apply wrap_fits. unfold fits. lia. Qed.
Lemma next_v o : 0 <= o <= 1976 -> u64 (vtab + o) = vtab + o.
Proof. pose proof vtab_bounds. pose proof placed_bounds. intros Ho. apply wrap_fits. unfold fits. lia. Qed.

Ltac fetched := first [apply fetch_b; [lia|reflexivity] | apply fetch_v; [lia|reflexivity]].
Ltac follows := core; rewrite <- Z.add_assoc; first [apply next_b | apply next_v]; lia.
(** The instruction [i] at offset [o] of the entry code or of the vectors leads to the
    registers [x]; the system instruction [i] leads to the core [k] (but for its program
    counter). *)
Ltac ins_at line Hm B o o' i x :=
  erewrite (run_ins lk _ _ _ i (B + o + 4) (B + o') x); [|reflexivity|fetched|exact (line _ o (Ins i) Hm eq_refl)|reflexivity|discriminate|follows]; core.
Ltac sys_at line Hm B o o' i k :=
  erewrite (run_sys lk _ _ _ i k _ (B + o')); [|reflexivity|fetched|exact (line _ o (Sys i) Hm eq_refl)|reflexivity|reflexivity|follows]; core.
Ltac ins_b Hm o o' i x := ins_at entry_line Hm b o o' i x.
Ltac sys_b Hm o o' i k := sys_at entry_line Hm b o o' i k.
Ltac ins_v Hm o o' i x := ins_at vector_line Hm vtab o o' i x.
Ltac sys_v Hm o o' i k := sys_at vector_line Hm vtab o o' i k.

Lemma run_wait q m x e s lr : vcode m -> highest 0 [lr; 0; 0; 0] = None ->
  run (S q) (mk_vcore (b + 48) 0x345 x top vtab e s [lr; 0; 0; 0] VMCR_ON 0) m =
    (9, None, mk_vcore (b + 52) 0x345 x top vtab e s [lr; 0; 0; 0] VMCR_ON 0, m).
Proof.
  intros Hm Hl. rewrite run_wfi; [|unfold signalled; cbn [k_lr]; rewrite Hl; reflexivity|by apply fetch_b|exact (entry_line m 48 (Ins Wfi) Hm eq_refl)].
  core. rewrite <- Z.add_assoc, next_b by lia. reflexivity.
Qed.
(** From its entry the guest sets up its interface and waits. *)
Lemma run_entry q m x0 : vcode m -> (13 <= q)%nat -> run q (at_entry x0) m = (9, None, at_wait 0 0 0 0, m).
Proof.
  intros Hm Hq. destruct q as [|[|[|[|[|[|[|[|[|[|[|[|[|q]]]]]]]]]]]]]; [lia..|]. unfold at_entry. rewrite <- (Z.add_0_r b) at 1.
  ins_b Hm 0 4 (MovZ true 0 1 0) (vregs 1 0).
  sys_b Hm 4 8 (MsrR R_ICC_SRE_EL1 0) (mk_vcore (b + 4) 0x3C5 (vregs 1 0) top 0 0 0 [0; 0; 0; 0] 0 0).
  ins_b Hm 8 12 IsbSy (vregs 1 0). ins_b Hm 12 16 (MovZ true 0 0xFF 0) (vregs 0xFF 0).
  sys_b Hm 16 20 (MsrR R_ICC_PMR_EL1 0) (mk_vcore (b + 16) 0x3C5 (vregs 0xFF 0) top 0 0 0 [0; 0; 0; 0] 0xFF000000 0).
  ins_b Hm 20 24 (MovZ true 0 1 0) (vregs 1 0).
  sys_b Hm 24 28 (MsrR R_ICC_IGRPEN1_EL1 0) (mk_vcore (b + 24) 0x3C5 (vregs 1 0) top 0 0 0 [0; 0; 0; 0] VMCR_ON 0).
  pose proof (entry_line m 28 (Ref tab (Adr 0)) Hm eq_refl) as Ha. cbn [line_holds] in Ha.
  destruct (irq_labels m Hm) as (_ & Lv & _). rewrite Lv in Ha.
  erewrite (run_ins lk _ _ _ _ (b + 28 + 4) (b + 32) (vregs vtab 0)); [|reflexivity|fetched|exact Ha| |discriminate|follows].
  2: { cbn [a64_exec]. core. f_equal. replace (b + 28 + (vtab - (b + 28))) with (vtab + 0) by lia. unfold gw. cbn [Z.eqb]. rewrite next_v by lia. by rewrite Z.add_0_r. }
  core.
  sys_b Hm 32 36 (MsrR R_VBAR_EL1 0) (mk_vcore (b + 32) 0x3C5 (vregs vtab 0) top vtab 0 0 [0; 0; 0; 0] VMCR_ON 0).
  ins_b Hm 36 40 IsbSy (vregs vtab 0). ins_b Hm 40 44 (MovZ true 21 0 0) (vregs vtab 0).
  sys_b Hm 44 48 (DaifClr 2) (mk_vcore (b + 44) 0x345 (vregs vtab 0) top vtab 0 0 [0; 0; 0; 0] VMCR_ON 0).
  by apply run_wait.
Qed.

(** ** The stack of the handler *)
Lemma stack_at off wnr k m f : 0x40000000 <= k_sp k + off -> k_sp k + off + 16 <= 0x80000000 -> stack_pair xl off wnr k m f = f (k_sp k + off).
Proof.
  intros H1 H2. unfold stack_pair, phys. rewrite wrap_fits by (unfold fits; lia). cbv zeta. rewrite !sched_ident by (unfold in_ram; lia).
  rewrite decide_True by reflexivity. reflexivity.
Qed.
Definition pushed (m : mem) : mem :=
  st64 (st64 (st64 (st64 m (top - 32 + 0) vtab) (top - 32 + 0 + 8) 0) (top - 32 + 16) 0) (top - 32 + 16 + 8) 0.
Definition frame (m : mem) : Prop :=
  ld64 m (top - 32 + 0) = vtab /\ ld64 m (top - 32 + 0 + 8) = 0 /\ ld64 m (top - 32 + 16) = 0 /\ ld64 m (top - 32 + 16 + 8) = 0.
Lemma pushed_frame m : frame (pushed m).
Proof.
  pose proof vtab_bounds. pose proof placed_bounds. unfold frame, pushed.
  assert (forall m a c v, 0 <= a -> 0 <= c -> a <= 2 ^ 48 -> c <= 2 ^ 48 -> a + 8 <= c \/ c + 8 <= a -> ld64 (st64 m c v) a = ld64 m a) as Hne.
  { intros m' a c v Ha Hc Ha' Hc' Hd. apply load_store_disjoint; [lia..|]. apply disjoint_arith; lia. }
  assert (forall m a v, fits 64 v -> ld64 (st64 m a v) a = v) as Heq.
  { intros m' a v Hv. rewrite load_store_eq by lia. by apply wrap_fits. }
  repeat split; rewrite ?Hne by lia; apply Heq; unfold fits; lia.
Qed.
Lemma stacked_code m a v : vcode m -> top - 32 <= a <= top - 8 -> vcode (st64 m a v).
Proof.
  destruct (assembled _ _ (pl_asm _ _ _ _ _ _ _ Hpl)) as (_ & Hl & _). destruct Hpl. unfold CODE_MAX in *. intros Hm Ha. apply (image_at_frame _ _ m); [lia|exact Hm|]. intros c Hc.
  apply in_range_bounds in Hc; [|lia|unfold SPACE; lia]. apply rd8_store_out; [lia|]. intros Hr.
  apply in_range_bounds in Hr; unfold SPACE; lia.
Qed.
Lemma pushed_code m : vcode m -> vcode (pushed m).
Proof. intros Hm. unfold pushed. do 4 (apply stacked_code; [|lia]). exact Hm. Qed.

(** ** Runs *)
Lemma back_to_wait q m x e s lr : vcode m -> highest 0 [lr; 0; 0; 0] = None ->
  run (S (S q)) (mk_vcore (b + 52) 0x345 x top vtab e s [lr; 0; 0; 0] VMCR_ON 0) m =
    (9, None, mk_vcore (b + 52) 0x345 x top vtab e s [lr; 0; 0; 0] VMCR_ON 0, m).
Proof.
  intros Hm Hl. pose proof (entry_line m 52 (Ref "1" Br) Hm eq_refl) as Ha. cbn [line_holds] in Ha.
  destruct (irq_labels m Hm) as (L1 & _). rewrite L1 in Ha.
  erewrite (run_ins lk _ _ _ _ (b + 52 + (b + 48 - (b + 52))) (b + 48) x); [| |fetched|exact Ha|reflexivity|discriminate|].
  - core. by apply run_wait.
  - unfold quiet, signalled. cbn [k_lr]. by rewrite Hl.
  - replace (b + 52 + (b + 48 - (b + 52))) with (b + 48) by lia. by apply next_b.
Qed.
(** Without an interrupt it goes on waiting. *)
Lemma run_idle q m e s lr t : vcode m -> highest 0 [lr; 0; 0; 0] = None -> (2 <= q)%nat ->
  run q (at_wait e s lr t) m = (9, None, at_wait e s lr t, m).
Proof. intros Hm Hl Hq. destruct q as [|[|q]]; [lia..|]. by apply back_to_wait. Qed.
(** The handler's core, at offset [o] of the vectors. *)
Definition handler (o : Z) (x : list Z) (sp lr ap : Z) : vcore :=
  mk_vcore (vtab + o) 0x3C5 x sp vtab (b + 52) 0x345 [lr; 0; 0; 0] VMCR_ON ap.
Lemma fits_top a : top - 32 <= a <= top -> u64 a = a.
Proof. pose proof placed_bounds. intros Ha. apply wrap_fits. unfold fits. lia. Qed.
Lemma handler_sys q m o i x sp lr ap x' sp' lr' ap' m' :
  vcode m -> line_at 0 o (irq_vectors tab irq bad) = Some (Sys i) -> sys_ok i = true -> 0 <= o <= 1972 -> o mod 4 = 0 ->
  sys_exec true xl i (handler o x sp lr ap) m = VGo (v_next (handler o x' sp' lr' ap')) m' ->
  run (S q) (handler o x sp lr ap) m = run q (handler (o + 4) x' sp' lr' ap') m'.
Proof.
  intros Hm Hl Hi Ho H4 He.
  rewrite (run_sys lk q _ m i (handler o x' sp' lr' ap') m' (vtab + (o + 4))); [reflexivity|reflexivity|by apply fetch_v; [lia|]|
    exact (vector_line m o (Sys i) Hm Hl)|exact Hi|exact He|].
  core. unfold handler. rewrite <- Z.add_assoc. apply next_v. lia.
Qed.
Lemma stack_exec_at off wnr o x lr ap m f : 0 <= off <= 16 -> stack_pair xl off wnr (handler o x (top - 32) lr ap) m f = f (top - 32 + off).
Proof. pose proof placed_bounds. intros Ho. apply stack_at; cbn [handler k_sp]; lia. Qed.
(** The handler up to its hypercall. *)
Ltac handler_at o i x sp lr ap m' Hm :=
  rewrite (handler_sys _ _ o i _ _ _ _ x sp lr ap m' Hm eq_refl eq_refl ltac:(lia) eq_refl);
  [cbn [Z.add Pos.add Pos.succ Pos.add_carry]|cbn [sys_exec]; rewrite ?stack_exec_at by lia].
Ltac handler_ins o o' i x Hm :=
  erewrite (run_ins lk _ _ _ i (vtab + o + 4) (vtab + o') x); [|reflexivity|fetched|exact (vector_line _ o (Ins i) Hm eq_refl)| |discriminate|follows].
Lemma run_handler q m t : vcode m ->
  run (S (S (S (S (S (S (S (S q)))))))) (handler 0x784 (vregs vtab t) top (new_lr 27) 0) m =
    (8, Some (esr_hvc64 0, None), at_report (u64 (t + 1)), pushed m).
Proof.
  intros Hm. handler_at 0x784 (SpSub 32) (vregs vtab t) (top - 32) (new_lr 27) 0 m Hm; [|cbn [handler k_sp]; by rewrite fits_top by lia].
  set (m1 := st64 (st64 m (top - 32 + 0) vtab) (top - 32 + 0 + 8) 0).
  assert (vcode m1) as Hm1 by (do 2 (apply stacked_code; [|lia]); exact Hm). pose proof (pushed_code m Hm) as Hm2.
  handler_at 0x788 (StpSp 0 1 0) (vregs vtab t) (top - 32) (new_lr 27) 0 m1 Hm; [|reflexivity].
  handler_at 0x78C (StpSp 29 30 16) (vregs vtab t) (top - 32) (new_lr 27) 0 (pushed m) Hm1; [|reflexivity].
  handler_at 0x790 (MrsR 0 R_ICC_IAR1_EL1) (vregs 27 t) (top - 32) (bit 63 .| LR_DONE) 1 (pushed m) Hm2; [|reflexivity].
  handler_ins 0x794 0x798 (AddI 21 21 1 0) (vregs 27 (u64 (t + 1))) Hm2; [|reflexivity].
  change (k_at _ _) with (handler 0x798 (vregs 27 (u64 (t + 1))) (top - 32) (bit 63 .| LR_DONE) 1).
  handler_at 0x798 (MsrR R_ICC_EOIR1_EL1 0) (vregs 27 (u64 (t + 1))) (top - 32) LR_DONE 0 (pushed m) Hm2; [|reflexivity].
  handler_ins 0x79C 0x7A0 (OrrR 0 31 21) (vregs (u64 (t + 1)) (u64 (t + 1))) Hm2.
  2: { core. cbn [a64_exec handler]. core. f_equal. change (gx _ 31) with 0. change (gx _ 21) with (u64 (t + 1)). rewrite Z.lor_0_l.
    unfold gw. cbn [Z.eqb]. by rewrite wrap_wrap. }
  change (k_at _ _) with (handler 0x7A0 (vregs (u64 (t + 1)) (u64 (t + 1))) (top - 32) LR_DONE 0).
  rewrite (run_hvc lk _ _ _ 0); [|reflexivity|fetched|exact (vector_line _ 0x7A0 (Ins (HvcI 0)) Hm2 eq_refl)]. core. unfold handler.
  rewrite <- Z.add_assoc, next_v by lia. reflexivity.
Qed.
(** An injected tick is taken through the vector table, acknowledged, counted, ended and
    reported. *)
Lemma run_pending q m e s t : vcode m -> (10 <= q)%nat ->
  run q (at_wait e s (new_lr 27) t) m = (8, Some (esr_hvc64 0, None), at_report (u64 (t + 1)), pushed m).
Proof.
  intros Hm Hq. destruct q as [|[|[|[|[|[|[|[|[|[|q]]]]]]]]]]; [lia..|]. unfold at_wait.
  rewrite (run_take lk _ _ _ (0%nat, 0)) by reflexivity. core. rewrite next_v by lia. change (0x345 .| PS_DAIF) with 0x3C5.
  pose proof (vector_line m 0x280 (Ref irq Br) Hm eq_refl) as Ha. cbn [line_holds] in Ha.
  destruct (irq_labels m Hm) as (_ & _ & L). rewrite L in Ha.
  erewrite (run_ins lk _ _ _ _ (vtab + 0x280 + (vtab + 0x784 - (vtab + 0x280))) (vtab + 0x784) (vregs vtab t));
    [|reflexivity|fetched|exact Ha|reflexivity|discriminate|];
    [|replace (vtab + 0x280 + (vtab + 0x784 - (vtab + 0x280))) with (vtab + 0x784) by lia; by apply next_v].
  change (k_at _ _) with (handler 0x784 (vregs vtab t) top (new_lr 27) 0). by apply run_handler.
Qed.
(** After its report it restores its registers, returns from the interrupt and waits. *)
Lemma run_return q m t : vcode m -> frame m -> (6 <= q)%nat ->
  run q (at_report t) m = (9, None, at_wait (b + 52) 0x345 LR_DONE t, m).
Proof.
  intros Hm (F1 & F2 & F3 & F4) Hq. pose proof vtab_bounds. pose proof placed_bounds. destruct q as [|[|[|[|[|[|q]]]]]]; [lia..|].
  change (at_report t) with (handler 0x7A4 (vregs t t) (top - 32) LR_DONE 0).
  handler_at 0x7A4 (LdpSp 29 30 16) (vregs t t) (top - 32) LR_DONE 0 m Hm; [|by rewrite F3, F4].
  handler_at 0x7A8 (LdpSp 0 1 0) (vregs vtab t) (top - 32) LR_DONE 0 m Hm.
  2: { rewrite F1, F2. change (gw 1 0 (gw 0 vtab _)) with (vregs (u64 vtab) t). rewrite <- (Z.add_0_r vtab) at 1. by rewrite next_v, Z.add_0_r by lia. }
  handler_at 0x7AC (SpAdd 32) (vregs vtab t) top LR_DONE 0 m Hm; [|cbn [handler k_sp]; rewrite fits_top by lia; by replace (top - 32 + 32) with top by lia].
  rewrite run_eret; [|reflexivity|fetched|exact (vector_line _ 0x7B0 (Sys Eret) Hm eq_refl)].
  core. by apply back_to_wait.
Qed.
End Place.

(** * Ticks

    A hypervisor loop that acknowledges physical interrupts, injects a tick into vCPU 0
    for each timer interrupt, and counts the reports of the guest. *)
(** Interrupts the physical GIC will acknowledge, and those that have been ended. *)
Definition h_iars (h : hv guest) : list Z := sc_iar (g_dev (h_w h)).
Definition eois (w : script) : list Z := rev (map snd (filter (fun p => p.1 = 0) (sc_log w))).
Definition h_eois (h : hv guest) : list Z := eois (g_dev (h_w h)).
Lemma typed_eois l : forall w, eois (typed l w) = eois w.
Proof. induction l as [|c l IH]; intros w; cbn [typed]; [done|]. rewrite IH. unfold eois. cbn [sc_log]. by rewrite filter_cons_False by done. Qed.
(** The INTID of an acknowledged interrupt: the timer's, and whether it is to be ended. *)
Definition is_tick (i : Z) : bool := (u64 i .& 0xFFFFFF) =? HYP_TIMER_PPI.
Definition is_real (i : Z) : bool := (u64 i .& 0xFFFFFF) <? GIC_SPURIOUS_INTID.
Definition ended (l : list Z) : list Z := map (fun i => u64 i) (filter (fun i => is_real i = true) l).
Definition ticks_in (l : list Z) : Z := len (filter (fun i => is_tick i = true) l).
(** The devices after an interrupt has been acknowledged and, unless spurious, ended. *)
Definition pop (i : Z) (w : script) : script :=
  let w := mk_script (sc_events w) (tail (sc_iar w)) (sc_read w) (sc_log w) (sc_time w) in
  if is_real i then pl_eoir1 (u64 i) w else w.
Lemma pop_state i l w : sc_iar w = i :: l -> console (pop i w) = console w /\ sc_iar (pop i w) = l /\ eois (pop i w) = eois w ++ ended [i].
Proof.
  intros E. unfold pop, ended, console, eois. destruct (is_real i) eqn:Er; cbn [pl_eoir1 script_platform sc_log sc_iar]; rewrite E; cbn [tail].
  - rewrite (filter_cons_False _ (0, u64 i)), (filter_cons_True _ (0, u64 i)), filter_cons_True by done. done.
  - rewrite filter_cons_False by (rewrite Er; discriminate). by rewrite app_nil_r.
Qed.


Lemma wf_put_mem (h : hv guest) m : wf_hv h -> wf_hv (put_mem h m).
Proof. intros []. by split. Qed.
Lemma wf_put_s2 (h : hv guest) s : wf_hv h -> wf_tables s -> wf_hv (put_s2 h s).
Proof. intros [] ?. by split. Qed.
Lemma ok_state {S : Type} (x y : S) : Ok (tt, x) = Ok (tt, y) -> x = y.
Proof. by intros [= ->]. Qed.
(** The console is written to, nothing else changes. *)
Definition told (l : list Z) (h h' : hv guest) : Prop :=
  exists w, h' = put_w h (set_dev (h_w h) w) /\ h_console h' = h_console h ++ l /\ h_iars h' = h_iars h /\ h_eois h' = h_eois h.
Lemma typed_told l (h : hv guest) : told (map u8 l) h (put_w h (set_dev (h_w h) (typed l (g_dev (h_w h))))).
Proof. eexists. split; [reflexivity|]. destruct (typed_console l (g_dev (h_w h))). split; [done|]. split; [done|apply typed_eois]. Qed.

(** A tick in the first list register, when that is free. *)
Definition injected (h : hv guest) (v : vcpu) : hv guest := put_vcpus h (<[0%nat := set_lrs v [new_lr 27; 0; 0; 0]]> (h_vcpus h)).
Lemma inject_free v lr : ich_lr (ich v) = [lr; 0; 0; 0] -> lr = 0 \/ lr = LR_DONE -> vgic_inject v 27 = Ok (set_lrs v [new_lr 27; 0; 0; 0]).
Proof. intros E [-> | ->]; unfold vgic_inject; rewrite E; reflexivity. Qed.
Lemma inject_injected (h : hv guest) v lr :
  aget (h_vcpus h) 0 = Ok v -> 0 < len (h_vcpus h) -> ich_lr (ich v) = [lr; 0; 0; 0] -> lr = 0 \/ lr = LR_DONE -> inject 0 27 h = Ok (tt, injected h v).
Proof.
  intros Hv Hl El Hlr. unfold inject, get_vcpu, set_vcpu, update, try_, mbind, st_bind. rewrite Hv. cbn [mbind res_bind]. rewrite (inject_free v lr El Hlr).
  cbn [mbind res_bind]. by rewrite aset_ok by lia.
Qed.

Section Ticks.
Context (quantum : nat) (lk : link) (Hq : (13 <= quantum)%nat).
Context (pre : list asm_line) (tab irq bad : string) (a0 b top : Z) (Hpl : placed pre tab irq bad a0 b top) (c2 c3 c4 : Z).
#[local] Instance irq_pl : Platform guest := virq_platform quantum (sched_xlate lk).
#[local] Instance irq_ok : PlatformOk guest := virq_platform_ok quantum (sched_xlate lk).
Abbreviation run := (v_run true (sched_xlate lk (vttbr_g lk)) quantum).
Abbreviation code := (vcode pre tab irq bad a0).
Abbreviation waits := (at_wait b top c2 c3 c4).
Abbreviation reports := (at_report b top c2 c3 c4).

Lemma printf_told fmt args h : Forall arg_ok args -> is_Some (render fmt args) -> exists h', printf fmt args h = Ok (tt, h') /\ told (said fmt args) h h'.
Proof.
  intros Ha [out Ho]. eexists. split; [by apply (printf_typed (virq_guest quantum (sched_xlate lk)) fmt args out)|].
  unfold said. rewrite Ho. apply typed_told.
Qed.

(** vCPU 0 is about to be entered with the core [k]; [P] is what the loop relies on of
    the emulated distributor. *)
Context (P : vgic -> Prop).
Record at_core (k : vcore) (h : hv guest) : Prop := {
  ac_wf : wf_hv h;
  ac_code : code (h_mem h);
  ac_virt : virt_of (h_cpu h) = true;
  ac_vgic : P (h_vgic h);
  ac_vcpu : exists v, aget (h_vcpus h) 0 = Ok v /\ core_of_vcpu v = k /\ vttbr v = vttbr_g lk /\ m_sctlr (mmu_of_vcpu v) = SCTLR_EL1_RESET }.

(** A run of the vCPU. *)
Lemma core_run k h idx e k' m' :
  at_core k h -> run k (h_mem h) = (idx, e, k', m') -> core64 k' = k' -> code m' ->
  exists h' v', run_once lk 0 h = Ok (tt, h') /\ at_core k' h' /\ get_vcpu 0 h' = Ok (v', h') /\ core_of_vcpu v' = k' /\ exit_reason v' = idx /\
    (forall esr far, e = Some (esr, far) -> exit_esr v' = u64 esr) /\ (forall esr va, e = Some (esr, Some va) -> fits 48 va -> exit_ipa v' = va) /\
    h_mem h' = m' /\ (h_w h', h_s2 h', h_vgic h') = (h_w h, h_s2 h, h_vgic h).
Proof.
  intros [W C V Hg (v & Ha & Ek & Et & Es)] Er H64 Hm'.
  destruct (virq_leaves quantum (sched_xlate lk) lk 0 h v idx e k' m' ltac:(lia) W Ha Es) as (v' & c & E1 & W1 & G1 & T & Vc).
  { rewrite V, Et, Ek. exact Er. }
  exists (ran h 0 v' c m' (h_w h)), v'. split; [exact E1|]. pose proof (tk_key _ _ _ _ _ T) as Hk. injection Hk as K1 K2 K3 K4.
  split; [|split; [exact G1|split; [by rewrite (tk_core _ _ _ _ _ T)|split; [apply T|split; [apply T|split; [apply T|split; reflexivity]]]]]]. split.
  - exact W1.
  - exact Hm'.
  - cbn [ran h_cpu put_w put_mem put_cpu]. by rewrite Vc.
  - exact Hg.
  - exists v'. split; [|split; [by rewrite (tk_core _ _ _ _ _ T)|split; [by rewrite K1|by rewrite (tk_sctlr _ _ _ _ _ T)]]].
    pose proof (wh_vcpus h W) as [Hl _]. unfold ran. cbn [h_vcpus put_w put_mem put_cpu put_vcpus]. apply aget_insert_eq; lia.
Qed.

(** The guest has handled [t] ticks and none is pending: entered, it ends up waiting, and
    the next physical interrupt takes the processor. *)
Definition idle (t : Z) (h : hv guest) : Prop :=
  exists k e s lr, at_core k h /\ (lr = 0 \/ lr = LR_DONE) /\ fits 64 e /\ fits 64 s /\ run k (h_mem h) = (9, None, waits e s lr t, h_mem h).
(** A tick has been injected. *)
Definition due (t : Z) (h : hv guest) : Prop := exists e s, at_core (waits e s (new_lr 27) t) h /\ fits 64 e /\ fits 64 s.

Lemma wait64 e s lr t : fits 64 e -> fits 64 s -> fits 64 lr -> core64 (waits e s lr t) = waits e s lr t.
Proof.
  intros He Hs Hl. pose proof (vtab_bounds _ _ _ _ _ _ _ Hpl). pose proof (placed_bounds _ _ _ _ _ _ _ Hpl).
  unfold core64, at_wait. core. cbv zeta. cbn [lookup list_lookup]. change (default 0 (Some ?x)) with x.
  rewrite (wrap_fits 64 (b + 52)), (wrap_fits 64 top), (wrap_fits 64 (vtab b)), (wrap_fits 64 e), (wrap_fits 64 s), (wrap_fits 64 lr)
    by (try done; unfold fits; lia).
  reflexivity.
Qed.
Lemma report64 t : core64 (reports t) = reports t.
Proof.
  pose proof (vtab_bounds _ _ _ _ _ _ _ Hpl). pose proof (placed_bounds _ _ _ _ _ _ _ Hpl).
  unfold core64, at_report. core. cbv zeta. cbn [lookup list_lookup]. change (default 0 (Some ?x)) with x.
  rewrite (wrap_fits 64 (b + 52)), (wrap_fits 64 (top - 32)), (wrap_fits 64 (vtab b + _)), (wrap_fits 64 (vtab b)) by (unfold fits; lia).
  reflexivity.
Qed.

(** ** What a loop does *)

(** At a physical interrupt, with the way [act] to inject a tick. *)
Definition serve (act : st (hv guest) unit) : st (hv guest) unit :=
  iar ← ack;
  let intid := iar .& 0xFFFFFF in
  (if intid =? HYP_TIMER_PPI then timer_on_irq;; act else mret tt);; eoi_real intid iar.
(** The laws of a loop up to [n] ticks: what a turn does when the guest was interrupted
    and when it reported; injection, the list registers being free. *)
Class TickLoop (n : Z) (body : Z -> st (hv guest) (bool * Z)) (act : st (hv guest) unit) (text : Z -> list Z) : Prop := {
  tl_done t h : n <= t -> body t h = Ok ((false, t), h);
  tl_irq t h h1 v h2 : t < n -> run_once lk 0 h = Ok (tt, h1) -> get_vcpu 0 h1 = Ok (v, h1) -> is_irq v = true -> serve act h1 = Ok (tt, h2) ->
    body t h = Ok ((true, t), h2);
  tl_hvc t h h1 v : 0 <= t < n -> run_once lk 0 h = Ok (tt, h1) -> get_vcpu 0 h1 = Ok (v, h1) -> is_irq v = false -> exit_ec v = EC_HVC64 ->
    get_x v 0 = Ok (t + 1) -> exists h2, body t h = Ok ((true, t + 1), h2) /\ told (text (t + 1)) h1 h2;
  tl_act h v lr : P (h_vgic h) -> aget (h_vcpus h) 0 = Ok v -> 0 < len (h_vcpus h) -> ich_lr (ich v) = [lr; 0; 0; 0] -> lr = 0 \/ lr = LR_DONE ->
    act h = Ok (tt, injected h v);
  tl_keeps t : total (fun _ => True) (body t) }.
Definition popped (i : Z) (h : hv guest) : hv guest := put_w h (set_dev (h_w h) (pop i (g_dev (h_w h)))).
Definition timed (h : hv guest) : hv guest :=
  let t := h_timer h in
  put_cpu (put_timer h (mk_timer (t_freq t) (t_interval t) (u64 (t_ticks t + 1))))
    (wr_sysreg "cnthp_cval_el2" (u64 (rd_sysreg "cnthp_cval_el2" (h_cpu h) + t_interval t)) (h_cpu h)).
Lemma irq_served act i l (h : hv guest) v :
  h_iars h = i :: l -> (forall h', h_vgic h' = h_vgic h -> h_vcpus h' = h_vcpus h -> act h' = Ok (tt, injected h' v)) ->
  serve act h = Ok (tt, if is_tick i then injected (timed (popped i h)) v else popped i h).
Proof.
  intros Ei Hact. set (w1 := mk_script (sc_events (g_dev (h_w h))) l (sc_read (g_dev (h_w h))) (sc_log (g_dev (h_w h))) (sc_time (g_dev (h_w h)))).
  set (h1 := put_w h (set_dev (h_w h) w1)).
  assert (ack h = Ok (u64 i, h1)) as E1.
  { unfold ack, on_uart, zoom, gic_ack. cbn [pl_iar1 irq_pl virq_platform dev_platform script_platform]. unfold h_iars in Ei. by rewrite Ei. }
  assert ((timer_on_irq;; act) h1 = Ok (tt, injected (timed h1) v)) as E2.
  { assert (timer_on_irq h1 = Ok (tt, timed h1)) as Et by (unfold timer_on_irq, on_tm, zoom; rewrite on_irq_eq; reflexivity).
    rewrite (st_bind_Ok _ _ _ _ _ Et). by apply Hact. }
  assert (forall h2 : hv guest, eoi_real (u64 i .& 0xFFFFFF) (u64 i) h2 =
    Ok (tt, if is_real i then put_w h2 (set_dev (h_w h2) (pl_eoir1 (u64 i) (g_dev (h_w h2)))) else h2)) as E3
    by (intros h2; unfold eoi_real, is_real; by case_match).
  unfold serve. rewrite (st_bind_Ok _ _ _ _ _ E1). cbv zeta. unfold popped, pop. unfold h_iars in Ei. rewrite Ei. cbn [tail]. fold w1. fold (is_tick i).
  destruct (is_tick i).
  - rewrite (st_bind_Ok _ _ _ _ _ E2), E3. by destruct (is_real i).
  - rewrite (st_bind_Ok _ _ _ _ _ (eq_refl : (mret tt : st (hv guest) unit) h1 = Ok (tt, h1))), E3. by destruct (is_real i).
Qed.

(** ** Turns of the loop *)
Context (n : Z) (body : Z -> st (hv guest) (bool * Z)) (act : st (hv guest) unit) (text : Z -> list Z) (Hloop : TickLoop n body act text).
(** One that ends with a physical interrupt. *)
Lemma irq_turn t h i l :
  t < n -> idle t h -> h_iars h = i :: l ->
  exists h', body t h = Ok ((true, t), h') /\ (if is_tick i then due t h' else idle t h') /\
    h_iars h' = l /\ h_console h' = h_console h /\ h_eois h' = h_eois h ++ ended [i] /\ h_s2 h' = h_s2 h.
Proof.
  intros Hn (k & e & s & lr & Hk & Hlr & He & Hs & Er) Hi.
  assert (fits 64 lr) as Hf by (destruct Hlr as [-> | ->]; fits_const).
  destruct (core_run k h _ _ _ _ Hk Er (wait64 _ _ _ _ He Hs Hf) (ac_code _ _ Hk))
    as (h1 & v' & E1 & [W1 C1 V1 P1 (v1 & A1 & K1 & T1 & S1)] & G1 & K & R & _ & _ & M1 & Hrest).
  injection Hrest as Pw Ps Pg. assert (v1 = v') as -> by (revert G1; unfold get_vcpu, try_; rewrite A1; by intros [= ->]).
  pose proof (wh_vcpus h1 W1) as [Hl _]. assert (ich_lr (ich v') = [lr; 0; 0; 0]) as El by (apply (f_equal k_lr) in K; exact K).
  assert (h_iars h1 = i :: l) as Hi1 by (unfold h_iars; rewrite Pw; exact Hi).
  pose proof (irq_served act i l h1 v' Hi1) as E2.
  specialize (E2 (fun h' Hg Hv => tl_act h' v' lr ltac:(by rewrite Hg) ltac:(by rewrite Hv) ltac:(rewrite Hv; lia) El Hlr)).
  set (h2 := if is_tick i then _ else _) in E2.
  assert (body t h = Ok ((true, t), h2)) as Eb by (apply (tl_irq t h h1 v'); [done|done|done|unfold is_irq; by rewrite R|exact E2]).
  destruct (tl_keeps t h (ac_wf _ _ Hk)) as (r & hf & Ef & Wf & _). rewrite Eb in Ef. injection Ef as _ <-.
  destruct (pop_state i l (g_dev (h_w h1)) Hi1) as (Q1 & Q2 & Q3).
  exists h2. split; [exact Eb|]. unfold h_console, h_eois, h_iars. rewrite <- Pw, <- Ps.
  assert ((h_w h2, h_s2 h2) = (h_w (popped i h1), h_s2 h1)) as E3 by (unfold h2; by destruct (is_tick i)). injection E3 as -> ->.
  split; [|split; [exact Q2|split; [exact Q1|split; [exact Q3|reflexivity]]]].
  unfold h2 in *. destruct (is_tick i).
  - exists e, s. split; [|by split]. split; [exact Wf|exact C1| |exact P1|].
    + unfold injected, timed, virt_of. cbn [h_cpu put_vcpus put_cpu]. by sysreg; sysreg.
    + eexists. split; [unfold injected; cbn [h_vcpus put_vcpus]; change (h_vcpus (timed (popped i h1))) with (h_vcpus h1); apply aget_insert_eq; lia|].
      split; [|split; [exact T1|exact S1]].
      unfold core_of_vcpu, at_wait in *. cbn. injection K1 as -> -> -> -> -> -> -> _ -> ->. reflexivity.
  - exists (waits e s lr t), e, s, lr. split; [|split; [exact Hlr|split; [exact He|split; [exact Hs|]]]].
    + split; [exact Wf|exact C1|exact V1|exact P1|]. exists v'. by split_and!.
    + eapply run_idle; [exact Hpl|exact C1|by destruct Hlr as [-> | ->]|lia].
Qed.
(** One that ends with the guest's report. *)
Lemma hvc_turn t h :
  0 <= t < n -> n < 2 ^ 31 -> due t h ->
  exists h', body t h = Ok ((true, t + 1), h') /\ idle (t + 1) h' /\
    h_iars h' = h_iars h /\ h_console h' = h_console h ++ text (t + 1) /\ h_eois h' = h_eois h /\ h_s2 h' = h_s2 h.
Proof.
  intros Ht Hn (e & s & Hk & He & Hs). pose proof (ac_code _ _ Hk) as Hm. pose proof (placed_bounds _ _ _ _ _ _ _ Hpl).
  assert (u64 (t + 1) = t + 1) as Hu by (apply wrap_fits; unfold fits; lia).
  pose proof (run_pending lk pre tab irq bad a0 b top Hpl c2 c3 c4 quantum (h_mem h) e s t Hm ltac:(lia)) as Er. rewrite Hu in Er.
  pose proof (pushed_code pre tab irq bad a0 b top Hpl (h_mem h) Hm) as Hm'.
  destruct (core_run _ h _ _ _ _ Hk Er (report64 _) Hm') as (h1 & v' & E1 & Hk1 & G1 & K & R & X & _ & M1 & P1). injection P1 as Pw Ps Pg.
  assert (get_x v' 0 = Ok (t + 1)) as Ex by (unfold get_x; apply (f_equal k_x) in K; cbn in K; by rewrite K).
  destruct (tl_hvc t h h1 v' Ht E1 G1) as (h2 & Eb & w & E2 & C2 & I2 & O2);
    [unfold is_irq; by rewrite R|unfold exit_ec; by rewrite (X _ _ eq_refl)|exact Ex|].
  destruct (tl_keeps t h (ac_wf _ _ Hk)) as (r & hf & Ef & Wf & _). rewrite Eb in Ef. injection Ef as _ <-.
  exists h2. split; [exact Eb|]. rewrite C2, I2, O2. unfold h_iars, h_console, h_eois. rewrite Pw, <- Ps.
  split; [|rewrite E2; by split_and!]. exists (reports (t + 1)), (b + 52), 0x345, LR_DONE.
  split; [|split; [by right|split; [unfold fits; lia|split; [fits_const|]]]].
  - destruct Hk1 as [_ C V Pk A]. rewrite E2 in *. by split.
  - rewrite E2. change (h_mem (put_w h1 _)) with (h_mem h1). rewrite M1. eapply run_return; [exact Hpl|exact Hm'|by eapply pushed_frame|lia].
Qed.

(** ** The loop

    What is left of it: from [t] handled ticks with the interrupts [l] still to come, up
    to [n] ticks. *)
Definition served (t : Z) (l : list Z) (h : hv guest) (r : res (Z * hv guest)) : Prop :=
  exists used rest h', l = used ++ rest /\ r = Ok (n, h') /\ P (h_vgic h') /\ h_iars h' = rest /\ ticks_in used = n - t /\
    h_eois h' = h_eois h ++ ended used /\ h_console h' = h_console h ++ concat (map text (seqZ (t + 1) (n - t))) /\ h_s2 h' = h_s2 h.
Lemma loop_go fuel t t' h h' : body t h = Ok ((true, t'), h') -> loop (S fuel) body t h = loop fuel body t' h'.
Proof. intros E. cbn [loop]. by rewrite (st_bind_Ok _ _ _ _ _ E). Qed.
Lemma served_done fuel l h : idle n h -> h_iars h = l -> served n l h (loop (S fuel) body n h).
Proof.
  intros (k & _ & _ & _ & Hk & _) Hi. exists [], l, h. split; [reflexivity|]. split.
  - cbn [loop]. assert (body n h = Ok ((false, n), h)) as E by (apply tl_done; lia). by rewrite (st_bind_Ok _ _ _ _ _ E).
  - split; [apply (ac_vgic _ _ Hk)|]. split; [exact Hi|]. rewrite Z.sub_diag. rewrite !app_nil_r. by split_and!.
Qed.
Lemma ended_app l1 l2 : ended (l1 ++ l2) = ended l1 ++ ended l2.
Proof. unfold ended. by rewrite filter_app, map_app. Qed.
Lemma ticks_in_cons i l : ticks_in (i :: l) = (if is_tick i then 1 else 0) + ticks_in l.
Proof.
  unfold ticks_in, len. destruct (is_tick i) eqn:E; [rewrite filter_cons_True by done|rewrite filter_cons_False by congruence]; cbn [length]; lia.
Qed.
(** One interrupt more at the front. *)
Lemma served_cons t t' i l h h1 r :
  t' = (if is_tick i then t + 1 else t) -> t' <= n -> h_console h1 = h_console h ++ (if is_tick i then text (t + 1) else []) ->
  h_eois h1 = h_eois h ++ ended [i] -> h_s2 h1 = h_s2 h -> served t' l h1 r -> served t (i :: l) h r.
Proof.
  intros Ht Hn Hc He Hs (used & rest & h' & -> & E & W & I & T & O & C & S). exists (i :: used), rest, h'.
  split; [reflexivity|]. split; [exact E|]. split; [exact W|]. split; [exact I|]. rewrite ticks_in_cons, T, O, C, S, Hc, He, Hs, <- !app_assoc.
  split; [destruct (is_tick i); lia|]. split; [by rewrite <- ended_app|]. split; [|reflexivity]. do 2 f_equal. subst t'.
  destruct (is_tick i); [|reflexivity]. rewrite (seqZ_cons (t + 1)) by lia. cbn [map concat]. unfold Z.succ. by replace (Z.pred (n - t)) with (n - (t + 1)) by lia.
Qed.
Lemma ticks_loop l : forall t h fuel,
  n < 2 ^ 31 -> 0 <= t <= n -> idle t h -> h_iars h = l -> n - t <= ticks_in l -> (length l + Z.to_nat (n - t) < fuel)%nat ->
  served t l h (loop fuel body t h).
Proof.
  induction l as [|i l IH]; intros t h fuel Hn Ht Hd Hi Hl Hf; (destruct fuel as [|fuel]; [lia|]).
  { assert (t = n) as -> by (unfold ticks_in, len in Hl; cbn in Hl; lia). by apply served_done. }
  destruct (decide (t = n)) as [->|Hne]; [by apply served_done|]. rewrite ticks_in_cons in Hl. cbn [length] in Hf.
  destruct (irq_turn t h i l ltac:(lia) Hd Hi) as (h1 & E1 & D1 & I1 & C1 & O1 & S1). rewrite (loop_go _ _ _ _ _ E1).
  destruct (is_tick i) eqn:Et.
  - destruct fuel as [|fuel]; [lia|]. destruct (hvc_turn t h1 ltac:(lia) Hn D1) as (h2 & E2 & D2 & I2 & C2 & O2 & S2). rewrite (loop_go _ _ _ _ _ E2).
    apply (served_cons t (t + 1) i l h h2); rewrite ?Et; [reflexivity|lia|by rewrite C2, C1|by rewrite O2, O1|by rewrite S2, S1|].
    apply IH; [done|lia|done|by rewrite I2|lia|lia].
  - apply (served_cons t t i l h h1); rewrite ?Et; [reflexivity|lia|by rewrite C1, app_nil_r|done|done|].
    apply IH; [done|lia|done|done|lia|lia].
Qed.

(** ** Before the loop *)
Lemma timer_started ms (h : hv guest) :
  exists t c w, timer_start ms h = Ok (tt, put_w (put_cpu (put_timer h t) c) (set_dev (h_w h) w)) /\ virt_of c = virt_of (h_cpu h) /\
    (console w, sc_iar w, eois w) = (h_console h, h_iars h, h_eois h).
Proof.
  eexists _, (wr_sysreg "cnthp_ctl_el2" 1 (wr_sysreg "cnthp_cval_el2" _ (h_cpu h))), _. split; [reflexivity|]. split; [|reflexivity].
  unfold virt_of. by repeat sysreg.
Qed.
Lemma core_init e s t i : core_of_vcpu (vcpu_init e s t i) = mk_vcore e 0x3C5 (vregs 0 0 0 0 0) s 0 0 0 [0; 0; 0; 0] 0 0.
Proof. reflexivity. Qed.
End Ticks.
