(* ===== verification/VirqRun.v ===== *)
(** The virtual-interrupt demonstration with its guest (src/src/guest.S,
    guest_virq_entry; virq_demo of src/src/vcpu.c): every physical timer tick becomes a
    virtual interrupt that the guest takes, acknowledges, ends and reports. *)

From S2P Require Import Prelude Esr Machine Vcpu Asm World Stage2 Vgic Uart Vdev Handlers Vvirtio Vblk Timer Hv Sched.
From S2P Require Import GuestProg Counters A64 GuestRun TenantRun SchedRun VirtIrq IrqGuest.

Definition guest_virq : list asm_line := irq_guest [] "guest_el1_vectors" "guest_irq" "guest_unhandled".
Lemma virq_aligned : forallb (aligns 2048) guest_virq = true.
Proof. vm_compute. reflexivity. Qed.
Lemma virq_assembled : forallb (fun i => assembles guest_virq (4 * i)) (seqZ 0 512) = true.
Proof. vm_compute. reflexivity. Qed.
Abbreviation virq_image := (image_of guest_virq).

Section Demo.
Context (quantum : nat) (lk : link) (Hlk : link_ok lk) (Hq : (13 <= quantum)%nat).
Abbreviation b := (lk_entry lk "guest_virq_entry").
Abbreviation top := (stack_top lk 0).
Context (Hb : b mod 4 = 0) (Hlo : 0x40000000 <= b) (Hhi : b + CODE_MAX <= 0x80000000).
Context (Htop : 0x40000020 <= top <= 0x80000000) (Hapart : top <= b \/ b + CODE_MAX <= top - 32).
#[local] Instance virq_run_pl : Platform guest := virq_platform quantum (sched_xlate lk).
#[local] Instance virq_run_ok : PlatformOk guest := virq_platform_ok quantum (sched_xlate lk).
Lemma virq_placed : placed [] "guest_el1_vectors" "guest_irq" "guest_unhandled" b b top.
Proof.
  split; [|reflexivity|reflexivity|exact Hb|lia|exact Hlo|exact Hhi|exact Htop|exact Hapart].
  exact (assembles_any guest_virq b virq_aligned virq_assembled Hb).
Qed.
Definition no_demand (g : vgic) : Prop := True.

(** virq_demo's loop. *)
Definition tick_fmt : list Z := ln "[M6b] guest handled virtual tick #%u (guest's own counter x0=%u)".
Definition tick_text (k : Z) : list Z := said tick_fmt [AI k; AInt k].
Lemma virq_ticks n : n < 2 ^ 31 -> TickLoop quantum lk no_demand n (virq_body lk n) (inject 0 27) tick_text.
Proof.
  intros Hn. split.
  - intros t h Ht. unfold virq_body. by destruct (Z.leb_spec n t); [|lia].
  - intros t h h1 v h2 Ht E1 G1 Hv E2. unfold virq_body. destruct (Z.leb_spec n t); [lia|].
    rewrite (st_bind_Ok _ _ _ _ _ E1), (st_bind_Ok _ _ _ _ _ G1), Hv. unfold serve in E2. apply st_bind_inv in E2 as (iar & h3 & Ea & Er).
    rewrite (st_bind_Ok _ _ _ _ _ Ea). cbv zeta in *. apply st_bind_inv in Er as ([] & h4 & Eb & Ec).
    rewrite (st_bind_Ok _ _ _ _ _ Eb), (st_bind_Ok _ _ _ _ _ Ec). reflexivity.
  - intros t h h1 v Ht E1 G1 Hv Hec Hx.
    assert (Forall arg_ok [AI (t + 1); AInt (t + 1)]) as Ha
      by (constructor; [apply (fits_mono 32); [lia|apply fits_wrap; lia]|constructor; [cbn; unfold fits; lia|constructor]]).
    destruct (printf_told quantum lk tick_fmt [AI (t + 1); AInt (t + 1)] h1 Ha ltac:(eexists; reflexivity)) as (h2 & E2 & T2).
    exists h2. split; [|exact T2].
    assert (x_of 0 0 h1 = Ok (t + 1, h1)) as Ex by (unfold x_of; rewrite (st_bind_Ok _ _ _ _ _ G1); unfold try_; by rewrite Hx).
    unfold virq_body. destruct (Z.leb_spec n t); [lia|]. rewrite (st_bind_Ok _ _ _ _ _ E1), (st_bind_Ok _ _ _ _ _ G1), Hv, Hec.
    change (EC_HVC64 =? EC_HVC64) with true. cbv iota. rewrite (st_bind_Ok _ _ _ _ _ Ex). fold tick_fmt. rewrite (st_bind_Ok _ _ _ _ _ E2). reflexivity.
  - intros h v lr _. apply inject_injected.
  - intros t h Hh. destruct (virq_body_ok lk n t h Hh) as (r & h' & E & W & _). by exists r, h'.
Qed.

Definition virq_setup : st (hv guest) unit :=
  init_at lk 0 "guest_virq_entry";; wr_sys "hcr_el2" HCR_RW_VM_DC_IMO;; wr_sys "ich_hcr_el2" 1;; timer_start 100;;
  println "[M6b] injecting virtual timer ticks into the guest:".
Definition setup_text : list Z := map u8 (line (bytes "[M6b] injecting virtual timer ticks into the guest:") ++ [CR; LF]).
Lemma setup_total : total (fun _ => True) virq_setup.
Proof.
  unfold virq_setup. eapply total_bind; [apply init_vcpu_total; [lia|apply Hlk|apply fits_wrap; lia|apply Hlk]|intros _ _].
  do 2 (eapply total_bind; [apply wr_sys_total; fits_const|intros _ _]).
  eapply total_bind; [apply total_yields, timer_start_keeps|intros _ _]. apply total_yields, println_keeps.
Qed.
Abbreviation idle_at := (idle quantum lk [] "guest_el1_vectors" "guest_irq" "guest_unhandled" b b top 0 0 0 no_demand).
Lemma virq_ready h : wf_hv h -> image_at b (virq_image b) (h_mem h) ->
  exists h', virq_setup h = Ok (tt, h') /\ idle_at 0 h' /\ h_iars h' = h_iars h /\ h_eois h' = h_eois h /\
    h_console h' = h_console h ++ setup_text /\ h_s2 h' = h_s2 h.
Proof.
  intros Hh Hm. destruct (wh_vcpus h Hh) as [Hl _]. destruct (setup_total h Hh) as ([] & h5 & E & W & _). exists h5. split; [exact E|].
  unfold virq_setup, init_at, init_vcpu, set_vcpu, update, mbind at 1, st_bind at 1 in E. rewrite aset_ok in E by lia. cbn [mbind res_bind] in E.
  unfold wr_sys, modify, mbind at 1, st_bind at 1, mbind at 1, st_bind at 1 in E.
  set (h3 := put_cpu _ _) in E. destruct (timer_started quantum lk 100 h3) as (tm & c & w & E4 & V4 & P4). rewrite (st_bind_Ok _ _ _ _ _ E4) in E.
  set (h4 := put_w _ _) in E. rewrite (println_typed (virq_guest quantum (sched_xlate lk)) _ h4) in E. apply ok_state in E.
  destruct (typed_told (line (bytes "[M6b] injecting virtual timer ticks into the guest:") ++ [CR; LF]) h4) as (w5 & _ & C5 & I5 & O5).
  rewrite E in C5, I5, O5. injection P4 as C4 I4 O4.
  split; [|split; [exact (eq_trans I5 I4)|split; [exact (eq_trans O5 O4)|split; [exact (eq_trans C5 (f_equal (fun x => x ++ setup_text) C4))|rewrite <- E; reflexivity]]]].
  exists (at_entry b top 0 0 0 0), 0, 0, 0. split; [|split; [by left|split; [fits_const|split; [fits_const|]]]].
  - split; [exact W|rewrite <- E; exact Hm| |exact I|].
    + rewrite <- E. cbn [h_cpu put_w put_cpu h4]. rewrite V4. unfold h3, virt_of. cbn [h_cpu put_w put_cpu]. by repeat sysreg.
    + eexists. split; [rewrite <- E; apply aget_insert_eq; lia|]. split; [apply core_init|]. by split.
  - rewrite <- E. change (h_mem _) with (h_mem h). eapply run_entry; [exact virq_placed|exact Hm|exact Hq].
Qed.

Definition end_fmt : list Z := ln "[M6b] delivered %u virtual timer ticks to the guest.".
Definition virq_text (n : Z) : list Z := setup_text ++ concat (map tick_text (seqZ 1 n)) ++ said end_fmt [AI n].
End Demo.

(** A link with the guest and its stack in RAM, and a machine that will see two timer
    interrupts, one of another device and a spurious one. *)
Definition virq_link : link := mk_link 0x70100000 0x70200000 0x70300000 0x70301000 (fun _ => 0x40081040) (fun _ => []).
Definition virq_boot : hv guest :=
  let h := hv_boot (mk_guest Park 0 0 [] (mk_script [] [33; 26; 1023; 26; 26] [] [] 0)) in
  put_s2 (put_mem h (write_bytes (h_mem h) 0x40081040 (virq_image 0x40081040))) (mk_stage2 init_table (s2_vm (h_s2 h)) VTCR_EL2_VALUE).
