(* ===== verification/VgicRun.v ===== *)
(** The software-vGIC demonstration with its guest (src/src/guest.S, guest_vgic_entry;
    vgic_demo of src/src/vcpu.c): the guest programs the emulated distributor and
    redistributor through trapped stores, and then receives the ticks it has enabled. *)

From S2P Require Import Prelude Esr Machine Vcpu Asm World Stage2 Vgic Uart Vdev Handlers Vvirtio Vblk Timer Hv Sched.
From S2P Require Import GuestProg Counters A64 GuestRun TenantRun SchedRun VirtIrq IrqGuest.

(** * The program *)
Definition vgic_pre : list asm_line := [
  Ins (MovZ true 2 0x0800 1);            (* movz x2, #0x0800, lsl #16 *)
  Ins (MovZ false 0 0x12 0);             (* mov w0, #0x12 *)
  Ins (StrI 2 0 2 0);                    (* str w0, [x2] *)
  Ins (MovZ true 3 0x080A 1);            (* movz x3, #0x080A, lsl #16 *)
  Ins (StrI 2 31 3 0x14);                (* str wzr, [x3, #0x14] *)
  Ins (MovZ true 4 0x080B 1);            (* movz x4, #0x080B, lsl #16 *)
  Sys (MovnW 0 0);                       (* mov w0, #0xFFFFFFFF *)
  Ins (StrI 2 0 4 0x80);                 (* str w0, [x4, #0x80] *)
  Ins (MovZ false 0 1 0);                (* mov w0, #1 *)
  Sys (LslW 0 0 27);                     (* lsl w0, w0, #27 *)
  Ins (StrI 2 0 4 0x100) ].              (* str w0, [x4, #0x100] *)
Definition guest_vgic : list asm_line := irq_guest vgic_pre "gvgic_vectors" "gvgic_irq" "gvgic_bad".
Lemma vgic_aligned : forallb (aligns 2048) guest_vgic = true.
Proof. vm_compute. reflexivity. Qed.
Lemma vgic_assembled : forallb (fun i => assembles guest_vgic (4 * i)) (seqZ 0 512) = true.
Proof. vm_compute. reflexivity. Qed.
Abbreviation vgic_image := (image_of guest_vgic).

(** The distributor after each of the four stores. *)
Definition conf (l : list (Z * Z)) : vgic :=
  fold_left (fun g s => match reg_write 0 s.1 s.2 g with Ok g => g | Err _ => g end) l vgic_boot.
Definition conf_stores : list (Z * Z) := [(0x08000000, 0x12); (0x080A0014, 0); (0x080B0080, 0xFFFFFFFF); (0x080B0100, 2 ^ 27)].
Definition vgic_ready : vgic := conf conf_stores.
Lemma vgic_ready_enabled : vgic_irq_enabled vgic_ready 0 27 = Ok true.
Proof. reflexivity. Qed.

Section Demo.
Context (quantum : nat) (lk : link) (Hlk : link_ok lk) (Hq : (13 <= quantum)%nat).
Abbreviation a0 := (lk_entry lk "guest_vgic_entry").
Abbreviation top := (stack_top lk 0).
Context (Hb : a0 mod 4 = 0) (Hlo : 0x40000000 <= a0) (Hhi : a0 + CODE_MAX <= 0x80000000).
Context (Htop : 0x40000020 <= top <= 0x80000000) (Hapart : top <= a0 \/ a0 + CODE_MAX <= top - 32).
#[local] Instance vgic_run_pl : Platform guest := virq_platform quantum (sched_xlate lk).
#[local] Instance vgic_run_ok : PlatformOk guest := virq_platform_ok quantum (sched_xlate lk).
Abbreviation run := (v_run true (sched_xlate lk (vttbr_g lk))).
Lemma vgic_placed : placed vgic_pre "gvgic_vectors" "gvgic_irq" "gvgic_bad" a0 (a0 + 44) top.
Proof.
  split; [|reflexivity|cbn; lia|zlia|lia|exact Hlo|exact Hhi|exact Htop|exact Hapart].
  exact (assembles_any guest_vgic a0 vgic_aligned vgic_assembled Hb).
Qed.
Abbreviation code := (vcode vgic_pre "gvgic_vectors" "gvgic_irq" "gvgic_bad" a0).
Abbreviation core_at := (at_core lk vgic_pre "gvgic_vectors" "gvgic_irq" "gvgic_bad" a0).

(** * The configuration *)
Lemma pre_line m o x : code m -> line_at 0 o vgic_pre = Some x -> line_holds m (label_addr a0 guest_vgic) (a0 + o) x.
Proof.
  intros Hm. refine (loaded_line m _ 4 a0 eq_refl Hb vgic_pre 0 o x eq_refl _). rewrite Z.add_0_r.
  exact (proj1 (vcode_loaded _ _ _ _ _ _ _ vgic_placed m Hm)).
Qed.
(** The guest in its configuration: at offset [o], with the given x0, x2, x3, x4. *)
Definition at_conf (o x0 c2 c3 c4 : Z) : vcore := mk_vcore (a0 + o) 0x3C5 (vregs c2 c3 c4 x0 0) top 0 0 0 [0; 0; 0; 0] 0 0.
Lemma conf_fetch o : 0 <= o <= 44 -> o mod 4 = 0 -> fetches (a0 + o).
Proof. unfold CODE_MAX in *. intros Ho H4. split; [zlia|unfold in_ram; lia]. Qed.
Lemma conf_next o : 0 <= o <= 44 -> u64 (a0 + o) = a0 + o.
Proof. unfold CODE_MAX in *. intros Ho. apply wrap_fits. unfold fits. lia. Qed.
Lemma conf_ins q m o i x0 c2 c3 c4 x0' c2' c3' c4' :
  code m -> line_at 0 o vgic_pre = Some (Ins i) -> i <> Wfi -> 0 <= o <= 40 -> o mod 4 = 0 ->
  a64_exec m_ld m_st (sched_xlate lk (vttbr_g lk)) i (a0 + o) (vregs c2 c3 c4 x0 0) m = Go (u64 (a0 + o + 4)) (vregs c2' c3' c4' x0' 0) m ->
  run (S q) (at_conf o x0 c2 c3 c4) m = run q (at_conf (o + 4) x0' c2' c3' c4') m.
Proof.
  intros Hm Hl Hi Ho H4 He. rewrite (run_ins lk q _ m i (a0 + o + 4) (a0 + (o + 4)) (vregs c2' c3' c4' x0' 0));
    [reflexivity|reflexivity|by apply conf_fetch; [lia|]|exact (pre_line m o (Ins i) Hm Hl)|exact He|exact Hi|].
  rewrite <- Z.add_assoc. apply conf_next. lia.
Qed.
Lemma conf_sys q m o i x0 c2 c3 c4 x0' :
  code m -> line_at 0 o vgic_pre = Some (Sys i) -> sys_ok i = true -> 0 <= o <= 40 -> o mod 4 = 0 ->
  sys_exec true (sched_xlate lk (vttbr_g lk)) i (at_conf o x0 c2 c3 c4) m = VGo (v_next (at_conf o x0' c2 c3 c4)) m ->
  run (S q) (at_conf o x0 c2 c3 c4) m = run q (at_conf (o + 4) x0' c2 c3 c4) m.
Proof.
  intros Hm Hl Hi Ho H4 He. rewrite (run_sys lk q _ m i (at_conf o x0' c2 c3 c4) m (a0 + (o + 4)));
    [reflexivity|reflexivity|by apply conf_fetch; [lia|]|exact (pre_line m o (Sys i) Hm Hl)|exact Hi|exact He|].
  unfold at_conf. core. rewrite <- Z.add_assoc. apply conf_next. lia.
Qed.
(** A store to the emulated device is taken to EL2. *)
Lemma conf_store q m o rt rn off x0 c2 c3 c4 ipa :
  code m -> line_at 0 o vgic_pre = Some (Ins (StrI 2 rt rn off)) -> 0 <= o <= 40 -> o mod 4 = 0 ->
  u64 (gx (vregs c2 c3 c4 x0 0) rn + off) = ipa -> ipa < 0x40000000 ->
  run (S q) (at_conf o x0 c2 c3 c4) m = (8, Some (esr_access 1 2 rt 0 1, Some ipa), at_conf o x0 c2 c3 c4, m).
Proof.
  intros Hm Hl Ho H4 Hi Hr. rewrite (run_leave lk q _ m (StrI 2 rt rn off) (a0 + o) (esr_access 1 2 rt 0 1) (Some ipa) (vregs c2 c3 c4 x0 0));
    [reflexivity|reflexivity|by apply conf_fetch; [lia|]|exact (pre_line m o _ Hm Hl)|discriminate|].
  cbn [a64_exec at_conf k_x k_pc]. unfold access_store. rewrite Hi. unfold sched_xlate. rewrite Z.eqb_refl, init_walk, decide_False by lia. reflexivity.
Qed.

(** The four stretches between the traps. *)
Definition C2 := 0x08000000.
Definition C3 := 0x080A0000.
Definition C4 := 0x080B0000.
Ltac conf_i Hm o i x0 c2 c3 c4 := rewrite (conf_ins _ _ o i _ _ _ _ x0 c2 c3 c4 Hm eq_refl ltac:(discriminate) ltac:(lia) eq_refl) by reflexivity; cbn [Z.add Pos.add Pos.succ Pos.add_carry].
Ltac conf_s Hm o i x0 := rewrite (conf_sys _ _ o i _ _ _ _ x0 Hm eq_refl eq_refl ltac:(lia) eq_refl) by reflexivity; cbn [Z.add Pos.add Pos.succ Pos.add_carry].
Ltac conf_st Hm o rt rn off ipa := apply (conf_store _ _ o rt rn off _ _ _ _ ipa Hm); [reflexivity|lia|reflexivity|reflexivity|reflexivity].
Lemma conf_run_1 q m : (3 <= q)%nat -> code m -> run q (at_conf 0 0 0 0 0) m = (8, Some (esr_access 1 2 0 0 1, Some 0x08000000), at_conf 8 0x12 C2 0 0, m).
Proof.
  intros Hle Hm. destruct q as [|[|[|q]]]; [lia..|]. conf_i Hm 0 (MovZ true 2 0x0800 1) 0 C2 0 0. conf_i Hm 4 (MovZ false 0 0x12 0) 0x12 C2 0 0.
  conf_st Hm 8 0 2 0 0x08000000.
Qed.
Lemma conf_run_2 q m : (3 <= q)%nat -> code m -> run q (at_conf 12 0x12 C2 0 0) m = (8, Some (esr_access 1 2 31 0 1, Some 0x080A0014), at_conf 16 0x12 C2 C3 0, m).
Proof.
  intros Hle Hm. destruct q as [|[|[|q]]]; [lia..|]. conf_i Hm 12 (MovZ true 3 0x080A 1) 0x12 C2 C3 0. conf_st Hm 16 31 3 0x14 0x080A0014.
Qed.
Lemma conf_run_3 q m : (3 <= q)%nat -> code m -> run q (at_conf 20 0x12 C2 C3 0) m = (8, Some (esr_access 1 2 0 0 1, Some 0x080B0080), at_conf 28 0xFFFFFFFF C2 C3 C4, m).
Proof.
  intros Hle Hm. destruct q as [|[|[|q]]]; [lia..|]. conf_i Hm 20 (MovZ true 4 0x080B 1) 0x12 C2 C3 C4. conf_s Hm 24 (MovnW 0 0) 0xFFFFFFFF.
  conf_st Hm 28 0 4 0x80 0x080B0080.
Qed.
Lemma conf_run_4 q m : (3 <= q)%nat -> code m -> run q (at_conf 32 0xFFFFFFFF C2 C3 C4) m = (8, Some (esr_access 1 2 0 0 1, Some 0x080B0100), at_conf 40 (2 ^ 27) C2 C3 C4, m).
Proof.
  intros Hle Hm. destruct q as [|[|[|q]]]; [lia..|]. conf_i Hm 32 (MovZ false 0 1 0) 1 C2 C3 C4. conf_s Hm 36 (LslW 0 0 27) (2 ^ 27).
  conf_st Hm 40 0 4 0x100 0x080B0100.
Qed.

(** A trapped store is emulated and skipped. *)
Lemma store_sas srt : 0 <= srt < 32 -> iss_sas (ESR_ISS (u64 (esr_access 1 2 srt 0 1))) = 2.
Proof.
  intros Hs. apply Z.eqb_eq. apply (small_check (fun s => iss_sas (ESR_ISS (u64 (esr_access 1 2 s 0 1))) =? 2) 32 srt); [vm_compute; reflexivity|exact Hs].
Qed.
Lemma conf64 o x0 c2 c3 c4 : 0 <= o <= 44 -> core64 (at_conf o x0 c2 c3 c4) = at_conf o x0 c2 c3 c4.
Proof.
  intros Ho. unfold core64, at_conf. core. cbv zeta. cbn [lookup list_lookup]. change (default 0 (Some ?x)) with x.
  rewrite (conf_next o Ho), (wrap_fits 64 top) by (unfold fits; lia). reflexivity.
Qed.
Lemma conf_turn n t g g' k o x0 c2 c3 c4 rt ipa h :
  t < n -> core_at (fun v => v = g) k h ->
  run quantum k (h_mem h) = (8, Some (esr_access 1 2 rt 0 1, Some ipa), at_conf o x0 c2 c3 c4, h_mem h) ->
  0 <= o <= 40 -> 0 <= rt < 32 -> vgic_contains ipa = true -> reg_write 0 ipa (u32 (gx (vregs c2 c3 c4 x0 0) rt)) g = Ok g' ->
  exists h', vgic_body lk n t h = Ok ((true, t), h') /\ core_at (fun v => v = g') (at_conf (o + 4) x0 c2 c3 c4) h' /\
    (h_w h', h_s2 h') = (h_w h, h_s2 h).
Proof.
  intros Ht Hk Er Ho Hrt Hc Hw.
  destruct (core_run quantum lk Hq _ _ _ _ _ _ k h _ _ _ _ Hk Er (conf64 o x0 c2 c3 c4 ltac:(lia)) (ac_code _ _ _ _ _ _ _ _ _ Hk))
    as (h1 & v' & E1 & [W1 C1 V1 P1 (v1 & A1 & K1 & T1 & S1)] & G1 & K & R & X & I & M1 & Hrest).
  injection Hrest as Pw Ps Pg. assert (v1 = v') as -> by (revert G1; unfold get_vcpu, try_; rewrite A1; by intros [= ->]).
  pose proof (wh_vcpus h1 W1) as [Hl HF]. pose proof (Forall_aget _ _ _ _ HF A1) as Wv.
  assert (fits 48 ipa) as Hf by (unfold vgic_contains, VGIC_GICD_BASE, VGIC_GICD_SIZE, VGIC_GICR_BASE, VGIC_GICR_SIZE, VGIC_MAX_VCPUS, VGIC_GICR_STRIDE in Hc; unfold fits; lia).
  destruct (store_syndrome rt Hrt) as (Y1 & Y2 & Y3 & Y4). rewrite <- (X _ _ eq_refl) in Y1, Y2, Y3, Y4.
  pose proof (store_sas rt Hrt) as Y5. rewrite <- (X _ _ eq_refl) in Y5.
  assert (vgic_mmio 0 v' ipa (h_vgic h1) = Ok (g', pc_advance v')) as Em.
  { unfold vgic_mmio. rewrite Y2, Y3, Y4, Y5. cbn [Z.eqb negb]. rewrite (read_rt_gx v' rt Wv Hrt). cbn [mbind res_bind].
    assert (xregs v' = vregs c2 c3 c4 x0 0) as -> by (apply (f_equal k_x) in K; exact K). rewrite P1, Hw. reflexivity. }
  set (h2 := put_vcpus (put_vgic h1 g') (<[0%nat := pc_advance v']> (h_vcpus h1))).
  assert (do_vgic_mmio 0 0 ipa h1 = Ok (tt, h2)) as Ed.
  { unfold do_vgic_mmio. rewrite (st_bind_Ok _ _ _ _ _ G1). unfold zoom, mbind, st_bind. rewrite Em. cbn [mbind res_bind]. unfold set_vcpu, update.
    cbn [h_vcpus put_vgic]. by rewrite aset_ok by lia. }
  assert (vgic_body lk n t h = Ok ((true, t), h2)) as Eb.
  { unfold vgic_body. destruct (Z.leb_spec n t); [lia|]. rewrite (st_bind_Ok _ _ _ _ _ E1), (st_bind_Ok _ _ _ _ _ G1).
    assert (is_irq v' = false) as -> by (unfold is_irq; by rewrite R). assert (exit_ec v' = EC_DABT_LOW) as -> by exact Y1. cbv zeta.
    change (EC_DABT_LOW =? EC_HVC64) with false. change (is_abort EC_DABT_LOW) with true. cbv iota.
    rewrite (I _ _ eq_refl Hf), Hc. by rewrite (st_bind_Ok _ _ _ _ _ Ed). }
  destruct (vgic_body_ok lk n t h (ac_wf _ _ _ _ _ _ _ _ _ Hk)) as (r & hf & Ef & Wf & _). rewrite Eb in Ef. injection Ef as _ <-.
  exists h2. split; [exact Eb|]. split; [|by rewrite <- Pw, <- Ps]. split; [exact Wf|exact C1|exact V1|reflexivity|].
  exists (pc_advance v'). split; [unfold h2; cbn [h_vcpus put_vcpus]; apply aget_insert_eq; lia|]. split; [|by split].
  unfold core_of_vcpu, at_conf in *. cbn. injection K1 as -> -> -> -> -> -> -> -> -> ->. f_equal. rewrite <- Z.add_assoc. apply conf_next. lia.
Qed.

(** * The loop *)
Abbreviation idle_at := (idle quantum lk vgic_pre "gvgic_vectors" "gvgic_irq" "gvgic_bad" a0 (a0 + 44) top C2 C3 C4 (fun v => v = vgic_ready)).
(** Four turns configure the distributor; then the guest waits. *)
Lemma conf_turns fuel n h :
  0 < n -> core_at (fun v => v = vgic_boot) (at_conf 0 0 0 0 0) h ->
  exists h', loop (4 + fuel) (vgic_body lk n) 0 h = loop fuel (vgic_body lk n) 0 h' /\ idle_at 0 h' /\ (h_w h', h_s2 h') = (h_w h, h_s2 h).
Proof.
  intros Hn K0.
  destruct (conf_turn n 0 _ (conf (take 1 conf_stores)) _ 8 0x12 C2 0 0 0 0x08000000 h Hn K0
    (conf_run_1 quantum _ ltac:(lia) (ac_code _ _ _ _ _ _ _ _ _ K0)) ltac:(lia) ltac:(lia) eq_refl eq_refl) as (h1 & E1 & K1 & P1).
  destruct (conf_turn n 0 _ (conf (take 2 conf_stores)) _ 16 0x12 C2 C3 0 31 0x080A0014 h1 Hn K1
    (conf_run_2 quantum _ ltac:(lia) (ac_code _ _ _ _ _ _ _ _ _ K1)) ltac:(lia) ltac:(lia) eq_refl eq_refl) as (h2 & E2 & K2 & P2).
  destruct (conf_turn n 0 _ (conf (take 3 conf_stores)) _ 28 0xFFFFFFFF C2 C3 C4 0 0x080B0080 h2 Hn K2
    (conf_run_3 quantum _ ltac:(lia) (ac_code _ _ _ _ _ _ _ _ _ K2)) ltac:(lia) ltac:(lia) eq_refl eq_refl) as (h3 & E3 & K3 & P3).
  destruct (conf_turn n 0 _ vgic_ready _ 40 (2 ^ 27) C2 C3 C4 0 0x080B0100 h3 Hn K3
    (conf_run_4 quantum _ ltac:(lia) (ac_code _ _ _ _ _ _ _ _ _ K3)) ltac:(lia) ltac:(lia) eq_refl eq_refl) as (h4 & E4 & K4 & P4).
  exists h4. split; [cbn [Nat.add]; by rewrite (loop_go (vgic_body lk n) _ _ _ _ _ E1), (loop_go (vgic_body lk n) _ _ _ _ _ E2), (loop_go (vgic_body lk n) _ _ _ _ _ E3), (loop_go (vgic_body lk n) _ _ _ _ _ E4)|].
  split; [|by rewrite P4, P3, P2, P1]. exists (at_entry (a0 + 44) top C2 C3 C4 (2 ^ 27)), 0, 0, 0.
  split; [exact K4|split; [by left|split; [fits_const|split; [fits_const|]]]].
  eapply run_entry; [exact vgic_placed|exact (ac_code _ _ _ _ _ _ _ _ _ K4)|exact Hq].
Qed.
Definition serviced_fmt : list Z := ln "[M13] guest serviced vGIC IRQ #%u (acked vINTID via ICV)".
Definition serviced_text (k : Z) : list Z := said serviced_fmt [AI k].
Definition inject_enabled : st (hv guest) unit := e ← irq_enabled 0 27; if e : bool then inject 0 27 else mret tt.
Lemma vgic_ticks n : n < 2 ^ 31 -> TickLoop quantum lk (fun v => v = vgic_ready) n (vgic_body lk n) inject_enabled serviced_text.
Proof.
  intros Hn. split.
  - intros t h Ht. unfold vgic_body. by destruct (Z.leb_spec n t); [|lia].
  - intros t h h1 v h2 Ht E1 G1 Hv E2. unfold vgic_body. destruct (Z.leb_spec n t); [lia|].
    rewrite (st_bind_Ok _ _ _ _ _ E1), (st_bind_Ok _ _ _ _ _ G1), Hv. unfold serve, inject_enabled in E2. apply st_bind_inv in E2 as (iar & h3 & Ea & Er).
    rewrite (st_bind_Ok _ _ _ _ _ Ea). cbv zeta in *. apply st_bind_inv in Er as ([] & h4 & Eb & Ec).
    rewrite (st_bind_Ok _ _ _ _ _ Eb), (st_bind_Ok _ _ _ _ _ Ec). reflexivity.
  - intros t h h1 v Ht E1 G1 Hv Hec _.
    destruct (printf_told quantum lk serviced_fmt [AI (t + 1)] h1) as (h2 & E2 & T2);
      [constructor; [apply (fits_mono 32); [lia|apply fits_wrap; lia]|constructor]|eexists; reflexivity|].
    exists h2. split; [|exact T2].
    unfold vgic_body. destruct (Z.leb_spec n t); [lia|]. rewrite (st_bind_Ok _ _ _ _ _ E1), (st_bind_Ok _ _ _ _ _ G1), Hv. cbv zeta. rewrite Hec.
    change (EC_HVC64 =? EC_HVC64) with true. cbv iota. fold serviced_fmt. rewrite (st_bind_Ok _ _ _ _ _ E2). reflexivity.
  - intros h v lr Hg Hv Hl El Hlr. unfold inject_enabled. assert (irq_enabled 0 27 h = Ok (true, h)) as E by (unfold irq_enabled, try_; by rewrite Hg).
    rewrite (st_bind_Ok _ _ _ _ _ E). by apply (inject_injected h v lr).
  - intros t h Hh. destruct (vgic_body_ok lk n t h Hh) as (r & h' & E & W & _). by exists r, h'.
Qed.

(** * The whole of vgic_demo *)
Definition vgic_setup : st (hv guest) unit :=
  do_stage2_init lk;; do_vgic_reset;; wr_sys "hcr_el2" HCR_RW_VM_DC_IMO;; wr_sys "ich_hcr_el2" 1;; init_at lk 0 "guest_vgic_entry";; timer_start 100;;
  println "[M13] software vGIC: guest configures emulated GICD/GICR,";;
  println "      hypervisor injects a virtual timer only when enabled.".
Definition intro_1 : list Z := line (bytes "[M13] software vGIC: guest configures emulated GICD/GICR,") ++ [CR; LF].
Definition intro_2 : list Z := line (bytes "      hypervisor injects a virtual timer only when enabled.") ++ [CR; LF].
Lemma vgic_setup_total : total (fun _ => True) vgic_setup.
Proof. unfold vgic_setup. hv_setup. Qed.
Lemma vgic_configurable h : wf_hv h -> image_at a0 (vgic_image a0) (h_mem h) ->
  exists h', vgic_setup h = Ok (tt, h') /\ core_at (fun v => v = vgic_boot) (at_conf 0 0 0 0 0) h' /\ h_iars h' = h_iars h /\ h_eois h' = h_eois h /\
    h_console h' = h_console h ++ stage2_text lk ++ map u8 intro_1 ++ map u8 intro_2 /\ s2_l1 (h_s2 h') = init_table /\ vtcr_el2 (h_s2 h') = VTCR_EL2_VALUE.
Proof.
  intros Hh Hm. destruct (wh_vcpus h Hh) as [Hl _]. destruct (wh_s2 h Hh) as (Hs & _). pose proof (wh_vgic h Hh) as Hvg.
  destruct (vgic_setup_total h Hh) as ([] & h8 & E & W & _). exists h8. split; [exact E|]. unfold vgic_setup in E.
  set (h1 := put_s2 h (mk_stage2 init_table (s2_vm (h_s2 h)) VTCR_EL2_VALUE)).
  destruct (printf_told quantum lk (bytes "[M3] stage-2 ON: vtcr=%x vttbr=%x (mapped 1GiB @0x40000000)" ++ [LF]) [AInt VTCR_EL2_VALUE; AInt (u64 (lk_s2_l1 lk))] h1)
    as (h2 & E2 & w2 & H2 & C2' & I2 & O2); [constructor; [fits_const|constructor; [apply fits_wrap; lia|constructor]]|eexists; reflexivity|].
  assert (do_stage2_init lk h = Ok (tt, h2)) as Es.
  { unfold do_stage2_init, zoom at 1, update, mbind at 1, st_bind at 1. rewrite stage2_init_table by done. cbn [mbind res_bind]. exact E2. }
  rewrite (st_bind_Ok _ _ _ _ _ Es) in E.
  assert (h_mem h2 = h_mem h /\ h_s2 h2 = h_s2 h1 /\ h_vgic h2 = h_vgic h /\ h_vcpus h2 = h_vcpus h) as (F1 & F2 & F3 & F4) by (rewrite H2; by split_and!).
  clear H2. assert (code (h_mem h2)) as Hm2 by (unfold vcode; rewrite F1; exact Hm).
  assert (do_vgic_reset h2 = Ok (tt, put_vgic h2 vgic_boot)) as Ev.
  { unfold do_vgic_reset, zoom, update. rewrite F3, (vgic_reset_eq _ Hvg). reflexivity. }
  rewrite (st_bind_Ok _ _ _ _ _ Ev) in E. unfold wr_sys, modify, mbind at 1, st_bind at 1, mbind at 1, st_bind at 1 in E.
  set (h4 := put_cpu _ _) in E. set (h5 := put_vcpus h4 (<[0%nat := vcpu_init a0 top (vttbr_g lk) 0]> (h_vcpus h4))).
  assert (h_vcpus h4 = h_vcpus h) as Hv4 by exact F4.
  assert (init_at lk 0 "guest_vgic_entry" h4 = Ok (tt, h5)) as Ei
    by (unfold init_at, init_vcpu, set_vcpu, update; by rewrite aset_ok by (rewrite Hv4; lia)).
  rewrite (st_bind_Ok _ _ _ _ _ Ei) in E. destruct (timer_started quantum lk 100 h5) as (tm & c & w & E6 & V6 & P6). rewrite (st_bind_Ok _ _ _ _ _ E6) in E.
  set (h6 := put_w _ _) in E. rewrite (st_bind_Ok _ _ _ _ _ (println_typed (virq_guest quantum (sched_xlate lk)) _ h6)) in E. fold intro_1 in E.
  destruct (typed_told intro_1 h6) as (w7 & _ & C7 & I7 & O7). set (h7 := put_w h6 (set_dev (h_w h6) (typed intro_1 (g_dev (h_w h6))))) in *.
  rewrite (println_typed (virq_guest quantum (sched_xlate lk)) _ h7) in E. apply ok_state in E. fold intro_2 in E.
  destruct (typed_told intro_2 h7) as (w8 & _ & C8 & I8 & O8). rewrite E in C8, I8, O8. injection P6 as C6 I6 O6.
  assert (h_console h5 = h_console h2 /\ h_iars h5 = h_iars h2 /\ h_eois h5 = h_eois h2) as (D1 & D2 & D3) by exact (conj eq_refl (conj eq_refl eq_refl)).
  split; [|split; [rewrite I8, I7; exact (eq_trans I6 (eq_trans D2 I2))|split; [rewrite O8, O7; exact (eq_trans O6 (eq_trans D3 O2))|split]]].
  - split; [exact W|rewrite <- E; exact Hm2| |rewrite <- E; reflexivity|].
    + rewrite <- E. change (virt_of c = true). rewrite V6. unfold h5, h4, virt_of. cbn [h_cpu put_vcpus put_cpu]. by repeat sysreg.
    + exists (vcpu_init a0 top (vttbr_g lk) 0). split; [rewrite <- E; change (aget (<[0%nat := vcpu_init a0 top (vttbr_g lk) 0]> (h_vcpus h4)) 0 = Ok (vcpu_init a0 top (vttbr_g lk) 0)); rewrite Hv4; apply aget_insert_eq; lia|].
      split; [rewrite core_init; unfold at_conf; by rewrite Z.add_0_r|]. by split.
  - rewrite C8, C7. change (h_console h6) with (console w). rewrite C6, D1, C2'. change (h_console h1) with (h_console h). by rewrite <- !app_assoc.
  - rewrite <- E. change (s2_l1 (h_s2 h2) = init_table /\ vtcr_el2 (h_s2 h2) = VTCR_EL2_VALUE). rewrite F2. by split.
Qed.

Definition delivered_fmt : list Z := ln "[M13] vGIC delivered %u interrupts through the emulated distributor.".
Definition vgic_text (n : Z) : list Z :=
  stage2_text lk ++ map u8 intro_1 ++ map u8 intro_2 ++ concat (map serviced_text (seqZ 1 n)) ++ said delivered_fmt [AI n].
End Demo.

(** A link with the guest and its stack in RAM, and a machine that will see two timer
    interrupts, one of another device and a spurious one. *)
Definition vgic_link : link := mk_link 0x70100000 0x70200000 0x70300000 0x70301000 (fun _ => 0x40081040) (fun _ => []).
Definition vgic_start : hv guest :=
  let h := hv_boot (mk_guest Park 0 0 [] (mk_script [] [33; 26; 1023; 26; 26] [] [] 0)) in
  put_mem h (write_bytes (h_mem h) 0x40081040 (vgic_image 0x40081040)).
